(* ===== verification/_CoqProject ===== *)
-Q . S2P
Prelude.v
BitMask.v
BitfieldUnit.v
Bitfields.v
MoreBitfields.v
Layout.v
Threads.v
RustStr.v
BuildScript.v
IpAddr.v
MacAddr.v
Cidr.v
Ipv4Cidr.v
Ipv6Text.v
Ipv6Cidr.v
CidrFamilies.v
UnitTests.v
Ipv4Tests.v
Ipv6Tests.v
Macros.v
Ffi.v
Constants.v
Enums.v
Dpdk.v
DpdkSim.v
DpdkCore.v
Mbuf.v
Mempool.v
Memzone.v
ConcurrentMap.v
Ring.v
Channel.v
EngineRingMap.v
Port.v
Shim.v
Headers.v
Bindings.v
PortBindings.v
FlowBindings.v
FilterBindings.v
DeviceBindings.v
LayoutTests.v
EthConf.v
Flags.v
Defaults.v
RoutingTable.v
TableThreads.v
Zmq.v
ClientComm.v
ClientIds.v
ArrayQueue.v
Deque.v
CoreMap.v
Stealing.v
Metrics.v
Ownership.v
Engine.v
Registration.v
Handshake.v
Link.v
Dataplane.v
WorkHorse.v
Config.v
Deserialize.v
