(* ===== verification/Prelude.v ===== *)
(** * The l2switch engine

    A verification of the packet engine of [src/sw-engine/engine/src] ([E/] below), with what
    it uses of the DPDK bindings of [src/sw-engine/ffi/src] ([F/]).

    ** The program

    The engine moves Ethernet frames between network ports and containers. It drives DPDK, a C
    library, through generated bindings: memory pools hold message buffers ([Mbuf]), ports
    receive and send bursts of them, rings hand them to other processes. Containers register
    with the engine over a ZeroMQ socket; each registered client has a channel of two rings.
    The receiving loop puts bursts of packets in a bounded queue, the processing loop takes
    them out, reads their headers, records addresses in two tables and hands them on. Around
    this are a library of CIDR blocks and MAC addresses, and the configuration, which also
    makes the arguments of DPDK's start-up.

    ** How it is modelled

    A function of the program is a Rocq function with its name. One that computes on values
    returns an [outcome]: a value, a panic, undefined behaviour, a wait for ever, or, for a
    loop on fuel, its end. One that changes something is a computation of the monad [M S] over
    the state [S] it works on: the bytes of a buffer, the process, the table, the engine; [zoom]
    runs a computation on a part of a larger state. A Rust [Result] is a [result], and [x ←? m]
    is the operator [?]. What Rust does silently at the end of a scope is written out: an early
    return drops the rings and buffers made so far. Integers are [Z] with their width at each
    operation; [Profile] says whether overflow panics (debug) or wraps (release), and theorems
    hold for both unless they name one. [usize] has 64 bits and memory is little-endian.

    Code outside the repository is a class of operations, with a class of laws where a theorem
    needs its documented behaviour, and an instance that computes, on which the witnesses and
    examples run: [Dpdk] with [DpdkSim] for the C library, [ConcurrentMap] for CHashMap and
    DashMap, [ShardedLock] and [SharedLock], [ArrayQueue] and [Receiver], [Deques], [Zmq], [Json], the regular
    expression of [Config], [Sources] for the file the configuration is in, the metrics library,
    and the build's tools. The Rust standard library is modelled: text and parsing of
    integers and of IP addresses, [Vec], [HashMap], iterators, C strings.

    ** The files

    - [Prelude]: outcomes, monads, machine integers, iterators, the tactics.
    - [BitMask]: counting bits and prefix masks. [RustStr]: strings and their formatting.
    - [Threads]: threads that take turns on a shared state, their schedules and when they end.
    - [BitfieldUnit], [Bitfields], [MoreBitfields]: the bit fields of the bindings
      ([F/bindings_rustdoc.rs]) and their accessors. [Layout]: where C puts the fields of a
      structure. [Bindings]: the structures the engine exchanges with DPDK, and their generated
      layout tests; [PortBindings]: those of buffers, pools, headers and ports; [FlowBindings],
      [FilterBindings], [DeviceBindings]: those of flow rules, filters, devices and the C library;
      [LayoutTests]: what holds of all of them. [EthConf]: the configuration of a port as the bytes
      of its structure. [Constants], [Enums]: the constants and the enumerations; [Flags]: how they
      fit the bit fields, the structures and each other; [Defaults]: the [Default] instances, and
      what the configuration of a port leaves at them. [BuildScript]: [ffi/build.rs].
    - [IpAddr], [Ipv6Text]: IP addresses and their texts. [MacAddr]: [E/net/mac.rs].
    - [Cidr], [Ipv4Cidr], [Ipv6Cidr], [CidrFamilies]: [E/net/cidr/]; the trait is a class, its
      contract a class of laws, and both families are instances of both.
      [UnitTests], [Ipv4Tests], [Ipv6Tests]: the unit tests of these files as definitions.
    - [Macros]: [E/macros.rs]. [Ffi]: [E/ffi.rs] and the error types. [Dpdk], [DpdkSim]: the C library. [DpdkCore]:
      [E/dpdk/mod.rs].
    - [Mbuf]: [E/dpdk/mbuf.rs]. [Mempool]: [E/dpdk/mempool.rs]. [Memzone]: [E/dpdk/memzone.rs].
      [Ring], [Channel], [EngineRingMap]: [E/dpdk/memring.rs]. [Port]: [E/dpdk/port.rs].
    - [Headers]: [E/net/ether.rs], [E/net/ipv4.rs], [E/net/mod.rs] and the functions of [F/shim.c]
      that find the headers. [Shim]: the other functions of [F/shim.c]. [RoutingTable], [TableThreads]: [E/net/routing_table.rs], for one
      thread and for many.
    - [Zmq], [ClientComm], [ClientIds]: [E/dockerlib/client_comm.rs], and its counter of client
      numbers between threads.
    - [ArrayQueue], [Engine]: [E/runtime/engine.rs] and the globals of [E/lib.rs]. [Ownership],
      [Registration], [Handshake], [Dataplane]: what the engine does. [WorkHorse]: the tasks of
      [Engine::work_horse] as a step relation. [Link]: the engine and a client, two processes
      that share DPDK, at the two ends of a channel.
    - [Deque], [CoreMap], [Stealing]: [E/runtime/coremap_old.rs], a thread alone and many threads
      interleaved. [Config], [Deserialize]: [E/config.rs], the settings and how a file becomes
      them. [Metrics]: [E/metrics.rs].

    ** What is shown

    - Registration ([messages_keep_rings], [set_client_status_registers]): the engine refines
      a table of client states and channels, and which messages it answers [Ok] is said exactly;
      whatever messages come and whatever calls fail, the live rings are exactly those of the
      registered channels, none shared.
    - Buffers ([operations_safe], [extend_spec], [shrink_spec], [from_bytes_spec],
      [write_data_read]): a well-formed buffer is headroom, data and tailroom; every operation
      keeps it so and touches no byte outside, what it hands out lies in the data, and each is a list
      operation on the data.
    - Ports ([transmit_disposes], [finish_queues], [hashed_flows], [left_at_default],
      [stop_and_close_ports_spec]): every packet of a burst is sent or freed,
      once, up to the number the code can count, and freed only when the device takes no more; each
      core gets a pair of queues of its own; which flows the device is asked to hash, and what else it is asked to do; the C function that
      closes the ports stops and closes each attached one once.
    - Rings and the two ends of a channel ([enqueue_spec], [registered_ends_never_talk],
      [client_drop_frees_engine_rings]): in every interleaving of engine and client, what becomes
      of a packet that is sent, and of the rings when one end goes, which are then freed twice.
    - Stealing ([schedules_conserve], [find_packets_linear], [task_alone]): a task is typed as
      using each packet once; every schedule of many tasks ends, and loses and doubles nothing.
    - The routing table ([add_ruins_table], [lookups_share], [task_is_method]): a method that runs
      alone is the function of [RoutingTable]; any number of look-ups share the table and end with
      what it holds; but one [add] among them, and the table is never written and is lost to all.
    - Client numbers ([client_ids_threads]): what any number of threads get from the counter, in
      every schedule, also when it runs out.
    - CIDR ([v4_new_range], [v4_iter_enumerates], [v4_from_str_printed], [v6_from_str_printed],
      [v6_wide_range_overflows], [cidr_nested_or_disjoint]): a block is a range of addresses,
      iterated in order and printed so that it reads back.
    - Headers ([five_tuple_fields], [not_ipv4_undefined]).
    - The bindings ([layout_tests_pass], [bitfield_set_get], [headers_follow_layout],
      [conf_in_memory], [packet_type_masks]): the layouts are those of the C compiler, a
      bit field is the bits it names and writing it changes no other, the bytes of the headers are
      where [Headers] reads them, the bytes of a port's configuration hold what [Port] says, and bit fields read what the
      masks of the word in the same place select.
    - The protocol ([engine_refuses_clients], [send_outcome]) and the
      packet loops ([rx_main_inverted], [process_packets_returns], [work_horse_schedules]): when
      they end, and what every schedule of a thread's tasks can do.
    - The configuration ([config_read_back], [settings_checked]): what a file of settings loads as,
      and which are refused. Freeing in bulk ([mbuf_free_bulk_batches]) and MAC texts
      ([mac_from_str_to_string]).

    Each file has more theorems on its component, among them [main_links], [metrics_registered],
    [find_packets_conserves], [finish_only_master], [all_cores_spec], [lookups_spec],
    [add_never_returns], [client_ids_distinct], [structs_are_records], [read_slice_wraps],
    [transport_hdr_fixed], [new_units_read_back],
    [tx_offload_parts], [enumerations_ok], [v4_netmask_length_iff] and [v6_random_tests]: the randomised tests of the program hold for all input.

    Several of these state that the code does something else than it means to; the theorem
    then says exactly what it does.

    ** Loops and fuel

    Loops over lists are structural. [Port.transmit] runs on fuel: [transmit_disposes] shows
    that fuel one above the number of packets always gives a result. [collect] runs an iterator: the
    theorems ask for fuel of the size of the range plus two and give the whole list.
    [Engine.process_packets] runs on fuel above the number of bursts queued, and
    [Shim.stop_and_close_ports] needs 33, one more than a process can have ports. The loop of
    [Engine.rx_main] need not end: [rx_main_inverted] says when no fuel suffices. The tasks of
    [Stealing], [TableThreads] and [ClientIds] run on none: [schedules_conserve],
    [add_ruins_table], [lookups_share] and [client_ids_threads] show that every schedule ends.

    ** Limits

    The models of whole components run one thread at a time: there the classes for locks and
    concurrent maps say what one thread sees, and a lock that a thread waits for while it holds it
    is [Blocked]. Threads interleave in [Stealing], [TableThreads] and [ClientIds], two processes in
    [Link], the tasks of one thread in [WorkHorse]; a call of a library happens at once. A reader
    gets a lock of [TableThreads] whenever no writer has it; one that made readers wait for waiting
    writers would have fewer schedules. The sleep of [check_n_set_client_status] takes no time,
    but in [WorkHorse] the other tasks may run in it. [Macros] has the logging macros; the other
    models leave logging out, except that dropping a pool or a buffer reads what its log line
    prints. Formatting with [Debug] covers ASCII text. The names
    a client looks rings up by have no terminator, so what is in memory behind them is a parameter
    of [ClientComm.setup_channel]; [registered_ends_never_talk] says what comes of each case.

    ** Not modelled

    The text of a TOML file and the command line, which are parameters; of the bindings the
    instances that the compiler derives, among them [Debug], the accessors of incomplete arrays,
    which only cast pointers, and the declarations of C functions, which have no bodies; module
    declarations, imports and comments. *)

From Stdlib Require Export ZArith Lia Ascii String.
From stdpp Require Export base tactics numbers list gmap.

#[global] Open Scope Z_scope.
#[global] Set Default Goal Selector "!".

(** ** How a computation ends

    A Rust function called by the engine returns, panics, is undefined behaviour (an
    access outside its memory, a null pointer dereferenced), waits for ever for a lock,
    or, where the model runs a loop on fuel, is cut short. *)

Inductive panic :=
  | ArithmeticOverflow
  | AssertionFailed
  | UnwrapFailed
  | IndexOutOfBounds
  | NotImplemented
  | LockReentered.

Inductive outcome (A : Type) :=
  | Ret (a : A)
  | Panic (k : panic)
  | Undefined
  | Blocked
  | OutOfFuel.
Arguments Ret {A} a.
Arguments Panic {A} k.
Arguments Undefined {A}.
Arguments Blocked {A}.
Arguments OutOfFuel {A}.

(** Rust's [Result]. *)
Inductive result (A E : Type) :=
  | Ok (a : A)
  | Err (e : E).
Arguments Ok {A E} a.
Arguments Err {A E} e.

Definition is_ok {A E} (r : result A E) : bool :=
  match r with Ok _ => true | Err _ => false end.

(** [Result::ok] *)
Definition result_ok {A E} (r : result A E) : option A :=
  match r with Ok a => Some a | Err _ => None end.

(** [Result::map_err] *)
Definition map_err {A E F} (f : E -> F) (r : result A E) : result A F :=
  match r with Ok a => Ok a | Err e => Err (f e) end.

(** [Option::ok_or_else] *)
Definition ok_or {A E} (o : option A) (e : E) : result A E :=
  match o with Some a => Ok a | None => Err e end.

#[global] Instance outcome_ret : MRet outcome := @Ret.
#[global] Instance outcome_bind : MBind outcome := fun A B f m =>
  match m with
  | Ret a => f a
  | Panic k => Panic k
  | Undefined => Undefined
  | Blocked => Blocked
  | OutOfFuel => OutOfFuel
  end.

(** ** Stateful computations

    [M S A] threads a state of type [S]; a computation that does not return leaves no
    state. [x ←? m; k] is Rust's [?]: it stops with the error of [m]. *)

Definition M (S A : Type) : Type := S -> outcome (A * S).

#[global] Instance M_ret S : MRet (M S) := fun A a s => Ret (a, s).
#[global] Instance M_bind S : MBind (M S) := fun A B f m s =>
  match m s with
  | Ret (a, s') => f a s'
  | Panic k => Panic k
  | Undefined => Undefined
  | Blocked => Blocked
  | OutOfFuel => OutOfFuel
  end.

Definition lift {S A} (o : outcome A) : M S A := fun s => a ← o; Ret (a, s).
Definition get {S} : M S S := fun s => Ret (s, s).
Definition gets {S A} (f : S -> A) : M S A := fun s => Ret (f s, s).
Definition modify {S} (f : S -> S) : M S unit := fun s => Ret (tt, f s).

(** A computation on a part of the state *)
Definition zoom {S T A} (part : S -> T) (put : T -> S -> S) (f : M T A) : M S A := fun s =>
  match f (part s) with
  | Ret (a, t) => Ret (a, put t s)
  | Panic k => Panic k
  | Undefined => Undefined
  | Blocked => Blocked
  | OutOfFuel => OutOfFuel
  end.

Lemma zoom_run {S T A} (part : S -> T) put (f : M T A) s a t :
  f (part s) = Ret (a, t) -> zoom part put f s = Ret (a, put t s).
Proof. intros E. unfold zoom. by rewrite E. Qed.

Lemma zoom_inv {S T A} (part : S -> T) put (f : M T A) s a s' :
  zoom part put f s = Ret (a, s') -> exists t, f (part s) = Ret (a, t) /\ s' = put t s.
Proof.
  unfold zoom. destruct (f (part s)) as [[a' t]| | | |]; try done. intros [= <- <-]. by exists t.
Qed.

(** Stepping through a computation: one operation that returns, and reassociation. *)
Lemma bind_ret {S A B} (m : M S A) (k : A -> M S B) s a s' :
  m s = Ret (a, s') -> (m ≫= k) s = k a s'.
Proof. intros E. unfold mbind, M_bind. by rewrite E. Qed.

Lemma bind_assoc {S A B C} (m : M S A) (f : A -> M S B) (g : B -> M S C) s :
  ((m ≫= f) ≫= g) s = (m ≫= (fun x => f x ≫= g)) s.
Proof. unfold mbind, M_bind. by destruct (m s) as [[]| | | |]. Qed.

Class TryBind (F : Type -> Type) := try_bind :
  forall {A B E : Type}, F (result A E) -> (A -> F (result B E)) -> F (result B E).

#[global] Instance monad_try_bind F `{MRet F, MBind F} : TryBind F := fun A B E m k =>
  r ← m; match r with Ok a => k a | Err e => mret (Err e) end.

Lemma bind_inv {S A B} (m : M S A) (k : A -> M S B) s b s2 :
  (m ≫= k) s = Ret (b, s2) -> exists a s1, m s = Ret (a, s1) /\ k a s1 = Ret (b, s2).
Proof.
  unfold mbind, M_bind. intros E. destruct (m s) as [[a s1]| | | |]; try done. by exists a, s1.
Qed.

Lemma try_inv {S A B E} (m : M S (result A E)) (k : A -> M S (result B E)) s b s2 :
  try_bind m k s = Ret (Ok b, s2) ->
  exists a s1, m s = Ret (Ok a, s1) /\ k a s1 = Ret (Ok b, s2).
Proof.
  unfold try_bind, monad_try_bind. intros (r & s1 & Em & Ek)%bind_inv.
  destruct r as [a|e]; [by exists a, s1|done].
Qed.

Create HintDb engine.

(** A computation keeps a part [f] of the state: the part is the same when it returns. *)
Definition keeps {S X A} (f : S -> X) (m : M S A) : Prop :=
  forall s a s', m s = Ret (a, s') -> f s' = f s.

Section keeps.
Context {S X : Type} {f : S -> X}.

Lemma keeps_ret {A} (a : A) : keeps f (mret (M := M S) a).
Proof. by intros s a' s' [= _ <-]. Qed.

Lemma keeps_get : keeps f get.
Proof. by intros s a s' [= _ <-]. Qed.

Lemma keeps_gets {A} (g : S -> A) : keeps f (gets g).
Proof. by intros s a s' [= _ <-]. Qed.

Lemma keeps_modify g : (forall s, f (g s) = f s) -> keeps f (modify g).
Proof. intros Hg s a s' [= _ <-]. apply Hg. Qed.

Lemma keeps_zoom {T A} (part : S -> T) put (m : M T A) :
  (forall t s, f (put t s) = f s) -> keeps f (zoom part put m).
Proof.
  intros Hp s a s'. unfold zoom. destruct (m (part s)) as [[]| | | |]; try done.
  intros [= _ <-]. apply Hp.
Qed.

Lemma keeps_bind {A B} (m : M S A) (k : A -> M S B) :
  keeps f m -> (forall a, keeps f (k a)) -> keeps f (m ≫= k).
Proof.
  intros Hm Hk s b s' (a & s1 & E1 & E2)%bind_inv. apply Hm in E1. apply Hk in E2. congruence.
Qed.

Lemma keeps_try {A B E} (m : M S (result A E)) (k : A -> M S (result B E)) :
  keeps f m -> (forall a, keeps f (k a)) -> keeps f (try_bind m k).
Proof.
  intros Hm Hk. apply keeps_bind; [done|]. intros [a|e]; [apply Hk|apply keeps_ret].
Qed.

End keeps.

#[export] Hint Resolve keeps_ret keeps_get keeps_gets : engine.
#[export] Hint Extern 1 (keeps _ (modify _)) => apply keeps_modify; reflexivity : engine.
#[export] Hint Extern 1 (keeps _ (zoom _ _ _)) => apply keeps_zoom; reflexivity : engine.

(** Goes through the operations of a computation, using what is known of its parts. *)
Ltac keep :=
  repeat first
    [ solve [auto with engine]
    | apply keeps_try; [|intros ?]
    | apply keeps_bind; [|intros ?]
    | match goal with |- keeps _ (match ?x with _ => _ end) => destruct x end ].

Notation "x ←? y ; z" := (try_bind y (fun x => z))
  (at level 20, y at level 100, z at level 200, only parsing) : stdpp_scope.
Notation "'ensure!' c 'else' e ; z" := (if c then z else mret (Err e))
  (at level 20, c at level 100, e at level 100, z at level 200, only parsing) : stdpp_scope.

(** ** Machine integers

    An integer of [w] bits is a [Z] between [0] and [2^w]; [usize] has 64 bits on the
    x86-64 targets the build is made for. Arithmetic is checked in a debug build (it
    panics on overflow) and wraps in a release build: [overflow_checks] says which. *)

Class Profile := overflow_checks : bool.
Definition debug : Profile := true.
Definition release : Profile := false.

Definition USIZE_BITS : Z := 64.
Definition max_value (w : Z) : Z := 2 ^ w - 1.
Definition wrap (w z : Z) : Z := z `mod` 2 ^ w.
Definition fits (w z : Z) : bool := (0 <=? z) && (z <? 2 ^ w).

Definition arith `{Profile} (w z : Z) : outcome Z :=
  if fits w z then Ret z
  else if overflow_checks then Panic ArithmeticOverflow else Ret (wrap w z).

Definition uadd `{Profile} (w a b : Z) : outcome Z := arith w (a + b).
Definition usub `{Profile} (w a b : Z) : outcome Z := arith w (a - b).
Definition umul `{Profile} (w a b : Z) : outcome Z := arith w (a * b).

(** [2.pow(n)] *)
Definition upow2 `{Profile} (w n : Z) : outcome Z := arith w (2 ^ n).

(** [a << n]: the amount is checked, bits shifted out are lost. *)
Definition ushl `{Profile} (w a n : Z) : outcome Z :=
  if (0 <=? n) && (n <? w) then Ret (wrap w (Z.shiftl a n))
  else if overflow_checks then Panic ArithmeticOverflow
       else Ret (wrap w (Z.shiftl a (n `mod` w))).

(** [!a] *)
Definition unot (w a : Z) : Z := Z.lxor a (max_value w).

(** Signed integers: [z as iN] and checked arithmetic. *)
Definition swrap (w z : Z) : Z := (z + 2 ^ (w - 1)) `mod` 2 ^ w - 2 ^ (w - 1).
Definition sfits (w z : Z) : bool := (- 2 ^ (w - 1) <=? z) && (z <? 2 ^ (w - 1)).

Definition sarith `{Profile} (w z : Z) : outcome Z :=
  if sfits w z then Ret z
  else if overflow_checks then Panic ArithmeticOverflow else Ret (swrap w z).

Definition sadd `{Profile} (w a b : Z) : outcome Z := sarith w (a + b).
Definition sneg `{Profile} (w a : Z) : outcome Z := sarith w (- a).

Lemma sarith_fits `{Profile} w z : - 2 ^ (w - 1) <= z < 2 ^ (w - 1) -> sarith w z = Ret z.
Proof. intros. unfold sarith. replace (sfits w z) with true; [done|]. unfold sfits. lia. Qed.

Lemma swrap_small w z : 1 <= w -> - 2 ^ (w - 1) <= z < 2 ^ (w - 1) -> swrap w z = z.
Proof.
  intros Hw Hz. unfold swrap. rewrite Z.mod_small; [lia|].
  replace (2 ^ w) with (2 * 2 ^ (w - 1)); [lia|].
  rewrite <- Z.pow_succ_r by lia. f_equal. lia.
Qed.

Lemma fits_true w z : 0 <= z < 2 ^ w -> fits w z = true.
Proof. unfold fits. intros. lia. Qed.

Lemma fits_false w z : z < 0 \/ 2 ^ w <= z -> fits w z = false.
Proof. unfold fits. intros. lia. Qed.

Lemma wrap_small w z : 0 <= z < 2 ^ w -> wrap w z = z.
Proof. apply Z.mod_small. Qed.

Lemma wrap_range w z : 0 <= w -> 0 <= wrap w z < 2 ^ w.
Proof. intros. apply Z.mod_pos_bound. lia. Qed.

Lemma arith_fits `{Profile} w z : 0 <= z < 2 ^ w -> arith w z = Ret z.
Proof. intros. unfold arith. by rewrite fits_true. Qed.

Lemma arith_debug w z : z < 0 \/ 2 ^ w <= z -> @arith debug w z = Panic ArithmeticOverflow.
Proof. intros. unfold arith. by rewrite fits_false. Qed.

Lemma arith_release w z : 0 <= w -> @arith release w z = Ret (wrap w z).
Proof.
  intros. unfold arith. destruct (fits w z) eqn:E; [|done].
  rewrite wrap_small; [done|]. unfold fits in E. lia.
Qed.

(** ** Automation shared by the components *)

#[export] Hint Resolve wrap_range : engine.
#[export] Hint Rewrite @arith_fits using lia : engine.

(** Runs a computation whose pieces are known: unfolds the monads, rewrites the checked
    arithmetic that fits, and simplifies. *)
Ltac run :=
  unfold mbind, mret, try_bind, monad_try_bind, outcome_bind, outcome_ret, M_bind, M_ret,
    lift, get, gets, modify in *;
  cbn beta iota zeta in *.

(** Steps over the first operation of a computation, given what it returns. *)
Tactic Notation "step" uconstr(H) := erewrite bind_ret by (eapply H; eauto; lia).

(** Case analysis on the guards of an [if] or a [match] in the goal or a hypothesis. *)
Ltac guards :=
  repeat match goal with
  | H : context [if ?b then _ else _] |- _ => destruct b eqn:?; try discriminate
  | |- context [if ?b then _ else _] => destruct b eqn:?; try discriminate
  end.

Ltac zify_bool :=
  rewrite ?Z.leb_le, ?Z.ltb_lt, ?Z.leb_gt, ?Z.ltb_ge, ?Z.eqb_eq, ?Z.eqb_neq in *.

(** Decides every integer comparison of the goal. *)
Ltac compare_cases :=
  repeat match goal with
  | |- context [?a <=? ?b] => destruct (Z.leb_spec a b)
  | |- context [?a <? ?b] => destruct (Z.ltb_spec a b)
  | |- context [?a =? ?b] => destruct (Z.eqb_spec a b)
  end; cbn [andb orb negb] in *; try done; try lia.

(** Computes the powers of two with a constant exponent. *)
Ltac pow2_consts :=
  repeat match goal with
  | |- context [2 ^ Zpos ?p] => let v := eval vm_compute in (2 ^ Zpos p) in change (2 ^ Zpos p) with v in *
  | H : context [2 ^ Zpos ?p] |- _ => let v := eval vm_compute in (2 ^ Zpos p) in change (2 ^ Zpos p) with v in *
  end.

(** Runs the next checked operation, whose result fits. *)
Ltac fit := rewrite arith_fits by (pow2_consts; lia); run.

(** The same for one that a monadic computation lifts; [done_step] for one that just returns. *)
Ltac calc :=
  erewrite bind_ret
    by (unfold lift, uadd, usub, umul; rewrite arith_fits by (pow2_consts; lia); reflexivity).
Ltac done_step := erewrite bind_ret by reflexivity; cbn beta iota zeta.

(** ** Lists *)

Section lists.
Context {A B : Type}.

Lemma take_drop_app_eq (l : list A) n : firstn n l ++ skipn n l = l.
Proof. apply firstn_skipn. Qed.

(** [Iterator::filter_map] is [omap]; when nothing is dropped it is [map]. *)
Lemma omap_all_Some (f : A -> option B) g (l : list A) :
  (forall x, In x l -> f x = Some (g x)) -> omap f l = map g l.
Proof.
  induction l as [|x l IH]; [done|]. intros H. cbn.
  rewrite (H x) by (by left). cbn. f_equal. apply IH. intros y Hy. apply H. by right.
Qed.

Lemma find_app_first (f : A -> bool) l1 l2 :
  find f (l1 ++ l2) = match find f l1 with Some x => Some x | None => find f l2 end.
Proof. induction l1 as [|x l1 IH]; [done|]. cbn. by destruct (f x). Qed.

#[global] Instance filter_perm (f : A -> bool) : Proper ((≡ₚ) ==> (≡ₚ)) (List.filter f).
Proof.
  intros l l' P. induction P as [|x l l' P IH|x y l|]; cbn; [done| | |by etransitivity].
  - destruct (f x); [by constructor|done].
  - destruct (f x), (f y); try done. apply perm_swap.
Qed.

#[global] Instance map_perm (f : A -> B) : Proper ((≡ₚ) ==> (≡ₚ)) (map f).
Proof. intros l l' P. by apply Permutation_map. Qed.

End lists.

(** ** Iterators

    [Iterator::collect]: calls [next] until it returns [None]. *)

Fixpoint collect {I A} (next : I -> outcome (option A * I)) (fuel : nat) (it : I)
    : outcome (list A) :=
  match fuel with
  | O => OutOfFuel
  | S f =>
      r ← next it;
      match r with
      | (None, _) => Ret []
      | (Some a, it') => l ← collect next f it'; Ret (a :: l)
      end
  end.

(** An iterator that counts from [lo] to [hi] and then stops yields that range. *)
Lemma collect_range {I A} (next : I -> outcome (option A * I)) (f : Z -> A) (mk : Z -> I) fin lo hi :
  (forall n, lo <= n < hi -> next (mk n) = Ret (Some (f n), mk (n + 1))) ->
  next (mk hi) = Ret (Some (f hi), fin) ->
  next fin = Ret (None, fin) ->
  lo <= hi ->
  forall fuel, (Z.to_nat (hi - lo + 2) <= fuel)%nat ->
  collect next fuel (mk lo) = Ret (map f (seqZ lo (hi - lo + 1))).
Proof.
  intros Hnext Hlast Hfin Hle fuel. revert lo Hnext Hle.
  induction fuel as [|fuel IH]; intros lo Hnext Hle Hf; [lia|]. cbn [collect].
  rewrite seqZ_cons by lia. cbn [map].
  destruct (decide (lo = hi)) as [->|].
  - rewrite Hlast. cbn. rewrite Z.sub_diag. destruct fuel as [|fuel]; [lia|]. cbn.
    by rewrite Hfin.
  - rewrite Hnext by lia. cbn. replace (Z.pred (hi - lo + 1)) with (hi - Z.succ lo + 1) by lia.
    rewrite Z.add_1_r, IH; [done| |lia|lia]. intros m Hm. apply Hnext. lia.
Qed.
