(* ===== verification/BitMask.v ===== *)
(** * Prefix masks

    The bit-counting methods of Rust's unsigned integers, and the facts about the masks
    of [n] leading ones that both CIDR implementations rest on. *)

From S2P Require Import Prelude.

(** ** [leading_zeros], [trailing_zeros], [count_zeros] of a [w]-bit integer *)

Definition leading_zeros (w x : Z) : Z := if x =? 0 then w else w - 1 - Z.log2 x.

Fixpoint pos_trailing_zeros (p : positive) : Z :=
  match p with xO q => 1 + pos_trailing_zeros q | _ => 0 end.

Definition trailing_zeros (w x : Z) : Z :=
  match x with Zpos p => pos_trailing_zeros p | _ => w end.

Fixpoint pos_count_ones (p : positive) : Z :=
  match p with xH => 1 | xO q => pos_count_ones q | xI q => 1 + pos_count_ones q end.

Definition count_ones (x : Z) : Z :=
  match x with Zpos p => pos_count_ones p | _ => 0 end.

Definition count_zeros (w x : Z) : Z := w - count_ones x.

(** The mask of [n] leading ones in [w] bits. *)
Definition prefix_mask (w n : Z) : Z := 2 ^ w - 2 ^ (w - n).

Lemma count_ones_double x : count_ones (2 * x) = count_ones x.
Proof. by destruct x. Qed.

Lemma count_ones_succ_double x : 0 <= x -> count_ones (2 * x + 1) = 1 + count_ones x.
Proof. by destruct x. Qed.

Lemma parity_cases x : exists y, x = 2 * y \/ x = 2 * y + 1.
Proof. exists (x / 2). pose proof (Z.div_mod x 2). pose proof (Z.mod_pos_bound x 2). lia. Qed.

(** An [m]-bit number has at most [m] ones, and [m] only when it is all ones. *)
Lemma count_ones_bound (m : nat) x :
  0 <= x < 2 ^ Z.of_nat m ->
  count_ones x <= Z.of_nat m /\ (count_ones x = Z.of_nat m -> x = 2 ^ Z.of_nat m - 1).
Proof.
  revert x. induction m as [|m IH]; intros x Hx.
  - assert (x = 0) as -> by lia. done.
  - rewrite Nat2Z.inj_succ, Z.pow_succ_r in * by lia.
    destruct (parity_cases x) as [y [-> | ->]].
    + rewrite count_ones_double. destruct (IH y); lia.
    + rewrite count_ones_succ_double by lia. destruct (IH y); lia.
Qed.

Lemma count_ones_pow2_mul x k : 0 <= k -> count_ones (2 ^ k * x) = count_ones x.
Proof.
  revert k. refine (natlike_ind _ _ _); [by rewrite Z.mul_1_l|].
  intros k Hk IH. rewrite Z.pow_succ_r, <- Z.mul_assoc, count_ones_double by lia. done.
Qed.

Lemma count_ones_ones k : 0 <= k -> count_ones (2 ^ k - 1) = k.
Proof.
  revert k. refine (natlike_ind _ _ _); [done|].
  intros k Hk IH. rewrite Z.pow_succ_r by lia.
  replace (2 * 2 ^ k - 1) with (2 * (2 ^ k - 1) + 1) by lia.
  rewrite count_ones_succ_double; lia.
Qed.

Lemma pos_trailing_zeros_nonneg p : 0 <= pos_trailing_zeros p.
Proof. induction p; cbn; lia. Qed.

(** [x] is a multiple of two to its number of trailing zeros. *)
Lemma trailing_zeros_divide w x : 0 < x -> exists y, x = 2 ^ trailing_zeros w x * y.
Proof.
  destruct x as [|p|p]; try lia. intros _. cbn.
  induction p as [p _|p [y IH]|]; cbn -[Z.pow].
  - by exists (Zpos p~1).
  - exists y. rewrite Z.pow_add_r, <- Z.mul_assoc, <- IH by
      (pose proof (pos_trailing_zeros_nonneg p); lia). done.
  - by exists 1.
Qed.

Lemma trailing_zeros_double w x : 0 < x -> trailing_zeros w (2 * x) = 1 + trailing_zeros w x.
Proof. by destruct x. Qed.

Lemma trailing_zeros_odd w x : 0 <= x -> trailing_zeros w (2 * x + 1) = 0.
Proof. by destruct x. Qed.

Lemma trailing_zeros_pow2_mul w k y :
  0 <= k -> 0 <= y -> trailing_zeros w (2 ^ k * (2 * y + 1)) = k.
Proof.
  intros Hk Hy. revert k Hk. refine (natlike_ind _ _ _).
  - rewrite Z.mul_1_l. by apply trailing_zeros_odd.
  - intros k Hk IH. rewrite Z.pow_succ_r, <- Z.mul_assoc by lia.
    rewrite trailing_zeros_double by nia. lia.
Qed.

(** ** The prefix mask *)

Section prefix.
Context (w n : Z) (Hn : 0 < n <= w).

Lemma pow2_split : 2 ^ w = 2 ^ (w - n) * 2 ^ n.
Proof. rewrite <- Z.pow_add_r by lia. f_equal. lia. Qed.

Lemma pow2_host_pos : 0 < 2 ^ (w - n).
Proof. apply Z.pow_pos_nonneg; lia. Qed.

Lemma pow2_host_lt : 2 ^ (w - n) < 2 ^ w.
Proof. apply Z.pow_lt_mono_r; lia. Qed.

Lemma prefix_mask_range : 0 <= prefix_mask w n < 2 ^ w.
Proof. pose proof pow2_host_pos. pose proof pow2_host_lt. unfold prefix_mask. lia. Qed.

Lemma prefix_mask_mul : prefix_mask w n = 2 ^ (w - n) * (2 ^ n - 1).
Proof. unfold prefix_mask. rewrite pow2_split. lia. Qed.

Lemma prefix_mask_shift : prefix_mask w n = Z.shiftl (Z.ones n) (w - n).
Proof. rewrite Z.shiftl_mul_pow2, Z.ones_equiv, prefix_mask_mul by lia. lia. Qed.

(** The mask the code builds: all ones shifted left by the host bits. *)
Lemma shl_all_ones : wrap w (Z.shiftl (max_value w) (w - n)) = prefix_mask w n.
Proof.
  pose proof pow2_host_pos. assert (0 < 2 ^ n) by lia.
  unfold wrap, max_value. rewrite Z.shiftl_mul_pow2, prefix_mask_mul by lia.
  rewrite pow2_split, (Z.mul_comm _ (2 ^ (w - n))), Z.mul_mod_distr_l by lia. f_equal.
  replace (2 ^ (w - n) * 2 ^ n - 1) with (2 ^ n - 1 + (2 ^ (w - n) - 1) * 2 ^ n) by lia.
  rewrite Z_mod_plus_full. apply Z.mod_small. lia.
Qed.

Lemma unot_prefix_mask : unot w (prefix_mask w n) = 2 ^ (w - n) - 1.
Proof.
  rewrite prefix_mask_shift. unfold unot, max_value.
  replace (2 ^ w - 1) with (Z.ones w) by (rewrite Z.ones_equiv; lia).
  replace (2 ^ (w - n) - 1) with (Z.ones (w - n)) by (rewrite Z.ones_equiv; lia).
  apply Z.bits_inj'. intros i Hi.
  rewrite Z.lxor_spec, Z.shiftl_spec, !Z.testbit_ones by lia. compare_cases.
Qed.

Lemma land_prefix_mask a : 0 <= a < 2 ^ w -> Z.land (prefix_mask w n) a = a - a `mod` 2 ^ (w - n).
Proof.
  intros Ha. rewrite prefix_mask_shift.
  replace (a - a `mod` 2 ^ (w - n)) with (Z.shiftl (Z.shiftr a (w - n)) (w - n)).
  2: { rewrite Z.shiftl_mul_pow2, Z.shiftr_div_pow2 by lia.
       rewrite (Z.mod_eq a (2 ^ (w - n))) by (pose proof pow2_host_pos; lia). lia. }
  apply Z.bits_inj'. intros i Hi. rewrite Z.land_spec, !Z.shiftl_spec by lia.
  destruct (decide (i < w - n)); [by rewrite !(Z.testbit_neg_r _ (i - (w - n))) by lia|].
  rewrite Z.testbit_ones, Z.shiftr_spec by lia.
  replace (i - (w - n) + (w - n)) with i by lia.
  destruct (decide (i < w)) as [|Hw].
  - rewrite (proj2 (Z.ltb_lt _ _)), (proj2 (Z.leb_le _ _)) by lia. done.
  - rewrite (Z.bits_above_log2 a i), andb_false_r; [done|lia|].
    destruct (decide (a = 0)) as [->|]; [cbn; lia|].
    apply Z.log2_lt_pow2; [lia|]. pose proof (Z.pow_le_mono_r 2 w i). lia.
Qed.

Lemma lor_host_bits a :
  0 <= a < 2 ^ w ->
  Z.lor (Z.land (prefix_mask w n) a) (unot w (prefix_mask w n)) =
    a - a `mod` 2 ^ (w - n) + (2 ^ (w - n) - 1).
Proof.
  intros Ha. rewrite <- land_prefix_mask, <- unot_prefix_mask, <- Z.add_lor_land by done.
  enough (Z.land (Z.land (prefix_mask w n) a) (unot w (prefix_mask w n)) = 0) as -> by lia.
  rewrite unot_prefix_mask, prefix_mask_shift.
  replace (2 ^ (w - n) - 1) with (Z.ones (w - n)) by (rewrite Z.ones_equiv; lia).
  apply Z.bits_inj'. intros i Hi.
  rewrite !Z.land_spec, Z.shiftl_spec, Z.bits_0, !Z.testbit_ones by lia. compare_cases.
Qed.

Lemma leading_zeros_host : leading_zeros w (2 ^ (w - n) - 1) = n.
Proof.
  unfold leading_zeros. case_match eqn:E; zify_bool.
  - assert (2 ^ (w - n) = 2 ^ 0) as H by lia. apply Z.pow_inj_r in H; lia.
  - replace (2 ^ (w - n) - 1) with (Z.pred (2 ^ (w - n))) by lia.
    assert (w - n <> 0) by (intros E'; rewrite E' in E; done).
    rewrite Z.log2_pred_pow2 by lia. lia.
Qed.

Lemma prefix_mask_leading_zeros : leading_zeros w (prefix_mask w n) = 0.
Proof.
  pose proof pow2_host_pos. pose proof prefix_mask_range.
  unfold leading_zeros.
  assert (2 ^ (w - 1) <= prefix_mask w n).
  { unfold prefix_mask. replace w with (1 + (w - 1)) at 2 by lia.
    rewrite Z.pow_add_r by lia. pose proof (Z.pow_le_mono_r 2 (w - n) (w - 1)). lia. }
  pose proof (Z.pow_pos_nonneg 2 (w - 1)).
  case_match; zify_bool; [lia|].
  rewrite (Z.log2_unique (prefix_mask w n) (w - 1)); [lia|lia|].
  split; [done|]. replace (Z.succ (w - 1)) with w by lia. lia.
Qed.

Lemma prefix_mask_trailing_zeros : trailing_zeros w (prefix_mask w n) = w - n.
Proof.
  rewrite prefix_mask_mul.
  replace (2 ^ n - 1) with (2 * (2 ^ (n - 1) - 1) + 1).
  - apply trailing_zeros_pow2_mul; [lia|]. pose proof (Z.pow_pos_nonneg 2 (n - 1)). lia.
  - replace n with (1 + (n - 1)) at 2 by lia. rewrite Z.pow_add_r by lia. lia.
Qed.

Lemma prefix_mask_count_zeros : count_zeros w (prefix_mask w n) = w - n.
Proof.
  unfold count_zeros. rewrite prefix_mask_mul, count_ones_pow2_mul, count_ones_ones by lia. done.
Qed.

(** Two addresses agree under the mask exactly when they lie in the same aligned block. *)
Lemma same_prefix_iff a b :
  0 <= a < 2 ^ w -> 0 <= b < 2 ^ w ->
  Z.land (prefix_mask w n) a = Z.land (prefix_mask w n) b <->
  a - a `mod` 2 ^ (w - n) <= b <= a - a `mod` 2 ^ (w - n) + (2 ^ (w - n) - 1).
Proof.
  intros Ha Hb. rewrite !land_prefix_mask by done. pose proof pow2_host_pos as Hp.
  pose proof (Z.mod_pos_bound a _ Hp). pose proof (Z.mod_pos_bound b _ Hp).
  rewrite !Z.mod_eq in * by lia. set (p := 2 ^ (w - n)) in *.
  split; [lia|]. intros Hr.
  assert (a / p = b / p) as ->; [|lia].
  apply Z.div_unique with (r := b - p * (a / p)); lia.
Qed.

End prefix.

(** The test of [netmask_length] accepts the prefix masks and nothing else. *)
Lemma netmask_test_iff w m :
  0 < w -> 0 <= m < 2 ^ w ->
  leading_zeros w m = 0 /\ trailing_zeros w m = count_zeros w m <->
  exists n, 0 < n <= w /\ m = prefix_mask w n.
Proof.
  intros Hw Hm. split.
  2: { intros (n & Hn & ->). rewrite prefix_mask_leading_zeros, prefix_mask_trailing_zeros,
         prefix_mask_count_zeros by done. done. }
  intros [Hl Ht]. unfold leading_zeros in Hl. case_match; zify_bool; [lia|].
  assert (0 < m) as Hpos by lia.
  assert (trailing_zeros w m <= w - 1) as Hle.
  { destruct (trailing_zeros_divide w m Hpos) as [y Hy].
    assert (0 <= trailing_zeros w m) by (destruct m; cbn; [lia|apply pos_trailing_zeros_nonneg|lia]).
    assert (0 < y) by nia.
    enough (trailing_zeros w m < w) by lia.
    apply (Z.pow_lt_mono_r_iff 2); nia. }
  assert (0 <= trailing_zeros w m) as Hge
    by (destruct m; cbn; [lia|apply pos_trailing_zeros_nonneg|lia]).
  set (k := trailing_zeros w m) in *. exists (w - k). split; [lia|].
  destruct (trailing_zeros_divide w m Hpos) as [y Hy]. fold k in Hy.
  assert (count_ones y = w - k) as Hc.
  { unfold count_zeros in Ht. rewrite Hy, count_ones_pow2_mul in Ht by lia. lia. }
  destruct (count_ones_bound (Z.to_nat (w - k)) y) as [_ Hall].
  { rewrite Z2Nat.id by lia. rewrite (pow2_split w (w - k)) in Hm by lia.
    replace (w - (w - k)) with k in Hm by lia. nia. }
  rewrite Z2Nat.id in Hall by lia. rewrite prefix_mask_mul by lia.
  replace (w - (w - k)) with k by lia. rewrite Hy, (Hall Hc). done.
Qed.

(** A prefix mask determines its length. *)
Lemma prefix_mask_inj w n1 n2 :
  0 < n1 <= w -> 0 < n2 <= w -> prefix_mask w n1 = prefix_mask w n2 -> n1 = n2.
Proof.
  intros H1 H2 E. rewrite <- (leading_zeros_host w n1), <- (leading_zeros_host w n2) by done.
  f_equal. unfold prefix_mask in E. lia.
Qed.
