(* ===== verification/BitfieldUnit.v ===== *)
(** * Bit fields ([__BindgenBitfieldUnit] of the DPDK bindings)

    The structures of the bindings keep C's bit fields in an array of bytes and read and
    write them through this type: single bits, and fields of up to 64 bits at any offset,
    on a little-endian target. *)

From S2P Require Import Prelude.

(** ** Operations

    The unit is its storage, a slice of bytes. *)

Section bitfield.
Context `{Profile}.

Definition storage_len (storage : list Z) : Z := Z.of_nat (length storage).

(** [debug_assert!]: a release build does not even evaluate the condition. *)
Definition debug_assert (c : outcome bool) : outcome unit :=
  if overflow_checks then b ← c; (if b : bool then Ret tt else Panic AssertionFailed) else Ret tt.

(** [storage[i]] *)
Definition byte_at (storage : list Z) (i : Z) : outcome Z :=
  match storage !! Z.to_nat i with
  | Some byte => Ret byte
  | None => Panic IndexOutOfBounds
  end.

Definition get_bit (storage : list Z) (index : Z) : outcome bool :=
  _ ← debug_assert (Ret (index / 8 <? storage_len storage));
  byte ← byte_at storage (index / 8);
  mask ← ushl 8 1 (index `mod` 8);
  Ret (Z.land byte mask =? mask).

Definition set_bit (storage : list Z) (index : Z) (val : bool) : outcome (list Z) :=
  _ ← debug_assert (Ret (index / 8 <? storage_len storage));
  byte ← byte_at storage (index / 8);
  mask ← ushl 8 1 (index `mod` 8);
  Ret (<[Z.to_nat (index / 8) := if val then Z.lor byte mask else Z.land byte (unot 8 mask)]> storage).

(** The assertions [get] and [set] start with *)
Definition field_asserts (storage : list Z) (bit_offset bit_width : Z) : outcome unit :=
  _ ← debug_assert (Ret (bit_width <=? 64));
  _ ← debug_assert (Ret (bit_offset / 8 <? storage_len storage));
  debug_assert (last ← uadd USIZE_BITS bit_offset bit_width; Ret (last / 8 <=? storage_len storage)).

(** The loops over [0..bit_width], on the list of the indices left *)
Fixpoint get_loop (storage : list Z) (bit_offset : Z) (indices : list Z) (val : Z) : outcome Z :=
  match indices with
  | [] => Ret val
  | i :: indices =>
      index ← uadd USIZE_BITS i bit_offset;
      b ← get_bit storage index;
      val ← (if b : bool then bit ← ushl 64 1 i; Ret (Z.lor val bit) else Ret val);
      get_loop storage bit_offset indices val
  end.

Definition get (storage : list Z) (bit_offset bit_width : Z) : outcome Z :=
  _ ← field_asserts storage bit_offset bit_width;
  get_loop storage bit_offset (seqZ 0 bit_width) 0.

Fixpoint set_loop (storage : list Z) (bit_offset : Z) (indices : list Z) (val : Z) : outcome (list Z) :=
  match indices with
  | [] => Ret storage
  | i :: indices =>
      mask ← ushl 64 1 i;
      let val_bit_is_set := Z.land val mask =? mask in
      index ← uadd USIZE_BITS i bit_offset;
      storage ← set_bit storage index val_bit_is_set;
      set_loop storage bit_offset indices val
  end.

Definition set (storage : list Z) (bit_offset bit_width val : Z) : outcome (list Z) :=
  _ ← field_asserts storage bit_offset bit_width;
  set_loop storage bit_offset (seqZ 0 bit_width) val.

(** ** What a storage holds *)

(** Bit [i] of the storage, in the order the fields count. *)
Definition bit (storage : list Z) (i : Z) : bool :=
  Z.testbit (storage !!! Z.to_nat (i / 8)) (i `mod` 8).

Definition bytes_ok (storage : list Z) : Prop := Forall (fun b => 0 <= b < 256) storage.

(** ** One bit *)

Lemma debug_assert_true c : c = Ret true -> debug_assert c = Ret tt.
Proof. intros ->. unfold debug_assert. by destruct overflow_checks. Qed.

Lemma bit_position storage i : 0 <= i < 8 * storage_len storage ->
  exists byte, storage !! Z.to_nat (i / 8) = Some byte /\ bit storage i = Z.testbit byte (i `mod` 8).
Proof.
  unfold storage_len. intros Hi.
  destruct (lookup_lt_is_Some_2 storage (Z.to_nat (i / 8))) as [byte E].
  { pose proof (Z.div_lt_upper_bound i 8 (Z.of_nat (length storage))).
    pose proof (Z.div_pos i 8). lia. }
  exists byte. unfold bit. by rewrite (list_lookup_total_correct _ _ _ E).
Qed.

Lemma ushl_one w n : 0 <= n < w -> ushl w 1 n = Ret (2 ^ n).
Proof.
  intros. unfold ushl. replace ((0 <=? n) && (n <? w)) with true by lia.
  rewrite Z.shiftl_1_l, wrap_small; [done|]. split; [lia|]. apply Z.pow_lt_mono_r; lia.
Qed.

Lemma land_pow2_eqb x n : 0 <= n -> (Z.land x (2 ^ n) =? 2 ^ n) = Z.testbit x n.
Proof.
  intros Hn. destruct (Z.testbit x n) eqn:E.
  - apply Z.eqb_eq, Z.bits_inj. intros k. rewrite Z.land_spec, Z.pow2_bits_eqb by done.
    destruct (Z.eqb_spec n k) as [<-|]; [by rewrite E|apply andb_false_r].
  - apply Z.eqb_neq. intros Hx. apply (f_equal (fun z => Z.testbit z n)) in Hx.
    by rewrite Z.land_spec, E, Z.pow2_bits_true in Hx.
Qed.

Lemma get_bit_run storage i : 0 <= i < 8 * storage_len storage ->
  get_bit storage i = Ret (bit storage i).
Proof.
  intros Hi. destruct (bit_position _ _ Hi) as (byte & E & ->). unfold get_bit, byte_at.
  rewrite debug_assert_true.
  2: { repeat f_equal. apply Z.ltb_lt, Z.div_lt_upper_bound; lia. }
  pose proof (Z.mod_pos_bound i 8). rewrite E, ushl_one by lia. run.
  by rewrite land_pow2_eqb by lia.
Qed.

Lemma byte_range x : 0 <= x -> (forall k, 8 <= k -> Z.testbit x k = false) -> 0 <= x < 256.
Proof.
  intros H0 Hk. replace x with (x `mod` 2 ^ 8); [apply (Z.mod_pos_bound x (2 ^ 8)); lia|].
  apply Z.bits_inj. intros k. destruct (Z.lt_ge_cases k 0); [by rewrite !Z.testbit_neg_r|].
  destruct (Z.lt_ge_cases k 8).
  - by rewrite Z.mod_pow2_bits_low by lia.
  - by rewrite Z.mod_pow2_bits_high, Hk by lia.
Qed.

Lemma byte_high x k : 0 <= x < 256 -> 8 <= k -> Z.testbit x k = false.
Proof.
  intros Hx Hk. rewrite <- (Z.mod_small x (2 ^ 8)) by lia. by rewrite Z.mod_pow2_bits_high by lia.
Qed.

(** The byte with bit [n] set to [val] *)
Lemma update_byte byte n (val : bool) : 0 <= byte < 256 -> 0 <= n < 8 ->
  let byte' := if val then Z.lor byte (2 ^ n) else Z.land byte (unot 8 (2 ^ n)) in
  0 <= byte' < 256 /\ forall k, 0 <= k < 8 -> Z.testbit byte' k = if k =? n then val else Z.testbit byte k.
Proof.
  intros Hb Hn. pose proof (Z.pow_nonneg 2 n). cbn zeta.
  assert (forall k, Z.testbit (2 ^ n) k = (n =? k)) as P by (intros; by rewrite Z.pow2_bits_eqb by lia).
  assert (forall k, 0 <= k < 8 -> Z.testbit (max_value 8) k = true) as O.
  { intros k Hk. unfold max_value. rewrite Z.sub_1_r, <- Z.ones_equiv.
    by rewrite Z.ones_spec_low by lia. }
  split.
  - apply byte_range.
    + destruct val; [apply Z.lor_nonneg; lia|apply Z.land_nonneg; lia].
    + intros k Hk. destruct val; rewrite ?Z.lor_spec, ?Z.land_spec, byte_high by lia; [|done].
      rewrite P. apply Z.eqb_neq. lia.
  - intros k Hk. unfold unot.
    destruct val; rewrite ?Z.lor_spec, ?Z.land_spec, ?Z.lxor_spec, ?P, ?O by lia;
      rewrite (Z.eqb_sym n k); destruct (Z.eqb_spec k n), (Z.testbit byte k); done.
Qed.

Lemma set_bit_run storage i val : bytes_ok storage -> 0 <= i < 8 * storage_len storage ->
  exists storage', set_bit storage i val = Ret storage' /\ bytes_ok storage' /\
    storage_len storage' = storage_len storage /\
    forall j, 0 <= j < 8 * storage_len storage ->
      bit storage' j = if j =? i then val else bit storage j.
Proof.
  intros Hok Hi. destruct (bit_position _ _ Hi) as (byte & E & _). unfold set_bit, byte_at.
  rewrite debug_assert_true.
  2: { repeat f_equal. apply Z.ltb_lt, Z.div_lt_upper_bound; lia. }
  pose proof (Z.mod_pos_bound i 8). rewrite E, ushl_one by lia. run.
  pose proof (proj1 (Forall_lookup _ _) Hok _ _ E) as Hb. cbn in Hb.
  destruct (update_byte byte (i `mod` 8) val) as [R B]; [done|lia|]. cbn zeta in R, B.
  eexists. split; [reflexivity|]. split; [|split].
  - by apply Forall_insert.
  - unfold storage_len. by rewrite length_insert.
  - intros j Hj. unfold bit. pose proof (Z.mod_pos_bound j 8).
    destruct (decide (j / 8 = i / 8)) as [Eq|Ne].
    + rewrite Eq, list_lookup_total_insert_eq by (by eapply lookup_lt_Some). rewrite B by lia.
      rewrite (list_lookup_total_correct _ _ _ E).
      destruct (Z.eqb_spec j i) as [->|]; [by rewrite Z.eqb_refl|].
      destruct (Z.eqb_spec (j `mod` 8) (i `mod` 8)); [|done].
      pose proof (Z.div_mod j 8). pose proof (Z.div_mod i 8). lia.
    + pose proof (Z.div_pos i 8). pose proof (Z.div_pos j 8).
      rewrite list_lookup_total_insert_ne by lia.
      destruct (Z.eqb_spec j i) as [->|]; [done|done].
Qed.

(** ** Fields *)

(** A field of the storage; its last bit has a number that fits [usize]. *)
Record field (storage : list Z) (bit_offset bit_width : Z) : Prop := {
  field_offset : 0 <= bit_offset;
  field_width : 1 <= bit_width <= 64;
  field_end : bit_offset + bit_width <= 8 * storage_len storage;
  field_size : 8 * storage_len storage < 2 ^ USIZE_BITS;
}.

Lemma field_asserts_pass storage off w : field storage off w -> field_asserts storage off w = Ret tt.
Proof.
  intros [? ? ? ?]. unfold field_asserts, uadd. rewrite arith_fits by lia.
  rewrite (debug_assert_true (Ret (w <=? 64))) by (f_equal; lia). run.
  rewrite !debug_assert_true; [done| |].
  - do 2 f_equal. apply Z.leb_le, Z.div_le_upper_bound; lia.
  - f_equal. apply Z.ltb_lt, Z.div_lt_upper_bound; lia.
Qed.

Lemma get_loop_run storage off w n : forall i val, field storage off w ->
  0 <= i -> i + Z.of_nat n = w -> exists v,
  get_loop storage off (seqZ i (Z.of_nat n)) val = Ret v /\
  forall k, 0 <= k -> Z.testbit v k = Z.testbit val k || ((i <=? k) && (k <? w) && bit storage (off + k)).
Proof.
  induction n as [|n IH]; intros i val F Hi Hn.
  - exists val. split; [done|]. intros k Hk.
    replace ((i <=? k) && (k <? w)) with false by lia. by rewrite orb_false_r.
  - rewrite seqZ_cons by lia. cbn [get_loop]. pose proof F as [? ? ? ?].
    unfold uadd. rewrite arith_fits by lia. run. rewrite get_bit_run by lia. run.
    replace (Z.pred (Z.of_nat (S n))) with (Z.of_nat n) by lia.
    set (val' := if bit storage (i + off) then Z.lor val (2 ^ i) else val).
    replace (if bit storage (i + off) then _ else _) with (Ret val')
      by (unfold val'; rewrite ushl_one by lia; by destruct (bit storage (i + off))). run.
    destruct (IH (Z.succ i) val') as (v & -> & Hv); [done|lia|lia|]. exists v. split; [done|].
    intros k Hk. rewrite Hv by done.
    assert (Z.testbit val' k = Z.testbit val k || ((i =? k) && bit storage (i + off))) as ->.
    { unfold val'. destruct (bit storage (i + off));
        rewrite ?Z.lor_spec, ?Z.pow2_bits_eqb, ?andb_true_r, ?andb_false_r, ?orb_false_r by lia; done. }
    clearbody val'. unfold Z.succ in *. rewrite <- orb_assoc. f_equal. destruct (Z.eqb_spec i k) as [<-|Ne].
    + rewrite (Z.add_comm off i). replace (i + 1 <=? i) with false by lia.
      replace (i <? w) with true by lia. by rewrite Z.leb_refl, orb_false_r.
    + f_equal. compare_cases.
Qed.

(** [get] reads the bits of the field, the lowest first. *)
Lemma get_run storage off w : field storage off w -> exists v,
  get storage off w = Ret v /\
  forall k, 0 <= k -> Z.testbit v k = (k <? w) && bit storage (off + k).
Proof.
  intros F. unfold get. rewrite field_asserts_pass by done. run. pose proof (field_width _ _ _ F).
  destruct (get_loop_run storage off w (Z.to_nat w) 0 0) as (v & E & Hv); [done|lia|lia|].
  rewrite Z2Nat.id in E by lia. exists v. split; [done|]. intros k Hk.
  rewrite Hv, Z.testbit_0_l by done. by replace (0 <=? k) with true by lia.
Qed.

Lemma set_loop_run off w val n : forall storage i, field storage off w -> bytes_ok storage ->
  0 <= i -> i + Z.of_nat n = w -> exists storage',
  set_loop storage off (seqZ i (Z.of_nat n)) val = Ret storage' /\ bytes_ok storage' /\
  storage_len storage' = storage_len storage /\
  forall j, 0 <= j < 8 * storage_len storage ->
    bit storage' j = if (off + i <=? j) && (j <? off + w) then Z.testbit val (j - off) else bit storage j.
Proof.
  induction n as [|n IH]; intros storage i F Hok Hi Hn.
  - exists storage. do 3 (split; [done|]). intros j Hj.
    by replace ((off + i <=? j) && (j <? off + w)) with false by lia.
  - rewrite seqZ_cons by lia. cbn [set_loop]. pose proof F as [? ? ? ?].
    rewrite ushl_one by lia. run. rewrite land_pow2_eqb by lia.
    unfold uadd. rewrite arith_fits by lia. run.
    destruct (set_bit_run storage (i + off) (Z.testbit val i)) as (st1 & -> & Hok1 & L1 & B1);
      [done|lia|]. run.
    replace (Z.pred (Z.of_nat (S n))) with (Z.of_nat n) by lia.
    edestruct (IH st1 (Z.succ i)) as (st2 & -> & Hok2 & L2 & B2); [|done|lia|lia|].
    { split; rewrite ?L1; lia. }
    exists st2. do 2 (split; [done|]). split; [congruence|]. intros j Hj.
    unfold Z.succ in *. rewrite B2 by (rewrite L1; lia). rewrite B1 by lia.
    destruct (Z.eqb_spec j (i + off)) as [->|].
    + replace ((off + (i + 1) <=? i + off) && (i + off <? off + w)) with false by lia.
      replace ((off + i <=? i + off) && (i + off <? off + w)) with true by lia. f_equal. lia.
    + by replace (off + (i + 1) <=? j) with (off + i <=? j) by compare_cases.
Qed.

(** [set] writes the low bits of the value to the field and leaves every other bit. *)
Lemma set_run storage off w val : field storage off w -> bytes_ok storage -> exists storage',
  set storage off w val = Ret storage' /\ bytes_ok storage' /\
  storage_len storage' = storage_len storage /\
  forall j, 0 <= j < 8 * storage_len storage ->
    bit storage' j = if (off <=? j) && (j <? off + w) then Z.testbit val (j - off) else bit storage j.
Proof.
  intros F Hok. unfold set. rewrite field_asserts_pass by done. run. pose proof (field_width _ _ _ F).
  destruct (set_loop_run off w val (Z.to_nat w) storage 0) as (st' & E & Hst); [done|done|lia|lia|].
  rewrite Z2Nat.id in E by lia. exists st'. split; [done|].
  by replace (off + 0) with off in Hst by lia.
Qed.

(** Two fields with the same bits read the same. *)
Lemma get_ext storage storage' off w : field storage off w -> field storage' off w ->
  (forall k, 0 <= k < w -> bit storage' (off + k) = bit storage (off + k)) ->
  get storage' off w = get storage off w.
Proof.
  intros F F' Hb. destruct (get_run _ _ _ F) as (v & -> & Hv), (get_run _ _ _ F') as (v' & -> & Hv').
  f_equal. apply Z.bits_inj'. intros k Hk. rewrite Hv, Hv' by done.
  destruct (Z.ltb_spec k w); [|done]. cbn. apply Hb. lia.
Qed.

(** A field that was just set reads as the value modulo two to the width. *)
Lemma get_after_set storage off w val : field storage off w -> bytes_ok storage -> exists storage',
  set storage off w val = Ret storage' /\ bytes_ok storage' /\ storage_len storage' = storage_len storage /\
  get storage' off w = Ret (val `mod` 2 ^ w) /\
  forall off2 w2, field storage off2 w2 -> off + w <= off2 \/ off2 + w2 <= off ->
    get storage' off2 w2 = get storage off2 w2.
Proof.
  intros F Hok. destruct (set_run storage off w val F Hok) as (st' & E & Hok' & L & B).
  pose proof F as [? ? ? ?]. exists st'. do 3 (split; [done|]). split.
  - destruct (get_run st' off w) as (v & -> & Hv); [split; rewrite ?L; lia|]. f_equal.
    apply Z.bits_inj'. intros k Hk. rewrite Hv by done. destruct (Z.ltb_spec k w); cbn [andb].
    + rewrite B by lia. replace ((off <=? off + k) && (off + k <? off + w)) with true by lia.
      rewrite Z.mod_pow2_bits_low by lia. f_equal. lia.
    + by rewrite Z.mod_pow2_bits_high by lia.
  - intros off2 w2 F2 Hd. pose proof F2 as [? ? ? ?].
    apply get_ext; [done|split; rewrite ?L; lia|]. intros k Hk. rewrite B by lia.
    by replace ((off <=? off2 + k) && (off2 + k <? off + w)) with false by lia.
Qed.

(** C21: On a field of 1 to 64 bits inside the storage neither [get] nor [set] panics, in a debug or
    a release build. [get] answers the number whose [k]-th bit is bit [offset + k] of the storage,
    counted from the lowest of the first byte. [set] writes the low bits of the value there and
    leaves every other bit and the length, so the field reads back as the value modulo two to the
    width, and every field that does not overlap it reads as before. *)
Theorem bitfield_set_get storage off w val :
  field storage off w -> bytes_ok storage ->
  (exists v, get storage off w = Ret v /\
     forall k, 0 <= k -> Z.testbit v k = (k <? w) && bit storage (off + k)) /\
  exists storage',
    set storage off w val = Ret storage' /\ bytes_ok storage' /\
    storage_len storage' = storage_len storage /\
    (forall j, 0 <= j < 8 * storage_len storage -> bit storage' j
       = if (off <=? j) && (j <? off + w) then Z.testbit val (j - off) else bit storage j) /\
    get storage' off w = Ret (val `mod` 2 ^ w) /\
    forall off2 w2, field storage off2 w2 -> off + w <= off2 \/ off2 + w2 <= off ->
      get storage' off2 w2 = get storage off2 w2.
Proof.
  intros F Hok. split; [by apply get_run|].
  destruct (get_after_set storage off w val F Hok) as (st' & E & Hok' & L & Hg & Ho).
  destruct (set_run storage off w val F Hok) as (st1 & E1 & _ & _ & B). rewrite E in E1. injection E1 as <-.
  by exists st'.
Qed.

End bitfield.

#[local] Instance witness_profile : Profile := debug.

(** Two fields of three bytes, the second across a byte boundary *)
Lemma bitfield_set_get_witness :
  (exists v, get [0; 255; 0] 6 5 = Ret v /\
     forall k, 0 <= k -> Z.testbit v k = (k <? 5) && bit [0; 255; 0] (6 + k)) /\
  exists storage', set [0; 255; 0] 6 5 42 = Ret storage' /\ bytes_ok storage' /\
  storage_len storage' = 3 /\
  (forall j, 0 <= j < 24 -> bit storage' j
     = if (6 <=? j) && (j <? 11) then Z.testbit 42 (j - 6) else bit [0; 255; 0] j) /\
  get storage' 6 5 = Ret (42 `mod` 2 ^ 5) /\
  forall off2 w2, field [0; 255; 0] off2 w2 -> 11 <= off2 \/ off2 + w2 <= 6 ->
    get storage' off2 w2 = get [0; 255; 0] off2 w2.
Proof.
  apply (bitfield_set_get [0; 255; 0] 6 5 42).
  - by split.
  - unfold bytes_ok. repeat constructor; done.
Defined.

Example set_value : set [0; 255; 0] 6 5 42 = Ret [128; 250; 0].
Proof. reflexivity. Qed.

(** The third assertion counts whole bytes, so it lets a field pass that ends up to seven bits
    after the storage; the assertion in [get_bit] stops it. *)
Example end_not_checked : field_asserts [0] 1 8 = Ret tt /\ get [0] 1 8 = Panic AssertionFailed.
Proof. by split. Qed.
