(* ===== verification/Bitfields.v ===== *)
(** * The bit fields of the bindings' structures ([ffi/src/bindings_rustdoc.rs])

    The accessors the generator wrote for the bit fields of the structures of [Bindings], each
    on the unit its fields are in, and [new_bitfield], which makes a unit of their values. An
    accessor converts the [u64] of the unit to the type of the field. *)

From S2P Require Import Prelude BitfieldUnit.

Section accessors.
Context `{Profile}.

(** *** The inner packet type, layers 2 and 3 *)

Definition inner_l2_type (unit : list Z) : outcome Z := v ← get unit 0 4; Ret (wrap 8 v).
Definition set_inner_l2_type (unit : list Z) (val : Z) : outcome (list Z) := set unit 0 4 val.
Definition inner_l3_type (unit : list Z) : outcome Z := v ← get unit 4 4; Ret (wrap 8 v).
Definition set_inner_l3_type (unit : list Z) (val : Z) : outcome (list Z) := set unit 4 4 val.

Definition new_inner_l2_l3 (inner_l2_type inner_l3_type : Z) : outcome (list Z) :=
  let unit := replicate 1 0 in
  unit ← set unit 0 4 inner_l2_type;
  unit ← set unit 4 4 inner_l3_type;
  Ret unit.

(** *** The packet type *)

Definition l2_type (unit : list Z) : outcome Z := v ← get unit 0 4; Ret (wrap 32 v).
Definition set_l2_type (unit : list Z) (val : Z) : outcome (list Z) := set unit 0 4 val.
Definition l3_type (unit : list Z) : outcome Z := v ← get unit 4 4; Ret (wrap 32 v).
Definition set_l3_type (unit : list Z) (val : Z) : outcome (list Z) := set unit 4 4 val.
Definition l4_type (unit : list Z) : outcome Z := v ← get unit 8 4; Ret (wrap 32 v).
Definition set_l4_type (unit : list Z) (val : Z) : outcome (list Z) := set unit 8 4 val.
Definition tun_type (unit : list Z) : outcome Z := v ← get unit 12 4; Ret (wrap 32 v).
Definition set_tun_type (unit : list Z) (val : Z) : outcome (list Z) := set unit 12 4 val.

Definition new_packet_type (l2_type l3_type l4_type tun_type : Z) : outcome (list Z) :=
  let unit := replicate 2 0 in
  unit ← set unit 0 4 l2_type;
  unit ← set unit 4 4 l3_type;
  unit ← set unit 8 4 l4_type;
  unit ← set unit 12 4 tun_type;
  Ret unit.

(** *** The inner packet type, layer 4 *)

Definition inner_l4_type (unit : list Z) : outcome Z := v ← get unit 0 4; Ret (wrap 32 v).
Definition set_inner_l4_type (unit : list Z) (val : Z) : outcome (list Z) := set unit 0 4 val.

Definition new_inner_l4 (inner_l4_type : Z) : outcome (list Z) :=
  let unit := replicate 1 0 in
  unit ← set unit 0 4 inner_l4_type;
  Ret unit.

(** *** The lengths of the headers, for offloads *)

Definition l2_len (unit : list Z) : outcome Z := v ← get unit 0 7; Ret (wrap 64 v).
Definition set_l2_len (unit : list Z) (val : Z) : outcome (list Z) := set unit 0 7 val.
Definition l3_len (unit : list Z) : outcome Z := v ← get unit 7 9; Ret (wrap 64 v).
Definition set_l3_len (unit : list Z) (val : Z) : outcome (list Z) := set unit 7 9 val.
Definition l4_len (unit : list Z) : outcome Z := v ← get unit 16 8; Ret (wrap 64 v).
Definition set_l4_len (unit : list Z) (val : Z) : outcome (list Z) := set unit 16 8 val.
Definition tso_segsz (unit : list Z) : outcome Z := v ← get unit 24 16; Ret (wrap 64 v).
Definition set_tso_segsz (unit : list Z) (val : Z) : outcome (list Z) := set unit 24 16 val.
Definition outer_l3_len (unit : list Z) : outcome Z := v ← get unit 40 9; Ret (wrap 64 v).
Definition set_outer_l3_len (unit : list Z) (val : Z) : outcome (list Z) := set unit 40 9 val.
Definition outer_l2_len (unit : list Z) : outcome Z := v ← get unit 49 7; Ret (wrap 64 v).
Definition set_outer_l2_len (unit : list Z) (val : Z) : outcome (list Z) := set unit 49 7 val.

Definition new_tx_offload (l2_len l3_len l4_len tso_segsz outer_l3_len outer_l2_len : Z) : outcome (list Z) :=
  let unit := replicate 8 0 in
  unit ← set unit 0 7 l2_len;
  unit ← set unit 7 9 l3_len;
  unit ← set unit 16 8 l4_len;
  unit ← set unit 24 16 tso_segsz;
  unit ← set unit 40 9 outer_l3_len;
  unit ← set unit 49 7 outer_l2_len;
  Ret unit.

(** *** The VLAN flags of [rte_eth_txmode] *)

Definition hw_vlan_reject_tagged (unit : list Z) : outcome Z := v ← get unit 0 1; Ret (wrap 8 v).
Definition set_hw_vlan_reject_tagged (unit : list Z) (val : Z) : outcome (list Z) := set unit 0 1 val.
Definition hw_vlan_reject_untagged (unit : list Z) : outcome Z := v ← get unit 1 1; Ret (wrap 8 v).
Definition set_hw_vlan_reject_untagged (unit : list Z) (val : Z) : outcome (list Z) := set unit 1 1 val.
Definition hw_vlan_insert_pvid (unit : list Z) : outcome Z := v ← get unit 2 1; Ret (wrap 8 v).
Definition set_hw_vlan_insert_pvid (unit : list Z) (val : Z) : outcome (list Z) := set unit 2 1 val.

Definition new_txmode_flags (hw_vlan_reject_tagged hw_vlan_reject_untagged hw_vlan_insert_pvid : Z) : outcome (list Z) :=
  let unit := replicate 1 0 in
  unit ← set unit 0 1 hw_vlan_reject_tagged;
  unit ← set unit 1 1 hw_vlan_reject_untagged;
  unit ← set unit 2 1 hw_vlan_insert_pvid;
  Ret unit.

(** *** The interrupts of [rte_intr_conf] *)

Definition lsc (unit : list Z) : outcome Z := v ← get unit 0 1; Ret (wrap 32 v).
Definition set_lsc (unit : list Z) (val : Z) : outcome (list Z) := set unit 0 1 val.
Definition rxq (unit : list Z) : outcome Z := v ← get unit 1 1; Ret (wrap 32 v).
Definition set_rxq (unit : list Z) (val : Z) : outcome (list Z) := set unit 1 1 val.
Definition rmv (unit : list Z) : outcome Z := v ← get unit 2 1; Ret (wrap 32 v).
Definition set_rmv (unit : list Z) (val : Z) : outcome (list Z) := set unit 2 1 val.

Definition new_intr_flags (lsc rxq rmv : Z) : outcome (list Z) :=
  let unit := replicate 1 0 in
  unit ← set unit 0 1 lsc;
  unit ← set unit 1 1 rxq;
  unit ← set unit 2 1 rmv;
  Ret unit.

(** ** Units made of values *)

(** Fields with their values, one after the other: offset, width, value *)
Definition fields := list (Z * Z * Z).

Fixpoint pack (unit : list Z) (fs : fields) : outcome (list Z) :=
  match fs with
  | [] => Ret unit
  | (off, w, val) :: fs => unit ← set unit off w val; pack unit fs
  end.

(** In the unit, each after the one before *)
Fixpoint in_order (unit : list Z) (from : Z) (fs : fields) : Prop :=
  match fs with
  | [] => True
  | (off, w, _) :: fs => from <= off /\ field unit off w /\ in_order unit (off + w) fs
  end.

Definition reads (unit : list Z) (fs : fields) : Prop :=
  Forall (fun '(off, w, val) => get unit off w = Ret (val `mod` 2 ^ w)) fs.

Lemma field_len unit unit' off w : storage_len unit' = storage_len unit -> field unit off w -> field unit' off w.
Proof. intros E [? ? ? ?]. by split; rewrite ?E. Qed.

Lemma in_order_len unit unit' from fs : storage_len unit' = storage_len unit ->
  in_order unit from fs -> in_order unit' from fs.
Proof.
  intros E. revert from. induction fs as [|[[off w] v] fs IH]; intros from; [done|]. cbn.
  intros (? & ? & ?). split; [done|]. split; [by eapply field_len|by apply IH].
Qed.

(** Packing fields in order: each reads as its value modulo its width, and what lies before the
    first is left as it was. *)
Lemma pack_spec fs : forall unit from, in_order unit from fs -> bytes_ok unit -> exists unit',
  pack unit fs = Ret unit' /\ bytes_ok unit' /\ storage_len unit' = storage_len unit /\ reads unit' fs /\
  forall off w, field unit off w -> off + w <= from -> get unit' off w = get unit off w.
Proof.
  induction fs as [|[[off w] val] fs IH]; intros unit from; cbn [in_order pack].
  { intros _ Hok. exists unit. do 3 (split; [done|]). split; [constructor|done]. }
  intros (Hfrom & F & Hfs) Hok. destruct (get_after_set unit off w val F Hok) as (u1 & -> & Hok1 & L1 & G1 & O1).
  destruct (IH u1 (off + w)) as (u2 & E2 & Hok2 & L2 & R2 & O2); [by eapply in_order_len|done|].
  exists u2. split; [exact E2|]. split; [done|]. split; [congruence|]. split.
  - constructor; [|done]. rewrite O2; [done|by eapply field_len|lia].
  - intros off' w' F' Ho. pose proof (field_width _ _ _ F).
    rewrite O2; [apply O1; [done|lia]|by eapply field_len|lia].
Qed.

Lemma zero_ok n : bytes_ok (replicate n 0).
Proof. apply Forall_replicate. lia. Qed.

Lemma as_type w ty x : 0 <= w <= ty -> wrap ty (x `mod` 2 ^ w) = x `mod` 2 ^ w.
Proof.
  intros Hw. apply wrap_small. pose proof (Z.mod_pos_bound x (2 ^ w)).
  pose proof (Z.pow_le_mono_r 2 w ty). lia.
Qed.

End accessors.

(** Runs [new_...] as [pack], and reads each field back. *)
Ltac unit_reads n fs :=
  let u := fresh "u" in let E := fresh "E" in let L := fresh "L" in let R := fresh "R" in
  destruct (pack_spec fs (replicate n 0) 0) as (u & E & _ & L & R & _);
    [cbn [in_order]; repeat (split; [lia|]; split; [split; cbn; lia|]); done | apply zero_ok |];
  exists u; split; [exact E|];
  unfold storage_len in L; rewrite length_replicate in L; split; [lia|];
  unfold reads in R; repeat match type of R with Forall _ (_ :: _) =>
    let G := fresh "G" in apply Forall_cons in R as [G R]; rewrite G; clear G end;
  run; rewrite !as_type by lia; repeat split.

Section properties.
Context `{Profile}.

(** In every build [new_bitfield] makes a unit of any values, and each accessor reads its own
    value from it, cut to the width of the field: for the lengths of the transmit offload, the
    packet types, and the flags of the transmit mode and of the interrupts. *)
Theorem new_units_read_back a b c d e f :
  (exists u, new_tx_offload a b c d e f = Ret u /\ length u = 8%nat /\
    l2_len u = Ret (a `mod` 2 ^ 7) /\ l3_len u = Ret (b `mod` 2 ^ 9) /\ l4_len u = Ret (c `mod` 2 ^ 8) /\
    tso_segsz u = Ret (d `mod` 2 ^ 16) /\ outer_l3_len u = Ret (e `mod` 2 ^ 9) /\
    outer_l2_len u = Ret (f `mod` 2 ^ 7)) /\
  (exists u, new_packet_type a b c d = Ret u /\ length u = 2%nat /\
    l2_type u = Ret (a `mod` 2 ^ 4) /\ l3_type u = Ret (b `mod` 2 ^ 4) /\
    l4_type u = Ret (c `mod` 2 ^ 4) /\ tun_type u = Ret (d `mod` 2 ^ 4)) /\
  (exists u, new_inner_l2_l3 a b = Ret u /\ length u = 1%nat /\
    inner_l2_type u = Ret (a `mod` 2 ^ 4) /\ inner_l3_type u = Ret (b `mod` 2 ^ 4)) /\
  (exists u, new_inner_l4 a = Ret u /\ length u = 1%nat /\ inner_l4_type u = Ret (a `mod` 2 ^ 4)) /\
  (exists u, new_txmode_flags a b c = Ret u /\ length u = 1%nat /\
    hw_vlan_reject_tagged u = Ret (a `mod` 2 ^ 1) /\ hw_vlan_reject_untagged u = Ret (b `mod` 2 ^ 1) /\
    hw_vlan_insert_pvid u = Ret (c `mod` 2 ^ 1)) /\
  (exists u, new_intr_flags a b c = Ret u /\ length u = 1%nat /\
    lsc u = Ret (a `mod` 2 ^ 1) /\ rxq u = Ret (b `mod` 2 ^ 1) /\ rmv u = Ret (c `mod` 2 ^ 1)).
Proof.
  unfold l2_len, l3_len, l4_len, tso_segsz, outer_l3_len, outer_l2_len, l2_type, l3_type, l4_type, tun_type,
    inner_l2_type, inner_l3_type, inner_l4_type, hw_vlan_reject_tagged, hw_vlan_reject_untagged,
    hw_vlan_insert_pvid, lsc, rxq, rmv.
  split; [|split; [|split; [|split; [|split]]]].
  - unit_reads 8%nat [(0, 7, a); (7, 9, b); (16, 8, c); (24, 16, d); (40, 9, e); (49, 7, f)].
  - unit_reads 2%nat [(0, 4, a); (4, 4, b); (8, 4, c); (12, 4, d)].
  - unit_reads 1%nat [(0, 4, a); (4, 4, b)].
  - unit_reads 1%nat [(0, 4, a)].
  - unit_reads 1%nat [(0, 1, a); (1, 1, b); (2, 1, c)].
  - unit_reads 1%nat [(0, 1, a); (1, 1, b); (2, 1, c)].
Qed.

End properties.
