(* ===== verification/MoreBitfields.v ===== *)
(** * The other bit fields of the bindings ([ffi/src/bindings_rustdoc.rs])

    As [Bitfields], for the structures of flow rules, of the HiGig2 header, of ports and of the
    kernel interface; a name starts with that of its structure, without [rte_]. *)

From S2P Require Import Prelude BitfieldUnit Bitfields.

Section accessors.
Context `{Profile}.

(** ** Flow rules *)

(** [rte_flow_attr] *)

Definition flow_attr_ingress (unit : list Z) : outcome Z := v ← get unit 0 1; Ret (wrap 32 v).
Definition set_flow_attr_ingress (unit : list Z) (val : Z) : outcome (list Z) := set unit 0 1 val.
Definition flow_attr_egress (unit : list Z) : outcome Z := v ← get unit 1 1; Ret (wrap 32 v).
Definition set_flow_attr_egress (unit : list Z) (val : Z) : outcome (list Z) := set unit 1 1 val.
Definition flow_attr_transfer (unit : list Z) : outcome Z := v ← get unit 2 1; Ret (wrap 32 v).
Definition set_flow_attr_transfer (unit : list Z) (val : Z) : outcome (list Z) := set unit 2 1 val.
Definition flow_attr_reserved (unit : list Z) : outcome Z := v ← get unit 3 29; Ret (wrap 32 v).
Definition set_flow_attr_reserved (unit : list Z) (val : Z) : outcome (list Z) := set unit 3 29 val.

Definition new_flow_attr (ingress egress transfer reserved_v : Z) : outcome (list Z) :=
  let unit := replicate 4 0 in
  unit ← set unit 0 1 ingress;
  unit ← set unit 1 1 egress;
  unit ← set unit 2 1 transfer;
  unit ← set unit 3 29 reserved_v;
  Ret unit.

(** [rte_flow_item_raw] *)

Definition flow_item_raw_relative (unit : list Z) : outcome Z := v ← get unit 0 1; Ret (wrap 32 v).
Definition set_flow_item_raw_relative (unit : list Z) (val : Z) : outcome (list Z) := set unit 0 1 val.
Definition flow_item_raw_search (unit : list Z) : outcome Z := v ← get unit 1 1; Ret (wrap 32 v).
Definition set_flow_item_raw_search (unit : list Z) (val : Z) : outcome (list Z) := set unit 1 1 val.
Definition flow_item_raw_reserved (unit : list Z) : outcome Z := v ← get unit 2 30; Ret (wrap 32 v).
Definition set_flow_item_raw_reserved (unit : list Z) (val : Z) : outcome (list Z) := set unit 2 30 val.

Definition new_flow_item_raw (relative search reserved_v : Z) : outcome (list Z) :=
  let unit := replicate 4 0 in
  unit ← set unit 0 1 relative;
  unit ← set unit 1 1 search;
  unit ← set unit 2 30 reserved_v;
  Ret unit.

(** [rte_flow_item_nsh] *)

Definition flow_item_nsh_version (unit : list Z) : outcome Z := v ← get unit 0 2; Ret (wrap 32 v).
Definition set_flow_item_nsh_version (unit : list Z) (val : Z) : outcome (list Z) := set unit 0 2 val.
Definition flow_item_nsh_oam_pkt (unit : list Z) : outcome Z := v ← get unit 2 1; Ret (wrap 32 v).
Definition set_flow_item_nsh_oam_pkt (unit : list Z) (val : Z) : outcome (list Z) := set unit 2 1 val.
Definition flow_item_nsh_reserved (unit : list Z) : outcome Z := v ← get unit 3 1; Ret (wrap 32 v).
Definition set_flow_item_nsh_reserved (unit : list Z) (val : Z) : outcome (list Z) := set unit 3 1 val.
Definition flow_item_nsh_ttl (unit : list Z) : outcome Z := v ← get unit 4 6; Ret (wrap 32 v).
Definition set_flow_item_nsh_ttl (unit : list Z) (val : Z) : outcome (list Z) := set unit 4 6 val.
Definition flow_item_nsh_length (unit : list Z) : outcome Z := v ← get unit 10 6; Ret (wrap 32 v).
Definition set_flow_item_nsh_length (unit : list Z) (val : Z) : outcome (list Z) := set unit 10 6 val.
Definition flow_item_nsh_reserved1 (unit : list Z) : outcome Z := v ← get unit 16 4; Ret (wrap 32 v).
Definition set_flow_item_nsh_reserved1 (unit : list Z) (val : Z) : outcome (list Z) := set unit 16 4 val.
Definition flow_item_nsh_mdtype (unit : list Z) : outcome Z := v ← get unit 20 4; Ret (wrap 32 v).
Definition set_flow_item_nsh_mdtype (unit : list Z) (val : Z) : outcome (list Z) := set unit 20 4 val.
Definition flow_item_nsh_next_proto (unit : list Z) : outcome Z := v ← get unit 24 8; Ret (wrap 32 v).
Definition set_flow_item_nsh_next_proto (unit : list Z) (val : Z) : outcome (list Z) := set unit 24 8 val.
Definition flow_item_nsh_spi (unit : list Z) : outcome Z := v ← get unit 32 24; Ret (wrap 32 v).
Definition set_flow_item_nsh_spi (unit : list Z) (val : Z) : outcome (list Z) := set unit 32 24 val.
Definition flow_item_nsh_sindex (unit : list Z) : outcome Z := v ← get unit 56 8; Ret (wrap 32 v).
Definition set_flow_item_nsh_sindex (unit : list Z) (val : Z) : outcome (list Z) := set unit 56 8 val.

Definition new_flow_item_nsh (version oam_pkt reserved_v ttl length reserved1 mdtype next_proto spi sindex : Z) : outcome (list Z) :=
  let unit := replicate 8 0 in
  unit ← set unit 0 2 version;
  unit ← set unit 2 1 oam_pkt;
  unit ← set unit 3 1 reserved_v;
  unit ← set unit 4 6 ttl;
  unit ← set unit 10 6 length;
  unit ← set unit 16 4 reserved1;
  unit ← set unit 20 4 mdtype;
  unit ← set unit 24 8 next_proto;
  unit ← set unit 32 24 spi;
  unit ← set unit 56 8 sindex;
  Ret unit.

(** [rte_flow_item_igmp] *)

Definition flow_item_igmp_type (unit : list Z) : outcome Z := v ← get unit 0 8; Ret (wrap 32 v).
Definition set_flow_item_igmp_type (unit : list Z) (val : Z) : outcome (list Z) := set unit 0 8 val.
Definition flow_item_igmp_max_resp_time (unit : list Z) : outcome Z := v ← get unit 8 8; Ret (wrap 32 v).
Definition set_flow_item_igmp_max_resp_time (unit : list Z) (val : Z) : outcome (list Z) := set unit 8 8 val.
Definition flow_item_igmp_checksum (unit : list Z) : outcome Z := v ← get unit 16 16; Ret (wrap 32 v).
Definition set_flow_item_igmp_checksum (unit : list Z) (val : Z) : outcome (list Z) := set unit 16 16 val.

Definition new_flow_item_igmp (type_v max_resp_time checksum : Z) : outcome (list Z) :=
  let unit := replicate 4 0 in
  unit ← set unit 0 8 type_v;
  unit ← set unit 8 8 max_resp_time;
  unit ← set unit 16 16 checksum;
  Ret unit.

(** [rte_flow_item_ah] *)

Definition flow_item_ah_next_hdr (unit : list Z) : outcome Z := v ← get unit 0 8; Ret (wrap 32 v).
Definition set_flow_item_ah_next_hdr (unit : list Z) (val : Z) : outcome (list Z) := set unit 0 8 val.
Definition flow_item_ah_payload_len (unit : list Z) : outcome Z := v ← get unit 8 8; Ret (wrap 32 v).
Definition set_flow_item_ah_payload_len (unit : list Z) (val : Z) : outcome (list Z) := set unit 8 8 val.
Definition flow_item_ah_reserved (unit : list Z) : outcome Z := v ← get unit 16 16; Ret (wrap 32 v).
Definition set_flow_item_ah_reserved (unit : list Z) (val : Z) : outcome (list Z) := set unit 16 16 val.

Definition new_flow_item_ah (next_hdr payload_len reserved_v : Z) : outcome (list Z) :=
  let unit := replicate 4 0 in
  unit ← set unit 0 8 next_hdr;
  unit ← set unit 8 8 payload_len;
  unit ← set unit 16 16 reserved_v;
  Ret unit.

(** [rte_flow_action_count] *)

Definition flow_action_count_shared (unit : list Z) : outcome Z := v ← get unit 0 1; Ret (wrap 32 v).
Definition set_flow_action_count_shared (unit : list Z) (val : Z) : outcome (list Z) := set unit 0 1 val.
Definition flow_action_count_reserved (unit : list Z) : outcome Z := v ← get unit 1 31; Ret (wrap 32 v).
Definition set_flow_action_count_reserved (unit : list Z) (val : Z) : outcome (list Z) := set unit 1 31 val.

Definition new_flow_action_count (shared reserved_v : Z) : outcome (list Z) :=
  let unit := replicate 4 0 in
  unit ← set unit 0 1 shared;
  unit ← set unit 1 31 reserved_v;
  Ret unit.

(** [rte_flow_query_count] *)

Definition flow_query_count_reset (unit : list Z) : outcome Z := v ← get unit 0 1; Ret (wrap 32 v).
Definition set_flow_query_count_reset (unit : list Z) (val : Z) : outcome (list Z) := set unit 0 1 val.
Definition flow_query_count_hits_set (unit : list Z) : outcome Z := v ← get unit 1 1; Ret (wrap 32 v).
Definition set_flow_query_count_hits_set (unit : list Z) (val : Z) : outcome (list Z) := set unit 1 1 val.
Definition flow_query_count_bytes_set (unit : list Z) : outcome Z := v ← get unit 2 1; Ret (wrap 32 v).
Definition set_flow_query_count_bytes_set (unit : list Z) (val : Z) : outcome (list Z) := set unit 2 1 val.
Definition flow_query_count_reserved (unit : list Z) : outcome Z := v ← get unit 3 29; Ret (wrap 32 v).
Definition set_flow_query_count_reserved (unit : list Z) (val : Z) : outcome (list Z) := set unit 3 29 val.

Definition new_flow_query_count (reset hits_set bytes_set reserved_v : Z) : outcome (list Z) :=
  let unit := replicate 4 0 in
  unit ← set unit 0 1 reset;
  unit ← set unit 1 1 hits_set;
  unit ← set unit 2 1 bytes_set;
  unit ← set unit 3 29 reserved_v;
  Ret unit.

(** [rte_flow_action_vf] *)

Definition flow_action_vf_original (unit : list Z) : outcome Z := v ← get unit 0 1; Ret (wrap 32 v).
Definition set_flow_action_vf_original (unit : list Z) (val : Z) : outcome (list Z) := set unit 0 1 val.
Definition flow_action_vf_reserved (unit : list Z) : outcome Z := v ← get unit 1 31; Ret (wrap 32 v).
Definition set_flow_action_vf_reserved (unit : list Z) (val : Z) : outcome (list Z) := set unit 1 31 val.

Definition new_flow_action_vf (original reserved_v : Z) : outcome (list Z) :=
  let unit := replicate 4 0 in
  unit ← set unit 0 1 original;
  unit ← set unit 1 31 reserved_v;
  Ret unit.

(** [rte_flow_action_phy_port] *)

Definition flow_action_phy_port_original (unit : list Z) : outcome Z := v ← get unit 0 1; Ret (wrap 32 v).
Definition set_flow_action_phy_port_original (unit : list Z) (val : Z) : outcome (list Z) := set unit 0 1 val.
Definition flow_action_phy_port_reserved (unit : list Z) : outcome Z := v ← get unit 1 31; Ret (wrap 32 v).
Definition set_flow_action_phy_port_reserved (unit : list Z) (val : Z) : outcome (list Z) := set unit 1 31 val.

Definition new_flow_action_phy_port (original reserved_v : Z) : outcome (list Z) :=
  let unit := replicate 4 0 in
  unit ← set unit 0 1 original;
  unit ← set unit 1 31 reserved_v;
  Ret unit.

(** [rte_flow_action_port_id] *)

Definition flow_action_port_id_original (unit : list Z) : outcome Z := v ← get unit 0 1; Ret (wrap 32 v).
Definition set_flow_action_port_id_original (unit : list Z) (val : Z) : outcome (list Z) := set unit 0 1 val.
Definition flow_action_port_id_reserved (unit : list Z) : outcome Z := v ← get unit 1 31; Ret (wrap 32 v).
Definition set_flow_action_port_id_reserved (unit : list Z) (val : Z) : outcome (list Z) := set unit 1 31 val.

Definition new_flow_action_port_id (original reserved_v : Z) : outcome (list Z) :=
  let unit := replicate 4 0 in
  unit ← set unit 0 1 original;
  unit ← set unit 1 31 reserved_v;
  Ret unit.

(** ** The HiGig2 header *)

(** [rte_higig2_frc] *)

Definition higig2_frc_ksop (unit : list Z) : outcome Z := v ← get unit 0 8; Ret (wrap 32 v).
Definition set_higig2_frc_ksop (unit : list Z) (val : Z) : outcome (list Z) := set unit 0 8 val.
Definition higig2_frc_tc (unit : list Z) : outcome Z := v ← get unit 8 4; Ret (wrap 32 v).
Definition set_higig2_frc_tc (unit : list Z) (val : Z) : outcome (list Z) := set unit 8 4 val.
Definition higig2_frc_mcst (unit : list Z) : outcome Z := v ← get unit 12 1; Ret (wrap 32 v).
Definition set_higig2_frc_mcst (unit : list Z) (val : Z) : outcome (list Z) := set unit 12 1 val.
Definition higig2_frc_resv (unit : list Z) : outcome Z := v ← get unit 13 3; Ret (wrap 32 v).
Definition set_higig2_frc_resv (unit : list Z) (val : Z) : outcome (list Z) := set unit 13 3 val.
Definition higig2_frc_dst_modid (unit : list Z) : outcome Z := v ← get unit 16 8; Ret (wrap 32 v).
Definition set_higig2_frc_dst_modid (unit : list Z) (val : Z) : outcome (list Z) := set unit 16 8 val.
Definition higig2_frc_dst_pid (unit : list Z) : outcome Z := v ← get unit 24 8; Ret (wrap 32 v).
Definition set_higig2_frc_dst_pid (unit : list Z) (val : Z) : outcome (list Z) := set unit 24 8 val.
Definition higig2_frc_src_modid (unit : list Z) : outcome Z := v ← get unit 32 8; Ret (wrap 32 v).
Definition set_higig2_frc_src_modid (unit : list Z) (val : Z) : outcome (list Z) := set unit 32 8 val.
Definition higig2_frc_src_pid (unit : list Z) : outcome Z := v ← get unit 40 8; Ret (wrap 32 v).
Definition set_higig2_frc_src_pid (unit : list Z) (val : Z) : outcome (list Z) := set unit 40 8 val.
Definition higig2_frc_lbid (unit : list Z) : outcome Z := v ← get unit 48 8; Ret (wrap 32 v).
Definition set_higig2_frc_lbid (unit : list Z) (val : Z) : outcome (list Z) := set unit 48 8 val.
Definition higig2_frc_ppd_type (unit : list Z) : outcome Z := v ← get unit 56 3; Ret (wrap 32 v).
Definition set_higig2_frc_ppd_type (unit : list Z) (val : Z) : outcome (list Z) := set unit 56 3 val.
Definition higig2_frc_resv1 (unit : list Z) : outcome Z := v ← get unit 59 3; Ret (wrap 32 v).
Definition set_higig2_frc_resv1 (unit : list Z) (val : Z) : outcome (list Z) := set unit 59 3 val.
Definition higig2_frc_dp (unit : list Z) : outcome Z := v ← get unit 62 2; Ret (wrap 32 v).
Definition set_higig2_frc_dp (unit : list Z) (val : Z) : outcome (list Z) := set unit 62 2 val.

Definition new_higig2_frc (ksop tc mcst resv dst_modid dst_pid src_modid src_pid lbid ppd_type resv1 dp : Z) : outcome (list Z) :=
  let unit := replicate 8 0 in
  unit ← set unit 0 8 ksop;
  unit ← set unit 8 4 tc;
  unit ← set unit 12 1 mcst;
  unit ← set unit 13 3 resv;
  unit ← set unit 16 8 dst_modid;
  unit ← set unit 24 8 dst_pid;
  unit ← set unit 32 8 src_modid;
  unit ← set unit 40 8 src_pid;
  unit ← set unit 48 8 lbid;
  unit ← set unit 56 3 ppd_type;
  unit ← set unit 59 3 resv1;
  unit ← set unit 62 2 dp;
  Ret unit.

(** [rte_higig2_ppt_type0] *)

Definition higig2_ppt_type0_mirror (unit : list Z) : outcome Z := v ← get unit 0 1; Ret (wrap 32 v).
Definition set_higig2_ppt_type0_mirror (unit : list Z) (val : Z) : outcome (list Z) := set unit 0 1 val.
Definition higig2_ppt_type0_mirror_done (unit : list Z) : outcome Z := v ← get unit 1 1; Ret (wrap 32 v).
Definition set_higig2_ppt_type0_mirror_done (unit : list Z) (val : Z) : outcome (list Z) := set unit 1 1 val.
Definition higig2_ppt_type0_mirror_only (unit : list Z) : outcome Z := v ← get unit 2 1; Ret (wrap 32 v).
Definition set_higig2_ppt_type0_mirror_only (unit : list Z) (val : Z) : outcome (list Z) := set unit 2 1 val.
Definition higig2_ppt_type0_ingress_tagged (unit : list Z) : outcome Z := v ← get unit 3 1; Ret (wrap 32 v).
Definition set_higig2_ppt_type0_ingress_tagged (unit : list Z) (val : Z) : outcome (list Z) := set unit 3 1 val.
Definition higig2_ppt_type0_dst_tgid (unit : list Z) : outcome Z := v ← get unit 4 3; Ret (wrap 32 v).
Definition set_higig2_ppt_type0_dst_tgid (unit : list Z) (val : Z) : outcome (list Z) := set unit 4 3 val.
Definition higig2_ppt_type0_dst_t (unit : list Z) : outcome Z := v ← get unit 7 1; Ret (wrap 32 v).
Definition set_higig2_ppt_type0_dst_t (unit : list Z) (val : Z) : outcome (list Z) := set unit 7 1 val.
Definition higig2_ppt_type0_vc_label2 (unit : list Z) : outcome Z := v ← get unit 8 4; Ret (wrap 32 v).
Definition set_higig2_ppt_type0_vc_label2 (unit : list Z) (val : Z) : outcome (list Z) := set unit 8 4 val.
Definition higig2_ppt_type0_label_present (unit : list Z) : outcome Z := v ← get unit 12 1; Ret (wrap 32 v).
Definition set_higig2_ppt_type0_label_present (unit : list Z) (val : Z) : outcome (list Z) := set unit 12 1 val.
Definition higig2_ppt_type0_l3 (unit : list Z) : outcome Z := v ← get unit 13 1; Ret (wrap 32 v).
Definition set_higig2_ppt_type0_l3 (unit : list Z) (val : Z) : outcome (list Z) := set unit 13 1 val.
Definition higig2_ppt_type0_res (unit : list Z) : outcome Z := v ← get unit 14 2; Ret (wrap 32 v).
Definition set_higig2_ppt_type0_res (unit : list Z) (val : Z) : outcome (list Z) := set unit 14 2 val.
Definition higig2_ppt_type0_vc_label1 (unit : list Z) : outcome Z := v ← get unit 16 8; Ret (wrap 32 v).
Definition set_higig2_ppt_type0_vc_label1 (unit : list Z) (val : Z) : outcome (list Z) := set unit 16 8 val.
Definition higig2_ppt_type0_vc_label0 (unit : list Z) : outcome Z := v ← get unit 24 8; Ret (wrap 32 v).
Definition set_higig2_ppt_type0_vc_label0 (unit : list Z) (val : Z) : outcome (list Z) := set unit 24 8 val.
Definition higig2_ppt_type0_vid_high (unit : list Z) : outcome Z := v ← get unit 32 8; Ret (wrap 32 v).
Definition set_higig2_ppt_type0_vid_high (unit : list Z) (val : Z) : outcome (list Z) := set unit 32 8 val.
Definition higig2_ppt_type0_vid_low (unit : list Z) : outcome Z := v ← get unit 40 8; Ret (wrap 32 v).
Definition set_higig2_ppt_type0_vid_low (unit : list Z) (val : Z) : outcome (list Z) := set unit 40 8 val.
Definition higig2_ppt_type0_opc (unit : list Z) : outcome Z := v ← get unit 48 3; Ret (wrap 32 v).
Definition set_higig2_ppt_type0_opc (unit : list Z) (val : Z) : outcome (list Z) := set unit 48 3 val.
Definition higig2_ppt_type0_res1 (unit : list Z) : outcome Z := v ← get unit 51 2; Ret (wrap 32 v).
Definition set_higig2_ppt_type0_res1 (unit : list Z) (val : Z) : outcome (list Z) := set unit 51 2 val.
Definition higig2_ppt_type0_srce_t (unit : list Z) : outcome Z := v ← get unit 53 1; Ret (wrap 32 v).
Definition set_higig2_ppt_type0_srce_t (unit : list Z) (val : Z) : outcome (list Z) := set unit 53 1 val.
Definition higig2_ppt_type0_pf (unit : list Z) : outcome Z := v ← get unit 54 2; Ret (wrap 32 v).
Definition set_higig2_ppt_type0_pf (unit : list Z) (val : Z) : outcome (list Z) := set unit 54 2 val.
Definition higig2_ppt_type0_res2 (unit : list Z) : outcome Z := v ← get unit 56 5; Ret (wrap 32 v).
Definition set_higig2_ppt_type0_res2 (unit : list Z) (val : Z) : outcome (list Z) := set unit 56 5 val.
Definition higig2_ppt_type0_hdr_ext_length (unit : list Z) : outcome Z := v ← get unit 61 3; Ret (wrap 32 v).
Definition set_higig2_ppt_type0_hdr_ext_length (unit : list Z) (val : Z) : outcome (list Z) := set unit 61 3 val.

Definition new_higig2_ppt_type0 (mirror mirror_done mirror_only ingress_tagged dst_tgid dst_t vc_label2 label_present l3 res vc_label1 vc_label0 vid_high vid_low opc res1 srce_t pf res2 hdr_ext_length : Z) : outcome (list Z) :=
  let unit := replicate 8 0 in
  unit ← set unit 0 1 mirror;
  unit ← set unit 1 1 mirror_done;
  unit ← set unit 2 1 mirror_only;
  unit ← set unit 3 1 ingress_tagged;
  unit ← set unit 4 3 dst_tgid;
  unit ← set unit 7 1 dst_t;
  unit ← set unit 8 4 vc_label2;
  unit ← set unit 12 1 label_present;
  unit ← set unit 13 1 l3;
  unit ← set unit 14 2 res;
  unit ← set unit 16 8 vc_label1;
  unit ← set unit 24 8 vc_label0;
  unit ← set unit 32 8 vid_high;
  unit ← set unit 40 8 vid_low;
  unit ← set unit 48 3 opc;
  unit ← set unit 51 2 res1;
  unit ← set unit 53 1 srce_t;
  unit ← set unit 54 2 pf;
  unit ← set unit 56 5 res2;
  unit ← set unit 61 3 hdr_ext_length;
  Ret unit.

(** [rte_higig2_ppt_type1] *)

Definition higig2_ppt_type1_opcode (unit : list Z) : outcome Z := v ← get unit 0 3; Ret (wrap 16 v).
Definition set_higig2_ppt_type1_opcode (unit : list Z) (val : Z) : outcome (list Z) := set unit 0 3 val.
Definition higig2_ppt_type1_resv1 (unit : list Z) : outcome Z := v ← get unit 3 2; Ret (wrap 16 v).
Definition set_higig2_ppt_type1_resv1 (unit : list Z) (val : Z) : outcome (list Z) := set unit 3 2 val.
Definition higig2_ppt_type1_src_t (unit : list Z) : outcome Z := v ← get unit 5 1; Ret (wrap 16 v).
Definition set_higig2_ppt_type1_src_t (unit : list Z) (val : Z) : outcome (list Z) := set unit 5 1 val.
Definition higig2_ppt_type1_pfm (unit : list Z) : outcome Z := v ← get unit 6 2; Ret (wrap 16 v).
Definition set_higig2_ppt_type1_pfm (unit : list Z) (val : Z) : outcome (list Z) := set unit 6 2 val.
Definition higig2_ppt_type1_resv2 (unit : list Z) : outcome Z := v ← get unit 8 5; Ret (wrap 16 v).
Definition set_higig2_ppt_type1_resv2 (unit : list Z) (val : Z) : outcome (list Z) := set unit 8 5 val.
Definition higig2_ppt_type1_hdr_ext_len (unit : list Z) : outcome Z := v ← get unit 13 3; Ret (wrap 16 v).
Definition set_higig2_ppt_type1_hdr_ext_len (unit : list Z) (val : Z) : outcome (list Z) := set unit 13 3 val.

Definition new_higig2_ppt_type1 (opcode resv1 src_t pfm resv2 hdr_ext_len : Z) : outcome (list Z) :=
  let unit := replicate 2 0 in
  unit ← set unit 0 3 opcode;
  unit ← set unit 3 2 resv1;
  unit ← set unit 5 1 src_t;
  unit ← set unit 6 2 pfm;
  unit ← set unit 8 5 resv2;
  unit ← set unit 13 3 hdr_ext_len;
  Ret unit.

(** ** Ports and the kernel interface *)

(** [rte_eth_link] *)

Definition eth_link_link_duplex (unit : list Z) : outcome Z := v ← get unit 0 1; Ret (wrap 16 v).
Definition set_eth_link_link_duplex (unit : list Z) (val : Z) : outcome (list Z) := set unit 0 1 val.
Definition eth_link_link_autoneg (unit : list Z) : outcome Z := v ← get unit 1 1; Ret (wrap 16 v).
Definition set_eth_link_link_autoneg (unit : list Z) (val : Z) : outcome (list Z) := set unit 1 1 val.
Definition eth_link_link_status (unit : list Z) : outcome Z := v ← get unit 2 1; Ret (wrap 16 v).
Definition set_eth_link_link_status (unit : list Z) (val : Z) : outcome (list Z) := set unit 2 1 val.

Definition new_eth_link (link_duplex link_autoneg link_status : Z) : outcome (list Z) :=
  let unit := replicate 1 0 in
  unit ← set unit 0 1 link_duplex;
  unit ← set unit 1 1 link_autoneg;
  unit ← set unit 2 1 link_status;
  Ret unit.

(** [rte_eth_dev_data] *)

Definition eth_dev_data_promiscuous (unit : list Z) : outcome Z := v ← get unit 0 1; Ret (wrap 8 v).
Definition set_eth_dev_data_promiscuous (unit : list Z) (val : Z) : outcome (list Z) := set unit 0 1 val.
Definition eth_dev_data_scattered_rx (unit : list Z) : outcome Z := v ← get unit 1 1; Ret (wrap 8 v).
Definition set_eth_dev_data_scattered_rx (unit : list Z) (val : Z) : outcome (list Z) := set unit 1 1 val.
Definition eth_dev_data_all_multicast (unit : list Z) : outcome Z := v ← get unit 2 1; Ret (wrap 8 v).
Definition set_eth_dev_data_all_multicast (unit : list Z) (val : Z) : outcome (list Z) := set unit 2 1 val.
Definition eth_dev_data_dev_started (unit : list Z) : outcome Z := v ← get unit 3 1; Ret (wrap 8 v).
Definition set_eth_dev_data_dev_started (unit : list Z) (val : Z) : outcome (list Z) := set unit 3 1 val.
Definition eth_dev_data_lro (unit : list Z) : outcome Z := v ← get unit 4 1; Ret (wrap 8 v).
Definition set_eth_dev_data_lro (unit : list Z) (val : Z) : outcome (list Z) := set unit 4 1 val.

Definition new_eth_dev_data (promiscuous scattered_rx all_multicast dev_started lro : Z) : outcome (list Z) :=
  let unit := replicate 1 0 in
  unit ← set unit 0 1 promiscuous;
  unit ← set unit 1 1 scattered_rx;
  unit ← set unit 2 1 all_multicast;
  unit ← set unit 3 1 dev_started;
  unit ← set unit 4 1 lro;
  Ret unit.

(** [rte_kni_device_info] *)

Definition kni_device_info_force_bind (unit : list Z) : outcome Z := v ← get unit 0 1; Ret (wrap 8 v).
Definition set_kni_device_info_force_bind (unit : list Z) (val : Z) : outcome (list Z) := set unit 0 1 val.

Definition new_kni_device_info (force_bind : Z) : outcome (list Z) :=
  let unit := replicate 1 0 in
  unit ← set unit 0 1 force_bind;
  Ret unit.

(** [rte_kni_conf] *)

Definition kni_conf_force_bind (unit : list Z) : outcome Z := v ← get unit 0 1; Ret (wrap 8 v).
Definition set_kni_conf_force_bind (unit : list Z) (val : Z) : outcome (list Z) := set unit 0 1 val.

Definition new_kni_conf (force_bind : Z) : outcome (list Z) :=
  let unit := replicate 1 0 in
  unit ← set unit 0 1 force_bind;
  Ret unit.

(** ** Each accessor reads its own value

    In every build, from the unit that [new_bitfield] makes of any values *)

Lemma flow_attr_reads v0 v1 v2 v3 : exists u, new_flow_attr v0 v1 v2 v3 = Ret u /\ length u = 4%nat /\
    flow_attr_ingress u = Ret (v0 `mod` 2 ^ 1) /\
    flow_attr_egress u = Ret (v1 `mod` 2 ^ 1) /\
    flow_attr_transfer u = Ret (v2 `mod` 2 ^ 1) /\
    flow_attr_reserved u = Ret (v3 `mod` 2 ^ 29).
Proof.
  unfold flow_attr_ingress, flow_attr_egress, flow_attr_transfer, flow_attr_reserved.
  unit_reads 4%nat [(0, 1, v0); (1, 1, v1); (2, 1, v2); (3, 29, v3)].
Qed.

Lemma flow_item_raw_reads v0 v1 v2 : exists u, new_flow_item_raw v0 v1 v2 = Ret u /\ length u = 4%nat /\
    flow_item_raw_relative u = Ret (v0 `mod` 2 ^ 1) /\
    flow_item_raw_search u = Ret (v1 `mod` 2 ^ 1) /\
    flow_item_raw_reserved u = Ret (v2 `mod` 2 ^ 30).
Proof.
  unfold flow_item_raw_relative, flow_item_raw_search, flow_item_raw_reserved.
  unit_reads 4%nat [(0, 1, v0); (1, 1, v1); (2, 30, v2)].
Qed.

Lemma flow_item_nsh_reads v0 v1 v2 v3 v4 v5 v6 v7 v8 v9 : exists u, new_flow_item_nsh v0 v1 v2 v3 v4 v5 v6 v7 v8 v9 = Ret u /\ length u = 8%nat /\
    flow_item_nsh_version u = Ret (v0 `mod` 2 ^ 2) /\
    flow_item_nsh_oam_pkt u = Ret (v1 `mod` 2 ^ 1) /\
    flow_item_nsh_reserved u = Ret (v2 `mod` 2 ^ 1) /\
    flow_item_nsh_ttl u = Ret (v3 `mod` 2 ^ 6) /\
    flow_item_nsh_length u = Ret (v4 `mod` 2 ^ 6) /\
    flow_item_nsh_reserved1 u = Ret (v5 `mod` 2 ^ 4) /\
    flow_item_nsh_mdtype u = Ret (v6 `mod` 2 ^ 4) /\
    flow_item_nsh_next_proto u = Ret (v7 `mod` 2 ^ 8) /\
    flow_item_nsh_spi u = Ret (v8 `mod` 2 ^ 24) /\
    flow_item_nsh_sindex u = Ret (v9 `mod` 2 ^ 8).
Proof.
  unfold flow_item_nsh_version, flow_item_nsh_oam_pkt, flow_item_nsh_reserved, flow_item_nsh_ttl, flow_item_nsh_length, flow_item_nsh_reserved1, flow_item_nsh_mdtype, flow_item_nsh_next_proto, flow_item_nsh_spi, flow_item_nsh_sindex.
  unit_reads 8%nat [(0, 2, v0); (2, 1, v1); (3, 1, v2); (4, 6, v3); (10, 6, v4); (16, 4, v5); (20, 4, v6); (24, 8, v7); (32, 24, v8); (56, 8, v9)].
Qed.

Lemma flow_item_igmp_reads v0 v1 v2 : exists u, new_flow_item_igmp v0 v1 v2 = Ret u /\ length u = 4%nat /\
    flow_item_igmp_type u = Ret (v0 `mod` 2 ^ 8) /\
    flow_item_igmp_max_resp_time u = Ret (v1 `mod` 2 ^ 8) /\
    flow_item_igmp_checksum u = Ret (v2 `mod` 2 ^ 16).
Proof.
  unfold flow_item_igmp_type, flow_item_igmp_max_resp_time, flow_item_igmp_checksum.
  unit_reads 4%nat [(0, 8, v0); (8, 8, v1); (16, 16, v2)].
Qed.

Lemma flow_item_ah_reads v0 v1 v2 : exists u, new_flow_item_ah v0 v1 v2 = Ret u /\ length u = 4%nat /\
    flow_item_ah_next_hdr u = Ret (v0 `mod` 2 ^ 8) /\
    flow_item_ah_payload_len u = Ret (v1 `mod` 2 ^ 8) /\
    flow_item_ah_reserved u = Ret (v2 `mod` 2 ^ 16).
Proof.
  unfold flow_item_ah_next_hdr, flow_item_ah_payload_len, flow_item_ah_reserved.
  unit_reads 4%nat [(0, 8, v0); (8, 8, v1); (16, 16, v2)].
Qed.

Lemma flow_action_count_reads v0 v1 : exists u, new_flow_action_count v0 v1 = Ret u /\ length u = 4%nat /\
    flow_action_count_shared u = Ret (v0 `mod` 2 ^ 1) /\
    flow_action_count_reserved u = Ret (v1 `mod` 2 ^ 31).
Proof.
  unfold flow_action_count_shared, flow_action_count_reserved.
  unit_reads 4%nat [(0, 1, v0); (1, 31, v1)].
Qed.

Lemma flow_query_count_reads v0 v1 v2 v3 : exists u, new_flow_query_count v0 v1 v2 v3 = Ret u /\ length u = 4%nat /\
    flow_query_count_reset u = Ret (v0 `mod` 2 ^ 1) /\
    flow_query_count_hits_set u = Ret (v1 `mod` 2 ^ 1) /\
    flow_query_count_bytes_set u = Ret (v2 `mod` 2 ^ 1) /\
    flow_query_count_reserved u = Ret (v3 `mod` 2 ^ 29).
Proof.
  unfold flow_query_count_reset, flow_query_count_hits_set, flow_query_count_bytes_set, flow_query_count_reserved.
  unit_reads 4%nat [(0, 1, v0); (1, 1, v1); (2, 1, v2); (3, 29, v3)].
Qed.

Lemma flow_action_vf_reads v0 v1 : exists u, new_flow_action_vf v0 v1 = Ret u /\ length u = 4%nat /\
    flow_action_vf_original u = Ret (v0 `mod` 2 ^ 1) /\
    flow_action_vf_reserved u = Ret (v1 `mod` 2 ^ 31).
Proof.
  unfold flow_action_vf_original, flow_action_vf_reserved.
  unit_reads 4%nat [(0, 1, v0); (1, 31, v1)].
Qed.

Lemma flow_action_phy_port_reads v0 v1 : exists u, new_flow_action_phy_port v0 v1 = Ret u /\ length u = 4%nat /\
    flow_action_phy_port_original u = Ret (v0 `mod` 2 ^ 1) /\
    flow_action_phy_port_reserved u = Ret (v1 `mod` 2 ^ 31).
Proof.
  unfold flow_action_phy_port_original, flow_action_phy_port_reserved.
  unit_reads 4%nat [(0, 1, v0); (1, 31, v1)].
Qed.

Lemma flow_action_port_id_reads v0 v1 : exists u, new_flow_action_port_id v0 v1 = Ret u /\ length u = 4%nat /\
    flow_action_port_id_original u = Ret (v0 `mod` 2 ^ 1) /\
    flow_action_port_id_reserved u = Ret (v1 `mod` 2 ^ 31).
Proof.
  unfold flow_action_port_id_original, flow_action_port_id_reserved.
  unit_reads 4%nat [(0, 1, v0); (1, 31, v1)].
Qed.

Lemma higig2_frc_reads v0 v1 v2 v3 v4 v5 v6 v7 v8 v9 v10 v11 : exists u, new_higig2_frc v0 v1 v2 v3 v4 v5 v6 v7 v8 v9 v10 v11 = Ret u /\ length u = 8%nat /\
    higig2_frc_ksop u = Ret (v0 `mod` 2 ^ 8) /\
    higig2_frc_tc u = Ret (v1 `mod` 2 ^ 4) /\
    higig2_frc_mcst u = Ret (v2 `mod` 2 ^ 1) /\
    higig2_frc_resv u = Ret (v3 `mod` 2 ^ 3) /\
    higig2_frc_dst_modid u = Ret (v4 `mod` 2 ^ 8) /\
    higig2_frc_dst_pid u = Ret (v5 `mod` 2 ^ 8) /\
    higig2_frc_src_modid u = Ret (v6 `mod` 2 ^ 8) /\
    higig2_frc_src_pid u = Ret (v7 `mod` 2 ^ 8) /\
    higig2_frc_lbid u = Ret (v8 `mod` 2 ^ 8) /\
    higig2_frc_ppd_type u = Ret (v9 `mod` 2 ^ 3) /\
    higig2_frc_resv1 u = Ret (v10 `mod` 2 ^ 3) /\
    higig2_frc_dp u = Ret (v11 `mod` 2 ^ 2).
Proof.
  unfold higig2_frc_ksop, higig2_frc_tc, higig2_frc_mcst, higig2_frc_resv, higig2_frc_dst_modid, higig2_frc_dst_pid, higig2_frc_src_modid, higig2_frc_src_pid, higig2_frc_lbid, higig2_frc_ppd_type, higig2_frc_resv1, higig2_frc_dp.
  unit_reads 8%nat [(0, 8, v0); (8, 4, v1); (12, 1, v2); (13, 3, v3); (16, 8, v4); (24, 8, v5); (32, 8, v6); (40, 8, v7); (48, 8, v8); (56, 3, v9); (59, 3, v10); (62, 2, v11)].
Qed.

Lemma higig2_ppt_type0_reads v0 v1 v2 v3 v4 v5 v6 v7 v8 v9 v10 v11 v12 v13 v14 v15 v16 v17 v18 v19 : exists u, new_higig2_ppt_type0 v0 v1 v2 v3 v4 v5 v6 v7 v8 v9 v10 v11 v12 v13 v14 v15 v16 v17 v18 v19 = Ret u /\ length u = 8%nat /\
    higig2_ppt_type0_mirror u = Ret (v0 `mod` 2 ^ 1) /\
    higig2_ppt_type0_mirror_done u = Ret (v1 `mod` 2 ^ 1) /\
    higig2_ppt_type0_mirror_only u = Ret (v2 `mod` 2 ^ 1) /\
    higig2_ppt_type0_ingress_tagged u = Ret (v3 `mod` 2 ^ 1) /\
    higig2_ppt_type0_dst_tgid u = Ret (v4 `mod` 2 ^ 3) /\
    higig2_ppt_type0_dst_t u = Ret (v5 `mod` 2 ^ 1) /\
    higig2_ppt_type0_vc_label2 u = Ret (v6 `mod` 2 ^ 4) /\
    higig2_ppt_type0_label_present u = Ret (v7 `mod` 2 ^ 1) /\
    higig2_ppt_type0_l3 u = Ret (v8 `mod` 2 ^ 1) /\
    higig2_ppt_type0_res u = Ret (v9 `mod` 2 ^ 2) /\
    higig2_ppt_type0_vc_label1 u = Ret (v10 `mod` 2 ^ 8) /\
    higig2_ppt_type0_vc_label0 u = Ret (v11 `mod` 2 ^ 8) /\
    higig2_ppt_type0_vid_high u = Ret (v12 `mod` 2 ^ 8) /\
    higig2_ppt_type0_vid_low u = Ret (v13 `mod` 2 ^ 8) /\
    higig2_ppt_type0_opc u = Ret (v14 `mod` 2 ^ 3) /\
    higig2_ppt_type0_res1 u = Ret (v15 `mod` 2 ^ 2) /\
    higig2_ppt_type0_srce_t u = Ret (v16 `mod` 2 ^ 1) /\
    higig2_ppt_type0_pf u = Ret (v17 `mod` 2 ^ 2) /\
    higig2_ppt_type0_res2 u = Ret (v18 `mod` 2 ^ 5) /\
    higig2_ppt_type0_hdr_ext_length u = Ret (v19 `mod` 2 ^ 3).
Proof.
  unfold higig2_ppt_type0_mirror, higig2_ppt_type0_mirror_done, higig2_ppt_type0_mirror_only, higig2_ppt_type0_ingress_tagged, higig2_ppt_type0_dst_tgid, higig2_ppt_type0_dst_t, higig2_ppt_type0_vc_label2, higig2_ppt_type0_label_present, higig2_ppt_type0_l3, higig2_ppt_type0_res, higig2_ppt_type0_vc_label1, higig2_ppt_type0_vc_label0, higig2_ppt_type0_vid_high, higig2_ppt_type0_vid_low, higig2_ppt_type0_opc, higig2_ppt_type0_res1, higig2_ppt_type0_srce_t, higig2_ppt_type0_pf, higig2_ppt_type0_res2, higig2_ppt_type0_hdr_ext_length.
  unit_reads 8%nat [(0, 1, v0); (1, 1, v1); (2, 1, v2); (3, 1, v3); (4, 3, v4); (7, 1, v5); (8, 4, v6); (12, 1, v7); (13, 1, v8); (14, 2, v9); (16, 8, v10); (24, 8, v11); (32, 8, v12); (40, 8, v13); (48, 3, v14); (51, 2, v15); (53, 1, v16); (54, 2, v17); (56, 5, v18); (61, 3, v19)].
Qed.

Lemma higig2_ppt_type1_reads v0 v1 v2 v3 v4 v5 : exists u, new_higig2_ppt_type1 v0 v1 v2 v3 v4 v5 = Ret u /\ length u = 2%nat /\
    higig2_ppt_type1_opcode u = Ret (v0 `mod` 2 ^ 3) /\
    higig2_ppt_type1_resv1 u = Ret (v1 `mod` 2 ^ 2) /\
    higig2_ppt_type1_src_t u = Ret (v2 `mod` 2 ^ 1) /\
    higig2_ppt_type1_pfm u = Ret (v3 `mod` 2 ^ 2) /\
    higig2_ppt_type1_resv2 u = Ret (v4 `mod` 2 ^ 5) /\
    higig2_ppt_type1_hdr_ext_len u = Ret (v5 `mod` 2 ^ 3).
Proof.
  unfold higig2_ppt_type1_opcode, higig2_ppt_type1_resv1, higig2_ppt_type1_src_t, higig2_ppt_type1_pfm, higig2_ppt_type1_resv2, higig2_ppt_type1_hdr_ext_len.
  unit_reads 2%nat [(0, 3, v0); (3, 2, v1); (5, 1, v2); (6, 2, v3); (8, 5, v4); (13, 3, v5)].
Qed.

Lemma eth_link_reads v0 v1 v2 : exists u, new_eth_link v0 v1 v2 = Ret u /\ length u = 1%nat /\
    eth_link_link_duplex u = Ret (v0 `mod` 2 ^ 1) /\
    eth_link_link_autoneg u = Ret (v1 `mod` 2 ^ 1) /\
    eth_link_link_status u = Ret (v2 `mod` 2 ^ 1).
Proof.
  unfold eth_link_link_duplex, eth_link_link_autoneg, eth_link_link_status.
  unit_reads 1%nat [(0, 1, v0); (1, 1, v1); (2, 1, v2)].
Qed.

Lemma eth_dev_data_reads v0 v1 v2 v3 v4 : exists u, new_eth_dev_data v0 v1 v2 v3 v4 = Ret u /\ length u = 1%nat /\
    eth_dev_data_promiscuous u = Ret (v0 `mod` 2 ^ 1) /\
    eth_dev_data_scattered_rx u = Ret (v1 `mod` 2 ^ 1) /\
    eth_dev_data_all_multicast u = Ret (v2 `mod` 2 ^ 1) /\
    eth_dev_data_dev_started u = Ret (v3 `mod` 2 ^ 1) /\
    eth_dev_data_lro u = Ret (v4 `mod` 2 ^ 1).
Proof.
  unfold eth_dev_data_promiscuous, eth_dev_data_scattered_rx, eth_dev_data_all_multicast, eth_dev_data_dev_started, eth_dev_data_lro.
  unit_reads 1%nat [(0, 1, v0); (1, 1, v1); (2, 1, v2); (3, 1, v3); (4, 1, v4)].
Qed.

Lemma kni_device_info_reads v0 : exists u, new_kni_device_info v0 = Ret u /\ length u = 1%nat /\
    kni_device_info_force_bind u = Ret (v0 `mod` 2 ^ 1).
Proof.
  unfold kni_device_info_force_bind.
  unit_reads 1%nat [(0, 1, v0)].
Qed.

Lemma kni_conf_reads v0 : exists u, new_kni_conf v0 = Ret u /\ length u = 1%nat /\
    kni_conf_force_bind u = Ret (v0 `mod` 2 ^ 1).
Proof.
  unfold kni_conf_force_bind.
  unit_reads 1%nat [(0, 1, v0)].
Qed.

End accessors.
