(* ===== verification/Layout.v ===== *)
(** * Layouts of C structures

    What [#[repr(C)]], [#[repr(C, packed)]] and [#[repr(align(n))]] make of the structures and
    unions of the bindings, on x86-64: sizes, alignments and offsets in bytes, and the memory of
    a structure as bytes. [Bindings] applies it to the structures of the bindings. *)

From S2P Require Import Prelude.

(** A field is where its bytes are. *)
Record field := Field { field_name : string; field_offset : Z; field_size : Z }.

Record layout := Layout { size : Z; align : Z; fields : list field }.

(** ** The layouts of types *)

(** An integer of [n] bytes, aligned to them, and a pointer *)
Definition prim (n : Z) : layout := Layout n n [].
Definition u8 : layout := prim 1.
Definition u16 : layout := prim 2.
Definition u32 : layout := prim 4.
Definition u64 : layout := prim 8.
Definition i32 : layout := prim 4.
Definition pointer : layout := prim 8.
Definition c_char : layout := prim 1.
Definition c_int : layout := prim 4.
Definition c_uint : layout := prim 4.
Definition c_ulong : layout := prim 8.
Definition i64 : layout := prim 8.
Definition f64 : layout := prim 8.
Definition c_schar : layout := prim 1.
Definition c_uchar : layout := prim 1.
Definition c_ushort : layout := prim 2.
Definition c_long : layout := prim 8.
Definition c_longlong : layout := prim 8.

(** Compilers before 1.77 align it to 8 bytes; the bindings use it only inside unions that are
    aligned to 16. *)
Definition u128 : layout := prim 16.
Definition i128 : layout := prim 16.

(** [[T; n]] *)
Definition array (t : layout) (n : Z) : layout := Layout (n * size t) (align t) [].

(** The first multiple of [a] from [z] on *)
Definition round_up (z a : Z) : Z := (z + a - 1) / a * a.

(** Fields one after the other, each at the next offset its alignment allows *)
Fixpoint place (packed : bool) (offset : Z) (fs : list (string * layout)) : list field * Z :=
  match fs with
  | [] => ([], offset)
  | (n, t) :: fs =>
      let offset := if packed then offset else round_up offset (align t) in
      let '(placed, last) := place packed (offset + size t) fs in
      (Field n offset (size t) :: placed, last)
  end.

Definition max_of (l : list Z) (z : Z) : Z := fold_right Z.max z l.
Definition max_align (fs : list (string * layout)) : Z := max_of (map (fun f => align f.2) fs) 1.

Definition repr_c (fs : list (string * layout)) : layout :=
  let '(placed, last) := place false 0 fs in
  Layout (round_up last (max_align fs)) (max_align fs) placed.

Definition repr_c_packed (fs : list (string * layout)) : layout :=
  let '(placed, last) := place true 0 fs in Layout last 1 placed.

(** [#[repr(align(n))]] on what [t] is *)
Definition repr_align (n : Z) (t : layout) : layout :=
  let a := Z.max n (align t) in Layout (round_up (size t) a) a (fields t).

Definition repr_union (fs : list (string * layout)) : layout :=
  let largest := max_of (map (fun f => size f.2) fs) 0 in
  Layout (round_up largest (max_align fs)) (max_align fs)
    (map (fun f => Field f.1 0 (size f.2)) fs).

(** [__BindgenBitfieldUnit<[u8; n], Align>], [__IncompleteArrayField<T>]; [PhantomData] is empty. *)
Definition bitfield_unit (n : Z) (a : layout) : layout :=
  repr_c [("storage"%string, array u8 n); ("align"%string, array a 0)].
Definition incomplete_array (t : layout) : layout :=
  repr_c [("0"%string, array u8 0); ("1"%string, array t 0)].

Definition field_of (l : layout) (n : string) : option field :=
  find (fun f => String.eqb (field_name f) n) (fields l).

(** What a generated layout test asserts: the size, the alignment, the offsets. *)
Definition layout_test (l : layout) (sz al : Z) (offsets : list (string * Z)) : bool :=
  (size l =? sz) && (align l =? al) &&
  forallb (fun o => match field_of l o.1 with Some f => field_offset f =? o.2 | None => false end) offsets.

(** ** Sound layouts *)

Definition pow2 (z : Z) : Prop := exists k, 0 <= k /\ z = 2 ^ k.

Definition inside (sz : Z) (f : field) : Prop :=
  0 <= field_offset f /\ 0 <= field_size f /\ field_offset f + field_size f <= sz.

Record sound (l : layout) : Prop := {
  sound_align : pow2 (align l);
  sound_size : 0 <= size l /\ (align l | size l);
  sound_fields : Forall (inside (size l)) (fields l);
}.

(** Each field ends before every later one starts. *)
Definition apart (f g : field) : Prop := field_offset f + field_size f <= field_offset g.
Definition ordered (fs : list field) : Prop := ForallOrdPairs apart fs.

Lemma pow2_pos a : pow2 a -> 0 < a.
Proof. intros (k & ? & ->). lia. Qed.

(** Of two powers of two the smaller divides the larger. *)
Lemma pow2_divide a b : pow2 a -> pow2 b -> a <= b -> (a | b).
Proof.
  intros (j & Hj & ->) (k & Hk & ->) H. apply Z.pow_le_mono_r_iff in H; [|lia|lia].
  exists (2 ^ (k - j)). rewrite <- Z.pow_add_r by lia. f_equal. lia.
Qed.

Lemma pow2_max a b : pow2 a -> pow2 b -> pow2 (Z.max a b).
Proof. intros Ha Hb. destruct (Z.max_spec a b) as [[_ ->]|[_ ->]]; done. Qed.

Lemma round_up_spec z a : 0 < a -> z <= round_up z a < z + a /\ (a | round_up z a).
Proof.
  intros Ha. unfold round_up. split; [|by exists ((z + a - 1) / a)].
  pose proof (Z.div_mod (z + a - 1) a). pose proof (Z.mod_pos_bound (z + a - 1) a). lia.
Qed.

Lemma max_of_ge l z x : x ∈ l -> x <= max_of l z.
Proof.
  induction l as [|y l IH]; [by intros ?%not_elem_of_nil|]. cbn.
  intros [->|Hx]%elem_of_cons; [lia|]. specialize (IH Hx). unfold max_of in *. lia.
Qed.

Lemma max_of_base l z : z <= max_of l z.
Proof. induction l as [|y l IH]; cbn; [lia|]. unfold max_of in IH. lia. Qed.

Definition sound_all (fs : list (string * layout)) : Prop := Forall (fun f => sound f.2) fs.

Lemma max_align_pow2 fs : sound_all fs -> pow2 (max_align fs).
Proof.
  unfold max_align, max_of. induction 1 as [|f fs Hf _ IH]; cbn; [by exists 0|].
  by apply pow2_max; [apply Hf|].
Qed.

Lemma max_align_divides fs n t : sound_all fs -> (n, t) ∈ fs -> (align t | max_align fs).
Proof.
  intros H Hin. apply pow2_divide.
  - apply (proj1 (Forall_forall _ _) H _ Hin).
  - by apply max_align_pow2.
  - apply max_of_ge, list_elem_of_In. rewrite in_map_iff. exists (n, t). split; [done|]. by apply list_elem_of_In.
Qed.

(** What [place] makes of fields: from [offset] on, in order, and with [packed] off, aligned *)
Record placed_at (packed : bool) (offset last : Z) (fs : list (string * layout)) (l : list field) : Prop := {
  placed_names : map field_name l = map fst fs;
  placed_sizes : map field_size l = map (fun f => size f.2) fs;
  placed_inside : offset <= last /\ Forall (fun f => offset <= field_offset f /\ 0 <= field_size f /\
    field_offset f + field_size f <= last) l;
  placed_ordered : ordered l;
  placed_aligned : packed = false -> Forall2 (fun f t => (align t.2 | field_offset f)) l fs;
}.

Lemma place_spec packed fs : forall offset, sound_all fs -> 
  placed_at packed offset (place packed offset fs).2 fs (place packed offset fs).1.
Proof.
  induction fs as [|[n t] fs IH]; intros offset H; cbn [place].
  { split; cbn; try done; try (by constructor). }
  inversion_clear H as [|? ? Ht Hfs].
  pose proof (round_up_spec offset (align t) (pow2_pos _ (sound_align _ Ht))) as [Hr Hd].
  set (o := if packed then offset else round_up offset (align t)).
  assert (offset <= o) as Ho by (unfold o; destruct packed; lia).
  destruct (sound_size _ Ht) as [Hs _]. cbn [snd] in Hs.
  specialize (IH (o + size t) Hfs). destruct (place packed (o + size t) fs) as [l last] eqn:E.
  cbn [fst snd] in *. destruct IH as [N S [Hl I] O A]. split.
  - cbn. by rewrite N.
  - cbn. by rewrite S.
  - split; [lia|]. constructor; [cbn; lia|]. eapply Forall_impl; [exact I|]. cbn. lia.
  - apply FOP_cons; [|done]. apply Forall_forall. intros g Hg. unfold apart. cbn.
    pose proof (proj1 (Forall_forall _ _) I g Hg). cbn in *. lia.
  - intros ->. constructor; [done|]. by apply A.
Qed.

(** A structure, packed or not *)
Definition structure (packed : bool) (fs : list (string * layout)) : layout :=
  if packed then repr_c_packed fs else repr_c fs.

Lemma structure_placed packed fs : sound_all fs -> exists last,
  placed_at packed 0 last fs (fields (structure packed fs)) /\ last <= size (structure packed fs).
Proof.
  intros H. exists (place packed 0 fs).2. pose proof (place_spec packed fs 0 H) as P.
  unfold structure, repr_c, repr_c_packed. destruct packed.
  - destruct (place true 0 fs) as [l last]. by split; [|cbn; lia].
  - pose proof (round_up_spec (place false 0 fs).2 (max_align fs) (pow2_pos _ (max_align_pow2 _ H))).
    destruct (place false 0 fs) as [l last]. split; [done|]. cbn in *. lia.
Qed.

Lemma structure_sound packed fs : sound_all fs -> sound (structure packed fs).
Proof.
  intros H. destruct (structure_placed packed fs H) as (last & [_ _ [Hl I] _ _] & Hs).
  assert (Forall (inside (size (structure packed fs))) (fields (structure packed fs))) as F.
  { eapply Forall_impl; [exact I|]. unfold inside. cbn. lia. }
  split; [| |done].
  - unfold structure, repr_c, repr_c_packed. destruct packed; destruct (place _ 0 fs); cbn; [by exists 0|].
    by apply max_align_pow2.
  - split; [lia|]. unfold structure, repr_c, repr_c_packed.
    destruct packed; destruct (place _ 0 fs); cbn; [apply Z.divide_1_l|].
    by apply round_up_spec, pow2_pos, max_align_pow2.
Qed.

Lemma prim_sound n : pow2 n -> sound (prim n).
Proof. intros H. split; cbn; [done|split; [by apply Z.lt_le_incl, pow2_pos|done]|constructor]. Qed.

Lemma array_sound t n : sound t -> 0 <= n -> sound (array t n).
Proof.
  intros [Ha [Hs Hd] _] Hn. split; cbn; [done| |constructor]. split; [lia|by apply Z.divide_mul_r].
Qed.

Lemma inside_le sz sz' f : sz <= sz' -> inside sz f -> inside sz' f.
Proof. unfold inside. lia. Qed.

Lemma repr_align_sound n t : pow2 n -> sound t -> sound (repr_align n t).
Proof.
  intros Hn [Ha [Hs _] Hf]. pose proof (pow2_max n (align t) Hn Ha) as Hm.
  pose proof (round_up_spec (size t) _ (pow2_pos _ Hm)) as [Hr Hd]. split; cbn; [done|split; [lia|done]|].
  eapply Forall_impl; [exact Hf|]. intros f. apply inside_le. lia.
Qed.

Lemma repr_union_sound fs : sound_all fs -> sound (repr_union fs).
Proof.
  intros H. pose proof (max_align_pow2 fs H) as Hm.
  pose proof (round_up_spec (max_of (map (fun f => size f.2) fs) 0) _ (pow2_pos _ Hm)) as [Hr Hd].
  pose proof (max_of_base (map (fun f => size f.2) fs) 0). split; cbn; [done|split; [lia|done]|].
  apply Forall_map, Forall_forall. intros [n t] Hin. unfold inside. cbn.
  pose proof (proj1 (Forall_forall _ _) H _ Hin) as [_ [? _] _]. cbn in *.
  pose proof (max_of_ge (map (fun f => size f.2) fs) 0 (size t)) as G. rewrite list_elem_of_In, in_map_iff in G.
  specialize (G (ex_intro _ (n, t) (conj eq_refl (proj1 (list_elem_of_In _ _) Hin)))). lia.
Qed.

(** Goes through the declaration of a type and of those it uses. *)
Ltac sound_layout :=
  unfold sound_all;
  repeat match goal with
  | |- pow2 ?n => let k := eval vm_compute in (Z.log2 n) in exists k; split; [lia|reflexivity]
  | |- sound (prim _) => apply prim_sound
  | |- sound (array _ _) => apply array_sound
  | |- sound (repr_align _ _) => apply repr_align_sound
  | |- sound (repr_union _) => apply repr_union_sound; unfold sound_all
  | |- sound (repr_c _) => apply (structure_sound false); unfold sound_all
  | |- sound (repr_c_packed _) => apply (structure_sound true); unfold sound_all
  | |- Forall _ [] => constructor
  | |- Forall _ (_ :: _) => constructor; cbn [snd]
  | |- sound ?l => let l := eval red in l in change (sound l)
  | |- _ <= _ => lia
  end.

(** ** The memory of a structure *)

Definition read_field (f : field) (mem : list Z) : list Z :=
  take (Z.to_nat (field_size f)) (drop (Z.to_nat (field_offset f)) mem).

Definition write_field (f : field) (bytes mem : list Z) : list Z :=
  take (Z.to_nat (field_offset f)) mem ++ bytes ++ drop (Z.to_nat (field_offset f + field_size f)) mem.

Lemma lookup_write f bytes mem (i : nat) : inside (Z.of_nat (length mem)) f ->
  Z.of_nat (length bytes) = field_size f ->
  write_field f bytes mem !! i =
  if (field_offset f <=? Z.of_nat i) && (Z.of_nat i <? field_offset f + field_size f)
  then bytes !! (i - Z.to_nat (field_offset f))%nat else mem !! i.
Proof.
  unfold inside, write_field. intros (H0 & H1 & H2) Hb.
  assert (length (take (Z.to_nat (field_offset f)) mem) = Z.to_nat (field_offset f)) as L
    by (rewrite length_take; lia).
  destruct (Z.leb_spec (field_offset f) (Z.of_nat i)) as [Hi|Hi]; cbn [andb].
  - rewrite lookup_app_r, L by lia. destruct (Z.ltb_spec (Z.of_nat i) (field_offset f + field_size f)).
    + by rewrite lookup_app_l by lia.
    + rewrite lookup_app_r, lookup_drop by lia. f_equal. lia.
  - rewrite lookup_app_l, lookup_take_lt by lia. done.
Qed.

Lemma length_write f bytes mem : inside (Z.of_nat (length mem)) f ->
  Z.of_nat (length bytes) = field_size f -> length (write_field f bytes mem) = length mem.
Proof. unfold inside, write_field. intros H Hb. rewrite !length_app, length_take, length_drop. lia. Qed.

Lemma read_written f bytes mem : inside (Z.of_nat (length mem)) f ->
  Z.of_nat (length bytes) = field_size f -> read_field f (write_field f bytes mem) = bytes.
Proof.
  unfold inside, read_field, write_field. intros H Hb.
  rewrite drop_app_length' by (rewrite length_take; lia). apply take_app_length'. lia.
Qed.

Lemma read_other f g bytes mem : inside (Z.of_nat (length mem)) f -> inside (Z.of_nat (length mem)) g ->
  Z.of_nat (length bytes) = field_size f -> apart f g \/ apart g f ->
  read_field g (write_field f bytes mem) = read_field g mem.
Proof.
  intros Hf Hg Hb Ha. unfold read_field. apply list_eq. intros i.
  destruct (decide (i < Z.to_nat (field_size g))%nat) as [Hi|Hi].
  - rewrite !lookup_take_lt, !lookup_drop, lookup_write by done.
    unfold apart, inside in *.
    destruct (_ && _) eqn:E; [|done]. apply andb_true_iff in E as [E1 E2]. zify_bool. lia.
  - rewrite !lookup_take_ge by lia. done.
Qed.

Lemma ordered_lookup fs i j f g : ordered fs -> fs !! i = Some f -> fs !! j = Some g -> i <> j ->
  apart f g \/ apart g f.
Proof.
  intros H. revert i j. induction H as [|h fs Hh _ IH]; intros i j Ei Ej Ne; [done|].
  destruct i as [|i], j as [|j]; cbn in *; [done| | |eapply IH; eauto].
  - injection Ei as ->. left. eapply (proj1 (Forall_lookup _ _) Hh); eauto.
  - injection Ej as ->. right. eapply (proj1 (Forall_lookup _ _) Hh); eauto.
Qed.

(** ** Structures *)

(** A structure whose fields have sound layouts is sound itself, its fields have their sizes and
    follow one another in order; unless it is packed, wherever a value of it is placed at a
    multiple of its alignment, each field is at a multiple of its own. *)
Lemma structure_layout packed fs : sound_all fs ->
  let l := structure packed fs in
  sound l /\ ordered (fields l) /\
  map field_name (fields l) = map fst fs /\ map field_size (fields l) = map (fun f => size f.2) fs /\
  (packed = false -> forall base, (align l | base) ->
    Forall2 (fun f t => (align t.2 | base + field_offset f)) (fields l) fs).
Proof.
  intros H l. split; [by apply structure_sound|].
  destruct (structure_placed packed fs H) as (last & [N S _ O A] & _).
  do 3 (split; [done|]). intros -> base Hb. specialize (A eq_refl). fold l in A.
  assert (Forall (fun t => (align t.2 | align l)) fs) as D.
  { apply Forall_forall. intros [n t] Hin. unfold l, structure, repr_c.
    destruct (place false 0 fs). by eapply max_align_divides. }
  revert A D Hb. generalize (align l), (fields l). clear. intros a placed A D Hb.
  induction A as [|f t l' fs Hf _ IH]; [constructor|].
  inversion_clear D as [|? ? Hd Hds]. constructor; [|by apply IH]. apply Z.divide_add_r; [|done].
  by eapply Z.divide_trans.
Qed.

(** What of two fields of a structure in memory: bytes written to one are what it then reads, the
    other reads as before, and the structure keeps its length. *)
Lemma fields_independent l mem bytes i j f g : sound l -> ordered (fields l) ->
  Z.of_nat (length mem) = size l -> fields l !! i = Some f -> fields l !! j = Some g -> i <> j ->
  Z.of_nat (length bytes) = field_size f ->
  let mem' := write_field f bytes mem in
  length mem' = length mem /\ read_field f mem' = bytes /\ read_field g mem' = read_field g mem.
Proof.
  intros [_ _ F] O Hm Ei Ej Ne Hb mem'. rewrite <- Hm in F.
  pose proof (proj1 (Forall_lookup _ _) F _ _ Ei). pose proof (proj1 (Forall_lookup _ _) F _ _ Ej).
  split; [by apply length_write|]. split; [by apply read_written|]. apply read_other; try done.
  by eapply ordered_lookup.
Qed.

Lemma structure_ordered packed fs : sound_all fs -> ordered (fields (structure packed fs)).
Proof. intros H. by destruct (structure_placed packed fs H) as (last & [_ _ _ O _] & _). Qed.

(** As [sound_layout], for the order of the fields *)
Ltac ordered_layout :=
  match goal with
  | |- ordered (fields (repr_align _ ?t)) => change (ordered (fields t)); ordered_layout
  | |- ordered (fields (repr_c _)) => apply (structure_ordered false); sound_layout
  | |- ordered (fields (repr_c_packed _)) => apply (structure_ordered true); sound_layout
  | |- ordered (fields ?l) => let l := eval red in l in change (ordered (fields l)); ordered_layout
  end.

(** A structure with holes, and the same without *)
Definition holes : list (string * layout) :=
  [("a"%string, u8); ("b"%string, u32); ("c"%string, u16); ("d"%string, pointer)].

Example holes_layout :
  map field_offset (fields (structure false holes)) = [0; 4; 8; 16] /\ size (structure false holes) = 24 /\
  map field_offset (fields (structure true holes)) = [0; 1; 5; 7] /\ size (structure true holes) = 15.
Proof. by vm_compute. Qed.
