(* ===== verification/Threads.v ===== *)
(** * Threads

    Threads that share a state and take turns: what [Stealing] and [TableThreads] have in
    common. A thread is what it has still to do; [exec] makes its next call, which happens at
    once, and has no answer when the thread is done or its call has to wait. *)

From stdpp Require Import relations.
From S2P Require Import Prelude.
From Stdlib Require Import Relation_Operators Lexicographic_Product.

Section threads.
Context {T D : Type} (exec : nat -> T -> D -> option (T * D)).

(** One call of one of the threads, which knows its number *)
Inductive threads_step : list T * D -> list T * D -> Prop :=
  | step_thread ts i m d m' d' :
      ts !! i = Some m -> exec i m d = Some (m', d') -> threads_step (ts, d) (<[i := m']> ts, d').

(** A schedule names the thread of each call; one that cannot go on is passed over. *)
Fixpoint run_threads (sched : list nat) (c : list T * D) : list T * D :=
  match sched with
  | [] => c
  | i :: sched =>
      run_threads sched
        match c.1 !! i with
        | Some m => match exec i m c.2 with Some (m', d') => (<[i := m']> c.1, d') | None => c end
        | None => c
        end
  end.

Lemma run_threads_steps sched : forall c, rtc threads_step c (run_threads sched c).
Proof.
  induction sched as [|i sched IH]; intros [ts d]; cbn [run_threads fst snd]; [done|].
  destruct (ts !! i) as [m|] eqn:Ei; [|apply IH].
  destruct (exec i m d) as [[m' d']|] eqn:E; [|apply IH].
  eapply rtc_l; [by econstructor|apply IH].
Qed.

Lemma threads_step_length c c' : rtc threads_step c c' -> length c'.1 = length c.1.
Proof.
  induction 1 as [|c1 c2 c3 Hs _ IH]; [done|]. rewrite IH. destruct Hs. cbn. by rewrite length_insert.
Qed.

(** An invariant of the calls holds in every schedule. *)
Lemma threads_invariant (I : list T * D -> Prop) c c' :
  (forall c1 c2, I c1 -> threads_step c1 c2 -> I c2) -> I c -> rtc threads_step c c' -> I c'.
Proof. intros Hs H R. revert H. induction R; eauto. Qed.

(** Where no thread can go on *)
Definition threads_ended (c : list T * D) : Prop :=
  forall i m, c.1 !! i = Some m -> exec i m c.2 = None.

Lemma steps_or_ended c : (exists c', threads_step c c') \/ threads_ended c.
Proof.
  destruct c as [ts d].
  assert (forall n, (exists c', threads_step (ts, d) c') \/
    forall i m, (i < n)%nat -> ts !! i = Some m -> exec i m d = None) as H.
  { induction n as [|n [H|H]]; [right; lia|by left|].
    destruct (ts !! n) as [m|] eqn:En; [destruct (exec n m d) as [[m' d']|] eqn:E|].
    - left. eexists. by econstructor.
    - right. intros i m' Hi Ei. destruct (decide (i = n)) as [->|]; [congruence|]. apply (H i); [lia|done].
    - right. intros i m' Hi Ei. destruct (decide (i = n)) as [->|]; [congruence|]. apply (H i); [lia|done]. }
  destruct (H (length ts)) as [Hs|Hs]; [by left|right]. intros i m Ei. eapply Hs; [|done].
  by eapply lookup_lt_Some.
Qed.

(** ** Schedules end when threads do *)

Definition next_thread (m' m : T) : Prop := exists i d d', exec i m d = Some (m', d').

(** One of the threads *)
Definition next_of (ts' ts : list T) : Prop :=
  exists i m m', ts !! i = Some m /\ next_thread m' m /\ ts' = <[i := m']> ts.

Lemma next_of_acc : (forall m, Acc next_thread m) -> forall ts, Acc next_of ts.
Proof.
  intros Hacc ts. induction ts as [|m ts IH]; [by constructor; intros ? (i & ? & ? & E & _)|].
  pose proof (Acc_symprod _ _ next_thread next_of m (Hacc m) ts IH) as H.
  change (m :: ts) with ((m, ts).1 :: (m, ts).2). revert H. generalize (m, ts). clear.
  induction 1 as [[m ts] _ IH]. constructor. intros ts' ([|i] & x & x' & E & N & ->); cbn in *.
  - injection E as ->. apply (IH (x', ts)). by constructor.
  - apply (IH (m, <[i := x']> ts)). constructor. by exists i, x, x'.
Qed.

Lemma threads_step_acc : (forall m, Acc next_thread m) -> forall c, Acc (flip threads_step) c.
Proof.
  intros Hacc [ts d]. revert d. induction (next_of_acc Hacc ts) as [ts _ IH]. intros d. constructor.
  intros c S. unfold flip in S. inversion S as [ts0 i m d0 m' d' Ei E]; subst. apply IH.
  exists i, m, m'. split; [done|]. split; [by exists i, d, d'|done].
Qed.

End threads.

(** What the threads have in their hands, all together, when one of them changes *)
Lemma concat_exchange {X} (ls : list (list X)) i l l' : ls !! i = Some l ->
  exists rest, concat ls ≡ₚ l ++ rest /\ concat (<[i := l']> ls) ≡ₚ l' ++ rest.
Proof.
  revert i. induction ls as [|x ls IH]; intros [|i] E; try done; cbn in *.
  - injection E as ->. by exists (concat ls).
  - destruct (IH i E) as (rest & P & P'). exists (x ++ rest). rewrite P, P', !app_assoc.
    split; apply Permutation_app_tail, Permutation_app_comm.
Qed.
