(* ===== verification/RustStr.v ===== *)
(** * Strings

    The methods of Rust's strings and number formatting the engine uses, on lists of
    bytes: [split], [contains], [from_str_radix], decimal and hexadecimal formatting. *)

From S2P Require Import Prelude.

Abbreviation rstr := (list ascii).

Definition str (s : string) : rstr := list_ascii_of_string s.

Definition code (c : ascii) : Z := Z.of_N (N_of_ascii c).
Definition of_code (z : Z) : ascii := ascii_of_N (Z.to_N z).

Lemma code_of_code z : 0 <= z < 256 -> code (of_code z) = z.
Proof. intros. unfold code, of_code. rewrite N_ascii_embedding by lia. lia. Qed.

Lemma of_code_code c : of_code (code c) = c.
Proof. unfold code, of_code. by rewrite N2Z.id, ascii_N_embedding. Qed.

Lemma code_inj c d : code c = code d -> c = d.
Proof. intros E. by rewrite <- (of_code_code c), <- (of_code_code d), E. Qed.

#[global] Instance ascii_eq_decision : EqDecision ascii := Ascii.ascii_dec.
#[global] Instance ascii_countable : Countable ascii.
Proof. refine (inj_countable' N_of_ascii ascii_of_N _). intros c. by rewrite ascii_N_embedding. Defined.

Definition rstr_eqb (s t : rstr) : bool := bool_decide (s = t).

Lemma rstr_eqb_iff a b : rstr_eqb a b = true <-> a = b.
Proof. apply bool_decide_eq_true. Qed.

(** ** [str::split] on a character predicate: there is always at least one piece. *)

Fixpoint split (p : ascii -> bool) (s : rstr) : list rstr :=
  match s with
  | [] => [[]]
  | c :: s' =>
      if p c then [] :: split p s'
      else match split p s' with x :: xs => (c :: x) :: xs | [] => [[c]] end
  end.

Definition is_char (c d : ascii) : bool := Ascii.eqb d c.

Section split.
Context (p : ascii -> bool).

Lemma split_ne s : exists x xs, split p s = x :: xs.
Proof.
  induction s as [|c s (x & xs & IH)]; cbn; [eauto|]. destruct (p c); [eauto|]. rewrite IH. eauto.
Qed.

Lemma split_none s : Forall (fun c => p c = false) s -> split p s = [s].
Proof. induction 1 as [|c s Hc _ IH]; cbn; [done|]. by rewrite Hc, IH. Qed.

Lemma split_cons x c s :
  Forall (fun d => p d = false) x -> p c = true -> split p (x ++ c :: s) = x :: split p s.
Proof. intros Hx Hc. induction Hx as [|d x Hd _ IH]; cbn; [by rewrite Hc|]. by rewrite Hd, IH. Qed.

(** One piece more than there are separators. *)
Lemma split_length s : length (split p s) = S (length (List.filter p s)).
Proof.
  induction s as [|c s IH]; cbn; [done|].
  destruct (split_ne s) as (x & xs & E). rewrite E in *. destruct (p c); cbn in *; lia.
Qed.

(** No piece holds a separator. *)
Lemma split_pieces s : Forall (Forall (fun c => p c = false)) (split p s).
Proof.
  induction s as [|c s IH]; cbn; [by repeat constructor|].
  destruct (p c) eqn:Hc; [by constructor|].
  destruct (split_ne s) as (x & xs & E). rewrite E in *. inversion IH; subst.
  constructor; [by constructor|done].
Qed.

End split.

(** [split_ascii_whitespace]: the pieces that are not empty. *)
Definition is_ascii_whitespace (c : ascii) : bool :=
  let n := code c in (n =? 32) || (n =? 9) || (n =? 10) || (n =? 12) || (n =? 13).

Definition split_ascii_whitespace (s : rstr) : list rstr :=
  List.filter (fun x => match x with [] => false | _ => true end) (split is_ascii_whitespace s).

(** ** [contains] *)

Fixpoint is_prefix (t s : rstr) : bool :=
  match t, s with
  | [], _ => true
  | c :: t', d :: s' => Ascii.eqb c d && is_prefix t' s'
  | _ :: _, [] => false
  end.

Fixpoint contains (s t : rstr) : bool :=
  is_prefix t s || match s with [] => false | _ :: s' => contains s' t end.

Lemma is_prefix_iff t s : is_prefix t s = true <-> exists r, s = t ++ r.
Proof.
  revert s. induction t as [|c t IH]; intros s; cbn; [split; eauto|].
  destruct s as [|d s]; [split; [done|by intros [r Hr]]|].
  rewrite andb_true_iff, IH, Ascii.eqb_eq. split.
  - intros [-> [r ->]]. eauto.
  - intros [r Hr]. injection Hr as -> ->. eauto.
Qed.

Lemma contains_iff s t : contains s t = true <-> exists a b, s = a ++ t ++ b.
Proof.
  induction s as [|c s IH]; cbn; rewrite orb_true_iff, is_prefix_iff.
  - split; [intros [[r Hr]|]; [by exists [], r|done]|].
    intros (a & b & Hr). left. exists []. destruct a; [|done]. cbn in Hr.
    destruct t; [|done]. cbn in *. by subst.
  - rewrite IH. split.
    + intros [[r ->]|(a & b & ->)]; [by exists [], r|by exists (c :: a), b].
    + intros (a & b & Hr). destruct a as [|a0 a]; [left; by exists b|].
      right. injection Hr as -> ->. eauto.
Qed.

(** ** Digits *)

(** [char::to_digit] *)
Definition to_digit (radix : Z) (c : ascii) : option Z :=
  let n := code c in
  let d := if (48 <=? n) && (n <=? 57) then n - 48
           else if (97 <=? n) && (n <=? 122) then n - 87
           else if (65 <=? n) && (n <=? 90) then n - 55
           else radix in
  if d <? radix then Some d else None.

(** The digit the formatter prints: lower case. *)
Definition digit_char (d : Z) : ascii := of_code (if d <? 10 then 48 + d else 87 + d).

Lemma to_digit_char radix d : 0 <= d < radix -> radix <= 36 -> to_digit radix (digit_char d) = Some d.
Proof.
  intros Hd Hr. unfold to_digit, digit_char.
  rewrite code_of_code by (destruct (d <? 10) eqn:?; lia).
  destruct (Z.ltb_spec d 10); compare_cases; cbn; f_equal; lia.
Qed.

Lemma to_digit_range radix c d : to_digit radix c = Some d -> 0 <= d < radix.
Proof. unfold to_digit. guards; intros; simplify_eq; zify_bool; lia. Qed.

Fixpoint digits_from (fuel : nat) (b n : Z) (acc : list Z) : list Z :=
  match fuel with
  | O => acc
  | S f => let acc' := n `mod` b :: acc in
           if n / b =? 0 then acc' else digits_from f b (n / b) acc'
  end.

(** The digits of [n] in base [b], most significant first. *)
Definition digits (b n : Z) : list Z := digits_from (S (Z.to_nat (Z.log2 n))) b n [].

(** [{}] and [{:x}] *)
Definition fmt_radix (b n : Z) : rstr := map digit_char (digits b n).
Definition fmt_dec (n : Z) : rstr := fmt_radix 10 n.
Definition fmt_hex (n : Z) : rstr := fmt_radix 16 n.

(** A signed integer *)
Definition fmt_int (z : Z) : rstr := (if z <? 0 then str "-" else []) ++ fmt_dec (Z.abs z).

(** [{:02x}] *)
Definition fmt_02x (n : Z) : rstr :=
  let s := fmt_hex n in replicate (2 - length s) "0"%char ++ s.

Definition value (b : Z) (ds : list Z) : Z := fold_left (fun v d => v * b + d) ds 0.

Record digits_spec (b n : Z) (ds : list Z) : Prop := {
  ds_value : value b ds = n;
  ds_range : Forall (fun d => 0 <= d < b) ds;
  ds_head : exists d ds', ds = d :: ds' /\ (d = 0 -> ds' = []);
  ds_length : forall k : nat, (0 < k)%nat -> n < b ^ Z.of_nat k -> (length ds <= k)%nat;
}.

Lemma digits_from_spec fuel b n acc :
  2 <= b -> 0 <= n < 2 ^ Z.of_nat fuel ->
  (0 < fuel)%nat ->
  exists ds, digits_from fuel b n acc = ds ++ acc /\ digits_spec b n ds.
Proof.
  intros Hb. revert n acc. induction fuel as [|f IH]; intros n acc Hn Hf; [lia|]. cbn -[Z.pow].
  rewrite Nat2Z.inj_succ, Z.pow_succ_r in Hn by lia.
  pose proof (Z.div_mod n b ltac:(lia)) as Hdm. pose proof (Z.mod_pos_bound n b ltac:(lia)).
  destruct (Z.eqb_spec (n / b) 0) as [E|E].
  - exists [n `mod` b]. split; [done|]. split.
    + cbn. lia.
    + constructor; [done|constructor].
    + eauto.
    + cbn. lia.
  - assert (0 < n / b) by (assert (0 <= n / b) by (apply Z.div_pos; lia); lia).
    assert (n / b < 2 ^ Z.of_nat f) by (apply Z.div_lt_upper_bound; nia).
    destruct (IH (n / b) (n `mod` b :: acc)) as (ds & Eds & [Hv Hr Hh Hl]); [lia| |].
    { destruct f; [cbn in *; lia|lia]. }
    exists (ds ++ [n `mod` b]). rewrite <- app_assoc. split; [done|]. split.
    + unfold value in *. rewrite fold_left_app. cbn. rewrite Hv. lia.
    + apply Forall_app. split; [done|]. constructor; [done|constructor].
    + destruct Hh as (d & ds' & -> & Hd). exists d, (ds' ++ [n `mod` b]). split; [done|].
      intros ->. exfalso. rewrite (Hd eq_refl) in Hv. cbn in Hv. lia.
    + intros k Hk Hlt. rewrite length_app. cbn.
      destruct k as [|[|k]]; [lia| |].
      { exfalso. rewrite Z.pow_1_r in Hlt. rewrite Z.div_small in E; lia. }
      specialize (Hl (S k)). rewrite (Nat2Z.inj_succ (S k)), Z.pow_succ_r in Hlt by lia.
      assert (n / b < b ^ Z.of_nat (S k)) by (apply Z.div_lt_upper_bound; lia). lia.
Qed.

Lemma digits_ok b n : 2 <= b -> 0 <= n -> digits_spec b n (digits b n).
Proof.
  intros Hb Hn. unfold digits.
  destruct (digits_from_spec (S (Z.to_nat (Z.log2 n))) b n []) as (ds & E & H); [done| |lia|].
  - rewrite Nat2Z.inj_succ, Z2Nat.id by apply Z.log2_nonneg.
    destruct (decide (n = 0)) as [->|]; [done|]. pose proof (Z.log2_spec n). lia.
  - by rewrite E, app_nil_r.
Qed.

(** ** [from_str_radix] for an unsigned integer of [w] bits

    The empty string and a lone sign are errors, a leading [+] is skipped, every other
    character must be a digit, and the value must not exceed the type. *)

Fixpoint parse_digits (max radix : Z) (s : rstr) (acc : Z) : option Z :=
  match s with
  | [] => Some acc
  | c :: s' =>
      match to_digit radix c with
      | None => None
      | Some d =>
          if (acc * radix <=? max) && (acc * radix + d <=? max)
          then parse_digits max radix s' (acc * radix + d) else None
      end
  end.

Definition from_str_radix (w radix : Z) (s : rstr) : option Z :=
  match s with
  | [] => None
  | c :: s' =>
      if (is_char "+" c || is_char "-" c) && match s' with [] => true | _ => false end then None
      else if is_char "+" c then parse_digits (max_value w) radix s' 0
      else parse_digits (max_value w) radix s 0
  end.

Lemma value_cons b ds acc : 
  0 <= b -> 0 <= acc -> Forall (fun d => 0 <= d < b) ds -> acc <= fold_left (fun v d => v * b + d) ds acc.
Proof.
  intros Hb Hacc H. revert acc Hacc. induction H as [|d ds Hd _ IH]; intros acc Hacc; cbn; [done|].
  etransitivity; [|apply IH]; nia.
Qed.

Lemma parse_digits_fmt max b ds acc :
  2 <= b <= 36 -> 0 <= acc -> Forall (fun d => 0 <= d < b) ds ->
  fold_left (fun v d => v * b + d) ds acc <= max ->
  parse_digits max b (map digit_char ds) acc = Some (fold_left (fun v d => v * b + d) ds acc).
Proof.
  intros Hb Hacc H. revert acc Hacc. induction H as [|d ds Hd Hds IH]; intros acc Hacc Hm; cbn in *; [done|].
  rewrite to_digit_char by lia.
  pose proof (value_cons b ds (acc * b + d)) as Hle. 
  rewrite !(proj2 (Z.leb_le _ _)) by (specialize (Hle ltac:(lia) ltac:(nia) Hds); lia).
  cbn. apply IH; [nia|done].
Qed.

Lemma digit_char_not_sign d : 0 <= d < 36 -> is_char "+" (digit_char d) || is_char "-" (digit_char d) = false.
Proof.
  intros Hd. unfold is_char.
  assert (code (digit_char d) <> code "+" /\ code (digit_char d) <> code "-") as [H1 H2].
  { unfold digit_char. rewrite code_of_code by (destruct (d <? 10) eqn:?; lia).
    change (code "+") with 43. change (code "-") with 45. destruct (d <? 10) eqn:?; lia. }
  apply orb_false_iff. split; apply Ascii.eqb_neq; congruence.
Qed.

(** Parsing what was printed gives the number back. *)
Lemma from_str_radix_fmt w b n :
  2 <= b <= 36 -> 0 <= n < 2 ^ w -> from_str_radix w b (fmt_radix b n) = Some n.
Proof.
  intros Hb Hn. unfold from_str_radix, fmt_radix.
  destruct (digits_ok b n) as [Hv Hr (d & ds & E & _) _]; [lia|lia|]. rewrite E in *. cbn [map].
  inversion Hr as [|? ? Hd Hds]; subst.
  pose proof (digit_char_not_sign d ltac:(lia)) as Hs. rewrite Hs. cbn [andb].
  apply orb_false_iff in Hs as [-> _].
  change (digit_char d :: map digit_char ds) with (map digit_char (d :: ds)).
  rewrite parse_digits_fmt; [done|done|done|by constructor|].
  unfold max_value. fold (value b (d :: ds)). lia.
Qed.

(** Leading zeros do not change the number read: [{:02x}] is read back too. *)
Lemma from_str_radix_fmt_02x w n : 4 <= w -> 0 <= n < 2 ^ w -> from_str_radix w 16 (fmt_02x n) = Some n.
Proof.
  intros Hw Hn. unfold fmt_02x.
  assert (1 <= length (fmt_hex n))%nat.
  { unfold fmt_hex, fmt_radix. rewrite length_map.
    destruct (digits_ok 16 n) as [_ _ (d & ds & -> & _) _]; cbn; lia. }
  destruct (2 - length (fmt_hex n))%nat as [|[|k]] eqn:E; [by apply from_str_radix_fmt| |lia].
  cbn [replicate app]. rewrite <- (from_str_radix_fmt w 16 n) at 1 by lia. fold (fmt_hex n).
  unfold from_str_radix at 1. cbn [is_char Ascii.eqb].
  destruct (fmt_hex n) as [|c s] eqn:Es; [cbn in *; lia|]. 
  replace (parse_digits (max_value w) 16 ("0"%char :: c :: s) 0)
    with (parse_digits (max_value w) 16 (c :: s) 0).
  2: { pose proof (Z.pow_le_mono_r 2 4 w).
       change (parse_digits (max_value w) 16 ("0"%char :: c :: s) 0) with
         (if (0 <=? max_value w) && (0 <=? max_value w)
          then parse_digits (max_value w) 16 (c :: s) 0 else None).
       rewrite (proj2 (Z.leb_le _ _)) by (unfold max_value; lia). done. }
  unfold from_str_radix.
  assert (is_char "+" c || is_char "-" c = false) as Hs.
  { unfold fmt_hex, fmt_radix in Es. destruct (digits_ok 16 n) as [_ Hr _ _]; [lia|lia|].
    destruct (digits 16 n) as [|d ds]; [done|]. injection Es as <- _.
    inversion Hr. apply digit_char_not_sign. lia. }
  rewrite Hs. apply orb_false_iff in Hs as [-> _]. done.
Qed.

(** Every character printed is a digit of the base. *)
Lemma fmt_radix_digits b n :
  2 <= b <= 36 -> 0 <= n -> Forall (fun c => exists d, 0 <= d < b /\ c = digit_char d) (fmt_radix b n).
Proof.
  intros Hb Hn. unfold fmt_radix. destruct (digits_ok b n) as [_ Hr _ _]; [lia|lia|].
  induction Hr; cbn; constructor; eauto.
Qed.

(** So no separator below the digits, or above the letters [f], can occur in it. *)
Lemma fmt_radix_avoid b n (p : ascii -> bool) :
  2 <= b <= 36 -> 0 <= n ->
  (forall c, p c = true -> to_digit b c = None) ->
  Forall (fun c => p c = false) (fmt_radix b n).
Proof.
  intros Hb Hn Hp. eapply Forall_impl; [by apply fmt_radix_digits|].
  intros c (d & Hd & ->). cbn. destruct (p (digit_char d)) eqn:E; [|done].
  apply Hp in E. by rewrite to_digit_char in E by lia.
Qed.

(** A character that is no digit makes the number unreadable, a leading [+] apart. *)
Lemma parse_digits_bad max radix s acc :
  Exists (fun c => to_digit radix c = None) s -> parse_digits max radix s acc = None.
Proof.
  revert acc. induction s as [|c s IH]; intros acc H; [inversion H|]. cbn.
  destruct (to_digit radix c) as [d|] eqn:E; [|done].
  destruct (_ && _); [|done]. apply IH. inversion H; congruence.
Qed.

Lemma from_str_radix_bad w radix s :
  Exists (fun c => to_digit radix c = None /\ is_char "+" c = false) s ->
  from_str_radix w radix s = None.
Proof.
  intros H. assert (Exists (fun c => to_digit radix c = None) s) as H'
    by (eapply Exists_impl; [exact H|by intros c []]).
  unfold from_str_radix. destruct s as [|c s]; [done|].
  destruct (_ && _); [done|]. destruct (is_char "+" c) eqn:E.
  - apply parse_digits_bad. inversion H as [? ? [_ ?]|? ? Hs]; subst; [congruence|].
    eapply Exists_impl; [exact Hs|by intros d []].
  - by apply parse_digits_bad.
Qed.

(** A number that was read fits its type. *)
Lemma parse_digits_range max radix s acc n :
  0 <= acc -> 2 <= radix -> acc <= max -> parse_digits max radix s acc = Some n -> 0 <= n <= max.
Proof.
  revert acc. induction s as [|c s IH]; intros acc Ha Hr Hm; cbn; [intros [= <-]; lia|].
  destruct (to_digit radix c) as [d|] eqn:Ed; [|done]. apply to_digit_range in Ed.
  destruct (_ && _) eqn:E; [|done]. apply andb_true_iff in E as [_ E]. zify_bool.
  apply IH; nia.
Qed.

Lemma from_str_radix_range w radix s n :
  0 <= w -> 2 <= radix -> from_str_radix w radix s = Some n -> 0 <= n < 2 ^ w.
Proof.
  intros Hw Hr. unfold from_str_radix, max_value. pose proof (Z.pow_pos_nonneg 2 w).
  destruct s as [|c s]; [done|]. guards; intros H'; apply parse_digits_range in H'; lia.
Qed.

(** ** [Formatter::debug_struct], on one line *)

Definition debug_field (f : string * rstr) : rstr := str (fst f) ++ str ": " ++ snd f.

Fixpoint join (sep : rstr) (l : list rstr) : rstr :=
  match l with
  | [] => []
  | [x] => x
  | x :: l => x ++ sep ++ join sep l
  end.

Definition debug_struct (name : rstr) (fields : list (string * rstr)) : rstr :=
  match fields with
  | [] => name
  | _ => name ++ str " { " ++ join (str ", ") (map debug_field fields) ++ str " }"
  end.

(** [{:#x}] *)
Definition fmt_prefixed_hex (z : Z) : rstr := str "0x" ++ fmt_hex z.

(** [{:?}] of a string, a vector and a boolean. ASCII characters that do not print are
    escaped; other characters are taken for printable ones. *)
Definition debug_char (c : ascii) : rstr :=
  let n := code c in
  if n =? 0 then str "\0"
  else if n =? 9 then str "\t"
  else if n =? 10 then str "\n"
  else if n =? 13 then str "\r"
  else if n =? 34 then ["\"%char; c]
  else if n =? 92 then ["\"%char; c]
  else if (n <? 32) || (n =? 127) then str "\u{" ++ fmt_hex n ++ str "}"
  else [c].

Definition quote : ascii := "034"%char.

Definition debug_str (s : rstr) : rstr := [quote] ++ concat (map debug_char s) ++ [quote].

Definition debug_list (l : list rstr) : rstr := str "[" ++ join (str ", ") l ++ str "]".

Definition debug_bool (b : bool) : rstr := if b then str "true" else str "false".
