(* ===== verification/BuildScript.v ===== *)
(** * The build script of the bindings ([ffi/build.rs])

    The script compiles the wrappers of [shim.c], generates the bindings and tells cargo what to
    link. The compiler and the generator are parameters: the script decides how they are set up,
    in which order they run, and what is printed. *)

From S2P Require Import Prelude RustStr.

#[local] Open Scope string_scope.

(** ** The libraries *)

Definition RTE_CORE_LIBS : list string :=
  ["rte_acl"; "rte_bbdev"; "rte_bitratestats"; "rte_bpf"; "rte_bus_dpaa"; "rte_bus_fslmc";
   "rte_bus_ifpga"; "rte_bus_pci"; "rte_bus_vdev"; "rte_bus_vmbus"; "rte_cfgfile"; "rte_cmdline";
   "rte_common_cpt"; "rte_common_dpaax"; "rte_common_octeontx"; "rte_common_octeontx2";
   "rte_compressdev"; "rte_cryptodev"; "rte_distributor"; "rte_eal"; "rte_efd"; "rte_ethdev";
   "rte_eventdev"; "rte_fib"; "rte_flow_classify"; "rte_gro"; "rte_gso"; "rte_hash";
   "rte_ip_frag"; "rte_ipsec"; "rte_jobstats"; "rte_kni"; "rte_kvargs"; "rte_latencystats";
   "rte_lpm"; "rte_mbuf"; "rte_member"; "rte_mempool"; "rte_mempool_bucket"; "rte_mempool_dpaa";
   "rte_mempool_dpaa2"; "rte_mempool_octeontx"; "rte_mempool_octeontx2"; "rte_mempool_ring";
   "rte_mempool_stack"; "rte_meter"; "rte_metrics"; "rte_net"; "rte_pci"; "rte_pdump";
   "rte_pipeline"; "rte_port"; "rte_power"; "rte_rawdev"; "rte_rawdev_dpaa2_cmdif";
   "rte_rawdev_dpaa2_qdma"; "rte_rawdev_ioat"; "rte_rawdev_ntb"; "rte_rawdev_octeontx2_dma";
   "rte_rawdev_skeleton"; "rte_rcu"; "rte_reorder"; "rte_rib"; "rte_ring"; "rte_sched";
   "rte_security"; "rte_stack"; "rte_table"; "rte_timer"; "rte_vhost"].

Definition RTE_PMD_LIBS : list string :=
  ["rte_pmd_af_packet"; "rte_pmd_ark"; "rte_pmd_atlantic"; "rte_pmd_avp"; "rte_pmd_axgbe";
   "rte_pmd_bbdev_fpga_lte_fec"; "rte_pmd_bbdev_null"; "rte_pmd_bbdev_turbo_sw"; "rte_pmd_bnxt";
   "rte_pmd_bond"; "rte_pmd_caam_jr"; "rte_pmd_crypto_scheduler"; "rte_pmd_cxgbe"; "rte_pmd_dpaa";
   "rte_pmd_dpaa2"; "rte_pmd_dpaa2_event"; "rte_pmd_dpaa2_sec"; "rte_pmd_dpaa_event";
   "rte_pmd_dpaa_sec"; "rte_pmd_dsw_event"; "rte_pmd_e1000"; "rte_pmd_ena"; "rte_pmd_enetc";
   "rte_pmd_enic"; "rte_pmd_failsafe"; "rte_pmd_fm10k"; "rte_pmd_hinic"; "rte_pmd_hns3";
   "rte_pmd_i40e"; "rte_pmd_iavf"; "rte_pmd_ice"; "rte_pmd_ifc"; "rte_pmd_ixgbe"; "rte_pmd_kni";
   "rte_pmd_liquidio"; "rte_pmd_memif"; "rte_pmd_netvsc"; "rte_pmd_nfp"; "rte_pmd_nitrox";
   "rte_pmd_null"; "rte_pmd_null_crypto"; "rte_pmd_octeontx"; "rte_pmd_octeontx2";
   "rte_pmd_octeontx2_crypto"; "rte_pmd_octeontx2_event"; "rte_pmd_octeontx_compress";
   "rte_pmd_octeontx_crypto"; "rte_pmd_octeontx_event"; "rte_pmd_opdl_event"; "rte_pmd_pcap";
   "rte_pmd_pfe"; "rte_pmd_qat"; "rte_pmd_qede"; "rte_pmd_ring"; "rte_pmd_sfc";
   "rte_pmd_skeleton_event"; "rte_pmd_softnic"; "rte_pmd_sw_event"; "rte_pmd_tap";
   "rte_pmd_thunderx"; "rte_pmd_vdev_netvsc"; "rte_pmd_vhost"; "rte_pmd_virtio";
   "rte_pmd_virtio_crypto"; "rte_pmd_vmxnet3"].

Definition RTE_DEPS_LIBS : list string :=
  ["numa"; "pcap"].

(** ** The tools *)

(** [cc::Build], and the settings of [bindgen::Builder] in the order they are made *)
Record Build := { file : string; flags : list string }.

Inductive setting :=
  | header (f : string)
  | layout_tests (b : bool)
  | generate_inline_functions (b : bool)
  | opaque_type (names : list string)
  | whitelist_type (prefixes : list string)
  | whitelist_function (prefixes : list string)
  | whitelist_var (prefixes : list string)
  | derive_copy (b : bool)
  | derive_debug (b : bool)
  | derive_default (b : bool)
  | derive_partialeq (b : bool)
  | default_enum_style_module_consts
  | clang_arg (a : string)
  | rustfmt_bindings (b : bool).

(** [X] is the file system and the rest of the machine. [compile] panics when the compiler fails. *)
Class BuildTools (X B : Type) := {
  compile : Build -> string -> X -> outcome X;
  generate : list setting -> X -> result B unit;
  write_to_file : B -> string -> X -> result unit unit * X;
}.

Definition shim : Build := {| file := "src/shim.c"; flags := ["-march=corei7"; "-mavx"] |}.

(** The patterns [(a|b)_.*] are kept as their lists of prefixes. *)
Definition builder : list setting :=
  [header "src/bindings.h"; layout_tests false; generate_inline_functions true;
   opaque_type ["rte_arp_ipv4"; "rte_arp_hdr"];
   whitelist_type ["rte"; "eth"; "pcap"];
   whitelist_function ["_rte"; "rte"; "_pkt"; "eth"; "numa"; "pcap"];
   whitelist_var ["RTE"; "DEV"; "ETH"; "MEMPOOL"; "PKT"; "rte"];
   derive_copy true; derive_debug true; derive_default true; derive_partialeq true;
   default_enum_style_module_consts; clang_arg "-finline-functions"; clang_arg "-march=corei7";
   rustfmt_bindings true].

(** ** The script *)

Section script.
Context {X B : Type} `{!BuildTools X B}.

Record script := { machine : X; stdout : list string }.

Definition println (l : string) : M script unit :=
  modify (fun s => {| machine := machine s; stdout := (stdout s ++ [l])%list |}).

Definition expect {A E} (r : result A E) : outcome A :=
  match r with Ok a => Ret a | Err _ => Panic UnwrapFailed end.

(** [path.join("bindings.rs")] *)
Definition join (path name : string) : string := path ++ "/" ++ name.

Definition bind (path : string) : M script unit :=
  s ← get;
  x ← lift (compile shim "rte_shim" (machine s));
  b ← lift (expect (generate builder x));
  let '(r, x) := write_to_file b (join path "bindings.rs") x in
  _ ← lift (expect r);
  modify (fun s => {| machine := x; stdout := stdout s |}).

Definition link_line (lib : string) : string := "cargo:rustc-link-lib=dylib=" ++ lib.

Definition libs : list string := (RTE_CORE_LIBS ++ RTE_PMD_LIBS ++ RTE_DEPS_LIBS)%list.

Fixpoint print_libs (l : list string) : M script unit :=
  match l with
  | [] => mret tt
  | lib :: l => _ ← println (link_line lib); print_libs l
  end.

(** [main], with what the environment says of [OUT_DIR] *)
Definition main (out_dir : option string) : M script unit :=
  out_path ← lift (match out_dir with Some p => Ret p | None => Panic UnwrapFailed end);
  _ ← bind out_path;
  _ ← print_libs libs;
  _ ← println "cargo:rerun-if-changed=build.rs";
  println "cargo:rerun-if-changed=src/".

(** ** What cargo is told *)

Lemma print_libs_run l : forall s,
  print_libs l s = Ret (tt, {| machine := machine s; stdout := (stdout s ++ map link_line l)%list |}).
Proof.
  induction l as [|lib l IH]; intros [x out]; cbn [print_libs machine stdout map].
  - by rewrite app_nil_r.
  - erewrite bind_ret by reflexivity. rewrite IH. cbn. by rewrite <- app_assoc.
Qed.

(** When the compiler and the generator do their work the script links every library of its
    lists, each of them once, and the script runs again when it or the sources change; without
    [OUT_DIR], or when one of them fails, it panics, and cargo is told nothing. *)
Theorem main_links out s :
  main None s = Panic UnwrapFailed /\ NoDup (map link_line libs) /\
  forall s', main (Some out) s = Ret (tt, s') <->
    exists x1 b x2, compile shim "rte_shim" (machine s) = Ret x1 /\ generate builder x1 = Ok b /\
      write_to_file b (join out "bindings.rs") x1 = (Ok tt, x2) /\
      s' = {| machine := x2; stdout := (stdout s ++ map link_line libs ++
        ["cargo:rerun-if-changed=build.rs"; "cargo:rerun-if-changed=src/"])%list |}.
Proof.
  split; [done|]. split.
  { apply (bool_decide_unpack _). vm_compute. done. }
  intros s'. split.
  - unfold main. done_step. intros (? & s1 & Eb & E)%bind_inv.
    unfold bind in Eb. apply bind_inv in Eb as (? & ? & [= <- <-] & Eb).
    apply bind_inv in Eb as (x1 & ? & Ec & Eb). unfold lift in Ec.
    destruct (compile _ _ _) as [y| | | |] eqn:Ex; try done. injection Ec as -> <-.
    destruct (generate builder x1) as [b|] eqn:Eg; [|done]. erewrite bind_ret in Eb by reflexivity.
    destruct (write_to_file b (join out "bindings.rs") x1) as [[[]|] x2] eqn:Ew; [|done].
    injection Eb as <- <-. rewrite (bind_ret _ _ _ _ _ (print_libs_run _ _)) in E. injection E as <-.
    exists x1, b, x2. do 3 (split; [done|]). cbn. by rewrite <- !app_assoc.
  - intros (x1 & b & x2 & Ex & Eg & Ew & ->). unfold main, bind. done_step. rewrite bind_assoc. done_step.
    rewrite bind_assoc. rewrite bind_ret with (a := x1) (s' := s) by (unfold lift; by rewrite Ex).
    rewrite Eg. rewrite bind_assoc. done_step. rewrite Ew. rewrite bind_assoc. done_step.
    erewrite bind_ret by reflexivity. rewrite (bind_ret _ _ _ _ _ (print_libs_run _ _)).
    unfold mbind, M_bind, println, modify. cbn [machine stdout]. by rewrite <- !app_assoc.
Qed.

End script.

(** ** What the bindings hold *)

(** A name that a pattern [(a|b)_.*] matches from end to end *)
Definition matches (prefixes : list string) (name : string) : bool :=
  existsb (fun p => is_prefix (str (p ++ "_")) (str name)) prefixes.

Definition whitelisted (kind : setting -> option (list string)) (name : string) : bool :=
  existsb (fun s => match kind s with Some ps => matches ps name | None => false end) builder.

Definition functions (s : setting) := match s with whitelist_function ps => Some ps | _ => None end.
Definition types (s : setting) := match s with whitelist_type ps => Some ps | _ => None end.
Definition vars (s : setting) := match s with whitelist_var ps => Some ps | _ => None end.

(** Every function, type and constant the engine takes from the bindings is generated;
    [stop_and_close_ports] of [shim.c] is not. *)
Example engine_names_bound :
  forallb (whitelisted functions)
    ["_pkt_ether_hdr"; "_pkt_ipv4_hdr"; "_rte_errno"; "_rte_eth_rx_burst"; "_rte_eth_tx_burst";
     "_rte_mempool_put_bulk"; "_rte_pktmbuf_alloc"; "_rte_pktmbuf_alloc_bulk";
     "_rte_pktmbuf_free"; "_rte_ring_dequeue"; "_rte_ring_enqueue"; "numa_node_of_cpu";
     "rte_eal_cleanup"; "rte_eal_init"; "rte_eth_allmulticast_disable";
     "rte_eth_allmulticast_enable"; "rte_eth_dev_adjust_nb_rx_tx_desc"; "rte_eth_dev_close";
     "rte_eth_dev_configure"; "rte_eth_dev_get_port_by_name"; "rte_eth_dev_info_get";
     "rte_eth_dev_socket_id"; "rte_eth_dev_start"; "rte_eth_dev_stop"; "rte_eth_macaddr_get";
     "rte_eth_promiscuous_enable"; "rte_eth_rx_queue_setup"; "rte_eth_tx_queue_setup";
     "rte_mempool_free"; "rte_pktmbuf_pool_create"; "rte_ring_create"; "rte_ring_free";
     "rte_ring_lookup"; "rte_socket_count"; "rte_socket_id"; "rte_socket_id_by_idx";
     "rte_strerror"; "rte_thread_set_affinity"] &&
  forallb (whitelisted types)
    ["rte_cpuset_t"; "rte_eth_conf"; "rte_eth_dev_info"; "rte_eth_rx_mq_mode"; "rte_ether_addr";
     "rte_ether_hdr"; "rte_ipv4_hdr"; "rte_mbuf"; "rte_mempool"; "rte_ring"] &&
  forallb (whitelisted vars)
    ["DEV_TX_OFFLOAD_MBUF_FAST_FREE"; "ETH_RSS_IP"; "ETH_RSS_SCTP"; "ETH_RSS_TCP"; "ETH_RSS_UDP";
     "RTE_MBUF_DEFAULT_BUF_SIZE"] = true /\
  whitelisted functions "stop_and_close_ports" = false.
Proof. by vm_compute. Qed.
