(* ===== verification/IpAddr.v ===== *)
(** * IP addresses

    The part of [std::net] the engine uses: [Ipv4Addr] and [Ipv6Addr] with their
    conversions to and from integers, their text form and the parser of it. An address is
    kept as its 32- or 128-bit integer, most significant octet first, which is what
    [u32::from] and [u128::from] return. *)

From S2P Require Import Prelude RustStr.

Record Ipv4Addr := Ipv4 { v4_bits : Z }.
Record Ipv6Addr := Ipv6 { v6_bits : Z }.

#[global] Instance Ipv4Addr_eq_dec : EqDecision Ipv4Addr.
Proof. solve_decision. Defined.
#[global] Instance Ipv4Addr_countable : Countable Ipv4Addr.
Proof. by refine (inj_countable' v4_bits Ipv4 _); intros []. Defined.
#[global] Instance Ipv6Addr_eq_dec : EqDecision Ipv6Addr.
Proof. solve_decision. Defined.

Definition v4_ok (a : Ipv4Addr) : Prop := 0 <= v4_bits a < 2 ^ 32.
Definition v6_ok (a : Ipv6Addr) : Prop := 0 <= v6_bits a < 2 ^ 128.

Definition V4_UNSPECIFIED : Ipv4Addr := Ipv4 0.
Definition V6_UNSPECIFIED : Ipv6Addr := Ipv6 0.

(** [Ipv4Addr::new] and [octets] *)
Definition v4_new (a b c d : Z) : Ipv4Addr := Ipv4 (a * 2 ^ 24 + b * 2 ^ 16 + c * 2 ^ 8 + d).
Definition v4_octets (a : Ipv4Addr) : list Z :=
  [(v4_bits a / 2 ^ 24) `mod` 2 ^ 8; (v4_bits a / 2 ^ 16) `mod` 2 ^ 8;
   (v4_bits a / 2 ^ 8) `mod` 2 ^ 8; v4_bits a `mod` 2 ^ 8].

Lemma v4_octets_new a b c d :
  0 <= a < 256 -> 0 <= b < 256 -> 0 <= c < 256 -> 0 <= d < 256 ->
  v4_octets (v4_new a b c d) = [a; b; c; d].
Proof.
  intros. unfold v4_octets, v4_new. cbn [v4_bits]. pow2_consts.
  rewrite <- (Z.div_unique _ 16777216 a (b * 65536 + c * 256 + d)) by lia.
  rewrite <- (Z.div_unique _ 65536 (a * 256 + b) (c * 256 + d)) by lia.
  rewrite <- (Z.div_unique _ 256 (a * 65536 + b * 256 + c) d) by lia.
  rewrite <- (Z.mod_unique a 256 0 a), <- (Z.mod_unique (a * 256 + b) 256 a b),
    <- (Z.mod_unique (a * 65536 + b * 256 + c) 256 (a * 256 + b) c),
    <- (Z.mod_unique _ 256 (a * 65536 + b * 256 + c) d) by lia.
  done.
Qed.

Lemma v4_new_ok a b c d :
  0 <= a < 256 -> 0 <= b < 256 -> 0 <= c < 256 -> 0 <= d < 256 -> v4_ok (v4_new a b c d).
Proof. intros. unfold v4_ok, v4_new. cbn [v4_bits]. pow2_consts. lia. Qed.

Lemma v4_cases a :
  v4_ok a -> exists w x y z, a = v4_new w x y z /\
    0 <= w < 256 /\ 0 <= x < 256 /\ 0 <= y < 256 /\ 0 <= z < 256.
Proof.
  destruct a as [n]. unfold v4_ok, v4_new. cbn [v4_bits]. intros Hn.
  exists (n / 2 ^ 24), ((n / 2 ^ 16) `mod` 2 ^ 8), ((n / 2 ^ 8) `mod` 2 ^ 8), (n `mod` 2 ^ 8).
  pow2_consts.
  pose proof (Z.div_mod n 256). pose proof (Z.div_mod (n / 256) 256).
  pose proof (Z.div_mod (n / 65536) 256).
  rewrite !Z.div_div in * by lia.
  change (256 * 256) with 65536 in *. change (65536 * 256) with 16777216 in *.
  pose proof (Z.mod_pos_bound n 256). pose proof (Z.mod_pos_bound (n / 256) 256).
  pose proof (Z.mod_pos_bound (n / 65536) 256).
  assert (0 <= n / 16777216 < 256).
  { split; [apply Z.div_pos; lia|apply Z.div_lt_upper_bound; lia]. }
  split; [f_equal; lia|lia].
Qed.

(** The 16-bit segments, most significant first. *)
Definition segments_of (n : nat) (z : Z) : list Z :=
  map (fun i => (z / 2 ^ (16 * (Z.of_nat n - 1 - Z.of_nat i))) `mod` 2 ^ 16) (List.seq 0 n).
Definition v6_segments (a : Ipv6Addr) : list Z := segments_of 8 (v6_bits a).
Definition from_segments (l : list Z) : Z := fold_left (fun v s => v * 2 ^ 16 + s) l 0.
Definition v6_from_segments (l : list Z) : Ipv6Addr := Ipv6 (from_segments l).

(** ** Text form *)

Definition v4_to_string (a : Ipv4Addr) : rstr :=
  match v4_octets a with
  | [w; x; y; z] => fmt_dec w ++ "."%char :: fmt_dec x ++ "."%char :: fmt_dec y ++ "."%char :: fmt_dec z
  | _ => []
  end.

Record span := Span { span_start : nat; span_len : nat }.

(** The first of the longest runs of zero segments. *)
Fixpoint longest_zeroes (i : nat) (l : list Z) (longest current : span) : span :=
  match l with
  | [] => longest
  | s :: l' =>
      if s =? 0 then
        let current := Span (if (span_len current =? 0)%nat then i else span_start current)
                            (S (span_len current)) in
        longest_zeroes (S i) l'
          (if (span_len longest <? span_len current)%nat then current else longest) current
      else longest_zeroes (S i) l' longest (Span 0 0)
  end.

Fixpoint fmt_subslice (l : list Z) : rstr :=
  match l with
  | [] => []
  | [s] => fmt_hex s
  | s :: l' => fmt_hex s ++ ":"%char :: fmt_subslice l'
  end.

Definition v6_to_string (a : Ipv6Addr) : rstr :=
  let l := v6_segments a in
  if v6_bits a / 2 ^ 32 =? 65535 then
    str "::ffff:" ++ v4_to_string (Ipv4 (v6_bits a `mod` 2 ^ 32))
  else
    let z := longest_zeroes 0 l (Span 0 0) (Span 0 0) in
    if (1 <? span_len z)%nat then
      fmt_subslice (firstn (span_start z) l) ++ str "::"
        ++ fmt_subslice (skipn (span_start z + span_len z) l)
    else fmt_subslice l.

(** ** The parser of the standard library

    A reader takes a prefix of the text and leaves the rest, or fails and takes nothing. *)

Definition reader (A : Type) : Type := rstr -> option (A * rstr).

Fixpoint read_digits (radix max : Z) (max_digits : nat) (s : rstr) (acc : Z) (count : nat)
    : option (Z * nat * rstr) :=
  match s with
  | [] => Some (acc, count, [])
  | c :: s' =>
      match to_digit radix c with
      | None => Some (acc, count, s)
      | Some d =>
          if (acc * radix + d <=? max) && (S count <=? max_digits)%nat
          then read_digits radix max max_digits s' (acc * radix + d) (S count) else None
      end
  end.

Definition read_number (radix max : Z) (max_digits : nat) (allow_zero_prefix : bool) : reader Z :=
  fun s =>
    let leading_zero := match s with c :: _ => is_char "0" c | [] => false end in
    match read_digits radix max max_digits s 0 0 with
    | Some (v, count, s') =>
        if (count =? 0)%nat then None
        else if negb allow_zero_prefix && leading_zero && (1 <? count)%nat then None
        else Some (v, s')
    | None => None
    end.

Definition read_separator {A} (sep : ascii) (index : nat) (inner : reader A) : reader A :=
  fun s =>
    if (index =? 0)%nat then inner s
    else match s with c :: s' => if is_char sep c then inner s' else None | [] => None end.

Definition read_octet : reader Z := read_number 10 255 3 false.

Definition read_ipv4_addr : reader Ipv4Addr := fun s =>
  '(a, s) ← read_separator "." 0 read_octet s;
  '(b, s) ← read_separator "." 1 read_octet s;
  '(c, s) ← read_separator "." 2 read_octet s;
  '(d, s) ← read_separator "." 3 read_octet s;
  Some (v4_new a b c d, s).

(** [Ipv4Addr::from_str] *)
Definition v4_from_str (s : rstr) : option Ipv4Addr :=
  if (15 <? length s)%nat then None
  else match read_ipv4_addr s with Some (a, []) => Some a | _ => None end.

(** Reads up to [n] groups; the flag says that the last two were an IPv4 address. *)
Fixpoint read_groups (n i : nat) (s : rstr) : list Z * bool * rstr :=
  match n with
  | O => ([], false, s)
  | S n' =>
      let ipv4 := if (n' =? 0)%nat then None else read_separator ":" i read_ipv4_addr s in
      match ipv4 with
      | Some (a, s') => ([v4_bits a / 2 ^ 16; v4_bits a `mod` 2 ^ 16], true, s')
      | None =>
          match read_separator ":" i (read_number 16 65535 4 true) s with
          | Some (g, s') => let '(gs, b, s'') := read_groups n' (S i) s' in (g :: gs, b, s'')
          | None => ([], false, s)
          end
      end
  end.

Definition read_ipv6_addr : reader Ipv6Addr := fun s =>
  let '(head, head_ipv4, s) := read_groups 8 0 s in
  if (length head =? 8)%nat then Some (v6_from_segments head, s)
  else if head_ipv4 then None
  else match s with
       | c1 :: c2 :: s =>
           if is_char ":" c1 && is_char ":" c2 then
             let '(tail, _, s) := read_groups (8 - (length head + 1)) 0 s in
             Some (v6_from_segments
                     (head ++ replicate (8 - length head - length tail) 0 ++ tail), s)
           else None
       | _ => None
       end.

(** [Ipv6Addr::from_str] *)
Definition v6_from_str (s : rstr) : option Ipv6Addr :=
  match read_ipv6_addr s with Some (a, []) => Some a | _ => None end.

(** [AddrParseError]'s text *)
Definition v4_parse_error : rstr := str "invalid IPv4 address syntax".
Definition v6_parse_error : rstr := str "invalid IPv6 address syntax".

Example v4_parse_example : v4_from_str (str "10.1.0.10") = Some (v4_new 10 1 0 10).
Proof. reflexivity. Qed.
Example v4_parse_leading_zero : v4_from_str (str "10.1.0.010") = None.
Proof. reflexivity. Qed.
Example v6_print_example :
  v6_to_string (Ipv6 (0x20f61b85cc34 * 2 ^ 80 + 1)) = str "20f6:1b85:cc34::1".
Proof. reflexivity. Qed.
Example v6_parse_example :
  v6_from_str (str "fd00:ff:ffff:ffff:ffff:ffff:ffff:ffff")
    = Some (Ipv6 0xfd0000ffffffffffffffffffffffffff) /\
  v6_from_str (str "::ffff:1.2.3.4") = Some (Ipv6 0xffff01020304) /\
  v6_from_str (str "1:2:3:4:5:6:7::8") = None.
Proof. vm_compute. done. Qed.

(** ** Reading back what was printed *)

Definition stops (radix : Z) (s : rstr) : Prop :=
  match s with [] => True | c :: _ => to_digit radix c = None end.

Lemma read_digits_fmt radix max maxd ds rest acc count :
  2 <= radix <= 36 -> 0 <= acc -> Forall (fun d => 0 <= d < radix) ds -> stops radix rest ->
  fold_left (fun v d => v * radix + d) ds acc <= max -> (count + length ds <= maxd)%nat ->
  read_digits radix max maxd (map digit_char ds ++ rest) acc count
    = Some (fold_left (fun v d => v * radix + d) ds acc, (count + length ds)%nat, rest).
Proof.
  intros Hb Hacc H Hrest. revert acc Hacc count.
  induction H as [|d ds Hd Hds IH]; intros acc Hacc count Hm Hc.
  - cbn in *. replace (count + 0)%nat with count by lia.
    destruct rest as [|c rest]; cbn in *; [done|]. by rewrite Hrest.
  - cbn [map app read_digits fold_left length] in *. rewrite to_digit_char by lia.
    pose proof (value_cons radix ds (acc * radix + d) ltac:(lia) ltac:(nia) Hds) as Hle.
    rewrite (proj2 (Z.leb_le _ _)), (proj2 (Nat.leb_le _ _)) by lia. cbn [andb].
    rewrite IH; [|nia|done|lia]. by rewrite Nat.add_succ_r.
Qed.

Lemma read_number_fmt radix max (maxd : nat) allow n rest :
  2 <= radix <= 36 -> 0 <= n <= max -> (0 < maxd)%nat -> n < radix ^ Z.of_nat maxd ->
  stops radix rest ->
  read_number radix max maxd allow (fmt_radix radix n ++ rest) = Some (n, rest).
Proof.
  intros Hb Hn Hmaxd Hlt Hrest. unfold read_number, fmt_radix.
  destruct (digits_ok radix n) as [Hv Hr (d & ds & E & Hd) Hl]; [lia|lia|].
  rewrite read_digits_fmt; [|done|done|done|done|unfold value in Hv; lia|].
  2: { specialize (Hl maxd). lia. }
  fold (value radix (digits radix n)). rewrite Hv, E. cbn [length Nat.add Nat.eqb map app].
  destruct (is_char "0" (digit_char d)) eqn:Ez; [|by rewrite andb_false_r].
  rewrite Hd; [by rewrite andb_false_r|].
  unfold is_char in Ez. apply Ascii.eqb_eq, (f_equal (to_digit radix)) in Ez.
  rewrite E in Hr. inversion Hr; subst. rewrite to_digit_char in Ez by lia.
  unfold to_digit in Ez. change (code "0") with 48 in Ez. change (48 - 48) with 0 in Ez. cbn in Ez.
  destruct (0 <? radix); congruence.
Qed.

Lemma fmt_dec_length n : 0 <= n < 256 -> (length (fmt_dec n) <= 3)%nat.
Proof.
  intros. unfold fmt_dec, fmt_radix. rewrite length_map.
  destruct (digits_ok 10 n) as [_ _ _ Hl]; [lia|lia|]. apply Hl; cbn; lia.
Qed.

Lemma read_ipv4_addr_fmt a rest :
  v4_ok a -> stops 10 rest -> read_ipv4_addr (v4_to_string a ++ rest) = Some (a, rest).
Proof.
  intros Ha Hrest. destruct (v4_cases a Ha) as (w & x & y & z & -> & Hw & Hx & Hy & Hz).
  unfold v4_to_string. rewrite v4_octets_new by done.
  repeat (rewrite <- app_assoc; cbn [app]).
  unfold read_ipv4_addr, read_separator, read_octet, fmt_dec.
  do 4 (rewrite read_number_fmt; [|lia|lia|lia|lia|done];
        cbn -[fmt_radix read_number v4_new]).
  done.
Qed.

Lemma v4_from_str_to_string a : v4_ok a -> v4_from_str (v4_to_string a) = Some a.
Proof.
  intros Ha. unfold v4_from_str.
  destruct (v4_cases a Ha) as (w & x & y & z & E & Hw & Hx & Hy & Hz).
  rewrite (proj2 (Nat.ltb_ge _ _)).
  - rewrite <- (app_nil_r (v4_to_string a)), read_ipv4_addr_fmt by done. done.
  - unfold v4_to_string. rewrite E, v4_octets_new by done.
    repeat (rewrite length_app; cbn [length]).
    pose proof (fmt_dec_length w Hw). pose proof (fmt_dec_length x Hx).
    pose proof (fmt_dec_length y Hy). pose proof (fmt_dec_length z Hz). lia.
Qed.

(** Printed addresses hold no slash. *)
Lemma fmt_radix_no_slash b n :
  2 <= b <= 36 -> 0 <= n -> Forall (fun c => is_char "/" c = false) (fmt_radix b n).
Proof.
  intros Hb Hn. apply fmt_radix_avoid; [done|done|]. intros c Hc.
  unfold is_char in Hc. apply Ascii.eqb_eq in Hc as ->.
  unfold to_digit. change (code "/") with 47. cbn. by rewrite (proj2 (Z.ltb_ge _ _)) by lia.
Qed.

Lemma v4_to_string_no_slash a : v4_ok a -> Forall (fun c => is_char "/" c = false) (v4_to_string a).
Proof.
  intros Ha. destruct (v4_cases a Ha) as (w & x & y & z & -> & Hw & Hx & Hy & Hz).
  unfold v4_to_string. rewrite v4_octets_new by done.
  repeat (apply Forall_app; split; [apply fmt_radix_no_slash; lia|]; constructor; [done|]).
  apply fmt_radix_no_slash; lia.
Qed.

(** An IPv4 address is not a number: a text with a dot does not parse as one. *)
Lemma v4_to_string_not_number w a : v4_ok a -> from_str_radix w 10 (v4_to_string a) = None.
Proof.
  intros Ha. destruct (v4_cases a Ha) as (p & x & y & z & -> & Hp & Hx & Hy & Hz).
  apply from_str_radix_bad. unfold v4_to_string. rewrite v4_octets_new by done.
  apply Exists_app. right. apply Exists_cons_hd. done.
Qed.

Lemma slash_split x y :
  Forall (fun c => is_char "/" c = false) x -> Forall (fun c => is_char "/" c = false) y ->
  split (is_char "/") (x ++ "/"%char :: y) = [x; y].
Proof. intros Hx Hy. rewrite split_cons by done. by rewrite split_none. Qed.

(** ** What the parser returns is an address *)

Lemma read_digits_range radix max maxd s acc count v c r :
  0 <= radix -> 0 <= acc <= max ->
  read_digits radix max maxd s acc count = Some (v, c, r) -> 0 <= v <= max.
Proof.
  intros Hr. revert acc count. induction s as [|d s IH]; intros acc count Ha; cbn [read_digits].
  - by intros [= <- _ _].
  - destruct (to_digit radix d) as [n|] eqn:Ed; [|by intros [= <- _ _]].
    apply to_digit_range in Ed. destruct (_ && _) eqn:E; [|done].
    apply andb_true_iff in E as [E _]. zify_bool. apply IH. nia.
Qed.

Lemma read_number_range radix max maxd allow s v r :
  0 <= radix -> 0 <= max -> read_number radix max maxd allow s = Some (v, r) -> 0 <= v <= max.
Proof.
  intros Hr Hm. unfold read_number.
  destruct (read_digits radix max maxd s 0 0) as [[[n c] r']|] eqn:E; [|done].
  apply read_digits_range in E; [|done|done]. guards; by intros [= <- _].
Qed.

Lemma read_ipv4_addr_ok s a r : read_ipv4_addr s = Some (a, r) -> v4_ok a.
Proof.
  assert (forall i s n r, read_separator "." i read_octet s = Some (n, r) -> 0 <= n < 256) as Hoct.
  { intros i t n t'. unfold read_separator, read_octet.
    destruct (i =? 0)%nat; [|destruct t as [|c t]; [done|destruct (is_char "." c); [|done]]];
      intros H; apply read_number_range in H; lia. }
  unfold read_ipv4_addr. intros H.
  repeat match type of H with
  | mbind _ ?o = _ => destruct o as [[? ?]|] eqn:?; [|done]; cbn [mbind option_bind] in H
  end.
  injection H as <- _. apply v4_new_ok; eapply Hoct; eassumption.
Qed.

Lemma v4_from_str_ok s a : v4_from_str s = Some a -> v4_ok a.
Proof.
  unfold v4_from_str. destruct (_ <? _)%nat; [done|].
  destruct (read_ipv4_addr s) as [[b [|? ?]]|] eqn:E; try done.
  intros [= <-]. by eapply read_ipv4_addr_ok.
Qed.
