(* ===== verification/MacAddr.v ===== *)
(** * Ethernet MAC addresses ([net/mac.rs]) *)

From S2P Require Import Prelude RustStr.

(** [MacAddr([u8; 6])] *)
Record MacAddr := Mac { mac_octets : list Z }.

#[global] Instance MacAddr_eq_dec : EqDecision MacAddr.
Proof. solve_decision. Defined.
#[global] Instance MacAddr_countable : Countable MacAddr.
Proof. by refine (inj_countable' mac_octets Mac _); intros []. Defined.

Definition byte (z : Z) : Prop := 0 <= z < 256.

(** What the type [[u8; 6]] guarantees. *)
Record mac_ok (m : MacAddr) : Prop := {
  mac_six : length (mac_octets m) = 6%nat;
  mac_bytes : Forall byte (mac_octets m);
}.

Definition UNSPECIFIED : MacAddr := Mac [0; 0; 0; 0; 0; 0].

Definition new (a b c d e f : Z) : MacAddr := Mac [a; b; c; d; e; f].

Definition octets (m : MacAddr) : list Z := mac_octets m.

(** [impl From<[u8; 6]> for MacAddr] *)
Definition from_octets (octets : list Z) : MacAddr := Mac octets.

(** [impl fmt::Display for MacAddr] *)
Definition to_string (m : MacAddr) : rstr :=
  match mac_octets m with
  | [a; b; c; d; e; f] =>
      fmt_02x a ++ ":"%char :: fmt_02x b ++ ":"%char :: fmt_02x c ++ ":"%char ::
      fmt_02x d ++ ":"%char :: fmt_02x e ++ ":"%char :: fmt_02x f
  | _ => []
  end.

(** [MacParseError(String)] and its [fail(display = ..)] text *)
Inductive MacParseError := MacParseErr (s : rstr).

Definition mac_parse_error_text (e : MacParseError) : rstr :=
  match e with MacParseErr s => str "Failed to parse '" ++ s ++ str "' as MAC address." end.

Definition is_separator (c : ascii) : bool := is_char ":" c || is_char "-" c.

(** [impl FromStr for MacAddr]: the pieces that parse as a byte in hexadecimal, which
    must be six. *)
Definition from_str (s : rstr) : result MacAddr MacParseError :=
  let u8s := omap (from_str_radix 8 16) (split is_separator s) in
  if (length u8s =? 6)%nat then Ok (from_octets u8s) else Err (MacParseErr s).

(** ** Lemmas *)

Lemma octet_no_separator n : byte n -> Forall (fun c => is_separator c = false) (fmt_02x n).
Proof.
  intros Hn. unfold fmt_02x. apply Forall_app. split.
  - apply Forall_replicate. done.
  - apply fmt_radix_avoid; [done|unfold byte in Hn; lia|]. intros c Hc. unfold is_separator, is_char in Hc.
    apply orb_true_iff in Hc as [Hc|Hc]; apply Ascii.eqb_eq in Hc as ->; done.
Qed.

Lemma split_separator x y :
  Forall (fun c => is_separator c = false) x ->
  split is_separator (x ++ ":"%char :: y) = x :: split is_separator y.
Proof. intros. by apply split_cons. Qed.

Lemma mac_cases m : mac_ok m -> exists a b c d e f, m = new a b c d e f /\
  byte a /\ byte b /\ byte c /\ byte d /\ byte e /\ byte f.
Proof.
  destruct m as [l]. intros [Hl Hb]. cbn in *.
  destruct l as [|a [|b [|c [|d [|e [|f [|? ?]]]]]]]; try done.
  exists a, b, c, d, e, f. repeat (apply Forall_cons in Hb as [? Hb]). done.
Qed.

Lemma mac_split m : mac_ok m ->
  split is_separator (to_string m) = map fmt_02x (mac_octets m).
Proof.
  intros Hm. destruct (mac_cases m Hm) as (a & b & c & d & e & f & -> & Ha & Hb & Hc & Hd & He & Hf).
  cbn [to_string new mac_octets map].
  do 5 (rewrite split_separator by (by apply octet_no_separator)).
  by rewrite split_none by (by apply octet_no_separator).
Qed.

(** Text in canonical form is read back as the same address. *)
Lemma mac_roundtrip m : mac_ok m -> from_str (to_string m) = Ok m.
Proof.
  intros Hm. unfold from_str. rewrite mac_split by done. destruct m as [l], Hm as [Hl Hb].
  cbn [mac_octets] in *.
  enough (omap (from_str_radix 8 16) (map fmt_02x l) = l) as -> by (by rewrite Hl).
  clear Hl. induction Hb as [|n l Hn _ IH]; [done|].
  cbn [omap list_omap map]. unfold byte in Hn. rewrite from_str_radix_fmt_02x by lia. by f_equal.
Qed.

(** ** Properties *)

(** C36: the text form of a MAC address is read back, by [from_str], as that address. *)
Theorem mac_from_str_to_string m : mac_ok m -> from_str (to_string m) = Ok m.
Proof. apply mac_roundtrip. Qed.

Lemma mac_from_str_to_string_witness :
  from_str (str "12:34:56:ab:cd:ef") = Ok (new 18 52 86 171 205 239).
Proof.
  assert (mac_ok (new 18 52 86 171 205 239)) as H
    by (split; [done|repeat (constructor; [done|]); constructor]).
  exact (mac_from_str_to_string _ H).
Defined.

(** [from_str] drops every piece that is not a hexadecimal byte instead of refusing
    it: a junk piece inserted anywhere leaves the accepted address unchanged, and a
    refusal stays a refusal; a refusal always carries the whole input. *)
Theorem mac_from_str_junk x junk y :
  Forall (fun c => is_separator c = false) x ->
  Forall (fun c => is_separator c = false) junk ->
  from_str_radix 8 16 junk = None ->
  result_ok (from_str (x ++ ":"%char :: junk ++ ":"%char :: y))
    = result_ok (from_str (x ++ ":"%char :: y)) /\
  forall s e, from_str s = Err e -> e = MacParseErr s.
Proof.
  intros Hx Hj Hp. split.
  - unfold from_str. rewrite !split_separator by done. cbn. rewrite Hp. by destruct (_ =? _)%nat.
  - intros s e. unfold from_str. by destruct (_ =? _)%nat; intros [= <-].
Qed.

Lemma mac_from_str_junk_witness :
  result_ok (from_str (str "12:zz:34:56:ab:cd:ef")) = Some (new 18 52 86 171 205 239).
Proof.
  destruct (mac_from_str_junk (str "12") (str "zz") (str "34:56:ab:cd:ef")) as [H _];
    [repeat constructor..|done|].
  etransitivity; [exact H|reflexivity].
Defined.

(** Whatever text it is given, [from_str] only ever returns six bytes. *)
Theorem mac_from_str_ok s m : from_str s = Ok m -> mac_ok m.
Proof.
  unfold from_str. destruct (_ =? _)%nat eqn:E; [|done]. intros [= <-].
  apply Nat.eqb_eq in E. split; [done|]. cbn. clear E.
  induction (split is_separator s) as [|x l IH]; cbn; [constructor|].
  destruct (from_str_radix 8 16 x) as [n|] eqn:En; cbn; [|done].
  constructor; [|done]. apply from_str_radix_range in En; [|lia|lia]. unfold byte. lia.
Qed.

Lemma mac_from_str_ok_witness : mac_ok (new 255 0 1 2 3 4).
Proof. apply (mac_from_str_ok (str "FF-0-1-+2-003-4")). reflexivity. Defined.
