(* ===== verification/Cidr.v ===== *)
(** * The CIDR interface ([net/cidr/mod.rs])

    The trait both address families implement, the error it returns, and the contract an
    implementation meets: a valid range is a block of addresses aligned on its own size.
    What follows from the contract alone is proved here, once for both families. *)

From S2P Require Import Prelude RustStr BitMask.

Inductive CidrError :=
  | Malformed (s : rstr)
  | InvalidPrefixLength.

(** The [fail(display = ..)] texts *)
Definition cidr_error_text (e : CidrError) : rstr :=
  match e with
  | Malformed s => str "Failed to parse CIDR: " ++ s
  | InvalidPrefixLength => str "Invalid prefix length"
  end.

(** [trait Cidr] *)
Class Cidr (C A : Type) := {
  address : C -> A;
  broadcast : C -> A;
  contains : C -> A -> bool;
  hostmask : C -> A;
  length : C -> Z;
  netmask : C -> A;
  network : C -> A;
  new : A -> Z -> outcome (result C CidrError);
  size : Profile -> C -> outcome Z;
  with_netmask : A -> A -> outcome (result C CidrError);
}.

(** The contract: [num] reads an address as a number of [bits] bits, [valid] are the
    ranges that [new] makes from a prefix length of at least one. *)
Class CidrLaws (C A : Type) `{Cidr C A} := {
  bits : Z;
  num : A -> Z;
  addr_ok : A -> Prop;
  valid : C -> Prop;
  bits_pos : 0 < bits;
  num_range a : addr_ok a -> 0 <= num a < 2 ^ bits;
  address_ok c : valid c -> addr_ok (address c);
  length_range c : valid c -> 0 < length c <= bits;
  network_spec c : valid c ->
    num (network c) = num (address c) - num (address c) `mod` 2 ^ (bits - length c);
  broadcast_spec c : valid c -> num (broadcast c) = num (network c) + (2 ^ (bits - length c) - 1);
  contains_spec c a : valid c -> addr_ok a ->
    contains c a = true <-> num (network c) <= num a <= num (broadcast c);
}.

Section laws.
Context `{CidrLaws C A}.

Definition covers (c d : C) : Prop :=
  forall a, addr_ok a -> contains d a = true -> contains c a = true.

Definition disjoint (c d : C) : Prop :=
  forall a, addr_ok a -> contains c a = true -> contains d a = false.

Lemma host_pos c : valid c -> 0 < 2 ^ (bits - length c).
Proof. intros Hc. pose proof (length_range c Hc). apply Z.pow_pos_nonneg; lia. Qed.

Lemma address_in_range c :
  valid c -> num (network c) <= num (address c) <= num (broadcast c).
Proof.
  intros Hc. pose proof (host_pos c Hc) as Hp.
  pose proof (Z.mod_pos_bound (num (address c)) _ Hp).
  rewrite broadcast_spec, network_spec by done. lia.
Qed.

Lemma contains_address c : valid c -> contains c (address c) = true.
Proof. intros Hc. apply contains_spec; eauto using address_ok, address_in_range. Qed.

(** When the ranges of two valid prefixes meet, the shorter prefix covers the longer. *)
Lemma overlap_covers c d :
  valid c -> valid d -> length c <= length d ->
  num (network c) <= num (broadcast d) -> num (network d) <= num (broadcast c) -> covers c d.
Proof.
  intros Hc Hd Hl Hcd Hdc x Hx Hdx.
  rewrite !contains_spec, !broadcast_spec, !network_spec in * by done.
  pose proof (length_range c Hc). pose proof (length_range d Hd).
  pose proof (host_pos c Hc) as Hp. pose proof (host_pos d Hd) as Hq.
  assert (2 ^ (bits - length c) = 2 ^ (length d - length c) * 2 ^ (bits - length d)) as Ek
    by (rewrite <- Z.pow_add_r by lia; f_equal; lia).
  assert (0 < 2 ^ (length d - length c)) as Hk by (apply Z.pow_pos_nonneg; lia).
  rewrite Ek in *. set (q := 2 ^ (bits - length d)) in *.
  set (k := 2 ^ (length d - length c)) in *.
  rewrite !(Z.mod_eq _ (k * q)), !(Z.mod_eq _ q) in * by lia.
  set (m := num (address c) / (k * q)) in *. set (r := num (address d) / q) in *.
  assert (k * m <= r) by nia. assert (r < k * m + k) by nia. nia.
Qed.

(** Two valid ranges are nested or disjoint. *)
Lemma nested_or_disjoint c d :
  valid c -> valid d -> covers c d \/ covers d c \/ disjoint c d.
Proof.
  intros Hc Hd.
  destruct (decide (num (network c) <= num (broadcast d) /\ num (network d) <= num (broadcast c)))
    as [Ho|Ho].
  - destruct (Z.le_ge_cases (length c) (length d)); [left|right; left];
      apply overlap_covers; tauto.
  - right. right. intros a Ha Hca. rewrite contains_spec in Hca by done.
    destruct (contains d a) eqn:E; [|done]. rewrite contains_spec in E by done. lia.
Qed.

End laws.
