(* ===== verification/Ipv4Cidr.v ===== *)
(** * CIDR ranges of IPv4 addresses ([net/cidr/v4.rs]) *)

From S2P Require Import Prelude RustStr BitMask IpAddr Cidr.

Definition IPV4ADDR_BITS : Z := 32.

Record Ipv4Cidr := { cidr_address : Ipv4Addr; cidr_mask : Z }.

#[global] Instance Ipv4Cidr_eq_dec : EqDecision Ipv4Cidr.
Proof. solve_decision. Defined.

(** [impl Default for Ipv4Cidr] *)
Definition default : Ipv4Cidr := {| cidr_address := V4_UNSPECIFIED; cidr_mask := 0 |}.

Definition netmask_length (netmask : Ipv4Addr) : result Z CidrError :=
  let mask := v4_bits netmask in
  let length := leading_zeros 32 (unot 32 mask) in
  if (leading_zeros 32 mask =? 0) && (trailing_zeros 32 mask =? count_zeros 32 mask)
  then Ok length else Err InvalidPrefixLength.

(** ** [impl Cidr for Ipv4Cidr] *)

Definition address (c : Ipv4Cidr) : Ipv4Addr := cidr_address c.

Definition broadcast (c : Ipv4Cidr) : Ipv4Addr :=
  Ipv4 (Z.lor (Z.land (cidr_mask c) (v4_bits (cidr_address c))) (unot 32 (cidr_mask c))).

Definition contains (c : Ipv4Cidr) (address : Ipv4Addr) : bool :=
  Z.land (cidr_mask c) (v4_bits (cidr_address c)) =? Z.land (cidr_mask c) (v4_bits address).

Definition length (c : Ipv4Cidr) : Z := leading_zeros 32 (unot 32 (cidr_mask c)).

Definition hostmask (c : Ipv4Cidr) : Ipv4Addr := Ipv4 (unot 32 (cidr_mask c)).

Definition netmask (c : Ipv4Cidr) : Ipv4Addr := Ipv4 (cidr_mask c).

Definition network (c : Ipv4Cidr) : Ipv4Addr :=
  Ipv4 (Z.land (cidr_mask c) (v4_bits (cidr_address c))).

Definition new `{Profile} (address : Ipv4Addr) (length : Z) : outcome (result Ipv4Cidr CidrError) :=
  if length =? 0 then
    Ret (Ok {| cidr_address := address; cidr_mask := max_value 32 |})
  else if (1 <=? length) && (length <=? IPV4ADDR_BITS) then
    n ← usub USIZE_BITS IPV4ADDR_BITS length;
    mask ← ushl 32 (max_value 32) n;
    Ret (Ok {| cidr_address := address; cidr_mask := mask |})
  else Ret (Err (Malformed (str "Not a valid length"))).

Definition size `{Profile} (c : Ipv4Cidr) : outcome Z :=
  n ← usub USIZE_BITS IPV4ADDR_BITS (length c);
  upow2 USIZE_BITS (wrap 32 n).

Definition with_netmask `{Profile} (address netmask : Ipv4Addr) : outcome (result Ipv4Cidr CidrError) :=
  match netmask_length netmask with
  | Ok length => new address length
  | Err e => Ret (Err e)
  end.

(** ** [Ipv4CidrIterator] *)

Record Ipv4CidrIterator := { iter_next : option Z; iter_end : Z }.

(** [Ipv4CidrIterator::new] *)
Definition iterator_new `{Profile} (start : Ipv4Addr) (end_ : Z) : outcome Ipv4CidrIterator :=
  let start := v4_bits start in
  n ← usub 32 (wrap 32 end_) 1;
  e ← uadd 32 start n;
  Ret {| iter_next := Some start; iter_end := e |}.

(** [Iterator::next] *)
Definition next `{Profile} (it : Ipv4CidrIterator) : outcome (option Ipv4Addr * Ipv4CidrIterator) :=
  match iter_next it with
  | None => Ret (None, it)
  | Some n =>
      n' ← (if n =? iter_end it then Ret None else m ← uadd 32 n 1; Ret (Some m));
      Ret (Some (Ipv4 n), {| iter_next := n'; iter_end := iter_end it |})
  end.

Definition iter `{Profile} (c : Ipv4Cidr) : outcome Ipv4CidrIterator :=
  n ← size c; iterator_new (network c) n.

(** ** Text form *)

(** [impl FromStr for Ipv4Cidr] *)
Definition from_str `{Profile} (s : rstr) : outcome (result Ipv4Cidr CidrError) :=
  match split (is_char "/") s with
  | [addr; len_or_netmask] =>
      match v4_from_str addr with
      | None => Ret (Err (Malformed v4_parse_error))
      | Some address =>
          match from_str_radix USIZE_BITS 10 len_or_netmask with
          | Some len => new address len
          | None =>
              match v4_from_str len_or_netmask with
              | None => Ret (Err (Malformed v4_parse_error))
              | Some netmask => with_netmask address netmask
              end
          end
      end
  | _ => Ret (Err (Malformed (str "No `/` found")))
  end.

(** [impl fmt::Display for Ipv4Cidr] *)
Definition to_string (c : Ipv4Cidr) : rstr :=
  v4_to_string (address c) ++ "/"%char :: fmt_dec (length c).

#[global] Instance Ipv4Cidr_Cidr `{Profile} : Cidr Ipv4Cidr Ipv4Addr := {
  Cidr.address := address;
  Cidr.broadcast := broadcast;
  Cidr.contains := contains;
  Cidr.hostmask := hostmask;
  Cidr.length := length;
  Cidr.netmask := netmask;
  Cidr.network := network;
  Cidr.new := new;
  Cidr.size := fun P => @size P;
  Cidr.with_netmask := with_netmask;
}.

(** ** The ranges [new] makes *)

(** A range with a prefix of at least one bit. *)
Record valid (c : Ipv4Cidr) : Prop := {
  valid_address : v4_ok (cidr_address c);
  valid_mask : exists n, 0 < n <= 32 /\ cidr_mask c = prefix_mask 32 n;
}.

Lemma v4_new_prefix `{Profile} a n :
  0 < n <= 32 -> new a n = Ret (Ok {| cidr_address := a; cidr_mask := prefix_mask 32 n |}).
Proof.
  intros Hn. unfold new, IPV4ADDR_BITS, USIZE_BITS.
  rewrite (proj2 (Z.eqb_neq _ _)), !(proj2 (Z.leb_le _ _)) by lia. cbn [andb].
  unfold usub, ushl. rewrite arith_fits by (pow2_consts; lia). cbn [mbind outcome_bind].
  rewrite (proj2 (Z.leb_le _ _)), (proj2 (Z.ltb_lt _ _)) by lia. cbn [andb].
  by rewrite shl_all_ones.
Qed.

Lemma v4_new_zero `{Profile} a : new a 0 = new a 32.
Proof. rewrite (v4_new_prefix a 32) by lia. reflexivity. Qed.

Lemma v4_new_too_long `{Profile} a n :
  32 < n -> new a n = Ret (Err (Malformed (str "Not a valid length"))).
Proof.
  intros Hn. unfold new, IPV4ADDR_BITS. rewrite (proj2 (Z.eqb_neq _ _)) by lia.
  by rewrite (proj2 (Z.leb_gt n 32)), andb_false_r by lia.
Qed.

Lemma v4_new_valid `{Profile} a n c : v4_ok a -> 0 <= n -> new a n = Ret (Ok c) -> valid c.
Proof.
  intros Ha Hn E. destruct (decide (n = 0)) as [->|].
  - rewrite v4_new_zero, v4_new_prefix in E by lia. injection E as <-. split; [done|by exists 32].
  - destruct (decide (n <= 32)); [|rewrite v4_new_too_long in E by lia; discriminate E].
    rewrite v4_new_prefix in E by lia. injection E as <-. split; [done|]. exists n. split; [lia|done].
Qed.

Section valid.
Context (c : Ipv4Cidr) (Hc : valid c).

Lemma v4_length_mask : 0 < length c <= 32 /\ cidr_mask c = prefix_mask 32 (length c).
Proof.
  destruct Hc as [_ (n & Hn & E)]. unfold length.
  rewrite E, unot_prefix_mask, leading_zeros_host by done. done.
Qed.

Lemma v4_network_value :
  v4_bits (network c) = v4_bits (address c) - v4_bits (address c) `mod` 2 ^ (32 - length c).
Proof.
  destruct v4_length_mask as [Hl E]. destruct Hc as [Ha _].
  unfold network, address. cbn [v4_bits]. rewrite E at 1. by apply land_prefix_mask.
Qed.

Lemma v4_broadcast_value :
  v4_bits (broadcast c) = v4_bits (network c) + (2 ^ (32 - length c) - 1).
Proof.
  destruct v4_length_mask as [Hl E]. destruct Hc as [Ha _].
  unfold broadcast. cbn [v4_bits]. rewrite v4_network_value, E at 1. rewrite E at 1.
  by apply lor_host_bits.
Qed.

Lemma v4_contains_range a :
  v4_ok a -> contains c a = true <-> v4_bits (network c) <= v4_bits a <= v4_bits (broadcast c).
Proof.
  intros Hok. destruct v4_length_mask as [Hl E]. destruct Hc as [Ha _].
  rewrite v4_broadcast_value, v4_network_value. unfold contains. rewrite Z.eqb_eq, E.
  by apply same_prefix_iff.
Qed.

Lemma v4_host_bounds : 0 < 2 ^ (32 - length c) /\ 2 ^ (32 - length c) <= 2 ^ 31.
Proof.
  destruct v4_length_mask as [Hl _]. split; [apply Z.pow_pos_nonneg; lia|].
  apply Z.pow_le_mono_r; lia.
Qed.

Lemma v4_range_bounds : 0 <= v4_bits (network c) /\ v4_bits (broadcast c) < 2 ^ 32.
Proof.
  destruct Hc as [Ha _]. unfold v4_ok in Ha. destruct v4_host_bounds as [Hp _].
  destruct v4_length_mask as [Hl _].
  rewrite v4_broadcast_value, v4_network_value. fold (address c) in Ha.
  set (a := v4_bits (address c)) in *. set (p := 2 ^ (32 - length c)) in *.
  assert (2 ^ 32 = p * 2 ^ length c) as Ep
    by (unfold p; rewrite <- Z.pow_add_r by lia; f_equal; lia).
  rewrite Z.mod_eq by lia. assert (0 <= a / p) by (apply Z.div_pos; lia).
  assert (a / p < 2 ^ length c) by (apply Z.div_lt_upper_bound; lia).
  rewrite Ep. nia.
Qed.

Lemma v4_size_value `{Profile} : size c = Ret (2 ^ (32 - length c)).
Proof.
  destruct v4_length_mask as [Hl _]. unfold size, usub, upow2, IPV4ADDR_BITS, USIZE_BITS.
  rewrite arith_fits by (pow2_consts; lia). cbn [mbind outcome_bind].
  rewrite wrap_small by (pow2_consts; lia). destruct v4_host_bounds.
  apply arith_fits. pow2_consts. lia.
Qed.

Lemma v4_iter_value `{Profile} :
  iter c = Ret {| iter_next := Some (v4_bits (network c)); iter_end := v4_bits (broadcast c) |}.
Proof.
  unfold iter, iterator_new. rewrite v4_size_value. cbn [mbind outcome_bind].
  destruct v4_host_bounds. rewrite wrap_small by (pow2_consts; lia).
  unfold usub, uadd. rewrite arith_fits by (pow2_consts; lia). cbn [mbind outcome_bind].
  destruct v4_range_bounds. rewrite <- v4_broadcast_value, arith_fits; [done|].
  rewrite v4_broadcast_value in *. lia.
Qed.

End valid.

#[global] Instance Ipv4Cidr_laws `{Profile} : CidrLaws Ipv4Cidr Ipv4Addr.
Proof.
  refine {| bits := 32; num := v4_bits; addr_ok := v4_ok; Cidr.valid := valid |}.
  - done.
  - done.
  - by intros c [? _].
  - intros c Hc. apply (v4_length_mask c Hc).
  - apply v4_network_value.
  - apply v4_broadcast_value.
  - intros c a Hc Ha. by apply v4_contains_range.
Defined.

(** ** Helper lemmas of the properties *)

Lemma v4_netmask_length_prefix (n : Z) : 0 < n <= 32 -> netmask_length (Ipv4 (prefix_mask 32 n)) = Ok n.
Proof.
  intros Hn. unfold netmask_length. cbn [v4_bits].
  rewrite prefix_mask_leading_zeros, prefix_mask_trailing_zeros, prefix_mask_count_zeros by done.
  rewrite !Z.eqb_refl. cbn [andb]. by rewrite unot_prefix_mask, leading_zeros_host by done.
Qed.

Lemma v4_from_str_length `{Profile} a n :
  v4_ok a -> 0 <= n < 2 ^ 64 -> from_str (v4_to_string a ++ "/"%char :: fmt_dec n) = new a n.
Proof.
  intros Ha Hn. unfold from_str.
  rewrite slash_split; [|by apply v4_to_string_no_slash|apply fmt_radix_no_slash; lia].
  rewrite v4_from_str_to_string by done. unfold fmt_dec, USIZE_BITS.
  by rewrite from_str_radix_fmt by lia.
Qed.

Lemma v4_from_str_netmask `{Profile} a m :
  v4_ok a -> v4_ok m -> from_str (v4_to_string a ++ "/"%char :: v4_to_string m) = with_netmask a m.
Proof.
  intros Ha Hm. unfold from_str.
  rewrite slash_split by (apply v4_to_string_no_slash; done).
  by rewrite v4_from_str_to_string, v4_to_string_not_number, v4_from_str_to_string.
Qed.


Lemma v4_ok_eq a b : v4_bits a = v4_bits b -> a = b.
Proof. destruct a, b. cbn. by intros ->. Qed.

Lemma length_range_v4 c : valid c -> 0 < length c <= 32.
Proof. intros Hc. apply (v4_length_mask c Hc). Qed.

Lemma v4_collect_iter `{Profile} c fuel :
  valid c -> (S (Z.to_nat (2 ^ (32 - length c))) <= fuel)%nat ->
  (it ← iter c; collect next fuel it)
    = Ret (map Ipv4 (seqZ (v4_bits (network c)) (2 ^ (32 - length c)))).
Proof.
  intros Hc Hf. rewrite v4_iter_value by done. cbn [mbind outcome_bind].
  pose proof (v4_broadcast_value c Hc) as Hb. destruct (v4_host_bounds c Hc) as [Hp _].
  destruct (v4_range_bounds c Hc) as [Hlo Hhi].
  set (lo := v4_bits (network c)) in *. set (hi := v4_bits (broadcast c)) in *. clearbody lo hi.
  replace (2 ^ (32 - length c)) with (hi - lo + 1) by lia.
  apply (collect_range next Ipv4
           (fun n => {| iter_next := Some n; iter_end := hi |}) {| iter_next := None; iter_end := hi |}).
  - intros n Hn. unfold next. cbn. rewrite (proj2 (Z.eqb_neq _ _)) by lia.
    unfold uadd. by rewrite arith_fits by lia.
  - unfold next. cbn. by rewrite Z.eqb_refl.
  - done.
  - lia.
  - lia.
Qed.

(** ** Properties *)

(** C9: [new] with a prefix length from 1 to 32 succeeds in every build, and the range it
    makes holds exactly the addresses from its network address, the address rounded down
    to the block size [2^(32-n)], to its broadcast address, the last of the block. *)
Theorem v4_new_range `{Profile} a n x :
  v4_ok a -> v4_ok x -> 1 <= n <= 32 ->
  exists c, new a n = Ret (Ok c) /\ length c = n /\
    v4_bits (network c) = v4_bits a - v4_bits a `mod` 2 ^ (32 - n) /\
    v4_bits (broadcast c) = v4_bits (network c) + (2 ^ (32 - n) - 1) /\
    (contains c x = true <-> v4_bits (network c) <= v4_bits x <= v4_bits (broadcast c)).
Proof.
  intros Ha Hx Hn. exists {| cidr_address := a; cidr_mask := prefix_mask 32 n |}.
  rewrite v4_new_prefix by lia. split; [done|].
  set (c := {| cidr_address := a; cidr_mask := prefix_mask 32 n |}).
  assert (valid c) as Hc by (split; [done|exists n; split; [lia|done]]).
  assert (length c = n) as El by
    (unfold length, c; cbn [cidr_mask]; rewrite unot_prefix_mask, leading_zeros_host by lia; done).
  rewrite <- El. split; [done|]. split; [by apply v4_network_value|].
  split; [by apply v4_broadcast_value|]. by apply v4_contains_range.
Qed.

Lemma v4_new_range_witness :
  exists c, @new debug (v4_new 10 0 0 0) 25 = Ret (Ok c) /\
    contains c (v4_new 10 0 0 127) = true /\ contains c (v4_new 10 0 0 128) = false.
Proof.
  destruct (@v4_new_range debug (v4_new 10 0 0 0) 25 (v4_new 10 0 0 127)) as (c & E & _);
    [done|done|lia|].
  exists c. injection E as <-. split; [reflexivity|split; reflexivity].
Defined.

(** A prefix length of zero is taken as 32: the range holds its own address and no
    other, where a zero prefix should hold every address. *)
Theorem v4_new_zero_single `{Profile} a x :
  v4_ok a -> v4_ok x ->
  exists c, new a 0 = Ret (Ok c) /\ length c = 32 /\ (contains c x = true <-> x = a).
Proof.
  intros Ha Hx. rewrite v4_new_zero.
  destruct (v4_new_range a 32 x) as (c & E & El & En & Eb & Ec); [done|done|lia|].
  exists c. split; [done|]. split; [done|]. rewrite Ec, Eb, En.
  change (2 ^ (32 - 32)) with 1. rewrite Z.mod_1_r, Z.sub_0_r. split.
  - intros Hr. apply v4_ok_eq. lia.
  - intros ->. lia.
Qed.

Lemma v4_new_zero_single_witness :
  exists c, @new release (v4_new 10 0 0 0) 0 = Ret (Ok c) /\ contains c (v4_new 10 0 0 1) = false.
Proof.
  destruct (@v4_new_zero_single release (v4_new 10 0 0 0) (v4_new 10 0 0 1)) as (c & E & _ & Hc);
    [done|done|].
  exists c. split; [exact E|]. injection E as <-. reflexivity.
Defined.

(** C13: the size of a range is the number of its addresses, and neither it nor the making
    of the iterator overflows; iterating yields every address of the range once, in
    ascending order, and ends: after [size] addresses the iterator returns [None]. *)
Theorem v4_iter_enumerates `{Profile} c fuel :
  valid c -> (S (Z.to_nat (2 ^ (32 - length c))) <= fuel)%nat ->
  size c = Ret (v4_bits (broadcast c) - v4_bits (network c) + 1) /\
  (it ← iter c; collect next fuel it)
    = Ret (map Ipv4 (seqZ (v4_bits (network c)) (v4_bits (broadcast c) - v4_bits (network c) + 1))).
Proof.
  intros Hc Hf. pose proof (v4_broadcast_value c Hc) as Hb.
  replace (v4_bits (broadcast c) - v4_bits (network c) + 1) with (2 ^ (32 - length c)) by lia.
  split; [by apply v4_size_value|by apply v4_collect_iter].
Qed.

Lemma v4_iter_enumerates_witness :
  let c := {| cidr_address := v4_new 10 1 0 10; cidr_mask := prefix_mask 32 30 |} in
  @size debug c = Ret 4 /\
  (it ← @iter debug c; collect (@next debug) 5 it)
    = Ret [v4_new 10 1 0 8; v4_new 10 1 0 9; v4_new 10 1 0 10; v4_new 10 1 0 11].
Proof.
  intros c. assert (valid c) as Hc by (split; [done|exists 30; split; [lia|done]]).
  destruct (@v4_iter_enumerates debug c 5 Hc) as [Hs Hi]; [vm_compute; lia|].
  split; [exact Hs|]. etransitivity; [exact Hi|]. reflexivity.
Defined.

(** [netmask_length] accepts exactly the masks that are [n] ones followed by zeros,
    for [n] from 1 to 32, and returns that [n]; every other mask is refused. *)
Theorem v4_netmask_length_iff m n :
  v4_ok m -> netmask_length m = Ok n <-> 1 <= n <= 32 /\ v4_bits m = prefix_mask 32 n.
Proof.
  intros Hm. split.
  - unfold netmask_length. destruct (_ && _) eqn:E; [|done]. intros [= <-].
    apply andb_true_iff in E as [E1 E2]. zify_bool.
    destruct (proj1 (netmask_test_iff 32 (v4_bits m) ltac:(lia) Hm)) as (k & Hk & Em); [done|].
    rewrite Em, unot_prefix_mask, leading_zeros_host by done. split; [lia|done].
  - intros [Hn E]. rewrite <- (v4_netmask_length_prefix n) by lia. f_equal. by apply v4_ok_eq.
Qed.

Lemma v4_netmask_length_iff_witness :
  netmask_length (v4_new 255 255 240 0) = Ok 20 /\ netmask_length (v4_new 255 0 255 0) <> Ok 8.
Proof.
  split.
  - apply v4_netmask_length_iff; [done|]. split; [lia|reflexivity].
  - intros E. apply v4_netmask_length_iff in E as [_ E]; done.
Defined.

(** C33: a range printed in either form, address and prefix length or address and netmask,
    is parsed as that range: [from_str] reads a length as [new] takes it and a netmask as
    [with_netmask] does, and reading back the printed form of a range gives the range. *)
Theorem v4_from_str_printed `{Profile} a m n c :
  v4_ok a -> v4_ok m -> 0 <= n < 2 ^ 64 -> valid c ->
  from_str (v4_to_string a ++ "/"%char :: fmt_dec n) = new a n /\
  from_str (v4_to_string a ++ "/"%char :: v4_to_string m) = with_netmask a m /\
  from_str (to_string c) = Ret (Ok c) /\
  with_netmask (address c) (netmask c) = Ret (Ok c).
Proof.
  intros Ha Hm Hn Hc. destruct (v4_length_mask c Hc) as [Hl E]. destruct c as [ca cm].
  split; [by apply v4_from_str_length|]. split; [by apply v4_from_str_netmask|].
  cbn [cidr_mask] in E. unfold to_string, address, netmask, with_netmask. cbn [cidr_address cidr_mask].
  split.
  - rewrite v4_from_str_length; [|apply Hc|pow2_consts; lia].
    rewrite v4_new_prefix, <- E by done. done.
  - rewrite E at 1. rewrite v4_netmask_length_prefix, v4_new_prefix, <- E by done. done.
Qed.

Lemma v4_from_str_printed_witness :
  @from_str debug (str "10.1.0.10/20") = @new debug (v4_new 10 1 0 10) 20 /\
  @from_str debug (str "10.1.0.10/255.0.0.0") = Ret (Ok {| cidr_address := v4_new 10 1 0 10;
                                                           cidr_mask := prefix_mask 32 8 |}).
Proof.
  destruct (@v4_from_str_printed debug (v4_new 10 1 0 10) (v4_new 255 0 0 0) 20
    {| cidr_address := v4_new 10 1 0 10; cidr_mask := prefix_mask 32 8 |}) as (H1 & H2 & _ & H4);
    [done|done|lia|split; [done|exists 8; split; [lia|done]]|].
  split; [exact H1|]. etransitivity; [exact H2|exact H4].
Defined.

(** A text with no slash or with more than one is refused, and every range [from_str]
    accepts is a valid one: no input panics or leaves a mask that is not a prefix. *)
Theorem v4_from_str_outcome `{Profile} s :
  exists r, from_str s = Ret r /\
    (List.length (List.filter (is_char "/") s) <> 1%nat ->
       r = Err (Malformed (str "No `/` found"))) /\
    (forall c, r = Ok c -> valid c).
Proof.
  assert (forall a n, v4_ok a -> 0 <= n -> exists r, new a n = Ret r /\ forall c, r = Ok c -> valid c)
    as Hnew.
  { intros a n Ha Hn. destruct (decide (n = 0)) as [->|].
    - rewrite v4_new_zero, v4_new_prefix by lia. eexists. split; [done|].
      intros c [= <-]. split; [done|exists 32; split; [lia|done]].
    - destruct (decide (n <= 32)).
      + rewrite v4_new_prefix by lia. eexists. split; [done|].
        intros c [= <-]. split; [done|exists n; split; [lia|done]].
      + rewrite v4_new_too_long by lia. by eexists. }
  pose proof (split_length (is_char "/") s) as Hlen. unfold from_str.
  destruct (split (is_char "/") s) as [|x [|y [|z l]]]; cbn [List.length] in Hlen;
    try (eexists; split; [done|]; done).
  assert (exists r, (match v4_from_str x with
      | None => Ret (Err (Malformed v4_parse_error))
      | Some address => match from_str_radix USIZE_BITS 10 y with
          | Some len => new address len
          | None => match v4_from_str y with
              | None => Ret (Err (Malformed v4_parse_error))
              | Some netmask => with_netmask address netmask end end end) = Ret r /\
      forall c, r = Ok c -> valid c) as (r & E & Hr).
  { destruct (v4_from_str x) as [a|] eqn:Ex; [|by eexists]. apply v4_from_str_ok in Ex.
    destruct (from_str_radix USIZE_BITS 10 y) as [n|] eqn:Ey.
    - apply Hnew; [done|]. unfold USIZE_BITS in Ey. apply from_str_radix_range in Ey; lia.
    - destruct (v4_from_str y) as [m|] eqn:Em; [|by eexists]. apply v4_from_str_ok in Em.
      unfold with_netmask. destruct (netmask_length m) as [n|e] eqn:En; [|by eexists].
      apply v4_netmask_length_iff in En; [|done]. apply Hnew; [done|lia]. }
  exists r. split; [done|]. split; [lia|done].
Qed.
