(* ===== verification/Ipv6Text.v ===== *)
(** * Reading back a printed IPv6 address

    [Ipv6Addr::from_str] inverts [Display], in its three forms: all eight groups, the
    longest run of zeros left out, and an IPv4-mapped address. *)

From S2P Require Import Prelude RustStr IpAddr.

Definition segment (g : Z) : Prop := 0 <= g < 2 ^ 16.
Definition no_dot (c : ascii) : Prop := is_char "." c = false.

(** ** Segments *)

Lemma segments_of_ok n z : Forall segment (segments_of n z).
Proof.
  unfold segments_of. apply Forall_map, Forall_forall. intros i _. apply Z.mod_pos_bound. lia.
Qed.

Lemma from_segments_app l s : from_segments (l ++ [s]) = from_segments l * 2 ^ 16 + s.
Proof. unfold from_segments. by rewrite fold_left_app. Qed.

Lemma segments_of_S n z : segments_of (S n) z = segments_of n (z / 2 ^ 16) ++ [z `mod` 2 ^ 16].
Proof.
  unfold segments_of. rewrite seq_S, map_app. f_equal.
  - apply map_ext_in. intros i Hi. apply in_seq in Hi. rewrite Z.div_div by lia.
    rewrite <- Z.pow_add_r by lia. do 3 f_equal. lia.
  - cbn [map]. repeat f_equal.
    replace (16 * (Z.of_nat (S n) - 1 - Z.of_nat (0 + n))) with 0 by lia.
    by rewrite Z.pow_0_r, Z.div_1_r.
Qed.

Lemma from_segments_of n z : 0 <= z < 2 ^ (16 * Z.of_nat n) -> from_segments (segments_of n z) = z.
Proof.
  revert z. induction n as [|n IH]; intros z Hz.
  - cbn in *. lia.
  - rewrite segments_of_S, from_segments_app, IH.
    + rewrite (Z.div_mod z (2 ^ 16)) at 3 by lia. lia.
    + replace (16 * Z.of_nat (S n)) with (16 + 16 * Z.of_nat n) in Hz by lia.
      rewrite Z.pow_add_r in Hz by lia.
      split; [apply Z.div_pos; lia|apply Z.div_lt_upper_bound; lia].
Qed.

Lemma v6_from_segments_segments a : v6_ok a -> v6_from_segments (v6_segments a) = a.
Proof.
  destruct a as [z]. intros Hz. unfold v6_from_segments, v6_segments. cbn [v6_bits].
  by rewrite from_segments_of.
Qed.

(** ** The run of zeros that is left out *)

(** [s] marks a run of zeros of [l]. *)
Definition zero_span (l : list Z) (s : span) : Prop :=
  forall d : nat, (d < span_len s)%nat -> l !! (span_start s + d)%nat = Some 0.

Lemma longest_zeroes_span l0 l i longest current :
  skipn i l0 = l -> zero_span l0 longest -> zero_span l0 current ->
  (span_len current <> 0%nat -> (span_start current + span_len current = i)%nat) ->
  zero_span l0 (longest_zeroes i l longest current).
Proof.
  revert i longest current. induction l as [|s l IH]; intros i longest current Hl Hlong Hcur Hend; [done|].
  assert (l0 !! i = Some s) as Hi by (rewrite <- (Nat.add_0_r i), <- lookup_drop, Hl; done).
  assert (skipn (S i) l0 = l) as Hl'.
  { change (S i) with (1 + i)%nat. rewrite <- skipn_skipn, Hl. done. }
  cbn [longest_zeroes]. destruct (Z.eqb_spec s 0) as [->|].
  2: { apply IH; [done|done|intros d; cbn; lia|done]. }
  set (cur := Span _ _).
  assert (zero_span l0 cur) as Hcur'.
  { intros d. unfold cur. cbn. destruct (Nat.eqb_spec (span_len current) 0) as [E|E]; intros Hd.
    - replace (i + d)%nat with i by lia. done.
    - destruct (decide (d = span_len current)) as [->|]; [by rewrite Hend|]. apply Hcur. lia. }
  apply IH; [done| |done|].
  - by destruct (_ <? _)%nat.
  - unfold cur. cbn. destruct (Nat.eqb_spec (span_len current) 0) as [E|E]; intros; [lia|].
    specialize (Hend E). lia.
Qed.

Lemma zero_span_split l s :
  zero_span l s -> (0 < span_len s)%nat ->
  l = firstn (span_start s) l ++ replicate (span_len s) 0 ++ skipn (span_start s + span_len s) l /\
  (span_start s + span_len s <= length l)%nat.
Proof.
  destruct s as [st n]. unfold zero_span. cbn. intros Hz Hn.
  assert (st + n <= length l)%nat as Hle.
  { specialize (Hz (n - 1)%nat ltac:(lia)). apply lookup_lt_Some in Hz. lia. }
  split; [|done]. rewrite <- (firstn_skipn st l) at 1. f_equal.
  rewrite <- (firstn_skipn n (skipn st l)), skipn_skipn, (Nat.add_comm n st). f_equal.
  apply list_eq. intros d. destruct (decide (d < n)%nat) as [Hd|Hd].
  - rewrite lookup_take_lt, lookup_drop, Hz, lookup_replicate_2 by done. done.
  - rewrite lookup_take_ge by lia. symmetry. apply lookup_replicate_None. lia.
Qed.

(** ** Printed groups *)

(** The text of the groups from index [i] on: a colon before each but the first. *)
Fixpoint groups_text (i : nat) (gs : list Z) : rstr :=
  match gs with
  | [] => []
  | g :: gs' => (if (i =? 0)%nat then [] else [":"%char]) ++ fmt_hex g ++ groups_text (S i) gs'
  end.

Lemma groups_text_S i gs : groups_text (S i) gs = groups_text 1 gs.
Proof. revert i. induction gs as [|g gs IH]; intros i; [done|]. cbn. by rewrite (IH (S i)), (IH 1%nat). Qed.

Lemma fmt_subslice_text gs : fmt_subslice gs = groups_text 0 gs.
Proof.
  destruct gs as [|g gs]; [done|]. revert g.
  induction gs as [|h gs IH]; intros g; [cbn; by rewrite app_nil_r|].
  change (fmt_subslice (g :: h :: gs)) with (fmt_hex g ++ ":"%char :: fmt_subslice (h :: gs)).
  rewrite IH. cbn -[fmt_hex]. do 2 f_equal. by rewrite (groups_text_S 1).
Qed.

Lemma fmt_hex_no_dot g : segment g -> Forall no_dot (fmt_hex g).
Proof.
  intros Hg. apply fmt_radix_avoid; [lia|unfold segment in Hg; lia|]. intros c Hc.
  unfold is_char in Hc. by apply Ascii.eqb_eq in Hc as ->.
Qed.

Lemma groups_text_no_dot i gs : Forall segment gs -> Forall no_dot (groups_text i gs).
Proof.
  intros H. revert i. induction H as [|g gs Hg _ IH]; intros i; [constructor|].
  cbn [groups_text]. apply Forall_app. split; [destruct (i =? 0)%nat; by repeat constructor|].
  apply Forall_app. split; [by apply fmt_hex_no_dot|done].
Qed.

(** A text with no dot is not an IPv4 address. *)
Lemma read_digits_rest P radix max maxd s acc count v c r :
  Forall P s -> read_digits radix max maxd s acc count = Some (v, c, r) -> Forall P r.
Proof.
  intros H. revert acc count. induction H as [|d s Hd Hs IH]; intros acc count; cbn [read_digits].
  - by intros [= _ _ <-].
  - destruct (to_digit radix d); [|intros [= _ _ <-]; by constructor].
    destruct (_ && _); [|done]. apply IH.
Qed.

Lemma read_number_rest P radix max maxd allow s v r :
  Forall P s -> read_number radix max maxd allow s = Some (v, r) -> Forall P r.
Proof.
  intros H. unfold read_number.
  destruct (read_digits radix max maxd s 0 0) as [[[n c] r']|] eqn:E; [|done].
  eapply read_digits_rest in E; [|exact H]. guards; by intros [= _ <-].
Qed.

Lemma read_ipv4_addr_no_dot s : Forall no_dot s -> read_ipv4_addr s = None.
Proof.
  intros H. unfold read_ipv4_addr, read_separator. cbn [Nat.eqb].
  destruct (read_octet s) as [[a r]|] eqn:E; [|done]. cbn [mbind option_bind].
  eapply read_number_rest in E; [|exact H].
  destruct E as [|c r Hc _]; [done|]. by rewrite Hc.
Qed.

Lemma read_group_fmt g rest :
  segment g -> stops 16 rest -> read_number 16 65535 4 true (fmt_hex g ++ rest) = Some (g, rest).
Proof. unfold segment. intros. apply read_number_fmt; cbn; lia || done. Qed.

(** Texts with colons between them *)
Fixpoint joined (i : nat) (xs : list rstr) : rstr :=
  match xs with
  | [] => []
  | x :: xs' => (if (i =? 0)%nat then [] else [":"%char]) ++ x ++ joined (S i) xs'
  end.

(** [x] is a text of the group [g]. *)
Record text_of (x : rstr) (g : Z) : Prop := {
  text_no_dot : Forall no_dot x;
  text_read : forall rest, stops 16 rest -> read_number 16 65535 4 true (x ++ rest) = Some (g, rest);
}.

Lemma joined_no_dot i xs gs : Forall2 text_of xs gs -> Forall no_dot (joined i xs).
Proof.
  intros H. revert i. induction H as [|x g xs gs Hx _ IH]; intros i; [constructor|]. cbn [joined].
  apply Forall_app. split; [destruct (i =? 0)%nat; by repeat constructor|].
  apply Forall_app. split; [apply Hx|done].
Qed.

(** [read_groups] takes the groups and stops at the rest. *)
Lemma read_groups_joined xs gs n i rest :
  Forall2 text_of xs gs -> (length gs <= n)%nat -> Forall no_dot rest -> stops 16 rest ->
  ((length gs < n)%nat -> read_separator ":" (i + length gs) (read_number 16 65535 4 true) rest = None) ->
  read_groups n i (joined i xs ++ rest) = (gs, false, rest).
Proof.
  intros H. revert n i. induction H as [|x g xs gs [Hd Hr] Hgs IH]; intros n i Hn Hnd Hs Hend.
  - destruct n as [|n]; [done|]. cbn [joined app read_groups].
    assert (forall j, read_separator ":" j read_ipv4_addr rest = None) as Hv4.
    { intros j. unfold read_separator. destruct (j =? 0)%nat; [by apply read_ipv4_addr_no_dot|].
      destruct Hnd as [|c r _ Hr]; [done|]. destruct (is_char ":" c); [|done].
      by apply read_ipv4_addr_no_dot. }
    rewrite Hv4. cbn [length] in Hend. rewrite Nat.add_0_r in Hend. rewrite Hend by (cbn; lia).
    by destruct (n =? 0)%nat.
  - cbn [length] in *. destruct n as [|n]; [lia|]. cbn [joined read_groups].
    set (tail := joined (S i) xs ++ rest).
    assert (Forall no_dot (x ++ tail)) as Hxt.
    { apply Forall_app. split; [done|]. apply Forall_app.
      split; [by eapply joined_no_dot|done]. }
    assert (stops 16 tail) as Hst by (by destruct Hgs; cbn).
    rewrite <- !app_assoc. fold tail.
    assert (forall A (f : reader A), read_separator ":" i f
      ((if (i =? 0)%nat then [] else [":"%char]) ++ x ++ tail) = f (x ++ tail)) as Hsep
      by (intros A f; unfold read_separator; by destruct (i =? 0)%nat).
    rewrite !Hsep, read_ipv4_addr_no_dot, Hr by done.
    unfold tail. rewrite (IH n (S i)); [|lia|done|done|].
    + by destruct (n =? 0)%nat.
    + intros Hlt. rewrite <- Hend by lia. f_equal. lia.
Qed.

Lemma groups_text_joined i gs : groups_text i gs = joined i (map fmt_hex gs).
Proof. revert i. induction gs as [|g gs IH]; intros i; cbn; [done|by rewrite IH]. Qed.

Lemma fmt_hex_text g : segment g -> text_of (fmt_hex g) g.
Proof. intros Hg. split; [by apply fmt_hex_no_dot|]. intros rest. by apply read_group_fmt. Qed.

Lemma read_groups_text gs n i rest :
  Forall segment gs -> (length gs <= n)%nat -> Forall no_dot rest -> stops 16 rest ->
  ((length gs < n)%nat -> read_separator ":" (i + length gs) (read_number 16 65535 4 true) rest = None) ->
  read_groups n i (groups_text i gs ++ rest) = (gs, false, rest).
Proof.
  intros H. rewrite groups_text_joined. apply read_groups_joined.
  induction H; cbn; constructor; [by apply fmt_hex_text|done].
Qed.

(** Any one to four hexadecimal digits are the text of a group. *)
Lemma hex_digits_text ds : Forall (fun d => 0 <= d < 16) ds -> (1 <= length ds <= 4)%nat ->
  text_of (map digit_char ds) (value 16 ds) /\ segment (value 16 ds).
Proof.
  intros Hd Hl. assert (segment (value 16 ds)) as Hv.
  { assert (forall l acc, Forall (fun d => 0 <= d < 16) l -> 0 <= acc ->
      0 <= fold_left (fun v d => v * 16 + d) l acc < (acc + 1) * 16 ^ Z.of_nat (length l)) as B.
    { clear. induction l as [|d l IH]; intros acc Hl Ha; [cbn; lia|]. inversion_clear Hl.
      cbn [fold_left length]. rewrite Nat2Z.inj_succ, Z.pow_succ_r by lia.
      specialize (IH (acc * 16 + d) ltac:(done) ltac:(lia)). nia. }
    specialize (B ds 0 Hd). pose proof (Z.pow_le_mono_r 16 (Z.of_nat (length ds)) 4).
    unfold segment, value. change (16 ^ 4) with (2 ^ 16) in *. lia. }
  split; [|done]. split.
  - apply Forall_map. eapply Forall_impl; [exact Hd|]. intros d Hd'. cbn in *.
    unfold no_dot, is_char. apply Ascii.eqb_neq. intros E. apply (f_equal (to_digit 16)) in E.
    rewrite to_digit_char in E by lia. discriminate E.
  - intros rest Hr. unfold read_number. rewrite read_digits_fmt; try done; try lia.
    2: { unfold segment, value in Hv. lia. }
    fold (value 16 ds). cbn [Nat.add]. destruct (Nat.eqb_spec (length ds) 0); [lia|]. done.
Qed.

(** ** The three printed forms *)

Lemma length_segments a : length (v6_segments a) = 8%nat.
Proof. unfold v6_segments, segments_of. by rewrite length_map, length_seq. Qed.

Lemma read_full l :
  length l = 8%nat -> Forall segment l ->
  read_ipv6_addr (fmt_subslice l) = Some (v6_from_segments l, []).
Proof.
  intros Hl Hs. unfold read_ipv6_addr. rewrite fmt_subslice_text, <- (app_nil_r (groups_text 0 l)).
  rewrite read_groups_text; [|done|lia|done|done|lia]. by rewrite Hl.
Qed.

Lemma read_elided head tail :
  Forall segment head -> Forall segment tail -> (length head + length tail <= 6)%nat ->
  read_ipv6_addr (fmt_subslice head ++ str "::" ++ fmt_subslice tail)
    = Some (v6_from_segments (head ++ replicate (8 - length head - length tail) 0 ++ tail), []).
Proof.
  intros Hh Ht Hl. unfold read_ipv6_addr. rewrite !fmt_subslice_text.
  assert (Forall no_dot (groups_text 0 tail)) as Hnd by (by apply groups_text_no_dot).
  rewrite read_groups_text; [|done|lia|by repeat constructor|done|].
  2: { intros _. unfold read_separator. by destruct (_ =? 0)%nat. }
  rewrite (proj2 (Nat.eqb_neq _ _)) by lia. cbn [str list_ascii_of_string app].
  change (is_char ":" ":" && is_char ":" ":") with true. cbv iota.
  rewrite <- (app_nil_r (groups_text 0 tail)).
  rewrite read_groups_text; [done|done|lia|done|done|].
  intros _. unfold read_separator. by destruct (_ =? 0)%nat.
Qed.

Lemma read_mapped a4 :
  v4_ok a4 ->
  read_ipv6_addr (str "::ffff:" ++ v4_to_string a4) = Some (Ipv6 (65535 * 2 ^ 32 + v4_bits a4), []).
Proof.
  intros Ha. unfold read_ipv6_addr.
  assert (read_groups 8 0 (str "::ffff:" ++ v4_to_string a4)
            = ([], false, str "::ffff:" ++ v4_to_string a4)) as -> by done.
  cbn [length Nat.eqb str list_ascii_of_string app].
  change (is_char ":" ":" && is_char ":" ":") with true. cbv iota.
  change ("f"%char :: "f"%char :: "f"%char :: "f"%char :: ":"%char :: v4_to_string a4)
    with (fmt_hex 65535 ++ ":"%char :: v4_to_string a4).
  cbn [Nat.add Nat.sub read_groups Nat.eqb].
  assert (forall s, read_separator ":" 0 read_ipv4_addr (fmt_hex 65535 ++ s) = None) as -> by done.
  unfold read_separator at 1. cbn [Nat.eqb].
  rewrite read_group_fmt; [|unfold segment; lia|done].
  unfold read_separator at 1. cbn [Nat.eqb]. change (is_char ":" ":") with true. cbv iota.
  rewrite <- (app_nil_r (v4_to_string a4)), read_ipv4_addr_fmt by done.
  do 2 f_equal. unfold v6_from_segments, from_segments. f_equal. unfold v4_ok in Ha.
  cbn -[Z.pow Z.div Z.modulo Z.mul Z.add]. pose proof (Z.div_mod (v4_bits a4) (2 ^ 16)).
  pow2_consts. lia.
Qed.

(** The parser gives back the address that was printed. *)
Lemma v6_from_str_to_string a : v6_ok a -> v6_from_str (v6_to_string a) = Some a.
Proof.
  intros Ha. unfold v6_from_str, v6_to_string.
  pose proof (segments_of_ok 8 (v6_bits a)) as Hs. fold (v6_segments a) in Hs.
  pose proof (length_segments a) as Hl. pose proof (v6_from_segments_segments a Ha) as Hback.
  set (l := v6_segments a) in *.
  destruct (Z.eqb_spec (v6_bits a / 2 ^ 32) 65535) as [E|E].
  - rewrite read_mapped by (apply Z.mod_pos_bound; lia). cbn [v4_bits]. destruct a as [z]. cbn in E |- *.
    do 2 f_equal. pose proof (Z.div_mod z (2 ^ 32)). pow2_consts. lia.
  - set (z := longest_zeroes 0 l (Span 0 0) (Span 0 0)).
    destruct (Nat.ltb_spec 1 (span_len z)) as [Hz|Hz]; [|by rewrite read_full, Hback].
    assert (zero_span l z) as Hspan
      by (apply longest_zeroes_span; [done|intros d; cbn; lia|intros d; cbn; lia|done]).
    destruct (zero_span_split l z Hspan) as [Hsplit Hle]; [lia|].
    rewrite read_elided.
    + do 2 f_equal. rewrite <- Hback. f_equal. rewrite Hsplit at 5. f_equal. f_equal. f_equal.
      rewrite length_firstn, length_skipn. lia.
    + by apply Forall_take.
    + by apply Forall_drop.
    + rewrite length_firstn, length_skipn. lia.
Qed.

(** Printed addresses hold no slash, and are not decimal numbers. *)
Lemma groups_text_no_slash i gs :
  Forall segment gs -> Forall (fun c => is_char "/" c = false) (groups_text i gs).
Proof.
  intros H. revert i. induction H as [|g gs Hg _ IH]; intros i; [constructor|].
  cbn [groups_text]. apply Forall_app. split; [destruct (i =? 0)%nat; by repeat constructor|].
  apply Forall_app. split; [apply fmt_radix_no_slash; unfold segment in Hg; lia|done].
Qed.

Lemma v6_to_string_no_slash a :
  v6_ok a -> Forall (fun c => is_char "/" c = false) (v6_to_string a).
Proof.
  intros Ha. pose proof (segments_of_ok 8 (v6_bits a)) as Hs. fold (v6_segments a) in Hs.
  unfold v6_to_string. destruct (_ =? _); [|destruct (_ <? _)%nat]; rewrite ?fmt_subslice_text.
  - apply Forall_app. split; [by repeat constructor|]. apply v4_to_string_no_slash.
    apply Z.mod_pos_bound. lia.
  - repeat (apply Forall_app; split); try (by repeat constructor);
      apply groups_text_no_slash; [by apply Forall_take|by apply Forall_drop].
  - by apply groups_text_no_slash.
Qed.

Lemma v6_to_string_colon a : Exists (fun c => c = ":"%char) (v6_to_string a).
Proof.
  pose proof (length_segments a) as Hl. unfold v6_to_string.
  destruct (_ =? _); [by apply Exists_cons_hd|].
  destruct (_ <? _)%nat.
  - apply Exists_app. right. by apply Exists_cons_hd.
  - rewrite fmt_subslice_text. destruct (v6_segments a) as [|g [|h l]]; try done.
    cbn [groups_text Nat.eqb app]. apply Exists_app. right. by apply Exists_cons_hd.
Qed.

Lemma v6_to_string_not_number w a : from_str_radix w 10 (v6_to_string a) = None.
Proof.
  apply from_str_radix_bad. eapply Exists_impl; [apply v6_to_string_colon|].
  by intros c ->.
Qed.

(** What the parser returns is an address. *)
Lemma from_segments_range l : Forall segment l -> 0 <= from_segments l < 2 ^ (16 * Z.of_nat (length l)).
Proof.
  induction l as [|s l IH] using rev_ind; intros H; [done|].
  apply Forall_app in H as [Hl Hs]. inversion Hs as [|? ? Hs' _]; subst. specialize (IH Hl).
  rewrite from_segments_app, length_app. cbn [length].
  replace (16 * Z.of_nat (length l + 1)) with (16 * Z.of_nat (length l) + 16) by lia.
  rewrite Z.pow_add_r by lia. unfold segment in Hs'. nia.
Qed.

Lemma read_groups_segments n i s gs b r :
  read_groups n i s = (gs, b, r) -> Forall segment gs /\ (length gs <= n)%nat.
Proof.
  revert i s gs b r. induction n as [|n IH]; intros i s gs b r; cbn [read_groups].
  { intros [= <- _ _]. by split. }
  destruct (if (n =? 0)%nat then None else _) as [[a s']|] eqn:Ev4.
  - intros [= <- _ _]. destruct (Nat.eqb_spec n 0); [done|].
    assert (v4_ok a) as Ha.
    { unfold read_separator in Ev4. destruct (i =? 0)%nat; [by eapply read_ipv4_addr_ok|].
      destruct s as [|c s]; [done|]. destruct (is_char ":" c); [|done]. by eapply read_ipv4_addr_ok. }
    split; [|cbn; lia]. unfold v4_ok in Ha.
    repeat constructor; try (apply Z.mod_pos_bound; lia).
    + apply Z.div_pos; lia.
    + apply Z.div_lt_upper_bound; lia.
  - destruct (read_separator ":" i (read_number 16 65535 4 true) s) as [[g s']|] eqn:Eg.
    + destruct (read_groups n (S i) s') as [[gs' b'] s''] eqn:Er. intros [= <- _ _].
      apply IH in Er as [Hgs Hlen]. split; [|cbn; lia]. constructor; [|done].
      unfold read_separator in Eg. unfold segment.
      destruct (i =? 0)%nat; [apply read_number_range in Eg; lia|].
      destruct s as [|c s]; [done|]. destruct (is_char ":" c); [|done].
      apply read_number_range in Eg; lia.
    + intros [= <- _ _]. split; [constructor|cbn; lia].
Qed.

Lemma v6_from_str_ok s a : v6_from_str s = Some a -> v6_ok a.
Proof.
  unfold v6_from_str, read_ipv6_addr.
  destruct (read_groups 8 0 s) as [[head b] r] eqn:Eh. apply read_groups_segments in Eh as [Hh Lh].
  destruct (Nat.eqb_spec (length head) 8) as [E8|E8].
  { destruct r; [|done]. intros [= <-]. unfold v6_ok. cbn [v6_bits].
    pose proof (from_segments_range head Hh) as Hr. by rewrite E8 in Hr. }
  destruct b; [done|]. destruct r as [|c1 [|c2 r]]; try done.
  destruct (_ && _); [|done].
  destruct (read_groups _ 0 r) as [[tail b] r'] eqn:Et. apply read_groups_segments in Et as [Ht Lt].
  destruct r'; [|done]. intros [= <-]. unfold v6_ok. cbn [v6_bits].
  assert (Forall segment (head ++ replicate (8 - length head - length tail) 0 ++ tail)) as Hall.
  { apply Forall_app. split; [done|]. apply Forall_app. split; [|done].
    apply Forall_replicate. unfold segment. lia. }
  pose proof (from_segments_range _ Hall) as Hr.
  rewrite !length_app, length_replicate in Hr.
  replace (length head + (8 - length head - length tail + length tail))%nat with 8%nat in Hr by lia.
  done.
Qed.
