(* ===== verification/Ipv6Cidr.v ===== *)
(** * CIDR ranges of IPv6 addresses ([net/cidr/v6.rs]) *)

From S2P Require Import Prelude RustStr BitMask IpAddr Ipv6Text Cidr.

Definition IPV6ADDR_BITS : Z := 128.

Record Ipv6Cidr := { cidr_address : Ipv6Addr; cidr_mask : Z }.

#[global] Instance Ipv6Cidr_eq_dec : EqDecision Ipv6Cidr.
Proof. solve_decision. Defined.

(** [impl Default for Ipv6Cidr] *)
Definition default : Ipv6Cidr := {| cidr_address := V6_UNSPECIFIED; cidr_mask := 0 |}.

Definition netmask_length (netmask : Ipv6Addr) : result Z CidrError :=
  let mask := v6_bits netmask in
  let length := leading_zeros 128 (unot 128 mask) in
  if (leading_zeros 128 mask =? 0) && (trailing_zeros 128 mask =? count_zeros 128 mask)
  then Ok length else Err InvalidPrefixLength.

(** ** [impl Cidr for Ipv6Cidr] *)

Definition address (c : Ipv6Cidr) : Ipv6Addr := cidr_address c.

Definition broadcast (c : Ipv6Cidr) : Ipv6Addr :=
  Ipv6 (Z.lor (Z.land (cidr_mask c) (v6_bits (cidr_address c))) (unot 128 (cidr_mask c))).

Definition contains (c : Ipv6Cidr) (address : Ipv6Addr) : bool :=
  Z.land (cidr_mask c) (v6_bits (cidr_address c)) =? Z.land (cidr_mask c) (v6_bits address).

Definition length (c : Ipv6Cidr) : Z := leading_zeros 128 (unot 128 (cidr_mask c)).

Definition hostmask (c : Ipv6Cidr) : Ipv6Addr := Ipv6 (unot 128 (cidr_mask c)).

Definition netmask (c : Ipv6Cidr) : Ipv6Addr := Ipv6 (cidr_mask c).

Definition network (c : Ipv6Cidr) : Ipv6Addr :=
  Ipv6 (Z.land (cidr_mask c) (v6_bits (cidr_address c))).

Definition new `{Profile} (address : Ipv6Addr) (length : Z) : outcome (result Ipv6Cidr CidrError) :=
  if length =? 0 then
    Ret (Ok {| cidr_address := address; cidr_mask := max_value 128 |})
  else if (1 <=? length) && (length <=? IPV6ADDR_BITS) then
    n ← usub USIZE_BITS IPV6ADDR_BITS length;
    mask ← ushl 128 (max_value 128) n;
    Ret (Ok {| cidr_address := address; cidr_mask := mask |})
  else Ret (Err (Malformed (str "Not a valid length"))).

Definition size `{Profile} (c : Ipv6Cidr) : outcome Z :=
  n ← usub USIZE_BITS IPV6ADDR_BITS (length c);
  upow2 USIZE_BITS (wrap 32 n).

Definition with_netmask `{Profile} (address netmask : Ipv6Addr) : outcome (result Ipv6Cidr CidrError) :=
  match netmask_length netmask with
  | Ok length => new address length
  | Err e => Ret (Err e)
  end.

(** ** [Ipv6CidrIterator] *)

Record Ipv6CidrIterator := { iter_next : option Z; iter_end : Z }.

(** [Ipv6CidrIterator::new] *)
Definition iterator_new `{Profile} (start : Ipv6Addr) (end_ : Z) : outcome Ipv6CidrIterator :=
  let start := v6_bits start in
  n ← usub 128 end_ 1;
  e ← uadd 128 start n;
  Ret {| iter_next := Some start; iter_end := e |}.

(** [Iterator::next] *)
Definition next `{Profile} (it : Ipv6CidrIterator) : outcome (option Ipv6Addr * Ipv6CidrIterator) :=
  match iter_next it with
  | None => Ret (None, it)
  | Some n =>
      n' ← (if n =? iter_end it then Ret None else m ← uadd 128 n 1; Ret (Some m));
      Ret (Some (Ipv6 n), {| iter_next := n'; iter_end := iter_end it |})
  end.

Definition iter `{Profile} (c : Ipv6Cidr) : outcome Ipv6CidrIterator :=
  n ← size c; iterator_new (network c) n.

(** ** Text form *)

(** [impl FromStr for Ipv6Cidr] *)
Definition from_str `{Profile} (s : rstr) : outcome (result Ipv6Cidr CidrError) :=
  match split (is_char "/") s with
  | [addr; len_or_netmask] =>
      match v6_from_str addr with
      | None => Ret (Err (Malformed v6_parse_error))
      | Some address =>
          match from_str_radix USIZE_BITS 10 len_or_netmask with
          | Some len => new address len
          | None =>
              match v6_from_str len_or_netmask with
              | None => Ret (Err (Malformed v6_parse_error))
              | Some netmask => with_netmask address netmask
              end
          end
      end
  | _ => Ret (Err (Malformed (str "No `/` found")))
  end.

(** [impl fmt::Display for Ipv6Cidr] *)
Definition to_string (c : Ipv6Cidr) : rstr :=
  v6_to_string (address c) ++ "/"%char :: fmt_dec (length c).

#[global] Instance Ipv6Cidr_Cidr `{Profile} : Cidr Ipv6Cidr Ipv6Addr := {
  Cidr.address := address;
  Cidr.broadcast := broadcast;
  Cidr.contains := contains;
  Cidr.hostmask := hostmask;
  Cidr.length := length;
  Cidr.netmask := netmask;
  Cidr.network := network;
  Cidr.new := new;
  Cidr.size := fun P => @size P;
  Cidr.with_netmask := with_netmask;
}.

(** ** The ranges [new] makes *)

(** A range with a prefix of at least one bit. *)
Record valid (c : Ipv6Cidr) : Prop := {
  valid_address : v6_ok (cidr_address c);
  valid_mask : exists n, 0 < n <= 128 /\ cidr_mask c = prefix_mask 128 n;
}.

Lemma v6_new_prefix `{Profile} a n :
  0 < n <= 128 -> new a n = Ret (Ok {| cidr_address := a; cidr_mask := prefix_mask 128 n |}).
Proof.
  intros Hn. unfold new, IPV6ADDR_BITS, USIZE_BITS.
  rewrite (proj2 (Z.eqb_neq _ _)), !(proj2 (Z.leb_le _ _)) by lia. cbn [andb].
  unfold usub, ushl. rewrite arith_fits by (pow2_consts; lia). cbn [mbind outcome_bind].
  rewrite (proj2 (Z.leb_le _ _)), (proj2 (Z.ltb_lt _ _)) by lia. cbn [andb].
  by rewrite shl_all_ones.
Qed.

Lemma v6_new_zero `{Profile} a : new a 0 = new a 128.
Proof. rewrite (v6_new_prefix a 128) by lia. reflexivity. Qed.

Lemma v6_new_too_long `{Profile} a n :
  128 < n -> new a n = Ret (Err (Malformed (str "Not a valid length"))).
Proof.
  intros Hn. unfold new, IPV6ADDR_BITS. rewrite (proj2 (Z.eqb_neq _ _)) by lia.
  by rewrite (proj2 (Z.leb_gt n 128)), andb_false_r by lia.
Qed.

Lemma v6_new_valid `{Profile} a n c : v6_ok a -> 0 <= n -> new a n = Ret (Ok c) -> valid c.
Proof.
  intros Ha Hn E. destruct (decide (n = 0)) as [->|].
  - rewrite v6_new_zero, v6_new_prefix in E by lia. injection E as <-. split; [done|by exists 128].
  - destruct (decide (n <= 128)); [|rewrite v6_new_too_long in E by lia; discriminate E].
    rewrite v6_new_prefix in E by lia. injection E as <-. split; [done|]. exists n. split; [lia|done].
Qed.

Section valid.
Context (c : Ipv6Cidr) (Hc : valid c).

Lemma v6_length_mask : 0 < length c <= 128 /\ cidr_mask c = prefix_mask 128 (length c).
Proof.
  destruct Hc as [_ (n & Hn & E)]. unfold length.
  rewrite E, unot_prefix_mask, leading_zeros_host by done. done.
Qed.

Lemma v6_network_value :
  v6_bits (network c) = v6_bits (address c) - v6_bits (address c) `mod` 2 ^ (128 - length c).
Proof.
  destruct v6_length_mask as [Hl E]. destruct Hc as [Ha _].
  unfold network, address. cbn [v6_bits]. rewrite E at 1. by apply land_prefix_mask.
Qed.

Lemma v6_broadcast_value :
  v6_bits (broadcast c) = v6_bits (network c) + (2 ^ (128 - length c) - 1).
Proof.
  destruct v6_length_mask as [Hl E]. destruct Hc as [Ha _].
  unfold broadcast. cbn [v6_bits]. rewrite v6_network_value, E at 1. rewrite E at 1.
  by apply lor_host_bits.
Qed.

Lemma v6_contains_range a :
  v6_ok a -> contains c a = true <-> v6_bits (network c) <= v6_bits a <= v6_bits (broadcast c).
Proof.
  intros Hok. destruct v6_length_mask as [Hl E]. destruct Hc as [Ha _].
  rewrite v6_broadcast_value, v6_network_value. unfold contains. rewrite Z.eqb_eq, E.
  by apply same_prefix_iff.
Qed.

Lemma v6_host_pos : 0 < 2 ^ (128 - length c).
Proof. destruct v6_length_mask as [Hl _]. apply Z.pow_pos_nonneg; lia. Qed.

Lemma v6_range_bounds : 0 <= v6_bits (network c) /\ v6_bits (broadcast c) < 2 ^ 128.
Proof.
  destruct Hc as [Ha _]. unfold v6_ok in Ha. pose proof v6_host_pos as Hp.
  destruct v6_length_mask as [Hl _].
  rewrite v6_broadcast_value, v6_network_value. fold (address c) in Ha.
  set (a := v6_bits (address c)) in *. set (p := 2 ^ (128 - length c)) in *.
  assert (2 ^ 128 = p * 2 ^ length c) as Ep
    by (unfold p; rewrite <- Z.pow_add_r by lia; f_equal; lia).
  rewrite Z.mod_eq by lia. assert (0 <= a / p) by (apply Z.div_pos; lia).
  assert (a / p < 2 ^ length c) by (apply Z.div_lt_upper_bound; lia).
  rewrite Ep. nia.
Qed.

Lemma size_arith `{Profile} : size c = arith 64 (2 ^ (128 - length c)).
Proof.
  destruct v6_length_mask as [Hl _]. unfold size, usub, upow2, IPV6ADDR_BITS, USIZE_BITS.
  rewrite arith_fits by (pow2_consts; lia). cbn [mbind outcome_bind].
  by rewrite wrap_small by (pow2_consts; lia).
Qed.

(** The size fits [usize] only when the prefix leaves fewer than 64 host bits. *)
Lemma v6_size_value `{Profile} : 65 <= length c -> size c = Ret (2 ^ (128 - length c)).
Proof.
  intros Hl. destruct v6_length_mask as [Hr _]. rewrite size_arith. apply arith_fits.
  split; [pose proof v6_host_pos; lia|]. apply Z.pow_lt_mono_r; lia.
Qed.

Lemma size_too_large : length c <= 64 -> 2 ^ 64 <= 2 ^ (128 - length c).
Proof. intros Hl. apply Z.pow_le_mono_r; lia. Qed.

Lemma v6_iter_value `{Profile} :
  65 <= length c ->
  iter c = Ret {| iter_next := Some (v6_bits (network c)); iter_end := v6_bits (broadcast c) |}.
Proof.
  intros Hl. unfold iter, iterator_new. rewrite v6_size_value by done. cbn [mbind outcome_bind].
  pose proof v6_host_pos. destruct v6_range_bounds. pose proof v6_broadcast_value.
  unfold usub, uadd.
  rewrite (arith_fits 128 (2 ^ (128 - length c) - 1)) by lia. cbn [mbind outcome_bind].
  by rewrite <- v6_broadcast_value, arith_fits by lia.
Qed.

(** Otherwise a release build makes an iterator that stops just before its start. *)
Lemma iter_release :
  length c <= 64 ->
  @iter release c = Ret {| iter_next := Some (v6_bits (network c));
                           iter_end := wrap 128 (v6_bits (network c) - 1) |}.
Proof.
  intros Hl. destruct v6_length_mask as [Hr _]. unfold iter, iterator_new. rewrite size_arith, arith_release by lia.
  assert (wrap 64 (2 ^ (128 - length c)) = 0) as ->.
  { unfold wrap. replace (128 - length c) with (64 - length c + 64) by lia.
    rewrite Z.pow_add_r by lia. by rewrite Z.mod_mul by lia. }
  cbn [mbind outcome_bind]. unfold usub, uadd. rewrite arith_release by lia. cbn [mbind outcome_bind].
  change (wrap 128 (0 - 1)) with (2 ^ 128 - 1).
  replace (v6_bits (network c) + (2 ^ 128 - 1)) with (v6_bits (network c) - 1 + 1 * 2 ^ 128) by lia.
  rewrite arith_release by lia. unfold wrap. by rewrite Z_mod_plus_full.
Qed.

End valid.

#[global] Instance Ipv6Cidr_laws `{Profile} : CidrLaws Ipv6Cidr Ipv6Addr.
Proof.
  refine {| bits := 128; num := v6_bits; addr_ok := v6_ok; Cidr.valid := valid |}.
  - done.
  - done.
  - by intros c [? _].
  - intros c Hc. apply (v6_length_mask c Hc).
  - apply v6_network_value.
  - apply v6_broadcast_value.
  - intros c a Hc Ha. by apply v6_contains_range.
Defined.

(** ** Helper lemmas of the properties *)

Lemma v6_netmask_length_prefix (n : Z) : 0 < n <= 128 -> netmask_length (Ipv6 (prefix_mask 128 n)) = Ok n.
Proof.
  intros Hn. unfold netmask_length. cbn [v6_bits].
  rewrite prefix_mask_leading_zeros, prefix_mask_trailing_zeros, prefix_mask_count_zeros by done.
  rewrite !Z.eqb_refl. cbn [andb]. by rewrite unot_prefix_mask, leading_zeros_host by done.
Qed.

Lemma v6_from_str_length `{Profile} a n :
  v6_ok a -> 0 <= n < 2 ^ 64 -> from_str (v6_to_string a ++ "/"%char :: fmt_dec n) = new a n.
Proof.
  intros Ha Hn. unfold from_str.
  rewrite slash_split; [|by apply v6_to_string_no_slash|apply fmt_radix_no_slash; lia].
  rewrite v6_from_str_to_string by done. unfold fmt_dec, USIZE_BITS.
  by rewrite from_str_radix_fmt by lia.
Qed.

Lemma v6_from_str_netmask `{Profile} a m :
  v6_ok a -> v6_ok m -> from_str (v6_to_string a ++ "/"%char :: v6_to_string m) = with_netmask a m.
Proof.
  intros Ha Hm. unfold from_str.
  rewrite slash_split by (apply v6_to_string_no_slash; done).
  by rewrite v6_from_str_to_string, v6_to_string_not_number, v6_from_str_to_string.
Qed.


Lemma v6_ok_eq a b : v6_bits a = v6_bits b -> a = b.
Proof. destruct a, b. cbn. by intros ->. Qed.

Lemma length_range_v6 c : valid c -> 0 < length c <= 128.
Proof. intros Hc. apply (v6_length_mask c Hc). Qed.

Lemma v6_collect_iter `{Profile} c fuel :
  valid c -> 65 <= length c -> (S (Z.to_nat (2 ^ (128 - length c))) <= fuel)%nat ->
  (it ← iter c; collect next fuel it)
    = Ret (map Ipv6 (seqZ (v6_bits (network c)) (2 ^ (128 - length c)))).
Proof.
  intros Hc Hl Hf. rewrite v6_iter_value by done. cbn [mbind outcome_bind].
  pose proof (v6_broadcast_value c Hc) as Hb. pose proof (v6_host_pos c Hc) as Hp.
  destruct (v6_range_bounds c Hc) as [Hlo Hhi].
  set (lo := v6_bits (network c)) in *. set (hi := v6_bits (broadcast c)) in *. clearbody lo hi.
  replace (2 ^ (128 - length c)) with (hi - lo + 1) by lia.
  apply (collect_range next Ipv6
           (fun n => {| iter_next := Some n; iter_end := hi |}) {| iter_next := None; iter_end := hi |}).
  - intros n Hn. unfold next. cbn. rewrite (proj2 (Z.eqb_neq _ _)) by lia.
    unfold uadd. by rewrite arith_fits by lia.
  - unfold next. cbn. by rewrite Z.eqb_refl.
  - done.
  - lia.
  - lia.
Qed.

Lemma next_more `{Profile} n e :
  0 <= n -> n + 1 < 2 ^ 128 -> n <> e ->
  next {| iter_next := Some n; iter_end := e |}
    = Ret (Some (Ipv6 n), {| iter_next := Some (n + 1); iter_end := e |}).
Proof.
  intros H0 H1 He. unfold next. cbn [iter_next iter_end]. rewrite (proj2 (Z.eqb_neq _ _)) by done.
  unfold uadd. by rewrite arith_fits by lia.
Qed.

(** ** Properties *)

(** [new] with a prefix length from 1 to 128 succeeds in every build, and the range it
    makes holds exactly the addresses from its network address to its broadcast address,
    the block of [2^(128-n)] addresses its address lies in; a longer prefix is refused. *)
Theorem v6_new_range `{Profile} a n x :
  v6_ok a -> v6_ok x -> 1 <= n ->
  if n <=? 128 then
    exists c, new a n = Ret (Ok c) /\ length c = n /\
      v6_bits (network c) = v6_bits a - v6_bits a `mod` 2 ^ (128 - n) /\
      v6_bits (broadcast c) = v6_bits (network c) + (2 ^ (128 - n) - 1) /\
      (contains c x = true <-> v6_bits (network c) <= v6_bits x <= v6_bits (broadcast c))
  else new a n = Ret (Err (Malformed (str "Not a valid length"))).
Proof.
  intros Ha Hx Hn. destruct (Z.leb_spec n 128) as [Hle|]; [|by apply v6_new_too_long].
  exists {| cidr_address := a; cidr_mask := prefix_mask 128 n |}.
  rewrite v6_new_prefix by lia. split; [done|].
  set (c := {| cidr_address := a; cidr_mask := prefix_mask 128 n |}).
  assert (valid c) as Hc by (split; [done|exists n; split; [lia|done]]).
  assert (length c = n) as El by
    (unfold length, c; cbn [cidr_mask]; rewrite unot_prefix_mask, leading_zeros_host by lia; done).
  rewrite <- El. split; [done|]. split; [by apply v6_network_value|].
  split; [by apply v6_broadcast_value|]. by apply v6_contains_range.
Qed.

Lemma v6_new_range_witness :
  exists c, @new debug (Ipv6 (0xacdc * 2 ^ 112)) 16 = Ret (Ok c) /\
    contains c (Ipv6 (0xacdc * 2 ^ 112 + 1)) = true.
Proof.
  destruct (@v6_new_range debug (Ipv6 (0xacdc * 2 ^ 112)) 16 (Ipv6 (0xacdc * 2 ^ 112 + 1)))
    as (c & E & _ & _ & _ & Hc); [done|done|lia|].
  exists c. split; [exact E|]. injection E as <-. reflexivity.
Defined.

(** A range with at most 63 host bits has its exact number of addresses as its size,
    and iterating yields each of them once, in ascending order, and ends. *)
Theorem v6_iter_enumerates `{Profile} c fuel :
  valid c -> 65 <= length c -> (S (Z.to_nat (2 ^ (128 - length c))) <= fuel)%nat ->
  size c = Ret (v6_bits (broadcast c) - v6_bits (network c) + 1) /\
  (it ← iter c; collect next fuel it)
    = Ret (map Ipv6 (seqZ (v6_bits (network c)) (v6_bits (broadcast c) - v6_bits (network c) + 1))).
Proof.
  intros Hc Hl Hf. pose proof (v6_broadcast_value c Hc) as Hb.
  replace (v6_bits (broadcast c) - v6_bits (network c) + 1) with (2 ^ (128 - length c)) by lia.
  split; [by apply v6_size_value|by apply v6_collect_iter].
Qed.

Lemma v6_iter_enumerates_witness :
  let c := {| cidr_address := Ipv6 (0x20f61b85cc34 * 2 ^ 80 + 2); cidr_mask := prefix_mask 128 126 |} in
  (it ← @iter debug c; collect (@next debug) 5 it)
    = Ret (map (fun k => Ipv6 (0x20f61b85cc34 * 2 ^ 80 + k)) [0; 1; 2; 3]).
Proof.
  intros c. assert (valid c) as Hc by (split; [done|exists 126; split; [lia|done]]).
  destruct (@v6_iter_enumerates debug c 5 Hc) as [_ Hi]; [vm_compute; done|vm_compute; lia|].
  etransitivity; [exact Hi|]. reflexivity.
Defined.

(** C40: a range with 64 host bits or more has no size: a debug build panics on [size] and
    on [iter]; a release build returns size zero and an iterator that does not stop at
    the broadcast address but goes on to the address after it. *)
Theorem v6_wide_range_overflows c :
  valid c -> length c <= 64 ->
  @size debug c = Panic ArithmeticOverflow /\ @iter debug c = Panic ArithmeticOverflow /\
  @size release c = Ret 0 /\
  exists it, @iter release c = Ret it /\ iter_next it = Some (v6_bits (network c)) /\
    (v6_bits (broadcast c) + 1 < 2 ^ 128 ->
     @next release {| iter_next := Some (v6_bits (broadcast c)); iter_end := iter_end it |}
       = Ret (Some (broadcast c),
              {| iter_next := Some (v6_bits (broadcast c) + 1); iter_end := iter_end it |})).
Proof.
  intros Hc Hl. pose proof (size_too_large c Hl) as Hbig.
  destruct (v6_length_mask c Hc) as [Hr _].
  assert (@size debug c = Panic ArithmeticOverflow) as Hs
    by (rewrite (size_arith c Hc); apply arith_debug; by right).
  split; [done|]. split; [unfold iter; by rewrite Hs|]. split.
  { rewrite (size_arith c Hc), arith_release by lia. f_equal. unfold wrap.
    replace (128 - length c) with (64 - length c + 64) by lia.
    rewrite Z.pow_add_r by lia. by rewrite Z.mod_mul by lia. }
  eexists. split; [by apply iter_release|]. cbn [iter_next iter_end]. split; [done|].
  intros Hlt. destruct (v6_range_bounds c Hc) as [Hlo Hhi]. pose proof (v6_broadcast_value c Hc) as Hb.
  destruct (broadcast c) as [hi] eqn:Eb. cbn [v6_bits] in *.
  apply next_more; [lia|done|]. intros E.
  set (lo := v6_bits (network c)) in *. clearbody lo.
  destruct (decide (lo = 0)) as [->|].
  - assert (wrap 128 (0 - 1) = 2 ^ 128 - 1) as Ew by reflexivity. rewrite Ew in E. lia.
  - rewrite wrap_small in E by lia. lia.
Qed.

Lemma v6_wide_range_overflows_witness :
  let c := {| cidr_address := Ipv6 (0xfd00 * 2 ^ 112); cidr_mask := prefix_mask 128 24 |} in
  @size debug c = Panic ArithmeticOverflow /\ @size release c = Ret 0.
Proof.
  intros c. assert (valid c) as Hc by (split; [done|exists 24; split; [lia|done]]).
  destruct (v6_wide_range_overflows c Hc) as (H1 & _ & H2 & _); [vm_compute; done|].
  split; [exact H1|exact H2].
Defined.

(** C35: a range printed in either form, address and prefix length or address and netmask,
    is parsed as that range, in all three text forms of an IPv6 address. *)
Theorem v6_from_str_printed `{Profile} a m n c :
  v6_ok a -> v6_ok m -> 0 <= n < 2 ^ 64 -> valid c ->
  from_str (v6_to_string a ++ "/"%char :: fmt_dec n) = new a n /\
  from_str (v6_to_string a ++ "/"%char :: v6_to_string m) = with_netmask a m /\
  from_str (to_string c) = Ret (Ok c) /\
  with_netmask (address c) (netmask c) = Ret (Ok c).
Proof.
  intros Ha Hm Hn Hc. destruct (v6_length_mask c Hc) as [Hl E]. destruct c as [ca cm].
  split; [by apply v6_from_str_length|]. split; [by apply v6_from_str_netmask|].
  cbn [cidr_mask] in E. unfold to_string, address, netmask, with_netmask. cbn [cidr_address cidr_mask].
  split.
  - rewrite v6_from_str_length; [|apply Hc|pow2_consts; lia].
    rewrite v6_new_prefix, <- E by done. done.
  - rewrite E at 1. rewrite v6_netmask_length_prefix, v6_new_prefix, <- E by done. done.
Qed.

Lemma v6_from_str_printed_witness :
  @from_str debug (str "fd00::/24") = @new debug (Ipv6 (0xfd00 * 2 ^ 112)) 24 /\
  @from_str debug (str "fd00::/ffff:ff00::") = @new debug (Ipv6 (0xfd00 * 2 ^ 112)) 24.
Proof.
  destruct (@v6_from_str_printed debug (Ipv6 (0xfd00 * 2 ^ 112)) (Ipv6 (0xffffff * 2 ^ 104)) 24
    {| cidr_address := Ipv6 (0xfd00 * 2 ^ 112); cidr_mask := prefix_mask 128 24 |}) as (H1 & H2 & _ & H4);
    [done|done|lia|split; [done|exists 24; split; [lia|done]]|].
  split; [exact H1|]. etransitivity; [exact H2|]. etransitivity; [exact H4|]. reflexivity.
Defined.
