(* ===== verification/CidrFamilies.v ===== *)
(** * Both address families meet the CIDR contract

    The theorem proved from the contract of [Cidr.v], at the two implementations. *)

From S2P Require Import Prelude IpAddr Cidr.
From S2P Require Import Ipv4Cidr.
From S2P Require Import Ipv6Cidr.

(** The ranges of a family form a forest under inclusion. *)
Definition laminar `{CidrLaws C A} (c d : C) : Prop :=
  covers c d \/ covers d c \/ disjoint c d.

(** C34: two ranges of the same family, made with prefixes of at least one bit, are nested
    or disjoint, for IPv4 and for IPv6; each contains its own address. *)
Theorem cidr_nested_or_disjoint `{Profile} (c4 d4 : Ipv4Cidr.Ipv4Cidr) (c6 d6 : Ipv6Cidr.Ipv6Cidr) :
  Ipv4Cidr.valid c4 -> Ipv4Cidr.valid d4 -> Ipv6Cidr.valid c6 -> Ipv6Cidr.valid d6 ->
  laminar c4 d4 /\
  laminar c6 d6 /\
  Ipv4Cidr.contains c4 (Ipv4Cidr.address c4) = true /\
  Ipv6Cidr.contains c6 (Ipv6Cidr.address c6) = true.
Proof.
  intros H4 H4' H6 H6'. split; [by apply nested_or_disjoint|].
  split; [by apply nested_or_disjoint|].
  split; [exact (@contains_address _ _ Ipv4Cidr_Cidr Ipv4Cidr_laws c4 H4)|
          exact (@contains_address _ _ Ipv6Cidr_Cidr Ipv6Cidr_laws c6 H6)].
Qed.

Lemma cidr_nested_or_disjoint_witness :
  let c4 := Ipv4Cidr.Build_Ipv4Cidr (v4_new 10 0 0 0) (BitMask.prefix_mask 32 8) in
  let c6 := Ipv6Cidr.Build_Ipv6Cidr (Ipv6 1) (BitMask.prefix_mask 128 64) in
  @Cidr.contains _ _ (@Ipv4Cidr_Cidr debug) c4 (v4_new 10 0 0 0) = true /\
  Ipv6Cidr.contains c6 (Ipv6 1) = true.
Proof.
  intros c4 c6.
  assert (Ipv4Cidr.valid c4) as H4 by (split; [done|exists 8; split; [lia|done]]).
  assert (Ipv6Cidr.valid c6) as H6 by (split; [done|exists 64; split; [lia|done]]).
  destruct (@cidr_nested_or_disjoint debug c4 c4 c6 c6 H4 H4 H6 H6) as (_ & _ & E4 & E6).
  split; [exact E4|exact E6].
Defined.
