(* ===== verification/UnitTests.v ===== *)
(** * The unit tests

    What a test of the program is here, and the tests of [net/mac.rs]. A test is a computation
    that panics when an assertion of it fails; tests run in debug builds. [Ipv4Tests] and
    [Ipv6Tests] hold those of [net/cidr/]. *)

From S2P Require Import Prelude RustStr MacAddr.

#[global] Instance test_profile : Profile | 100 := debug.

(** [assert!] and [assert_eq!], and the [unwrap]s *)
Definition assert (b : bool) : outcome unit := if b then Ret tt else Panic AssertionFailed.
Definition assert_eq {A} `{EqDecision A} (x y : A) : outcome unit := assert (bool_decide (x = y)).

Definition unwrap {A E} (r : result A E) : outcome A :=
  match r with Ok a => Ret a | Err _ => Panic UnwrapFailed end.
Definition unwrap_err {A E} (r : result A E) : outcome E :=
  match r with Ok _ => Panic UnwrapFailed | Err e => Ret e end.
Definition unwrap_some {A} (o : option A) : outcome A :=
  match o with Some a => Ret a | None => Panic UnwrapFailed end.

Lemma assert_eq_refl {A} `{EqDecision A} (x : A) : assert_eq x x = Ret tt.
Proof. unfold assert_eq. by rewrite bool_decide_eq_true_2. Qed.

(** ** MAC addresses *)

Definition mac_addr_to_string : outcome unit :=
  _ ← assert_eq (str "00:00:00:00:00:00") (to_string (new 0 0 0 0 0 0));
  _ ← assert_eq (str "ff:ff:ff:ff:ff:ff") (to_string (new 255 255 255 255 255 255));
  assert_eq (str "12:34:56:ab:cd:ef") (to_string (new 0x12 0x34 0x56 0xAB 0xCD 0xEF)).

Definition string_to_mac_addr : outcome unit :=
  m ← unwrap (from_str (str "00:00:00:00:00:00"));
  _ ← assert_eq (new 0 0 0 0 0 0) m;
  m ← unwrap (from_str (str "ff:ff:ff:ff:ff:ff"));
  _ ← assert_eq (new 255 255 255 255 255 255) m;
  m ← unwrap (from_str (str "12:34:56:ab:cd:ef"));
  assert_eq (new 0x12 0x34 0x56 0xAB 0xCD 0xEF) m.

Example mac_tests_pass : mac_addr_to_string = Ret tt /\ string_to_mac_addr = Ret tt.
Proof. by vm_compute. Qed.
