(* ===== verification/Ipv4Tests.v ===== *)
(** * The unit tests of [net/cidr/v4.rs]

    Each test as it is written. The tests on random input are functions of that input, and
    hold for all of it. *)

From S2P Require Import Prelude RustStr IpAddr Cidr Ipv4Cidr UnitTests.

(** [Ipv4Addr::from_str(s).unwrap()] *)
Definition ip (s : string) : outcome Ipv4Addr := unwrap_some (v4_from_str (str s)).

Definition parse_bad_cidr : outcome unit :=
  r ← from_str (str "not-a-cidr"); assert (negb (is_ok r)).

Definition cidr_parse_error : outcome unit :=
  a ← ip "10.0.0.0";
  bad ← new a 99;
  _ ← assert (negb (is_ok bad));
  e ← unwrap_err bad;
  assert_eq (cidr_error_text e) (str "Failed to parse CIDR: Not a valid length").

Definition cidr_parse_error_with_netmask : outcome unit :=
  a ← ip "127.0.0.1";
  m ← ip "255.0.255.0";
  bad ← with_netmask a m;
  _ ← assert (negb (is_ok bad));
  e ← unwrap_err bad;
  assert_eq (cidr_error_text e) (str "Invalid prefix length").

Definition hostmask : outcome unit :=
  a ← ip "10.1.0.0"; r ← new a 20; cidr ← unwrap r;
  x ← ip "0.0.15.255";
  assert_eq (Ipv4Cidr.hostmask cidr) x.

Definition netmask : outcome unit :=
  a ← ip "10.1.0.0"; r ← new a 20; cidr ← unwrap r;
  x ← ip "255.255.240.0";
  assert_eq (Ipv4Cidr.netmask cidr) x.

Definition cidr_network_address : outcome unit :=
  a ← ip "10.1.0.10"; r ← new a 20; cidr ← unwrap r;
  x ← ip "10.1.0.0";
  assert_eq (network cidr) x.

Definition cidr_broadcast_address : outcome unit :=
  a ← ip "10.1.0.10"; r ← new a 20; cidr ← unwrap r;
  x ← ip "10.1.15.255";
  assert_eq (broadcast cidr) x.

Definition addresses : outcome unit :=
  a ← ip "10.1.0.10"; r ← new a 24; cidr ← unwrap r;
  n ← size cidr;
  assert_eq n 256.

(** [iter.next().unwrap()] *)
Definition next_is (s : string) (it : Ipv4CidrIterator) : outcome Ipv4CidrIterator :=
  x ← ip s;
  '(o, it) ← next it;
  y ← unwrap_some o;
  _ ← assert_eq x y;
  Ret it.

Definition iter_addresses : outcome unit :=
  a ← ip "10.1.0.10"; r ← new a 30; cidr ← unwrap r;
  it ← iter cidr;
  n ← size cidr;
  _ ← assert_eq n 4;
  it ← next_is "10.1.0.8" it;
  it ← next_is "10.1.0.9" it;
  it ← next_is "10.1.0.10" it;
  it ← next_is "10.1.0.11" it;
  '(o, _) ← next it;
  assert_eq None o.

Definition cidr_contains_address : outcome unit :=
  r ← from_str (str "10.0.0.0/25"); cidr ← unwrap r;
  a ← ip "10.0.0.0";
  _ ← assert (contains cidr a);
  a ← ip "10.0.0.127";
  _ ← assert (contains cidr a);
  a ← ip "10.0.0.128";
  assert (negb (contains cidr a)).

Example tests_pass4 : Forall (eq (Ret tt))
  [parse_bad_cidr; cidr_parse_error; cidr_parse_error_with_netmask; hostmask; netmask;
   cidr_network_address; cidr_broadcast_address; addresses; iter_addresses; cidr_contains_address].
Proof. by repeat (constructor; [vm_compute; reflexivity|]). Qed.

(** ** On random input *)

(** [0..255u32] *)
Definition IPV4_SEGMENT (a : Z) : Prop := 0 <= a < 255.

(** [format!("{}.{}.{}.{}", a, b, c, d)] *)
Definition dotted (a b c d : Z) : rstr :=
  fmt_dec a ++ "."%char :: fmt_dec b ++ "."%char :: fmt_dec c ++ "."%char :: fmt_dec d.

Definition parse_cidr (a b c d length : Z) : outcome unit :=
  let cidr := dotted a b c d ++ "/"%char :: fmt_int length in
  r ← from_str cidr;
  assert (is_ok r).

Definition parse_cidr_with_netmask (a b c d : Z) : outcome unit :=
  let netmask := v4_new 255 0 0 0 in
  let cidr := dotted a b c d ++ "/"%char :: v4_to_string netmask in
  r ← from_str cidr;
  _ ← assert (is_ok r);
  r ← from_str cidr;
  c ← unwrap r;
  assert_eq (Ipv4Cidr.netmask c) netmask.

Lemma dotted_string a b c d : IPV4_SEGMENT a -> IPV4_SEGMENT b -> IPV4_SEGMENT c -> IPV4_SEGMENT d ->
  dotted a b c d = v4_to_string (v4_new a b c d) /\ v4_ok (v4_new a b c d).
Proof.
  unfold IPV4_SEGMENT. intros. split; [|apply v4_new_ok; lia].
  unfold v4_to_string. by rewrite v4_octets_new by lia.
Qed.

(** The tests on random input pass on every input they can draw. *)
Theorem v4_random_tests a b c d length :
  IPV4_SEGMENT a -> IPV4_SEGMENT b -> IPV4_SEGMENT c -> IPV4_SEGMENT d -> 0 <= length < 32 ->
  parse_cidr a b c d length = Ret tt /\ parse_cidr_with_netmask a b c d = Ret tt.
Proof.
  intros Ha Hb Hc Hd Hl. destruct (dotted_string a b c d) as [E Hok]; try done.
  unfold parse_cidr, parse_cidr_with_netmask, fmt_int. rewrite E.
  replace (length <? 0) with false by lia. rewrite Z.abs_eq by lia. cbn [app].
  rewrite v4_from_str_length, v4_from_str_netmask by (try done; lia). split.
  - destruct (decide (length = 0)) as [->|]; [rewrite v4_new_zero|]; by rewrite v4_new_prefix by lia.
  - unfold with_netmask. replace (netmask_length (v4_new 255 0 0 0)) with (Ok (E := CidrError) 8) by done.
    rewrite v4_new_prefix by lia. cbn. apply assert_eq_refl.
Qed.

Lemma v4_random_tests_witness : parse_cidr 10 0 254 7 0 = Ret tt /\ parse_cidr_with_netmask 10 0 254 7 = Ret tt.
Proof. apply (v4_random_tests 10 0 254 7 0); unfold IPV4_SEGMENT; lia. Defined.
