(* ===== verification/Ipv6Tests.v ===== *)
(** * The unit tests of [net/cidr/v6.rs]

    Each test as it is written. The tests on random input are functions of that input, and
    hold for all of it. *)

From S2P Require Import Prelude BitMask RustStr IpAddr Ipv6Text Cidr Ipv6Cidr UnitTests.

(** [Ipv6Addr::from_str(s).unwrap()] *)
Definition ip (s : string) : outcome Ipv6Addr := unwrap_some (v6_from_str (str s)).

Definition parse_bad_cidr : outcome unit :=
  r ← from_str (str "not-a-cidr"); assert (negb (is_ok r)).

Definition cidr_parse_error : outcome unit :=
  a ← ip "acdc::1";
  bad ← new a 129;
  _ ← assert (negb (is_ok bad));
  e ← unwrap_err bad;
  assert_eq (cidr_error_text e) (str "Failed to parse CIDR: Not a valid length").

Definition cidr_parse_error_with_netmask : outcome unit :=
  a ← ip "ff01:0:0:17::2";
  m ← ip "0:0:ffff:ffff::";
  bad ← with_netmask a m;
  _ ← assert (negb (is_ok bad));
  e ← unwrap_err bad;
  assert_eq (cidr_error_text e) (str "Invalid prefix length").

Definition hostmask : outcome unit :=
  a ← ip "fd00::"; r ← new a 24; cidr ← unwrap r;
  x ← ip "::ff:ffff:ffff:ffff:ffff:ffff:ffff";
  assert_eq (Ipv6Cidr.hostmask cidr) x.

Definition netmask : outcome unit :=
  a ← ip "fd00::"; r ← new a 24; cidr ← unwrap r;
  x ← ip "ffff:ff00::";
  assert_eq (Ipv6Cidr.netmask cidr) x.

Definition cidr_network_address : outcome unit :=
  a ← ip "fd00::"; r ← new a 24; cidr ← unwrap r;
  x ← ip "fd00::";
  assert_eq (network cidr) x.

Definition cidr_broadcast_address : outcome unit :=
  a ← ip "fd00::"; r ← new a 24; cidr ← unwrap r;
  x ← ip "fd00:ff:ffff:ffff:ffff:ffff:ffff:ffff";
  assert_eq (broadcast cidr) x.

Definition addresses : outcome unit :=
  a ← ip "fd00::"; r ← new a 96; cidr ← unwrap r;
  n ← size cidr;
  assert_eq n 4294967296.

(** [iter.next().unwrap()] *)
Definition next_is (s : string) (it : Ipv6CidrIterator) : outcome Ipv6CidrIterator :=
  x ← ip s;
  '(o, it) ← next it;
  y ← unwrap_some o;
  _ ← assert_eq x y;
  Ret it.

Definition iter_addresses : outcome unit :=
  a ← ip "20f6:1b85:cc34::"; r ← new a 126; cidr ← unwrap r;
  it ← iter cidr;
  n ← size cidr;
  _ ← assert_eq n 4;
  it ← next_is "20f6:1b85:cc34:0:0:0:0:0" it;
  it ← next_is "20f6:1b85:cc34:0:0:0:0:1" it;
  it ← next_is "20f6:1b85:cc34:0:0:0:0:2" it;
  it ← next_is "20f6:1b85:cc34:0:0:0:0:3" it;
  '(o, _) ← next it;
  assert_eq None o.

Definition netmask_length : outcome unit :=
  ip1 ← ip "ffff:ffff:ffff::";
  n ← unwrap (Ipv6Cidr.netmask_length ip1);
  _ ← assert_eq n 48;
  r ← from_str (str "5d88:2be8:9cc7:0f86::/64"); cidr ← unwrap r;
  n ← unwrap (Ipv6Cidr.netmask_length (Ipv6Cidr.netmask cidr));
  assert_eq n 64.

Definition cidr_contains_address : outcome unit :=
  r ← from_str (str "acdc::0/16"); cidr ← unwrap r;
  a ← ip "acdc::1";
  _ ← assert (contains cidr a);
  a ← ip "acdb::1";
  assert (negb (contains cidr a)).

Example tests_pass6 : Forall (eq (Ret tt))
  [parse_bad_cidr; cidr_parse_error; cidr_parse_error_with_netmask; hostmask; netmask; netmask_length;
   cidr_network_address; cidr_broadcast_address; addresses; iter_addresses; cidr_contains_address].
Proof. by repeat (constructor; [vm_compute; reflexivity|]). Qed.

(** ** On random input *)

(** [[0-9a-f]{1,4}] *)
Definition is_hex (c : ascii) : Prop := 48 <= code c <= 57 \/ 97 <= code c <= 102.
Definition IPV6_SEGMENT (s : rstr) : Prop := Forall is_hex s /\ (1 <= Datatypes.length s <= 4)%nat.

(** [format!("{}:{}:{}:{}:{}:{}:{}:{}", a, b, c, d, e, f, g, h)] *)
Definition coloned (a b c d e f g h : rstr) : rstr :=
  a ++ ":"%char :: b ++ ":"%char :: c ++ ":"%char :: d ++ ":"%char :: e ++ ":"%char :: f ++
  ":"%char :: g ++ ":"%char :: h.

Definition parse_cidr (a b c d e f g h : rstr) (length : Z) : outcome unit :=
  let cidr := coloned a b c d e f g h ++ "/"%char :: fmt_int length in
  r ← from_str cidr;
  assert (is_ok r).

Definition parse_cidr_with_netmask (a b c d e f g h : rstr) : outcome unit :=
  let netmask := v6_from_segments [0xffff; 0xffff; 0xffff; 0; 0; 0; 0; 0] in
  let cidr := coloned a b c d e f g h ++ "/"%char :: v6_to_string netmask in
  r ← from_str cidr;
  _ ← assert (is_ok r);
  r ← from_str cidr;
  c ← unwrap r;
  assert_eq (Ipv6Cidr.netmask c) netmask.

(** Such a text is one to four digits. *)
Lemma hex_digit c : is_hex c -> exists d, c = digit_char d /\ 0 <= d < 16.
Proof.
  intros H. unfold digit_char. destruct (decide (code c <= 57)).
  - exists (code c - 48). replace (code c - 48 <? 10) with true by (unfold is_hex in H; lia).
    replace (48 + (code c - 48)) with (code c) by lia. rewrite of_code_code. unfold is_hex in H. split; [done|lia].
  - exists (code c - 87). replace (code c - 87 <? 10) with false by (unfold is_hex in H; lia).
    replace (87 + (code c - 87)) with (code c) by lia. rewrite of_code_code. unfold is_hex in H. split; [done|lia].
Qed.

Lemma hex_segment s : IPV6_SEGMENT s ->
  exists g, text_of s g /\ segment g /\ Forall (fun c => is_char "/" c = false) s.
Proof.
  intros [H L]. assert (exists ds, s = map digit_char ds /\ Forall (fun d => 0 <= d < 16) ds) as (ds & -> & Hd).
  { clear L. induction H as [|c s Hc _ (ds & -> & Hd)]; [by exists []|].
    destruct (hex_digit c Hc) as (d & -> & ?). exists (d :: ds). split; [done|by constructor]. }
  rewrite length_map in L. exists (value 16 ds). destruct (hex_digits_text ds Hd L) as [T S].
  do 2 (split; [done|]). eapply Forall_impl; [exact H|]. intros c Hc.
  unfold is_char. apply Ascii.eqb_neq. intros ->. unfold is_hex in Hc. change (code "/") with 47 in Hc. lia.
Qed.

Lemma coloned_parses a b c d e f g h : Forall IPV6_SEGMENT [a; b; c; d; e; f; g; h] ->
  exists x, v6_from_str (coloned a b c d e f g h) = Some x /\
    Forall (fun c => is_char "/" c = false) (coloned a b c d e f g h).
Proof.
  set (xs := [a; b; c; d; e; f; g; h]). intros H.
  assert (coloned a b c d e f g h = joined 0 xs) as ->.
  { unfold coloned, xs. cbn. by rewrite app_nil_r. }
  assert (exists gs, Forall2 text_of xs gs /\ Forall (Forall (fun c => is_char "/" c = false)) xs) as (gs & T & Hs).
  { clearbody xs. clear -H. induction H as [|x xs Hx _ (gs & T & Hs)]; [by exists []|].
    destruct (hex_segment x Hx) as (g & Tx & _ & Sx). exists (g :: gs). by split; constructor. }
  assert (Datatypes.length gs = 8%nat) as L by (by rewrite <- (Forall2_length _ _ _ T)).
  exists (v6_from_segments gs). split.
  - unfold v6_from_str, read_ipv6_addr. rewrite <- (app_nil_r (joined 0 xs)).
    rewrite (read_groups_joined xs gs); [by rewrite L|done|lia|done|done|lia].
  - assert (forall i, Forall (fun c => is_char "/" c = false) (joined i xs)) as K; [|apply K].
    clear -Hs. induction Hs as [|x xs Hx _ IH]; intros i; [constructor|]. cbn [joined].
    apply Forall_app. split; [destruct (i =? 0)%nat; by repeat constructor|]. by apply Forall_app.
Qed.

(** The tests on random input pass on every input they can draw: eight texts of one to four
    hexadecimal digits and a length or a netmask. *)
Theorem v6_random_tests a b c d e f g h length :
  Forall IPV6_SEGMENT [a; b; c; d; e; f; g; h] -> 0 <= length < 128 ->
  parse_cidr a b c d e f g h length = Ret tt /\ parse_cidr_with_netmask a b c d e f g h = Ret tt.
Proof.
  intros H Hl. destruct (coloned_parses a b c d e f g h H) as (x & Ex & Hs).
  unfold parse_cidr, parse_cidr_with_netmask, fmt_int.
  replace (length <? 0) with false by lia. rewrite Z.abs_eq by lia. cbn [app].
  set (text := coloned a b c d e f g h) in *. clearbody text. split.
  - unfold from_str. rewrite slash_split by (try done; apply fmt_radix_no_slash; lia).
    rewrite Ex. unfold fmt_dec, USIZE_BITS. rewrite from_str_radix_fmt by lia.
    destruct (decide (length = 0)) as [->|]; [rewrite v6_new_zero|]; by rewrite v6_new_prefix by lia.
  - set (m := v6_from_segments [0xffff; 0xffff; 0xffff; 0; 0; 0; 0; 0]).
    assert (v6_ok m) as Hm by done.
    assert (forall A (k : result Ipv6Cidr CidrError -> outcome A),
      (r ← from_str (text ++ "/"%char :: v6_to_string m); k r) =
      k (Ok {| cidr_address := x; cidr_mask := prefix_mask 128 48 |})) as R.
    { intros A k. unfold from_str. rewrite slash_split by (try done; by apply v6_to_string_no_slash).
      rewrite Ex, v6_to_string_not_number, v6_from_str_to_string by done.
      unfold with_netmask. replace (Ipv6Cidr.netmask_length m) with (Ok (E := CidrError) 48) by done.
      by rewrite v6_new_prefix by lia. }
    rewrite R. cbn [is_ok assert mbind outcome_bind]. rewrite R. cbn. apply assert_eq_refl.
Qed.

Lemma v6_random_tests_witness :
  parse_cidr (str "0") (str "1b85") (str "cc34") (str "00f") (str "0") (str "0") (str "0") (str "ffff") 64 = Ret tt /\
  parse_cidr_with_netmask (str "0") (str "1b85") (str "cc34") (str "00f") (str "0") (str "0") (str "0") (str "ffff") = Ret tt.
Proof.
  apply v6_random_tests; [|lia].
  repeat (constructor; [split; [repeat (constructor; [unfold is_hex; vm_compute; intuition congruence|]); constructor|cbn; lia]|]).
  constructor.
Defined.
