(* ===== verification/Macros.v ===== *)
(** * Logging ([macros.rs])

    The five macros that emit an event of the [tracing] crate, each with an arm that emits it
    only under a condition. The models of the other components leave logging out: an event
    changes nothing they use. [ensure!] is a notation of [Prelude]. *)

From S2P Require Import Prelude RustStr.

Inductive Level := ERROR | WARN | INFO | DEBUG | TRACE.

(** An event, as its level and its formatted arguments *)
Record event := Event { level : Level; message : rstr }.

Section macros.
Context {S : Type} (emit : event -> S -> S).

(** What the macros take: [cond: c, args], or just the arguments *)
Inductive tokens :=
  | Args (message : rstr)
  | Cond (cond : M S bool) (message : rstr).

Definition log (l : Level) (t : tokens) : M S unit :=
  match t with
  | Args m => modify (emit (Event l m))
  | Cond c m => b ← c; (if b : bool then modify (emit (Event l m)) else mret tt)
  end.

Definition error : tokens -> M S unit := log ERROR.
Definition warn : tokens -> M S unit := log WARN.
Definition info : tokens -> M S unit := log INFO.
Definition debug : tokens -> M S unit := log DEBUG.
Definition trace : tokens -> M S unit := log TRACE.

(** A part of the state that no event and no condition changes is kept. *)
Lemma keeps_log {X} (f : S -> X) l t :
  (forall e s, f (emit e s) = f s) ->
  match t with Cond c _ => keeps f c | Args _ => True end -> keeps f (log l t).
Proof.
  intros He Ht. destruct t as [m|c m]; cbn [log].
  - by apply keeps_modify.
  - apply keeps_bind; [done|]. intros []; [by apply keeps_modify|apply keeps_ret].
Qed.

End macros.
