(* ===== verification/Ffi.v ===== *)
(** * Calls into C ([ffi.rs], [macros.rs], the error types)

    Conversions of strings and of return codes, and the [failure::Error] a [Fallible]
    function returns: one constructor for each error type of the engine. *)

From S2P Require Import Prelude RustStr.

(** ** Errors *)

(** [BufferError] of [dpdk/mbuf.rs] *)
Inductive BufferError :=
  | BadOffset (offset len : Z)
  | NotResized
  | OutOfBuffer (size remaining : Z).

(** [SocketId] of [dpdk/mod.rs]: a [c_int] *)
Record SocketId := Socket { socket_raw : Z }.

#[global] Instance SocketId_eq_dec : EqDecision SocketId.
Proof. solve_decision. Defined.
#[global] Instance SocketId_countable : Countable SocketId.
Proof. by refine (inj_countable' socket_raw Socket _); intros []. Defined.

(** [MempoolError] of [dpdk/mempool.rs] *)
Inductive MempoolError :=
  | Exhausted
  | MempoolNotFound (s : SocketId).

(** [PortError] of [dpdk/port.rs] *)
Inductive PortError :=
  | PortNotFound (name : rstr)
  | CoreNotBound
  | InsufficientRxQueues (max : Z)
  | InsufficientTxQueues (max : Z).

(** [DpdkError(String)] of [dpdk/mod.rs] *)
Inductive DpdkError := DpdkErr (text : rstr).

(** [failure::Error]: the errors above, [format_err!] texts, and those of the libraries. *)
Inductive error :=
  | EBuffer (e : BufferError)
  | EMempool (e : MempoolError)
  | EPort (e : PortError)
  | EDpdk (e : DpdkError)
  | EFormat (text : rstr)
  | EZmq (code : Z)
  | EJson (text : rstr).

Abbreviation Fallible A := (result A error).

(** The [fail(display = ..)] text of a buffer error *)
Definition buffer_error_text (e : BufferError) : rstr :=
  match e with
  | BadOffset o l =>
      str "Offset " ++ fmt_dec o ++ str " exceed the buffer length " ++ fmt_dec l
  | NotResized => str "Buffer is not resized"
  | OutOfBuffer s l =>
      str "Struct size " ++ fmt_dec s ++ str " exceeds the remaining buffer length " ++ fmt_dec l
  end.

(** ** [trait ToResult] *)

(** A pointer is an address, [0] the null one: [impl ToResult for *mut T] and [*const T]. *)
Definition ptr_to_result {E} (p : Z) (f : Z -> E) : result Z E :=
  if p =? 0 then Err (f p) else Ok p.

(** [impl ToResult for raw::c_int] *)
Definition int_to_result {E} (n : Z) (f : Z -> E) : result Z E :=
  if 0 <=? n then Ok n else Err (f n).

(** ** [trait ToCString] *)

Definition NUL : ascii := zero.

(** [CString::new(self).unwrap()] panics on an interior NUL. *)
Definition to_cstring (s : rstr) : outcome rstr :=
  if existsb (Ascii.eqb NUL) s then Panic UnwrapFailed else Ret s.

(** ** [trait AsStr] *)

Definition continuation (c : ascii) : bool := (128 <=? code c) && (code c <=? 191).

(** [str::from_utf8]: the well-formed byte sequences of UTF-8 *)
Fixpoint utf8_valid (fuel : nat) (s : rstr) : bool :=
  match fuel with
  | O => match s with [] => true | _ => false end
  | S f =>
      let within lo hi c := (lo <=? code c) && (code c <=? hi) in
      match s with
      | [] => true
      | a :: s1 =>
          if code a <=? 127 then utf8_valid f s1
          else match s1 with
          | [] => false
          | b :: s2 =>
              if within 194 223 a then continuation b && utf8_valid f s2
              else match s2 with
              | [] => false
              | c :: s3 =>
                  if within 224 239 a then
                    (if code a =? 224 then within 160 191 b
                     else if code a =? 237 then within 128 159 b else continuation b)
                    && continuation c && utf8_valid f s3
                  else match s3 with
                  | [] => false
                  | d :: s4 =>
                      within 240 244 a
                      && (if code a =? 240 then within 144 191 b
                          else if code a =? 244 then within 128 143 b else continuation b)
                      && continuation c && continuation d && utf8_valid f s4
                  end
              end
          end
      end
  end.

Definition is_utf8 (s : rstr) : bool := utf8_valid (List.length s) s.

(** The bytes of a C string: those before the first NUL; reading past the end of the
    memory given is undefined. *)
Fixpoint cstr_bytes (memory : rstr) : outcome rstr :=
  match memory with
  | [] => Undefined
  | c :: m => if Ascii.eqb NUL c then Ret [] else s ← cstr_bytes m; Ret (c :: s)
  end.

(** [as_str] on a C string in memory: the empty string when it is not UTF-8. *)
Definition as_str (memory : rstr) : outcome rstr :=
  s ← cstr_bytes memory; Ret (if is_utf8 s then s else []).

Lemma cstr_bytes_app s rest :
  Forall (fun c => c <> NUL) s -> cstr_bytes (s ++ NUL :: rest) = Ret s.
Proof.
  induction 1 as [|c s Hc _ IH]; [done|]. cbn [app cstr_bytes].
  rewrite (proj2 (Ascii.eqb_neq NUL c)) by congruence. by rewrite IH.
Qed.

Lemma cstr_bytes_unterminated s : Forall (fun c => c <> NUL) s -> cstr_bytes s = Undefined.
Proof.
  induction 1 as [|c s Hc _ IH]; [done|]. cbn [cstr_bytes].
  rewrite (proj2 (Ascii.eqb_neq NUL c)) by congruence. by rewrite IH.
Qed.

Lemma to_cstring_ok s c : to_cstring s = Ret c -> c = s /\ Forall (fun a => a <> NUL) s.
Proof.
  unfold to_cstring. destruct (existsb _ s) eqn:E; [done|]. intros [= <-]. split; [done|].
  apply Forall_forall. intros a Ha Ea. apply list_elem_of_In in Ha.
  assert (existsb (Ascii.eqb NUL) s = true); [|congruence].
  apply existsb_exists. exists a. split; [done|]. by apply Ascii.eqb_eq.
Qed.

Lemma utf8_valid_ascii s : Forall (fun c => code c <= 127) s -> utf8_valid (List.length s) s = true.
Proof.
  induction 1 as [|c s Hc _ IH]; [done|]. cbn [List.length utf8_valid].
  by rewrite (proj2 (Z.leb_le _ _)).
Qed.

(** An ASCII text handed to C and read back with [as_str] comes back unchanged, provided C
    sees the terminating NUL. *)
Lemma as_str_cstring s memory c :
  to_cstring s = Ret c -> Forall (fun a => code a <= 127) s -> as_str (c ++ NUL :: memory) = Ret s.
Proof.
  intros Hc Ha. apply to_cstring_ok in Hc as [-> Hn]. unfold as_str.
  rewrite cstr_bytes_app by done. cbn. unfold is_utf8. by rewrite utf8_valid_ascii.
Qed.
