(* ===== verification/Constants.v ===== *)
(** * The constants of the bindings ([ffi/src/bindings_rustdoc.rs])

    What the macros of DPDK's headers expand to: its configuration as tables, every other number
    and string under its own name. [Flags] shows how they fit together. *)

From S2P Require Import Prelude RustStr Ffi.

#[local] Open Scope string_scope.

(** [rte_config.h]: the machine *)
Definition rte_config_machine : list (string * Z) :=
  [("RTE_ARCH_X86", 1); ("RTE_ARCH_X86_64", 1); ("RTE_CACHE_LINE_SIZE", 64);
   ("RTE_DRIVER_MEMPOOL_BUCKET_SIZE_KB", 64); ("RTE_EAL_NUMA_AWARE_HUGEPAGES", 1)].

(** The parts of DPDK that are built *)
Definition rte_config_components : list (string * Z) :=
  [("RTE_EXEC_ENV_LINUX", 1); ("RTE_HAS_LIBNUMA", 1); ("RTE_IXGBE_INC_VECTOR", 1);
   ("RTE_LIBRTE_ACL", 1); ("RTE_LIBRTE_AF_PACKET_PMD", 1); ("RTE_LIBRTE_ARK_PMD", 1);
   ("RTE_LIBRTE_ATLANTIC_PMD", 1); ("RTE_LIBRTE_AVP_PMD", 1); ("RTE_LIBRTE_AXGBE_PMD", 1);
   ("RTE_LIBRTE_BBDEV", 1); ("RTE_LIBRTE_BITRATESTATS", 1); ("RTE_LIBRTE_BNXT_PMD", 1);
   ("RTE_LIBRTE_BOND_PMD", 1); ("RTE_LIBRTE_BPF", 1); ("RTE_LIBRTE_BUCKET_MEMPOOL", 1);
   ("RTE_LIBRTE_CAAM_JR_PMD", 1); ("RTE_LIBRTE_CFGFILE", 1); ("RTE_LIBRTE_CMDLINE", 1);
   ("RTE_LIBRTE_COMPRESSDEV", 1); ("RTE_LIBRTE_CPT_COMMON", 1); ("RTE_LIBRTE_CRYPTODEV", 1);
   ("RTE_LIBRTE_CRYPTO_SCHEDULER_PMD", 1); ("RTE_LIBRTE_CXGBE_PMD", 1); ("RTE_LIBRTE_DISTRIBUTOR", 1);
   ("RTE_LIBRTE_DPAA2_EVENTDEV_PMD", 1); ("RTE_LIBRTE_DPAA2_MEMPOOL", 1); ("RTE_LIBRTE_DPAA2_PMD", 1);
   ("RTE_LIBRTE_DPAA2_SEC_PMD", 1); ("RTE_LIBRTE_DPAAX_COMMON", 1); ("RTE_LIBRTE_DPAA_BUS", 1);
   ("RTE_LIBRTE_DPAA_EVENTDEV_PMD", 1); ("RTE_LIBRTE_DPAA_MEMPOOL", 1); ("RTE_LIBRTE_DPAA_PMD", 1);
   ("RTE_LIBRTE_DPAA_SEC_PMD", 1); ("RTE_LIBRTE_DSW_EVENTDEV_PMD", 1); ("RTE_LIBRTE_E1000_PMD", 1);
   ("RTE_LIBRTE_EAL", 1); ("RTE_LIBRTE_EFD", 1); ("RTE_LIBRTE_ENA_PMD", 1);
   ("RTE_LIBRTE_ENETC_PMD", 1); ("RTE_LIBRTE_ENIC_PMD", 1); ("RTE_LIBRTE_ETHDEV", 1);
   ("RTE_LIBRTE_EVENTDEV", 1); ("RTE_LIBRTE_FAILSAFE_PMD", 1); ("RTE_LIBRTE_FIB", 1);
   ("RTE_LIBRTE_FLOW_CLASSIFY", 1); ("RTE_LIBRTE_FM10K_INC_VECTOR", 1); ("RTE_LIBRTE_FM10K_PMD", 1);
   ("RTE_LIBRTE_FSLMC_BUS", 1); ("RTE_LIBRTE_GRO", 1); ("RTE_LIBRTE_GSO", 1); ("RTE_LIBRTE_HASH", 1);
   ("RTE_LIBRTE_HINIC_PMD", 1); ("RTE_LIBRTE_HNS3_PMD", 1); ("RTE_LIBRTE_I40E_INC_VECTOR", 1);
   ("RTE_LIBRTE_I40E_PMD", 1); ("RTE_LIBRTE_IAVF_PMD", 1); ("RTE_LIBRTE_ICE_PMD", 1);
   ("RTE_LIBRTE_IFC_PMD", 1); ("RTE_LIBRTE_IFPGA_BUS", 1); ("RTE_LIBRTE_IPSEC", 1);
   ("RTE_LIBRTE_IP_FRAG", 1); ("RTE_LIBRTE_IXGBE_PMD", 1); ("RTE_LIBRTE_JOBSTATS", 1);
   ("RTE_LIBRTE_KNI", 1); ("RTE_LIBRTE_KNI_PMD", 1); ("RTE_LIBRTE_KVARGS", 1);
   ("RTE_LIBRTE_LATENCYSTATS", 1); ("RTE_LIBRTE_LIQUIDIO_PMD", 1); ("RTE_LIBRTE_LPM", 1);
   ("RTE_LIBRTE_MBUF", 1); ("RTE_LIBRTE_MEMBER", 1); ("RTE_LIBRTE_MEMIF_PMD", 1);
   ("RTE_LIBRTE_MEMPOOL", 1); ("RTE_LIBRTE_METER", 1)].

(** Those from [RTE_LIBRTE_METRICS] on, and what the processor offers *)
Definition rte_config_components_2 : list (string * Z) :=
  [("RTE_LIBRTE_METRICS", 1); ("RTE_LIBRTE_NET", 1); ("RTE_LIBRTE_NETVSC_PMD", 1);
   ("RTE_LIBRTE_NFP_PMD", 1); ("RTE_LIBRTE_NITROX_PMD", 1); ("RTE_LIBRTE_NULL_CRYPTO_PMD", 1);
   ("RTE_LIBRTE_NULL_PMD", 1); ("RTE_LIBRTE_OCTEONTX2_COMMON", 1);
   ("RTE_LIBRTE_OCTEONTX2_CRYPTO_PMD", 1); ("RTE_LIBRTE_OCTEONTX2_EVENTDEV_PMD", 1);
   ("RTE_LIBRTE_OCTEONTX2_MEMPOOL", 1); ("RTE_LIBRTE_OCTEONTX2_PMD", 1);
   ("RTE_LIBRTE_OCTEONTX_COMMON", 1); ("RTE_LIBRTE_OCTEONTX_COMPRESS_PMD", 1);
   ("RTE_LIBRTE_OCTEONTX_CRYPTO_PMD", 1); ("RTE_LIBRTE_OCTEONTX_EVENTDEV_PMD", 1);
   ("RTE_LIBRTE_OCTEONTX_MEMPOOL", 1); ("RTE_LIBRTE_OCTEONTX_PMD", 1);
   ("RTE_LIBRTE_OPDL_EVENTDEV_PMD", 1); ("RTE_LIBRTE_PCAP_PMD", 1); ("RTE_LIBRTE_PCI", 1);
   ("RTE_LIBRTE_PCI_BUS", 1); ("RTE_LIBRTE_PDUMP", 1); ("RTE_LIBRTE_PFE_PMD", 1);
   ("RTE_LIBRTE_PIPELINE", 1); ("RTE_LIBRTE_PMD_BBDEV_FPGA_LTE_FEC", 1);
   ("RTE_LIBRTE_PMD_BBDEV_NULL", 1); ("RTE_LIBRTE_PMD_BBDEV_TURBO_SW", 1);
   ("RTE_LIBRTE_PMD_DPAA2_CMDIF_RAWDEV", 1); ("RTE_LIBRTE_PMD_DPAA2_QDMA_RAWDEV", 1);
   ("RTE_LIBRTE_PMD_IOAT_RAWDEV", 1); ("RTE_LIBRTE_PMD_NTB_RAWDEV", 1);
   ("RTE_LIBRTE_PMD_OCTEONTX2_DMA_RAWDEV", 1); ("RTE_LIBRTE_PMD_SKELETON_RAWDEV", 1);
   ("RTE_LIBRTE_PORT", 1); ("RTE_LIBRTE_POWER", 1); ("RTE_LIBRTE_QAT_PMD", 1);
   ("RTE_LIBRTE_QEDE_PMD", 1); ("RTE_LIBRTE_RAWDEV", 1); ("RTE_LIBRTE_RCU", 1);
   ("RTE_LIBRTE_REORDER", 1); ("RTE_LIBRTE_RIB", 1); ("RTE_LIBRTE_RING", 1);
   ("RTE_LIBRTE_RING_MEMPOOL", 1); ("RTE_LIBRTE_RING_PMD", 1); ("RTE_LIBRTE_SCHED", 1);
   ("RTE_LIBRTE_SECURITY", 1); ("RTE_LIBRTE_SFC_PMD", 1); ("RTE_LIBRTE_SKELETON_EVENTDEV_PMD", 1);
   ("RTE_LIBRTE_SOFTNIC_PMD", 1); ("RTE_LIBRTE_STACK", 1); ("RTE_LIBRTE_STACK_MEMPOOL", 1);
   ("RTE_LIBRTE_SW_EVENTDEV_PMD", 1); ("RTE_LIBRTE_TABLE", 1); ("RTE_LIBRTE_TAP_PMD", 1);
   ("RTE_LIBRTE_THUNDERX_PMD", 1); ("RTE_LIBRTE_TIMER", 1); ("RTE_LIBRTE_VDEV_BUS", 1);
   ("RTE_LIBRTE_VDEV_NETVSC_PMD", 1); ("RTE_LIBRTE_VHOST", 1); ("RTE_LIBRTE_VHOST_NUMA", 1);
   ("RTE_LIBRTE_VHOST_PMD", 1); ("RTE_LIBRTE_VIRTIO_CRYPTO_PMD", 1); ("RTE_LIBRTE_VIRTIO_PMD", 1);
   ("RTE_LIBRTE_VMBUS_BUS", 1); ("RTE_LIBRTE_VMXNET3_PMD", 1); ("RTE_MACHINE_CPUFLAG_AES", 1);
   ("RTE_MACHINE_CPUFLAG_AVX", 1); ("RTE_MACHINE_CPUFLAG_AVX2", 1);
   ("RTE_MACHINE_CPUFLAG_PCLMULQDQ", 1); ("RTE_MACHINE_CPUFLAG_RDRAND", 1);
   ("RTE_MACHINE_CPUFLAG_RDSEED", 1); ("RTE_MACHINE_CPUFLAG_SSE", 1); ("RTE_MACHINE_CPUFLAG_SSE2", 1);
   ("RTE_MACHINE_CPUFLAG_SSE3", 1); ("RTE_MACHINE_CPUFLAG_SSE4_1", 1);
   ("RTE_MACHINE_CPUFLAG_SSE4_2", 1); ("RTE_MACHINE_CPUFLAG_SSSE3", 1)].

#[local] Close Scope string_scope.

(** ** Strings, each an array of bytes with a NUL at its end *)

Definition RTE_EAL_PMD_PATH : rstr := str "/usr/local/lib/x86_64-linux-gnu/dpdk/pmds-20.0" ++ [NUL].
Definition RTE_TOOLCHAIN : rstr := str "gcc" ++ [NUL].
Definition RTE_VER_SUFFIX : rstr := str "" ++ [NUL].
Definition RTE_VER_PREFIX : rstr := str "DPDK" ++ [NUL].
Definition RTE_MBUF_DEFAULT_MEMPOOL_OPS : rstr := str "ring_mp_mc" ++ [NUL].
Definition RTE_LIBRTE_QEDE_FW : rstr := str "" ++ [NUL].
Definition RTE_TAILQ_RING_NAME : rstr := str "RTE_RING" ++ [NUL].
Definition RTE_RING_MZ_PREFIX : rstr := str "RG_" ++ [NUL].
Definition RTE_MEMPOOL_MZ_PREFIX : rstr := str "MP_" ++ [NUL].
Definition RTE_MEMPOOL_MZ_FORMAT : rstr := str "MP_%s" ++ [NUL].
Definition RTE_MBUF_DYNFIELD_METADATA_NAME : rstr := str "rte_flow_dynfield_metadata" ++ [NUL].
Definition RTE_MBUF_DYNFLAG_METADATA_NAME : rstr := str "rte_flow_dynflag_metadata" ++ [NUL].

(** ** Numbers *)

(** *** Limits and the version *)

Definition RTE_MAX_ETHPORTS : Z := 32.
Definition RTE_MAX_LCORE : Z := 128.
Definition RTE_MAX_NUMA_NODES : Z := 4.
Definition RTE_MAX_VFIO_GROUPS : Z := 64.
Definition RTE_PORT_PCAP : Z := 1.
Definition RTE_TOOLCHAIN_GCC : Z := 1.
Definition RTE_VER_MINOR : Z := 1.
Definition RTE_VER_MONTH : Z := 11.
Definition RTE_VER_RELEASE : Z := 99.
Definition RTE_VER_YEAR : Z := 19.
Definition RTE_VIRTIO_USER : Z := 1.
Definition RTE_EXEC_ENV_LINUXAPP : Z := 1.
Definition RTE_MAX_HEAPS : Z := 32.
Definition RTE_MAX_MEMSEG_LISTS : Z := 128.
Definition RTE_MAX_MEMSEG_PER_LIST : Z := 8192.
Definition RTE_MAX_MEM_MB_PER_LIST : Z := 32768.
Definition RTE_MAX_MEMSEG_PER_TYPE : Z := 32768.
Definition RTE_MAX_MEM_MB_PER_TYPE : Z := 65536.
Definition RTE_MAX_MEM_MB : Z := 524288.
Definition RTE_MAX_MEMZONE : Z := 2560.
Definition RTE_MAX_TAILQ : Z := 32.
Definition RTE_BACKTRACE : Z := 1.
Definition RTE_MAX_VFIO_CONTAINERS : Z := 64.
Definition RTE_CONTIGMEM_MAX_NUM_BUFS : Z := 64.
Definition RTE_CONTIGMEM_DEFAULT_NUM_BUFS : Z := 1.
Definition RTE_CONTIGMEM_DEFAULT_BUF_SIZE : Z := 536870912.
Definition RTE_MEMPOOL_CACHE_MAX_SIZE : Z := 512.
Definition RTE_MBUF_REFCNT_ATOMIC : Z := 1.
Definition RTE_PKTMBUF_HEADROOM : Z := 128.
Definition RTE_MAX_QUEUES_PER_PORT : Z := 1024.
Definition RTE_ETHDEV_QUEUE_STAT_CNTRS : Z := 16.
Definition RTE_ETHDEV_RXTX_CALLBACKS : Z := 1.
Definition RTE_CRYPTO_MAX_DEVS : Z := 64.
Definition RTE_CRYPTODEV_NAME_LEN : Z := 64.
Definition RTE_COMPRESS_MAX_DEVS : Z := 64.
Definition RTE_EVENT_MAX_DEVS : Z := 16.
Definition RTE_EVENT_MAX_QUEUES_PER_DEV : Z := 64.
Definition RTE_EVENT_TIMER_ADAPTER_NUM_MAX : Z := 32.
Definition RTE_EVENT_ETH_INTR_RING_SIZE : Z := 1024.
Definition RTE_EVENT_CRYPTO_ADAPTER_MAX_INSTANCE : Z := 32.
Definition RTE_EVENT_ETH_TX_ADAPTER_MAX_INSTANCE : Z := 32.
Definition RTE_RAWDEV_MAX_DEVS : Z := 64.
Definition RTE_LIBRTE_IP_FRAG_MAX_FRAG : Z := 4.
Definition RTE_MAX_LCORE_FREQS : Z := 64.
Definition RTE_SCHED_PORT_N_GRINDERS : Z := 8.
Definition RTE_KNI_PREEMPT_DEFAULT : Z := 1.
Definition RTE_PMD_QAT_MAX_PCI_DEVICES : Z := 48.
Definition RTE_PMD_QAT_COMP_SGL_MAX_SEGMENTS : Z := 16.
Definition RTE_PMD_QAT_COMP_IM_BUFFER_SIZE : Z := 65536.
Definition RTE_MAX_VIRTIO_CRYPTO : Z := 32.
Definition RTE_LIBRTE_DPAA_MAX_CRYPTODEV : Z := 4.
Definition RTE_LIBRTE_FM10K_RX_OLFLAGS_ENABLE : Z := 1.
Definition RTE_LIBRTE_I40E_RX_ALLOW_BULK_ALLOC : Z := 1.
Definition RTE_LIBRTE_I40E_QUEUE_NUM_PER_PF : Z := 64.
Definition RTE_LIBRTE_I40E_QUEUE_NUM_PER_VF : Z := 4.
Definition RTE_LIBRTE_I40E_QUEUE_NUM_PER_VM : Z := 4.
Definition RTE_PMD_RING_MAX_RX_RINGS : Z := 16.
Definition RTE_PMD_RING_MAX_TX_RINGS : Z := 16.

(** *** Start-up priorities, cache lines *)

Definition RTE_PRIORITY_LOG : Z := 101.
Definition RTE_PRIORITY_BUS : Z := 110.
Definition RTE_PRIORITY_CLASS : Z := 120.
Definition RTE_PRIORITY_LAST : Z := 65535.
Definition RTE_CACHE_LINE_MASK : Z := 63.
Definition RTE_CACHE_LINE_SIZE_LOG2 : Z := 6.
Definition RTE_CACHE_LINE_MIN_SIZE : Z := 64.

(** *** Logging *)

Definition RTE_LOGTYPE_EAL : Z := 0.
Definition RTE_LOGTYPE_MALLOC : Z := 1.
Definition RTE_LOGTYPE_RING : Z := 2.
Definition RTE_LOGTYPE_MEMPOOL : Z := 3.
Definition RTE_LOGTYPE_TIMER : Z := 4.
Definition RTE_LOGTYPE_PMD : Z := 5.
Definition RTE_LOGTYPE_HASH : Z := 6.
Definition RTE_LOGTYPE_LPM : Z := 7.
Definition RTE_LOGTYPE_KNI : Z := 8.
Definition RTE_LOGTYPE_ACL : Z := 9.
Definition RTE_LOGTYPE_POWER : Z := 10.
Definition RTE_LOGTYPE_METER : Z := 11.
Definition RTE_LOGTYPE_SCHED : Z := 12.
Definition RTE_LOGTYPE_PORT : Z := 13.
Definition RTE_LOGTYPE_TABLE : Z := 14.
Definition RTE_LOGTYPE_PIPELINE : Z := 15.
Definition RTE_LOGTYPE_MBUF : Z := 16.
Definition RTE_LOGTYPE_CRYPTODEV : Z := 17.
Definition RTE_LOGTYPE_EFD : Z := 18.
Definition RTE_LOGTYPE_EVENTDEV : Z := 19.
Definition RTE_LOGTYPE_GSO : Z := 20.
Definition RTE_LOGTYPE_USER1 : Z := 24.
Definition RTE_LOGTYPE_USER2 : Z := 25.
Definition RTE_LOGTYPE_USER3 : Z := 26.
Definition RTE_LOGTYPE_USER4 : Z := 27.
Definition RTE_LOGTYPE_USER5 : Z := 28.
Definition RTE_LOGTYPE_USER6 : Z := 29.
Definition RTE_LOGTYPE_USER7 : Z := 30.
Definition RTE_LOGTYPE_USER8 : Z := 31.
Definition RTE_LOGTYPE_FIRST_EXT_ID : Z := 32.
Definition RTE_LOG_EMERG : Z := 1.
Definition RTE_LOG_ALERT : Z := 2.
Definition RTE_LOG_CRIT : Z := 3.
Definition RTE_LOG_ERR : Z := 4.
Definition RTE_LOG_WARNING : Z := 5.
Definition RTE_LOG_NOTICE : Z := 6.
Definition RTE_LOG_INFO : Z := 7.
Definition RTE_LOG_DEBUG : Z := 8.

(** *** Devices, processes, interrupts, transactions *)

Definition RTE_DEV_NAME_MAX_LEN : Z := 64.
Definition RTE_MAGIC : Z := 19820526.
Definition RTE_MAX_THREAD_NAME_LEN : Z := 16.
Definition RTE_MP_MAX_FD_NUM : Z := 8.
Definition RTE_MP_MAX_NAME_LEN : Z := 64.
Definition RTE_MP_MAX_PARAM_LEN : Z := 256.
Definition RTE_MAX_RXTX_INTR_VEC_ID : Z := 512.
Definition RTE_INTR_VEC_ZERO_OFFSET : Z := 0.
Definition RTE_INTR_VEC_RXTX_OFFSET : Z := 1.
Definition RTE_INTR_EVENT_ADD : Z := 1.
Definition RTE_INTR_EVENT_DEL : Z := 2.
Definition RTE_EPOLL_PER_THREAD : Z := -1.
Definition RTE_XBEGIN_STARTED : Z := -1.
Definition RTE_XABORT_EXPLICIT : Z := 1.
Definition RTE_XABORT_RETRY : Z := 2.
Definition RTE_XABORT_CONFLICT : Z := 4.
Definition RTE_XABORT_CAPACITY : Z := 8.
Definition RTE_XABORT_DEBUG : Z := 16.
Definition RTE_XABORT_NESTED : Z := 32.
Definition RTE_RTM_MAX_RETRIES : Z := 20.
Definition RTE_XABORT_LOCK_BUSY : Z := 255.

(** *** Memory *)

Definition RTE_FBARRAY_NAME_LEN : Z := 64.
Definition RTE_MEMSEG_FLAG_DO_NOT_FREE : Z := 1.
Definition RTE_MEM_EVENT_CALLBACK_NAME_LEN : Z := 64.
Definition RTE_MEM_ALLOC_VALIDATOR_NAME_LEN : Z := 64.
Definition RTE_MEMZONE_2MB : Z := 1.
Definition RTE_MEMZONE_1GB : Z := 2.
Definition RTE_MEMZONE_16MB : Z := 256.
Definition RTE_MEMZONE_16GB : Z := 512.
Definition RTE_MEMZONE_256KB : Z := 65536.
Definition RTE_MEMZONE_256MB : Z := 131072.
Definition RTE_MEMZONE_512MB : Z := 262144.
Definition RTE_MEMZONE_4GB : Z := 524288.
Definition RTE_MEMZONE_SIZE_HINT_ONLY : Z := 4.
Definition RTE_MEMZONE_IOVA_CONTIG : Z := 1048576.
Definition RTE_MEMZONE_NAMESIZE : Z := 32.

(** *** Rings and pools *)

Definition RTE_RING_SZ_MASK : Z := 2147483647.
Definition RTE_MEMPOOL_HEADER_COOKIE1 : Z := -4982197544707871147.
Definition RTE_MEMPOOL_HEADER_COOKIE2 : Z := -941548164385788331.
Definition RTE_MEMPOOL_TRAILER_COOKIE : Z := -5921418378119291987.
Definition MEMPOOL_PG_NUM_DEFAULT : Z := 1.
Definition RTE_MEMPOOL_ALIGN : Z := 64.
Definition RTE_MEMPOOL_ALIGN_MASK : Z := 63.
Definition MEMPOOL_F_NO_SPREAD : Z := 1.
Definition MEMPOOL_F_NO_CACHE_ALIGN : Z := 2.
Definition MEMPOOL_F_SP_PUT : Z := 4.
Definition MEMPOOL_F_SC_GET : Z := 8.
Definition MEMPOOL_F_POOL_CREATED : Z := 16.
Definition MEMPOOL_F_NO_IOVA_CONTIG : Z := 32.
Definition MEMPOOL_F_NO_PHYS_CONTIG : Z := 32.
Definition RTE_MEMPOOL_OPS_NAMESIZE : Z := 32.
Definition RTE_MEMPOOL_POPULATE_F_ALIGN_OBJ : Z := 1.
Definition RTE_MEMPOOL_MAX_OPS_IDX : Z := 16.

(** *** Byte orders *)

Definition RTE_BIG_ENDIAN : Z := 1.
Definition RTE_LITTLE_ENDIAN : Z := 2.
Definition RTE_BYTE_ORDER : Z := 2.

(** *** Packet types *)

Definition RTE_PTYPE_UNKNOWN : Z := 0.
Definition RTE_PTYPE_L2_ETHER : Z := 1.
Definition RTE_PTYPE_L2_ETHER_TIMESYNC : Z := 2.
Definition RTE_PTYPE_L2_ETHER_ARP : Z := 3.
Definition RTE_PTYPE_L2_ETHER_LLDP : Z := 4.
Definition RTE_PTYPE_L2_ETHER_NSH : Z := 5.
Definition RTE_PTYPE_L2_ETHER_VLAN : Z := 6.
Definition RTE_PTYPE_L2_ETHER_QINQ : Z := 7.
Definition RTE_PTYPE_L2_ETHER_PPPOE : Z := 8.
Definition RTE_PTYPE_L2_ETHER_FCOE : Z := 9.
Definition RTE_PTYPE_L2_ETHER_MPLS : Z := 10.
Definition RTE_PTYPE_L2_MASK : Z := 15.
Definition RTE_PTYPE_L3_IPV4 : Z := 16.
Definition RTE_PTYPE_L3_IPV4_EXT : Z := 48.
Definition RTE_PTYPE_L3_IPV6 : Z := 64.
Definition RTE_PTYPE_L3_IPV4_EXT_UNKNOWN : Z := 144.
Definition RTE_PTYPE_L3_IPV6_EXT : Z := 192.
Definition RTE_PTYPE_L3_IPV6_EXT_UNKNOWN : Z := 224.
Definition RTE_PTYPE_L3_MASK : Z := 240.
Definition RTE_PTYPE_L4_TCP : Z := 256.
Definition RTE_PTYPE_L4_UDP : Z := 512.
Definition RTE_PTYPE_L4_FRAG : Z := 768.
Definition RTE_PTYPE_L4_SCTP : Z := 1024.
Definition RTE_PTYPE_L4_ICMP : Z := 1280.
Definition RTE_PTYPE_L4_NONFRAG : Z := 1536.
Definition RTE_PTYPE_L4_IGMP : Z := 1792.
Definition RTE_PTYPE_L4_MASK : Z := 3840.
Definition RTE_PTYPE_TUNNEL_IP : Z := 4096.
Definition RTE_PTYPE_TUNNEL_GRE : Z := 8192.
Definition RTE_PTYPE_TUNNEL_VXLAN : Z := 12288.
Definition RTE_PTYPE_TUNNEL_NVGRE : Z := 16384.
Definition RTE_PTYPE_TUNNEL_GENEVE : Z := 20480.
Definition RTE_PTYPE_TUNNEL_GRENAT : Z := 24576.
Definition RTE_PTYPE_TUNNEL_GTPC : Z := 28672.
Definition RTE_PTYPE_TUNNEL_GTPU : Z := 32768.
Definition RTE_PTYPE_TUNNEL_ESP : Z := 36864.
Definition RTE_PTYPE_TUNNEL_L2TP : Z := 40960.
Definition RTE_PTYPE_TUNNEL_VXLAN_GPE : Z := 45056.
Definition RTE_PTYPE_TUNNEL_MPLS_IN_GRE : Z := 49152.
Definition RTE_PTYPE_TUNNEL_MPLS_IN_UDP : Z := 53248.
Definition RTE_PTYPE_TUNNEL_MASK : Z := 61440.
Definition RTE_PTYPE_INNER_L2_ETHER : Z := 65536.
Definition RTE_PTYPE_INNER_L2_ETHER_VLAN : Z := 131072.
Definition RTE_PTYPE_INNER_L2_ETHER_QINQ : Z := 196608.
Definition RTE_PTYPE_INNER_L2_MASK : Z := 983040.
Definition RTE_PTYPE_INNER_L3_IPV4 : Z := 1048576.
Definition RTE_PTYPE_INNER_L3_IPV4_EXT : Z := 2097152.
Definition RTE_PTYPE_INNER_L3_IPV6 : Z := 3145728.
Definition RTE_PTYPE_INNER_L3_IPV4_EXT_UNKNOWN : Z := 4194304.
Definition RTE_PTYPE_INNER_L3_IPV6_EXT : Z := 5242880.
Definition RTE_PTYPE_INNER_L3_IPV6_EXT_UNKNOWN : Z := 6291456.
Definition RTE_PTYPE_INNER_L3_MASK : Z := 15728640.
Definition RTE_PTYPE_INNER_L4_TCP : Z := 16777216.
Definition RTE_PTYPE_INNER_L4_UDP : Z := 33554432.
Definition RTE_PTYPE_INNER_L4_FRAG : Z := 50331648.
Definition RTE_PTYPE_INNER_L4_SCTP : Z := 67108864.
Definition RTE_PTYPE_INNER_L4_ICMP : Z := 83886080.
Definition RTE_PTYPE_INNER_L4_NONFRAG : Z := 100663296.
Definition RTE_PTYPE_INNER_L4_MASK : Z := 251658240.
Definition RTE_PTYPE_ALL_MASK : Z := 268435455.

(** *** Flags of received packets *)

Definition PKT_RX_VLAN : Z := 1.
Definition PKT_RX_RSS_HASH : Z := 2.
Definition PKT_RX_FDIR : Z := 4.
Definition PKT_RX_L4_CKSUM_BAD : Z := 8.
Definition PKT_RX_IP_CKSUM_BAD : Z := 16.
Definition PKT_RX_EIP_CKSUM_BAD : Z := 32.
Definition PKT_RX_VLAN_STRIPPED : Z := 64.
Definition PKT_RX_IP_CKSUM_MASK : Z := 144.
Definition PKT_RX_IP_CKSUM_UNKNOWN : Z := 0.
Definition PKT_RX_IP_CKSUM_GOOD : Z := 128.
Definition PKT_RX_IP_CKSUM_NONE : Z := 144.
Definition PKT_RX_L4_CKSUM_MASK : Z := 264.
Definition PKT_RX_L4_CKSUM_UNKNOWN : Z := 0.
Definition PKT_RX_L4_CKSUM_GOOD : Z := 256.
Definition PKT_RX_L4_CKSUM_NONE : Z := 264.
Definition PKT_RX_IEEE1588_PTP : Z := 512.
Definition PKT_RX_IEEE1588_TMST : Z := 1024.
Definition PKT_RX_FDIR_ID : Z := 8192.
Definition PKT_RX_FDIR_FLX : Z := 16384.
Definition PKT_RX_QINQ_STRIPPED : Z := 32768.
Definition PKT_RX_LRO : Z := 65536.
Definition PKT_RX_TIMESTAMP : Z := 131072.
Definition PKT_RX_SEC_OFFLOAD : Z := 262144.
Definition PKT_RX_SEC_OFFLOAD_FAILED : Z := 524288.
Definition PKT_RX_QINQ : Z := 1048576.
Definition PKT_RX_OUTER_L4_CKSUM_MASK : Z := 6291456.
Definition PKT_RX_OUTER_L4_CKSUM_UNKNOWN : Z := 0.
Definition PKT_RX_OUTER_L4_CKSUM_BAD : Z := 2097152.
Definition PKT_RX_OUTER_L4_CKSUM_GOOD : Z := 4194304.
Definition PKT_RX_OUTER_L4_CKSUM_INVALID : Z := 6291456.
Definition PKT_FIRST_FREE : Z := 8388608.

(** *** Flags of packets to transmit *)

Definition PKT_LAST_FREE : Z := 1099511627776.
Definition PKT_TX_OUTER_UDP_CKSUM : Z := 2199023255552.
Definition PKT_TX_UDP_SEG : Z := 4398046511104.
Definition PKT_TX_SEC_OFFLOAD : Z := 8796093022208.
Definition PKT_TX_MACSEC : Z := 17592186044416.
Definition PKT_TX_TUNNEL_VXLAN : Z := 35184372088832.
Definition PKT_TX_TUNNEL_GRE : Z := 70368744177664.
Definition PKT_TX_TUNNEL_IPIP : Z := 105553116266496.
Definition PKT_TX_TUNNEL_GENEVE : Z := 140737488355328.
Definition PKT_TX_TUNNEL_MPLSINUDP : Z := 175921860444160.
Definition PKT_TX_TUNNEL_VXLAN_GPE : Z := 211106232532992.
Definition PKT_TX_TUNNEL_GTP : Z := 246290604621824.
Definition PKT_TX_TUNNEL_IP : Z := 457396837154816.
Definition PKT_TX_TUNNEL_UDP : Z := 492581209243648.
Definition PKT_TX_TUNNEL_MASK : Z := 527765581332480.
Definition PKT_TX_QINQ : Z := 562949953421312.
Definition PKT_TX_QINQ_PKT : Z := 562949953421312.
Definition PKT_TX_TCP_SEG : Z := 1125899906842624.
Definition PKT_TX_IEEE1588_TMST : Z := 2251799813685248.
Definition PKT_TX_L4_NO_CKSUM : Z := 0.
Definition PKT_TX_TCP_CKSUM : Z := 4503599627370496.
Definition PKT_TX_SCTP_CKSUM : Z := 9007199254740992.
Definition PKT_TX_UDP_CKSUM : Z := 13510798882111488.
Definition PKT_TX_L4_MASK : Z := 13510798882111488.
Definition PKT_TX_IP_CKSUM : Z := 18014398509481984.
Definition PKT_TX_IPV4 : Z := 36028797018963968.
Definition PKT_TX_IPV6 : Z := 72057594037927936.
Definition PKT_TX_VLAN : Z := 144115188075855872.
Definition PKT_TX_VLAN_PKT : Z := 144115188075855872.
Definition PKT_TX_OUTER_IP_CKSUM : Z := 288230376151711744.
Definition PKT_TX_OUTER_IPV4 : Z := 576460752303423488.
Definition PKT_TX_OUTER_IPV6 : Z := 1152921504606846976.
Definition PKT_TX_OFFLOAD_MASK : Z := 2305840810190438400.

(** *** Message buffers *)

Definition RTE_MBUF_PRIV_ALIGN : Z := 8.
Definition RTE_MBUF_DEFAULT_DATAROOM : Z := 2048.
Definition RTE_MBUF_DEFAULT_BUF_SIZE : Z := 2176.
Definition RTE_MBUF_MAX_NB_SEGS : Z := 65535.

(** *** Ethernet *)

Definition RTE_ETHER_ADDR_LEN : Z := 6.
Definition RTE_ETHER_TYPE_LEN : Z := 2.
Definition RTE_ETHER_CRC_LEN : Z := 4.
Definition RTE_ETHER_HDR_LEN : Z := 14.
Definition RTE_ETHER_MIN_LEN : Z := 64.
Definition RTE_ETHER_MAX_LEN : Z := 1518.
Definition RTE_ETHER_MTU : Z := 1500.
Definition RTE_ETHER_MAX_VLAN_FRAME_LEN : Z := 1522.
Definition RTE_ETHER_MAX_JUMBO_FRAME_LEN : Z := 16128.
Definition RTE_ETHER_MAX_VLAN_ID : Z := 4095.
Definition RTE_ETHER_MIN_MTU : Z := 68.
Definition RTE_ETHER_LOCAL_ADMIN_ADDR : Z := 2.
Definition RTE_ETHER_GROUP_ADDR : Z := 1.
Definition RTE_ETHER_ADDR_FMT_SIZE : Z := 18.
Definition RTE_ETHER_TYPE_IPV4 : Z := 2048.
Definition RTE_ETHER_TYPE_IPV6 : Z := 34525.
Definition RTE_ETHER_TYPE_ARP : Z := 2054.
Definition RTE_ETHER_TYPE_RARP : Z := 32821.
Definition RTE_ETHER_TYPE_VLAN : Z := 33024.
Definition RTE_ETHER_TYPE_QINQ : Z := 34984.
Definition RTE_ETHER_TYPE_PPPOE_DISCOVERY : Z := 34915.
Definition RTE_ETHER_TYPE_PPPOE_SESSION : Z := 34916.
Definition RTE_ETHER_TYPE_ETAG : Z := 35135.
Definition RTE_ETHER_TYPE_1588 : Z := 35063.
Definition RTE_ETHER_TYPE_SLOW : Z := 34825.
Definition RTE_ETHER_TYPE_TEB : Z := 25944.
Definition RTE_ETHER_TYPE_LLDP : Z := 35020.
Definition RTE_ETHER_TYPE_MPLS : Z := 34887.
Definition RTE_ETHER_TYPE_MPLSM : Z := 34888.

(** *** Modules of ports *)

Definition RTE_ETH_MODULE_SFF_8079 : Z := 1.
Definition RTE_ETH_MODULE_SFF_8079_LEN : Z := 256.
Definition RTE_ETH_MODULE_SFF_8472 : Z := 2.
Definition RTE_ETH_MODULE_SFF_8472_LEN : Z := 512.
Definition RTE_ETH_MODULE_SFF_8636 : Z := 3.
Definition RTE_ETH_MODULE_SFF_8636_LEN : Z := 256.
Definition RTE_ETH_MODULE_SFF_8636_MAX_LEN : Z := 640.
Definition RTE_ETH_MODULE_SFF_8436 : Z := 4.
Definition RTE_ETH_MODULE_SFF_8436_LEN : Z := 256.
Definition RTE_ETH_MODULE_SFF_8436_MAX_LEN : Z := 640.

(** *** Links *)

Definition ETH_LINK_SPEED_AUTONEG : Z := 0.
Definition ETH_LINK_SPEED_FIXED : Z := 1.
Definition ETH_LINK_SPEED_10M_HD : Z := 2.
Definition ETH_LINK_SPEED_10M : Z := 4.
Definition ETH_LINK_SPEED_100M_HD : Z := 8.
Definition ETH_LINK_SPEED_100M : Z := 16.
Definition ETH_LINK_SPEED_1G : Z := 32.
Definition ETH_LINK_SPEED_2_5G : Z := 64.
Definition ETH_LINK_SPEED_5G : Z := 128.
Definition ETH_LINK_SPEED_10G : Z := 256.
Definition ETH_LINK_SPEED_20G : Z := 512.
Definition ETH_LINK_SPEED_25G : Z := 1024.
Definition ETH_LINK_SPEED_40G : Z := 2048.
Definition ETH_LINK_SPEED_50G : Z := 4096.
Definition ETH_LINK_SPEED_56G : Z := 8192.
Definition ETH_LINK_SPEED_100G : Z := 16384.
Definition ETH_SPEED_NUM_NONE : Z := 0.
Definition ETH_SPEED_NUM_10M : Z := 10.
Definition ETH_SPEED_NUM_100M : Z := 100.
Definition ETH_SPEED_NUM_1G : Z := 1000.
Definition ETH_SPEED_NUM_2_5G : Z := 2500.
Definition ETH_SPEED_NUM_5G : Z := 5000.
Definition ETH_SPEED_NUM_10G : Z := 10000.
Definition ETH_SPEED_NUM_20G : Z := 20000.
Definition ETH_SPEED_NUM_25G : Z := 25000.
Definition ETH_SPEED_NUM_40G : Z := 40000.
Definition ETH_SPEED_NUM_50G : Z := 50000.
Definition ETH_SPEED_NUM_56G : Z := 56000.
Definition ETH_SPEED_NUM_100G : Z := 100000.
Definition ETH_LINK_HALF_DUPLEX : Z := 0.
Definition ETH_LINK_FULL_DUPLEX : Z := 1.
Definition ETH_LINK_DOWN : Z := 0.
Definition ETH_LINK_UP : Z := 1.
Definition ETH_LINK_FIXED : Z := 0.
Definition ETH_LINK_AUTONEG : Z := 1.

(** *** Receive modes *)

Definition ETH_MQ_RX_RSS_FLAG : Z := 1.
Definition ETH_MQ_RX_DCB_FLAG : Z := 2.
Definition ETH_MQ_RX_VMDQ_FLAG : Z := 4.

(** *** Flow types *)

Definition RTE_ETH_FLOW_UNKNOWN : Z := 0.
Definition RTE_ETH_FLOW_RAW : Z := 1.
Definition RTE_ETH_FLOW_IPV4 : Z := 2.
Definition RTE_ETH_FLOW_FRAG_IPV4 : Z := 3.
Definition RTE_ETH_FLOW_NONFRAG_IPV4_TCP : Z := 4.
Definition RTE_ETH_FLOW_NONFRAG_IPV4_UDP : Z := 5.
Definition RTE_ETH_FLOW_NONFRAG_IPV4_SCTP : Z := 6.
Definition RTE_ETH_FLOW_NONFRAG_IPV4_OTHER : Z := 7.
Definition RTE_ETH_FLOW_IPV6 : Z := 8.
Definition RTE_ETH_FLOW_FRAG_IPV6 : Z := 9.
Definition RTE_ETH_FLOW_NONFRAG_IPV6_TCP : Z := 10.
Definition RTE_ETH_FLOW_NONFRAG_IPV6_UDP : Z := 11.
Definition RTE_ETH_FLOW_NONFRAG_IPV6_SCTP : Z := 12.
Definition RTE_ETH_FLOW_NONFRAG_IPV6_OTHER : Z := 13.
Definition RTE_ETH_FLOW_L2_PAYLOAD : Z := 14.
Definition RTE_ETH_FLOW_IPV6_EX : Z := 15.
Definition RTE_ETH_FLOW_IPV6_TCP_EX : Z := 16.
Definition RTE_ETH_FLOW_IPV6_UDP_EX : Z := 17.
Definition RTE_ETH_FLOW_PORT : Z := 18.
Definition RTE_ETH_FLOW_VXLAN : Z := 19.
Definition RTE_ETH_FLOW_GENEVE : Z := 20.
Definition RTE_ETH_FLOW_NVGRE : Z := 21.
Definition RTE_ETH_FLOW_VXLAN_GPE : Z := 22.
Definition RTE_ETH_FLOW_GTPU : Z := 23.
Definition RTE_ETH_FLOW_MAX : Z := 24.

(** *** What is hashed *)

Definition ETH_RSS_IPV4 : Z := 4.
Definition ETH_RSS_FRAG_IPV4 : Z := 8.
Definition ETH_RSS_NONFRAG_IPV4_TCP : Z := 16.
Definition ETH_RSS_NONFRAG_IPV4_UDP : Z := 32.
Definition ETH_RSS_NONFRAG_IPV4_SCTP : Z := 64.
Definition ETH_RSS_NONFRAG_IPV4_OTHER : Z := 128.
Definition ETH_RSS_IPV6 : Z := 256.
Definition ETH_RSS_FRAG_IPV6 : Z := 512.
Definition ETH_RSS_NONFRAG_IPV6_TCP : Z := 1024.
Definition ETH_RSS_NONFRAG_IPV6_UDP : Z := 2048.
Definition ETH_RSS_NONFRAG_IPV6_SCTP : Z := 4096.
Definition ETH_RSS_NONFRAG_IPV6_OTHER : Z := 8192.
Definition ETH_RSS_L2_PAYLOAD : Z := 16384.
Definition ETH_RSS_IPV6_EX : Z := 32768.
Definition ETH_RSS_IPV6_TCP_EX : Z := 65536.
Definition ETH_RSS_IPV6_UDP_EX : Z := 131072.
Definition ETH_RSS_PORT : Z := 262144.
Definition ETH_RSS_VXLAN : Z := 524288.
Definition ETH_RSS_GENEVE : Z := 1048576.
Definition ETH_RSS_NVGRE : Z := 2097152.
Definition ETH_RSS_GTPU : Z := 8388608.
Definition ETH_RSS_L3_SRC_ONLY : Z := -9223372036854775808.
Definition ETH_RSS_L3_DST_ONLY : Z := 4611686018427387904.
Definition ETH_RSS_L4_SRC_ONLY : Z := 2305843009213693952.
Definition ETH_RSS_L4_DST_ONLY : Z := 1152921504606846976.
Definition ETH_RSS_IP : Z := 41868.
Definition ETH_RSS_UDP : Z := 133152.
Definition ETH_RSS_TCP : Z := 66576.
Definition ETH_RSS_SCTP : Z := 4160.
Definition ETH_RSS_TUNNEL : Z := 3670016.
Definition ETH_RSS_PROTO_MASK : Z := 4194300.

(** *** Queues, VLANs, VMDq and mirrors *)

Definition ETH_RSS_RETA_SIZE_64 : Z := 64.
Definition ETH_RSS_RETA_SIZE_128 : Z := 128.
Definition ETH_RSS_RETA_SIZE_256 : Z := 256.
Definition ETH_RSS_RETA_SIZE_512 : Z := 512.
Definition RTE_RETA_GROUP_SIZE : Z := 64.
Definition ETH_VMDQ_MAX_VLAN_FILTERS : Z := 64.
Definition ETH_DCB_NUM_USER_PRIORITIES : Z := 8.
Definition ETH_VMDQ_DCB_NUM_QUEUES : Z := 128.
Definition ETH_DCB_NUM_QUEUES : Z := 128.
Definition ETH_DCB_PG_SUPPORT : Z := 1.
Definition ETH_DCB_PFC_SUPPORT : Z := 2.
Definition ETH_VLAN_STRIP_OFFLOAD : Z := 1.
Definition ETH_VLAN_FILTER_OFFLOAD : Z := 2.
Definition ETH_VLAN_EXTEND_OFFLOAD : Z := 4.
Definition ETH_QINQ_STRIP_OFFLOAD : Z := 8.
Definition ETH_VLAN_STRIP_MASK : Z := 1.
Definition ETH_VLAN_FILTER_MASK : Z := 2.
Definition ETH_VLAN_EXTEND_MASK : Z := 4.
Definition ETH_QINQ_STRIP_MASK : Z := 8.
Definition ETH_VLAN_ID_MAX : Z := 4095.
Definition ETH_NUM_RECEIVE_MAC_ADDR : Z := 128.
Definition ETH_VMDQ_NUM_UC_HASH_ARRAY : Z := 128.
Definition ETH_VMDQ_ACCEPT_UNTAG : Z := 1.
Definition ETH_VMDQ_ACCEPT_HASH_MC : Z := 2.
Definition ETH_VMDQ_ACCEPT_HASH_UC : Z := 4.
Definition ETH_VMDQ_ACCEPT_BROADCAST : Z := 8.
Definition ETH_VMDQ_ACCEPT_MULTICAST : Z := 16.
Definition ETH_MIRROR_MAX_VLANS : Z := 64.
Definition ETH_MIRROR_VIRTUAL_POOL_UP : Z := 1.
Definition ETH_MIRROR_UPLINK_PORT : Z := 2.
Definition ETH_MIRROR_DOWNLINK_PORT : Z := 4.
Definition ETH_MIRROR_VLAN : Z := 8.
Definition ETH_MIRROR_VIRTUAL_POOL_DOWN : Z := 16.
Definition RTE_ETH_MAX_HAIRPIN_PEERS : Z := 32.

(** *** ARP and ICMP *)

Definition RTE_ARP_HRD_ETHER : Z := 1.
Definition RTE_ARP_OP_REQUEST : Z := 1.
Definition RTE_ARP_OP_REPLY : Z := 2.
Definition RTE_ARP_OP_REVREQUEST : Z := 3.
Definition RTE_ARP_OP_REVREPLY : Z := 4.
Definition RTE_ARP_OP_INVREQUEST : Z := 8.
Definition RTE_ARP_OP_INVREPLY : Z := 9.
Definition RTE_IP_ICMP_ECHO_REPLY : Z := 0.
Definition RTE_IP_ICMP_ECHO_REQUEST : Z := 8.

(** *** IPv4 *)

Definition RTE_IPV4_MAX_PKT_LEN : Z := 65535.
Definition RTE_IPV4_HDR_IHL_MASK : Z := 15.
Definition RTE_IPV4_IHL_MULTIPLIER : Z := 4.
Definition RTE_IPV4_HDR_DSCP_MASK : Z := 252.
Definition RTE_IPV4_HDR_ECN_MASK : Z := 3.
Definition RTE_IPV4_HDR_ECN_CE : Z := 3.
Definition RTE_IPV4_HDR_DF_SHIFT : Z := 14.
Definition RTE_IPV4_HDR_MF_SHIFT : Z := 13.
Definition RTE_IPV4_HDR_FO_SHIFT : Z := 3.
Definition RTE_IPV4_HDR_DF_FLAG : Z := 16384.
Definition RTE_IPV4_HDR_MF_FLAG : Z := 8192.
Definition RTE_IPV4_HDR_OFFSET_MASK : Z := 8191.
Definition RTE_IPV4_HDR_OFFSET_UNITS : Z := 8.
Definition RTE_IPV4_MIN_IHL : Z := 5.
Definition RTE_IPV4_VHL_DEF : Z := 69.

(** *** IPv6 *)

Definition RTE_IPV6_HDR_FL_SHIFT : Z := 0.
Definition RTE_IPV6_HDR_TC_SHIFT : Z := 20.
Definition RTE_IPV6_HDR_FL_MASK : Z := 1048575.
Definition RTE_IPV6_HDR_TC_MASK : Z := 267386880.
Definition RTE_IPV6_HDR_DSCP_MASK : Z := 264241152.
Definition RTE_IPV6_HDR_ECN_MASK : Z := 3145728.
Definition RTE_IPV6_HDR_ECN_CE : Z := 3145728.
Definition RTE_IPV6_FRAG_HDR_SIZE : Z := 8.

(** *** TCP *)

Definition RTE_TCP_CWR_FLAG : Z := 128.
Definition RTE_TCP_ECE_FLAG : Z := 64.
Definition RTE_TCP_URG_FLAG : Z := 32.
Definition RTE_TCP_ACK_FLAG : Z := 16.
Definition RTE_TCP_PSH_FLAG : Z := 8.
Definition RTE_TCP_RST_FLAG : Z := 4.
Definition RTE_TCP_SYN_FLAG : Z := 2.
Definition RTE_TCP_FIN_FLAG : Z := 1.

(** *** Filters *)

Definition RTE_MBUF_DYN_NAMESIZE : Z := 64.
Definition RTE_ETHTYPE_FLAGS_MAC : Z := 1.
Definition RTE_ETHTYPE_FLAGS_DROP : Z := 2.
Definition RTE_FLEX_FILTER_MAXLEN : Z := 128.
Definition RTE_NTUPLE_FLAGS_DST_IP : Z := 1.
Definition RTE_NTUPLE_FLAGS_SRC_IP : Z := 2.
Definition RTE_NTUPLE_FLAGS_DST_PORT : Z := 4.
Definition RTE_NTUPLE_FLAGS_SRC_PORT : Z := 8.
Definition RTE_NTUPLE_FLAGS_PROTO : Z := 16.
Definition RTE_NTUPLE_FLAGS_TCP_FLAG : Z := 32.
Definition RTE_5TUPLE_FLAGS : Z := 31.
Definition RTE_2TUPLE_FLAGS : Z := 20.
Definition RTE_NTUPLE_TCP_FLAGS_MASK : Z := 63.
Definition ETH_TUNNEL_FILTER_OMAC : Z := 1.
Definition ETH_TUNNEL_FILTER_OIP : Z := 2.
Definition ETH_TUNNEL_FILTER_TENID : Z := 4.
Definition ETH_TUNNEL_FILTER_IMAC : Z := 8.
Definition ETH_TUNNEL_FILTER_IVLAN : Z := 16.
Definition ETH_TUNNEL_FILTER_IIP : Z := 32.
Definition RTE_TUNNEL_FILTER_IMAC_IVLAN : Z := 24.
Definition RTE_TUNNEL_FILTER_IMAC_IVLAN_TENID : Z := 28.
Definition RTE_TUNNEL_FILTER_IMAC_TENID : Z := 12.
Definition RTE_TUNNEL_FILTER_OMAC_TENID_IMAC : Z := 13.
Definition RTE_ETH_FDIR_MAX_FLEXLEN : Z := 16.
Definition RTE_ETH_INSET_SIZE_MAX : Z := 128.

(** *** Offloads *)

Definition DEV_RX_OFFLOAD_VLAN_STRIP : Z := 1.
Definition DEV_RX_OFFLOAD_IPV4_CKSUM : Z := 2.
Definition DEV_RX_OFFLOAD_UDP_CKSUM : Z := 4.
Definition DEV_RX_OFFLOAD_TCP_CKSUM : Z := 8.
Definition DEV_RX_OFFLOAD_TCP_LRO : Z := 16.
Definition DEV_RX_OFFLOAD_QINQ_STRIP : Z := 32.
Definition DEV_RX_OFFLOAD_OUTER_IPV4_CKSUM : Z := 64.
Definition DEV_RX_OFFLOAD_MACSEC_STRIP : Z := 128.
Definition DEV_RX_OFFLOAD_HEADER_SPLIT : Z := 256.
Definition DEV_RX_OFFLOAD_VLAN_FILTER : Z := 512.
Definition DEV_RX_OFFLOAD_VLAN_EXTEND : Z := 1024.
Definition DEV_RX_OFFLOAD_JUMBO_FRAME : Z := 2048.
Definition DEV_RX_OFFLOAD_SCATTER : Z := 8192.
Definition DEV_RX_OFFLOAD_TIMESTAMP : Z := 16384.
Definition DEV_RX_OFFLOAD_SECURITY : Z := 32768.
Definition DEV_RX_OFFLOAD_KEEP_CRC : Z := 65536.
Definition DEV_RX_OFFLOAD_SCTP_CKSUM : Z := 131072.
Definition DEV_RX_OFFLOAD_OUTER_UDP_CKSUM : Z := 262144.
Definition DEV_RX_OFFLOAD_RSS_HASH : Z := 524288.
Definition DEV_RX_OFFLOAD_CHECKSUM : Z := 14.
Definition DEV_RX_OFFLOAD_VLAN : Z := 1569.
Definition DEV_TX_OFFLOAD_VLAN_INSERT : Z := 1.
Definition DEV_TX_OFFLOAD_IPV4_CKSUM : Z := 2.
Definition DEV_TX_OFFLOAD_UDP_CKSUM : Z := 4.
Definition DEV_TX_OFFLOAD_TCP_CKSUM : Z := 8.
Definition DEV_TX_OFFLOAD_SCTP_CKSUM : Z := 16.
Definition DEV_TX_OFFLOAD_TCP_TSO : Z := 32.
Definition DEV_TX_OFFLOAD_UDP_TSO : Z := 64.
Definition DEV_TX_OFFLOAD_OUTER_IPV4_CKSUM : Z := 128.
Definition DEV_TX_OFFLOAD_QINQ_INSERT : Z := 256.
Definition DEV_TX_OFFLOAD_VXLAN_TNL_TSO : Z := 512.
Definition DEV_TX_OFFLOAD_GRE_TNL_TSO : Z := 1024.
Definition DEV_TX_OFFLOAD_IPIP_TNL_TSO : Z := 2048.
Definition DEV_TX_OFFLOAD_GENEVE_TNL_TSO : Z := 4096.
Definition DEV_TX_OFFLOAD_MACSEC_INSERT : Z := 8192.
Definition DEV_TX_OFFLOAD_MT_LOCKFREE : Z := 16384.
Definition DEV_TX_OFFLOAD_MULTI_SEGS : Z := 32768.
Definition DEV_TX_OFFLOAD_MBUF_FAST_FREE : Z := 65536.
Definition DEV_TX_OFFLOAD_SECURITY : Z := 131072.
Definition DEV_TX_OFFLOAD_UDP_TNL_TSO : Z := 262144.
Definition DEV_TX_OFFLOAD_IP_TNL_TSO : Z := 524288.
Definition DEV_TX_OFFLOAD_OUTER_UDP_CKSUM : Z := 1048576.

(** *** Ethernet devices *)

Definition RTE_ETH_DEV_CAPA_RUNTIME_RX_QUEUE_SETUP : Z := 1.
Definition RTE_ETH_DEV_CAPA_RUNTIME_TX_QUEUE_SETUP : Z := 2.
Definition RTE_ETH_DEV_FALLBACK_RX_RINGSIZE : Z := 512.
Definition RTE_ETH_DEV_FALLBACK_TX_RINGSIZE : Z := 512.
Definition RTE_ETH_DEV_FALLBACK_RX_NBQUEUES : Z := 1.
Definition RTE_ETH_DEV_FALLBACK_TX_NBQUEUES : Z := 1.
Definition RTE_ETH_DEV_SWITCH_DOMAIN_ID_INVALID : Z := 65535.
Definition RTE_ETH_BURST_FLAG_PER_QUEUE : Z := 1.
Definition RTE_ETH_BURST_MODE_INFO_SIZE : Z := 1024.
Definition RTE_ETH_XSTATS_NAME_SIZE : Z := 64.
Definition ETH_DCB_NUM_TCS : Z := 8.
Definition ETH_MAX_VMDQ_POOL : Z := 64.
Definition RTE_ETH_ALL : Z := 32.
Definition ETH_L2_TUNNEL_ENABLE_MASK : Z := 1.
Definition ETH_L2_TUNNEL_INSERTION_MASK : Z := 2.
Definition ETH_L2_TUNNEL_STRIPPING_MASK : Z := 4.
Definition ETH_L2_TUNNEL_FORWARDING_MASK : Z := 8.
Definition RTE_ETH_NAME_MAX_LEN : Z := 64.
Definition RTE_ETH_DEV_NO_OWNER : Z := 0.
Definition RTE_ETH_MAX_OWNER_NAME_LEN : Z := 64.
Definition RTE_ETH_DEV_CLOSE_REMOVE : Z := 1.
Definition RTE_ETH_DEV_INTR_LSC : Z := 2.
Definition RTE_ETH_DEV_BONDED_SLAVE : Z := 4.
Definition RTE_ETH_DEV_INTR_RMV : Z := 8.
Definition RTE_ETH_DEV_REPRESENTOR : Z := 16.
Definition RTE_ETH_DEV_NOLIVE_MAC_ADDR : Z := 32.
Definition RTE_ETH_RX_DESC_AVAIL : Z := 0.
Definition RTE_ETH_RX_DESC_DONE : Z := 1.
Definition RTE_ETH_RX_DESC_UNAVAIL : Z := 2.
Definition RTE_ETH_TX_DESC_FULL : Z := 0.
Definition RTE_ETH_TX_DESC_DONE : Z := 1.
Definition RTE_ETH_TX_DESC_UNAVAIL : Z := 2.
Definition RTE_CLASS_ANY_ID : Z := 16777215.
Definition RTE_KNI_NAMESIZE : Z := 16.

(** ** Their types *)

Definition u32_constants : list Z :=
  [RTE_MAX_ETHPORTS; RTE_MAX_LCORE; RTE_MAX_NUMA_NODES; RTE_MAX_VFIO_GROUPS; RTE_PORT_PCAP;
   RTE_TOOLCHAIN_GCC; RTE_VER_MINOR; RTE_VER_MONTH; RTE_VER_RELEASE; RTE_VER_YEAR; RTE_VIRTIO_USER;
   RTE_EXEC_ENV_LINUXAPP; RTE_MAX_HEAPS; RTE_MAX_MEMSEG_LISTS; RTE_MAX_MEMSEG_PER_LIST;
   RTE_MAX_MEM_MB_PER_LIST; RTE_MAX_MEMSEG_PER_TYPE; RTE_MAX_MEM_MB_PER_TYPE; RTE_MAX_MEM_MB;
   RTE_MAX_MEMZONE; RTE_MAX_TAILQ; RTE_BACKTRACE; RTE_MAX_VFIO_CONTAINERS; RTE_CONTIGMEM_MAX_NUM_BUFS;
   RTE_CONTIGMEM_DEFAULT_NUM_BUFS; RTE_CONTIGMEM_DEFAULT_BUF_SIZE; RTE_MEMPOOL_CACHE_MAX_SIZE;
   RTE_MBUF_REFCNT_ATOMIC; RTE_PKTMBUF_HEADROOM; RTE_MAX_QUEUES_PER_PORT; RTE_ETHDEV_QUEUE_STAT_CNTRS;
   RTE_ETHDEV_RXTX_CALLBACKS; RTE_CRYPTO_MAX_DEVS; RTE_CRYPTODEV_NAME_LEN; RTE_COMPRESS_MAX_DEVS;
   RTE_EVENT_MAX_DEVS; RTE_EVENT_MAX_QUEUES_PER_DEV; RTE_EVENT_TIMER_ADAPTER_NUM_MAX;
   RTE_EVENT_ETH_INTR_RING_SIZE; RTE_EVENT_CRYPTO_ADAPTER_MAX_INSTANCE;
   RTE_EVENT_ETH_TX_ADAPTER_MAX_INSTANCE; RTE_RAWDEV_MAX_DEVS; RTE_LIBRTE_IP_FRAG_MAX_FRAG;
   RTE_MAX_LCORE_FREQS; RTE_SCHED_PORT_N_GRINDERS; RTE_KNI_PREEMPT_DEFAULT;
   RTE_PMD_QAT_MAX_PCI_DEVICES; RTE_PMD_QAT_COMP_SGL_MAX_SEGMENTS; RTE_PMD_QAT_COMP_IM_BUFFER_SIZE;
   RTE_MAX_VIRTIO_CRYPTO; RTE_LIBRTE_DPAA_MAX_CRYPTODEV; RTE_LIBRTE_FM10K_RX_OLFLAGS_ENABLE;
   RTE_LIBRTE_I40E_RX_ALLOW_BULK_ALLOC; RTE_LIBRTE_I40E_QUEUE_NUM_PER_PF;
   RTE_LIBRTE_I40E_QUEUE_NUM_PER_VF; RTE_LIBRTE_I40E_QUEUE_NUM_PER_VM; RTE_PMD_RING_MAX_RX_RINGS;
   RTE_PMD_RING_MAX_TX_RINGS; RTE_PRIORITY_LOG; RTE_PRIORITY_BUS; RTE_PRIORITY_CLASS;
   RTE_PRIORITY_LAST; RTE_CACHE_LINE_MASK; RTE_CACHE_LINE_SIZE_LOG2; RTE_CACHE_LINE_MIN_SIZE;
   RTE_LOGTYPE_EAL; RTE_LOGTYPE_MALLOC; RTE_LOGTYPE_RING; RTE_LOGTYPE_MEMPOOL; RTE_LOGTYPE_TIMER;
   RTE_LOGTYPE_PMD; RTE_LOGTYPE_HASH; RTE_LOGTYPE_LPM; RTE_LOGTYPE_KNI; RTE_LOGTYPE_ACL;
   RTE_LOGTYPE_POWER; RTE_LOGTYPE_METER; RTE_LOGTYPE_SCHED; RTE_LOGTYPE_PORT; RTE_LOGTYPE_TABLE;
   RTE_LOGTYPE_PIPELINE; RTE_LOGTYPE_MBUF; RTE_LOGTYPE_CRYPTODEV; RTE_LOGTYPE_EFD;
   RTE_LOGTYPE_EVENTDEV; RTE_LOGTYPE_GSO; RTE_LOGTYPE_USER1; RTE_LOGTYPE_USER2; RTE_LOGTYPE_USER3;
   RTE_LOGTYPE_USER4; RTE_LOGTYPE_USER5; RTE_LOGTYPE_USER6; RTE_LOGTYPE_USER7; RTE_LOGTYPE_USER8;
   RTE_LOGTYPE_FIRST_EXT_ID; RTE_LOG_EMERG; RTE_LOG_ALERT; RTE_LOG_CRIT; RTE_LOG_ERR; RTE_LOG_WARNING;
   RTE_LOG_NOTICE; RTE_LOG_INFO; RTE_LOG_DEBUG; RTE_DEV_NAME_MAX_LEN; RTE_MAGIC;
   RTE_MAX_THREAD_NAME_LEN; RTE_MP_MAX_FD_NUM; RTE_MP_MAX_NAME_LEN; RTE_MP_MAX_PARAM_LEN;
   RTE_MAX_RXTX_INTR_VEC_ID; RTE_INTR_VEC_ZERO_OFFSET; RTE_INTR_VEC_RXTX_OFFSET; RTE_INTR_EVENT_ADD;
   RTE_INTR_EVENT_DEL; RTE_XABORT_EXPLICIT; RTE_XABORT_RETRY; RTE_XABORT_CONFLICT; RTE_XABORT_CAPACITY;
   RTE_XABORT_DEBUG; RTE_XABORT_NESTED; RTE_RTM_MAX_RETRIES; RTE_XABORT_LOCK_BUSY;
   RTE_FBARRAY_NAME_LEN; RTE_MEMSEG_FLAG_DO_NOT_FREE; RTE_MEM_EVENT_CALLBACK_NAME_LEN;
   RTE_MEM_ALLOC_VALIDATOR_NAME_LEN; RTE_MEMZONE_2MB; RTE_MEMZONE_1GB; RTE_MEMZONE_16MB;
   RTE_MEMZONE_16GB; RTE_MEMZONE_256KB; RTE_MEMZONE_256MB; RTE_MEMZONE_512MB; RTE_MEMZONE_4GB;
   RTE_MEMZONE_SIZE_HINT_ONLY; RTE_MEMZONE_IOVA_CONTIG; RTE_MEMZONE_NAMESIZE; RTE_RING_SZ_MASK;
   MEMPOOL_PG_NUM_DEFAULT; RTE_MEMPOOL_ALIGN; RTE_MEMPOOL_ALIGN_MASK; MEMPOOL_F_NO_SPREAD;
   MEMPOOL_F_NO_CACHE_ALIGN; MEMPOOL_F_SP_PUT; MEMPOOL_F_SC_GET; MEMPOOL_F_POOL_CREATED;
   MEMPOOL_F_NO_IOVA_CONTIG; MEMPOOL_F_NO_PHYS_CONTIG; RTE_MEMPOOL_OPS_NAMESIZE;
   RTE_MEMPOOL_POPULATE_F_ALIGN_OBJ; RTE_MEMPOOL_MAX_OPS_IDX; RTE_BIG_ENDIAN; RTE_LITTLE_ENDIAN;
   RTE_BYTE_ORDER; RTE_PTYPE_UNKNOWN; RTE_PTYPE_L2_ETHER; RTE_PTYPE_L2_ETHER_TIMESYNC;
   RTE_PTYPE_L2_ETHER_ARP; RTE_PTYPE_L2_ETHER_LLDP; RTE_PTYPE_L2_ETHER_NSH; RTE_PTYPE_L2_ETHER_VLAN;
   RTE_PTYPE_L2_ETHER_QINQ; RTE_PTYPE_L2_ETHER_PPPOE; RTE_PTYPE_L2_ETHER_FCOE; RTE_PTYPE_L2_ETHER_MPLS;
   RTE_PTYPE_L2_MASK; RTE_PTYPE_L3_IPV4; RTE_PTYPE_L3_IPV4_EXT; RTE_PTYPE_L3_IPV6;
   RTE_PTYPE_L3_IPV4_EXT_UNKNOWN; RTE_PTYPE_L3_IPV6_EXT; RTE_PTYPE_L3_IPV6_EXT_UNKNOWN;
   RTE_PTYPE_L3_MASK; RTE_PTYPE_L4_TCP; RTE_PTYPE_L4_UDP; RTE_PTYPE_L4_FRAG; RTE_PTYPE_L4_SCTP;
   RTE_PTYPE_L4_ICMP; RTE_PTYPE_L4_NONFRAG; RTE_PTYPE_L4_IGMP; RTE_PTYPE_L4_MASK; RTE_PTYPE_TUNNEL_IP;
   RTE_PTYPE_TUNNEL_GRE; RTE_PTYPE_TUNNEL_VXLAN; RTE_PTYPE_TUNNEL_NVGRE; RTE_PTYPE_TUNNEL_GENEVE;
   RTE_PTYPE_TUNNEL_GRENAT; RTE_PTYPE_TUNNEL_GTPC; RTE_PTYPE_TUNNEL_GTPU; RTE_PTYPE_TUNNEL_ESP;
   RTE_PTYPE_TUNNEL_L2TP; RTE_PTYPE_TUNNEL_VXLAN_GPE; RTE_PTYPE_TUNNEL_MPLS_IN_GRE;
   RTE_PTYPE_TUNNEL_MPLS_IN_UDP; RTE_PTYPE_TUNNEL_MASK; RTE_PTYPE_INNER_L2_ETHER;
   RTE_PTYPE_INNER_L2_ETHER_VLAN; RTE_PTYPE_INNER_L2_ETHER_QINQ; RTE_PTYPE_INNER_L2_MASK;
   RTE_PTYPE_INNER_L3_IPV4; RTE_PTYPE_INNER_L3_IPV4_EXT; RTE_PTYPE_INNER_L3_IPV6;
   RTE_PTYPE_INNER_L3_IPV4_EXT_UNKNOWN; RTE_PTYPE_INNER_L3_IPV6_EXT;
   RTE_PTYPE_INNER_L3_IPV6_EXT_UNKNOWN; RTE_PTYPE_INNER_L3_MASK; RTE_PTYPE_INNER_L4_TCP;
   RTE_PTYPE_INNER_L4_UDP; RTE_PTYPE_INNER_L4_FRAG; RTE_PTYPE_INNER_L4_SCTP; RTE_PTYPE_INNER_L4_ICMP;
   RTE_PTYPE_INNER_L4_NONFRAG; RTE_PTYPE_INNER_L4_MASK; RTE_PTYPE_ALL_MASK; PKT_RX_VLAN;
   PKT_RX_RSS_HASH; PKT_RX_FDIR; PKT_RX_L4_CKSUM_BAD; PKT_RX_IP_CKSUM_BAD; PKT_RX_EIP_CKSUM_BAD;
   PKT_RX_VLAN_STRIPPED; PKT_RX_IP_CKSUM_MASK; PKT_RX_IP_CKSUM_UNKNOWN; PKT_RX_IP_CKSUM_GOOD;
   PKT_RX_IP_CKSUM_NONE; PKT_RX_L4_CKSUM_MASK; PKT_RX_L4_CKSUM_UNKNOWN; PKT_RX_L4_CKSUM_GOOD;
   PKT_RX_L4_CKSUM_NONE; PKT_RX_IEEE1588_PTP; PKT_RX_IEEE1588_TMST; PKT_RX_FDIR_ID; PKT_RX_FDIR_FLX;
   PKT_RX_QINQ_STRIPPED; PKT_RX_LRO; PKT_RX_TIMESTAMP; PKT_RX_SEC_OFFLOAD; PKT_RX_SEC_OFFLOAD_FAILED;
   PKT_RX_QINQ; PKT_RX_OUTER_L4_CKSUM_MASK; PKT_RX_OUTER_L4_CKSUM_UNKNOWN; PKT_RX_OUTER_L4_CKSUM_BAD;
   PKT_RX_OUTER_L4_CKSUM_GOOD; PKT_RX_OUTER_L4_CKSUM_INVALID; PKT_FIRST_FREE; PKT_TX_L4_NO_CKSUM;
   RTE_MBUF_PRIV_ALIGN; RTE_MBUF_DEFAULT_DATAROOM; RTE_MBUF_DEFAULT_BUF_SIZE; RTE_MBUF_MAX_NB_SEGS;
   RTE_ETHER_ADDR_LEN; RTE_ETHER_TYPE_LEN; RTE_ETHER_CRC_LEN; RTE_ETHER_HDR_LEN; RTE_ETHER_MIN_LEN;
   RTE_ETHER_MAX_LEN; RTE_ETHER_MTU; RTE_ETHER_MAX_VLAN_FRAME_LEN; RTE_ETHER_MAX_JUMBO_FRAME_LEN;
   RTE_ETHER_MAX_VLAN_ID; RTE_ETHER_MIN_MTU; RTE_ETHER_LOCAL_ADMIN_ADDR; RTE_ETHER_GROUP_ADDR;
   RTE_ETHER_ADDR_FMT_SIZE; RTE_ETHER_TYPE_IPV4; RTE_ETHER_TYPE_IPV6; RTE_ETHER_TYPE_ARP;
   RTE_ETHER_TYPE_RARP; RTE_ETHER_TYPE_VLAN; RTE_ETHER_TYPE_QINQ; RTE_ETHER_TYPE_PPPOE_DISCOVERY;
   RTE_ETHER_TYPE_PPPOE_SESSION; RTE_ETHER_TYPE_ETAG; RTE_ETHER_TYPE_1588; RTE_ETHER_TYPE_SLOW;
   RTE_ETHER_TYPE_TEB; RTE_ETHER_TYPE_LLDP; RTE_ETHER_TYPE_MPLS; RTE_ETHER_TYPE_MPLSM;
   RTE_ETH_MODULE_SFF_8079; RTE_ETH_MODULE_SFF_8079_LEN; RTE_ETH_MODULE_SFF_8472;
   RTE_ETH_MODULE_SFF_8472_LEN; RTE_ETH_MODULE_SFF_8636; RTE_ETH_MODULE_SFF_8636_LEN;
   RTE_ETH_MODULE_SFF_8636_MAX_LEN; RTE_ETH_MODULE_SFF_8436; RTE_ETH_MODULE_SFF_8436_LEN;
   RTE_ETH_MODULE_SFF_8436_MAX_LEN; ETH_LINK_SPEED_AUTONEG; ETH_LINK_SPEED_FIXED;
   ETH_LINK_SPEED_10M_HD; ETH_LINK_SPEED_10M; ETH_LINK_SPEED_100M_HD; ETH_LINK_SPEED_100M;
   ETH_LINK_SPEED_1G; ETH_LINK_SPEED_2_5G; ETH_LINK_SPEED_5G; ETH_LINK_SPEED_10G; ETH_LINK_SPEED_20G;
   ETH_LINK_SPEED_25G; ETH_LINK_SPEED_40G; ETH_LINK_SPEED_50G; ETH_LINK_SPEED_56G; ETH_LINK_SPEED_100G;
   ETH_SPEED_NUM_NONE; ETH_SPEED_NUM_10M; ETH_SPEED_NUM_100M; ETH_SPEED_NUM_1G; ETH_SPEED_NUM_2_5G;
   ETH_SPEED_NUM_5G; ETH_SPEED_NUM_10G; ETH_SPEED_NUM_20G; ETH_SPEED_NUM_25G; ETH_SPEED_NUM_40G;
   ETH_SPEED_NUM_50G; ETH_SPEED_NUM_56G; ETH_SPEED_NUM_100G; ETH_LINK_HALF_DUPLEX;
   ETH_LINK_FULL_DUPLEX; ETH_LINK_DOWN; ETH_LINK_UP; ETH_LINK_FIXED; ETH_LINK_AUTONEG;
   ETH_MQ_RX_RSS_FLAG; ETH_MQ_RX_DCB_FLAG; ETH_MQ_RX_VMDQ_FLAG; RTE_ETH_FLOW_UNKNOWN; RTE_ETH_FLOW_RAW;
   RTE_ETH_FLOW_IPV4; RTE_ETH_FLOW_FRAG_IPV4; RTE_ETH_FLOW_NONFRAG_IPV4_TCP;
   RTE_ETH_FLOW_NONFRAG_IPV4_UDP; RTE_ETH_FLOW_NONFRAG_IPV4_SCTP; RTE_ETH_FLOW_NONFRAG_IPV4_OTHER;
   RTE_ETH_FLOW_IPV6; RTE_ETH_FLOW_FRAG_IPV6; RTE_ETH_FLOW_NONFRAG_IPV6_TCP;
   RTE_ETH_FLOW_NONFRAG_IPV6_UDP; RTE_ETH_FLOW_NONFRAG_IPV6_SCTP; RTE_ETH_FLOW_NONFRAG_IPV6_OTHER;
   RTE_ETH_FLOW_L2_PAYLOAD; RTE_ETH_FLOW_IPV6_EX; RTE_ETH_FLOW_IPV6_TCP_EX; RTE_ETH_FLOW_IPV6_UDP_EX;
   RTE_ETH_FLOW_PORT; RTE_ETH_FLOW_VXLAN; RTE_ETH_FLOW_GENEVE; RTE_ETH_FLOW_NVGRE;
   RTE_ETH_FLOW_VXLAN_GPE; RTE_ETH_FLOW_GTPU; RTE_ETH_FLOW_MAX; ETH_RSS_IPV4; ETH_RSS_FRAG_IPV4;
   ETH_RSS_NONFRAG_IPV4_TCP; ETH_RSS_NONFRAG_IPV4_UDP; ETH_RSS_NONFRAG_IPV4_SCTP;
   ETH_RSS_NONFRAG_IPV4_OTHER; ETH_RSS_IPV6; ETH_RSS_FRAG_IPV6; ETH_RSS_NONFRAG_IPV6_TCP;
   ETH_RSS_NONFRAG_IPV6_UDP; ETH_RSS_NONFRAG_IPV6_SCTP; ETH_RSS_NONFRAG_IPV6_OTHER; ETH_RSS_L2_PAYLOAD;
   ETH_RSS_IPV6_EX; ETH_RSS_IPV6_TCP_EX; ETH_RSS_IPV6_UDP_EX; ETH_RSS_PORT; ETH_RSS_VXLAN;
   ETH_RSS_GENEVE; ETH_RSS_NVGRE; ETH_RSS_GTPU; ETH_RSS_IP; ETH_RSS_UDP; ETH_RSS_TCP; ETH_RSS_SCTP;
   ETH_RSS_TUNNEL; ETH_RSS_PROTO_MASK; ETH_RSS_RETA_SIZE_64; ETH_RSS_RETA_SIZE_128;
   ETH_RSS_RETA_SIZE_256; ETH_RSS_RETA_SIZE_512; RTE_RETA_GROUP_SIZE; ETH_VMDQ_MAX_VLAN_FILTERS;
   ETH_DCB_NUM_USER_PRIORITIES; ETH_VMDQ_DCB_NUM_QUEUES; ETH_DCB_NUM_QUEUES; ETH_DCB_PG_SUPPORT;
   ETH_DCB_PFC_SUPPORT; ETH_VLAN_STRIP_OFFLOAD; ETH_VLAN_FILTER_OFFLOAD; ETH_VLAN_EXTEND_OFFLOAD;
   ETH_QINQ_STRIP_OFFLOAD; ETH_VLAN_STRIP_MASK; ETH_VLAN_FILTER_MASK; ETH_VLAN_EXTEND_MASK;
   ETH_QINQ_STRIP_MASK; ETH_VLAN_ID_MAX; ETH_NUM_RECEIVE_MAC_ADDR; ETH_VMDQ_NUM_UC_HASH_ARRAY;
   ETH_VMDQ_ACCEPT_UNTAG; ETH_VMDQ_ACCEPT_HASH_MC; ETH_VMDQ_ACCEPT_HASH_UC; ETH_VMDQ_ACCEPT_BROADCAST;
   ETH_VMDQ_ACCEPT_MULTICAST; ETH_MIRROR_MAX_VLANS; ETH_MIRROR_VIRTUAL_POOL_UP; ETH_MIRROR_UPLINK_PORT;
   ETH_MIRROR_DOWNLINK_PORT; ETH_MIRROR_VLAN; ETH_MIRROR_VIRTUAL_POOL_DOWN; RTE_ETH_MAX_HAIRPIN_PEERS;
   RTE_ARP_HRD_ETHER; RTE_ARP_OP_REQUEST; RTE_ARP_OP_REPLY; RTE_ARP_OP_REVREQUEST; RTE_ARP_OP_REVREPLY;
   RTE_ARP_OP_INVREQUEST; RTE_ARP_OP_INVREPLY; RTE_IP_ICMP_ECHO_REPLY; RTE_IP_ICMP_ECHO_REQUEST;
   RTE_IPV4_MAX_PKT_LEN; RTE_IPV4_HDR_IHL_MASK; RTE_IPV4_IHL_MULTIPLIER; RTE_IPV4_HDR_DSCP_MASK;
   RTE_IPV4_HDR_ECN_MASK; RTE_IPV4_HDR_ECN_CE; RTE_IPV4_HDR_DF_SHIFT; RTE_IPV4_HDR_MF_SHIFT;
   RTE_IPV4_HDR_FO_SHIFT; RTE_IPV4_HDR_DF_FLAG; RTE_IPV4_HDR_MF_FLAG; RTE_IPV4_HDR_OFFSET_MASK;
   RTE_IPV4_HDR_OFFSET_UNITS; RTE_IPV4_MIN_IHL; RTE_IPV4_VHL_DEF; RTE_IPV6_HDR_FL_SHIFT;
   RTE_IPV6_HDR_TC_SHIFT; RTE_IPV6_HDR_FL_MASK; RTE_IPV6_HDR_TC_MASK; RTE_IPV6_HDR_DSCP_MASK;
   RTE_IPV6_HDR_ECN_MASK; RTE_IPV6_HDR_ECN_CE; RTE_IPV6_FRAG_HDR_SIZE; RTE_TCP_CWR_FLAG;
   RTE_TCP_ECE_FLAG; RTE_TCP_URG_FLAG; RTE_TCP_ACK_FLAG; RTE_TCP_PSH_FLAG; RTE_TCP_RST_FLAG;
   RTE_TCP_SYN_FLAG; RTE_TCP_FIN_FLAG; RTE_MBUF_DYN_NAMESIZE; RTE_ETHTYPE_FLAGS_MAC;
   RTE_ETHTYPE_FLAGS_DROP; RTE_FLEX_FILTER_MAXLEN; RTE_NTUPLE_FLAGS_DST_IP; RTE_NTUPLE_FLAGS_SRC_IP;
   RTE_NTUPLE_FLAGS_DST_PORT; RTE_NTUPLE_FLAGS_SRC_PORT; RTE_NTUPLE_FLAGS_PROTO;
   RTE_NTUPLE_FLAGS_TCP_FLAG; RTE_5TUPLE_FLAGS; RTE_2TUPLE_FLAGS; RTE_NTUPLE_TCP_FLAGS_MASK;
   ETH_TUNNEL_FILTER_OMAC; ETH_TUNNEL_FILTER_OIP; ETH_TUNNEL_FILTER_TENID; ETH_TUNNEL_FILTER_IMAC;
   ETH_TUNNEL_FILTER_IVLAN; ETH_TUNNEL_FILTER_IIP; RTE_TUNNEL_FILTER_IMAC_IVLAN;
   RTE_TUNNEL_FILTER_IMAC_IVLAN_TENID; RTE_TUNNEL_FILTER_IMAC_TENID; RTE_TUNNEL_FILTER_OMAC_TENID_IMAC;
   RTE_ETH_FDIR_MAX_FLEXLEN; RTE_ETH_INSET_SIZE_MAX; DEV_RX_OFFLOAD_VLAN_STRIP;
   DEV_RX_OFFLOAD_IPV4_CKSUM; DEV_RX_OFFLOAD_UDP_CKSUM; DEV_RX_OFFLOAD_TCP_CKSUM;
   DEV_RX_OFFLOAD_TCP_LRO; DEV_RX_OFFLOAD_QINQ_STRIP; DEV_RX_OFFLOAD_OUTER_IPV4_CKSUM;
   DEV_RX_OFFLOAD_MACSEC_STRIP; DEV_RX_OFFLOAD_HEADER_SPLIT; DEV_RX_OFFLOAD_VLAN_FILTER;
   DEV_RX_OFFLOAD_VLAN_EXTEND; DEV_RX_OFFLOAD_JUMBO_FRAME; DEV_RX_OFFLOAD_SCATTER;
   DEV_RX_OFFLOAD_TIMESTAMP; DEV_RX_OFFLOAD_SECURITY; DEV_RX_OFFLOAD_KEEP_CRC;
   DEV_RX_OFFLOAD_SCTP_CKSUM; DEV_RX_OFFLOAD_OUTER_UDP_CKSUM; DEV_RX_OFFLOAD_RSS_HASH;
   DEV_RX_OFFLOAD_CHECKSUM; DEV_RX_OFFLOAD_VLAN; DEV_TX_OFFLOAD_VLAN_INSERT; DEV_TX_OFFLOAD_IPV4_CKSUM;
   DEV_TX_OFFLOAD_UDP_CKSUM; DEV_TX_OFFLOAD_TCP_CKSUM; DEV_TX_OFFLOAD_SCTP_CKSUM;
   DEV_TX_OFFLOAD_TCP_TSO; DEV_TX_OFFLOAD_UDP_TSO; DEV_TX_OFFLOAD_OUTER_IPV4_CKSUM;
   DEV_TX_OFFLOAD_QINQ_INSERT; DEV_TX_OFFLOAD_VXLAN_TNL_TSO; DEV_TX_OFFLOAD_GRE_TNL_TSO;
   DEV_TX_OFFLOAD_IPIP_TNL_TSO; DEV_TX_OFFLOAD_GENEVE_TNL_TSO; DEV_TX_OFFLOAD_MACSEC_INSERT;
   DEV_TX_OFFLOAD_MT_LOCKFREE; DEV_TX_OFFLOAD_MULTI_SEGS; DEV_TX_OFFLOAD_MBUF_FAST_FREE;
   DEV_TX_OFFLOAD_SECURITY; DEV_TX_OFFLOAD_UDP_TNL_TSO; DEV_TX_OFFLOAD_IP_TNL_TSO;
   DEV_TX_OFFLOAD_OUTER_UDP_CKSUM; RTE_ETH_DEV_CAPA_RUNTIME_RX_QUEUE_SETUP;
   RTE_ETH_DEV_CAPA_RUNTIME_TX_QUEUE_SETUP; RTE_ETH_DEV_FALLBACK_RX_RINGSIZE;
   RTE_ETH_DEV_FALLBACK_TX_RINGSIZE; RTE_ETH_DEV_FALLBACK_RX_NBQUEUES;
   RTE_ETH_DEV_FALLBACK_TX_NBQUEUES; RTE_ETH_DEV_SWITCH_DOMAIN_ID_INVALID;
   RTE_ETH_BURST_FLAG_PER_QUEUE; RTE_ETH_BURST_MODE_INFO_SIZE; RTE_ETH_XSTATS_NAME_SIZE;
   ETH_DCB_NUM_TCS; ETH_MAX_VMDQ_POOL; RTE_ETH_ALL; ETH_L2_TUNNEL_ENABLE_MASK;
   ETH_L2_TUNNEL_INSERTION_MASK; ETH_L2_TUNNEL_STRIPPING_MASK; ETH_L2_TUNNEL_FORWARDING_MASK;
   RTE_ETH_NAME_MAX_LEN; RTE_ETH_DEV_NO_OWNER; RTE_ETH_MAX_OWNER_NAME_LEN; RTE_ETH_DEV_CLOSE_REMOVE;
   RTE_ETH_DEV_INTR_LSC; RTE_ETH_DEV_BONDED_SLAVE; RTE_ETH_DEV_INTR_RMV; RTE_ETH_DEV_REPRESENTOR;
   RTE_ETH_DEV_NOLIVE_MAC_ADDR; RTE_ETH_RX_DESC_AVAIL; RTE_ETH_RX_DESC_DONE; RTE_ETH_RX_DESC_UNAVAIL;
   RTE_ETH_TX_DESC_FULL; RTE_ETH_TX_DESC_DONE; RTE_ETH_TX_DESC_UNAVAIL; RTE_CLASS_ANY_ID;
   RTE_KNI_NAMESIZE].

Definition i32_constants : list Z :=
  [RTE_EPOLL_PER_THREAD; RTE_XBEGIN_STARTED].

Definition u64_constants : list Z :=
  [PKT_LAST_FREE; PKT_TX_OUTER_UDP_CKSUM; PKT_TX_UDP_SEG; PKT_TX_SEC_OFFLOAD; PKT_TX_MACSEC;
   PKT_TX_TUNNEL_VXLAN; PKT_TX_TUNNEL_GRE; PKT_TX_TUNNEL_IPIP; PKT_TX_TUNNEL_GENEVE;
   PKT_TX_TUNNEL_MPLSINUDP; PKT_TX_TUNNEL_VXLAN_GPE; PKT_TX_TUNNEL_GTP; PKT_TX_TUNNEL_IP;
   PKT_TX_TUNNEL_UDP; PKT_TX_TUNNEL_MASK; PKT_TX_QINQ; PKT_TX_QINQ_PKT; PKT_TX_TCP_SEG;
   PKT_TX_IEEE1588_TMST; PKT_TX_TCP_CKSUM; PKT_TX_SCTP_CKSUM; PKT_TX_UDP_CKSUM; PKT_TX_L4_MASK;
   PKT_TX_IP_CKSUM; PKT_TX_IPV4; PKT_TX_IPV6; PKT_TX_VLAN; PKT_TX_VLAN_PKT; PKT_TX_OUTER_IP_CKSUM;
   PKT_TX_OUTER_IPV4; PKT_TX_OUTER_IPV6; PKT_TX_OFFLOAD_MASK; ETH_RSS_L3_DST_ONLY; ETH_RSS_L4_SRC_ONLY;
   ETH_RSS_L4_DST_ONLY].

Definition i64_constants : list Z :=
  [RTE_MEMPOOL_HEADER_COOKIE1; RTE_MEMPOOL_HEADER_COOKIE2; RTE_MEMPOOL_TRAILER_COOKIE;
   ETH_RSS_L3_SRC_ONLY].

(** The values are of their types. *)
Lemma constants_fit :
  Forall (fun c => fits 32 c = true) u32_constants /\ Forall (fun c => sfits 32 c = true) i32_constants /\
  Forall (fun c => fits 64 c = true) u64_constants /\ Forall (fun c => sfits 64 c = true) i64_constants.
Proof. repeat split; repeat constructor. Qed.

(** What the generator typed [i64] is a constant without a sign in C whose highest bit is set. *)
Lemma i64_constants_high : Forall (fun c => wrap 64 c = c + 2 ^ 64 /\ Z.testbit (wrap 64 c) 63 = true) i64_constants.
Proof. repeat constructor. Qed.
