(* ===== verification/Enums.v ===== *)
(** * The enumerations of the bindings ([ffi/src/bindings_rustdoc.rs])

    The generator makes a module of each C enumeration: an integer type [Type] and the
    enumerators as constants of that type. *)

From S2P Require Import Prelude.

Inductive c_type := Unsigned | Signed | UnsignedLong.

Record enumeration := Enumeration { enum_type : c_type; enumerators : list (string * Z) }.

Definition in_type (t : c_type) (v : Z) : bool :=
  match t with Unsigned => fits 32 v | Signed => sfits 32 v | UnsignedLong => fits 64 v end.

(** [module::name] *)
Definition enumerator (e : enumeration) (name : string) : option Z :=
  snd <$> find (fun p => String.eqb (fst p) name) (enumerators e).

(** The first enumerator of a value *)
Definition name_of (e : enumeration) (v : Z) : option string :=
  fst <$> find (fun p => snd p =? v) (enumerators e).

#[local] Open Scope string_scope.

Definition rte_dev_event_type : enumeration := Enumeration Unsigned
  [("RTE_DEV_EVENT_ADD", 0); ("RTE_DEV_EVENT_REMOVE", 1); ("RTE_DEV_EVENT_MAX", 2)].

Definition rte_kernel_driver : enumeration := Enumeration Unsigned
  [("RTE_KDRV_UNKNOWN", 0); ("RTE_KDRV_IGB_UIO", 1); ("RTE_KDRV_VFIO", 2); ("RTE_KDRV_UIO_GENERIC", 3);
   ("RTE_KDRV_NIC_UIO", 4); ("RTE_KDRV_NONE", 5)].

Definition rte_dev_policy : enumeration := Enumeration Unsigned
  [("RTE_DEV_WHITELISTED", 0); ("RTE_DEV_BLACKLISTED", 1)].

Definition rte_iova_mode : enumeration := Enumeration Unsigned
  [("RTE_IOVA_DC", 0); ("RTE_IOVA_PA", 1); ("RTE_IOVA_VA", 2)].

Definition rte_bus_scan_mode : enumeration := Enumeration Unsigned
  [("RTE_BUS_SCAN_UNDEFINED", 0); ("RTE_BUS_SCAN_WHITELIST", 1); ("RTE_BUS_SCAN_BLACKLIST", 2)].

Definition rte_intr_mode : enumeration := Enumeration Unsigned
  [("RTE_INTR_MODE_NONE", 0); ("RTE_INTR_MODE_LEGACY", 1); ("RTE_INTR_MODE_MSI", 2);
   ("RTE_INTR_MODE_MSIX", 3)].

Definition rte_lcore_role_t : enumeration := Enumeration Unsigned
  [("ROLE_RTE", 0); ("ROLE_OFF", 1); ("ROLE_SERVICE", 2)].

Definition rte_proc_type_t : enumeration := Enumeration Signed
  [("RTE_PROC_AUTO", -1); ("RTE_PROC_PRIMARY", 0); ("RTE_PROC_SECONDARY", 1); ("RTE_PROC_INVALID", 2)].

Definition _bindgen_ty_12 : enumeration := Enumeration Unsigned
  [("RTE_MIN_ERRNO", 1000); ("E_RTE_SECONDARY", 1001); ("E_RTE_NO_CONFIG", 1002);
   ("RTE_MAX_ERRNO", 1003)].

Definition rte_intr_handle_type : enumeration := Enumeration Unsigned
  [("RTE_INTR_HANDLE_UNKNOWN", 0); ("RTE_INTR_HANDLE_UIO", 1); ("RTE_INTR_HANDLE_UIO_INTX", 2);
   ("RTE_INTR_HANDLE_VFIO_LEGACY", 3); ("RTE_INTR_HANDLE_VFIO_MSI", 4);
   ("RTE_INTR_HANDLE_VFIO_MSIX", 5); ("RTE_INTR_HANDLE_ALARM", 6); ("RTE_INTR_HANDLE_EXT", 7);
   ("RTE_INTR_HANDLE_VDEV", 8); ("RTE_INTR_HANDLE_DEV_EVENT", 9); ("RTE_INTR_HANDLE_VFIO_REQ", 10);
   ("RTE_INTR_HANDLE_MAX", 11)].

Definition _bindgen_ty_13 : enumeration := Enumeration Unsigned
  [("RTE_EPOLL_INVALID", 0); ("RTE_EPOLL_VALID", 1); ("RTE_EPOLL_EXEC", 2)].

Definition rte_devtype : enumeration := Enumeration Unsigned
  [("RTE_DEVTYPE_WHITELISTED_PCI", 0); ("RTE_DEVTYPE_BLACKLISTED_PCI", 1); ("RTE_DEVTYPE_VIRTUAL", 2)].

Definition rte_lcore_state_t : enumeration := Enumeration Unsigned
  [("WAIT", 0); ("RUNNING", 1); ("FINISHED", 2)].

Definition rte_rmt_call_master_t : enumeration := Enumeration Unsigned
  [("SKIP_MASTER", 0); ("CALL_MASTER", 1)].

Definition rte_cpu_flag_t : enumeration := Enumeration Unsigned
  [("RTE_CPUFLAG_SSE3", 0); ("RTE_CPUFLAG_PCLMULQDQ", 1); ("RTE_CPUFLAG_DTES64", 2);
   ("RTE_CPUFLAG_MONITOR", 3); ("RTE_CPUFLAG_DS_CPL", 4); ("RTE_CPUFLAG_VMX", 5);
   ("RTE_CPUFLAG_SMX", 6); ("RTE_CPUFLAG_EIST", 7); ("RTE_CPUFLAG_TM2", 8); ("RTE_CPUFLAG_SSSE3", 9);
   ("RTE_CPUFLAG_CNXT_ID", 10); ("RTE_CPUFLAG_FMA", 11); ("RTE_CPUFLAG_CMPXCHG16B", 12);
   ("RTE_CPUFLAG_XTPR", 13); ("RTE_CPUFLAG_PDCM", 14); ("RTE_CPUFLAG_PCID", 15);
   ("RTE_CPUFLAG_DCA", 16); ("RTE_CPUFLAG_SSE4_1", 17); ("RTE_CPUFLAG_SSE4_2", 18);
   ("RTE_CPUFLAG_X2APIC", 19); ("RTE_CPUFLAG_MOVBE", 20); ("RTE_CPUFLAG_POPCNT", 21);
   ("RTE_CPUFLAG_TSC_DEADLINE", 22); ("RTE_CPUFLAG_AES", 23); ("RTE_CPUFLAG_XSAVE", 24);
   ("RTE_CPUFLAG_OSXSAVE", 25); ("RTE_CPUFLAG_AVX", 26); ("RTE_CPUFLAG_F16C", 27);
   ("RTE_CPUFLAG_RDRAND", 28); ("RTE_CPUFLAG_HYPERVISOR", 29); ("RTE_CPUFLAG_FPU", 30);
   ("RTE_CPUFLAG_VME", 31); ("RTE_CPUFLAG_DE", 32); ("RTE_CPUFLAG_PSE", 33); ("RTE_CPUFLAG_TSC", 34);
   ("RTE_CPUFLAG_MSR", 35); ("RTE_CPUFLAG_PAE", 36); ("RTE_CPUFLAG_MCE", 37); ("RTE_CPUFLAG_CX8", 38);
   ("RTE_CPUFLAG_APIC", 39); ("RTE_CPUFLAG_SEP", 40); ("RTE_CPUFLAG_MTRR", 41);
   ("RTE_CPUFLAG_PGE", 42); ("RTE_CPUFLAG_MCA", 43); ("RTE_CPUFLAG_CMOV", 44); ("RTE_CPUFLAG_PAT", 45);
   ("RTE_CPUFLAG_PSE36", 46); ("RTE_CPUFLAG_PSN", 47); ("RTE_CPUFLAG_CLFSH", 48);
   ("RTE_CPUFLAG_DS", 49); ("RTE_CPUFLAG_ACPI", 50); ("RTE_CPUFLAG_MMX", 51); ("RTE_CPUFLAG_FXSR", 52);
   ("RTE_CPUFLAG_SSE", 53); ("RTE_CPUFLAG_SSE2", 54); ("RTE_CPUFLAG_SS", 55); ("RTE_CPUFLAG_HTT", 56);
   ("RTE_CPUFLAG_TM", 57); ("RTE_CPUFLAG_PBE", 58); ("RTE_CPUFLAG_DIGTEMP", 59);
   ("RTE_CPUFLAG_TRBOBST", 60); ("RTE_CPUFLAG_ARAT", 61); ("RTE_CPUFLAG_PLN", 62);
   ("RTE_CPUFLAG_ECMD", 63); ("RTE_CPUFLAG_PTM", 64); ("RTE_CPUFLAG_MPERF_APERF_MSR", 65);
   ("RTE_CPUFLAG_ACNT2", 66); ("RTE_CPUFLAG_ENERGY_EFF", 67); ("RTE_CPUFLAG_FSGSBASE", 68);
   ("RTE_CPUFLAG_BMI1", 69); ("RTE_CPUFLAG_HLE", 70); ("RTE_CPUFLAG_AVX2", 71);
   ("RTE_CPUFLAG_SMEP", 72); ("RTE_CPUFLAG_BMI2", 73); ("RTE_CPUFLAG_ERMS", 74);
   ("RTE_CPUFLAG_INVPCID", 75); ("RTE_CPUFLAG_RTM", 76); ("RTE_CPUFLAG_AVX512F", 77);
   ("RTE_CPUFLAG_RDSEED", 78); ("RTE_CPUFLAG_LAHF_SAHF", 79); ("RTE_CPUFLAG_LZCNT", 80);
   ("RTE_CPUFLAG_SYSCALL", 81); ("RTE_CPUFLAG_XD", 82); ("RTE_CPUFLAG_1GB_PG", 83);
   ("RTE_CPUFLAG_RDTSCP", 84); ("RTE_CPUFLAG_EM64T", 85); ("RTE_CPUFLAG_INVTSC", 86);
   ("RTE_CPUFLAG_NUMFLAGS", 87)].

Definition rte_page_sizes : enumeration := Enumeration UnsignedLong
  [("RTE_PGSIZE_4K", 4096); ("RTE_PGSIZE_64K", 65536); ("RTE_PGSIZE_256K", 262144);
   ("RTE_PGSIZE_2M", 2097152); ("RTE_PGSIZE_16M", 16777216); ("RTE_PGSIZE_256M", 268435456);
   ("RTE_PGSIZE_512M", 536870912); ("RTE_PGSIZE_1G", 1073741824); ("RTE_PGSIZE_4G", 4294967296);
   ("RTE_PGSIZE_16G", 17179869184)].

Definition rte_mem_event : enumeration := Enumeration Unsigned
  [("RTE_MEM_EVENT_ALLOC", 0); ("RTE_MEM_EVENT_FREE", 1)].

Definition rte_ring_queue_behavior : enumeration := Enumeration Unsigned
  [("RTE_RING_QUEUE_FIXED", 0); ("RTE_RING_QUEUE_VARIABLE", 1)].

Definition _bindgen_ty_14 : enumeration := Enumeration Unsigned
  [("RTE_MBUF_L2_LEN_BITS", 7); ("RTE_MBUF_L3_LEN_BITS", 9); ("RTE_MBUF_L4_LEN_BITS", 8);
   ("RTE_MBUF_TSO_SEGSZ_BITS", 16); ("RTE_MBUF_OUTL3_LEN_BITS", 9); ("RTE_MBUF_OUTL2_LEN_BITS", 7);
   ("RTE_MBUF_TXOFLD_UNUSED_BITS", 8); ("RTE_MBUF_L2_LEN_OFS", 0); ("RTE_MBUF_L3_LEN_OFS", 7);
   ("RTE_MBUF_L4_LEN_OFS", 16); ("RTE_MBUF_TSO_SEGSZ_OFS", 24); ("RTE_MBUF_OUTL3_LEN_OFS", 40);
   ("RTE_MBUF_OUTL2_LEN_OFS", 49); ("RTE_MBUF_TXOFLD_UNUSED_OFS", 56)].

Definition rte_eth_rx_mq_mode : enumeration := Enumeration Unsigned
  [("ETH_MQ_RX_NONE", 0); ("ETH_MQ_RX_RSS", 1); ("ETH_MQ_RX_DCB", 2); ("ETH_MQ_RX_DCB_RSS", 3);
   ("ETH_MQ_RX_VMDQ_ONLY", 4); ("ETH_MQ_RX_VMDQ_RSS", 5); ("ETH_MQ_RX_VMDQ_DCB", 6);
   ("ETH_MQ_RX_VMDQ_DCB_RSS", 7)].

Definition rte_eth_tx_mq_mode : enumeration := Enumeration Unsigned
  [("ETH_MQ_TX_NONE", 0); ("ETH_MQ_TX_DCB", 1); ("ETH_MQ_TX_VMDQ_DCB", 2); ("ETH_MQ_TX_VMDQ_ONLY", 3)].

Definition rte_vlan_type : enumeration := Enumeration Unsigned
  [("ETH_VLAN_TYPE_UNKNOWN", 0); ("ETH_VLAN_TYPE_INNER", 1); ("ETH_VLAN_TYPE_OUTER", 2);
   ("ETH_VLAN_TYPE_MAX", 3)].

Definition rte_eth_nb_tcs : enumeration := Enumeration Unsigned
  [("ETH_4_TCS", 4); ("ETH_8_TCS", 8)].

Definition rte_eth_nb_pools : enumeration := Enumeration Unsigned
  [("ETH_8_POOLS", 8); ("ETH_16_POOLS", 16); ("ETH_32_POOLS", 32); ("ETH_64_POOLS", 64)].

Definition rte_eth_fc_mode : enumeration := Enumeration Unsigned
  [("RTE_FC_NONE", 0); ("RTE_FC_RX_PAUSE", 1); ("RTE_FC_TX_PAUSE", 2); ("RTE_FC_FULL", 3)].

Definition rte_eth_tunnel_type : enumeration := Enumeration Unsigned
  [("RTE_TUNNEL_TYPE_NONE", 0); ("RTE_TUNNEL_TYPE_VXLAN", 1); ("RTE_TUNNEL_TYPE_GENEVE", 2);
   ("RTE_TUNNEL_TYPE_TEREDO", 3); ("RTE_TUNNEL_TYPE_NVGRE", 4); ("RTE_TUNNEL_TYPE_IP_IN_GRE", 5);
   ("RTE_L2_TUNNEL_TYPE_E_TAG", 6); ("RTE_TUNNEL_TYPE_VXLAN_GPE", 7); ("RTE_TUNNEL_TYPE_MAX", 8)].

Definition rte_flow_item_type : enumeration := Enumeration Unsigned
  [("RTE_FLOW_ITEM_TYPE_END", 0); ("RTE_FLOW_ITEM_TYPE_VOID", 1); ("RTE_FLOW_ITEM_TYPE_INVERT", 2);
   ("RTE_FLOW_ITEM_TYPE_ANY", 3); ("RTE_FLOW_ITEM_TYPE_PF", 4); ("RTE_FLOW_ITEM_TYPE_VF", 5);
   ("RTE_FLOW_ITEM_TYPE_PHY_PORT", 6); ("RTE_FLOW_ITEM_TYPE_PORT_ID", 7);
   ("RTE_FLOW_ITEM_TYPE_RAW", 8); ("RTE_FLOW_ITEM_TYPE_ETH", 9); ("RTE_FLOW_ITEM_TYPE_VLAN", 10);
   ("RTE_FLOW_ITEM_TYPE_IPV4", 11); ("RTE_FLOW_ITEM_TYPE_IPV6", 12); ("RTE_FLOW_ITEM_TYPE_ICMP", 13);
   ("RTE_FLOW_ITEM_TYPE_UDP", 14); ("RTE_FLOW_ITEM_TYPE_TCP", 15); ("RTE_FLOW_ITEM_TYPE_SCTP", 16);
   ("RTE_FLOW_ITEM_TYPE_VXLAN", 17); ("RTE_FLOW_ITEM_TYPE_E_TAG", 18);
   ("RTE_FLOW_ITEM_TYPE_NVGRE", 19); ("RTE_FLOW_ITEM_TYPE_MPLS", 20); ("RTE_FLOW_ITEM_TYPE_GRE", 21);
   ("RTE_FLOW_ITEM_TYPE_FUZZY", 22); ("RTE_FLOW_ITEM_TYPE_GTP", 23); ("RTE_FLOW_ITEM_TYPE_GTPC", 24);
   ("RTE_FLOW_ITEM_TYPE_GTPU", 25); ("RTE_FLOW_ITEM_TYPE_ESP", 26); ("RTE_FLOW_ITEM_TYPE_GENEVE", 27);
   ("RTE_FLOW_ITEM_TYPE_VXLAN_GPE", 28); ("RTE_FLOW_ITEM_TYPE_ARP_ETH_IPV4", 29);
   ("RTE_FLOW_ITEM_TYPE_IPV6_EXT", 30); ("RTE_FLOW_ITEM_TYPE_ICMP6", 31);
   ("RTE_FLOW_ITEM_TYPE_ICMP6_ND_NS", 32); ("RTE_FLOW_ITEM_TYPE_ICMP6_ND_NA", 33);
   ("RTE_FLOW_ITEM_TYPE_ICMP6_ND_OPT", 34); ("RTE_FLOW_ITEM_TYPE_ICMP6_ND_OPT_SLA_ETH", 35);
   ("RTE_FLOW_ITEM_TYPE_ICMP6_ND_OPT_TLA_ETH", 36); ("RTE_FLOW_ITEM_TYPE_MARK", 37);
   ("RTE_FLOW_ITEM_TYPE_META", 38); ("RTE_FLOW_ITEM_TYPE_GRE_KEY", 39);
   ("RTE_FLOW_ITEM_TYPE_GTP_PSC", 40); ("RTE_FLOW_ITEM_TYPE_PPPOES", 41);
   ("RTE_FLOW_ITEM_TYPE_PPPOED", 42); ("RTE_FLOW_ITEM_TYPE_PPPOE_PROTO_ID", 43);
   ("RTE_FLOW_ITEM_TYPE_NSH", 44); ("RTE_FLOW_ITEM_TYPE_IGMP", 45); ("RTE_FLOW_ITEM_TYPE_AH", 46);
   ("RTE_FLOW_ITEM_TYPE_HIGIG2", 47); ("RTE_FLOW_ITEM_TYPE_TAG", 48)].

Definition rte_flow_action_type : enumeration := Enumeration Unsigned
  [("RTE_FLOW_ACTION_TYPE_END", 0); ("RTE_FLOW_ACTION_TYPE_VOID", 1);
   ("RTE_FLOW_ACTION_TYPE_PASSTHRU", 2); ("RTE_FLOW_ACTION_TYPE_JUMP", 3);
   ("RTE_FLOW_ACTION_TYPE_MARK", 4); ("RTE_FLOW_ACTION_TYPE_FLAG", 5);
   ("RTE_FLOW_ACTION_TYPE_QUEUE", 6); ("RTE_FLOW_ACTION_TYPE_DROP", 7);
   ("RTE_FLOW_ACTION_TYPE_COUNT", 8); ("RTE_FLOW_ACTION_TYPE_RSS", 9); ("RTE_FLOW_ACTION_TYPE_PF", 10);
   ("RTE_FLOW_ACTION_TYPE_VF", 11); ("RTE_FLOW_ACTION_TYPE_PHY_PORT", 12);
   ("RTE_FLOW_ACTION_TYPE_PORT_ID", 13); ("RTE_FLOW_ACTION_TYPE_METER", 14);
   ("RTE_FLOW_ACTION_TYPE_SECURITY", 15); ("RTE_FLOW_ACTION_TYPE_OF_SET_MPLS_TTL", 16);
   ("RTE_FLOW_ACTION_TYPE_OF_DEC_MPLS_TTL", 17); ("RTE_FLOW_ACTION_TYPE_OF_SET_NW_TTL", 18);
   ("RTE_FLOW_ACTION_TYPE_OF_DEC_NW_TTL", 19); ("RTE_FLOW_ACTION_TYPE_OF_COPY_TTL_OUT", 20);
   ("RTE_FLOW_ACTION_TYPE_OF_COPY_TTL_IN", 21); ("RTE_FLOW_ACTION_TYPE_OF_POP_VLAN", 22);
   ("RTE_FLOW_ACTION_TYPE_OF_PUSH_VLAN", 23); ("RTE_FLOW_ACTION_TYPE_OF_SET_VLAN_VID", 24);
   ("RTE_FLOW_ACTION_TYPE_OF_SET_VLAN_PCP", 25); ("RTE_FLOW_ACTION_TYPE_OF_POP_MPLS", 26);
   ("RTE_FLOW_ACTION_TYPE_OF_PUSH_MPLS", 27); ("RTE_FLOW_ACTION_TYPE_VXLAN_ENCAP", 28);
   ("RTE_FLOW_ACTION_TYPE_VXLAN_DECAP", 29); ("RTE_FLOW_ACTION_TYPE_NVGRE_ENCAP", 30);
   ("RTE_FLOW_ACTION_TYPE_NVGRE_DECAP", 31); ("RTE_FLOW_ACTION_TYPE_RAW_ENCAP", 32);
   ("RTE_FLOW_ACTION_TYPE_RAW_DECAP", 33); ("RTE_FLOW_ACTION_TYPE_SET_IPV4_SRC", 34);
   ("RTE_FLOW_ACTION_TYPE_SET_IPV4_DST", 35); ("RTE_FLOW_ACTION_TYPE_SET_IPV6_SRC", 36);
   ("RTE_FLOW_ACTION_TYPE_SET_IPV6_DST", 37); ("RTE_FLOW_ACTION_TYPE_SET_TP_SRC", 38);
   ("RTE_FLOW_ACTION_TYPE_SET_TP_DST", 39); ("RTE_FLOW_ACTION_TYPE_MAC_SWAP", 40);
   ("RTE_FLOW_ACTION_TYPE_DEC_TTL", 41); ("RTE_FLOW_ACTION_TYPE_SET_TTL", 42);
   ("RTE_FLOW_ACTION_TYPE_SET_MAC_SRC", 43); ("RTE_FLOW_ACTION_TYPE_SET_MAC_DST", 44);
   ("RTE_FLOW_ACTION_TYPE_INC_TCP_SEQ", 45); ("RTE_FLOW_ACTION_TYPE_DEC_TCP_SEQ", 46);
   ("RTE_FLOW_ACTION_TYPE_INC_TCP_ACK", 47); ("RTE_FLOW_ACTION_TYPE_DEC_TCP_ACK", 48);
   ("RTE_FLOW_ACTION_TYPE_SET_TAG", 49); ("RTE_FLOW_ACTION_TYPE_SET_META", 50)].

Definition rte_eth_hash_function : enumeration := Enumeration Unsigned
  [("RTE_ETH_HASH_FUNCTION_DEFAULT", 0); ("RTE_ETH_HASH_FUNCTION_TOEPLITZ", 1);
   ("RTE_ETH_HASH_FUNCTION_SIMPLE_XOR", 2); ("RTE_ETH_HASH_FUNCTION_SYMMETRIC_TOEPLITZ", 3);
   ("RTE_ETH_HASH_FUNCTION_MAX", 4)].

Definition rte_flow_error_type : enumeration := Enumeration Unsigned
  [("RTE_FLOW_ERROR_TYPE_NONE", 0); ("RTE_FLOW_ERROR_TYPE_UNSPECIFIED", 1);
   ("RTE_FLOW_ERROR_TYPE_HANDLE", 2); ("RTE_FLOW_ERROR_TYPE_ATTR_GROUP", 3);
   ("RTE_FLOW_ERROR_TYPE_ATTR_PRIORITY", 4); ("RTE_FLOW_ERROR_TYPE_ATTR_INGRESS", 5);
   ("RTE_FLOW_ERROR_TYPE_ATTR_EGRESS", 6); ("RTE_FLOW_ERROR_TYPE_ATTR_TRANSFER", 7);
   ("RTE_FLOW_ERROR_TYPE_ATTR", 8); ("RTE_FLOW_ERROR_TYPE_ITEM_NUM", 9);
   ("RTE_FLOW_ERROR_TYPE_ITEM_SPEC", 10); ("RTE_FLOW_ERROR_TYPE_ITEM_LAST", 11);
   ("RTE_FLOW_ERROR_TYPE_ITEM_MASK", 12); ("RTE_FLOW_ERROR_TYPE_ITEM", 13);
   ("RTE_FLOW_ERROR_TYPE_ACTION_NUM", 14); ("RTE_FLOW_ERROR_TYPE_ACTION_CONF", 15);
   ("RTE_FLOW_ERROR_TYPE_ACTION", 16)].

Definition rte_flow_conv_op : enumeration := Enumeration Unsigned
  [("RTE_FLOW_CONV_OP_NONE", 0); ("RTE_FLOW_CONV_OP_ATTR", 1); ("RTE_FLOW_CONV_OP_ITEM", 2);
   ("RTE_FLOW_CONV_OP_ACTION", 3); ("RTE_FLOW_CONV_OP_PATTERN", 4); ("RTE_FLOW_CONV_OP_ACTIONS", 5);
   ("RTE_FLOW_CONV_OP_RULE", 6); ("RTE_FLOW_CONV_OP_ITEM_NAME", 7);
   ("RTE_FLOW_CONV_OP_ACTION_NAME", 8); ("RTE_FLOW_CONV_OP_ITEM_NAME_PTR", 9);
   ("RTE_FLOW_CONV_OP_ACTION_NAME_PTR", 10)].

Definition rte_filter_type : enumeration := Enumeration Unsigned
  [("RTE_ETH_FILTER_NONE", 0); ("RTE_ETH_FILTER_MACVLAN", 1); ("RTE_ETH_FILTER_ETHERTYPE", 2);
   ("RTE_ETH_FILTER_FLEXIBLE", 3); ("RTE_ETH_FILTER_SYN", 4); ("RTE_ETH_FILTER_NTUPLE", 5);
   ("RTE_ETH_FILTER_TUNNEL", 6); ("RTE_ETH_FILTER_FDIR", 7); ("RTE_ETH_FILTER_HASH", 8);
   ("RTE_ETH_FILTER_L2_TUNNEL", 9); ("RTE_ETH_FILTER_GENERIC", 10); ("RTE_ETH_FILTER_MAX", 11)].

Definition rte_filter_op : enumeration := Enumeration Unsigned
  [("RTE_ETH_FILTER_NOP", 0); ("RTE_ETH_FILTER_ADD", 1); ("RTE_ETH_FILTER_UPDATE", 2);
   ("RTE_ETH_FILTER_DELETE", 3); ("RTE_ETH_FILTER_FLUSH", 4); ("RTE_ETH_FILTER_GET", 5);
   ("RTE_ETH_FILTER_SET", 6); ("RTE_ETH_FILTER_INFO", 7); ("RTE_ETH_FILTER_STATS", 8);
   ("RTE_ETH_FILTER_OP_MAX", 9)].

Definition rte_mac_filter_type : enumeration := Enumeration Unsigned
  [("RTE_MAC_PERFECT_MATCH", 1); ("RTE_MACVLAN_PERFECT_MATCH", 2); ("RTE_MAC_HASH_MATCH", 3);
   ("RTE_MACVLAN_HASH_MATCH", 4)].

Definition rte_tunnel_iptype : enumeration := Enumeration Unsigned
  [("RTE_TUNNEL_IPTYPE_IPV4", 0); ("RTE_TUNNEL_IPTYPE_IPV6", 1)].

Definition rte_eth_global_cfg_type : enumeration := Enumeration Unsigned
  [("RTE_ETH_GLOBAL_CFG_TYPE_UNKNOWN", 0); ("RTE_ETH_GLOBAL_CFG_TYPE_GRE_KEY_LEN", 1);
   ("RTE_ETH_GLOBAL_CFG_TYPE_MAX", 2)].

Definition rte_eth_input_set_field : enumeration := Enumeration Unsigned
  [("RTE_ETH_INPUT_SET_UNKNOWN", 0); ("RTE_ETH_INPUT_SET_L2_SRC_MAC", 1);
   ("RTE_ETH_INPUT_SET_L2_DST_MAC", 2); ("RTE_ETH_INPUT_SET_L2_OUTER_VLAN", 3);
   ("RTE_ETH_INPUT_SET_L2_INNER_VLAN", 4); ("RTE_ETH_INPUT_SET_L2_ETHERTYPE", 5);
   ("RTE_ETH_INPUT_SET_L3_SRC_IP4", 129); ("RTE_ETH_INPUT_SET_L3_DST_IP4", 130);
   ("RTE_ETH_INPUT_SET_L3_SRC_IP6", 131); ("RTE_ETH_INPUT_SET_L3_DST_IP6", 132);
   ("RTE_ETH_INPUT_SET_L3_IP4_TOS", 133); ("RTE_ETH_INPUT_SET_L3_IP4_PROTO", 134);
   ("RTE_ETH_INPUT_SET_L3_IP6_TC", 135); ("RTE_ETH_INPUT_SET_L3_IP6_NEXT_HEADER", 136);
   ("RTE_ETH_INPUT_SET_L3_IP4_TTL", 137); ("RTE_ETH_INPUT_SET_L3_IP6_HOP_LIMITS", 138);
   ("RTE_ETH_INPUT_SET_L4_UDP_SRC_PORT", 257); ("RTE_ETH_INPUT_SET_L4_UDP_DST_PORT", 258);
   ("RTE_ETH_INPUT_SET_L4_TCP_SRC_PORT", 259); ("RTE_ETH_INPUT_SET_L4_TCP_DST_PORT", 260);
   ("RTE_ETH_INPUT_SET_L4_SCTP_SRC_PORT", 261); ("RTE_ETH_INPUT_SET_L4_SCTP_DST_PORT", 262);
   ("RTE_ETH_INPUT_SET_L4_SCTP_VERIFICATION_TAG", 263);
   ("RTE_ETH_INPUT_SET_TUNNEL_L2_INNER_DST_MAC", 385);
   ("RTE_ETH_INPUT_SET_TUNNEL_L2_INNER_SRC_MAC", 386); ("RTE_ETH_INPUT_SET_TUNNEL_L2_INNER_VLAN", 387);
   ("RTE_ETH_INPUT_SET_TUNNEL_L4_UDP_KEY", 388); ("RTE_ETH_INPUT_SET_TUNNEL_GRE_KEY", 389);
   ("RTE_ETH_INPUT_SET_FLEX_PAYLOAD_1ST_WORD", 641); ("RTE_ETH_INPUT_SET_FLEX_PAYLOAD_2ND_WORD", 642);
   ("RTE_ETH_INPUT_SET_FLEX_PAYLOAD_3RD_WORD", 643); ("RTE_ETH_INPUT_SET_FLEX_PAYLOAD_4TH_WORD", 644);
   ("RTE_ETH_INPUT_SET_FLEX_PAYLOAD_5TH_WORD", 645); ("RTE_ETH_INPUT_SET_FLEX_PAYLOAD_6TH_WORD", 646);
   ("RTE_ETH_INPUT_SET_FLEX_PAYLOAD_7TH_WORD", 647); ("RTE_ETH_INPUT_SET_FLEX_PAYLOAD_8TH_WORD", 648);
   ("RTE_ETH_INPUT_SET_DEFAULT", 65533); ("RTE_ETH_INPUT_SET_NONE", 65534);
   ("RTE_ETH_INPUT_SET_MAX", 65535)].

Definition rte_filter_input_set_op : enumeration := Enumeration Unsigned
  [("RTE_ETH_INPUT_SET_OP_UNKNOWN", 0); ("RTE_ETH_INPUT_SET_SELECT", 1); ("RTE_ETH_INPUT_SET_ADD", 2);
   ("RTE_ETH_INPUT_SET_OP_MAX", 3)].

Definition rte_eth_fdir_tunnel_type : enumeration := Enumeration Unsigned
  [("RTE_FDIR_TUNNEL_TYPE_UNKNOWN", 0); ("RTE_FDIR_TUNNEL_TYPE_NVGRE", 1);
   ("RTE_FDIR_TUNNEL_TYPE_VXLAN", 2)].

Definition rte_eth_fdir_behavior : enumeration := Enumeration Unsigned
  [("RTE_ETH_FDIR_ACCEPT", 0); ("RTE_ETH_FDIR_REJECT", 1); ("RTE_ETH_FDIR_PASSTHRU", 2)].

Definition rte_eth_fdir_status : enumeration := Enumeration Unsigned
  [("RTE_ETH_FDIR_NO_REPORT_STATUS", 0); ("RTE_ETH_FDIR_REPORT_ID", 1);
   ("RTE_ETH_FDIR_REPORT_ID_FLEX_4", 2); ("RTE_ETH_FDIR_REPORT_FLEX_8", 3)].

Definition rte_eth_payload_type : enumeration := Enumeration Unsigned
  [("RTE_ETH_PAYLOAD_UNKNOWN", 0); ("RTE_ETH_RAW_PAYLOAD", 1); ("RTE_ETH_L2_PAYLOAD", 2);
   ("RTE_ETH_L3_PAYLOAD", 3); ("RTE_ETH_L4_PAYLOAD", 4); ("RTE_ETH_PAYLOAD_MAX", 8)].

Definition rte_fdir_mode : enumeration := Enumeration Unsigned
  [("RTE_FDIR_MODE_NONE", 0); ("RTE_FDIR_MODE_SIGNATURE", 1); ("RTE_FDIR_MODE_PERFECT", 2);
   ("RTE_FDIR_MODE_PERFECT_MAC_VLAN", 3); ("RTE_FDIR_MODE_PERFECT_TUNNEL", 4)].

Definition rte_eth_fdir_filter_info_type : enumeration := Enumeration Unsigned
  [("RTE_ETH_FDIR_FILTER_INFO_TYPE_UNKNOWN", 0); ("RTE_ETH_FDIR_FILTER_INPUT_SET_SELECT", 1);
   ("RTE_ETH_FDIR_FILTER_INFO_TYPE_MAX", 2)].

Definition rte_eth_hash_filter_info_type : enumeration := Enumeration Unsigned
  [("RTE_ETH_HASH_FILTER_INFO_TYPE_UNKNOWN", 0); ("RTE_ETH_HASH_FILTER_SYM_HASH_ENA_PER_PORT", 1);
   ("RTE_ETH_HASH_FILTER_GLOBAL_CONFIG", 2); ("RTE_ETH_HASH_FILTER_INPUT_SET_SELECT", 3);
   ("RTE_ETH_HASH_FILTER_INFO_TYPE_MAX", 4)].

Definition rte_fdir_pballoc_type : enumeration := Enumeration Unsigned
  [("RTE_FDIR_PBALLOC_64K", 0); ("RTE_FDIR_PBALLOC_128K", 1); ("RTE_FDIR_PBALLOC_256K", 2)].

Definition rte_fdir_status_mode : enumeration := Enumeration Unsigned
  [("RTE_FDIR_NO_REPORT_STATUS", 0); ("RTE_FDIR_REPORT_STATUS", 1);
   ("RTE_FDIR_REPORT_STATUS_ALWAYS", 2)].

Definition rte_eth_dev_state : enumeration := Enumeration Unsigned
  [("RTE_ETH_DEV_UNUSED", 0); ("RTE_ETH_DEV_ATTACHED", 1); ("RTE_ETH_DEV_REMOVED", 2)].

Definition rte_eth_event_ipsec_subtype : enumeration := Enumeration Unsigned
  [("RTE_ETH_EVENT_IPSEC_UNKNOWN", 0); ("RTE_ETH_EVENT_IPSEC_ESN_OVERFLOW", 1);
   ("RTE_ETH_EVENT_IPSEC_SA_TIME_EXPIRY", 2); ("RTE_ETH_EVENT_IPSEC_SA_BYTE_EXPIRY", 3);
   ("RTE_ETH_EVENT_IPSEC_MAX", 4)].

Definition rte_eth_event_type : enumeration := Enumeration Unsigned
  [("RTE_ETH_EVENT_UNKNOWN", 0); ("RTE_ETH_EVENT_INTR_LSC", 1); ("RTE_ETH_EVENT_QUEUE_STATE", 2);
   ("RTE_ETH_EVENT_INTR_RESET", 3); ("RTE_ETH_EVENT_VF_MBOX", 4); ("RTE_ETH_EVENT_MACSEC", 5);
   ("RTE_ETH_EVENT_INTR_RMV", 6); ("RTE_ETH_EVENT_NEW", 7); ("RTE_ETH_EVENT_DESTROY", 8);
   ("RTE_ETH_EVENT_IPSEC", 9); ("RTE_ETH_EVENT_MAX", 10)].

Definition rte_kni_req_id : enumeration := Enumeration Unsigned
  [("RTE_KNI_REQ_UNKNOWN", 0); ("RTE_KNI_REQ_CHANGE_MTU", 1); ("RTE_KNI_REQ_CFG_NETWORK_IF", 2);
   ("RTE_KNI_REQ_CHANGE_MAC_ADDR", 3); ("RTE_KNI_REQ_CHANGE_PROMISC", 4);
   ("RTE_KNI_REQ_CHANGE_ALLMULTI", 5); ("RTE_KNI_REQ_MAX", 6)].

Definition pcap_direction_t : enumeration := Enumeration Unsigned
  [("PCAP_D_INOUT", 0); ("PCAP_D_IN", 1); ("PCAP_D_OUT", 2)].

Definition enumerations : list (string * enumeration) :=
  [("rte_dev_event_type", rte_dev_event_type); ("rte_kernel_driver", rte_kernel_driver);
   ("rte_dev_policy", rte_dev_policy); ("rte_iova_mode", rte_iova_mode);
   ("rte_bus_scan_mode", rte_bus_scan_mode); ("rte_intr_mode", rte_intr_mode);
   ("rte_lcore_role_t", rte_lcore_role_t); ("rte_proc_type_t", rte_proc_type_t);
   ("_bindgen_ty_12", _bindgen_ty_12); ("rte_intr_handle_type", rte_intr_handle_type);
   ("_bindgen_ty_13", _bindgen_ty_13); ("rte_devtype", rte_devtype);
   ("rte_lcore_state_t", rte_lcore_state_t); ("rte_rmt_call_master_t", rte_rmt_call_master_t);
   ("rte_cpu_flag_t", rte_cpu_flag_t); ("rte_page_sizes", rte_page_sizes);
   ("rte_mem_event", rte_mem_event); ("rte_ring_queue_behavior", rte_ring_queue_behavior);
   ("_bindgen_ty_14", _bindgen_ty_14); ("rte_eth_rx_mq_mode", rte_eth_rx_mq_mode);
   ("rte_eth_tx_mq_mode", rte_eth_tx_mq_mode); ("rte_vlan_type", rte_vlan_type);
   ("rte_eth_nb_tcs", rte_eth_nb_tcs); ("rte_eth_nb_pools", rte_eth_nb_pools);
   ("rte_eth_fc_mode", rte_eth_fc_mode); ("rte_eth_tunnel_type", rte_eth_tunnel_type);
   ("rte_flow_item_type", rte_flow_item_type); ("rte_flow_action_type", rte_flow_action_type);
   ("rte_eth_hash_function", rte_eth_hash_function); ("rte_flow_error_type", rte_flow_error_type);
   ("rte_flow_conv_op", rte_flow_conv_op); ("rte_filter_type", rte_filter_type);
   ("rte_filter_op", rte_filter_op); ("rte_mac_filter_type", rte_mac_filter_type);
   ("rte_tunnel_iptype", rte_tunnel_iptype); ("rte_eth_global_cfg_type", rte_eth_global_cfg_type);
   ("rte_eth_input_set_field", rte_eth_input_set_field);
   ("rte_filter_input_set_op", rte_filter_input_set_op);
   ("rte_eth_fdir_tunnel_type", rte_eth_fdir_tunnel_type);
   ("rte_eth_fdir_behavior", rte_eth_fdir_behavior); ("rte_eth_fdir_status", rte_eth_fdir_status);
   ("rte_eth_payload_type", rte_eth_payload_type); ("rte_fdir_mode", rte_fdir_mode);
   ("rte_eth_fdir_filter_info_type", rte_eth_fdir_filter_info_type);
   ("rte_eth_hash_filter_info_type", rte_eth_hash_filter_info_type);
   ("rte_fdir_pballoc_type", rte_fdir_pballoc_type); ("rte_fdir_status_mode", rte_fdir_status_mode);
   ("rte_eth_dev_state", rte_eth_dev_state);
   ("rte_eth_event_ipsec_subtype", rte_eth_event_ipsec_subtype);
   ("rte_eth_event_type", rte_eth_event_type); ("rte_kni_req_id", rte_kni_req_id);
   ("pcap_direction_t", pcap_direction_t)].

#[local] Close Scope string_scope.

(** ** Properties *)

Definition distinct {A} (eqb : A -> A -> bool) : list A -> bool :=
  fix go l := match l with [] => true | x :: l => negb (existsb (eqb x) l) && go l end.

Lemma distinct_lookup {A B} (eqb : A -> A -> bool) (f : B -> A) (l : list B) x :
  (forall a b, eqb a b = true <-> a = b) -> distinct eqb (map f l) = true -> x ∈ l ->
  find (fun y => eqb (f y) (f x)) l = Some x.
Proof.
  intros Heq. induction l as [|y l IH]; [by intros _ ?%not_elem_of_nil|]. cbn [map distinct find].
  intros [Hno Hd]%andb_prop [->|Hx]%elem_of_cons; [by rewrite (proj2 (Heq _ _) eq_refl)|].
  destruct (eqb (f y) (f x)) eqn:E; [|by apply IH]. apply Heq in E.
  apply negb_true_iff in Hno. exfalso. enough (existsb (eqb (f y)) (map f l) = true) by congruence.
  apply existsb_exists. exists (f x). split; [apply in_map; by apply list_elem_of_In|]. by apply Heq.
Qed.

(** The names of an enumeration are distinct and its values are of its type; all its values are
    distinct. *)
Definition enum_ok (e : enumeration) : bool :=
  distinct String.eqb (map fst (enumerators e)) && forallb (fun p => in_type (enum_type e) (snd p)) (enumerators e).
Definition enum_inj (e : enumeration) : bool := distinct Z.eqb (map snd (enumerators e)).

Lemma enum_names e name v : enum_ok e = true -> (name, v) ∈ enumerators e -> enumerator e name = Some v.
Proof.
  intros [Hd _]%andb_prop Hin. unfold enumerator.
  pose proof (distinct_lookup String.eqb fst _ (name, v) String.eqb_eq Hd Hin) as E. cbn [fst] in E. by rewrite E.
Qed.

Lemma enum_values e name v : enum_inj e = true -> (name, v) ∈ enumerators e -> name_of e v = Some name.
Proof.
  intros Hd Hin. unfold name_of.
  pose proof (distinct_lookup Z.eqb snd _ (name, v) Z.eqb_eq Hd Hin) as E. cbn [snd] in E. by rewrite E.
Qed.

(** Every enumeration is well formed, and only that of the widths and offsets of the fields of
    [tx_offload] uses a value for two names. *)
Theorem enumerations_ok : Forall (fun '(n, e) => enum_ok e = true /\
  (enum_inj e = false <-> n = "_bindgen_ty_14"%string)) enumerations.
Proof. repeat (constructor; [split; [by vm_compute|by split; vm_compute]|]). constructor. Qed.
