(* ===== verification/Dpdk.v ===== *)
(** * The DPDK library

    What the engine calls outside its own code, as a parameter: a type [W] of states of
    the library and the operating system below it, and one function for each C function
    the engine calls, named after it. Nothing is assumed of these functions here; a
    theorem that relies on DPDK's documentation takes it as a class of laws.

    The buffers the engine can touch are memory of the process: a map from addresses to
    [rte_mbuf] structures. A call that hands a buffer to the engine adds it to the map,
    a call that takes it back removes it, and an access to an address that is not in the
    map is undefined behaviour. *)

From S2P Require Import Prelude RustStr Ffi.

(** The fields of [struct rte_mbuf] the engine reads, and the bytes [buf_addr] points to. *)
Record rte_mbuf := {
  buf_addr : Z;
  buf : list Z;
  data_off : Z;
  buf_len : Z;
  data_len : Z;
  pkt_len : Z;
  pool : Z;
}.

(** The fields of [struct rte_eth_dev_info] the engine reads *)
Record rte_eth_dev_info := {
  driver_name : rstr;
  max_rx_queues : Z;
  max_tx_queues : Z;
  rx_offload_capa : Z;
  tx_offload_capa : Z;
  flow_type_rss_offloads : Z;
}.

(** The fields of [struct rte_eth_conf] the engine sets *)
Record rte_eth_conf := {
  mq_mode : Z;
  rss_hf : Z;
  tx_offloads : Z;
}.

(** The fields of [struct rte_mempool], [rte_ring] and [rte_memzone] the engine reads; a name is
    the whole array of characters, with the NUL that ends it. *)
Record rte_mempool := {
  mp_name : rstr;
  mp_size : Z;
  mp_cache_size : Z;
  mp_flags : Z;
  mp_socket_id : Z;
}.

Record rte_ring := {
  ring_capacity : Z;
  ring_flags : Z;
}.

Record rte_memzone := {
  mz_name : rstr;
  mz_len : Z;
  mz_hugepage_sz : Z;
  mz_flags : Z;
  mz_socket_id : Z;
}.

Class Dpdk (W : Type) := {
  rte_errno : W -> Z;
  rte_strerror : Z -> W -> rstr;
  rte_eal_init : Z -> list rstr -> W -> Z * W;
  rte_eal_cleanup : W -> Z * W;
  rte_socket_id : W -> Z;
  rte_socket_count : W -> Z;
  rte_socket_id_by_idx : Z -> W -> Z;
  numa_node_of_cpu : Z -> W -> Z;
  CPU_SET : Z -> gset Z -> outcome (gset Z);
  rte_thread_set_affinity : gset Z -> W -> Z * W;
  rte_pktmbuf_alloc : Z -> W -> Z * rte_mbuf * W;
  rte_pktmbuf_alloc_bulk : Z -> Z -> W -> Z * list (Z * rte_mbuf) * W;
  rte_pktmbuf_free : Z -> W -> W;
  rte_mempool_put_bulk : Z -> list Z -> Z -> W -> W;
  rte_pktmbuf_pool_create : rstr -> Z -> Z -> Z -> Z -> Z -> W -> Z * W;
  rte_mempool_read : Z -> W -> rte_mempool;
  rte_mempool_free : Z -> W -> W;
  rte_ring_create : rstr -> Z -> Z -> Z -> W -> Z * W;
  rte_ring_lookup : rstr -> W -> Z;
  rte_ring_read : Z -> W -> rte_ring;
  rte_ring_free : Z -> W -> W;
  rte_ring_enqueue : Z -> Z -> W -> Z * W;
  rte_ring_dequeue : Z -> W -> Z * option Z * W;
  rte_memzone_reserve : rstr -> Z -> Z -> Z -> W -> Z * W;
  rte_memzone_read : Z -> W -> rte_memzone;
  rte_memzone_free : Z -> W -> W;
  rte_eth_rx_burst : Z -> Z -> Z -> W -> list (Z * rte_mbuf) * W;
  rte_eth_tx_burst : Z -> Z -> list Z -> Z -> W -> Z * W;
  rte_eth_dev_start : Z -> W -> Z * W;
  rte_eth_promiscuous_enable : Z -> W -> Z * W;
  rte_eth_dev_stop : Z -> W -> W;
  rte_eth_dev_close : Z -> W -> W;
  rte_eth_dev_get_port_by_name : rstr -> W -> Z * Z;
  rte_eth_dev_info_get : Z -> W -> rte_eth_dev_info;
  rte_eth_dev_adjust_nb_rx_tx_desc : Z -> Z -> Z -> W -> Z * (Z * Z);
  rte_eth_dev_configure : Z -> Z -> Z -> rte_eth_conf -> W -> Z * W;
  rte_eth_rx_queue_setup : Z -> Z -> Z -> Z -> Z -> W -> Z * W;
  rte_eth_tx_queue_setup : Z -> Z -> Z -> Z -> W -> Z * W;
  rte_eth_allmulticast_enable : Z -> W -> W;
  rte_eth_allmulticast_disable : Z -> W -> W;
  rte_eth_dev_socket_id : Z -> W -> Z;
  rte_eth_macaddr_get : Z -> W -> list Z;
}.

(** The state a thread of the engine works on: the library's, the buffers, and the thread's
    [MEMPOOL] and [CURRENT_CORE_ID]. *)
Record process (W : Type) := Process {
  ext : W;
  mem : gmap Z rte_mbuf;
  tls_mempool : Z;
  tls_core : Z;
}.
Arguments Process {W}.
Arguments ext {W}.
Arguments mem {W}.
Arguments tls_mempool {W}.
Arguments tls_core {W}.

Section process.
Context {W : Type}.

Definition set_ext (w : W) (s : process W) : process W :=
  Process w (mem s) (tls_mempool s) (tls_core s).
Definition set_mem (m : gmap Z rte_mbuf) (s : process W) : process W :=
  Process (ext s) m (tls_mempool s) (tls_core s).

(** A call that answers and changes the library's state; one that only does the latter;
    one that only answers. *)
Definition call {A} (f : W -> A * W) : M (process W) A :=
  fun s => let '(a, w) := f (ext s) in Ret (a, set_ext w s).
Definition call_ (f : W -> W) : M (process W) unit := fun s => Ret (tt, set_ext (f (ext s)) s).
Definition ask {A} (f : W -> A) : M (process W) A := gets (fun s => f (ext s)).

(** The buffers at [ptrs] come into, or leave, the process's hands. *)
Definition acquire (bufs : list (Z * rte_mbuf)) : M (process W) unit :=
  modify (fun s => set_mem (fold_left (fun m b => <[fst b := snd b]> m) bufs (mem s)) s).
Definition release_bufs (ptrs : list Z) : M (process W) unit :=
  modify (fun s => set_mem (fold_left (fun m p => delete p m) ptrs (mem s)) s).

(** Runs [f] on the buffer at [p]. *)
Definition with_raw {A} (p : Z) (f : M rte_mbuf A) : M (process W) A :=
  fun s =>
    match mem s !! p with
    | None => Undefined
    | Some b => r ← f b; Ret (fst r, set_mem (<[p := snd r]> (mem s)) s)
    end.

End process.
