(* ===== verification/DpdkSim.v ===== *)
(** * A concrete DPDK library

    One instance of [Dpdk], a small machine with a stock of free buffers, rings, ports
    whose receive queues are filled in advance and whose transmit queues take a fixed number
    of packets, and settable return codes: the theorems are applied to it to show that
    their hypotheses can be met. Nothing in the other files depends on it. *)

From S2P Require Import Prelude RustStr Ffi Dpdk.

Inductive event :=
  | PutBulk (pool : Z) (bufs : list Z)
  | Freed (buf : Z)
  | Sent (port queue : Z) (bufs : list Z)
  | Stopped (port : Z)
  | Closed (port : Z).

Record sim := Sim {
  sim_status : Z;
  sim_next : Z;
  sim_stock : list (Z * rte_mbuf);
  sim_names : list (rstr * Z);
  sim_rings : gmap Z (list Z);
  sim_rx : list (Z * rte_mbuf);
  sim_tx_room : Z;
  sim_log : list event;
}.

Definition sim_empty : sim := Sim 0 4096 [] [] ∅ [] 32 [].

Section sim.

Definition log (e : event) (w : sim) : sim :=
  Sim (sim_status w) (sim_next w) (sim_stock w) (sim_names w) (sim_rings w) (sim_rx w)
    (sim_tx_room w) (sim_log w ++ [e]).
Definition with_rings (r : gmap Z (list Z)) (w : sim) : sim :=
  Sim (sim_status w) (sim_next w) (sim_stock w) (sim_names w) r (sim_rx w) (sim_tx_room w) (sim_log w).
Definition with_stock (l : list (Z * rte_mbuf)) (w : sim) : sim :=
  Sim (sim_status w) (sim_next w) l (sim_names w) (sim_rings w) (sim_rx w) (sim_tx_room w) (sim_log w).
Definition with_rx (l : list (Z * rte_mbuf)) (w : sim) : sim :=
  Sim (sim_status w) (sim_next w) (sim_stock w) (sim_names w) (sim_rings w) l (sim_tx_room w) (sim_log w).

(** An address above those in use *)
Definition new_address (w : sim) : Z :=
  foldr (fun p a => Z.max (p + 64) a) (Z.max 64 (sim_next w)) (elements (dom (sim_rings w))).

(** Creates a named object; creating a name twice fails. *)
Definition create (name : rstr) (w : sim) : Z * sim :=
  let p := new_address w in
  if existsb (fun p => rstr_eqb (fst p) name) (sim_names w) then (0, w)
  else (p, Sim (sim_status w) (sim_next w) (sim_stock w) ((name, p) :: sim_names w)
             (<[p := []]> (sim_rings w)) (sim_rx w) (sim_tx_room w) (sim_log w)).

Lemma new_address_fresh w : 0 < new_address w /\ (new_address w ∉ dom (sim_rings w)).
Proof.
  unfold new_address. rewrite <- elem_of_elements.
  assert (H : forall l b, 0 < b -> b <= foldr (fun p a => Z.max (p + 64) a) b l
    /\ Forall (fun p => p < foldr (fun p a => Z.max (p + 64) a) b l) l).
  { induction l as [|q l IH]; intros b Hb; cbn; [split; [lia|apply Forall_nil_2]|].
    destruct (IH b Hb) as [Hle Hl]. split; [lia|]. apply Forall_cons_2; [lia|].
    eapply Forall_impl; [exact Hl|]. cbn. intros p Hp. lia. }
  destruct (H (elements (dom (sim_rings w))) (Z.max 64 (sim_next w)) ltac:(lia)) as [Hle Hl].
  split; [lia|]. intros Hin. rewrite Forall_forall in Hl. specialize (Hl _ Hin). lia.
Qed.

Definition lookup_name (name : rstr) (w : sim) : Z :=
  match find (fun p => rstr_eqb (fst p) name) (sim_names w) with
  | Some p => snd p
  | None => 0
  end.

Definition no_mbuf : rte_mbuf := Build_rte_mbuf 0 [] 0 0 0 0 0.

Definition status {A} (a : A) (w : sim) : Z * A := (sim_status w, a).

#[global] Instance DpdkSim : Dpdk sim := {|
  rte_errno w := 12;
  rte_strerror e w := str "error " ++ fmt_dec (Z.abs e);
  rte_eal_init _ _ w := status w w;
  rte_eal_cleanup w := status w w;
  rte_socket_id _ := 0;
  rte_socket_count _ := 2;
  rte_socket_id_by_idx i _ := if i =? 0 then 0 else -1;
  numa_node_of_cpu _ _ := 0;
  CPU_SET c s := if c <? 1024 then Ret ({[ c ]} ∪ s) else Panic IndexOutOfBounds;
  rte_thread_set_affinity _ w := status w w;
  rte_pktmbuf_alloc _ w :=
    match sim_stock w with
    | [] => (0, no_mbuf, w)
    | (p, b) :: l => (p, b, with_stock l w)
    end;
  rte_pktmbuf_alloc_bulk _ n w :=
    if (Z.to_nat n <=? List.length (sim_stock w))%nat
    then (0, take (Z.to_nat n) (sim_stock w), with_stock (drop (Z.to_nat n) (sim_stock w)) w)
    else (-1, [], w);
  rte_pktmbuf_free p w := log (Freed p) w;
  rte_mempool_put_bulk pool bufs _ w := log (PutBulk pool bufs) w;
  rte_pktmbuf_pool_create name _ _ _ _ _ w := create name w;
  rte_mempool_read _ _ := Build_rte_mempool (str "pool" ++ [NUL]) 1023 32 0 0;
  rte_mempool_free _ w := w;
  rte_ring_create name _ _ _ w := create name w;
  rte_ring_lookup name w := lookup_name name w;
  rte_ring_read _ _ := Build_rte_ring 3 0;
  rte_ring_free r w := with_rings (delete r (sim_rings w)) w;
  rte_ring_enqueue r p w :=
    match sim_rings w !! r with
    | Some l => if (List.length l <? 3)%nat then (0, with_rings (<[r := l ++ [p]]> (sim_rings w)) w) else (-105, w)
    | None => (-22, w)
    end;
  rte_ring_dequeue r w :=
    match sim_rings w !! r with
    | Some (p :: l) => (0, Some p, with_rings (<[r := l]> (sim_rings w)) w)
    | _ => (-2, None, w)
    end;
  rte_memzone_reserve name _ _ _ w := create name w;
  rte_memzone_read _ _ := Build_rte_memzone (str "zone" ++ [NUL]) 4096 2097152 0 0;
  rte_memzone_free _ w := w;
  rte_eth_rx_burst _ _ n w :=
    (take (Z.to_nat n) (sim_rx w), with_rx (drop (Z.to_nat n) (sim_rx w)) w);
  rte_eth_tx_burst port q bufs n w :=
    let k := Z.max 0 (Z.min n (sim_tx_room w)) in (k, log (Sent port q (take (Z.to_nat k) bufs)) w);
  rte_eth_dev_start _ w := status w w;
  rte_eth_promiscuous_enable _ w := status w w;
  rte_eth_dev_stop p w := log (Stopped p) w;
  rte_eth_dev_close p w := log (Closed p) w;
  rte_eth_dev_get_port_by_name _ w := (sim_status w, 0);
  rte_eth_dev_info_get _ _ := Build_rte_eth_dev_info (str "net_sim" ++ [NUL]) 4 4 0 0 0;
  rte_eth_dev_adjust_nb_rx_tx_desc _ rx tx w := (sim_status w, (rx, tx));
  rte_eth_dev_configure _ _ _ _ w := status w w;
  rte_eth_rx_queue_setup _ _ _ _ _ w := status w w;
  rte_eth_tx_queue_setup _ _ _ _ w := status w w;
  rte_eth_allmulticast_enable _ w := w;
  rte_eth_allmulticast_disable _ w := w;
  rte_eth_dev_socket_id _ _ := 0;
  rte_eth_macaddr_get _ _ := [2; 0; 0; 0; 0; 1];
|}.

(** A buffer of [n] bytes with the data given after a headroom of two bytes *)
Definition sim_mbuf (n : nat) (pool : Z) (data : list Z) : rte_mbuf :=
  Build_rte_mbuf 65536 ([0; 0] ++ data ++ replicate (n - 2 - List.length data) 0) 2 (Z.of_nat n)
    (Z.of_nat (List.length data)) (Z.of_nat (List.length data)) pool.

Definition sim_process (w : sim) (bufs : list (Z * rte_mbuf)) : process sim :=
  Process w (list_to_map bufs) 512 0.

End sim.
