(* ===== verification/DpdkCore.v ===== *)
(** * The DPDK environment ([dpdk/mod.rs])

    Errors taken from [errno], sockets and cores, the environment abstraction layer, and
    freeing buffers in bulk. *)

From S2P Require Import Prelude RustStr MacAddr Ffi Dpdk DpdkSim.

Section dpdk.
Context `{Profile} {W : Type} `{!Dpdk W}.

(** ** [DpdkError] *)

Definition from_errno (errno : Z) : M (process W) DpdkError :=
  errno ← (if errno =? -1 then ask rte_errno else lift (sneg 32 errno));
  text ← ask (rte_strerror errno);
  s ← lift (as_str (text ++ [NUL]));
  mret (DpdkErr s).

Definition dpdk_error_new : M (process W) DpdkError := from_errno (-1).

(** [.to_result(DpdkError::from_errno)] and [.to_result(|_| DpdkError::new())] *)
Definition or_errno (n : Z) : M (process W) (Fallible Z) :=
  if 0 <=? n then mret (Ok n) else e ← from_errno n; mret (Err (EDpdk e)).

Definition or_new_error (n : Z) : M (process W) (Fallible Z) :=
  if 0 <=? n then mret (Ok n) else e ← dpdk_error_new; mret (Err (EDpdk e)).

Definition ptr_or_new_error (p : Z) : M (process W) (Fallible Z) :=
  if p =? 0 then e ← dpdk_error_new; mret (Err (EDpdk e)) else mret (Ok p).

(** ** [SocketId] and [CoreId] *)

Definition SOCKET_ANY : SocketId := Socket (-1).

Definition current_socket : M (process W) SocketId :=
  n ← ask rte_socket_id; mret (Socket (swrap 32 n)).

Definition all_sockets : M (process W) (list SocketId) :=
  n ← ask rte_socket_count;
  ids ← ask (fun w => map (fun idx => rte_socket_id_by_idx idx w) (seqZ 0 n));
  mret (map Socket (filter (fun sid => sid <> -1) ids)).

Definition socket_debug (s : SocketId) : rstr :=
  str "socket" ++ fmt_int (socket_raw s).

(** A [CoreId] is its number. *)
Definition CORE_ANY : Z := max_value USIZE_BITS.

Definition current_core : M (process W) Z := gets tls_core.

Definition core_socket_id (core : Z) : M (process W) SocketId :=
  n ← ask (numa_node_of_cpu (swrap 32 core)); mret (Socket n).

Definition set_tls_core (core : Z) : M (process W) unit :=
  modify (fun s => Process (ext s) (mem s) (tls_mempool s) core).

Definition set_thread_affinity (core : Z) : M (process W) (Fallible unit) :=
  set ← lift (CPU_SET core ∅);
  r ← call (rte_thread_set_affinity set);
  _ ←? or_errno r;
  _ ← set_tls_core core;
  mret (Ok tt).

Definition core_debug (core : Z) : rstr := str "core" ++ fmt_dec core.

(** ** The EAL *)

Fixpoint to_cstrings (args : list rstr) : outcome (list rstr) :=
  match args with
  | [] => Ret []
  | a :: args => c ← to_cstring a; cs ← to_cstrings args; Ret (c :: cs)
  end.

Definition eal_init (args : list rstr) : M (process W) (Fallible unit) :=
  let len := swrap 32 (Z.of_nat (length args)) in
  args ← lift (to_cstrings args);
  res ← call (rte_eal_init len args);
  _ ←? or_errno res;
  mret (Ok tt).

Definition eal_cleanup : M (process W) (Fallible unit) :=
  res ← call rte_eal_cleanup;
  _ ←? or_errno res;
  mret (Ok tt).

(** ** Ports and buffers *)

Definition eth_macaddr_get (port_id : Z) : M (process W) MacAddr.MacAddr :=
  bytes ← ask (rte_eth_macaddr_get port_id);
  mret (MacAddr.from_octets bytes).

Definition mbuf_pool (p : Z) : M (process W) Z := with_raw p (gets pool).

Definition put_bulk (pool : Z) (to_free : list Z) : M (process W) unit :=
  _ ← call_ (rte_mempool_put_bulk pool to_free (wrap 32 (Z.of_nat (length to_free))));
  release_bufs to_free.

Fixpoint mbuf_free_loop (pool : Z) (to_free mbufs : list Z) : M (process W) (list Z) :=
  match mbufs with
  | [] => mret to_free
  | mbuf :: mbufs =>
      p ← mbuf_pool mbuf;
      if pool =? p then mbuf_free_loop pool (to_free ++ [mbuf]) mbufs
      else _ ← put_bulk pool to_free; mbuf_free_loop pool [mbuf] mbufs
  end.

Definition mbuf_free_bulk (mbufs : list Z) : M (process W) unit :=
  match mbufs with
  | [] => lift (Panic AssertionFailed)
  | first :: _ =>
      pool ← mbuf_pool first;
      to_free ← mbuf_free_loop pool [] mbufs;
      put_bulk pool to_free
  end.

(** ** Errors can always be reported *)

Lemma as_str_total s : exists t, as_str (s ++ [NUL]) = Ret t.
Proof.
  assert (exists t, cstr_bytes (s ++ [NUL]) = Ret t) as [t E].
  { induction s as [|c s [t IH]]; [by exists []|]. cbn [app cstr_bytes].
    destruct (Ascii.eqb NUL c); [by exists []|]. rewrite IH. by exists (c :: t). }
  unfold as_str. rewrite E. by eexists.
Qed.

Lemma dpdk_error_new_run (s : process W) : exists e, dpdk_error_new s = Ret (e, s).
Proof.
  unfold dpdk_error_new, from_errno. cbn [Z.eqb].
  destruct (as_str_total (rte_strerror (rte_errno (ext s)) (ext s))) as [t E].
  exists (DpdkErr t). unfold ask. do 2 done_step. unfold lift. rewrite bind_ret with (a := t) (s' := s); [done|].
  by rewrite E.
Qed.

Lemma or_new_error_run n (s : process W) :
  exists r, or_new_error n s = Ret (r, s) /\ (is_ok r = true <-> 0 <= n).
Proof.
  unfold or_new_error. destruct (Z.leb_spec 0 n).
  - by exists (Ok n).
  - destruct (dpdk_error_new_run s) as [e E]. eexists. step E. split; [done|]. cbn. lia.
Qed.

(** ** What freeing in bulk does *)

(** The state after the buffers of one batch went back to [pool]. *)
Definition freed (pool : Z) (s : process W) (batch : list Z) : process W :=
  Process (rte_mempool_put_bulk pool batch (wrap 32 (Z.of_nat (length batch))) (ext s))
    (fold_left (fun m p => delete p m) batch (mem s)) (tls_mempool s) (tls_core s).

(** The runs of buffers of the first buffer's pool, each other buffer starting a new one. *)
Fixpoint batches (pool : Z) (to_free : list Z) (mbufs : list (Z * rte_mbuf)) : list (list Z) :=
  match mbufs with
  | [] => [to_free]
  | (p, b) :: mbufs =>
      if pool =? Dpdk.pool b then batches pool (to_free ++ [p]) mbufs
      else to_free :: batches pool [p] mbufs
  end.

Lemma with_raw_gets {A} p (f : rte_mbuf -> A) (s : process W) b :
  mem s !! p = Some b -> with_raw p (gets f) s = Ret (f b, s).
Proof.
  intros E. unfold with_raw. rewrite E. cbn. unfold set_mem. rewrite insert_id by done.
  by destruct s.
Qed.

Lemma put_bulk_freed pool l s : put_bulk pool l s = Ret (tt, freed pool s l).
Proof. done. Qed.

Lemma deletes_lookup {A} l (m : gmap Z A) p :
  p ∉ l -> fold_left (fun m q => delete q m) l m !! p = m !! p.
Proof.
  revert m. induction l as [|q l IH]; intros m Hp; [done|]. cbn.
  apply not_elem_of_cons in Hp as [Hq Hp]. rewrite IH by done. by rewrite lookup_delete_ne.
Qed.

Lemma batches_concat pool acc l : concat (batches pool acc l) = acc ++ map fst l.
Proof.
  revert acc. induction l as [|[p b] l IH]; intros acc; [done|]. cbn [batches map fst].
  destruct (pool =? _); cbn [concat]; rewrite IH; [|done]. by rewrite <- app_assoc.
Qed.

Lemma batches_same pool acc l :
  Forall (fun b => Dpdk.pool (snd b) = pool) l -> batches pool acc l = [acc ++ map fst l].
Proof.
  intros Hl. revert acc. induction Hl as [|[p b] l Hb _ IH]; intros acc; cbn.
  - by rewrite app_nil_r.
  - cbn in Hb. rewrite Hb, Z.eqb_refl, IH. by rewrite <- app_assoc.
Qed.

Lemma mbuf_free_loop_run pool acc l (s : process W) :
  NoDup (map fst l) -> (forall p, In p acc -> ~ In p (map fst l)) ->
  Forall (fun b => mem s !! fst b = Some (snd b)) l ->
  (to_free ← mbuf_free_loop pool acc (map fst l); put_bulk pool to_free) s
  = Ret (tt, fold_left (freed pool) (batches pool acc l) s).
Proof.
  revert acc s. induction l as [|[p b] l IH]; intros acc s Hnd Hacc Hm; [done|].
  apply Forall_cons in Hm as [Hp Hm]. cbn in Hp.
  apply NoDup_cons in Hnd as [Hpl Hnd]. rewrite list_elem_of_In in Hpl.
  cbn [map fst mbuf_free_loop batches]. rewrite bind_assoc. step (with_raw_gets p).
  destruct (pool =? Dpdk.pool b).
  - apply IH; [done| |done]. intros q [Hq| [<-|[]]]%in_app_or; [|done].
    intros H'. apply (Hacc q Hq). by right.
  - rewrite bind_assoc. step put_bulk_freed. apply (IH [p]); [done| |].
    + intros q [<-|[]]. done.
    + apply Forall_forall. intros [q c] Hq. cbn.
      rewrite deletes_lookup.
      * by apply (proj1 (Forall_forall _ _) Hm _ Hq).
      * rewrite list_elem_of_In. intros Hin. apply (Hacc q Hin). right.
        apply in_map_iff. exists (q, c). split; [done|]. by apply list_elem_of_In.
Qed.

Lemma mbuf_free_bulk_run first rest (s : process W) :
  let l := first :: rest in
  NoDup (map fst l) -> Forall (fun b => mem s !! fst b = Some (snd b)) l ->
  mbuf_free_bulk (map fst l) s
  = Ret (tt, fold_left (freed (Dpdk.pool (snd first))) (batches (Dpdk.pool (snd first)) [] l) s).
Proof.
  intros l Hnd Hm. rewrite <- mbuf_free_loop_run; [|done|intros ? []|done].
  destruct first as [p b]. unfold mbuf_free_bulk. cbn [map fst snd l].
  apply Forall_cons in Hm as [Hm _]. by step (with_raw_gets p).
Qed.

Lemma freed_mem pool bs (s : process W) :
  mem (fold_left (freed pool) bs s) = fold_left (fun m p => delete p m) (concat bs) (mem s).
Proof. revert s. induction bs as [|b bs IH]; intros s; [done|]. cbn. by rewrite IH, fold_left_app. Qed.

Lemma deletes_gone {A} l (m : gmap Z A) p :
  p ∈ l -> fold_left (fun m q => delete q m) l m !! p = None.
Proof.
  intros Hp. revert m. induction l as [|q l IH]; intros m; [by apply not_elem_of_nil in Hp|]. cbn.
  destruct (decide (p ∈ l)) as [Hl|Hl]; [by apply IH|].
  apply elem_of_cons in Hp as [->|]; [|done]. rewrite deletes_lookup by done. apply lookup_delete_eq.
Qed.

(** C39: Freeing a non-empty vector of distinct buffers returns each of them exactly once, in
    order and in consecutive batches, and every batch goes to the pool of the first buffer;
    when all the buffers are of one pool there is a single call. *)
Theorem mbuf_free_bulk_batches first rest (s : process W) :
  let l := first :: rest in
  NoDup (map fst l) -> Forall (fun b => mem s !! fst b = Some (snd b)) l ->
  exists bs,
    concat bs = map fst l
    /\ mbuf_free_bulk (map fst l) s
       = Ret (tt, fold_left (freed (Dpdk.pool (snd first))) bs s)
    /\ (Forall (fun b => Dpdk.pool (snd b) = Dpdk.pool (snd first)) l -> bs = [map fst l]).
Proof.
  intros l Hnd Hm. exists (batches (Dpdk.pool (snd first)) [] l).
  split; [by rewrite batches_concat|]. split; [|by apply batches_same].
  by apply mbuf_free_bulk_run.
Qed.

End dpdk.

(** Three buffers, the last of another pool: two calls, both to the first buffer's pool. *)
Lemma mbuf_free_bulk_batches_witness :
  let l := [(8192, sim_mbuf 16 512 [1]); (8256, sim_mbuf 16 512 [2]); (8320, sim_mbuf 16 768 [3])] in
  exists bs, concat bs = [8192; 8256; 8320]
    /\ mbuf_free_bulk [8192; 8256; 8320] (sim_process sim_empty l)
       = Ret (tt, fold_left (freed 512) bs (sim_process sim_empty l)).
Proof.
  intros l.
  destruct (mbuf_free_bulk_batches (8192, sim_mbuf 16 512 [1]) (tail l) (sim_process sim_empty l))
    as (bs & Hc & Hr & _).
  - apply (bool_decide_unpack _). by vm_compute.
  - repeat apply Forall_cons_2; [reflexivity..|apply Forall_nil_2].
  - exists bs. split; [exact Hc|exact Hr].
Defined.
