(* ===== verification/Mbuf.v ===== *)
(** * Message buffers ([dpdk/mbuf.rs])

    The operations on the data of a buffer work on its [rte_mbuf] (Section [raw]); an
    [Mbuf] is a handle that owns or borrows one, and allocating, dropping and converting
    handles works on the process (Section [handle]). A pointer into a buffer is an offset
    from its [buf_addr]; memory outside the buffer is undefined behaviour, and so is writing a
    value, or taking a slice of values, where the alignment of their type does not allow it. *)

From S2P Require Import Prelude RustStr IpAddr Ffi Dpdk DpdkSim DpdkCore.

Abbreviation len l := (Z.of_nat (List.length l)).

(** [trait SizeOf], with the alignment of the type and the bytes a value of it has in memory *)
Class SizeOf (T : Type) := {
  size_of : Z;
  align_of : Z;
  memory_of : T -> list Z;
}.

(** What the derive and the instances keep: [size_of] is the size of the type. *)
Class SizeOfLaws (T : Type) `{SizeOf T} := {
  size_of_memory : forall x : T, len (memory_of x) = size_of;
  memory_bytes : forall x : T, Forall (fun b => 0 <= b < 256) (memory_of x);
}.

(** A [u8], and arrays of them *)
Record u8 := U8 { u8_value : Z }.
Record u8_2 := U8_2 { u8_2_value : Z * Z }.
Record u8_16 := U8_16 { u8_16_value : list Z }.

#[global] Instance SizeOf_unit : SizeOf unit := {| size_of := 0; align_of := 1; memory_of _ := [] |}.
#[global] Instance SizeOf_u8 : SizeOf u8 := {| size_of := 1; align_of := 1; memory_of x := [u8_value x] |}.
#[global] Instance SizeOf_u8_2 : SizeOf u8_2 :=
  {| size_of := 2; align_of := 1; memory_of x := [fst (u8_2_value x); snd (u8_2_value x)] |}.
#[global] Instance SizeOf_u8_16 : SizeOf u8_16 :=
  {| size_of := 16; align_of := 1; memory_of x := u8_16_value x |}.
(** The standard library keeps the address as its octets (since Rust 1.64). *)
#[global] Instance SizeOf_Ipv6Addr : SizeOf Ipv6Addr :=
  {| size_of := 16; align_of := 1;
     memory_of x := concat (map (fun s => [s / 256; s `mod` 256]) (v6_segments x)) |}.

Module Mbuf.

(** ** Memory *)

Definition sub (i n : Z) (l : list Z) : list Z := take (Z.to_nat n) (drop (Z.to_nat i) l).

Definition splice (i : Z) (xs l : list Z) : list Z :=
  take (Z.to_nat i) l ++ xs ++ drop (Z.to_nat i + List.length xs) l.

Definition inside (b : rte_mbuf) (i n : Z) : bool :=
  (0 <=? i) && (0 <=? n) && (i + n <=? len (buf b)).

Definition set_buf (l : list Z) (b : rte_mbuf) : rte_mbuf :=
  Build_rte_mbuf (buf_addr b) l (data_off b) (buf_len b) (Dpdk.data_len b) (pkt_len b) (pool b).

Definition set_lens (dl pl : Z) (b : rte_mbuf) : rte_mbuf :=
  Build_rte_mbuf (buf_addr b) (buf b) (data_off b) (buf_len b) dl pl (pool b).

(** [ptr::copy] within the buffer *)
Definition copy (src dst n : Z) : M rte_mbuf unit := fun b =>
  if inside b src n && inside b dst n
  then Ret (tt, set_buf (splice dst (sub src n (buf b)) (buf b)) b) else Undefined.

(** Whether a pointer into the buffer may point to values of this alignment *)
Definition aligned (b : rte_mbuf) (i align : Z) : bool := (buf_addr b + i) mod align =? 0.

(** [ptr::copy_nonoverlapping] from memory outside the buffer, to a pointer to a type of the
    alignment given *)
Definition store (dst align : Z) (bytes : list Z) : M rte_mbuf unit := fun b =>
  if inside b dst (len bytes) && aligned b dst align
  then Ret (tt, set_buf (splice dst bytes (buf b)) b) else Undefined.

(** Reading [n] bytes through a pointer into the buffer *)
Definition load (ptr n : Z) : M rte_mbuf (list Z) := fun b =>
  if inside b ptr n then Ret (sub ptr n (buf b), b) else Undefined.

Section raw.
Context `{Profile}.

(** ** The data of a buffer *)

Definition data_len : M rte_mbuf Z := gets Dpdk.data_len.

(** Pointer arithmetic has to stay in the buffer, or one past its end. *)
Definition data_address (offset : Z) : M rte_mbuf Z :=
  b ← get;
  i ← lift (sadd 64 (data_off b) (swrap 64 offset));
  if inside b i 0 then mret i else lift Undefined.

Definition tailroom : M rte_mbuf Z :=
  b ← get;
  r ← lift (usub 16 (buf_len b) (data_off b));
  lift (usub 16 r (Dpdk.data_len b)).

Definition not_resized {A} : M rte_mbuf (Fallible A) := mret (Err (EBuffer NotResized)).

(** [self.raw_mut().data_len += len as u16; self.raw_mut().pkt_len += len as u32] *)
Definition grow (n : Z) : M rte_mbuf unit :=
  b ← get;
  dl ← lift (uadd 16 (Dpdk.data_len b) (wrap 16 n));
  pl ← lift (uadd 32 (pkt_len b) (wrap 32 n));
  modify (set_lens dl pl).

Definition reduce (n : Z) : M rte_mbuf unit :=
  b ← get;
  dl ← lift (usub 16 (Dpdk.data_len b) (wrap 16 n));
  pl ← lift (usub 32 (pkt_len b) (wrap 32 n));
  modify (set_lens dl pl).

Definition extend (offset n : Z) : M rte_mbuf (Fallible unit) :=
  if negb (0 <? n) then not_resized else
  dl ← data_len;
  if negb (offset <=? dl) then not_resized else
  room ← tailroom;
  if negb (n <? room) then not_resized else
  to_copy ← lift (usub USIZE_BITS dl offset);
  _ ← (if 0 <? to_copy then
         src ← data_address offset;
         o ← lift (uadd USIZE_BITS offset n);
         dst ← data_address o;
         copy src dst to_copy
       else mret tt);
  _ ← grow n;
  mret (Ok tt).

Definition shrink (offset n : Z) : M rte_mbuf (Fallible unit) :=
  if negb (0 <? n) then not_resized else
  o ← lift (uadd USIZE_BITS offset n);
  dl ← data_len;
  if negb (o <=? dl) then not_resized else
  r ← lift (usub USIZE_BITS dl offset);
  to_copy ← lift (usub USIZE_BITS r n);
  _ ← (if 0 <? to_copy then
         o ← lift (uadd USIZE_BITS offset n);
         src ← data_address o;
         dst ← data_address offset;
         copy src dst to_copy
       else mret tt);
  _ ← reduce n;
  mret (Ok tt).

Definition resize (offset n : Z) : M rte_mbuf (Fallible unit) :=
  if n <? 0 then
    m ← lift (sneg 64 n); shrink offset (wrap USIZE_BITS m)
  else extend offset (wrap USIZE_BITS n).

Definition truncate (to_len : Z) : M rte_mbuf (Fallible unit) :=
  dl ← data_len;
  if negb (to_len <? dl) then not_resized else
  _ ← modify (set_lens (wrap 16 to_len) (wrap 32 to_len));
  mret (Ok tt).

(** [BufferError::OutOfBuffer(size, self.data_len() - offset)] *)
Definition out_of_buffer {A} (size offset : Z) : M rte_mbuf (Fallible A) :=
  dl ← data_len;
  remaining ← lift (usub USIZE_BITS dl offset);
  mret (Err (EBuffer (OutOfBuffer size remaining))).

(** The check of [offset + size <= self.data_len()] *)
Definition read_at (offset size : Z) : M rte_mbuf (Fallible Z) :=
  dl ← data_len;
  o ← lift (uadd USIZE_BITS offset size);
  if negb (o <=? dl) then out_of_buffer size offset else
  item ← data_address offset;
  mret (Ok item).

Definition write_at (offset size align : Z) (bytes : list Z) : M rte_mbuf (Fallible unit) :=
  o ← lift (uadd USIZE_BITS offset size);
  dl ← data_len;
  if negb (o <=? dl) then out_of_buffer size offset else
  dst ← data_address offset;
  _ ← store dst align bytes;
  mret (Ok tt).

Definition read_data (T : Type) `{SizeOf T} (offset : Z) : M rte_mbuf (Fallible Z) :=
  dl ← data_len;
  if negb (offset <? dl) then mret (Err (EBuffer (BadOffset offset dl))) else
  read_at offset (@size_of T _).

Definition write_data {T : Type} `{SizeOf T} (offset : Z) (item : T) : M rte_mbuf (Fallible Z) :=
  _ ←? write_at offset (@size_of T _) (@align_of T _) (memory_of item);
  read_data T offset.

(** [slice::from_raw_parts_mut]: all elements are in the buffer, and aligned. A slice pointer is
    the offset of its first element and the number of elements. *)
Definition raw_slice (T : Type) `{SizeOf T} (item0 count : Z) : M rte_mbuf (Z * Z) := fun b =>
  if inside b item0 (@size_of T _ * count) && aligned b item0 (@align_of T _)
  then Ret ((item0, count), b) else Undefined.

Definition read_data_slice (T : Type) `{SizeOf T} (offset count : Z)
    : M rte_mbuf (Fallible (Z * Z)) :=
  dl ← data_len;
  if negb (offset <? dl) then mret (Err (EBuffer (BadOffset offset dl))) else
  size ← lift (umul USIZE_BITS (@size_of T _) count);
  item0 ←? read_at offset size;
  slice ← raw_slice T item0 count;
  mret (Ok slice).

Definition write_data_slice {T : Type} `{SizeOf T} (offset : Z) (slice : list T)
    : M rte_mbuf (Fallible (Z * Z)) :=
  let count := len slice in
  size ← lift (umul USIZE_BITS (@size_of T _) count);
  _ ←? write_at offset size (@align_of T _) (concat (map memory_of slice));
  read_data_slice T offset count.

End raw.

(** ** Handles *)

Inductive MbufInner :=
  | Original (raw : Z)
  | Clone (raw : Z).

Record Mbuf := { inner : MbufInner }.

Definition inner_ptr (m : MbufInner) : Z :=
  match m with Original raw => raw | Clone raw => raw end.

Section handle.
Context `{Profile} {W : Type} `{!Dpdk W}.

(** A method of the handle that works on the raw buffer *)
Definition on {A} (m : Mbuf) (f : M rte_mbuf A) : M (process W) A := with_raw (inner_ptr (inner m)) f.

Definition raw (m : Mbuf) : M (process W) rte_mbuf := on m get.

(** [impl fmt::Debug for Mbuf] *)
Definition fmt (m : Mbuf) : M (process W) rstr :=
  b ← raw m;
  mret (debug_struct (str "mbuf@" ++ fmt_prefixed_hex (buf_addr b))
          [("buf_len"%string, fmt_dec (buf_len b)); ("pkt_len"%string, fmt_dec (pkt_len b));
           ("data_len"%string, fmt_dec (Dpdk.data_len b)); ("data_off"%string, fmt_dec (data_off b))]).

Definition get_ptr (m : Mbuf) : Z := inner_ptr (inner m).

Definition from_ptr (ptr : Z) : Mbuf := {| inner := Original ptr |}.

Definition into_ptr (m : Mbuf) : Z := inner_ptr (inner m).

(** [impl Drop for Mbuf] *)
Definition drop (m : Mbuf) : M (process W) unit :=
  match inner m with
  | Original p =>
      _ ← raw m;
      _ ← call_ (rte_pktmbuf_free p);
      release_bufs [p]
  | Clone _ => mret tt
  end.

(** A vector of buffers going out of scope *)
Fixpoint drop_all (ms : list Mbuf) : M (process W) unit :=
  match ms with
  | [] => mret tt
  | m :: ms => _ ← drop m; drop_all ms
  end.

Definition mempool : M (process W) Z := gets tls_mempool.

Definition new : M (process W) (Fallible Mbuf) :=
  mp ← mempool;
  raw ← call (fun w => let '(p, b, w) := rte_pktmbuf_alloc mp w in ((p, b), w));
  match ptr_to_result (fst raw) (fun _ => EMempool Exhausted) with
  | Err e => mret (Err e)
  | Ok p => _ ← acquire [raw]; mret (Ok {| inner := Original p |})
  end.

(** [m] goes out of scope when the function returns early. *)
Definition dropping {A B} (m : Mbuf) (f : M (process W) (Fallible A))
    (k : A -> M (process W) (Fallible B)) : M (process W) (Fallible B) :=
  r ← f;
  match r with
  | Err e => _ ← drop m; mret (Err e)
  | Ok a => k a
  end.

Definition from_bytes (data : list Z) : M (process W) (Fallible Mbuf) :=
  mbuf ←? new;
  dropping mbuf (on mbuf (extend 0 (len data))) (fun _ =>
  dropping mbuf (on mbuf (write_data_slice 0 (map U8 data))) (fun _ =>
  mret (Ok mbuf))).

Definition alloc_bulk (n : Z) : M (process W) (Fallible (list Mbuf)) :=
  mp ← mempool;
  r ← call (fun w => let '(res, ptrs, w) := rte_pktmbuf_alloc_bulk mp (wrap 32 n) w in ((res, ptrs), w));
  _ ←? or_errno (fst r);
  if len (snd r) =? n then
    _ ← acquire (snd r);
    mret (Ok (map from_ptr (map fst (snd r))))
  else lift Undefined.

Definition free_bulk (mbufs : list Mbuf) : M (process W) unit :=
  mbuf_free_bulk (map into_ptr mbufs).

End handle.

(** ** Layout

    A well-formed buffer is headroom, data and tailroom, in one segment. *)

Record layout (b : rte_mbuf) (head data tail : list Z) : Prop := {
  lay_buf : buf b = head ++ data ++ tail;
  lay_off : data_off b = len head;
  lay_len : Dpdk.data_len b = len data;
  lay_buf_len : buf_len b = len (buf b);
  lay_pkt : pkt_len b = Dpdk.data_len b;
  lay_max : buf_len b < 2 ^ 16;
  lay_bytes : Forall (fun x => 0 <= x < 256) (buf b);
}.

Definition wf (b : rte_mbuf) : Prop := exists head data tail, layout b head data tail.

(** The packet in the buffer *)
Definition data (b : rte_mbuf) : list Z := sub (data_off b) (Dpdk.data_len b) (buf b).

Lemma sub_app a b c : sub (len a) (len b) (a ++ b ++ c) = b.
Proof. unfold sub. by rewrite !Nat2Z.id, drop_app_length, take_app_length. Qed.

Lemma splice_app a b c xs : length xs = length b -> splice (len a) xs (a ++ b ++ c) = a ++ xs ++ c.
Proof.
  intros E. unfold splice. rewrite Nat2Z.id, take_app_length. do 2 f_equal.
  by rewrite <- drop_drop, drop_app_length, E, drop_app_length.
Qed.

Lemma layout_data b h d t : layout b h d t -> data b = d.
Proof. intros []. unfold data. rewrite lay_buf0, lay_off0, lay_len0. apply sub_app. Qed.

Lemma layout_fits b h d t : layout b h d t -> len h + len d + len t = buf_len b /\ buf_len b < 65536.
Proof. intros []. pow2_consts. rewrite lay_buf0, !length_app in lay_buf_len0. lia. Qed.

Lemma wf_layout b : wf b -> exists h t, layout b h (data b) t.
Proof. intros (h & d & t & L). exists h, t. by rewrite (layout_data _ _ _ _ L). Qed.

(** Splitting the data at an offset *)
Lemma split_at (d : list Z) o : 0 <= o <= len d -> exists d1 d2, d = d1 ++ d2 /\ len d1 = o.
Proof.
  intros. exists (take (Z.to_nat o) d), (skipn (Z.to_nat o) d).
  rewrite take_drop, length_take. split; [done|lia].
Qed.

Lemma inside_true b i n : 0 <= i -> 0 <= n -> i + n <= len (buf b) -> inside b i n = true.
Proof. intros. unfold inside. lia. Qed.

Section raw_lemmas.
Context `{Profile}.

Lemma data_address_run b h d t o :
  layout b h d t -> 0 <= o <= len d + len t -> data_address o b = Ret (len h + o, b).
Proof.
  intros L Ho. pose proof (layout_fits _ _ _ _ L). destruct L.
  unfold data_address. run. unfold sadd.
  rewrite swrap_small, sarith_fits by (pow2_consts; lia). rewrite lay_off0. cbn.
  by rewrite inside_true by lia.
Qed.

Lemma tailroom_run b h d t : layout b h d t -> tailroom b = Ret (len t, b).
Proof.
  intros L. pose proof (layout_fits _ _ _ _ L). destruct L. unfold tailroom. run. unfold usub.
  fit. fit. do 2 f_equal. lia.
Qed.

Lemma copy_run b (p q r x y z : list Z) :
  buf b = p ++ q ++ r -> buf b = x ++ y ++ z -> length q = length y ->
  copy (len p) (len x) (len q) b = Ret (tt, set_buf (x ++ q ++ z) b).
Proof.
  intros E1 E2 El. unfold copy.
  assert (len (buf b) = len p + len q + len r) by (rewrite E1, !length_app; lia).
  assert (len (buf b) = len x + len y + len z) by (rewrite E2, !length_app; lia).
  rewrite !inside_true by lia. cbn [andb]. do 3 f_equal.
  rewrite E1, sub_app, <- E1, E2. by rewrite splice_app.
Qed.

Lemma aligned_1 b i : aligned b i 1 = true.
Proof. unfold aligned. by rewrite Z.mod_1_r. Qed.

Lemma store_run b (x y z bs : list Z) a :
  buf b = x ++ y ++ z -> length bs = length y -> aligned b (len x) a = true ->
  store (len x) a bs b = Ret (tt, set_buf (x ++ bs ++ z) b).
Proof.
  intros E El Ha. unfold store. rewrite Ha.
  assert (len (buf b) = len x + len y + len z) by (rewrite E, !length_app; lia).
  rewrite !inside_true by lia. cbn [andb]. do 3 f_equal. by rewrite E, splice_app.
Qed.

Lemma grow_run b n : 0 <= Dpdk.data_len b -> 0 <= pkt_len b -> 0 <= n ->
  Dpdk.data_len b + n < 2 ^ 16 -> pkt_len b + n < 2 ^ 32 ->
  grow n b = Ret (tt, set_lens (Dpdk.data_len b + n) (pkt_len b + n) b).
Proof.
  intros. unfold grow. run. unfold uadd. rewrite !wrap_small by (pow2_consts; lia).
  fit. by fit.
Qed.

Lemma reduce_run b n : 0 <= n <= Dpdk.data_len b -> pkt_len b = Dpdk.data_len b ->
  Dpdk.data_len b < 2 ^ 16 ->
  reduce n b = Ret (tt, set_lens (Dpdk.data_len b - n) (pkt_len b - n) b).
Proof.
  intros. unfold reduce. run. unfold usub. rewrite !wrap_small by (pow2_consts; lia).
  fit. by fit.
Qed.

Lemma layout_same b h d t d' t' l :
  layout b h d t -> l = h ++ d' ++ t' -> length l = length (buf b) ->
  Forall (fun x => 0 <= x < 256) l ->
  layout (set_lens (len d') (len d') (set_buf l b)) h d' t'.
Proof. intros [] -> El Hb. split; cbn; try done. by rewrite El. Qed.

Ltac lengths :=
  repeat match goal with H : ?l = _ |- context [length ?l] => is_var l; rewrite H end;
  rewrite ?length_app, ?length_take, ?length_drop in *; cbn [List.length] in *; lia.

(** Making room of [n] bytes between the two halves of the data *)
Lemma extend_run b h d1 d2 t n :
  layout b h (d1 ++ d2) t -> 0 < n < len t ->
  exists gap t' b',
    extend (len d1) n b = Ret (Ok tt, b') /\ len gap = n /\ layout b' h (d1 ++ gap ++ d2) t'.
Proof.
  intros L Hn. pose proof (layout_fits _ _ _ _ L) as [Hf Hm].
  destruct (split_at (d2 ++ t) n) as (gap & rest & Eg & Hg); [lengths|].
  assert (Hr : len gap + len rest = len d2 + len t) by (rewrite <- !Nat2Z.inj_add, <- !length_app; by rewrite Eg).
  destruct (split_at rest (len d2)) as (y & z & -> & Hy); [lia|].
  exists gap, z. eexists. split; [|split; [done|]].
  2: { refine (layout_same _ _ _ _ (d1 ++ gap ++ d2) z (h ++ d1 ++ gap ++ d2 ++ z) L _ _ _).
       - by rewrite <- !app_assoc.
       - destruct L. rewrite lay_buf0, <- !app_assoc, Eg. lengths.
       - pose proof (lay_bytes _ _ _ _ L) as Hb. destruct L.
         rewrite lay_buf0, <- !app_assoc, Eg, !Forall_app in Hb.
         rewrite lay_buf0, <- !app_assoc, !Forall_app in lay_bytes0. rewrite !Forall_app. tauto. }
  assert (Hl : len (d1 ++ d2) = len d1 + len d2) by lengths. rewrite Hl in *.
  unfold extend, data_len. rewrite (proj2 (Z.ltb_lt 0 n)) by lia. cbn [negb]. done_step.
  rewrite (lay_len _ _ _ _ L), Hl, (proj2 (Z.leb_le _ _)) by lia. cbn [negb].
  step tailroom_run. rewrite (proj2 (Z.ltb_lt n _)) by lia. cbn [negb].
  unfold USIZE_BITS in *. calc. rewrite Z.add_simpl_l.
  erewrite (bind_ret _ _ _ tt (set_buf (h ++ d1 ++ gap ++ d2 ++ z) b)); [|destruct (0 <? len d2) eqn:E].
  - destruct L. erewrite bind_ret by (apply grow_run; cbn; pow2_consts; lia).
    unfold mret, M_ret. do 2 f_equal. unfold set_lens, set_buf. cbn. f_equal; lengths.
  - step data_address_run. calc. step data_address_run.
    pose proof (lay_buf _ _ _ _ L) as Eb.
    pose proof (copy_run b (h ++ d1) d2 t (h ++ d1 ++ gap) y z) as Hc.
    rewrite !length_app, !Nat2Z.inj_add, Hg in Hc. rewrite Hc; [|..|lia].
    + by rewrite <- !app_assoc.
    + by rewrite Eb, <- !app_assoc.
    + by rewrite Eb, <- !app_assoc, Eg.
  - destruct d2; [|discriminate E]. destruct y; [|discriminate Hy]. cbn [app] in *.
    unfold mret, M_ret. do 2 f_equal. destruct b, L; cbn in *. unfold set_buf; cbn. subst.
    by rewrite app_nil_r.
Qed.

Lemma set_buf_same b l : buf b = l -> set_buf l b = b.
Proof. destruct b. cbn. by intros ->. Qed.

(** Removing bytes from the middle of the data *)
Lemma shrink_run b h d1 x d2 t :
  layout b h (d1 ++ x ++ d2) t -> 0 < len x ->
  exists t' b',
    shrink (len d1) (len x) b = Ret (Ok tt, b') /\ layout b' h (d1 ++ d2) t'.
Proof.
  intros L Hn. pose proof (layout_fits _ _ _ _ L) as [Hf Hm].
  destruct (split_at (x ++ d2 ++ t) (len d2)) as (y & z & Ey & Hy); [lengths|].
  exists z. eexists. split.
  2: { refine (layout_same _ _ _ _ (d1 ++ d2) z (h ++ d1 ++ d2 ++ z) L _ _ _).
       - by rewrite <- !app_assoc.
       - destruct L. rewrite lay_buf0, <- !app_assoc, Ey. lengths.
       - pose proof (lay_bytes _ _ _ _ L) as Hb. destruct L.
         rewrite lay_buf0, <- !app_assoc, Ey, !Forall_app in Hb.
         rewrite lay_buf0, <- !app_assoc, !Forall_app in lay_bytes0. rewrite !Forall_app. tauto. }
  assert (Hl : len (d1 ++ x ++ d2) = len d1 + len x + len d2) by lengths. rewrite Hl in *.
  unfold shrink, data_len, USIZE_BITS. rewrite (proj2 (Z.ltb_lt 0 _)) by lia. cbn [negb].
  calc. done_step. rewrite (lay_len _ _ _ _ L), Hl, (proj2 (Z.leb_le _ _)) by lia. cbn [negb].
  calc. calc. replace (len d1 + len x + len d2 - len d1 - len x) with (len d2) by lia.
  erewrite (bind_ret _ _ _ tt (set_buf (h ++ d1 ++ d2 ++ z) b)); [|destruct (0 <? len d2) eqn:E].
  - destruct L. erewrite bind_ret by (apply reduce_run; cbn; pow2_consts; lia).
    unfold mret, M_ret. do 2 f_equal. unfold set_lens, set_buf. cbn. f_equal; lengths.
  - calc. step data_address_run. step data_address_run.
    pose proof (lay_buf _ _ _ _ L) as Eb.
    pose proof (copy_run b (h ++ d1 ++ x) d2 t (h ++ d1) y z) as Hc.
    rewrite !length_app, !Nat2Z.inj_add in Hc. rewrite Hc; [|..|lia].
    + by rewrite <- !app_assoc.
    + by rewrite Eb, <- !app_assoc.
    + by rewrite Eb, <- !app_assoc, Ey.
  - destruct d2; [|discriminate E]. destruct y; [|discriminate Hy].
    rewrite set_buf_same; [done|]. rewrite (lay_buf _ _ _ _ L), <- !app_assoc.
    do 2 f_equal. exact Ey.
Qed.

(** Overwriting bytes of the data *)
Lemma write_at_run b h d1 x d2 t bs a :
  layout b h (d1 ++ x ++ d2) t -> length bs = length x -> Forall (fun x => 0 <= x < 256) bs ->
  aligned b (len h + len d1) a = true ->
  write_at (len d1) (len x) a bs b = Ret (Ok tt, set_buf (h ++ d1 ++ bs ++ d2 ++ t) b)
  /\ layout (set_buf (h ++ d1 ++ bs ++ d2 ++ t) b) h (d1 ++ bs ++ d2) t.
Proof.
  intros L El Hbs Ha. pose proof (layout_fits _ _ _ _ L) as [Hf Hm].
  assert (Hl : len (d1 ++ x ++ d2) = len d1 + len x + len d2) by lengths. rewrite Hl in *.
  pose proof (lay_buf _ _ _ _ L) as Eb. rewrite <- !app_assoc in Eb. split.
  - unfold write_at, data_len, USIZE_BITS. calc. done_step.
    rewrite (lay_len _ _ _ _ L), Hl, (proj2 (Z.leb_le _ _)) by lia. cbn [negb].
    step data_address_run. pose proof (store_run b (h ++ d1) x (d2 ++ t) bs a) as Hs.
    rewrite length_app, Nat2Z.inj_add, <- !app_assoc in Hs. by step Hs.
  - destruct L. split; cbn; try done.
    + by rewrite <- !app_assoc.
    + rewrite lay_len0. lengths.
    + rewrite lay_buf_len0, Eb. lengths.
    + rewrite Eb in lay_bytes0. rewrite !Forall_app in *. tauto.
Qed.

Lemma read_at_run b h d1 x d2 t :
  layout b h (d1 ++ x ++ d2) t -> read_at (len d1) (len x) b = Ret (Ok (len h + len d1), b).
Proof.
  intros L. pose proof (layout_fits _ _ _ _ L) as [Hf Hm].
  assert (Hl : len (d1 ++ x ++ d2) = len d1 + len x + len d2) by lengths. rewrite Hl in *.
  unfold read_at, data_len, USIZE_BITS. done_step. calc.
  rewrite (lay_len _ _ _ _ L), Hl, (proj2 (Z.leb_le _ _)) by lia. cbn [negb].
  by step data_address_run.
Qed.

Lemma extend_refused b o n :
  wf b -> 0 <= o -> (n <= 0 \/ len (data b) < o \/ buf_len b - data_off b - Dpdk.data_len b <= n) ->
  extend o n b = Ret (Err (EBuffer NotResized), b).
Proof.
  intros [h [t L]]%wf_layout Ho Hn. pose proof (layout_fits _ _ _ _ L) as [Hf Hm].
  unfold extend, data_len. destruct (Z.ltb_spec 0 n); [|done]. cbn [negb]. done_step.
  rewrite (lay_len _ _ _ _ L) in *. rewrite (lay_off _ _ _ _ L) in *.
  destruct (Z.leb_spec o (len (data b))); [|done]. cbn [negb].
  step tailroom_run. by rewrite (proj2 (Z.ltb_ge n _)) by lia.
Qed.

Lemma shrink_refused b o n :
  wf b -> 0 <= o -> (n <= 0 \/ len (data b) < o + n) -> o + n < 2 ^ 64 ->
  shrink o n b = Ret (Err (EBuffer NotResized), b).
Proof.
  intros [h [t L]]%wf_layout Ho Hn Hw. unfold shrink, data_len, USIZE_BITS.
  destruct (Z.ltb_spec 0 n); [|done]. cbn [negb]. calc. done_step.
  by rewrite (lay_len _ _ _ _ L), (proj2 (Z.leb_gt _ _)) by lia.
Qed.

Lemma split3 b o n : wf b -> 0 <= o -> 0 <= n -> o + n <= len (data b) ->
  exists h d1 x d2 t, layout b h (d1 ++ x ++ d2) t /\ data b = d1 ++ x ++ d2 /\ o = len d1 /\ n = len x.
Proof.
  intros [h [t L]]%wf_layout Ho Hn Hle.
  destruct (split_at (data b) o) as (d1 & r & E & Hd1); [lia|].
  destruct (split_at r n) as (x & d2 & -> & Hx); [rewrite E in *; lengths|].
  exists h, d1, x, d2, t. by rewrite E in *.
Qed.

(** C10: For every well-formed buffer and every offset and length, [extend] either opens a gap
    of exactly that length at the offset, keeping every byte of the packet in order on both
    sides, or, when the length is zero, the offset is past the data or fewer than [len + 1]
    bytes are left, answers [NotResized] and changes nothing; arithmetic never overflows and
    memory outside the buffer is never touched. *)
Theorem extend_spec b offset n :
  wf b -> 0 <= offset -> 0 <= n ->
  if (0 <? n) && (offset <=? len (data b))
     && (n <? buf_len b - data_off b - Dpdk.data_len b)
  then exists gap b',
    extend offset n b = Ret (Ok tt, b') /\ wf b' /\ len gap = n
    /\ data b' = take (Z.to_nat offset) (data b) ++ gap ++ skipn (Z.to_nat offset) (data b)
  else extend offset n b = Ret (Err (EBuffer NotResized), b).
Proof.
  intros Hwf Ho Hn. destruct (_ && _ && _) eqn:E.
  - destruct (split3 b offset 0 Hwf) as (h & d1 & x & d2 & t & L & Ed & -> & Hx); try lia.
    destruct x; [|discriminate Hx]. cbn [app] in *.
    pose proof (layout_fits _ _ _ _ L). rewrite (lay_len _ _ _ _ L), (lay_off _ _ _ _ L) in E.
    destruct (extend_run b h d1 d2 t n L) as (gap & t' & b' & Hr & Hg & L'); [lia|].
    exists gap, b'. rewrite Nat2Z.id, Ed, take_app_length, drop_app_length.
    split_and!; [done|by eexists _, _, _|done|exact (layout_data _ _ _ _ L')].
  - apply extend_refused; [done..|].
    pose proof Hwf as [h [t L]]%wf_layout. pose proof (lay_len _ _ _ _ L). lia.
Qed.

(** C11: For every well-formed buffer, when [offset + len] does not overflow, [shrink] removes
    exactly [len] bytes at the offset and keeps the rest in order, or, when the length is zero
    or the range is not inside the data, answers [NotResized] and changes nothing. *)
Theorem shrink_spec b offset n :
  wf b -> 0 <= offset -> 0 <= n -> offset + n < 2 ^ 64 ->
  if (0 <? n) && (offset + n <=? len (data b))
  then exists b',
    shrink offset n b = Ret (Ok tt, b') /\ wf b'
    /\ data b' = take (Z.to_nat offset) (data b) ++ skipn (Z.to_nat (offset + n)) (data b)
  else shrink offset n b = Ret (Err (EBuffer NotResized), b).
Proof.
  intros Hwf Ho Hn Hw. destruct (_ && _) eqn:E.
  - destruct (split3 b offset n Hwf) as (h & d1 & x & d2 & t & L & Ed & -> & ->); [lia..|].
    destruct (shrink_run b h d1 x d2 t L) as (t' & b' & Hr & L'); [lia|].
    exists b'. split_and!; [done|by eexists _, _, _|]. rewrite (layout_data _ _ _ _ L').
    rewrite Ed, <- Nat2Z.inj_add, !Nat2Z.id, take_app_length, <- length_app, app_assoc.
    by rewrite drop_app_length.
  - apply shrink_refused; [done..|lia|done].
Qed.

(** [shrink] undoes [extend]: removing the bytes a successful [extend] made room for
    succeeds and gives the packet back. *)
Theorem extend_shrink b b1 offset n :
  wf b -> 0 <= offset -> 0 <= n -> extend offset n b = Ret (Ok tt, b1) ->
  exists b2, shrink offset n b1 = Ret (Ok tt, b2) /\ wf b2 /\ data b2 = data b.
Proof.
  intros Hwf Ho Hn E. destruct (decide (n <= 0 \/ len (data b) < offset
    \/ buf_len b - data_off b - Dpdk.data_len b <= n)) as [Hr|Hr].
  { by rewrite extend_refused in E. }
  destruct (split3 b offset 0 Hwf) as (h & d1 & x & d2 & t & L & Ed & -> & Hx); try lia.
  destruct x; [|discriminate Hx]. cbn [app] in *. pose proof (layout_fits _ _ _ _ L).
  rewrite (lay_len _ _ _ _ L), (lay_off _ _ _ _ L) in Hr.
  destruct (extend_run b h d1 d2 t n L) as (gap & t1 & b' & Hrun & <- & L1); [lia|].
  rewrite Hrun in E. injection E as <-.
  destruct (shrink_run b' h d1 gap d2 t1 L1) as (t2 & b2 & Hs & L2); [lia|].
  exists b2. split_and!; [done|by eexists _, _, _|].
  by rewrite (layout_data _ _ _ _ L2).
Qed.

(** Writing a value inside the data stores its bytes at the offset and nothing else, and
    the pointer returned reads them back. *)
Theorem write_data_read {T} `{SizeOfLaws T} b offset (item : T) :
  wf b -> 0 <= offset -> 0 < @size_of T _ -> offset + @size_of T _ <= len (data b) ->
  aligned b (data_off b + offset) (@align_of T _) = true ->
  exists ptr b',
    write_data offset item b = Ret (Ok ptr, b') /\ wf b'
    /\ load ptr (@size_of T _) b' = Ret (memory_of item, b')
    /\ data b' = take (Z.to_nat offset) (data b) ++ memory_of item
                 ++ skipn (Z.to_nat (offset + @size_of T _)) (data b)
    /\ read_data T offset b' = Ret (Ok ptr, b').
Proof.
  intros Hwf Ho Hs Hle Ha. pose proof (size_of_memory item) as Em.
  destruct (split3 b offset (@size_of T _) Hwf) as (h & d1 & x & d2 & t & L & Ed & -> & Ex); [lia..|].
  rewrite (lay_off _ _ _ _ L) in Ha.
  destruct (write_at_run b h d1 x d2 t (memory_of item) (@align_of T _) L) as [Hw L'];
    [lia|apply memory_bytes|done|].
  set (b' := set_buf _ b) in *. exists (len h + len d1), b'.
  assert (Hr : read_data T (len d1) b' = Ret (Ok (len h + len d1), b')).
  { unfold read_data, data_len. done_step. rewrite (lay_len _ _ _ _ L').
    rewrite (proj2 (Z.ltb_lt _ _)) by lengths. cbn [negb].
    rewrite <- Em. by eapply read_at_run. }
  split_and!; [|by eexists _, _, _| | |done].
  - unfold write_data, try_bind, monad_try_bind. rewrite Ex. by step Hw.
  - unfold load. pose proof (lay_buf _ _ _ _ L') as Eb. rewrite <- !app_assoc in Eb.
    rewrite inside_true; [|rewrite ?Eb; lengths..]. do 2 f_equal.
    rewrite Eb, <- Em, <- Nat2Z.inj_add, <- length_app, app_assoc. apply sub_app.
  - rewrite (layout_data _ _ _ _ L'), Ed, Ex, <- Nat2Z.inj_add, !Nat2Z.id, take_app_length.
    by rewrite <- length_app, (app_assoc d1 x), drop_app_length.
Qed.

(** ** Any sequence of calls on a buffer *)

Inductive operation :=
  | Extend (offset n : Z)
  | Shrink (offset n : Z)
  | Resize (offset n : Z)
  | Truncate (to_len : Z)
  | ReadData (T : Type) `{SizeOf T} (offset : Z)
  | WriteData {T : Type} `{SizeOf T} (offset : Z) (item : T)
  | ReadSlice (T : Type) `{SizeOf T} (offset count : Z)
  | WriteSlice {T : Type} `{SizeOf T} (offset : Z) (slice : list T).

(** The bytes a call hands a pointer to, when it does: their place in the buffer and number *)
Definition pointed (size : Z) (r : Fallible Z) : option (Z * Z) :=
  match r with Ok p => Some (p, size) | Err _ => None end.

Definition sliced (size : Z) (r : Fallible (Z * Z)) : option (Z * Z) :=
  match r with Ok (p, count) => Some (p, size * count) | Err _ => None end.

Definition run_operation (o : operation) : M rte_mbuf (option (Z * Z)) :=
  match o with
  | Extend offset n => _ ← extend offset n; mret None
  | Shrink offset n => _ ← shrink offset n; mret None
  | Resize offset n => _ ← resize offset n; mret None
  | Truncate to_len => _ ← truncate to_len; mret None
  | ReadData T offset => r ← read_data T offset; mret (pointed (@size_of T _) r)
  | @WriteData T _ offset item => r ← write_data offset item; mret (pointed (@size_of T _) r)
  | ReadSlice T offset count => r ← read_data_slice T offset count; mret (sliced (@size_of T _) r)
  | @WriteSlice T _ offset slice => r ← write_data_slice offset slice; mret (sliced (@size_of T _) r)
  end.

(** What each call hands out, with the buffer as it is then *)
Fixpoint run_operations (l : list operation) : M rte_mbuf (list (option (Z * Z) * rte_mbuf)) :=
  match l with
  | [] => mret []
  | o :: l => r ← run_operation o; b ← get; rs ← run_operations l; mret ((r, b) :: rs)
  end.

(** The bytes of a value of the type *)
Definition value_of (T : Type) `{SizeOf T} (x : T) : Prop :=
  len (memory_of x) = @size_of T _ /\ Forall (fun b => 0 <= b < 256) (memory_of x).

(** The arguments are values of their types, *)
Definition typed (o : operation) : Prop :=
  match o with
  | Extend offset n | Shrink offset n => 0 <= offset < 2 ^ 64 /\ 0 <= n < 2 ^ 64
  | Resize offset n => 0 <= offset < 2 ^ 64 /\ - 2 ^ 63 <= n < 2 ^ 63
  | Truncate to_len => 0 <= to_len < 2 ^ 64
  | ReadData T offset => 0 <= offset < 2 ^ 64 /\ 0 <= @size_of T _
  | @WriteData T _ offset item => 0 <= offset < 2 ^ 64 /\ value_of T item
  | ReadSlice T offset count => 0 <= offset < 2 ^ 64 /\ 0 <= count < 2 ^ 64 /\ 0 <= @size_of T _
  | @WriteSlice T _ offset slice =>
      0 <= offset < 2 ^ 64 /\ 0 <= @size_of T _ /\ Forall (value_of T) slice
  end.

(** an access as a type is where such values can be when the data starts at [start], *)
Definition placed (start : Z) (o : operation) : Prop :=
  match o with
  | @WriteData T _ offset _ | ReadSlice T offset _ | @WriteSlice T _ offset _ =>
      (start + offset) mod (@align_of T _) = 0
  | _ => True
  end.

(** and the end of the range they name is a value too. *)
Definition no_wrap (o : operation) : Prop :=
  match o with
  | Shrink offset n => offset + n < 2 ^ 64
  | Resize offset n => offset + Z.abs n < 2 ^ 64
  | ReadData T offset | @WriteData T _ offset _ => offset + @size_of T _ < 2 ^ 64
  | ReadSlice T offset count => offset + @size_of T _ * count < 2 ^ 64
  | @WriteSlice T _ offset slice => offset + @size_of T _ * len slice < 2 ^ 64
  | _ => True
  end.

(** What is handed out is in the data of the buffer. *)
Definition in_data (b : rte_mbuf) (r : option (Z * Z)) : Prop :=
  match r with
  | Some (i, n) => data_off b <= i /\ 0 <= n /\ i + n <= data_off b + Dpdk.data_len b
  | None => True
  end.

(** Ends in a well-formed buffer with the same headroom, or panics because arithmetic overflowed
    in a build that [checks] it *)
Definition fine {A} (h : list Z) (P : A -> rte_mbuf -> Prop) (r : outcome (A * rte_mbuf)) (checks : bool) : Prop :=
  (checks = true /\ r = Panic ArithmeticOverflow)
  \/ exists a b d t, r = Ret (a, b) /\ layout b h d t /\ P a b.

Local Abbreviation Fine h P r := (fine h P r overflow_checks).

Definition anything {A} (_ : A) (_ : rte_mbuf) : Prop := True.

Lemma fine_ret {A} h (P : A -> rte_mbuf -> Prop) a b d t : layout b h d t -> P a b -> Fine h P (Ret (a, b)).
Proof. intros. right. by exists a, b, d, t. Qed.

Lemma fine_bind {A B} h P Q (m : M rte_mbuf A) (k : A -> M rte_mbuf B) b :
  Fine h P (m b) ->
  (forall a b' d t, layout b' h d t -> P a b' -> Fine h Q (k a b')) -> Fine h Q ((m ≫= k) b).
Proof.
  intros [[Hc E]|(a & b' & d & t & E & L & HP)] Hk.
  - left. split; [done|]. unfold mbind, M_bind. by rewrite E.
  - rewrite (bind_ret _ _ _ _ _ E). by eapply Hk.
Qed.

(** A checked operation of which the model knows only that it is the last to fail *)
Lemma fine_arith {B} h Q w z (k : Z -> M rte_mbuf B) b d t :
  0 <= w -> (overflow_checks = true \/ 0 <= z < 2 ^ w) -> layout b h d t ->
  (0 <= z < 2 ^ w -> Fine h Q (k z b)) -> Fine h Q ((lift (arith w z) ≫= k) b).
Proof.
  intros Hw0 Hc Hw Hk. destruct (decide (0 <= z < 2 ^ w)) as [Hz|Hz].
  - erewrite bind_ret by (unfold lift; rewrite arith_fits by done; reflexivity). by apply Hk.
  - destruct Hc as [Hc|]; [|done]. left. split; [done|].
    unfold mbind, M_bind, lift, arith. by rewrite fits_false, Hc by lia.
Qed.

Lemma layout_wf b h d t : layout b h d t -> wf b.
Proof. by exists h, d, t. Qed.

Lemma truncate_fine b h d t n : layout b h d t -> 0 <= n -> Fine h anything (truncate n b).
Proof.
  intros L Hn. unfold truncate, data_len. done_step. rewrite (lay_len _ _ _ _ L).
  destruct (Z.ltb_spec n (len d)) as [Hlt|]; cbn [negb]; [|by eapply fine_ret].
  destruct (split_at d n) as (d1 & d2 & -> & <-); [lia|].
  pose proof (layout_fits _ _ _ _ L) as [Hf Hm]. done_step. apply (fine_ret _ _ _ _ d1 (d2 ++ t)); [|done].
  destruct L. rewrite !wrap_small by (pow2_consts; lengths). split; cbn; try done.
  by rewrite lay_buf0, <- app_assoc.
Qed.

Lemma extend_fine b h d t o n : layout b h d t -> 0 <= o -> 0 <= n -> Fine h anything (extend o n b).
Proof.
  intros L Ho Hn. pose proof (layout_data _ _ _ _ L) as Ed. pose proof (layout_fits _ _ _ _ L) as [Hf Hm].
  pose proof (lay_off _ _ _ _ L). pose proof (lay_len _ _ _ _ L).
  destruct (decide (n <= 0 \/ len (data b) < o \/ buf_len b - data_off b - Dpdk.data_len b <= n)) as [Hr|Hr].
  { rewrite extend_refused by (done || by eapply layout_wf). by eapply fine_ret. }
  rewrite Ed in Hr. destruct (split_at d o) as (d1 & d2 & -> & <-); [lia|].
  destruct (extend_run b h d1 d2 t n L) as (g & t' & b' & -> & _ & L'); [lia|]. by eapply fine_ret.
Qed.

Lemma shrink_fine b h d t o n :
  layout b h d t -> 0 <= o -> 0 <= n -> overflow_checks = true \/ o + n < 2 ^ 64 ->
  Fine h anything (shrink o n b).
Proof.
  intros L Ho Hn Hc. pose proof (layout_data _ _ _ _ L) as Ed. destruct (decide (o + n < 2 ^ 64)) as [Hw|Hw].
  - destruct (decide (n <= 0 \/ len (data b) < o + n)) as [Hr|Hr].
    { rewrite shrink_refused by (done || by eapply layout_wf). by eapply fine_ret. }
    rewrite Ed in Hr. destruct (split_at d o) as (d1 & r & -> & <-); [lia|].
    destruct (split_at r n) as (x & d2 & -> & <-); [lengths|].
    destruct (shrink_run b h d1 x d2 t L) as (t' & b' & -> & L'); [lia|]. by eapply fine_ret.
  - destruct Hc as [Hc|]; [|done]. unfold shrink.
    destruct (negb _); [by eapply fine_ret|]. eapply fine_arith; [done|by left|done|].
    unfold USIZE_BITS. lia.
Qed.

Lemma resize_fine b h d t o n :
  layout b h d t -> 0 <= o -> - 2 ^ 63 <= n < 2 ^ 63 -> overflow_checks = true \/ o + Z.abs n < 2 ^ 64 ->
  Fine h anything (resize o n b).
Proof.
  intros L Ho Hn Hc. unfold resize. pow2_consts. destruct (Z.ltb_spec n 0).
  - unfold lift, sneg, sarith. destruct (sfits 64 (- n)) eqn:Es.
    + erewrite bind_ret by reflexivity. unfold USIZE_BITS. rewrite wrap_small by (pow2_consts; lia).
      eapply shrink_fine; [done|done|lia|pow2_consts; destruct Hc; [by left|right; lia]].
    + assert (n = - 2 ^ 63) as -> by (unfold sfits in Es; pow2_consts; lia). clear Es.
      unfold mbind, M_bind. destruct overflow_checks eqn:E; [by left|].
      cbn [outcome_bind]. replace (wrap USIZE_BITS (swrap 64 (- - 2 ^ 63))) with (2 ^ 63) by done.
      rewrite <- E. eapply shrink_fine; [done|done|lia|pow2_consts; destruct Hc; [congruence|right; lia]].
  - unfold USIZE_BITS. rewrite wrap_small by (pow2_consts; lia). eapply extend_fine; [done|lia..].
Qed.

Lemma out_of_buffer_fine {A} b h d t size o (P : Fallible A -> rte_mbuf -> Prop) :
  layout b h d t -> (forall e, P (Err e) b) -> Fine h P (@out_of_buffer _ A size o b).
Proof.
  intros L HP. unfold out_of_buffer, data_len. done_step. unfold mbind, M_bind, lift, usub, arith.
  destruct (fits _ _); [by eapply fine_ret|].
  destruct overflow_checks eqn:E; [by left|rewrite <- E; by eapply fine_ret].
Qed.

(** What [read_at] answers: the place of the range in the data *)
Definition found (b : rte_mbuf) (o n : Z) (r : Fallible Z) (b' : rte_mbuf) : Prop :=
  b' = b /\ match r with Ok p => p = data_off b + o /\ in_data b (Some (p, n)) | Err _ => True end.

Lemma read_at_fine b h d t o n :
  layout b h d t -> 0 <= o -> 0 <= n -> overflow_checks = true \/ o + n < 2 ^ 64 ->
  Fine h (found b o n) (read_at o n b).
Proof.
  intros L Ho Hn Hc. unfold read_at, data_len. done_step.
  eapply fine_arith; [done|unfold USIZE_BITS; destruct Hc; [by left|right; lia]|done|intros Hw].
  destruct (Z.leb_spec (o + n) (Dpdk.data_len b)); cbn [negb].
  - pose proof (lay_len _ _ _ _ L). pose proof (lay_off _ _ _ _ L).
    step data_address_run. eapply fine_ret; [done|]. split; [done|]. unfold in_data. lia.
  - by eapply out_of_buffer_fine.
Qed.

Definition place (b : rte_mbuf) : Z * Z := (buf_addr b, data_off b).

Lemma aligned_place b b' i a : place b' = place b -> aligned b' i a = aligned b i a.
Proof. by intros [= E _]; unfold aligned; rewrite E. Qed.

Lemma write_at_fine b h d t o a bs :
  layout b h d t -> 0 <= o -> Forall (fun x => 0 <= x < 256) bs -> aligned b (data_off b + o) a = true ->
  overflow_checks = true \/ o + len bs < 2 ^ 64 ->
  Fine h (fun _ b' => place b' = place b) (write_at o (len bs) a bs b).
Proof.
  intros L Ho Hbs Ha Hc. pose proof (lay_len _ _ _ _ L) as El.
  destruct (decide (o + len bs <= len d)) as [Hle|Hle].
  - rewrite (lay_off _ _ _ _ L) in Ha. destruct (split_at d o) as (d1 & r & -> & <-); [lia|].
    destruct (split_at r (len bs)) as (x & d2 & -> & Hx); [lengths|].
    destruct (write_at_run b h d1 x d2 t bs a L) as [Hw L']; [lia|done..|].
    rewrite <- Hx, Hw. by eapply fine_ret.
  - unfold write_at, data_len.
    eapply fine_arith; [done|unfold USIZE_BITS; destruct Hc; [by left|right; lia]|done|intros Hw]. done_step.
    rewrite El, (proj2 (Z.leb_gt _ _)) by lia. by eapply out_of_buffer_fine.
Qed.

Section access.
Context (T : Type) `{SizeOf T}.

Lemma read_data_fine b h d t o :
  layout b h d t -> 0 <= o -> 0 <= @size_of T _ ->
  overflow_checks = true \/ o + @size_of T _ < 2 ^ 64 ->
  Fine h (fun r b' => in_data b' (pointed (@size_of T _) r)) (read_data T o b).
Proof.
  intros L Ho Hn Hc. unfold read_data, data_len. done_step.
  destruct (negb _); [by eapply fine_ret|].
  destruct (read_at_fine b h d t o _ L Ho Hn Hc) as [?|(r & b' & d' & t' & E & L' & -> & Hr)]; [by left|].
  right. exists r, b, d', t'. split; [done|]. split; [done|]. by destruct r; [destruct Hr|].
Qed.

Lemma write_data_fine b h d t o (x : T) :
  layout b h d t -> 0 <= o -> value_of T x -> aligned b (data_off b + o) (@align_of T _) = true ->
  overflow_checks = true \/ o + @size_of T _ < 2 ^ 64 ->
  Fine h (fun r b' => in_data b' (pointed (@size_of T _) r)) (write_data o x b).
Proof.
  intros L Ho [Es Hx] Ha Hc. unfold write_data, try_bind, monad_try_bind. eapply fine_bind.
  - rewrite <- Es in *. by eapply write_at_fine.
  - intros [[]|e] b' d' t' L' _; [|by eapply fine_ret]. eapply read_data_fine; [done|done|lia|done].
Qed.

Lemma in_data_inside b h d t i n : layout b h d t -> in_data b (Some (i, n)) -> inside b i n = true.
Proof.
  intros L (Hi & Hn & Hle). pose proof (layout_fits _ _ _ _ L). destruct L. apply inside_true; lia.
Qed.

Lemma read_slice_fine b h d t o n :
  layout b h d t -> 0 <= o -> 0 <= n -> 0 <= @size_of T _ ->
  aligned b (data_off b + o) (@align_of T _) = true ->
  overflow_checks = true \/ o + @size_of T _ * n < 2 ^ 64 ->
  Fine h (fun r b' => in_data b' (sliced (@size_of T _) r)) (read_data_slice T o n b).
Proof.
  intros L Ho Hn Hs Ha Hc. assert (0 <= @size_of T _ * n) by (by apply Z.mul_nonneg_nonneg).
  unfold read_data_slice, data_len. done_step. destruct (negb _); [by eapply fine_ret|].
  eapply fine_arith; [done|unfold USIZE_BITS; destruct Hc; [by left|right; lia]|done|intros Hw].
  unfold try_bind, monad_try_bind. eapply fine_bind; [by eapply read_at_fine|].
  intros [p|e] b' d' t' L' [-> Hr]; [|by eapply fine_ret]. destruct Hr as [-> Hin].
  erewrite bind_ret.
  2: { unfold raw_slice. erewrite in_data_inside by done. rewrite Ha. reflexivity. }
  by eapply fine_ret.
Qed.

Lemma values_bytes (l : list T) : Forall (value_of T) l ->
  len (concat (map memory_of l)) = @size_of T _ * len l
  /\ Forall (fun b => 0 <= b < 256) (concat (map memory_of l)).
Proof.
  induction 1 as [|x l [Ex Hx] _ [El Hl]]; [by split; [cbn; lia|apply Forall_nil_2]|].
  cbn [map concat List.length]. rewrite length_app. split; [lia|by apply Forall_app].
Qed.

Lemma write_slice_fine b h d t o (l : list T) :
  layout b h d t -> 0 <= o -> 0 <= @size_of T _ -> Forall (value_of T) l ->
  aligned b (data_off b + o) (@align_of T _) = true ->
  overflow_checks = true \/ o + @size_of T _ * len l < 2 ^ 64 ->
  Fine h (fun r b' => in_data b' (sliced (@size_of T _) r)) (write_data_slice o l b).
Proof.
  intros L Ho Hs Hl Ha Hc. destruct (values_bytes l Hl) as [El Hb]. unfold write_data_slice.
  assert (0 <= @size_of T _ * len l) by lia.
  eapply fine_arith; [done|unfold USIZE_BITS; destruct Hc; [by left|right; lia]|done|intros Hw].
  unfold try_bind, monad_try_bind. eapply fine_bind; [rewrite <- El in *; by eapply write_at_fine|].
  intros [[]|e] b' d' t' L' Hp; [|by eapply fine_ret].
  eapply read_slice_fine; [done|done|lia|done| |done].
  rewrite (aligned_place b) by done. injection Hp as _ ->. exact Ha.
Qed.

End access.

(** No call moves the buffer or the start of its data. *)
Lemma keeps_lift {A} (o : outcome A) : keeps place (lift o).
Proof. intros b a b'. unfold lift. destruct o; try done. by intros [= _ <-]. Qed.

Lemma keeps_copy src dst n : keeps place (copy src dst n).
Proof. intros b a b'. unfold copy. destruct (_ && _); [|done]. by intros [= _ <-]. Qed.

Lemma keeps_store dst a bs : keeps place (store dst a bs).
Proof. intros b x b'. unfold store. destruct (_ && _); [|done]. by intros [= _ <-]. Qed.

Lemma keeps_slice T `{SizeOf T} p n : keeps place (raw_slice T p n).
Proof. intros b x b'. unfold raw_slice. destruct (_ && _); [|done]. by intros [= _ <-]. Qed.

#[local] Hint Resolve keeps_lift keeps_copy keeps_store keeps_slice : engine.

Lemma run_operation_place o : keeps place (run_operation o).
Proof.
  destruct o; cbn [run_operation];
    unfold resize, extend, shrink, truncate, write_data, write_data_slice, read_data, read_data_slice,
      write_at, read_at, out_of_buffer, grow, reduce, not_resized, data_address, tailroom, data_len; keep.
Qed.

Lemma placed_aligned b start o a :
  start = buf_addr b + data_off b -> (start + o) mod a = 0 -> aligned b (data_off b + o) a = true.
Proof. intros -> E. unfold aligned. by rewrite Z.add_assoc, E. Qed.

Lemma run_operation_fine b h d t o :
  layout b h d t -> typed o -> placed (buf_addr b + data_off b) o -> overflow_checks = true \/ no_wrap o ->
  Fine h (fun r b' => in_data b' r) (run_operation o b).
Proof.
  intros L Ht Hp Hc.
  assert (Hany : forall {A} (m : M rte_mbuf A), Fine h anything (m b) ->
    Fine h (fun r b' => in_data b' r) ((_ ← m; mret None) b)).
  { intros A m Hm. eapply fine_bind; [exact Hm|]. intros. by eapply fine_ret. }
  assert (Hsome : forall {A} (m : M rte_mbuf A) f, Fine h (fun r b' => in_data b' (f r)) (m b) ->
    Fine h (fun r b' => in_data b' r) ((r ← m; mret (f r)) b)).
  { intros A m f Hm. eapply fine_bind; [exact Hm|]. intros. by eapply fine_ret. }
  destruct o; cbn in Ht, Hp, Hc |- *; [apply Hany..|apply Hsome|apply Hsome|apply Hsome|apply Hsome].
  - eapply extend_fine; [done|lia..].
  - eapply shrink_fine; [done|lia..|done].
  - eapply resize_fine; [done|lia..|done].
  - eapply truncate_fine; [done|lia].
  - eapply read_data_fine; [done|lia..|done].
  - eapply write_data_fine; [done|lia|tauto|by eapply placed_aligned|done].
  - eapply read_slice_fine; [done|lia..|by eapply placed_aligned|done].
  - eapply write_slice_fine; [done|lia|tauto|tauto|by eapply placed_aligned|done].
Qed.

(** C5: However the methods of a buffer are called, with values of whatever types, a debug build
    ends in a well-formed buffer or panics on an overflow, and so does a release build when no
    range a call names wraps around, as long as values are written and slices taken where the
    alignment of their type allows. No call reads or writes memory outside the buffer, whatever
    the offsets and lengths; the headroom stays as it is and the lengths and the data
    consistent; and every pointer and every slice that is handed out lies within the data of the
    buffer with all its bytes. *)
Theorem operations_safe l b h d t :
  layout b h d t -> Forall typed l -> Forall (placed (buf_addr b + data_off b)) l ->
  overflow_checks = true \/ Forall no_wrap l ->
  fine h (fun rs _ => length rs = length l /\ Forall (fun '(r, b') => wf b' /\ in_data b' r) rs)
    (run_operations l b) overflow_checks.
Proof.
  intros L Ht. revert b d t L. induction Ht as [|o l Ho _ IH]; intros b d t L Hp Hc.
  { by eapply fine_ret. }
  apply Forall_cons_1 in Hp as [Hp Hps]. cbn [run_operations].
  assert (Hc1 : overflow_checks = true \/ no_wrap o).
  { destruct Hc as [|Hc]; [by left|right]. by apply Forall_cons_1 in Hc as [? _]. }
  destruct (run_operation_fine b h d t o L Ho Hp Hc1) as [[? E]|(r & b1 & d1 & t1 & E & L1 & Hr)].
  { left. split; [done|]. unfold mbind at 1, M_bind. by rewrite E. }
  step E. done_step. pose proof (run_operation_place _ _ _ _ E) as [= E1 E2].
  eapply fine_bind.
  - eapply (IH b1); [exact L1|by rewrite E1, E2|]. destruct Hc as [|Hc]; [by left|right].
    by apply Forall_cons_1 in Hc as [_ ?].
  - intros rs b2 d2 t2 L2 [Hl Hrs]. eapply fine_ret; [done|]. split; [cbn; congruence|].
    apply Forall_cons_2; [|done]. split; [by eapply layout_wf|done].
Qed.

(** In a release build the size of a slice can wrap around: the check then passes, and taking a
    slice of more elements than memory holds is undefined behaviour. *)
Theorem read_slice_wraps T `{SizeOf T} b h d t offset :
  layout b h d t -> @size_of T _ = 2 -> 0 <= offset < len d ->
  overflow_checks = false -> read_data_slice T offset (2 ^ 63) b = Undefined.
Proof.
  intros L Es Ho Hc. pose proof (layout_fits _ _ _ _ L) as [Hf Hm].
  unfold read_data_slice, data_len. done_step. rewrite (lay_len _ _ _ _ L), (proj2 (Z.ltb_lt _ _)) by lia.
  cbn [negb]. rewrite Es. unfold umul, USIZE_BITS.
  erewrite bind_ret by (unfold lift, arith; rewrite Hc; reflexivity).
  change (wrap 64 (2 * 2 ^ 63)) with 0. unfold read_at, data_len, try_bind, monad_try_bind.
  rewrite bind_assoc. done_step. rewrite bind_assoc. unfold USIZE_BITS. calc.
  rewrite (lay_len _ _ _ _ L), Z.add_0_r, (proj2 (Z.leb_le _ _)) by lia. cbn [negb].
  rewrite bind_assoc. step data_address_run. done_step. unfold mbind, M_bind, raw_slice, inside. rewrite Es.
  rewrite (proj2 (Z.leb_gt (_ + 2 * 2 ^ 63) _)); [by rewrite andb_false_r|].
  rewrite <- (lay_buf_len _ _ _ _ L). pow2_consts. lia.
Qed.

Lemma bytes_memory bs : concat (map memory_of (map U8 bs)) = bs.
Proof. induction bs as [|x bs IH]; [done|]. cbn [map concat]. by rewrite IH. Qed.

Lemma write_bytes_run b h d1 x d2 t bs :
  layout b h (d1 ++ x ++ d2) t -> 0 < len bs -> length bs = length x ->
  Forall (fun x => 0 <= x < 256) bs ->
  exists b', write_data_slice (len d1) (map U8 bs) b = Ret (Ok (len h + len d1, len bs), b')
             /\ layout b' h (d1 ++ bs ++ d2) t.
Proof.
  intros L H0 Hg Hb.
  destruct (write_at_run b h d1 x d2 t bs 1 L Hg Hb (aligned_1 _ _)) as [Hw L2].
  pose proof (layout_fits _ _ _ _ L2) as [Hf Hm].
  assert (Hl : len (d1 ++ bs ++ d2) = len d1 + len bs + len d2) by lengths.
  eexists. split; [|exact L2]. set (b2 := set_buf _ b) in *.
  unfold write_data_slice. rewrite length_map, bytes_memory.
  unfold size_of, align_of, SizeOf_u8, USIZE_BITS. calc. unfold try_bind, monad_try_bind.
  rewrite Z.mul_1_l, Hg. step Hw. rewrite <- Hg.
  unfold read_data_slice, data_len. done_step.
  rewrite (lay_len _ _ _ _ L2), Hl, (proj2 (Z.ltb_lt _ _)) by lia.
  cbn [negb]. unfold size_of, SizeOf_u8, USIZE_BITS. calc. rewrite Z.mul_1_l.
  unfold try_bind, monad_try_bind. step read_at_run. unfold raw_slice, mbind, M_bind, size_of, align_of.
  rewrite aligned_1, inside_true; [done|lia|lia|].
  rewrite (lay_buf _ _ _ _ L2), !length_app. lia.
Qed.

End raw_lemmas.

(** ** The ends of the ranges *)

(** Writing at an offset past the data panics in a debug build, in the subtraction that
    computes the error's text, where a release build answers an [OutOfBuffer] error that
    reports nearly 2^64 bytes remaining. *)
Theorem write_past_end {T} `{SizeOf T} b offset (item : T) :
  wf b -> 0 <= @size_of T _ -> len (data b) < offset -> offset + @size_of T _ < 2 ^ 64 ->
  @write_data debug _ _ offset item b = Panic ArithmeticOverflow
  /\ @write_data release _ _ offset item b
     = Ret (Err (EBuffer (OutOfBuffer (@size_of T _) (2 ^ 64 - (offset - len (data b))))), b).
Proof.
  intros [h [t L]]%wf_layout Hs Ho Hw. pose proof (lay_len _ _ _ _ L) as El.
  unfold write_data, try_bind, monad_try_bind, write_at, data_len, out_of_buffer, USIZE_BITS.
  split; rewrite bind_assoc; calc; rewrite bind_assoc; done_step; rewrite El, (proj2 (Z.leb_gt _ _)) by lia;
    cbn [negb]; rewrite bind_assoc; done_step; unfold mbind, M_bind, lift, usub, data_len, gets;
    rewrite El.
  - by rewrite arith_debug by lia.
  - rewrite arith_release by done. unfold wrap, outcome_bind, mret, M_ret. pow2_consts.
    rewrite <- (Z.mod_add _ 1), Z.mod_small by lia. do 5 f_equal. lia.
Qed.

(** [shrink] with a length that wraps the offset around panics in a debug build; in a
    release build it passes the check, moves the packet into the headroom and shortens it: the
    answer is [Ok] although the range is not in the data. *)
Theorem shrink_wraps x1 x2 x3 :
  let b := Build_rte_mbuf 65536 [9; 9; x1; x2; x3; 0; 0] 2 7 3 3 512 in
  @shrink debug (2 ^ 64 - 1) 1 b = Panic ArithmeticOverflow
  /\ exists b', @shrink release (2 ^ 64 - 1) 1 b = Ret (Ok tt, b')
     /\ data b' = [x2; x3] /\ buf b' = [9; x1; x2; x3; x3; 0; 0].
Proof. split; [done|]. by eexists. Qed.

(** ** Handles *)

Section handle_lemmas.
Context `{Profile} {W : Type} `{!Dpdk W}.

Lemma with_raw_run {A} p (f : M rte_mbuf A) (s : process W) b a b' :
  mem s !! p = Some b -> f b = Ret (a, b') ->
  with_raw p f s = Ret (a, set_mem (<[p := b']> (mem s)) s).
Proof. intros E Ef. unfold with_raw. by rewrite E, Ef. Qed.

Lemma drop_run p (s : process W) b :
  mem s !! p = Some b ->
  drop (from_ptr p) s = Ret (tt, set_mem (delete p (mem s)) (set_ext (rte_pktmbuf_free p (ext s)) s)).
Proof.
  intros E. unfold drop, raw, on. cbn [inner from_ptr inner_ptr].
  step with_raw_run. rewrite insert_id by done. by destruct s.
Qed.

Lemma new_run (s : process W) p b w :
  rte_pktmbuf_alloc (tls_mempool s) (ext s) = (p, b, w) ->
  new s = Ret (if p =? 0 then (Err (EMempool Exhausted), set_ext w s)
               else (Ok (from_ptr p), set_mem (<[p := b]> (mem s)) (set_ext w s))).
Proof.
  intros E. unfold new, mempool. done_step. unfold call. unfold mbind at 1, M_bind at 1.
  rewrite E. cbn [fst snd]. unfold ptr_to_result. destruct (p =? 0); [done|]. done.
Qed.

(** C12: [from_bytes] of a packet that fits the buffer the pool gives returns an owned buffer
    that holds exactly those bytes; of an empty packet, or of one that leaves no byte free, it
    answers [NotResized] and the buffer has gone back to its pool: none is leaked. *)
Theorem from_bytes_spec (s : process W) p b w bytes :
  rte_pktmbuf_alloc (tls_mempool s) (ext s) = (p, b, w) -> p <> 0 -> wf b -> data b = [] ->
  Forall (fun x => 0 <= x < 256) bytes ->
  if (0 <? len bytes) && (len bytes <? buf_len b - data_off b)
  then exists b', wf b' /\ data b' = bytes
    /\ from_bytes bytes s = Ret (Ok (from_ptr p), Process w (<[p := b']> (mem s)) (tls_mempool s) (tls_core s))
  else from_bytes bytes s
    = Ret (Err (EBuffer NotResized),
           Process (rte_pktmbuf_free p w) (delete p (mem s)) (tls_mempool s) (tls_core s)).
Proof.
  intros Ha Hp Hwf Hd Hb. pose proof (new_run _ _ _ _ Ha) as Hn.
  rewrite (proj2 (Z.eqb_neq _ _) Hp) in Hn.
  pose proof Hwf as [h [t L]]%wf_layout. rewrite Hd in L. pose proof (layout_fits _ _ _ _ L) as [Hf Hm].
  unfold from_bytes, try_bind, monad_try_bind. step Hn. unfold dropping.
  set (s1 := set_mem _ _). assert (E1 : mem s1 !! p = Some b) by apply lookup_insert_eq.
  destruct (_ && _) eqn:E.
  - destruct (extend_run b h [] [] t (len bytes) L) as (gap & t' & b1 & He & Hg & L1).
    { rewrite (lay_off _ _ _ _ L) in E. cbn in Hf. lia. }
    cbn [List.length app] in He, L1. rewrite app_nil_r in L1.
    unfold on. erewrite bind_ret by (eapply with_raw_run; [exact E1|exact He]).
    destruct (write_bytes_run b1 h [] gap [] t' bytes) as (b2 & Hws & L2); [by rewrite app_nil_r|lia..|done|].
    cbn [List.length app] in L2. rewrite app_nil_r in L2.
    exists b2. split; [by eexists _, _, _|]. split; [exact (layout_data _ _ _ _ L2)|].
    erewrite bind_ret by (eapply with_raw_run; [apply lookup_insert_eq|exact Hws]).
    cbn. by rewrite !insert_insert_eq.
  - erewrite bind_ret.
    2: { eapply with_raw_run; [exact E1|]. apply extend_refused; [done|lia|].
         rewrite Hd, (lay_len _ _ _ _ L). cbn. lia. }
    cbn beta iota. rewrite insert_id by done.
    erewrite bind_ret by (eapply drop_run; exact E1). cbn. by rewrite delete_insert_eq.
Qed.

End handle_lemmas.

(** ** Witnesses *)

Definition packet : rte_mbuf := sim_mbuf 32 512 [1; 2; 3; 4].
Definition room : rte_mbuf := sim_mbuf 32 512 [].

Ltac bytes := apply (bool_decide_unpack _); vm_compute; done.

Lemma packet_wf : wf packet.
Proof. exists [0; 0], [1; 2; 3; 4], (replicate 26 0). split; try done. bytes. Defined.

Lemma room_wf : wf room.
Proof. exists [0; 0], [], (replicate 30 0). split; try done. bytes. Defined.

(** A type of two bytes *)
Record flag := Flag { flag_value : bool }.
#[local] Instance SizeOf_flag : SizeOf flag :=
  {| size_of := 2; align_of := 1; memory_of f := if flag_value f then [1; 0] else [0; 0] |}.
#[local] Instance SizeOfLaws_flag : SizeOfLaws flag.
Proof. split; intros [[]]; try done; bytes. Defined.

Lemma extend_spec_witness :
  wf packet /\ exists gap b', @extend debug 1 2 packet = Ret (Ok tt, b') /\ wf b' /\ len gap = 2
    /\ data b' = [1] ++ gap ++ [2; 3; 4].
Proof.
  split; [exact packet_wf|]. exact (@extend_spec debug packet 1 2 packet_wf ltac:(lia) ltac:(lia)).
Defined.

Lemma shrink_spec_witness :
  exists b', @shrink debug 1 2 packet = Ret (Ok tt, b') /\ wf b' /\ data b' = [1] ++ [4].
Proof.
  exact (@shrink_spec debug packet 1 2 packet_wf ltac:(lia) ltac:(lia) ltac:(lia)).
Defined.

Lemma extend_shrink_witness :
  exists b1 b2, @extend debug 1 2 packet = Ret (Ok tt, b1)
    /\ @shrink debug 1 2 b1 = Ret (Ok tt, b2) /\ wf b2 /\ data b2 = [1; 2; 3; 4].
Proof.
  eexists. destruct (@extend_shrink debug packet _ 1 2 packet_wf ltac:(lia) ltac:(lia) eq_refl)
    as (b2 & Hs & Hb & Hd).
  exists b2. split; [reflexivity|]. split; [exact Hs|]. split; [exact Hb|exact Hd].
Defined.

Lemma write_data_read_witness :
  exists ptr b', @write_data debug _ _ 1 (Flag true) packet = Ret (Ok ptr, b') /\ wf b'
    /\ load ptr 2 b' = Ret ([1; 0], b') /\ data b' = [1] ++ [1; 0] ++ [4]
    /\ @read_data debug flag _ 1 b' = Ret (Ok ptr, b').
Proof.
  exact (@write_data_read debug flag _ _ packet 1 (Flag true) packet_wf ltac:(lia) eq_refl ltac:(done) eq_refl).
Defined.

(** Some calls, on a release build *)
Definition some_calls : list operation :=
  [Extend 0 3; WriteSlice 1 [U8 7; U8 8]; ReadData flag 2; WriteData 3 (Flag true);
   ReadSlice flag 1 2; Resize 0 (-2); Truncate 9].

Lemma operations_safe_witness :
  @fine _ [0; 0] (fun rs _ => length rs = 7%nat /\ Forall (fun '(r, b) => wf b /\ in_data b r) rs)
    (@run_operations release some_calls packet) (@overflow_checks release).
Proof.
  apply (@operations_safe release some_calls packet [0; 0] [1; 2; 3; 4] (replicate 26 0)).
  - split; try done. bytes.
  - repeat apply Forall_cons_2; try apply Forall_nil_2; cbn; unfold value_of; cbn; split_and!; try lia; bytes.
  - repeat apply Forall_cons_2; try apply Forall_nil_2; done.
  - right. repeat apply Forall_cons_2; try apply Forall_nil_2; cbn; lia.
Defined.

Lemma read_slice_wraps_witness : @read_data_slice release flag _ 1 (2 ^ 63) packet = Undefined.
Proof.
  apply (@read_slice_wraps release flag _ packet [0; 0] [1; 2; 3; 4] (replicate 26 0)); try done.
  split; try done. bytes.
Defined.

Example some_calls_answers :
  (r ← @run_operations release some_calls packet; Ret (map fst (fst r), data (snd r)))
  = Ret ([None; Some (3, 2); Some (4, 2); Some (5, 2); Some (3, 4); None; None], [8; 1; 0; 3; 4]).
Proof. by vm_compute. Qed.

Lemma write_past_end_witness :
  @write_data debug _ _ 5 (Flag true) packet = Panic ArithmeticOverflow
  /\ @write_data release _ _ 5 (Flag true) packet
     = Ret (Err (EBuffer (OutOfBuffer 2 (2 ^ 64 - (5 - len (data packet))))), packet).
Proof.
  exact (@write_past_end flag SizeOf_flag packet 5 (Flag true) packet_wf ltac:(vm_compute; discriminate) eq_refl eq_refl).
Defined.

Lemma from_bytes_spec_witness :
  let s := sim_process (with_stock [(8192, room)] sim_empty) [] in
  exists b', wf b' /\ data b' = [5; 6; 7]
    /\ @from_bytes debug sim _ [5; 6; 7] s
       = Ret (Ok (from_ptr 8192), Process sim_empty (<[8192 := b']> ∅) 512 0).
Proof.
  exact (@from_bytes_spec debug sim _ (sim_process (with_stock [(8192, room)] sim_empty) []) 8192 room
    sim_empty [5; 6; 7] eq_refl ltac:(done) room_wf eq_refl ltac:(bytes)).
Defined.

End Mbuf.
