(* ===== verification/Mempool.v ===== *)
(** * Memory pools ([dpdk/mempool.rs])

    A pool is a handle on an [rte_mempool] that frees it when dropped, and [MempoolMap]
    finds the pool of a socket. *)

From S2P Require Import Prelude RustStr Constants Ffi Dpdk DpdkSim DpdkCore.

(** ** Pools *)

Module Mempool.

Record Mempool := { raw : Z }.

(** The texts of [MempoolError] *)
Definition mempool_error_text (e : MempoolError) : rstr :=
  match e with
  | Exhausted => str "Cannot allocate a new mbuf from mempool"
  | MempoolNotFound s => str "Mempool for " ++ socket_debug s ++ str " not found."
  end.

Section mempool.
Context `{Profile} {W : Type} `{!Dpdk W}.

Definition new (name : rstr) (capacity cache_size : Z) (socket_id : SocketId)
    : M (process W) (Fallible Mempool) :=
  cname ← lift (to_cstring name);
  p ← call (rte_pktmbuf_pool_create cname (wrap 32 capacity) (wrap 32 cache_size) 0
              (wrap 16 RTE_MBUF_DEFAULT_BUF_SIZE) (socket_raw socket_id));
  raw ←? ptr_or_new_error p;
  mret (Ok {| raw := raw |}).

(** The structure the handle points to *)
Definition read (m : Mempool) : M (process W) rte_mempool := ask (rte_mempool_read (raw m)).

Definition name (m : Mempool) : M (process W) rstr :=
  r ← read m; lift (as_str (mp_name r)).

Definition fmt (m : Mempool) : M (process W) rstr :=
  r ← read m;
  n ← name m;
  mret (debug_struct n
          [("capacity"%string, fmt_dec (mp_size r)); ("cache size"%string, fmt_dec (mp_cache_size r));
           ("flags"%string, fmt_prefixed_hex (mp_flags r)); ("socket"%string, fmt_int (mp_socket_id r))]).

Definition drop (m : Mempool) : M (process W) unit :=
  _ ← name m;
  call_ (rte_mempool_free (raw m)).

(** [MEMPOOL.with(|tls| tls.set(..))] *)
Definition set_tls_mempool (p : Z) : M (process W) unit :=
  modify (fun s => Process (ext s) (mem s) p (tls_core s)).

(** *** [MempoolMap] *)

Record MempoolMap := { inner : gmap SocketId Mempool }.

(** [collect]ing pairs into a [HashMap] inserts them in order. *)
Definition map_new (mempools : list Mempool) : M (process W) MempoolMap :=
  pairs ← ask (fun w => map (fun pool => (Socket (mp_socket_id (rte_mempool_read (raw pool) w)), pool)) mempools);
  mret {| inner := fold_left (fun m p => <[fst p := snd p]> m) pairs ∅ |}.

Definition get_raw (m : MempoolMap) (socket_id : SocketId) : Fallible Z :=
  match ok_or (inner m !! socket_id) (EMempool (MempoolNotFound socket_id)) with
  | Ok pool => Ok (raw pool)
  | Err e => Err e
  end.

Definition map_default : MempoolMap := {| inner := ∅ |}.

(** ** Lemmas *)

Lemma inserts_lookup {A} (l : list (SocketId * A)) (m : gmap SocketId A) k :
  fold_left (fun m p => <[fst p := snd p]> m) l m !! k
  = match find (fun p => bool_decide (fst p = k)) (rev l) with
    | Some p => Some (snd p)
    | None => m !! k
    end.
Proof.
  revert m. induction l as [|[k' v] l IH]; intros m; [done|]. cbn [fold_left rev fst snd].
  rewrite IH, find_app_first. destruct (find _ (rev l)); [done|]. cbn.
  case_bool_decide as E; [subst k'; apply lookup_insert_eq|by rewrite lookup_insert_ne].
Qed.

(** The map made of a list of pools finds, for each socket, the last pool of the list on
    that socket, and answers [NotFound] for a socket no pool is on. *)
Theorem mempool_map_get pools socket (s : process W) :
  exists m, map_new pools s = Ret (m, s)
  /\ get_raw m socket
     = match find (fun p => bool_decide (Socket (mp_socket_id (rte_mempool_read (raw p) (ext s))) = socket))
         (rev pools) with
       | Some p => Ok (raw p)
       | None => Err (EMempool (MempoolNotFound socket))
       end.
Proof.
  eexists. split; [done|]. unfold get_raw. cbn [inner]. rewrite inserts_lookup, lookup_empty, <- map_rev.
  induction (rev pools) as [|p l IH]; [done|]. cbn. case_bool_decide; [done|exact IH].
Qed.

End mempool.

End Mempool.
