(* ===== verification/Memzone.v ===== *)
(** * Memory zones ([dpdk/memzone.rs])

    A handle on an [rte_memzone] that frees it when dropped. No module of the crate declares
    [memzone.rs]; it is modelled as it stands although the engine does not use it. *)

From S2P Require Import Prelude RustStr Ffi Dpdk DpdkSim DpdkCore.

Module Memzone.

Record Memzone := { raw : Z }.

Definition NO_FLAGS : Z := 0.

Section memzone.
Context `{Profile} {W : Type} `{!Dpdk W}.

Definition new (name : rstr) (capacity : Z) (socket_id : SocketId)
    : M (process W) (Fallible Memzone) :=
  cname ← lift (to_cstring name);
  p ← call (rte_memzone_reserve cname capacity (socket_raw socket_id) NO_FLAGS);
  raw ←? ptr_or_new_error p;
  mret (Ok {| raw := raw |}).

Definition read (m : Memzone) : M (process W) rte_memzone := ask (rte_memzone_read (raw m)).

Definition name (m : Memzone) : M (process W) rstr :=
  r ← read m; lift (as_str (mz_name r)).

Definition fmt (m : Memzone) : M (process W) rstr :=
  r ← read m;
  n ← name m;
  mret (debug_struct n
          [("capacity"%string, fmt_dec (mz_len r)); ("hugepage_size"%string, fmt_dec (mz_hugepage_sz r));
           ("flags"%string, fmt_prefixed_hex (mz_flags r)); ("socket"%string, fmt_int (mz_socket_id r))]).

Definition drop (m : Memzone) : M (process W) unit :=
  _ ← name m;
  call_ (rte_memzone_free (raw m)).

End memzone.

End Memzone.
