(* ===== verification/ConcurrentMap.v ===== *)
(** * Concurrent hash maps

    [chashmap::CHashMap] and [dashmap::DashMap], as an interface: what the engine calls of
    them and the documented behaviour it relies on, that each call acts on the map as a
    whole. [gmap] is an implementation of it. *)

From S2P Require Import Prelude.

Class ConcurrentMap (Map : Type -> Type) := {
  cm_new : forall {V}, Map V;
  cm_get : forall {V}, Z -> Map V -> option V;
  cm_insert : forall {V}, Z -> V -> Map V -> Map V;
  cm_remove : forall {V}, Z -> Map V -> Map V;
}.

Class ConcurrentMapLaws (Map : Type -> Type) `{ConcurrentMap Map} := {
  cm_get_new : forall V k, cm_get k (cm_new (V := V)) = None;
  cm_get_insert : forall V k k' (v : V) m,
    cm_get k' (cm_insert k v m) = if k =? k' then Some v else cm_get k' m;
  cm_get_remove : forall V k k' (m : Map V),
    cm_get k' (cm_remove k m) = if k =? k' then None else cm_get k' m;
}.

#[global] Instance gmap_ConcurrentMap : ConcurrentMap (gmap Z) := {|
  cm_new _ := ∅;
  cm_get _ k m := m !! k;
  cm_insert _ k v m := <[k := v]> m;
  cm_remove _ k m := delete k m;
|}.

#[global] Instance gmap_ConcurrentMapLaws : ConcurrentMapLaws (gmap Z).
Proof.
  split; cbn.
  - intros. apply lookup_empty.
  - intros V k k' v m. destruct (Z.eqb_spec k k') as [->|]; [apply lookup_insert_eq|by rewrite lookup_insert_ne].
  - intros V k k' m. destruct (Z.eqb_spec k k') as [->|]; [apply lookup_delete_eq|by rewrite lookup_delete_ne].
Qed.
