(* ===== verification/Ring.v ===== *)
(** * Rings ([dpdk/memring.rs])

    A [Ring] is a handle on an [rte_ring], which it frees when dropped. The buffers on a ring
    belong to nobody: [enqueue] takes them from the process. *)

From S2P Require Import Prelude RustStr Ffi Dpdk DpdkSim DpdkCore Mbuf.

Inductive RingType := RX | TX.

#[global] Instance RingType_eq_dec : EqDecision RingType.
Proof. solve_decision. Defined.

Module Ring.

Record Ring := {
  client_id : Z;
  rtype : RingType;
  raw : Z;
}.

Definition NO_FLAGS : Z := 0.

(** [NonNull::dangling]: the alignment of [rte_ring] *)
Definition default : Ring := {| client_id := 0; rtype := TX; raw := 64 |}.

Definition from_ptr (client_id : Z) (rtype : RingType) (r : Z) : option Ring :=
  if r =? 0 then None else Some {| client_id := client_id; rtype := rtype; raw := r |}.

Definition name (r : Ring) : rstr :=
  match rtype r with RX => str "RX-" | TX => str "TX-" end ++ fmt_dec (client_id r).

Section ring.
Context `{Profile} {W : Type} `{!Dpdk W}.

Definition new (client_id : Z) (rtype : RingType) (name : rstr) (capacity : Z) (socket_id : SocketId)
    : M (process W) (Fallible Ring) :=
  cname ← lift (to_cstring name);
  p ← call (rte_ring_create cname (wrap 32 capacity) (socket_raw socket_id) NO_FLAGS);
  raw ←? ptr_or_new_error p;
  mret (Ok {| client_id := client_id; rtype := rtype; raw := raw |}).

(** The buffer leaves the process only when the ring took it; [pkt] is consumed either way. *)
Definition enqueue (r : Ring) (pkt : Mbuf.Mbuf) : M (process W) (Fallible unit) :=
  let p := Mbuf.into_ptr pkt in
  n ← call (rte_ring_enqueue (raw r) p);
  _ ← (if n =? 0 then release_bufs [p] else mret tt);
  _ ←? or_new_error n;
  mret (Ok tt).

(** The pointer [rte_ring_dequeue] writes its answer to is a temporary copy of the one in
    [pkt]: the answer is lost. *)
Definition dequeue (r : Ring) (pkt : Mbuf.Mbuf) : M (process W) (Fallible unit * Mbuf.Mbuf) :=
  res ← call (fun w => let '(n, obj, w) := rte_ring_dequeue (raw r) w in ((n, obj), w));
  e ← or_new_error (fst res);
  mret (match e with Ok _ => Ok tt | Err e => Err e end, pkt).

(** [impl fmt::Debug for Ring] *)
Definition fmt (r : Ring) : M (process W) rstr :=
  b ← ask (rte_ring_read (raw r));
  mret (debug_struct (name r)
          [("capacity"%string, fmt_dec (ring_capacity b));
           ("flags"%string, fmt_prefixed_hex (ring_flags b))]).

(** [impl Drop for Ring] *)
Definition drop (r : Ring) : M (process W) unit := call_ (rte_ring_free (raw r)).

End ring.

(** *** Names *)

(** Two rings have the same name only when they serve the same client in the same
    direction. *)
Theorem ring_name_inj r1 r2 :
  0 <= client_id r1 < 2 ^ 16 -> 0 <= client_id r2 < 2 ^ 16 -> name r1 = name r2 ->
  rtype r1 = rtype r2 /\ client_id r1 = client_id r2.
Proof.
  unfold name. intros H1 H2 E.
  assert (Et : rtype r1 = rtype r2) by (by destruct (rtype r1), (rtype r2)).
  split; [done|]. rewrite Et in E. apply app_inv_head in E.
  apply (f_equal (from_str_radix 16 10)) in E. unfold fmt_dec in E.
  rewrite !from_str_radix_fmt in E by lia. by injection E.
Qed.

Lemma ring_name_inj_witness :
  let r1 := Build_Ring 12 RX 64 in let r2 := Build_Ring 12 RX 128 in
  rtype r1 = rtype r2 /\ client_id r1 = client_id r2.
Proof. intros r1 r2. apply (ring_name_inj r1 r2); [cbn; lia..|reflexivity]. Defined.

(** *** What DPDK promises of a ring: a queue *)

Class RingLaws (W : Type) `{Dpdk W} (contents : W -> Z -> option (list Z)) := {
  enqueue_law : forall r p w n w', rte_ring_enqueue r p w = (n, w') ->
    (n = 0 /\ exists l, contents w r = Some l /\ contents w' r = Some (l ++ [p]))
    \/ (n < 0 /\ contents w' r = contents w r);
  dequeue_law : forall r w n o w', rte_ring_dequeue r w = (n, o, w') ->
    (n = 0 /\ exists p l, o = Some p /\ contents w r = Some (p :: l) /\ contents w' r = Some l)
    \/ (n < 0 /\ contents w r ∈ [None; Some []] /\ contents w' r = contents w r);
}.

#[local] Instance sim_ring_laws : RingLaws sim (fun w r => sim_rings w !! r).
Proof.
  split.
  - intros r p w n w'. cbn [rte_ring_enqueue DpdkSim]. destruct (sim_rings w !! r) as [l|] eqn:E.
    + destruct (Nat.ltb _ _); intros [= <- <-]; [|by right; rewrite E].
      left. split; [done|]. exists l. split; [done|]. apply lookup_insert_eq.
    + intros [= <- <-]. right. by rewrite E.
  - intros r w n o w'. cbn. destruct (sim_rings w !! r) as [[|p l]|] eqn:E; intros [= <- <- <-].
    + right. rewrite ?E. split_and!; [lia|set_solver|done].
    + left. split; [done|]. exists p, l. rewrite ?E. split_and!; [done..|apply lookup_insert_eq].
    + right. rewrite ?E. split_and!; [lia|set_solver|done].
Qed.

Section laws.
Context `{Profile} {W : Type} `{HD : !Dpdk W} {contents : W -> Z -> option (list Z)}.
Context `{!RingLaws W contents}.

(** C30: Sending a buffer on a ring puts it at the end of the ring and takes it from the
    process exactly when the answer is [Ok]; when the ring refuses it the ring is unchanged
    and the buffer stays in the process's memory although no handle is left that would free
    it. *)
Theorem enqueue_spec r p b (s : process W) :
  mem s !! p = Some b ->
  exists res s', enqueue r (Mbuf.from_ptr p) s = Ret (res, s')
  /\ match res with
     | Ok _ => mem s' = delete p (mem s)
         /\ exists l, contents (ext s) (raw r) = Some l /\ contents (ext s') (raw r) = Some (l ++ [p])
     | Err _ => mem s' = mem s /\ contents (ext s') (raw r) = contents (ext s) (raw r)
     end.
Proof.
  intros Hb. unfold enqueue. cbn [Mbuf.into_ptr Mbuf.inner Mbuf.from_ptr Mbuf.inner_ptr].
  destruct (rte_ring_enqueue (raw r) p (ext s)) as [n w] eqn:E.
  erewrite bind_ret by (unfold call; rewrite E; reflexivity).
  destruct (enqueue_law _ _ _ _ _ E) as [[-> (l & Hl & Hl')]|[Hn Hc]].
  - done_step. eexists _, _. split; [done|]. split; [done|]. by exists l.
  - rewrite (proj2 (Z.eqb_neq n 0)) by lia. done_step.
    destruct (or_new_error_run n (set_ext w s)) as (res & Hr & Hok).
    unfold try_bind, monad_try_bind. step Hr. destruct res as [a|e].
    + assert (0 <= n) by (by apply Hok). lia.
    + eexists _, _. split; [done|]. by split.
Qed.

(** A packet sent on an empty ring and then received from it is lost: [receive] answers
    [Ok] and leaves the ring empty, but the handle it was given still points to its own
    buffer, and the packet's is neither on the ring nor in the process's hands. *)
Theorem send_receive_lost r p b pkt (s s1 : process W) :
  mem s !! p = Some b -> contents (ext s) (raw r) = Some [] ->
  enqueue r (Mbuf.from_ptr p) s = Ret (Ok tt, s1) ->
  exists s2, dequeue r pkt s1 = Ret ((Ok tt, pkt), s2)
  /\ contents (ext s2) (raw r) = Some [] /\ mem s2 !! p = None.
Proof.
  intros Hb H0 He. destruct (enqueue_spec r p b s Hb) as (res & s' & He' & Hres).
  rewrite He in He'. injection He' as <- <-. destruct Hres as [Hm (l & Hl & Hl')].
  rewrite H0 in Hl. injection Hl as <-. cbn [app] in Hl'.
  unfold dequeue. destruct (rte_ring_dequeue (raw r) (ext s1)) as [[n o] w] eqn:E.
  erewrite bind_ret by (unfold call; rewrite E; reflexivity).
  destruct (dequeue_law _ _ _ _ _ E) as [[-> (q & l & -> & Hq & Hq')]|[Hn [Hc _]]].
  - rewrite Hl' in Hq. injection Hq as <- <-. cbn [fst]. done_step. eexists. split; [done|].
    split; [done|]. cbn. rewrite Hm. apply lookup_delete_eq.
  - rewrite Hl' in Hc. apply elem_of_cons in Hc as [|[|[]%elem_of_nil]%elem_of_cons]; done.
Qed.

End laws.

#[local] Instance witness_profile : Profile := debug.

Definition ring12 : Ring := Build_Ring 12 TX 4096.
Definition sim_with_ring : process sim :=
  sim_process (with_rings {[ 4096 := [] ]} sim_empty) [(8192, Mbuf.packet)].

Lemma enqueue_spec_witness :
  exists res s', enqueue ring12 (Mbuf.from_ptr 8192) sim_with_ring = Ret (res, s')
  /\ match res with
     | Ok _ => mem s' = delete 8192 (mem sim_with_ring)
         /\ exists l, sim_rings (ext sim_with_ring) !! 4096 = Some l
            /\ sim_rings (ext s') !! 4096 = Some (l ++ [8192])
     | Err _ => mem s' = mem sim_with_ring
         /\ sim_rings (ext s') !! 4096 = sim_rings (ext sim_with_ring) !! 4096
     end.
Proof.
  exact (enqueue_spec (contents := fun w r => sim_rings w !! r) ring12 8192 Mbuf.packet sim_with_ring eq_refl).
Defined.

Definition sim_after_send : process sim :=
  set_mem (delete 8192 (mem sim_with_ring))
    (set_ext (with_rings (<[4096 := [8192]]> (sim_rings (ext sim_with_ring))) (ext sim_with_ring))
       sim_with_ring).

Lemma send_receive_lost_witness :
  exists s2, enqueue ring12 (Mbuf.from_ptr 8192) sim_with_ring = Ret (Ok tt, sim_after_send)
  /\ dequeue ring12 (Mbuf.from_ptr 8256) sim_after_send = Ret ((Ok tt, Mbuf.from_ptr 8256), s2)
  /\ sim_rings (ext s2) !! 4096 = Some [] /\ mem s2 !! 8192 = None.
Proof.
  destruct (send_receive_lost (HD := DpdkSim) (contents := fun w r => sim_rings w !! r) ring12 8192 Mbuf.packet
    (Mbuf.from_ptr 8256) sim_with_ring sim_after_send eq_refl eq_refl ltac:(vm_compute; reflexivity)) as (s2 & Hd & Hr & Hm).
  exists s2. split; [vm_compute; reflexivity|]. split; [exact Hd|]. split; [exact Hr|exact Hm].
Defined.

End Ring.
