(* ===== verification/Channel.v ===== *)
(** * Channels ([dpdk/memring.rs])

    The pair of rings between the engine and one client. *)

From S2P Require Import Prelude RustStr Ffi Dpdk DpdkSim DpdkCore Mbuf Ring.

Module Channel.

Record Channel := { tx_q : Ring.Ring; rx_q : Ring.Ring }.

Definition new (tx_q rx_q : Ring.Ring) : Channel := {| tx_q := tx_q; rx_q := rx_q |}.

Section channel.
Context `{Profile} {W : Type} `{!Dpdk W}.

Definition send (c : Channel) (pkt : Mbuf.Mbuf) : M (process W) (Fallible unit) :=
  Ring.enqueue (tx_q c) pkt.

Definition receive (c : Channel) (pkt : Mbuf.Mbuf) : M (process W) (Fallible unit * Mbuf.Mbuf) :=
  Ring.dequeue (rx_q c) pkt.

(** The fields are dropped in the order of their declaration, after an empty [drop]. *)
Definition drop (c : Channel) : M (process W) unit :=
  _ ← Ring.drop (tx_q c); Ring.drop (rx_q c).

End channel.

End Channel.
