(* ===== verification/EngineRingMap.v ===== *)
(** * The engine's channels ([dpdk/memring.rs])

    The map from the clients' numbers to their channels. *)

From S2P Require Import Prelude RustStr Ffi Dpdk DpdkSim DpdkCore ConcurrentMap Mbuf Ring Channel.

Module EngineRingMap.

Section map.
Context `{Profile} {W : Type} `{!Dpdk W} {Map : Type -> Type} `{!ConcurrentMap Map}.

Record EngineRingMap := { ring_map : Map Channel.Channel }.

Definition new : EngineRingMap := {| ring_map := cm_new |}.

(** A buffer that is not sent is dropped with the function's argument. *)
Definition send (m : EngineRingMap) (key : Z) (pkt : Mbuf.Mbuf) : M (process W) (Fallible unit) :=
  match cm_get key (ring_map m) with
  | Some ch => Channel.send ch pkt
  | None => _ ← Mbuf.drop pkt; mret (Err (EFormat (str "Failed to send packet")))
  end.

Definition receive (m : EngineRingMap) (key : Z) (pkt : Mbuf.Mbuf)
    : M (process W) (Fallible unit * Mbuf.Mbuf) :=
  match cm_get key (ring_map m) with
  | Some ch => Channel.receive ch pkt
  | None => mret (Err (EFormat (str "Failed to receive packet")), pkt)
  end.

(** A packet for a client goes to the ring to that client, the last one registered for it
    and no other client's; for a client that is not registered the answer is the error and the
    buffer has gone back to its pool. *)
Theorem send_dispatch `{!ConcurrentMapLaws Map} m key key' ch p b (s : process W) :
  mem s !! p = Some b ->
  send {| ring_map := cm_insert key ch m |} key (Mbuf.from_ptr p) s
    = Ring.enqueue (Channel.tx_q ch) (Mbuf.from_ptr p) s
  /\ (key <> key' ->
      send {| ring_map := cm_insert key ch m |} key' (Mbuf.from_ptr p) s
      = send {| ring_map := m |} key' (Mbuf.from_ptr p) s)
  /\ send {| ring_map := cm_remove key m |} key (Mbuf.from_ptr p) s
    = Ret (Err (EFormat (str "Failed to send packet")),
           set_mem (delete p (mem s)) (set_ext (rte_pktmbuf_free p (ext s)) s)).
Proof.
  intros Hb. unfold send. cbn [ring_map]. rewrite !cm_get_insert, cm_get_remove, !Z.eqb_refl.
  split; [done|]. split; [intros Hne; by rewrite (proj2 (Z.eqb_neq _ _))|].
  by step Mbuf.drop_run.
Qed.

End map.

#[local] Instance witness_profile : Profile := debug.

Lemma send_dispatch_witness :
  let s := sim_process (with_rings {[ 4096 := [] ]} sim_empty) [(8192, Mbuf.packet)] in
  let ch := Channel.new (Ring.Build_Ring 12 TX 4096) (Ring.Build_Ring 12 RX 4160) in
  send {| ring_map := cm_insert 12 ch (cm_new : gmap Z Channel.Channel) |} 12 (Mbuf.from_ptr 8192) s
  = Ring.enqueue (Ring.Build_Ring 12 TX 4096) (Mbuf.from_ptr 8192) s.
Proof. intros s ch. exact (proj1 (send_dispatch (cm_new : gmap Z _) 12 13 ch 8192 Mbuf.packet s eq_refl)). Defined.

End EngineRingMap.
