(* ===== verification/Port.v ===== *)
(** * Ports and their queues ([dpdk/port.rs])

    A [PortQueue] receives and transmits bursts of packets; a [PortBuilder] checks the
    configuration of a device and makes a [Port] with one pair of queues for each core. *)

From stdpp Require Import sorting.
From S2P Require Import Prelude RustStr Constants MacAddr Ffi Dpdk DpdkSim DpdkCore Mbuf Mempool.

(** [rte_eth_rx_mq_mode] *)
Definition ETH_MQ_RX_NONE : Z := 0.
Definition ETH_MQ_RX_RSS : Z := 1.

Definition DEFAULT_RSS_HF : Z :=
  Z.lor (Z.lor (Z.lor ETH_RSS_IP ETH_RSS_TCP) ETH_RSS_UDP) ETH_RSS_SCTP.

(** The texts of [PortError] *)
Definition port_error_text (e : PortError) : rstr :=
  match e with
  | PortNotFound name => str "Port " ++ name ++ str " is not found."
  | CoreNotBound => str "Port is not bound to any cores."
  | InsufficientRxQueues n => str "Insufficient number of RX queues '" ++ fmt_dec n ++ str "'."
  | InsufficientTxQueues n => str "Insufficient number of TX queues '" ++ fmt_dec n ++ str "'."
  end.

(** A [PortId], [RxQueueIndex] or [TxQueueIndex] is its number. *)
Definition port_debug (id : Z) : rstr := str "port" ++ fmt_dec id.

Inductive RxTxQueue := Rx (index : Z) | Tx (index : Z).

Record PortQueue := {
  port_id : Z;
  rxq : Z;
  txq : Z;
}.

Definition queue_new (port rxq txq : Z) : PortQueue :=
  {| port_id := port; rxq := rxq; txq := txq |}.

Definition RX_BURST_MAX : Z := 32.

Section port.
Context `{Profile} {W : Type} `{!Dpdk W}.

(** [PortId::socket_id] *)
Definition port_socket_id (id : Z) : M (process W) (option SocketId) :=
  n ← ask (rte_eth_dev_socket_id id);
  all ← all_sockets;
  mret (if decide (Socket n ∈ all) then Some (Socket n) else None).

(** ** Queues *)

Definition get_portid (q : PortQueue) : Z := port_id q.

Definition queue_mac_addr (q : PortQueue) : M (process W) MacAddr := eth_macaddr_get (port_id q).

(** The vector has room for [RX_BURST_MAX] pointers. *)
Definition receive (q : PortQueue) : M (process W) (list Mbuf.Mbuf) :=
  ptrs ← call (rte_eth_rx_burst (port_id q) (rxq q) RX_BURST_MAX);
  if len ptrs <=? RX_BURST_MAX then
    _ ← acquire ptrs; mret (map Mbuf.from_ptr (map fst ptrs))
  else lift Undefined.

(** The buffers the device took leave the process. *)
Definition tx_burst (q : PortQueue) (ptrs : list Z) (to_send : Z) : M (process W) Z :=
  sent ← call (rte_eth_tx_burst (port_id q) (txq q) ptrs to_send);
  _ ← release_bufs (take (Z.to_nat sent) ptrs);
  mret sent.

Fixpoint transmit_loop (fuel : nat) (q : PortQueue) (ptrs : list Z) : M (process W) unit :=
  match fuel with
  | O => lift OutOfFuel
  | S fuel =>
      let to_send := wrap 16 (len ptrs) in
      sent ← tx_burst q ptrs to_send;
      if 0 <? sent then
        left ← lift (usub 16 to_send sent);
        if 0 <? left then
          if sent <=? len ptrs then transmit_loop fuel q (drop (Z.to_nat sent) ptrs)
          else lift (Panic IndexOutOfBounds)
        else mret tt
      else mbuf_free_bulk ptrs
  end.

Definition transmit (fuel : nat) (q : PortQueue) (packets : list Mbuf.Mbuf) : M (process W) unit :=
  transmit_loop fuel q (map Mbuf.into_ptr packets).

(** ** Ports *)

Record Port := {
  id : Z;
  name : rstr;
  device : rstr;
  queues : gmap Z PortQueue;
  dev_info : rte_eth_dev_info;
}.

Definition mac_addr (p : Port) : M (process W) MacAddr := eth_macaddr_get (id p).

Definition start (p : Port) : M (process W) (Fallible unit) :=
  r ← call (rte_eth_dev_start (id p));
  _ ←? or_errno r;
  r ← call (rte_eth_promiscuous_enable (id p));
  _ ←? or_errno r;
  mret (Ok tt).

Definition stop (p : Port) : M (process W) unit := call_ (rte_eth_dev_stop (id p)).

(** [impl Drop for Port] *)
Definition close (p : Port) : M (process W) unit := call_ (rte_eth_dev_close (id p)).

(** [impl fmt::Debug for Port] *)
Definition fmt (p : Port) : M (process W) rstr :=
  let info := dev_info p in
  mac ← mac_addr p;
  driver ← lift (as_str (driver_name info));
  socket ← port_socket_id (id p);
  mret (debug_struct (name p)
    [("device"%string, debug_str (device p));
     ("port"%string, fmt_dec (id p));
     ("mac"%string, [quote] ++ MacAddr.to_string mac ++ [quote]);
     ("driver"%string, debug_str driver);
     ("rx_offload"%string, fmt_prefixed_hex (rx_offload_capa info));
     ("tx_offload"%string, fmt_prefixed_hex (tx_offload_capa info));
     ("max_rxq"%string, fmt_dec (max_rx_queues info));
     ("max_txq"%string, fmt_dec (max_tx_queues info));
     ("socket"%string, fmt_int (match socket with Some s => socket_raw s | None => -1 end))]).

(** ** The builder *)

Record PortBuilder := {
  b_name : rstr;
  b_device : rstr;
  b_port_id : Z;
  b_dev_info : rte_eth_dev_info;
  b_cores : list Z;
  b_mempools : Mempool.MempoolMap;
  rxd : Z;
  txd : Z;
}.

Definition builder_new (name device : rstr) : M (process W) (Fallible PortBuilder) :=
  cname ← lift (to_cstring device);
  r ← ask (rte_eth_dev_get_port_by_name cname);
  _ ←? or_errno (fst r);
  let port_id := snd r in
  dev_info ← ask (rte_eth_dev_info_get port_id);
  mret (Ok {| b_name := name; b_device := device; b_port_id := port_id; b_dev_info := dev_info;
              b_cores := [0]; b_mempools := Mempool.map_default; rxd := 0; txd := 0 |}).

(** [Vec::dedup] removes the elements equal to the one before. *)
Fixpoint dedup (l : list Z) : list Z :=
  match l with
  | x :: (y :: _) as l' => if x =? y then dedup l' else x :: dedup l'
  | _ => l
  end.

Definition set_cores (cores : list Z) (b : PortBuilder) : PortBuilder :=
  {| b_name := b_name b; b_device := b_device b; b_port_id := b_port_id b;
     b_dev_info := b_dev_info b; b_cores := cores; b_mempools := b_mempools b;
     rxd := rxd b; txd := txd b |}.

Definition cores (b : PortBuilder) (cores : list Z) : Fallible PortBuilder :=
  match cores with
  | [] => Err (EPort CoreNotBound)
  | _ =>
      let cores := dedup (merge_sort Z.le cores) in
      let n := wrap 16 (len cores) in
      if negb (n <=? max_rx_queues (b_dev_info b))
      then Err (EPort (InsufficientRxQueues (max_rx_queues (b_dev_info b))))
      else if negb (n <=? max_tx_queues (b_dev_info b))
      then Err (EPort (InsufficientTxQueues (max_tx_queues (b_dev_info b))))
      else Ok (set_cores cores b)
  end.

Definition rx_tx_queue_capacity (b : PortBuilder) (rx tx : Z) : M (process W) (Fallible PortBuilder) :=
  r ← ask (rte_eth_dev_adjust_nb_rx_tx_desc (b_port_id b) (wrap 16 rx) (wrap 16 tx));
  _ ←? or_errno (fst r);
  mret (Ok {| b_name := b_name b; b_device := b_device b; b_port_id := b_port_id b;
              b_dev_info := b_dev_info b; b_cores := b_cores b; b_mempools := b_mempools b;
              rxd := fst (snd r); txd := snd (snd r) |}).

Definition mempools (b : PortBuilder) (pools : list Mempool.Mempool) : M (process W) PortBuilder :=
  m ← Mempool.map_new pools;
  mret {| b_name := b_name b; b_device := b_device b; b_port_id := b_port_id b;
          b_dev_info := b_dev_info b; b_cores := b_cores b; b_mempools := m;
          rxd := rxd b; txd := txd b |}.

(** The configuration handed to [rte_eth_dev_configure] *)
Definition eth_conf (b : PortBuilder) : rte_eth_conf :=
  let multi := 1 <? wrap 16 (len (b_cores b)) in
  {| mq_mode := if multi then ETH_MQ_RX_RSS else ETH_MQ_RX_NONE;
     rss_hf := if multi then Z.land DEFAULT_RSS_HF (flow_type_rss_offloads (b_dev_info b)) else 0;
     tx_offloads :=
       if 0 <? Z.land (tx_offload_capa (b_dev_info b)) DEV_TX_OFFLOAD_MBUF_FAST_FREE
       then Z.lor 0 DEV_TX_OFFLOAD_MBUF_FAST_FREE else 0 |}.

(** The queues of the cores from index [idx] on *)
Fixpoint setup_queues (b : PortBuilder) (socket mempool idx : Z) (cores : list Z)
    (queues : gmap Z PortQueue) : M (process W) (Fallible (gmap Z PortQueue)) :=
  match cores with
  | [] => mret (Ok queues)
  | core_id :: cores =>
      let rxq := wrap 16 idx in
      r ← call (rte_eth_rx_queue_setup (b_port_id b) rxq (rxd b) (wrap 32 socket) mempool);
      _ ←? or_errno r;
      let txq := wrap 16 idx in
      r ← call (rte_eth_tx_queue_setup (b_port_id b) txq (txd b) (wrap 32 socket));
      _ ←? or_errno r;
      let q := queue_new (b_port_id b) rxq txq in
      setup_queues b socket mempool (idx + 1) cores (<[core_id := q]> queues)
  end.

Definition finish (b : PortBuilder) (multicast : bool) : M (process W) (Fallible Port) :=
  let n := wrap 16 (len (b_cores b)) in
  r ← call (rte_eth_dev_configure (b_port_id b) n n (eth_conf b));
  _ ←? or_errno r;
  s ← port_socket_id (b_port_id b);
  socket_id ← match s with
              | Some s => mret s
              | None => match b_cores b with
                        | c :: _ => core_socket_id c
                        | [] => lift (Panic IndexOutOfBounds)
                        end
              end;
  mempool ←? mret (Mempool.get_raw (b_mempools b) socket_id);
  queues ←? setup_queues b (socket_raw socket_id) mempool 0 (b_cores b) ∅;
  _ ← (if multicast then call_ (rte_eth_allmulticast_enable (b_port_id b))
       else call_ (rte_eth_allmulticast_disable (b_port_id b)));
  mret (Ok {| id := b_port_id b; name := b_name b; device := b_device b; queues := queues;
              dev_info := b_dev_info b |}).

End port.

(** ** Starting *)

Section start.
Context `{Profile} {W : Type} `{!Dpdk W}.

Lemma or_errno_ok n (s s' : process W) a : or_errno n s = Ret (Ok a, s') -> s' = s /\ 0 <= n.
Proof.
  unfold or_errno. destruct (Z.leb_spec 0 n); [by intros [= _ <-]|]. by intros (e & s1 & _ & [= ])%bind_inv.
Qed.

(** A port that was started is always promiscuous: the device was told so after it was started,
    and both calls succeeded. *)
Theorem start_promiscuous p (s s' : process W) : start p s = Ret (Ok tt, s') ->
  let '(r1, w1) := rte_eth_dev_start (id p) (ext s) in
  let '(r2, w2) := rte_eth_promiscuous_enable (id p) w1 in
  0 <= r1 /\ 0 <= r2 /\ s' = set_ext w2 s.
Proof.
  unfold start. intros (r1 & s1 & E1 & E)%bind_inv. apply try_inv in E as (a1 & s2 & [-> H1]%or_errno_ok & E).
  apply bind_inv in E as (r2 & s3 & E2 & E). apply try_inv in E as (a2 & s4 & [-> H2]%or_errno_ok & E).
  unfold call in E1, E2. destruct (rte_eth_dev_start (id p) (ext s)) as [n1 w1]. injection E1 as <- <-.
  change (ext (set_ext w1 s)) with w1 in E2. destruct (rte_eth_promiscuous_enable (id p) w1) as [n2 w2].
  injection E2 as <- <-. injection E as <-. by split_and!.
Qed.

End start.

(** ** The cores of a port *)

Lemma dedup_elem l x : x ∈ dedup l <-> x ∈ l.
Proof.
  induction l as [|a [|b l] IH]; [done..|]. cbn [dedup] in *.
  destruct (Z.eqb_spec a b) as [->|].
  - rewrite IH, !elem_of_cons. tauto.
  - rewrite elem_of_cons, IH, (elem_of_cons _ _ a). done.
Qed.

Lemma dedup_sorted l : StronglySorted Z.le l -> StronglySorted Z.lt (dedup l).
Proof.
  induction 1 as [|a l Hs IH Hle]; [constructor|]. destruct l as [|b l]; [by repeat constructor|].
  cbn [dedup] in *. destruct (Z.eqb_spec a b) as [->|Hne]; [done|]. constructor; [done|].
  apply Forall_forall. intros x Hx. apply (proj1 (dedup_elem (b :: l) x)) in Hx. apply StronglySorted_inv in Hs as [_ Hb].
  apply Forall_cons in Hle as [Hab _]. apply elem_of_cons in Hx as [->|Hx]; [lia|].
  rewrite Forall_forall in Hb. specialize (Hb _ Hx). lia.
Qed.

Lemma sorted_lt_NoDup l : StronglySorted Z.lt l -> NoDup l.
Proof.
  induction 1 as [|a l _ IH Hlt]; constructor; [|done]. intros Hin.
  rewrite Forall_forall in Hlt. specialize (Hlt _ Hin). lia.
Qed.

(** The sorted list without duplicates of a vector of cores *)
Definition distinct (l : list Z) : list Z := dedup (merge_sort Z.le l).

Lemma distinct_sorted l : StronglySorted Z.lt (distinct l).
Proof. apply dedup_sorted, StronglySorted_merge_sort; [intros ? ? ?; lia|intros ? ?; lia]. Qed.

Lemma distinct_elem l x : x ∈ distinct l <-> x ∈ l.
Proof. unfold distinct. by rewrite dedup_elem, merge_sort_Permutation. Qed.

Lemma distinct_length l : length (distinct l) = size (list_to_set l : gset Z).
Proof.
  rewrite <- (size_list_to_set (C := gset Z)) by apply sorted_lt_NoDup, distinct_sorted.
  f_equal. apply set_eq. intros x. by rewrite !elem_of_list_to_set, distinct_elem.
Qed.

(** [cores] accepts a non-empty list exactly when the device has a receive and a transmit
    queue for each distinct core of it; the builder then holds each of them once, in
    increasing order, and nothing else of it changes. *)
Theorem cores_spec b l :
  let n := Z.of_nat (size (list_to_set l : gset Z)) in
  l <> [] -> n < 2 ^ 16 ->
  (is_ok (cores b l) = true
     <-> n <= max_rx_queues (b_dev_info b) /\ n <= max_tx_queues (b_dev_info b))
  /\ forall b', cores b l = Ok b' ->
       b' = set_cores (b_cores b') b /\ StronglySorted Z.lt (b_cores b')
       /\ (forall c, c ∈ b_cores b' <-> c ∈ l) /\ len (b_cores b') = n.
Proof.
  intros n Hl Hn. unfold cores. destruct l as [|c l]; [done|].
  fold (distinct (c :: l)). rewrite (wrap_small 16) by (rewrite distinct_length; unfold n in *; lia).
  rewrite distinct_length. fold n.
  destruct (Z.leb_spec n (max_rx_queues (b_dev_info b))); cbn [negb];
    [destruct (Z.leb_spec n (max_tx_queues (b_dev_info b))); cbn [negb]|];
    (split; [cbn; split; [lia|intros; lia || done]|intros b' [= <-]]).
  cbn [b_cores set_cores]. split_and!; [done|apply distinct_sorted|apply distinct_elem|]. by rewrite distinct_length.
Qed.

Lemma cores_spec_witness :
  let b := Build_PortBuilder (str "p0") (str "net_null0") 0
             (Build_rte_eth_dev_info (str "net_null") 4 4 0 0 0) [0] Mempool.map_default 0 0 in
  is_ok (cores b [2; 1; 2; 0]) = true.
Proof.
  intros b. refine (proj2 (proj1 (cores_spec b [2; 1; 2; 0] ltac:(done) _)) _).
  - by vm_compute.
  - split; vm_compute; discriminate.
Defined.

(** ** Transmitting *)

(** What DPDK promises of a transmit queue and of a pool, seen through the packets [wire]d so
    far and the buffers [returned] to the pools: a burst takes a prefix of what it is offered,
    and a buffer put back is back. *)
Class TxLaws (W : Type) `{Dpdk W} (wire returned : W -> list Z) := {
  tx_law : forall port q l n w k w', rte_eth_tx_burst port q l n w = (k, w') ->
    0 <= n -> 0 <= k <= n /\ wire w' = wire w ++ take (Z.to_nat k) l /\ returned w' = returned w;
  put_law : forall pool l n w,
    wire (rte_mempool_put_bulk pool l n w) = wire w
    /\ returned (rte_mempool_put_bulk pool l n w) = returned w ++ l;
}.

Section transmit.
Context `{Profile} {W : Type} `{HD : !Dpdk W} {wire returned : W -> list Z}.
Context `{!TxLaws W wire returned}.

Lemma freed_ext pool bs (s : process W) :
  wire (ext (fold_left (freed pool) bs s)) = wire (ext s)
  /\ returned (ext (fold_left (freed pool) bs s)) = returned (ext s) ++ concat bs.
Proof.
  revert s. induction bs as [|b bs IH]; intros s; cbn; [by rewrite app_nil_r|].
  destruct (IH (freed pool s b)) as [-> ->]. cbn.
  destruct (put_law pool b (wrap 16 (len b)) (ext s)) as [_ _].
  destruct (put_law pool b (wrap 32 (len b)) (ext s)) as [-> ->]. by rewrite <- app_assoc.
Qed.

(** The bursts that move [ptrs] to the device from the state [w]: the device is offered all that
    is left again as long as it takes some and not all of it. There are [n] of them, [rest] is
    what it has not taken when it takes none, and [w'] the state after them. *)
Inductive bursts (q : PortQueue) : nat -> list Z -> W -> list Z -> W -> Prop :=
  | bursts_all ptrs w w' : ptrs <> [] ->
      rte_eth_tx_burst (port_id q) (txq q) ptrs (len ptrs) w = (len ptrs, w') ->
      bursts q 1 ptrs w [] w'
  | bursts_stuck ptrs w w' :
      rte_eth_tx_burst (port_id q) (txq q) ptrs (len ptrs) w = (0, w') ->
      bursts q 1 ptrs w ptrs w'
  | bursts_some n ptrs w k w1 rest w' :
      rte_eth_tx_burst (port_id q) (txq q) ptrs (len ptrs) w = (k, w1) -> 0 < k < len ptrs ->
      bursts q n (drop (Z.to_nat k) ptrs) w1 rest w' ->
      bursts q (S n) ptrs w rest w'.

Lemma tx_burst_run q ptrs n (s : process W) :
  0 <= n -> exists k s', tx_burst q ptrs n s = Ret (k, s')
  /\ rte_eth_tx_burst (port_id q) (txq q) ptrs n (ext s) = (k, ext s') /\ 0 <= k <= n
  /\ wire (ext s') = wire (ext s) ++ take (Z.to_nat k) ptrs
  /\ returned (ext s') = returned (ext s)
  /\ mem s' = fold_left (fun m p => delete p m) (take (Z.to_nat k) ptrs) (mem s).
Proof.
  intros Hn. unfold tx_burst. destruct (rte_eth_tx_burst (port_id q) (txq q) ptrs n (ext s)) as [k w] eqn:E.
  destruct (tx_law _ _ _ _ _ _ _ E Hn) as (Hk & Hw & Hr).
  erewrite bind_ret by (unfold call; rewrite E; reflexivity). done_step.
  eexists k, _. split; [done|]. destruct Hk. by split_and!.
Qed.

(** The bursts end with [k] of the buffers on the wire, the others are then back in a pool, and
    none is left. *)
Definition disposed (q : PortQueue) (l : list Z) (s s' : process W) : Prop :=
  exists n k w, bursts q n l (ext s) (drop k l) w /\ (n <= length l)%nat
  /\ (drop k l = [] -> ext s' = w)
  /\ wire (ext s') = wire (ext s) ++ take k l
  /\ returned (ext s') = returned (ext s) ++ drop k l
  /\ mem s' = fold_left (fun m p => delete p m) l (mem s).

Lemma free_bulk_freed l (s : process W) :
  l <> [] -> NoDup (map fst l) -> Forall (fun b => mem s !! fst b = Some (snd b)) l ->
  exists s', mbuf_free_bulk (map fst l) s = Ret (tt, s') /\ wire (ext s') = wire (ext s)
  /\ returned (ext s') = returned (ext s) ++ map fst l
  /\ mem s' = fold_left (fun m p => delete p m) (map fst l) (mem s).
Proof.
  intros Hl Hnd Hm. destruct l as [|first rest]; [done|].
  eexists. split; [by apply mbuf_free_bulk_run|].
  destruct (freed_ext (Dpdk.pool (snd first)) (batches (Dpdk.pool (snd first)) [] (first :: rest)) s) as [-> ->].
  by rewrite freed_mem, batches_concat.
Qed.

(** What is left after a burst that took some can be transmitted as what was there before. *)
Lemma left_after n (l : list (Z * rte_mbuf)) (m0 : gmap Z rte_mbuf) :
  (0 < n < length l)%nat -> NoDup (map fst l) -> Forall (fun b => m0 !! fst b = Some (snd b)) l ->
  drop n l <> [] /\ NoDup (map fst (drop n l)) /\
  Forall (fun b => fold_left (fun m p => delete p m) (map fst (take n l)) m0 !! fst b = Some (snd b)) (drop n l).
Proof.
  intros Hn Hnd Hm. pose proof (take_drop n l) as El.
  assert (Hnd' : NoDup (map fst (take n l) ++ map fst (drop n l))) by (rewrite <- map_app; by rewrite El).
  apply NoDup_app in Hnd' as (_ & Hdis & Hnd2). split; [|split; [done|]].
  - intros E0. apply (f_equal length) in E0. rewrite length_drop in E0. cbn in E0. lia.
  - rewrite <- El, Forall_app in Hm. destruct Hm as [_ Hm]. apply Forall_forall. intros b Hb.
    rewrite deletes_lookup; [by apply (proj1 (Forall_forall _ _) Hm)|].
    intros Hin. apply (Hdis _ Hin). apply list_elem_of_In, in_map, list_elem_of_In. done.
Qed.

Lemma transmit_loop_run fuel q l (s : process W) :
  l <> [] -> len l < 2 ^ 16 -> NoDup (map fst l) ->
  Forall (fun b => mem s !! fst b = Some (snd b)) l -> (length l < fuel)%nat ->
  exists s', transmit_loop fuel q (map fst l) s = Ret (tt, s') /\ disposed q (map fst l) s s'.
Proof.
  revert l s. induction fuel as [|fuel IH]; intros l s Hl Hlen Hnd Hm Hf; [lia|].
  cbn [transmit_loop]. rewrite length_map, wrap_small by lia.
  assert (Hpos : (0 < length l)%nat) by (destruct l; [done|cbn; lia]).
  destruct (tx_burst_run q (map fst l) (len l) s) as (k & s1 & E & Et & Hk & Hw & Hr & Hmem); [lia|].
  assert (El : len l = len (map fst l)) by (by rewrite length_map). rewrite El in Et.
  step E. destruct (Z.ltb_spec 0 k).
  2: { replace k with 0 in * by lia. cbn in Hw, Hmem. rewrite app_nil_r in Hw.
       destruct (free_bulk_freed l s1 Hl Hnd) as (s' & Hfree & Hw' & Hr' & Hm'); [by rewrite Hmem|].
       exists s'. split; [done|]. exists 1%nat, O, (ext s1). rewrite Hw', Hr', Hm', Hw, Hr, Hmem, app_nil_r.
       split; [by apply bursts_stuck|]. rewrite length_map. split; [lia|]. split; [|done].
       intros E0. apply map_eq_nil in E0. done. }
  calc. destruct (Z.ltb_spec 0 (len l - k)).
  2: { replace k with (len l) in * by lia. eexists. split; [done|]. exists 1%nat, (length l), (ext s1).
       rewrite Nat2Z.id in Hw, Hmem. rewrite take_ge in Hmem by (rewrite length_map; lia).
       rewrite drop_ge, app_nil_r by (rewrite length_map; lia). rewrite length_map.
       split; [|by split_and!]. apply bursts_all; [by destruct l|congruence]. }
  rewrite (proj2 (Z.leb_le _ _)) by lia. rewrite firstn_map in Hmem. rewrite skipn_map.
  set (n := Z.to_nat k) in *. assert (Hn : (0 < n < length l)%nat) by lia.
  destruct (left_after n l (mem s) Hn Hnd Hm) as (Hl2 & Hnd2 & Hm2). rewrite <- Hmem in Hm2.
  destruct (IH (drop n l) s1) as (s' & Hrun & i & j & w & Hb & Hi & Hext & Hw' & Hr' & Hm');
    [done|rewrite length_drop; lia|done|done|rewrite length_drop; lia|].
  exists s'. split; [done|]. exists (S i), (n + j)%nat, w. rewrite <- skipn_map, drop_drop in *.
  split; [|split; [|split; [exact Hext|]]].
  - eapply bursts_some; [exact Et|rewrite <- El; lia|done].
  - rewrite length_drop, !length_map in *. lia.
  - rewrite Hw', Hr', Hm', Hw, Hr, Hmem, <- app_assoc, take_take_drop, <- fold_left_app.
    rewrite <- (firstn_map fst), take_drop. done.
Qed.

(** C4: [transmit] of at least one and up to 65535 distinct buffers ends after at most as many
    bursts as there are buffers. As long as the device takes some of the packets and not all, it
    is offered exactly the others again ([bursts]); only when a burst takes none do those that
    are left go back to the pools, and when a burst takes all nothing else happens. So a prefix
    of the packets is on the wire, in order, the rest is freed, each buffer is handed over
    exactly once and none is leaked. *)
Theorem transmit_disposes fuel q l (s : process W) :
  l <> [] -> len l < 2 ^ 16 -> NoDup (map fst l) ->
  Forall (fun b => mem s !! fst b = Some (snd b)) l -> (length l < fuel)%nat ->
  exists s' n k w, transmit fuel q (map Mbuf.from_ptr (map fst l)) s = Ret (tt, s')
  /\ bursts q n (map fst l) (ext s) (drop k (map fst l)) w /\ (n <= length l)%nat
  /\ (drop k (map fst l) = [] -> ext s' = w)
  /\ wire (ext s') = wire (ext s) ++ take k (map fst l)
  /\ returned (ext s') = returned (ext s) ++ drop k (map fst l)
  /\ (forall p, p ∈ map fst l -> mem s' !! p = None)
  /\ (forall p, p ∉ map fst l -> mem s' !! p = mem s !! p).
Proof.
  intros Hl Hlen Hnd Hm Hf. unfold transmit. rewrite (map_map Mbuf.from_ptr), map_id.
  destruct (transmit_loop_run fuel q l s) as (s' & E & n & k & w & Hb & Hn & He & Hw & Hr & Hmem); [done..|].
  rewrite length_map in Hn. exists s', n, k, w. rewrite Hmem. split_and!; [done..| |].
  - intros p. apply deletes_gone.
  - intros p. apply deletes_lookup.
Qed.

(** Transmitting no packet at all panics: the empty burst is taken for a full queue, and
    the assertion that there is something to free fails. *)
Theorem transmit_empty_panics fuel q (s : process W) :
  transmit (S fuel) q [] s = Panic AssertionFailed.
Proof.
  unfold transmit. cbn [map transmit_loop]. cbn [List.length Z.of_nat]. rewrite wrap_small by lia.
  destruct (tx_burst_run q [] 0 s) as (k & s1 & E & _ & Hk & _); [lia|].
  step E. by rewrite (proj2 (Z.ltb_ge _ _)) by lia.
Qed.

(** The number of packets offered to the device is cut to 16 bits, so of a vector longer
    than 65535 that is not a multiple of 65536 only the first [len mod 65536] packets are
    sent when the device takes what it is offered: the others are neither sent nor freed, and
    no handle is left on them. *)
Theorem transmit_long_leaks fuel q ptrs (s : process W) w :
  let n := len ptrs `mod` 2 ^ 16 in
  2 ^ 16 <= len ptrs -> 0 < n ->
  rte_eth_tx_burst (port_id q) (txq q) ptrs n (ext s) = (n, w) ->
  exists s', transmit (S fuel) q (map Mbuf.from_ptr ptrs) s = Ret (tt, s')
  /\ wire (ext s') = wire (ext s) ++ take (Z.to_nat n) ptrs
  /\ returned (ext s') = returned (ext s)
  /\ mem s' = fold_left (fun m p => delete p m) (take (Z.to_nat n) ptrs) (mem s).
Proof.
  intros n Hlen Hn Ht. destruct (tx_burst_run q ptrs n s) as (k & s1 & E & _ & Hk & Hrest); [lia|].
  assert (k = n) as ->.
  { unfold tx_burst in E. erewrite bind_ret in E by (unfold call; rewrite Ht; reflexivity).
    erewrite bind_ret in E by reflexivity. by injection E. }
  exists s1. split; [|done]. unfold transmit. rewrite map_map, map_id. cbn [transmit_loop].
  assert (Hn2 : n < 2 ^ 16) by (apply Z.mod_pos_bound; lia).
  change (wrap 16 (len ptrs)) with n. step E. rewrite (proj2 (Z.ltb_lt _ _)) by done.
  calc. by rewrite Z.sub_diag.
Qed.

End transmit.

(** *** Witnesses *)

#[local] Instance witness_profile : Profile := debug.

Definition sim_wire (w : sim) : list Z :=
  concat (map (fun e => match e with Sent _ _ l => l | _ => [] end) (sim_log w)).
Definition sim_returned (w : sim) : list Z :=
  concat (map (fun e => match e with PutBulk _ l => l | _ => [] end) (sim_log w)).

#[local] Instance sim_tx_laws : TxLaws sim sim_wire sim_returned.
Proof.
  split.
  - intros port q l n w k w' [= <- <-] Hn. unfold sim_wire, sim_returned.
    cbn [sim_log log]. rewrite !map_app, !concat_app. cbn. rewrite !app_nil_r.
    split_and!; [lia|lia|done|done].
  - intros pool l n w. unfold sim_wire, sim_returned. cbn. rewrite !map_app, !concat_app. cbn.
    by rewrite !app_nil_r.
Qed.

Definition three : list (Z * rte_mbuf) :=
  [(8192, Mbuf.packet); (8256, Mbuf.packet); (8320, Mbuf.packet)].

(** A device that takes two packets at a time *)
Definition slow_sim : process sim :=
  sim_process (Sim 0 4096 [] [] ∅ [] 2 []) three.

Lemma transmit_disposes_witness :
  exists s' n k w, transmit 4 (queue_new 0 0 0) (map Mbuf.from_ptr [8192; 8256; 8320]) slow_sim = Ret (tt, s')
  /\ bursts (queue_new 0 0 0) n [8192; 8256; 8320] (ext slow_sim) (drop k [8192; 8256; 8320]) w
  /\ (n <= 3)%nat /\ (drop k [8192; 8256; 8320] = [] -> ext s' = w)
  /\ sim_wire (ext s') = take k [8192; 8256; 8320]
  /\ sim_returned (ext s') = drop k [8192; 8256; 8320]
  /\ (forall p, p ∈ [8192; 8256; 8320] -> mem s' !! p = None)
  /\ (forall p, p ∉ [8192; 8256; 8320] -> mem s' !! p = mem slow_sim !! p).
Proof.
  refine (transmit_disposes (HD := DpdkSim) (wire := sim_wire) (returned := sim_returned)
    4 (queue_new 0 0 0) three slow_sim ltac:(done) eq_refl _ _ ltac:(cbn; lia)).
  - apply (bool_decide_unpack _). by vm_compute.
  - repeat apply Forall_cons_2; [by vm_compute..|apply Forall_nil_2].
Defined.

Lemma transmit_empty_panics_witness :
  transmit 1 (queue_new 0 0 0) [] slow_sim = Panic AssertionFailed.
Proof.
  exact (transmit_empty_panics (HD := DpdkSim) (wire := sim_wire) (returned := sim_returned)
    0 (queue_new 0 0 0) slow_sim).
Defined.

(** 65537 pointers to a device that takes what it is offered: one packet *)
Lemma transmit_long_leaks_witness :
  let l := replicate (Z.to_nat 65537) 8192 in
  exists s', transmit 1 (queue_new 0 0 0) (map Mbuf.from_ptr l) slow_sim = Ret (tt, s')
  /\ sim_wire (ext s') = [8192] /\ sim_returned (ext s') = [].
Proof.
  intros l. assert (Hl : len l = 65537) by (unfold l; rewrite length_replicate; reflexivity).
  assert (Hm : len l `mod` 2 ^ 16 = 1) by (rewrite Hl; reflexivity).
  destruct (transmit_long_leaks (HD := DpdkSim) (wire := sim_wire) (returned := sim_returned)
    0 (queue_new 0 0 0) l slow_sim (log (Sent 0 0 [8192]) (ext slow_sim))) as (s' & E & Hw & Hr & _).
  - rewrite Hl. done.
  - by rewrite Hm.
  - rewrite Hm. reflexivity.
  - exists s'. rewrite Hm in Hw. split; [exact E|]. split; [exact Hw|exact Hr].
Defined.

(** ** Making a port *)

Section finish.
Context `{Profile} {W : Type} `{HD : !Dpdk W}.

Lemma setup_queues_run b socket mempool idx l qs s r s' :
  NoDup l -> 0 <= idx -> idx + len l < 2 ^ 16 ->
  setup_queues b socket mempool idx l qs s = Ret (Ok r, s') ->
  (forall i c, l !! i = Some c ->
     r !! c = Some (queue_new (b_port_id b) (idx + Z.of_nat i) (idx + Z.of_nat i)))
  /\ forall c, c ∉ l -> r !! c = qs !! c.
Proof.
  revert idx qs s. induction l as [|c l IH]; intros idx qs s Hnd Hi Hlen E; cbn [setup_queues] in E.
  { injection E as <- <-. by split. }
  apply NoDup_cons in Hnd as [Hc Hnd]. cbn [List.length] in Hlen.
  apply bind_inv in E as (r1 & s1 & _ & E). apply try_inv in E as (_ & s2 & _ & E).
  apply bind_inv in E as (r2 & s3 & _ & E). apply try_inv in E as (_ & s4 & _ & E).
  rewrite wrap_small in E by lia. apply IH in E as [Hl Ho]; [|done|lia..]. split.
  - intros [|i] c' Hi'; cbn in Hi'.
    + injection Hi' as <-. rewrite Ho, lookup_insert_eq by done. by rewrite Z.add_0_r.
    + apply Hl in Hi'. rewrite Hi'. do 2 f_equal; lia.
  - intros c' [Hne Hc']%not_elem_of_cons. rewrite Ho by done. by rewrite lookup_insert_ne.
Qed.

(** C28: When [finish] answers [Ok], the port has exactly one queue pair for each core of the
    builder, the pair of the [i]-th core having index [i] in both directions: no two cores
    share a receive or a transmit queue. *)
Theorem finish_queues b multicast port (s s' : process W) :
  NoDup (b_cores b) -> len (b_cores b) < 2 ^ 16 ->
  finish b multicast s = Ret (Ok port, s') ->
  id port = b_port_id b
  /\ (forall i c, b_cores b !! i = Some c ->
        queues port !! c = Some (queue_new (b_port_id b) (Z.of_nat i) (Z.of_nat i)))
  /\ (forall c, c ∉ b_cores b -> queues port !! c = None)
  /\ (forall c c' q q', queues port !! c = Some q -> queues port !! c' = Some q' ->
        rxq q = rxq q' \/ txq q = txq q' -> c = c').
Proof.
  intros Hnd Hlen E. unfold finish in E.
  apply bind_inv in E as (r1 & s1 & _ & E). apply try_inv in E as (_ & s2 & _ & E).
  apply bind_inv in E as (so & s3 & _ & E). apply bind_inv in E as (socket & s4 & _ & E).
  apply try_inv in E as (mp & s5 & _ & E). apply try_inv in E as (qs & s6 & Eq & E).
  apply bind_inv in E as (u & s7 & _ & E). injection E as <- _. cbn [id queues].
  apply setup_queues_run in Eq as [Hl Ho]; [|done|lia..]. cbn in Hl.
  assert (Hnone : forall c, c ∉ b_cores b -> qs !! c = None) by (intros c Hc; by rewrite Ho by done).
  split_and!; [done|exact Hl|done|].
  intros c c' q q' Hq Hq' Hx.
  assert (Hex : forall c q, qs !! c = Some q -> exists i, b_cores b !! i = Some c
    /\ q = queue_new (b_port_id b) (Z.of_nat i) (Z.of_nat i)).
  { intros d p Hd. destruct (decide (d ∈ b_cores b)) as [Hin|Hin]; [|by rewrite Hnone in Hd].
    apply list_elem_of_lookup in Hin as [i Hi]. exists i. split; [done|]. pose proof (Hl _ _ Hi) as E2. rewrite Hd in E2. by injection E2 as ->. }
  destruct (Hex _ _ Hq) as (i & Hi & ->), (Hex _ _ Hq') as (j & Hj & ->). cbn in Hx.
  assert (i = j) as -> by lia. congruence.
Qed.

End finish.

Lemma finish_queues_witness :
  let pools := Mempool.Build_MempoolMap {[ Socket 0 := {| Mempool.raw := 512 |} ]} in
  let b := Build_PortBuilder (str "p0") (str "net_null0") 0
             (Build_rte_eth_dev_info (str "net_null") 4 4 0 0 0) [1; 4] pools 64 64 in
  exists port s', finish b false (sim_process sim_empty []) = Ret (Ok port, s')
  /\ queues port !! 4 = Some (queue_new 0 1 1).
Proof.
  intros pools b.
  assert (E : exists port s', finish b false (sim_process sim_empty []) = Ret (Ok port, s'))
    by (eexists _, _; vm_compute; reflexivity).
  destruct E as (port & s' & E). exists port, s'. split; [exact E|].
  refine (proj1 (proj2 (finish_queues b false port _ s' _ _ E)) 1%nat 4 _).
  - apply (bool_decide_unpack _). by vm_compute.
  - by vm_compute.
  - reflexivity.
Defined.

Lemma start_promiscuous_witness :
  let p := {| id := 0; name := str "p0"; device := str "net_null0"; queues := ∅;
              dev_info := Build_rte_eth_dev_info (str "net_null") 4 4 0 0 0 |} in
  let s := sim_process sim_empty [] in
  0 <= 0 /\ start p s = Ret (Ok tt, s).
Proof.
  intros p s. assert (start p s = Ret (Ok tt, s)) as E by done.
  split; [exact (proj1 (start_promiscuous p s s E))|exact E].
Defined.
