(* ===== verification/Shim.v ===== *)
(** * The C functions of the bindings ([ffi/src/shim.c])

    Functions that give C's inline functions a symbol, and [stop_and_close_ports], a loop over
    the attached ports that ends the process. The functions that find packet headers are in
    [Headers]. *)

From Stdlib Require Import Sorting.Sorted.
From S2P Require Import Prelude RustStr Ffi Constants Dpdk DpdkSim.

(** The inline functions of DPDK that only these shims call, as [Dpdk] has the others: an object
    of a pool or of a ring is an address, an array is what is written to it. *)
Class Inlines (W : Type) := {
  rte_ring_count : Z -> W -> Z;
  rte_ring_dequeue_bulk : Z -> Z -> W -> Z * (list Z * Z) * W;
  rte_ring_dequeue_burst : Z -> Z -> W -> Z * (list Z * Z) * W;
  rte_ring_enqueue_bulk : Z -> list Z -> Z -> W -> Z * Z * W;
  rte_mempool_put : Z -> Z -> W -> W;
  rte_mempool_get : Z -> W -> Z * option Z * W;
  rte_get_tsc_cycles : W -> Z;
  rte_lcore_id : W -> Z;
  rte_get_timer_hz : W -> Z;
  rte_atomic16_dec : Z -> W -> W;
}.

Section inlines.
Context {W : Type} `{Dpdk W} `{Inlines W}.

Definition _rte_errno : W -> Z := rte_errno.
Definition _rte_pktmbuf_alloc (mp : Z) : W -> Z * rte_mbuf * W := rte_pktmbuf_alloc mp.
Definition _rte_pktmbuf_free (m : Z) : W -> W := rte_pktmbuf_free m.
Definition _rte_pktmbuf_alloc_bulk (pool count : Z) : W -> Z * list (Z * rte_mbuf) * W :=
  rte_pktmbuf_alloc_bulk pool count.
Definition _rte_mempool_put_bulk (mp : Z) (obj_table : list Z) (n : Z) : W -> W :=
  rte_mempool_put_bulk mp obj_table n.
Definition _rte_eth_rx_burst (port_id queue_id nb_pkts : Z) : W -> list (Z * rte_mbuf) * W :=
  rte_eth_rx_burst port_id queue_id nb_pkts.
Definition _rte_eth_tx_burst (port_id queue_id : Z) (tx_pkts : list Z) (nb_pkts : Z) : W -> Z * W :=
  rte_eth_tx_burst port_id queue_id tx_pkts nb_pkts.
Definition _rte_ring_count (r : Z) : W -> Z := rte_ring_count r.
Definition _rte_ring_dequeue_bulk (r n : Z) : W -> Z * (list Z * Z) * W := rte_ring_dequeue_bulk r n.
Definition _rte_mempool_put (mp obj : Z) : W -> W := rte_mempool_put mp obj.
Definition _rte_mempool_get (mp : Z) : W -> Z * option Z * W := rte_mempool_get mp.
Definition _rte_ring_enqueue (r obj : Z) : W -> Z * W := rte_ring_enqueue r obj.
Definition _rte_get_tsc_cycles : W -> Z := rte_get_tsc_cycles.
Definition _rte_lcore_id : W -> Z := rte_lcore_id.
Definition _rte_get_timer_hz : W -> Z := rte_get_timer_hz.
Definition _rte_atomic16_dec (v : Z) : W -> W := rte_atomic16_dec v.
Definition _rte_ring_dequeue_burst (r n : Z) : W -> Z * (list Z * Z) * W := rte_ring_dequeue_burst r n.
Definition _rte_ring_dequeue (r : Z) : W -> Z * option Z * W := rte_ring_dequeue r.
Definition _rte_ring_enqueue_bulk (r : Z) (obj_table : list Z) (n : Z) : W -> Z * Z * W :=
  rte_ring_enqueue_bulk r obj_table n.

End inlines.

(** ** Closing the ports *)

(** A process that has ended, with its exit code and what it leaves of the library's state *)
Inductive ended (W : Type) := Exit (code : Z) (w : W).
Arguments Exit {W}.

Section ports.
Context {W : Type} `{Dpdk W}.

(** [RTE_ETH_FOREACH_DEV] goes to [find_next 0] first, to [find_next (p + 1)] after the port
    [p], and ends at a number from [RTE_MAX_ETHPORTS] on. *)
Context (find_next : Z -> W -> Z).

Fixpoint foreach_dev (fuel : nat) (port_id : Z) (w : W) : option W :=
  match fuel with
  | O => None
  | S fuel =>
      if port_id <? RTE_MAX_ETHPORTS then
        let w := rte_eth_dev_stop port_id w in
        let w := rte_eth_dev_close port_id w in
        foreach_dev fuel (wrap 16 (find_next (wrap 16 (port_id + 1)) w)) w
      else Some w
  end.

Definition stop_and_close_ports (fuel : nat) (w : W) : option (ended W) :=
  match foreach_dev fuel (wrap 16 (find_next 0 w)) w with
  | Some w => Some (Exit 0 w)
  | None => None
  end.

(** What the library says of its ports: [find_next] is the first attached port from a number
    on, or [RTE_MAX_ETHPORTS]; stopping a port detaches none, and closing one detaches no
    other. *)
Class PortLaws (attached : W -> gset Z) : Prop := {
  find_next_spec p w : 0 <= p <= RTE_MAX_ETHPORTS ->
    p <= find_next p w <= RTE_MAX_ETHPORTS /\
    (find_next p w < RTE_MAX_ETHPORTS -> find_next p w ∈ attached w) /\
    forall r, p <= r < find_next p w -> r ∉ attached w;
  stop_attached p w : attached (rte_eth_dev_stop p w) = attached w;
  close_attached p r w : r <> p -> r ∈ attached (rte_eth_dev_close p w) <-> r ∈ attached w;
}.

(** Ports stopped and closed, one after the other *)
Definition close_all (ports : list Z) (w : W) : W :=
  fold_left (fun w p => rte_eth_dev_close p (rte_eth_dev_stop p w)) ports w.

(** The ports of [attached w] from [p] to [RTE_MAX_ETHPORTS], in order *)
Definition lists_ports (attached : gset Z) (p : Z) (ports : list Z) : Prop :=
  StronglySorted Z.lt ports /\ forall r, r ∈ ports <-> r ∈ attached /\ p <= r < RTE_MAX_ETHPORTS.

Context (attached : W -> gset Z) `{!PortLaws attached}.

Lemma attached_above p r w : p < r ->
  r ∈ attached (rte_eth_dev_close p (rte_eth_dev_stop p w)) <-> r ∈ attached w.
Proof. intros Hr. by rewrite close_attached, stop_attached by lia. Qed.

Lemma lists_ports_cons p q w ports : p <= q < RTE_MAX_ETHPORTS -> q ∈ attached w ->
  (forall r, p <= r < q -> r ∉ attached w) ->
  lists_ports (attached (rte_eth_dev_close q (rte_eth_dev_stop q w))) (q + 1) ports ->
  lists_ports (attached w) p (q :: ports).
Proof.
  intros Hq Hin Hno [S L]. split.
  - constructor; [done|]. apply Forall_forall. intros r [_ Hr]%L. lia.
  - intros r. rewrite elem_of_cons, L. split.
    + intros [->|[Hr ?]]; [by split; [|lia]|]. rewrite attached_above in Hr by lia. by split; [|lia].
    + intros [Hr ?]. destruct (decide (r < q)) as [Hl|Hl]; [exfalso; apply (Hno r); [lia|done]|].
      destruct (decide (r = q)) as [|Hn]; [by left|right]. rewrite attached_above by lia. by split; [|lia].
Qed.

Lemma foreach_dev_spec fuel : forall p w, 0 <= p <= RTE_MAX_ETHPORTS ->
  RTE_MAX_ETHPORTS - p < Z.of_nat fuel ->
  exists ports, lists_ports (attached w) p ports /\
    foreach_dev fuel (wrap 16 (find_next p w)) w = Some (close_all ports w).
Proof.
  induction fuel as [|fuel IH]; intros p w Hp Hf; [lia|].
  destruct (find_next_spec p w Hp) as (Hq & Hin & Hno). unfold RTE_MAX_ETHPORTS in *.
  rewrite wrap_small by lia. cbn [foreach_dev]. unfold RTE_MAX_ETHPORTS. destruct (find_next p w <? 32) eqn:E.
  - apply Z.ltb_lt in E. rewrite (wrap_small 16 (find_next p w + 1)) by lia.
    set (q := find_next p w) in *. cbv zeta.
    destruct (IH (q + 1) (rte_eth_dev_close q (rte_eth_dev_stop q w))) as (ports & L & ->); [lia|lia|].
    exists (q :: ports). split; [|done]. apply lists_ports_cons; unfold RTE_MAX_ETHPORTS; auto; lia.
  - apply Z.ltb_ge in E. exists []. split; [|done]. split; [constructor|].
    intros r. rewrite elem_of_nil. unfold RTE_MAX_ETHPORTS. split; [done|]. intros [Hr ?]. apply (Hno r); [lia|done].
Qed.

(** C29: [stop_and_close_ports] ends the process with code 0 within 33 looks for a port: it stops
    and then closes every port that was attached below [RTE_MAX_ETHPORTS], each once and in
    order, and no other, although closing ports changes what the loop goes over. *)
Theorem stop_and_close_ports_spec fuel w : (33 <= fuel)%nat ->
  exists ports, lists_ports (attached w) 0 ports /\
    stop_and_close_ports fuel w = Some (Exit 0 (close_all ports w)).
Proof.
  intros Hf. destruct (foreach_dev_spec fuel 0 w) as (ports & L & E); unfold RTE_MAX_ETHPORTS; [lia|lia|].
  exists ports. split; [done|]. unfold stop_and_close_ports. by rewrite E.
Qed.

End ports.

(** ** A concrete library *)

#[global] Instance event_dec : EqDecision event.
Proof. solve_decision. Defined.

(** A port of [ports] is attached until it is closed. *)
Definition sim_attached (ports : gset Z) (w : sim) : gset Z :=
  filter (fun p => Forall (fun e => e <> Closed p) (sim_log w)) ports.

Fixpoint first_from (n : nat) (p : Z) (s : gset Z) : Z :=
  match n with
  | O => p
  | S n => if bool_decide (p ∈ s) then p else first_from n (p + 1) s
  end.

Definition sim_find_next (ports : gset Z) (p : Z) (w : sim) : Z :=
  first_from (Z.to_nat (RTE_MAX_ETHPORTS - p)) p (sim_attached ports w).

Lemma first_from_spec n : forall p s, let q := first_from n p s in
  p <= q <= p + Z.of_nat n /\ (q < p + Z.of_nat n -> q ∈ s) /\ forall r, p <= r < q -> r ∉ s.
Proof.
  induction n as [|n IH]; intros p s; cbn [first_from]; [split; [lia|split; [lia|intros; lia]]|].
  case_bool_decide as E; [by split; [lia|split; [|intros; lia]]|].
  destruct (IH (p + 1) s) as (Hr & Hin & Hno). split; [lia|]. split; [intros; apply Hin; lia|].
  intros r Hq. destruct (decide (r = p)) as [->|]; [done|]. apply Hno. lia.
Qed.

Lemma sim_attached_log ports e w : (forall p, e <> Closed p) -> sim_attached ports (log e w) = sim_attached ports w.
Proof.
  intros He. apply set_eq. intros r. unfold sim_attached. rewrite !elem_of_filter. cbn. rewrite Forall_app.
  split; [by intros [[? _] ?]|]. intros [? ?]. split; [|done]. split; [done|]. by constructor; [apply He|].
Qed.

#[global] Instance sim_ports ports : PortLaws (sim_find_next ports) (sim_attached ports).
Proof.
  split.
  - intros p w Hp. unfold sim_find_next.
    pose proof (first_from_spec (Z.to_nat (RTE_MAX_ETHPORTS - p)) p (sim_attached ports w)) as S.
    cbv zeta in S. replace (p + Z.of_nat _) with RTE_MAX_ETHPORTS in S by lia. exact S.
  - intros p w. by apply sim_attached_log.
  - intros p r w Hr. unfold sim_attached. rewrite !elem_of_filter. cbn. rewrite Forall_app.
    split; [by intros [[? _] ?]|]. intros [? ?]. split; [|done]. split; [done|]. constructor; [|done]. congruence.
Qed.

(** Ports 1, 3 and 31 are attached. *)
Lemma stop_and_close_ports_spec_witness :
  (exists ports, lists_ports (sim_attached {[1; 3; 31]} sim_empty) 0 ports /\
    stop_and_close_ports (sim_find_next {[1; 3; 31]}) 33 sim_empty = Some (Exit 0 (close_all ports sim_empty))) /\
  option_map (fun e : ended sim => let 'Exit code w := e in (code, sim_log w))
    (stop_and_close_ports (sim_find_next {[1; 3; 31]}) 33 sim_empty) =
    Some (0, [Stopped 1; Closed 1; Stopped 3; Closed 3; Stopped 31; Closed 31]).
Proof.
  split; [|by vm_compute].
  apply (stop_and_close_ports_spec (sim_find_next {[1; 3; 31]}) (sim_attached {[1; 3; 31]})). lia.
Defined.
