(* ===== verification/Headers.v ===== *)
(** * Packet headers ([net/ether.rs], [net/ipv4.rs], [net/mod.rs])

    The Ethernet and IPv4 headers are copied out of the buffer at the places the C functions
    of [ffi/src/shim.c] compute, without a look at the length of the packet; the five-tuple
    takes its fields from them. Multi-byte fields are read as the little-endian integers of
    the x86-64 target. *)

From S2P Require Import Prelude RustStr IpAddr MacAddr Ffi Dpdk DpdkSim DpdkCore Mbuf.

Record rte_ether_hdr := {
  d_addr : list Z;
  s_addr : list Z;
  ether_type : Z;
}.

Record rte_ipv4_hdr := {
  version_ihl : Z;
  type_of_service : Z;
  total_length : Z;
  packet_id : Z;
  fragment_offset : Z;
  time_to_live : Z;
  next_proto_id : Z;
  hdr_checksum : Z;
  src_addr : Z;
  dst_addr : Z;
}.

(** A little-endian integer *)
Definition le (bytes : list Z) : Z := fold_right (fun b acc => b + 256 * acc) 0 bytes.

Definition byte_at (i : nat) (l : list Z) : Z := nth i l 0.

(** The layouts of the two structures: 14 and 20 bytes *)
Definition ether_hdr_of (l : list Z) : rte_ether_hdr :=
  {| d_addr := Mbuf.sub 0 6 l; s_addr := Mbuf.sub 6 6 l; ether_type := le (Mbuf.sub 12 2 l) |}.

Definition ipv4_hdr_of (l : list Z) : rte_ipv4_hdr :=
  {| version_ihl := byte_at 0 l;
     type_of_service := byte_at 1 l;
     total_length := le (Mbuf.sub 2 2 l);
     packet_id := le (Mbuf.sub 4 2 l);
     fragment_offset := le (Mbuf.sub 6 2 l);
     time_to_live := byte_at 8 l;
     next_proto_id := byte_at 9 l;
     hdr_checksum := le (Mbuf.sub 10 2 l);
     src_addr := le (Mbuf.sub 12 4 l);
     dst_addr := le (Mbuf.sub 16 4 l) |}.

Definition SIZEOF_ETHER_HDR : Z := 14.
Definition SIZEOF_IPV4_HDR : Z := 20.

(** ** The C functions *)

(** [rte_pktmbuf_mtod]: the offset of the data in the buffer *)
Definition mtod : M rte_mbuf Z := gets data_off.

(** The pointer is never null: it comes from a reference. *)
Definition pkt_ether_hdr : M rte_mbuf Z := mtod.

(** [None] is the null pointer. *)
Definition pkt_ipv4_hdr : M rte_mbuf (option Z) :=
  data ← mtod;
  let ipv4 := data + SIZEOF_ETHER_HDR in
  b ← Mbuf.load ipv4 1;
  let version := Z.land (Z.shiftr (byte_at 0 b) 4) 15 in
  if negb (version =? 4) then mret None else mret (Some ipv4).

(** The headers above IPv4. They ask [onvm_pkt_ipv4_hdr] for the IPv4 header, a name that nothing
    defines: it is a parameter. *)
Section transport.
Context (onvm_pkt_ipv4_hdr : M rte_mbuf (option Z)).

Definition IP_PROTOCOL_TCP : Z := 6.
Definition IP_PROTOCOL_UDP : Z := 17.

(** The protocol is the tenth byte of the header. *)
Definition pkt_transport_hdr (protocol : Z) : M rte_mbuf (option Z) :=
  ipv4 ← onvm_pkt_ipv4_hdr;
  match ipv4 with
  | None => mret None
  | Some ipv4 =>
      b ← Mbuf.load (ipv4 + 9) 1;
      if negb (byte_at 0 b =? protocol) then mret None else
      data ← mtod;
      mret (Some (data + SIZEOF_ETHER_HDR + SIZEOF_IPV4_HDR))
  end.

Definition pkt_tcp_hdr : M rte_mbuf (option Z) := pkt_transport_hdr IP_PROTOCOL_TCP.
Definition pkt_udp_hdr : M rte_mbuf (option Z) := pkt_transport_hdr IP_PROTOCOL_UDP.

End transport.

(** ** [EtherHdr] and [Ipv4Hdr] *)

(** [rte_ether_hdr] is aligned to two bytes. *)
Definition ether_from_raw : M rte_mbuf rte_ether_hdr :=
  p ← pkt_ether_hdr;
  b ← get;
  if (buf_addr b + p) `mod` 2 =? 0 then
    l ← Mbuf.load p SIZEOF_ETHER_HDR; mret (ether_hdr_of l)
  else lift Undefined.

Definition ipv4_from_raw : M rte_mbuf rte_ipv4_hdr :=
  p ← pkt_ipv4_hdr;
  match p with
  | Some p => l ← Mbuf.load p SIZEOF_IPV4_HDR; mret (ipv4_hdr_of l)
  | None => lift Undefined
  end.

Record EtherHdr := { ether_get : rte_ether_hdr }.
Record Ipv4Hdr := { ipv4_get : rte_ipv4_hdr }.

Definition ether_from_mbuf {W} (buf : Mbuf.Mbuf) : M (process W) EtherHdr :=
  h ← Mbuf.on buf ether_from_raw; mret {| ether_get := h |}.

Definition ipv4_from_mbuf {W} (buf : Mbuf.Mbuf) : M (process W) Ipv4Hdr :=
  h ← Mbuf.on buf ipv4_from_raw; mret {| ipv4_get := h |}.

(** ** [FiveTuple] *)

Record FiveTuple := {
  src_mac : MacAddr;
  dst_mac : MacAddr;
  src_ip : Ipv4Addr;
  dst_ip : Ipv4Addr;
  proto : Z;
}.

(** [Ipv4Addr::from(u32)] takes the most significant byte first. *)
Definition five_tuple_new (ipv4_hdr : Ipv4Hdr) (ether_hdr : EtherHdr) : FiveTuple :=
  let ehdr := ether_get ether_hdr in
  let ihdr := ipv4_get ipv4_hdr in
  {| src_mac := MacAddr.from_octets (s_addr ehdr);
     dst_mac := MacAddr.from_octets (d_addr ehdr);
     src_ip := Ipv4 (src_addr ihdr);
     dst_ip := Ipv4 (dst_addr ihdr);
     proto := next_proto_id ihdr |}.

Definition get_d_mac (t : FiveTuple) : MacAddr := dst_mac t.
Definition get_d_ip (t : FiveTuple) : Ipv4Addr := dst_ip t.

(** What [process_packets] does with a buffer before it uses the tables *)
Definition five_tuple_of {W} (buf : Mbuf.Mbuf) : M (process W) FiveTuple :=
  ether_hdr ← ether_from_mbuf buf;
  ipv4_hdr ← ipv4_from_mbuf buf;
  mret (five_tuple_new ipv4_hdr ether_hdr).

(** ** Lemmas *)

Lemma le_octets a b c d :
  0 <= a < 256 -> 0 <= b < 256 -> 0 <= c < 256 -> 0 <= d < 256 ->
  v4_octets (Ipv4 (le [a; b; c; d])) = [d; c; b; a].
Proof.
  intros. rewrite <- (v4_octets_new d c b a) by done. f_equal. unfold v4_new. f_equal. cbn. lia.
Qed.

Lemma load_run b x y z : buf b = x ++ y ++ z -> Mbuf.load (len x) (len y) b = Ret (y, b).
Proof.
  intros E. unfold Mbuf.load. rewrite Mbuf.inside_true; [|rewrite ?E, ?length_app; lia..].
  by rewrite E, Mbuf.sub_app.
Qed.

(** An Ethernet frame: destination, source, type and payload; an IPv4 header up to the
    protocol, the protocol, the checksum, the addresses and what follows. *)
Record frame := {
  f_dst : list Z;
  f_src : list Z;
  f_type : list Z;
  f_head : list Z;
  f_proto : Z;
  f_sum : list Z;
  f_saddr : list Z;
  f_daddr : list Z;
  f_rest : list Z;
}.

Definition ether_part (f : frame) : list Z := f_dst f ++ f_src f ++ f_type f.
Definition ipv4_part (f : frame) : list Z :=
  f_head f ++ [f_proto f] ++ f_sum f ++ f_saddr f ++ f_daddr f.
Definition frame_bytes (f : frame) : list Z := ether_part f ++ ipv4_part f ++ f_rest f.

Record frame_ok (f : frame) : Prop := {
  ok_dst : length (f_dst f) = 6%nat;
  ok_src : length (f_src f) = 6%nat;
  ok_type : length (f_type f) = 2%nat;
  ok_head : length (f_head f) = 9%nat;
  ok_sum : length (f_sum f) = 2%nat;
  ok_saddr : length (f_saddr f) = 4%nat;
  ok_daddr : length (f_daddr f) = 4%nat;
}.

Definition version (f : frame) : Z := Z.land (Z.shiftr (byte_at 0 (f_head f)) 4) 15.

Ltac explicit :=
  repeat match goal with
  | H : length ?l = S _ |- _ => destruct l; [discriminate H|cbn in H; injection H as H]
  | H : length ?l = O |- _ => destruct l; [clear H|discriminate H]
  end.

Lemma ether_hdr_fields f : frame_ok f ->
  d_addr (ether_hdr_of (ether_part f)) = f_dst f /\ s_addr (ether_hdr_of (ether_part f)) = f_src f.
Proof. destruct f, 1; cbn in *. by explicit. Qed.

Lemma ipv4_hdr_fields f : frame_ok f ->
  src_addr (ipv4_hdr_of (ipv4_part f)) = le (f_saddr f)
  /\ dst_addr (ipv4_hdr_of (ipv4_part f)) = le (f_daddr f)
  /\ next_proto_id (ipv4_hdr_of (ipv4_part f)) = f_proto f.
Proof. destruct f, 1; cbn in *. by explicit. Qed.

Lemma frame_lengths f : frame_ok f -> len (ether_part f) = 14 /\ len (ipv4_part f) = 20.
Proof. destruct 1. unfold ether_part, ipv4_part. rewrite !length_app. cbn [List.length]. lia. Qed.

Lemma le_octets_rev l :
  length l = 4%nat -> Forall (fun x => 0 <= x < 256) l -> v4_octets (Ipv4 (le l)) = rev l.
Proof.
  intros Hl Hb. explicit. rewrite !Forall_cons in Hb. destruct Hb as (? & ? & ? & ? & _).
  by apply le_octets.
Qed.

Lemma frame_buf b f h t :
  Mbuf.layout b h (frame_bytes f) t -> buf b = h ++ ether_part f ++ ipv4_part f ++ f_rest f ++ t.
Proof. intros []. rewrite lay_buf. unfold frame_bytes. by rewrite <- !app_assoc. Qed.

Section five_tuple.
Context {W : Type}.

Lemma ether_run (p : Z) b f (s : process W) h t :
  mem s !! p = Some b -> Mbuf.layout b h (frame_bytes f) t -> frame_ok f ->
  (buf_addr b + data_off b) `mod` 2 = 0 ->
  ether_from_mbuf (Mbuf.from_ptr p) s = Ret ({| ether_get := ether_hdr_of (ether_part f) |}, s).
Proof.
  intros Hb L Hf Ha. unfold ether_from_mbuf. pose proof (frame_lengths f Hf) as [He _].
  assert (E : ether_from_raw b = Ret (ether_hdr_of (ether_part f), b)).
  { unfold ether_from_raw. do 2 done_step. rewrite Ha. cbn [Z.eqb].
    pose proof (load_run b h _ _ (frame_buf _ _ _ _ L)) as Hl.
    rewrite He, <- (Mbuf.lay_off _ _ _ _ L) in Hl. by step Hl. }
  unfold Mbuf.on. erewrite bind_ret by (eapply Mbuf.with_raw_run; [exact Hb|exact E]).
  rewrite insert_id by done. by destruct s.
Qed.

Lemma pkt_ipv4_hdr_run b f h t :
  Mbuf.layout b h (frame_bytes f) t -> frame_ok f ->
  pkt_ipv4_hdr b = Ret (if version f =? 4 then Some (len h + 14) else None, b).
Proof.
  intros L Hf. pose proof (frame_lengths f Hf) as [He _]. unfold pkt_ipv4_hdr. done_step.
  destruct (f_head f) as [|v hd] eqn:Eh.
  { pose proof (ok_head f Hf) as E. by rewrite Eh in E. }
  pose proof (frame_buf _ _ _ _ L) as Eb. unfold ipv4_part in Eb. rewrite Eh, app_assoc, <- (app_assoc (v :: hd)) in Eb.
  pose proof (load_run b (h ++ ether_part f) [v] _ Eb) as Hl.
  rewrite length_app, Nat2Z.inj_add, He in Hl. cbn [List.length Z.of_nat Pos.of_succ_nat] in Hl.
  rewrite (Mbuf.lay_off _ _ _ _ L). unfold SIZEOF_ETHER_HDR. step Hl.
  unfold version. rewrite Eh. cbn [byte_at nth]. by destruct (_ =? 4).
Qed.

(** The length of the IPv4 header, options included, in bytes, and where what it carries starts *)
Definition header_length (f : frame) : Z := 4 * Z.land (byte_at 0 (f_head f)) 15.
Definition payload_offset (b : rte_mbuf) (f : frame) : Z := data_off b + SIZEOF_ETHER_HDR + header_length f.

(** The functions for TCP and UDP, with the IPv4 header found by [pkt_ipv4_hdr]: an IPv4 packet of
    the protocol has its header 34 bytes after the start of the data; with options in the IPv4
    header, that is inside the options and not the header of the segment. *)
Theorem transport_hdr_fixed protocol b f :
  Mbuf.wf b -> Mbuf.data b = frame_bytes f -> frame_ok f ->
  exists hdr, pkt_transport_hdr pkt_ipv4_hdr protocol b = Ret (hdr, b)
  /\ hdr = (if (version f =? 4) && (f_proto f =? protocol) then Some (data_off b + 34) else None)
  /\ (forall p, hdr = Some p -> p = payload_offset b f <-> header_length f = 20)
  /\ (forall p, hdr = Some p -> 20 < header_length f -> payload_offset b f - header_length f < p < payload_offset b f).
Proof.
  intros [h [t L]]%Mbuf.wf_layout Hd Hf. rewrite Hd in L. pose proof (frame_lengths f Hf) as [He _].
  pose proof (ok_head f Hf) as Eh. eexists. split; [|split; [reflexivity|]].
  - unfold pkt_transport_hdr. step (pkt_ipv4_hdr_run b f h t L Hf). destruct (version f =? 4); cbn [andb]; [|done].
    pose proof (frame_buf _ _ _ _ L) as Eb. unfold ipv4_part in Eb.
    pose proof (load_run b (h ++ ether_part f ++ f_head f) [f_proto f] (f_sum f ++ f_saddr f ++ f_daddr f ++ f_rest f ++ t)) as Hl.
    rewrite !length_app, !Nat2Z.inj_add, He, Eh in Hl.
    change (len [f_proto f]) with 1 in Hl. replace (len h + (14 + Z.of_nat 9)) with (len h + 14 + 9) in Hl by lia.
    specialize (Hl ltac:(by rewrite Eb, <- !app_assoc)). step Hl. cbn [byte_at nth].
    destruct (f_proto f =? protocol); [|done]. cbn [negb]. done_step.
    unfold SIZEOF_ETHER_HDR, SIZEOF_IPV4_HDR. by rewrite <- Z.add_assoc.
  - unfold payload_offset, SIZEOF_ETHER_HDR.
    split; intros p Hp; destruct (_ && _); try done; injection Hp as <-; lia.
Qed.

Lemma ipv4_run (p : Z) b f (s : process W) h t :
  mem s !! p = Some b -> Mbuf.layout b h (frame_bytes f) t -> frame_ok f ->
  ipv4_from_mbuf (Mbuf.from_ptr p) s
  = if version f =? 4 then Ret ({| ipv4_get := ipv4_hdr_of (ipv4_part f) |}, s) else Undefined.
Proof.
  intros Hb L Hf. pose proof (frame_lengths f Hf) as [He Hi].
  pose proof (pkt_ipv4_hdr_run b f h t L Hf) as Hp. unfold ipv4_from_mbuf.
  destruct (version f =? 4).
  - assert (E : ipv4_from_raw b = Ret (ipv4_hdr_of (ipv4_part f), b)).
    { unfold ipv4_from_raw. step Hp.
      pose proof (frame_buf _ _ _ _ L) as Eb. rewrite app_assoc in Eb.
      pose proof (load_run b (h ++ ether_part f) _ _ Eb) as Hl.
      rewrite length_app, Nat2Z.inj_add, He, Hi in Hl. cbn iota. by step Hl. }
    unfold Mbuf.on. erewrite bind_ret by (eapply Mbuf.with_raw_run; [exact Hb|exact E]).
    rewrite insert_id by done. by destruct s.
  - assert (E : ipv4_from_raw b = Undefined) by (unfold ipv4_from_raw; by step Hp).
    unfold mbind, M_bind, Mbuf.on, with_raw. cbn [Mbuf.from_ptr Mbuf.inner Mbuf.inner_ptr].
    by rewrite Hb, E.
Qed.

(** C14: For a buffer that holds an IPv4 frame at an even address, the five-tuple has the
    frame's MAC addresses and protocol, but its IP addresses are the frame's with their four
    bytes in reverse order. *)
Theorem five_tuple_fields p b f (s : process W) :
  mem s !! p = Some b -> Mbuf.wf b -> Mbuf.data b = frame_bytes f -> frame_ok f ->
  (buf_addr b + data_off b) `mod` 2 = 0 -> version f = 4 ->
  exists t, five_tuple_of (Mbuf.from_ptr p) s = Ret (t, s)
  /\ MacAddr.octets (src_mac t) = f_src f /\ MacAddr.octets (dst_mac t) = f_dst f
  /\ proto t = f_proto f
  /\ v4_octets (src_ip t) = rev (f_saddr f) /\ v4_octets (dst_ip t) = rev (f_daddr f).
Proof.
  intros Hb [h [t L]]%Mbuf.wf_layout Hd Hf Ha Hv. rewrite Hd in L. unfold five_tuple_of.
  step (ether_run p b f s h t). pose proof (ipv4_run p b f s h t Hb L Hf) as Hi.
  rewrite Hv in Hi. cbn [Z.eqb Pos.eqb] in Hi. step Hi. eexists. split; [done|].
  destruct (ether_hdr_fields f Hf) as [Ed Es], (ipv4_hdr_fields f Hf) as (Esa & Eda & Ep).
  unfold five_tuple_new, MacAddr.octets, MacAddr.from_octets.
  cbn [src_mac dst_mac src_ip dst_ip proto ether_get ipv4_get mac_octets]. rewrite Ed, Es, Esa, Eda, Ep.
  pose proof (Mbuf.lay_bytes _ _ _ _ L) as Hbytes. rewrite (Mbuf.lay_buf _ _ _ _ L) in Hbytes.
  unfold frame_bytes, ipv4_part in Hbytes. rewrite !Forall_app in Hbytes.
  split_and!; [done..| |]; apply le_octets_rev; try apply Hf; tauto.
Qed.

(** C38: A frame that is not IPv4, an ARP request for instance, is undefined behaviour: the C
    function answers a null pointer and the header is copied from it. *)
Theorem not_ipv4_undefined p b f (s : process W) :
  mem s !! p = Some b -> Mbuf.wf b -> Mbuf.data b = frame_bytes f -> frame_ok f ->
  (buf_addr b + data_off b) `mod` 2 = 0 -> version f <> 4 ->
  five_tuple_of (Mbuf.from_ptr p) s = Undefined.
Proof.
  intros Hb [h [t L]]%Mbuf.wf_layout Hd Hf Ha Hv. rewrite Hd in L. unfold five_tuple_of.
  step (ether_run p b f s h t). unfold mbind, M_bind.
  rewrite (ipv4_run p b f s h t Hb L Hf). by rewrite (proj2 (Z.eqb_neq _ _)).
Qed.

End five_tuple.

(** ** Witnesses *)

Definition udp_frame (vihl : Z) : frame := {|
  f_dst := [2; 0; 0; 0; 0; 1]; f_src := [2; 0; 0; 0; 0; 2]; f_type := [8; 0];
  f_head := [vihl; 0; 0; 20; 0; 0; 0; 0; 64]; f_proto := 17; f_sum := [0; 0];
  f_saddr := [10; 0; 0; 1]; f_daddr := [10; 0; 0; 2]; f_rest := [] |}.

Definition frame_mbuf (vihl : Z) : rte_mbuf := sim_mbuf 64 512 (frame_bytes (udp_frame vihl)).

Lemma frame_mbuf_wf vihl : 0 <= vihl < 256 -> Mbuf.wf (frame_mbuf vihl).
Proof.
  intros Hv. exists [0; 0], (frame_bytes (udp_frame vihl)), (replicate 28 0). split; try done.
  cbn. repeat (apply Forall_cons_2; [lia|]). apply Forall_nil_2.
Qed.

Lemma udp_frame_ok vihl : frame_ok (udp_frame vihl).
Proof. by split. Qed.

Lemma five_tuple_fields_witness :
  let s := sim_process sim_empty [(8192, frame_mbuf 69)] in
  exists t, five_tuple_of (Mbuf.from_ptr 8192) s = Ret (t, s)
  /\ v4_octets (dst_ip t) = [2; 0; 0; 10].
Proof.
  intros s.
  destruct (five_tuple_fields 8192 (frame_mbuf 69) (udp_frame 69) s eq_refl
    (frame_mbuf_wf 69 ltac:(lia)) eq_refl (udp_frame_ok 69) eq_refl eq_refl) as (t & E & _ & _ & _ & _ & Hd).
  exists t. split; [exact E|exact Hd].
Defined.

Lemma not_ipv4_undefined_witness :
  five_tuple_of (Mbuf.from_ptr 8192) (sim_process sim_empty [(8192, frame_mbuf 0)]) = Undefined.
Proof.
  exact (not_ipv4_undefined 8192 (frame_mbuf 0) (udp_frame 0)
    (sim_process sim_empty [(8192, frame_mbuf 0)]) eq_refl
    (frame_mbuf_wf 0 ltac:(lia)) eq_refl (udp_frame_ok 0) eq_refl ltac:(done)).
Defined.

(** A UDP packet with one word of options *)
Lemma transport_hdr_fixed_witness :
  pkt_udp_hdr pkt_ipv4_hdr (frame_mbuf 70) = Ret (Some (data_off (frame_mbuf 70) + 34), frame_mbuf 70)
  /\ payload_offset (frame_mbuf 70) (udp_frame 70) = data_off (frame_mbuf 70) + 38.
Proof.
  destruct (transport_hdr_fixed IP_PROTOCOL_UDP (frame_mbuf 70) (udp_frame 70)
    (frame_mbuf_wf 70 ltac:(lia)) eq_refl (udp_frame_ok 70)) as (hdr & E & Eh & _).
  rewrite Eh in E. split; [exact E|by vm_compute].
Defined.
