(* ===== verification/Bindings.v ===== *)
(** * The structures of the bindings ([ffi/src/bindings_rustdoc.rs])

    The types of the generated bindings that the engine's calls exchange with DPDK, with every
    type they are made of, as layouts: one definition for each structure, union and alias, its
    fields in the order of the declaration; and the layout tests the generator wrote for them,
    with the sizes and offsets the C compiler had. *)

From S2P Require Import Prelude Mbuf Headers Layout.

#[local] Open Scope string_scope.

Definition i16 : layout := prim 2.

(** ** [rte_mbuf] *)

Definition MARKER : layout := array pointer 0.

Definition rte_iova_t : layout := u64.

Definition rte_mbuf__bindgen_ty_1 : layout := repr_union
   [("buf_iova", rte_iova_t); ("buf_physaddr", rte_iova_t); ("_bindgen_union_align", u64)].

Definition bindgen_test_layout_rte_mbuf__bindgen_ty_1 : bool :=
  layout_test rte_mbuf__bindgen_ty_1 8 8
   [("buf_iova", 0); ("buf_physaddr", 0)].

Definition MARKER64 : layout := array u64 0.

Definition rte_atomic16_t : layout := repr_c
   [("cnt", i16)].

Definition bindgen_test_layout_rte_atomic16_t : bool :=
  layout_test rte_atomic16_t 2 2
   [("cnt", 0)].

Definition rte_mbuf__bindgen_ty_2 : layout := repr_union
   [("refcnt_atomic", rte_atomic16_t); ("refcnt", u16); ("_bindgen_union_align", u16)].

Definition bindgen_test_layout_rte_mbuf__bindgen_ty_2 : bool :=
  layout_test rte_mbuf__bindgen_ty_2 2 2
   [("refcnt_atomic", 0); ("refcnt", 0)].

Definition rte_mbuf__bindgen_ty_3__bindgen_ty_1__bindgen_ty_1__bindgen_ty_1 : layout := repr_c_packed
   [("_bitfield_1", bitfield_unit 1 u8)].

Definition bindgen_test_layout_rte_mbuf__bindgen_ty_3__bindgen_ty_1__bindgen_ty_1__bindgen_ty_1 : bool :=
  layout_test rte_mbuf__bindgen_ty_3__bindgen_ty_1__bindgen_ty_1__bindgen_ty_1 1 1
   [].

Definition rte_mbuf__bindgen_ty_3__bindgen_ty_1__bindgen_ty_1 : layout := repr_union
   [("inner_esp_next_proto", u8);
    ("__bindgen_anon_1", rte_mbuf__bindgen_ty_3__bindgen_ty_1__bindgen_ty_1__bindgen_ty_1);
    ("_bindgen_union_align", u8)].

Definition bindgen_test_layout_rte_mbuf__bindgen_ty_3__bindgen_ty_1__bindgen_ty_1 : bool :=
  layout_test rte_mbuf__bindgen_ty_3__bindgen_ty_1__bindgen_ty_1 1 1
   [("inner_esp_next_proto", 0)].

Definition rte_mbuf__bindgen_ty_3__bindgen_ty_1 : layout := repr_align 4 (repr_c
   [("_bitfield_1", bitfield_unit 2 u8);
    ("__bindgen_anon_1", rte_mbuf__bindgen_ty_3__bindgen_ty_1__bindgen_ty_1);
    ("_bitfield_2", bitfield_unit 1 u8)]).

Definition bindgen_test_layout_rte_mbuf__bindgen_ty_3__bindgen_ty_1 : bool :=
  layout_test rte_mbuf__bindgen_ty_3__bindgen_ty_1 4 4
   [].

Definition rte_mbuf__bindgen_ty_3 : layout := repr_union
   [("packet_type", u32); ("__bindgen_anon_1", rte_mbuf__bindgen_ty_3__bindgen_ty_1);
    ("_bindgen_union_align", u32)].

Definition bindgen_test_layout_rte_mbuf__bindgen_ty_3 : bool :=
  layout_test rte_mbuf__bindgen_ty_3 4 4
   [("packet_type", 0)].

Definition rte_mbuf__bindgen_ty_4__bindgen_ty_1__bindgen_ty_1__bindgen_ty_1__bindgen_ty_1 : layout := repr_c
   [("hash", u16); ("id", u16)].

Definition bindgen_test_layout_rte_mbuf__bindgen_ty_4__bindgen_ty_1__bindgen_ty_1__bindgen_ty_1__bindgen_ty_1 : bool :=
  layout_test rte_mbuf__bindgen_ty_4__bindgen_ty_1__bindgen_ty_1__bindgen_ty_1__bindgen_ty_1 4 2
   [("hash", 0); ("id", 2)].

Definition rte_mbuf__bindgen_ty_4__bindgen_ty_1__bindgen_ty_1__bindgen_ty_1 : layout := repr_union
   [
    ("__bindgen_anon_1", rte_mbuf__bindgen_ty_4__bindgen_ty_1__bindgen_ty_1__bindgen_ty_1__bindgen_ty_1);
    ("lo", u32); ("_bindgen_union_align", u32)].

Definition bindgen_test_layout_rte_mbuf__bindgen_ty_4__bindgen_ty_1__bindgen_ty_1__bindgen_ty_1 : bool :=
  layout_test rte_mbuf__bindgen_ty_4__bindgen_ty_1__bindgen_ty_1__bindgen_ty_1 4 4
   [("lo", 0)].

Definition rte_mbuf__bindgen_ty_4__bindgen_ty_1__bindgen_ty_1 : layout := repr_c
   [("__bindgen_anon_1", rte_mbuf__bindgen_ty_4__bindgen_ty_1__bindgen_ty_1__bindgen_ty_1);
    ("hi", u32)].

Definition bindgen_test_layout_rte_mbuf__bindgen_ty_4__bindgen_ty_1__bindgen_ty_1 : bool :=
  layout_test rte_mbuf__bindgen_ty_4__bindgen_ty_1__bindgen_ty_1 8 4
   [("hi", 4)].

Definition rte_mbuf_sched : layout := repr_c
   [("queue_id", u32); ("traffic_class", u8); ("color", u8); ("reserved", u16)].

Definition bindgen_test_layout_rte_mbuf_sched : bool :=
  layout_test rte_mbuf_sched 8 4
   [("queue_id", 0); ("traffic_class", 4); ("color", 5); ("reserved", 6)].

Definition rte_mbuf__bindgen_ty_4__bindgen_ty_1__bindgen_ty_2 : layout := repr_c
   [("reserved1", u32); ("reserved2", u16); ("txq", u16)].

Definition bindgen_test_layout_rte_mbuf__bindgen_ty_4__bindgen_ty_1__bindgen_ty_2 : bool :=
  layout_test rte_mbuf__bindgen_ty_4__bindgen_ty_1__bindgen_ty_2 8 4
   [("reserved1", 0); ("reserved2", 4); ("txq", 6)].

Definition rte_mbuf__bindgen_ty_4__bindgen_ty_1 : layout := repr_union
   [("rss", u32); ("fdir", rte_mbuf__bindgen_ty_4__bindgen_ty_1__bindgen_ty_1);
    ("sched", rte_mbuf_sched); ("txadapter", rte_mbuf__bindgen_ty_4__bindgen_ty_1__bindgen_ty_2);
    ("usr", u32); ("_bindgen_union_align", array u32 2)].

Definition bindgen_test_layout_rte_mbuf__bindgen_ty_4__bindgen_ty_1 : bool :=
  layout_test rte_mbuf__bindgen_ty_4__bindgen_ty_1 8 4
   [("rss", 0); ("fdir", 0); ("sched", 0); ("txadapter", 0); ("usr", 0)].

Definition rte_mbuf__bindgen_ty_4 : layout := repr_union
   [("hash", rte_mbuf__bindgen_ty_4__bindgen_ty_1); ("_bindgen_union_align", array u32 2)].

Definition bindgen_test_layout_rte_mbuf__bindgen_ty_4 : bool :=
  layout_test rte_mbuf__bindgen_ty_4 8 4
   [("hash", 0)].

Definition rte_mbuf__bindgen_ty_5 : layout := repr_union
   [("userdata", pointer); ("udata64", u64); ("_bindgen_union_align", u64)].

Definition bindgen_test_layout_rte_mbuf__bindgen_ty_5 : bool :=
  layout_test rte_mbuf__bindgen_ty_5 8 8
   [("userdata", 0); ("udata64", 0)].

Definition rte_mbuf__bindgen_ty_6__bindgen_ty_1 : layout := repr_align 8 (repr_c
   [("_bitfield_1", bitfield_unit 8 u16)]).

Definition bindgen_test_layout_rte_mbuf__bindgen_ty_6__bindgen_ty_1 : bool :=
  layout_test rte_mbuf__bindgen_ty_6__bindgen_ty_1 8 8
   [].

Definition rte_mbuf__bindgen_ty_6 : layout := repr_union
   [("tx_offload", u64); ("__bindgen_anon_1", rte_mbuf__bindgen_ty_6__bindgen_ty_1);
    ("_bindgen_union_align", u64)].

Definition bindgen_test_layout_rte_mbuf__bindgen_ty_6 : bool :=
  layout_test rte_mbuf__bindgen_ty_6 8 8
   [("tx_offload", 0)].

Definition rte_mbuf : layout := repr_align 64 (repr_c
   [("cacheline0", MARKER); ("buf_addr", pointer); ("__bindgen_anon_1", rte_mbuf__bindgen_ty_1);
    ("rearm_data", MARKER64); ("data_off", u16); ("__bindgen_anon_2", rte_mbuf__bindgen_ty_2);
    ("nb_segs", u16); ("port", u16); ("ol_flags", u64); ("rx_descriptor_fields1", MARKER);
    ("__bindgen_anon_3", rte_mbuf__bindgen_ty_3); ("pkt_len", u32); ("data_len", u16);
    ("vlan_tci", u16); ("__bindgen_anon_4", rte_mbuf__bindgen_ty_4); ("vlan_tci_outer", u16);
    ("buf_len", u16); ("timestamp", u64); ("cacheline1", MARKER);
    ("__bindgen_anon_5", rte_mbuf__bindgen_ty_5); ("pool", pointer); ("next", pointer);
    ("__bindgen_anon_6", rte_mbuf__bindgen_ty_6); ("priv_size", u16); ("timesync", u16);
    ("seqn", u32); ("shinfo", pointer); ("dynfield1", array u64 2)]).

Definition bindgen_test_layout_rte_mbuf : bool :=
  layout_test rte_mbuf 128 64
   [("cacheline0", 0); ("buf_addr", 0); ("rearm_data", 16); ("data_off", 16); ("nb_segs", 20);
    ("port", 22); ("ol_flags", 24); ("rx_descriptor_fields1", 32); ("pkt_len", 36);
    ("data_len", 40); ("vlan_tci", 42); ("vlan_tci_outer", 52); ("buf_len", 54);
    ("timestamp", 56); ("cacheline1", 64); ("pool", 72); ("next", 80); ("priv_size", 96);
    ("timesync", 98); ("seqn", 100); ("shinfo", 104); ("dynfield1", 112)].

(** ** [rte_mempool] *)

Definition rte_mempool__bindgen_ty_1 : layout := repr_union
   [("pool_data", pointer); ("pool_id", u64); ("_bindgen_union_align", u64)].

Definition bindgen_test_layout_rte_mempool__bindgen_ty_1 : bool :=
  layout_test rte_mempool__bindgen_ty_1 8 8
   [("pool_data", 0); ("pool_id", 0)].

Definition rte_mempool_objhdr_list : layout := repr_c
   [("stqh_first", pointer); ("stqh_last", pointer)].

Definition bindgen_test_layout_rte_mempool_objhdr_list : bool :=
  layout_test rte_mempool_objhdr_list 16 8
   [("stqh_first", 0); ("stqh_last", 8)].

Definition rte_mempool_memhdr_list : layout := repr_c
   [("stqh_first", pointer); ("stqh_last", pointer)].

Definition bindgen_test_layout_rte_mempool_memhdr_list : bool :=
  layout_test rte_mempool_memhdr_list 16 8
   [("stqh_first", 0); ("stqh_last", 8)].

Definition rte_mempool : layout := repr_align 64 (repr_c
   [("name", array c_char 32); ("__bindgen_anon_1", rte_mempool__bindgen_ty_1);
    ("pool_config", pointer); ("mz", pointer); ("flags", c_uint); ("socket_id", c_int);
    ("size", u32); ("cache_size", u32); ("elt_size", u32); ("header_size", u32);
    ("trailer_size", u32); ("private_data_size", c_uint); ("ops_index", i32);
    ("local_cache", pointer); ("populated_size", u32); ("elt_list", rte_mempool_objhdr_list);
    ("nb_mem_chunks", u32); ("mem_list", rte_mempool_memhdr_list)]).

Definition bindgen_test_layout_rte_mempool : bool :=
  layout_test rte_mempool 192 64
   [("name", 0); ("pool_config", 40); ("mz", 48); ("flags", 56); ("socket_id", 60); ("size", 64);
    ("cache_size", 68); ("elt_size", 72); ("header_size", 76); ("trailer_size", 80);
    ("private_data_size", 84); ("ops_index", 88); ("local_cache", 96); ("populated_size", 104);
    ("elt_list", 112); ("nb_mem_chunks", 128); ("mem_list", 136)].

(** ** [rte_ring] *)

Definition rte_ring_headtail : layout := repr_c
   [("head", u32); ("tail", u32); ("single", u32)].

Definition bindgen_test_layout_rte_ring_headtail : bool :=
  layout_test rte_ring_headtail 12 4
   [("head", 0); ("tail", 4); ("single", 8)].

Definition rte_ring : layout := repr_align 64 (repr_c
   [("name", array c_char 32); ("flags", c_int); ("memzone", pointer); ("size", u32);
    ("mask", u32); ("capacity", u32); ("__bindgen_padding_0", array u8 4); ("pad0", c_char);
    ("__bindgen_padding_1", array u32 15); ("prod", rte_ring_headtail);
    ("__bindgen_padding_2", array u8 52); ("pad1", c_char); ("__bindgen_padding_3", array u32 15);
    ("cons", rte_ring_headtail); ("__bindgen_padding_4", array u8 52); ("pad2", c_char)]).

Definition bindgen_test_layout_rte_ring : bool :=
  layout_test rte_ring 384 64
   [("name", 0); ("flags", 32); ("memzone", 40); ("size", 48); ("mask", 52); ("capacity", 56);
    ("pad0", 64); ("prod", 128); ("pad1", 192); ("cons", 256); ("pad2", 320)].

(** ** [rte_memzone] *)

Definition phys_addr_t : layout := u64.

Definition rte_memzone__bindgen_ty_1 : layout := repr_union
   [("phys_addr", phys_addr_t); ("iova", rte_iova_t); ("_bindgen_union_align", u64)].

Definition bindgen_test_layout_rte_memzone__bindgen_ty_1 : bool :=
  layout_test rte_memzone__bindgen_ty_1 8 8
   [("phys_addr", 0); ("iova", 0)].

Definition rte_memzone__bindgen_ty_2 : layout := repr_union
   [("addr", pointer); ("addr_64", u64); ("_bindgen_union_align", u64)].

Definition bindgen_test_layout_rte_memzone__bindgen_ty_2 : bool :=
  layout_test rte_memzone__bindgen_ty_2 8 8
   [("addr", 0); ("addr_64", 0)].

Definition size_t : layout := c_ulong.

Definition rte_memzone : layout := repr_c_packed
   [("name", array c_char 32); ("__bindgen_anon_1", rte_memzone__bindgen_ty_1);
    ("__bindgen_anon_2", rte_memzone__bindgen_ty_2); ("len", size_t); ("hugepage_sz", u64);
    ("socket_id", i32); ("flags", u32)].

Definition bindgen_test_layout_rte_memzone : bool :=
  layout_test rte_memzone 72 1
   [("name", 0); ("len", 48); ("hugepage_sz", 56); ("socket_id", 64); ("flags", 68)].

(** ** The packet headers *)

Definition rte_ether_addr : layout := repr_align 2 (repr_c
   [("addr_bytes", array u8 6)]).

Definition bindgen_test_layout_rte_ether_addr : bool :=
  layout_test rte_ether_addr 6 2
   [("addr_bytes", 0)].

Definition rte_ether_hdr : layout := repr_c
   [("d_addr", rte_ether_addr); ("s_addr", rte_ether_addr); ("ether_type", u16)].

Definition bindgen_test_layout_rte_ether_hdr : bool :=
  layout_test rte_ether_hdr 14 2
   [("d_addr", 0); ("s_addr", 6); ("ether_type", 12)].

Definition rte_be16_t : layout := u16.

Definition rte_be32_t : layout := u32.

Definition rte_ipv4_hdr : layout := repr_c_packed
   [("version_ihl", u8); ("type_of_service", u8); ("total_length", rte_be16_t);
    ("packet_id", rte_be16_t); ("fragment_offset", rte_be16_t); ("time_to_live", u8);
    ("next_proto_id", u8); ("hdr_checksum", rte_be16_t); ("src_addr", rte_be32_t);
    ("dst_addr", rte_be32_t)].

Definition bindgen_test_layout_rte_ipv4_hdr : bool :=
  layout_test rte_ipv4_hdr 20 1
   [("version_ihl", 0); ("type_of_service", 1); ("total_length", 2); ("packet_id", 4);
    ("fragment_offset", 6); ("time_to_live", 8); ("next_proto_id", 9); ("hdr_checksum", 10);
    ("src_addr", 12); ("dst_addr", 16)].

(** ** [rte_eth_conf] *)

Definition rte_eth_rx_mq_mode : layout := u32.

Definition rte_eth_rxmode : layout := repr_c
   [("mq_mode", rte_eth_rx_mq_mode); ("max_rx_pkt_len", u32); ("max_lro_pkt_size", u32);
    ("split_hdr_size", u16); ("offloads", u64); ("reserved_64s", array u64 2);
    ("reserved_ptrs", array pointer 2)].

Definition bindgen_test_layout_rte_eth_rxmode : bool :=
  layout_test rte_eth_rxmode 56 8
   [("mq_mode", 0); ("max_rx_pkt_len", 4); ("max_lro_pkt_size", 8); ("split_hdr_size", 12);
    ("offloads", 16); ("reserved_64s", 24); ("reserved_ptrs", 40)].

Definition rte_eth_tx_mq_mode : layout := u32.

Definition rte_eth_txmode : layout := repr_c
   [("mq_mode", rte_eth_tx_mq_mode); ("offloads", u64); ("pvid", u16);
    ("_bitfield_1", bitfield_unit 1 u8); ("reserved_64s", array u64 2);
    ("reserved_ptrs", array pointer 2)].

Definition bindgen_test_layout_rte_eth_txmode : bool :=
  layout_test rte_eth_txmode 56 8
   [("mq_mode", 0); ("offloads", 8); ("pvid", 16); ("reserved_64s", 24); ("reserved_ptrs", 40)].

Definition rte_eth_rss_conf : layout := repr_c
   [("rss_key", pointer); ("rss_key_len", u8); ("rss_hf", u64)].

Definition bindgen_test_layout_rte_eth_rss_conf : bool :=
  layout_test rte_eth_rss_conf 24 8
   [("rss_key", 0); ("rss_key_len", 8); ("rss_hf", 16)].

Definition rte_eth_nb_pools : layout := u32.

Definition rte_eth_vmdq_dcb_conf__bindgen_ty_1 : layout := repr_c
   [("vlan_id", u16); ("pools", u64)].

Definition bindgen_test_layout_rte_eth_vmdq_dcb_conf__bindgen_ty_1 : bool :=
  layout_test rte_eth_vmdq_dcb_conf__bindgen_ty_1 16 8
   [("vlan_id", 0); ("pools", 8)].

Definition rte_eth_vmdq_dcb_conf : layout := repr_c
   [("nb_queue_pools", rte_eth_nb_pools); ("enable_default_pool", u8); ("default_pool", u8);
    ("nb_pool_maps", u8); ("pool_map", array rte_eth_vmdq_dcb_conf__bindgen_ty_1 64);
    ("dcb_tc", array u8 8)].

Definition bindgen_test_layout_rte_eth_vmdq_dcb_conf : bool :=
  layout_test rte_eth_vmdq_dcb_conf 1040 8
   [("nb_queue_pools", 0); ("enable_default_pool", 4); ("default_pool", 5); ("nb_pool_maps", 6);
    ("pool_map", 8); ("dcb_tc", 1032)].

Definition rte_eth_nb_tcs : layout := u32.

Definition rte_eth_dcb_rx_conf : layout := repr_c
   [("nb_tcs", rte_eth_nb_tcs); ("dcb_tc", array u8 8)].

Definition bindgen_test_layout_rte_eth_dcb_rx_conf : bool :=
  layout_test rte_eth_dcb_rx_conf 12 4
   [("nb_tcs", 0); ("dcb_tc", 4)].

Definition rte_eth_vmdq_rx_conf__bindgen_ty_1 : layout := repr_c
   [("vlan_id", u16); ("pools", u64)].

Definition bindgen_test_layout_rte_eth_vmdq_rx_conf__bindgen_ty_1 : bool :=
  layout_test rte_eth_vmdq_rx_conf__bindgen_ty_1 16 8
   [("vlan_id", 0); ("pools", 8)].

Definition rte_eth_vmdq_rx_conf : layout := repr_c
   [("nb_queue_pools", rte_eth_nb_pools); ("enable_default_pool", u8); ("default_pool", u8);
    ("enable_loop_back", u8); ("nb_pool_maps", u8); ("rx_mode", u32);
    ("pool_map", array rte_eth_vmdq_rx_conf__bindgen_ty_1 64)].

Definition bindgen_test_layout_rte_eth_vmdq_rx_conf : bool :=
  layout_test rte_eth_vmdq_rx_conf 1040 8
   [("nb_queue_pools", 0); ("enable_default_pool", 4); ("default_pool", 5);
    ("enable_loop_back", 6); ("nb_pool_maps", 7); ("rx_mode", 8); ("pool_map", 16)].

Definition rte_eth_conf__bindgen_ty_1 : layout := repr_c
   [("rss_conf", rte_eth_rss_conf); ("vmdq_dcb_conf", rte_eth_vmdq_dcb_conf);
    ("dcb_rx_conf", rte_eth_dcb_rx_conf); ("vmdq_rx_conf", rte_eth_vmdq_rx_conf)].

Definition bindgen_test_layout_rte_eth_conf__bindgen_ty_1 : bool :=
  layout_test rte_eth_conf__bindgen_ty_1 2120 8
   [("rss_conf", 0); ("vmdq_dcb_conf", 24); ("dcb_rx_conf", 1064); ("vmdq_rx_conf", 1080)].

Definition rte_eth_vmdq_dcb_tx_conf : layout := repr_c
   [("nb_queue_pools", rte_eth_nb_pools); ("dcb_tc", array u8 8)].

Definition bindgen_test_layout_rte_eth_vmdq_dcb_tx_conf : bool :=
  layout_test rte_eth_vmdq_dcb_tx_conf 12 4
   [("nb_queue_pools", 0); ("dcb_tc", 4)].

Definition rte_eth_dcb_tx_conf : layout := repr_c
   [("nb_tcs", rte_eth_nb_tcs); ("dcb_tc", array u8 8)].

Definition bindgen_test_layout_rte_eth_dcb_tx_conf : bool :=
  layout_test rte_eth_dcb_tx_conf 12 4
   [("nb_tcs", 0); ("dcb_tc", 4)].

Definition rte_eth_vmdq_tx_conf : layout := repr_c
   [("nb_queue_pools", rte_eth_nb_pools)].

Definition bindgen_test_layout_rte_eth_vmdq_tx_conf : bool :=
  layout_test rte_eth_vmdq_tx_conf 4 4
   [("nb_queue_pools", 0)].

Definition rte_eth_conf__bindgen_ty_2 : layout := repr_union
   [("vmdq_dcb_tx_conf", rte_eth_vmdq_dcb_tx_conf); ("dcb_tx_conf", rte_eth_dcb_tx_conf);
    ("vmdq_tx_conf", rte_eth_vmdq_tx_conf); ("_bindgen_union_align", array u32 3)].

Definition bindgen_test_layout_rte_eth_conf__bindgen_ty_2 : bool :=
  layout_test rte_eth_conf__bindgen_ty_2 12 4
   [("vmdq_dcb_tx_conf", 0); ("dcb_tx_conf", 0); ("vmdq_tx_conf", 0)].

Definition rte_fdir_mode : layout := u32.

Definition rte_fdir_pballoc_type : layout := u32.

Definition rte_fdir_status_mode : layout := u32.

Definition rte_eth_ipv4_flow : layout := repr_c
   [("src_ip", u32); ("dst_ip", u32); ("tos", u8); ("ttl", u8); ("proto", u8)].

Definition bindgen_test_layout_rte_eth_ipv4_flow : bool :=
  layout_test rte_eth_ipv4_flow 12 4
   [("src_ip", 0); ("dst_ip", 4); ("tos", 8); ("ttl", 9); ("proto", 10)].

Definition rte_eth_ipv6_flow : layout := repr_c
   [("src_ip", array u32 4); ("dst_ip", array u32 4); ("tc", u8); ("proto", u8);
    ("hop_limits", u8)].

Definition bindgen_test_layout_rte_eth_ipv6_flow : bool :=
  layout_test rte_eth_ipv6_flow 36 4
   [("src_ip", 0); ("dst_ip", 16); ("tc", 32); ("proto", 33); ("hop_limits", 34)].

Definition rte_eth_fdir_masks : layout := repr_c
   [("vlan_tci_mask", u16); ("ipv4_mask", rte_eth_ipv4_flow); ("ipv6_mask", rte_eth_ipv6_flow);
    ("src_port_mask", u16); ("dst_port_mask", u16); ("mac_addr_byte_mask", u8);
    ("tunnel_id_mask", u32); ("tunnel_type_mask", u8)].

Definition bindgen_test_layout_rte_eth_fdir_masks : bool :=
  layout_test rte_eth_fdir_masks 68 4
   [("vlan_tci_mask", 0); ("ipv4_mask", 4); ("ipv6_mask", 16); ("src_port_mask", 52);
    ("dst_port_mask", 54); ("mac_addr_byte_mask", 56); ("tunnel_id_mask", 60);
    ("tunnel_type_mask", 64)].

Definition rte_eth_payload_type : layout := u32.

Definition rte_eth_flex_payload_cfg : layout := repr_c
   [("type_", rte_eth_payload_type); ("src_offset", array u16 16)].

Definition bindgen_test_layout_rte_eth_flex_payload_cfg : bool :=
  layout_test rte_eth_flex_payload_cfg 36 4
   [("type_", 0); ("src_offset", 4)].

Definition rte_eth_fdir_flex_mask : layout := repr_c
   [("flow_type", u16); ("mask", array u8 16)].

Definition bindgen_test_layout_rte_eth_fdir_flex_mask : bool :=
  layout_test rte_eth_fdir_flex_mask 18 2
   [("flow_type", 0); ("mask", 2)].

Definition rte_eth_fdir_flex_conf : layout := repr_c
   [("nb_payloads", u16); ("nb_flexmasks", u16); ("flex_set", array rte_eth_flex_payload_cfg 8);
    ("flex_mask", array rte_eth_fdir_flex_mask 24)].

Definition bindgen_test_layout_rte_eth_fdir_flex_conf : bool :=
  layout_test rte_eth_fdir_flex_conf 724 4
   [("nb_payloads", 0); ("nb_flexmasks", 2); ("flex_set", 4); ("flex_mask", 292)].

Definition rte_fdir_conf : layout := repr_c
   [("mode", rte_fdir_mode); ("pballoc", rte_fdir_pballoc_type); ("status", rte_fdir_status_mode);
    ("drop_queue", u8); ("mask", rte_eth_fdir_masks); ("flex_conf", rte_eth_fdir_flex_conf)].

Definition bindgen_test_layout_rte_fdir_conf : bool :=
  layout_test rte_fdir_conf 808 4
   [("mode", 0); ("pballoc", 4); ("status", 8); ("drop_queue", 12); ("mask", 16);
    ("flex_conf", 84)].

Definition rte_intr_conf : layout := repr_align 4 (repr_c
   [("_bitfield_1", bitfield_unit 1 u8); ("__bindgen_padding_0", array u8 3)]).

Definition bindgen_test_layout_rte_intr_conf : bool :=
  layout_test rte_intr_conf 4 4
   [].

Definition rte_eth_conf : layout := repr_c
   [("link_speeds", u32); ("rxmode", rte_eth_rxmode); ("txmode", rte_eth_txmode);
    ("lpbk_mode", u32); ("rx_adv_conf", rte_eth_conf__bindgen_ty_1);
    ("tx_adv_conf", rte_eth_conf__bindgen_ty_2); ("dcb_capability_en", u32);
    ("fdir_conf", rte_fdir_conf); ("intr_conf", rte_intr_conf)].

Definition bindgen_test_layout_rte_eth_conf : bool :=
  layout_test rte_eth_conf 3080 8
   [("link_speeds", 0); ("rxmode", 8); ("txmode", 64); ("lpbk_mode", 120); ("rx_adv_conf", 128);
    ("tx_adv_conf", 2248); ("dcb_capability_en", 2260); ("fdir_conf", 2264); ("intr_conf", 3072)].

(** ** [rte_eth_dev_info], [rte_eth_rxconf] and [rte_eth_txconf] *)

Definition rte_eth_thresh : layout := repr_c
   [("pthresh", u8); ("hthresh", u8); ("wthresh", u8)].

Definition bindgen_test_layout_rte_eth_thresh : bool :=
  layout_test rte_eth_thresh 3 1
   [("pthresh", 0); ("hthresh", 1); ("wthresh", 2)].

Definition rte_eth_rxconf : layout := repr_c
   [("rx_thresh", rte_eth_thresh); ("rx_free_thresh", u16); ("rx_drop_en", u8);
    ("rx_deferred_start", u8); ("offloads", u64); ("reserved_64s", array u64 2);
    ("reserved_ptrs", array pointer 2)].

Definition bindgen_test_layout_rte_eth_rxconf : bool :=
  layout_test rte_eth_rxconf 48 8
   [("rx_thresh", 0); ("rx_free_thresh", 4); ("rx_drop_en", 6); ("rx_deferred_start", 7);
    ("offloads", 8); ("reserved_64s", 16); ("reserved_ptrs", 32)].

Definition rte_eth_txconf : layout := repr_c
   [("tx_thresh", rte_eth_thresh); ("tx_rs_thresh", u16); ("tx_free_thresh", u16);
    ("tx_deferred_start", u8); ("offloads", u64); ("reserved_64s", array u64 2);
    ("reserved_ptrs", array pointer 2)].

Definition bindgen_test_layout_rte_eth_txconf : bool :=
  layout_test rte_eth_txconf 56 8
   [("tx_thresh", 0); ("tx_rs_thresh", 4); ("tx_free_thresh", 6); ("tx_deferred_start", 8);
    ("offloads", 16); ("reserved_64s", 24); ("reserved_ptrs", 40)].

Definition rte_eth_desc_lim : layout := repr_c
   [("nb_max", u16); ("nb_min", u16); ("nb_align", u16); ("nb_seg_max", u16);
    ("nb_mtu_seg_max", u16)].

Definition bindgen_test_layout_rte_eth_desc_lim : bool :=
  layout_test rte_eth_desc_lim 10 2
   [("nb_max", 0); ("nb_min", 2); ("nb_align", 4); ("nb_seg_max", 6); ("nb_mtu_seg_max", 8)].

Definition rte_eth_dev_portconf : layout := repr_c
   [("burst_size", u16); ("ring_size", u16); ("nb_queues", u16)].

Definition bindgen_test_layout_rte_eth_dev_portconf : bool :=
  layout_test rte_eth_dev_portconf 6 2
   [("burst_size", 0); ("ring_size", 2); ("nb_queues", 4)].

Definition rte_eth_switch_info : layout := repr_c
   [("name", pointer); ("domain_id", u16); ("port_id", u16)].

Definition bindgen_test_layout_rte_eth_switch_info : bool :=
  layout_test rte_eth_switch_info 16 8
   [("name", 0); ("domain_id", 8); ("port_id", 10)].

Definition rte_eth_dev_info : layout := repr_c
   [("device", pointer); ("driver_name", pointer); ("if_index", c_uint); ("min_mtu", u16);
    ("max_mtu", u16); ("dev_flags", pointer); ("min_rx_bufsize", u32); ("max_rx_pktlen", u32);
    ("max_lro_pkt_size", u32); ("max_rx_queues", u16); ("max_tx_queues", u16);
    ("max_mac_addrs", u32); ("max_hash_mac_addrs", u32); ("max_vfs", u16);
    ("max_vmdq_pools", u16); ("rx_offload_capa", u64); ("tx_offload_capa", u64);
    ("rx_queue_offload_capa", u64); ("tx_queue_offload_capa", u64); ("reta_size", u16);
    ("hash_key_size", u8); ("flow_type_rss_offloads", u64); ("default_rxconf", rte_eth_rxconf);
    ("default_txconf", rte_eth_txconf); ("vmdq_queue_base", u16); ("vmdq_queue_num", u16);
    ("vmdq_pool_base", u16); ("rx_desc_lim", rte_eth_desc_lim); ("tx_desc_lim", rte_eth_desc_lim);
    ("speed_capa", u32); ("nb_rx_queues", u16); ("nb_tx_queues", u16);
    ("default_rxportconf", rte_eth_dev_portconf); ("default_txportconf", rte_eth_dev_portconf);
    ("dev_capa", u64); ("switch_info", rte_eth_switch_info); ("reserved_64s", array u64 2);
    ("reserved_ptrs", array pointer 2)].

Definition bindgen_test_layout_rte_eth_dev_info : bool :=
  layout_test rte_eth_dev_info 320 8
   [("device", 0); ("driver_name", 8); ("if_index", 16); ("min_mtu", 20); ("max_mtu", 22);
    ("dev_flags", 24); ("min_rx_bufsize", 32); ("max_rx_pktlen", 36); ("max_lro_pkt_size", 40);
    ("max_rx_queues", 44); ("max_tx_queues", 46); ("max_mac_addrs", 48);
    ("max_hash_mac_addrs", 52); ("max_vfs", 56); ("max_vmdq_pools", 58); ("rx_offload_capa", 64);
    ("tx_offload_capa", 72); ("rx_queue_offload_capa", 80); ("tx_queue_offload_capa", 88);
    ("reta_size", 96); ("hash_key_size", 98); ("flow_type_rss_offloads", 104);
    ("default_rxconf", 112); ("default_txconf", 160); ("vmdq_queue_base", 216);
    ("vmdq_queue_num", 218); ("vmdq_pool_base", 220); ("rx_desc_lim", 222); ("tx_desc_lim", 232);
    ("speed_capa", 244); ("nb_rx_queues", 248); ("nb_tx_queues", 250);
    ("default_rxportconf", 252); ("default_txportconf", 258); ("dev_capa", 264);
    ("switch_info", 272); ("reserved_64s", 288); ("reserved_ptrs", 304)].

(** ** [rte_cpuset_t] *)

Definition __cpu_mask : layout := c_ulong.

Definition cpu_set_t : layout := repr_c
   [("__bits", array __cpu_mask 16)].

Definition bindgen_test_layout_cpu_set_t : bool :=
  layout_test cpu_set_t 128 8
   [("__bits", 0)].

Definition rte_cpuset_t : layout := cpu_set_t.

Definition bound_types : list layout :=
   [MARKER; rte_iova_t; rte_mbuf__bindgen_ty_1; MARKER64; rte_atomic16_t; rte_mbuf__bindgen_ty_2;
    rte_mbuf__bindgen_ty_3__bindgen_ty_1__bindgen_ty_1__bindgen_ty_1;
    rte_mbuf__bindgen_ty_3__bindgen_ty_1__bindgen_ty_1; rte_mbuf__bindgen_ty_3__bindgen_ty_1;
    rte_mbuf__bindgen_ty_3;
    rte_mbuf__bindgen_ty_4__bindgen_ty_1__bindgen_ty_1__bindgen_ty_1__bindgen_ty_1;
    rte_mbuf__bindgen_ty_4__bindgen_ty_1__bindgen_ty_1__bindgen_ty_1;
    rte_mbuf__bindgen_ty_4__bindgen_ty_1__bindgen_ty_1; rte_mbuf_sched;
    rte_mbuf__bindgen_ty_4__bindgen_ty_1__bindgen_ty_2; rte_mbuf__bindgen_ty_4__bindgen_ty_1;
    rte_mbuf__bindgen_ty_4; rte_mbuf__bindgen_ty_5; rte_mbuf__bindgen_ty_6__bindgen_ty_1;
    rte_mbuf__bindgen_ty_6; rte_mbuf; rte_mempool__bindgen_ty_1; rte_mempool_objhdr_list;
    rte_mempool_memhdr_list; rte_mempool; rte_ring_headtail; rte_ring; phys_addr_t;
    rte_memzone__bindgen_ty_1; rte_memzone__bindgen_ty_2; size_t; rte_memzone; rte_ether_addr;
    rte_ether_hdr; rte_be16_t; rte_be32_t; rte_ipv4_hdr; rte_eth_rx_mq_mode; rte_eth_rxmode;
    rte_eth_tx_mq_mode; rte_eth_txmode; rte_eth_rss_conf; rte_eth_nb_pools;
    rte_eth_vmdq_dcb_conf__bindgen_ty_1; rte_eth_vmdq_dcb_conf; rte_eth_nb_tcs;
    rte_eth_dcb_rx_conf; rte_eth_vmdq_rx_conf__bindgen_ty_1; rte_eth_vmdq_rx_conf;
    rte_eth_conf__bindgen_ty_1; rte_eth_vmdq_dcb_tx_conf; rte_eth_dcb_tx_conf;
    rte_eth_vmdq_tx_conf; rte_eth_conf__bindgen_ty_2; rte_fdir_mode; rte_fdir_pballoc_type;
    rte_fdir_status_mode; rte_eth_ipv4_flow; rte_eth_ipv6_flow; rte_eth_fdir_masks;
    rte_eth_payload_type; rte_eth_flex_payload_cfg; rte_eth_fdir_flex_mask;
    rte_eth_fdir_flex_conf; rte_fdir_conf; rte_intr_conf; rte_eth_conf; rte_eth_thresh;
    rte_eth_rxconf; rte_eth_txconf; rte_eth_desc_lim; rte_eth_dev_portconf; rte_eth_switch_info;
    rte_eth_dev_info; __cpu_mask; cpu_set_t; rte_cpuset_t].

(** The structures of more than one field *)
Definition bound_structs : list layout :=
   [rte_mbuf__bindgen_ty_3__bindgen_ty_1;
    rte_mbuf__bindgen_ty_4__bindgen_ty_1__bindgen_ty_1__bindgen_ty_1__bindgen_ty_1;
    rte_mbuf__bindgen_ty_4__bindgen_ty_1__bindgen_ty_1; rte_mbuf_sched;
    rte_mbuf__bindgen_ty_4__bindgen_ty_1__bindgen_ty_2; rte_mbuf; rte_mempool_objhdr_list;
    rte_mempool_memhdr_list; rte_mempool; rte_ring_headtail; rte_ring; rte_memzone; rte_ether_hdr;
    rte_ipv4_hdr; rte_eth_rxmode; rte_eth_txmode; rte_eth_rss_conf;
    rte_eth_vmdq_dcb_conf__bindgen_ty_1; rte_eth_vmdq_dcb_conf; rte_eth_dcb_rx_conf;
    rte_eth_vmdq_rx_conf__bindgen_ty_1; rte_eth_vmdq_rx_conf; rte_eth_conf__bindgen_ty_1;
    rte_eth_vmdq_dcb_tx_conf; rte_eth_dcb_tx_conf; rte_eth_ipv4_flow; rte_eth_ipv6_flow;
    rte_eth_fdir_masks; rte_eth_flex_payload_cfg; rte_eth_fdir_flex_mask; rte_eth_fdir_flex_conf;
    rte_fdir_conf; rte_intr_conf; rte_eth_conf; rte_eth_thresh; rte_eth_rxconf; rte_eth_txconf;
    rte_eth_desc_lim; rte_eth_dev_portconf; rte_eth_switch_info; rte_eth_dev_info].

Definition layout_tests : list bool :=
   [bindgen_test_layout_rte_mbuf__bindgen_ty_1; bindgen_test_layout_rte_atomic16_t;
    bindgen_test_layout_rte_mbuf__bindgen_ty_2;
    bindgen_test_layout_rte_mbuf__bindgen_ty_3__bindgen_ty_1__bindgen_ty_1__bindgen_ty_1;
    bindgen_test_layout_rte_mbuf__bindgen_ty_3__bindgen_ty_1__bindgen_ty_1;
    bindgen_test_layout_rte_mbuf__bindgen_ty_3__bindgen_ty_1;
    bindgen_test_layout_rte_mbuf__bindgen_ty_3;
    bindgen_test_layout_rte_mbuf__bindgen_ty_4__bindgen_ty_1__bindgen_ty_1__bindgen_ty_1__bindgen_ty_1;
    bindgen_test_layout_rte_mbuf__bindgen_ty_4__bindgen_ty_1__bindgen_ty_1__bindgen_ty_1;
    bindgen_test_layout_rte_mbuf__bindgen_ty_4__bindgen_ty_1__bindgen_ty_1;
    bindgen_test_layout_rte_mbuf_sched;
    bindgen_test_layout_rte_mbuf__bindgen_ty_4__bindgen_ty_1__bindgen_ty_2;
    bindgen_test_layout_rte_mbuf__bindgen_ty_4__bindgen_ty_1;
    bindgen_test_layout_rte_mbuf__bindgen_ty_4; bindgen_test_layout_rte_mbuf__bindgen_ty_5;
    bindgen_test_layout_rte_mbuf__bindgen_ty_6__bindgen_ty_1;
    bindgen_test_layout_rte_mbuf__bindgen_ty_6; bindgen_test_layout_rte_mbuf;
    bindgen_test_layout_rte_mempool__bindgen_ty_1; bindgen_test_layout_rte_mempool_objhdr_list;
    bindgen_test_layout_rte_mempool_memhdr_list; bindgen_test_layout_rte_mempool;
    bindgen_test_layout_rte_ring_headtail; bindgen_test_layout_rte_ring;
    bindgen_test_layout_rte_memzone__bindgen_ty_1; bindgen_test_layout_rte_memzone__bindgen_ty_2;
    bindgen_test_layout_rte_memzone; bindgen_test_layout_rte_ether_addr;
    bindgen_test_layout_rte_ether_hdr; bindgen_test_layout_rte_ipv4_hdr;
    bindgen_test_layout_rte_eth_rxmode; bindgen_test_layout_rte_eth_txmode;
    bindgen_test_layout_rte_eth_rss_conf; bindgen_test_layout_rte_eth_vmdq_dcb_conf__bindgen_ty_1;
    bindgen_test_layout_rte_eth_vmdq_dcb_conf; bindgen_test_layout_rte_eth_dcb_rx_conf;
    bindgen_test_layout_rte_eth_vmdq_rx_conf__bindgen_ty_1;
    bindgen_test_layout_rte_eth_vmdq_rx_conf; bindgen_test_layout_rte_eth_conf__bindgen_ty_1;
    bindgen_test_layout_rte_eth_vmdq_dcb_tx_conf; bindgen_test_layout_rte_eth_dcb_tx_conf;
    bindgen_test_layout_rte_eth_vmdq_tx_conf; bindgen_test_layout_rte_eth_conf__bindgen_ty_2;
    bindgen_test_layout_rte_eth_ipv4_flow; bindgen_test_layout_rte_eth_ipv6_flow;
    bindgen_test_layout_rte_eth_fdir_masks; bindgen_test_layout_rte_eth_flex_payload_cfg;
    bindgen_test_layout_rte_eth_fdir_flex_mask; bindgen_test_layout_rte_eth_fdir_flex_conf;
    bindgen_test_layout_rte_fdir_conf; bindgen_test_layout_rte_intr_conf;
    bindgen_test_layout_rte_eth_conf; bindgen_test_layout_rte_eth_thresh;
    bindgen_test_layout_rte_eth_rxconf; bindgen_test_layout_rte_eth_txconf;
    bindgen_test_layout_rte_eth_desc_lim; bindgen_test_layout_rte_eth_dev_portconf;
    bindgen_test_layout_rte_eth_switch_info; bindgen_test_layout_rte_eth_dev_info;
    bindgen_test_layout_cpu_set_t].

#[local] Close Scope string_scope.

(** ** Properties *)

Lemma bound_types_sound : Forall sound bound_types.
Proof. unfold bound_types. sound_layout. Qed.

Lemma layout_tests_true : Forall (eq true) layout_tests.
Proof. unfold layout_tests. repeat (constructor; [vm_compute; reflexivity|]). constructor. Qed.

Lemma bound_structs_ordered : Forall (fun l => sound l /\ ordered (fields l)) bound_structs.
Proof. unfold bound_structs. repeat (constructor; [split; [sound_layout|ordered_layout]|]). constructor. Qed.

(** The value of a field of a structure in memory *)
Definition field_value (l : layout) (n : string) (mem : list Z) : option Z :=
  match field_of l n with Some f => Some (le (read_field f mem)) | None => None end.

Definition field_bytes (l : layout) (n : string) (mem : list Z) : option (list Z) :=
  match field_of l n with Some f => Some (read_field f mem) | None => None end.

Lemma le_byte i l : le (Mbuf.sub (Z.of_nat i) 1 l) = byte_at i l.
Proof.
  unfold Mbuf.sub, byte_at. rewrite Nat2Z.id. revert i. induction l as [|x l IH]; intros [|i]; try done.
  - change (x + 256 * 0 = x). lia.
  - apply IH.
Qed.

(** [Headers] reads the two headers at the places the layouts of their structures give: every
    field of the structure is the value of its bytes, the sizes are those of the structures, and
    the alignments are why the engine's reference to an Ethernet header must be even and one to
    an IPv4 header may be anywhere. *)
Theorem headers_follow_layout l :
  let e := ether_hdr_of l in
  let h := ipv4_hdr_of l in
  (size rte_ether_hdr, align rte_ether_hdr) = (SIZEOF_ETHER_HDR, 2) /\
  (size rte_ipv4_hdr, align rte_ipv4_hdr) = (SIZEOF_IPV4_HDR, 1) /\
  field_bytes rte_ether_hdr "d_addr" l = Some (d_addr e) /\
  field_bytes rte_ether_hdr "s_addr" l = Some (s_addr e) /\
  field_value rte_ether_hdr "ether_type" l = Some (ether_type e) /\
  map (fun n => field_value rte_ipv4_hdr n l) (map field_name (fields rte_ipv4_hdr)) =
  map Some [version_ihl h; type_of_service h; total_length h; packet_id h; fragment_offset h;
            time_to_live h; next_proto_id h; hdr_checksum h; src_addr h; dst_addr h].
Proof.
  cbn zeta. do 5 (split; [reflexivity|]). unfold ipv4_hdr_of.
  cbn [version_ihl type_of_service total_length packet_id fragment_offset time_to_live next_proto_id
    hdr_checksum src_addr dst_addr].
  by rewrite <- (le_byte 0), <- (le_byte 1), <- (le_byte 8), <- (le_byte 9).
Qed.

(** What the engine reads and writes of a buffer's structure, through the bindings: no two of
    these fields share a byte. *)
Definition mbuf_fields : list string := ["buf_addr"; "data_off"; "pkt_len"; "data_len"; "buf_len"]%string.

Example mbuf_offsets :
  map (fun n => option_map field_offset (field_of rte_mbuf n)) mbuf_fields = map Some [0; 16; 36; 40; 54].
Proof. by vm_compute. Qed.
