(* ===== verification/PortBindings.v ===== *)
(** * More structures of the bindings ([ffi/src/bindings_rustdoc.rs])

    Structures of DPDK's buffers, pools, memory, headers and ports that the bindings have beside
    those of [Bindings]: what is inside the pools and the memory, the headers the wrappers of
    [shim.c] look for, the state and the statistics of ports. With them the properties of all. *)

From S2P Require Import Prelude Layout Bindings.

#[local] Open Scope string_scope.

(** ** Buffers and pools *)

Definition rte_mbuf_extbuf_free_callback_t : layout := pointer.

Definition rte_mbuf_ext_shared_info : layout := repr_c
   [("free_cb", rte_mbuf_extbuf_free_callback_t); ("fcb_opaque", pointer);
    ("refcnt_atomic", rte_atomic16_t)].

Definition bindgen_test_layout_rte_mbuf_ext_shared_info : bool :=
  layout_test rte_mbuf_ext_shared_info 24 8
   [("free_cb", 0); ("fcb_opaque", 8); ("refcnt_atomic", 16)].

Definition rte_pktmbuf_pool_private : layout := repr_c
   [("mbuf_data_room_size", u16); ("mbuf_priv_size", u16); ("flags", u32)].

Definition bindgen_test_layout_rte_pktmbuf_pool_private : bool :=
  layout_test rte_pktmbuf_pool_private 8 4
   [("mbuf_data_room_size", 0); ("mbuf_priv_size", 2); ("flags", 4)].

Definition rte_mempool_objhdr__bindgen_ty_1 : layout := repr_c
   [("stqe_next", pointer)].

Definition bindgen_test_layout_rte_mempool_objhdr__bindgen_ty_1 : bool :=
  layout_test rte_mempool_objhdr__bindgen_ty_1 8 8
   [("stqe_next", 0)].

Definition rte_mempool_objhdr__bindgen_ty_2 : layout := repr_union
   [("iova", rte_iova_t); ("physaddr", phys_addr_t); ("_bindgen_union_align", u64)].

Definition bindgen_test_layout_rte_mempool_objhdr__bindgen_ty_2 : bool :=
  layout_test rte_mempool_objhdr__bindgen_ty_2 8 8
   [("iova", 0); ("physaddr", 0)].

Definition rte_mempool_objhdr : layout := repr_c
   [("next", rte_mempool_objhdr__bindgen_ty_1); ("mp", pointer);
    ("__bindgen_anon_1", rte_mempool_objhdr__bindgen_ty_2)].

Definition bindgen_test_layout_rte_mempool_objhdr : bool :=
  layout_test rte_mempool_objhdr 24 8
   [("next", 0); ("mp", 8)].

Definition rte_mempool_memhdr__bindgen_ty_1 : layout := repr_c
   [("stqe_next", pointer)].

Definition bindgen_test_layout_rte_mempool_memhdr__bindgen_ty_1 : bool :=
  layout_test rte_mempool_memhdr__bindgen_ty_1 8 8
   [("stqe_next", 0)].

Definition rte_mempool_memhdr__bindgen_ty_2 : layout := repr_union
   [("iova", rte_iova_t); ("phys_addr", phys_addr_t); ("_bindgen_union_align", u64)].

Definition bindgen_test_layout_rte_mempool_memhdr__bindgen_ty_2 : bool :=
  layout_test rte_mempool_memhdr__bindgen_ty_2 8 8
   [("iova", 0); ("phys_addr", 0)].

Definition rte_mempool_memchunk_free_cb_t : layout := pointer.

Definition rte_mempool_memhdr : layout := repr_c
   [("next", rte_mempool_memhdr__bindgen_ty_1); ("mp", pointer); ("addr", pointer);
    ("__bindgen_anon_1", rte_mempool_memhdr__bindgen_ty_2); ("len", size_t);
    ("free_cb", rte_mempool_memchunk_free_cb_t); ("opaque", pointer)].

Definition bindgen_test_layout_rte_mempool_memhdr : bool :=
  layout_test rte_mempool_memhdr 56 8
   [("next", 0); ("mp", 8); ("addr", 16); ("len", 32); ("free_cb", 40); ("opaque", 48)].

Definition rte_mempool_cache : layout := repr_align 64 (repr_c
   [("size", u32); ("flushthresh", u32); ("len", u32); ("objs", array pointer 1536)]).

Definition bindgen_test_layout_rte_mempool_cache : bool :=
  layout_test rte_mempool_cache 12352 64
   [("size", 0); ("flushthresh", 4); ("len", 8); ("objs", 16)].

Definition rte_mempool_objsz : layout := repr_c
   [("elt_size", u32); ("header_size", u32); ("trailer_size", u32); ("total_size", u32)].

Definition bindgen_test_layout_rte_mempool_objsz : bool :=
  layout_test rte_mempool_objsz 16 4
   [("elt_size", 0); ("header_size", 4); ("trailer_size", 8); ("total_size", 12)].

Definition rte_mempool_info : layout := repr_align 64 (repr_c
   [("contig_block_size", c_uint)]).

Definition bindgen_test_layout_rte_mempool_info : bool :=
  layout_test rte_mempool_info 64 64
   [("contig_block_size", 0)].

Definition rte_mempool_alloc_t : layout := pointer.

Definition rte_mempool_free_t : layout := pointer.

Definition rte_mempool_enqueue_t : layout := pointer.

Definition rte_mempool_dequeue_t : layout := pointer.

Definition rte_mempool_get_count : layout := pointer.

Definition rte_mempool_calc_mem_size_t : layout := pointer.

Definition rte_mempool_populate_t : layout := pointer.

Definition rte_mempool_get_info_t : layout := pointer.

Definition rte_mempool_dequeue_contig_blocks_t : layout := pointer.

Definition rte_mempool_ops : layout := repr_align 64 (repr_c
   [("name", array c_char 32); ("alloc", rte_mempool_alloc_t); ("free", rte_mempool_free_t);
    ("enqueue", rte_mempool_enqueue_t); ("dequeue", rte_mempool_dequeue_t);
    ("get_count", rte_mempool_get_count); ("calc_mem_size", rte_mempool_calc_mem_size_t);
    ("populate", rte_mempool_populate_t); ("get_info", rte_mempool_get_info_t);
    ("dequeue_contig_blocks", rte_mempool_dequeue_contig_blocks_t)]).

Definition bindgen_test_layout_rte_mempool_ops : bool :=
  layout_test rte_mempool_ops 128 64
   [("name", 0); ("alloc", 32); ("free", 40); ("enqueue", 48); ("dequeue", 56); ("get_count", 64);
    ("calc_mem_size", 72); ("populate", 80); ("get_info", 88); ("dequeue_contig_blocks", 96)].

Definition rte_spinlock_t : layout := repr_c
   [("locked", c_int)].

Definition bindgen_test_layout_rte_spinlock_t : bool :=
  layout_test rte_spinlock_t 4 4
   [("locked", 0)].

Definition rte_mempool_ops_table : layout := repr_align 64 (repr_c
   [("sl", rte_spinlock_t); ("num_ops", u32); ("__bindgen_padding_0", array u64 7);
    ("ops", array rte_mempool_ops 16)]).

Definition bindgen_test_layout_rte_mempool_ops_table : bool :=
  layout_test rte_mempool_ops_table 2112 64
   [("sl", 0); ("num_ops", 4); ("ops", 64)].

(** ** Memory segments *)

Definition rte_memseg__bindgen_ty_1 : layout := repr_union
   [("phys_addr", phys_addr_t); ("iova", rte_iova_t); ("_bindgen_union_align", u64)].

Definition bindgen_test_layout_rte_memseg__bindgen_ty_1 : bool :=
  layout_test rte_memseg__bindgen_ty_1 8 8
   [("phys_addr", 0); ("iova", 0)].

Definition rte_memseg__bindgen_ty_2 : layout := repr_union
   [("addr", pointer); ("addr_64", u64); ("_bindgen_union_align", u64)].

Definition bindgen_test_layout_rte_memseg__bindgen_ty_2 : bool :=
  layout_test rte_memseg__bindgen_ty_2 8 8
   [("addr", 0); ("addr_64", 0)].

Definition rte_memseg : layout := repr_c_packed
   [("__bindgen_anon_1", rte_memseg__bindgen_ty_1);
    ("__bindgen_anon_2", rte_memseg__bindgen_ty_2); ("len", size_t); ("hugepage_sz", u64);
    ("socket_id", i32); ("nchannel", u32); ("nrank", u32); ("flags", u32)].

Definition bindgen_test_layout_rte_memseg : bool :=
  layout_test rte_memseg 48 1
   [("len", 16); ("hugepage_sz", 24); ("socket_id", 32); ("nchannel", 36); ("nrank", 40);
    ("flags", 44)].

Definition rte_memseg_list__bindgen_ty_1 : layout := repr_union
   [("base_va", pointer); ("addr_64", u64); ("_bindgen_union_align", u64)].

Definition bindgen_test_layout_rte_memseg_list__bindgen_ty_1 : bool :=
  layout_test rte_memseg_list__bindgen_ty_1 8 8
   [("base_va", 0); ("addr_64", 0)].

Definition rte_rwlock_t : layout := repr_c
   [("cnt", i32)].

Definition bindgen_test_layout_rte_rwlock_t : bool :=
  layout_test rte_rwlock_t 4 4
   [("cnt", 0)].

Definition rte_fbarray : layout := repr_c
   [("name", array c_char 64); ("count", c_uint); ("len", c_uint); ("elt_sz", c_uint);
    ("data", pointer); ("rwlock", rte_rwlock_t)].

Definition bindgen_test_layout_rte_fbarray : bool :=
  layout_test rte_fbarray 96 8
   [("name", 0); ("count", 64); ("len", 68); ("elt_sz", 72); ("data", 80); ("rwlock", 88)].

Definition rte_memseg_list : layout := repr_c
   [("__bindgen_anon_1", rte_memseg_list__bindgen_ty_1); ("page_sz", u64); ("socket_id", c_int);
    ("version", u32); ("len", size_t); ("external", c_uint); ("heap", c_uint);
    ("memseg_arr", rte_fbarray)].

Definition bindgen_test_layout_rte_memseg_list : bool :=
  layout_test rte_memseg_list 136 8
   [("page_sz", 8); ("socket_id", 16); ("version", 20); ("len", 24); ("external", 32);
    ("heap", 36); ("memseg_arr", 40)].

(** ** Other headers *)

Definition rte_vlan_hdr : layout := repr_c_packed
   [("vlan_tci", u16); ("eth_proto", u16)].

Definition bindgen_test_layout_rte_vlan_hdr : bool :=
  layout_test rte_vlan_hdr 4 1
   [("vlan_tci", 0); ("eth_proto", 2)].

Definition rte_ipv6_hdr : layout := repr_c_packed
   [("vtc_flow", rte_be32_t); ("payload_len", rte_be16_t); ("proto", u8); ("hop_limits", u8);
    ("src_addr", array u8 16); ("dst_addr", array u8 16)].

Definition bindgen_test_layout_rte_ipv6_hdr : bool :=
  layout_test rte_ipv6_hdr 40 1
   [("vtc_flow", 0); ("payload_len", 4); ("proto", 6); ("hop_limits", 7); ("src_addr", 8);
    ("dst_addr", 24)].

Definition rte_tcp_hdr : layout := repr_c_packed
   [("src_port", rte_be16_t); ("dst_port", rte_be16_t); ("sent_seq", rte_be32_t);
    ("recv_ack", rte_be32_t); ("data_off", u8); ("tcp_flags", u8); ("rx_win", rte_be16_t);
    ("cksum", rte_be16_t); ("tcp_urp", rte_be16_t)].

Definition bindgen_test_layout_rte_tcp_hdr : bool :=
  layout_test rte_tcp_hdr 20 1
   [("src_port", 0); ("dst_port", 2); ("sent_seq", 4); ("recv_ack", 8); ("data_off", 12);
    ("tcp_flags", 13); ("rx_win", 14); ("cksum", 16); ("tcp_urp", 18)].

Definition rte_udp_hdr : layout := repr_c_packed
   [("src_port", rte_be16_t); ("dst_port", rte_be16_t); ("dgram_len", rte_be16_t);
    ("dgram_cksum", rte_be16_t)].

Definition bindgen_test_layout_rte_udp_hdr : bool :=
  layout_test rte_udp_hdr 8 1
   [("src_port", 0); ("dst_port", 2); ("dgram_len", 4); ("dgram_cksum", 6)].

(** ** State and statistics of ports *)

Definition rte_eth_link : layout := repr_align 8 (repr_c
   [("link_speed", u32); ("_bitfield_1", bitfield_unit 1 u8); ("__bindgen_padding_0", array u8 3)]).

Definition bindgen_test_layout_rte_eth_link : bool :=
  layout_test rte_eth_link 8 8
   [("link_speed", 0)].

Definition rte_eth_stats : layout := repr_c
   [("ipackets", u64); ("opackets", u64); ("ibytes", u64); ("obytes", u64); ("imissed", u64);
    ("ierrors", u64); ("oerrors", u64); ("rx_nombuf", u64); ("q_ipackets", array u64 16);
    ("q_opackets", array u64 16); ("q_ibytes", array u64 16); ("q_obytes", array u64 16);
    ("q_errors", array u64 16)].

Definition bindgen_test_layout_rte_eth_stats : bool :=
  layout_test rte_eth_stats 704 8
   [("ipackets", 0); ("opackets", 8); ("ibytes", 16); ("obytes", 24); ("imissed", 32);
    ("ierrors", 40); ("oerrors", 48); ("rx_nombuf", 56); ("q_ipackets", 64); ("q_opackets", 192);
    ("q_ibytes", 320); ("q_obytes", 448); ("q_errors", 576)].

Definition rte_eth_xstat : layout := repr_c
   [("id", u64); ("value", u64)].

Definition bindgen_test_layout_rte_eth_xstat : bool :=
  layout_test rte_eth_xstat 16 8
   [("id", 0); ("value", 8)].

Definition rte_eth_xstat_name : layout := repr_c
   [("name", array c_char 64)].

Definition bindgen_test_layout_rte_eth_xstat_name : bool :=
  layout_test rte_eth_xstat_name 64 1
   [("name", 0)].

Definition rte_eth_rxq_info : layout := repr_align 64 (repr_c
   [("mp", pointer); ("conf", rte_eth_rxconf); ("scattered_rx", u8); ("nb_desc", u16)]).

Definition bindgen_test_layout_rte_eth_rxq_info : bool :=
  layout_test rte_eth_rxq_info 64 64
   [("mp", 0); ("conf", 8); ("scattered_rx", 56); ("nb_desc", 58)].

Definition rte_eth_txq_info : layout := repr_align 64 (repr_c
   [("conf", rte_eth_txconf); ("nb_desc", u16)]).

Definition bindgen_test_layout_rte_eth_txq_info : bool :=
  layout_test rte_eth_txq_info 64 64
   [("conf", 0); ("nb_desc", 56)].

Definition rte_eth_burst_mode : layout := repr_c
   [("flags", u64); ("info", array c_char 1024)].

Definition bindgen_test_layout_rte_eth_burst_mode : bool :=
  layout_test rte_eth_burst_mode 1032 8
   [("flags", 0); ("info", 8)].

Definition rte_eth_fc_mode : layout := u32.

Definition rte_eth_fc_conf : layout := repr_c
   [("high_water", u32); ("low_water", u32); ("pause_time", u16); ("send_xon", u16);
    ("mode", rte_eth_fc_mode); ("mac_ctrl_frame_fwd", u8); ("autoneg", u8)].

Definition bindgen_test_layout_rte_eth_fc_conf : bool :=
  layout_test rte_eth_fc_conf 20 4
   [("high_water", 0); ("low_water", 4); ("pause_time", 8); ("send_xon", 10); ("mode", 12);
    ("mac_ctrl_frame_fwd", 16); ("autoneg", 17)].

Definition rte_eth_pfc_conf : layout := repr_c
   [("fc", rte_eth_fc_conf); ("priority", u8)].

Definition bindgen_test_layout_rte_eth_pfc_conf : bool :=
  layout_test rte_eth_pfc_conf 24 4
   [("fc", 0); ("priority", 20)].

Definition rte_eth_rss_reta_entry64 : layout := repr_c
   [("mask", u64); ("reta", array u16 64)].

Definition bindgen_test_layout_rte_eth_rss_reta_entry64 : bool :=
  layout_test rte_eth_rss_reta_entry64 136 8
   [("mask", 0); ("reta", 8)].

Definition rte_eth_dev_module_info : layout := repr_c
   [("type_", u32); ("eeprom_len", u32)].

Definition bindgen_test_layout_rte_eth_dev_module_info : bool :=
  layout_test rte_eth_dev_module_info 8 4
   [("type_", 0); ("eeprom_len", 4)].

Definition rte_eth_dev_owner : layout := repr_c
   [("id", u64); ("name", array c_char 64)].

Definition bindgen_test_layout_rte_eth_dev_owner : bool :=
  layout_test rte_eth_dev_owner 72 8
   [("id", 0); ("name", 8)].

Definition rte_eth_dcb_tc_queue_mapping__bindgen_ty_1 : layout := repr_c
   [("base", u8); ("nb_queue", u8)].

Definition bindgen_test_layout_rte_eth_dcb_tc_queue_mapping__bindgen_ty_1 : bool :=
  layout_test rte_eth_dcb_tc_queue_mapping__bindgen_ty_1 2 1
   [("base", 0); ("nb_queue", 1)].

Definition rte_eth_dcb_tc_queue_mapping__bindgen_ty_2 : layout := repr_c
   [("base", u8); ("nb_queue", u8)].

Definition bindgen_test_layout_rte_eth_dcb_tc_queue_mapping__bindgen_ty_2 : bool :=
  layout_test rte_eth_dcb_tc_queue_mapping__bindgen_ty_2 2 1
   [("base", 0); ("nb_queue", 1)].

Definition rte_eth_dcb_tc_queue_mapping : layout := repr_c
   [("tc_rxq", array (array rte_eth_dcb_tc_queue_mapping__bindgen_ty_1 8) 64);
    ("tc_txq", array (array rte_eth_dcb_tc_queue_mapping__bindgen_ty_2 8) 64)].

Definition bindgen_test_layout_rte_eth_dcb_tc_queue_mapping : bool :=
  layout_test rte_eth_dcb_tc_queue_mapping 2048 1
   [("tc_rxq", 0); ("tc_txq", 1024)].

Definition rte_eth_dcb_info : layout := repr_c
   [("nb_tcs", u8); ("prio_tc", array u8 8); ("tc_bws", array u8 8);
    ("tc_queue", rte_eth_dcb_tc_queue_mapping)].

Definition bindgen_test_layout_rte_eth_dcb_info : bool :=
  layout_test rte_eth_dcb_info 2065 1
   [("nb_tcs", 0); ("prio_tc", 1); ("tc_bws", 9); ("tc_queue", 17)].

Definition rte_eth_vlan_mirror : layout := repr_c
   [("vlan_mask", u64); ("vlan_id", array u16 64)].

Definition bindgen_test_layout_rte_eth_vlan_mirror : bool :=
  layout_test rte_eth_vlan_mirror 136 8
   [("vlan_mask", 0); ("vlan_id", 8)].

Definition rte_eth_mirror_conf : layout := repr_c
   [("rule_type", u8); ("dst_pool", u8); ("pool_mask", u64); ("vlan", rte_eth_vlan_mirror)].

Definition bindgen_test_layout_rte_eth_mirror_conf : bool :=
  layout_test rte_eth_mirror_conf 152 8
   [("rule_type", 0); ("dst_pool", 1); ("pool_mask", 8); ("vlan", 16)].

Definition rte_eth_hairpin_cap : layout := repr_c
   [("max_nb_queues", u16); ("max_rx_2_tx", u16); ("max_tx_2_rx", u16); ("max_nb_desc", u16)].

Definition bindgen_test_layout_rte_eth_hairpin_cap : bool :=
  layout_test rte_eth_hairpin_cap 8 2
   [("max_nb_queues", 0); ("max_rx_2_tx", 2); ("max_tx_2_rx", 4); ("max_nb_desc", 6)].

Definition rte_eth_hairpin_peer : layout := repr_c
   [("port", u16); ("queue", u16)].

Definition bindgen_test_layout_rte_eth_hairpin_peer : bool :=
  layout_test rte_eth_hairpin_peer 4 2
   [("port", 0); ("queue", 2)].

Definition rte_eth_hairpin_conf : layout := repr_c
   [("peer_count", u16); ("peers", array rte_eth_hairpin_peer 32)].

Definition bindgen_test_layout_rte_eth_hairpin_conf : bool :=
  layout_test rte_eth_hairpin_conf 130 2
   [("peer_count", 0); ("peers", 2)].

Definition buffer_tx_error_fn : layout := pointer.

Definition rte_eth_dev_tx_buffer : layout := repr_c
   [("error_callback", buffer_tx_error_fn); ("error_userdata", pointer); ("size", u16);
    ("length", u16); ("pkts", incomplete_array pointer)].

Definition bindgen_test_layout_rte_eth_dev_tx_buffer : bool :=
  layout_test rte_eth_dev_tx_buffer 24 8
   [].

Definition port_types : list layout :=
   [rte_mbuf_extbuf_free_callback_t; rte_mbuf_ext_shared_info; rte_pktmbuf_pool_private;
    rte_mempool_objhdr__bindgen_ty_1; rte_mempool_objhdr__bindgen_ty_2; rte_mempool_objhdr;
    rte_mempool_memhdr__bindgen_ty_1; rte_mempool_memhdr__bindgen_ty_2;
    rte_mempool_memchunk_free_cb_t; rte_mempool_memhdr; rte_mempool_cache; rte_mempool_objsz;
    rte_mempool_info; rte_mempool_alloc_t; rte_mempool_free_t; rte_mempool_enqueue_t;
    rte_mempool_dequeue_t; rte_mempool_get_count; rte_mempool_calc_mem_size_t;
    rte_mempool_populate_t; rte_mempool_get_info_t; rte_mempool_dequeue_contig_blocks_t;
    rte_mempool_ops; rte_spinlock_t; rte_mempool_ops_table; rte_memseg__bindgen_ty_1;
    rte_memseg__bindgen_ty_2; rte_memseg; rte_memseg_list__bindgen_ty_1; rte_rwlock_t;
    rte_fbarray; rte_memseg_list; rte_vlan_hdr; rte_ipv6_hdr; rte_tcp_hdr; rte_udp_hdr;
    rte_eth_link; rte_eth_stats; rte_eth_xstat; rte_eth_xstat_name; rte_eth_rxq_info;
    rte_eth_txq_info; rte_eth_burst_mode; rte_eth_fc_mode; rte_eth_fc_conf; rte_eth_pfc_conf;
    rte_eth_rss_reta_entry64; rte_eth_dev_module_info; rte_eth_dev_owner;
    rte_eth_dcb_tc_queue_mapping__bindgen_ty_1; rte_eth_dcb_tc_queue_mapping__bindgen_ty_2;
    rte_eth_dcb_tc_queue_mapping; rte_eth_dcb_info; rte_eth_vlan_mirror; rte_eth_mirror_conf;
    rte_eth_hairpin_cap; rte_eth_hairpin_peer; rte_eth_hairpin_conf; buffer_tx_error_fn;
    rte_eth_dev_tx_buffer].

(** The structures of more than one field *)
Definition port_structs : list layout :=
   [rte_mbuf_ext_shared_info; rte_pktmbuf_pool_private; rte_mempool_objhdr; rte_mempool_memhdr;
    rte_mempool_cache; rte_mempool_objsz; rte_mempool_ops; rte_mempool_ops_table; rte_memseg;
    rte_fbarray; rte_memseg_list; rte_vlan_hdr; rte_ipv6_hdr; rte_tcp_hdr; rte_udp_hdr;
    rte_eth_link; rte_eth_stats; rte_eth_xstat; rte_eth_rxq_info; rte_eth_txq_info;
    rte_eth_burst_mode; rte_eth_fc_conf; rte_eth_pfc_conf; rte_eth_rss_reta_entry64;
    rte_eth_dev_module_info; rte_eth_dev_owner; rte_eth_dcb_tc_queue_mapping__bindgen_ty_1;
    rte_eth_dcb_tc_queue_mapping__bindgen_ty_2; rte_eth_dcb_tc_queue_mapping; rte_eth_dcb_info;
    rte_eth_vlan_mirror; rte_eth_mirror_conf; rte_eth_hairpin_cap; rte_eth_hairpin_peer;
    rte_eth_hairpin_conf; rte_eth_dev_tx_buffer].

Definition port_layout_tests : list bool :=
   [bindgen_test_layout_rte_mbuf_ext_shared_info; bindgen_test_layout_rte_pktmbuf_pool_private;
    bindgen_test_layout_rte_mempool_objhdr__bindgen_ty_1;
    bindgen_test_layout_rte_mempool_objhdr__bindgen_ty_2; bindgen_test_layout_rte_mempool_objhdr;
    bindgen_test_layout_rte_mempool_memhdr__bindgen_ty_1;
    bindgen_test_layout_rte_mempool_memhdr__bindgen_ty_2; bindgen_test_layout_rte_mempool_memhdr;
    bindgen_test_layout_rte_mempool_cache; bindgen_test_layout_rte_mempool_objsz;
    bindgen_test_layout_rte_mempool_info; bindgen_test_layout_rte_mempool_ops;
    bindgen_test_layout_rte_spinlock_t; bindgen_test_layout_rte_mempool_ops_table;
    bindgen_test_layout_rte_memseg__bindgen_ty_1; bindgen_test_layout_rte_memseg__bindgen_ty_2;
    bindgen_test_layout_rte_memseg; bindgen_test_layout_rte_memseg_list__bindgen_ty_1;
    bindgen_test_layout_rte_rwlock_t; bindgen_test_layout_rte_fbarray;
    bindgen_test_layout_rte_memseg_list; bindgen_test_layout_rte_vlan_hdr;
    bindgen_test_layout_rte_ipv6_hdr; bindgen_test_layout_rte_tcp_hdr;
    bindgen_test_layout_rte_udp_hdr; bindgen_test_layout_rte_eth_link;
    bindgen_test_layout_rte_eth_stats; bindgen_test_layout_rte_eth_xstat;
    bindgen_test_layout_rte_eth_xstat_name; bindgen_test_layout_rte_eth_rxq_info;
    bindgen_test_layout_rte_eth_txq_info; bindgen_test_layout_rte_eth_burst_mode;
    bindgen_test_layout_rte_eth_fc_conf; bindgen_test_layout_rte_eth_pfc_conf;
    bindgen_test_layout_rte_eth_rss_reta_entry64; bindgen_test_layout_rte_eth_dev_module_info;
    bindgen_test_layout_rte_eth_dev_owner;
    bindgen_test_layout_rte_eth_dcb_tc_queue_mapping__bindgen_ty_1;
    bindgen_test_layout_rte_eth_dcb_tc_queue_mapping__bindgen_ty_2;
    bindgen_test_layout_rte_eth_dcb_tc_queue_mapping; bindgen_test_layout_rte_eth_dcb_info;
    bindgen_test_layout_rte_eth_vlan_mirror; bindgen_test_layout_rte_eth_mirror_conf;
    bindgen_test_layout_rte_eth_hairpin_cap; bindgen_test_layout_rte_eth_hairpin_peer;
    bindgen_test_layout_rte_eth_hairpin_conf; bindgen_test_layout_rte_eth_dev_tx_buffer].

#[local] Close Scope string_scope.

(** ** Properties *)

Lemma port_types_sound : Forall sound port_types.
Proof. unfold port_types. sound_layout. Qed.

Lemma port_layout_tests_true : Forall (eq true) port_layout_tests.
Proof. unfold port_layout_tests. repeat (constructor; [vm_compute; reflexivity|]). constructor. Qed.

Lemma port_structs_ordered : Forall (fun l => sound l /\ ordered (fields l)) port_structs.
Proof. unfold port_structs. repeat (constructor; [split; [sound_layout|ordered_layout]|]). constructor. Qed.
