(* ===== verification/FlowBindings.v ===== *)
(** * The structures of flow rules ([ffi/src/bindings_rustdoc.rs])

    The patterns and the actions of DPDK's flow rules, and the headers they match that
    [PortBindings] does not have. *)

From S2P Require Import Prelude Layout Bindings PortBindings.

#[local] Open Scope string_scope.

(** ** Other headers *)

Definition rte_arp_ipv4 : layout := repr_align 2 (repr_c
   [("_bindgen_opaque_blob", array u16 10)]).

Definition bindgen_test_layout_rte_arp_ipv4 : bool :=
  layout_test rte_arp_ipv4 20 2
   [].

Definition rte_arp_hdr : layout := repr_align 2 (repr_c
   [("_bindgen_opaque_blob", array u16 14)]).

Definition bindgen_test_layout_rte_arp_hdr : bool :=
  layout_test rte_arp_hdr 28 2
   [].

Definition rte_icmp_hdr : layout := repr_c_packed
   [("icmp_type", u8); ("icmp_code", u8); ("icmp_cksum", rte_be16_t); ("icmp_ident", rte_be16_t);
    ("icmp_seq_nb", rte_be16_t)].

Definition bindgen_test_layout_rte_icmp_hdr : bool :=
  layout_test rte_icmp_hdr 8 1
   [("icmp_type", 0); ("icmp_code", 1); ("icmp_cksum", 2); ("icmp_ident", 4); ("icmp_seq_nb", 6)].

Definition rte_sctp_hdr : layout := repr_c_packed
   [("src_port", rte_be16_t); ("dst_port", rte_be16_t); ("tag", rte_be32_t);
    ("cksum", rte_be32_t)].

Definition bindgen_test_layout_rte_sctp_hdr : bool :=
  layout_test rte_sctp_hdr 12 1
   [("src_port", 0); ("dst_port", 2); ("tag", 4); ("cksum", 8)].

Definition rte_esp_hdr : layout := repr_c_packed
   [("spi", rte_be32_t); ("seq", rte_be32_t)].

Definition bindgen_test_layout_rte_esp_hdr : bool :=
  layout_test rte_esp_hdr 8 1
   [("spi", 0); ("seq", 4)].

Definition rte_esp_tail : layout := repr_c_packed
   [("pad_len", u8); ("next_proto", u8)].

Definition bindgen_test_layout_rte_esp_tail : bool :=
  layout_test rte_esp_tail 2 1
   [("pad_len", 0); ("next_proto", 1)].

Definition rte_higig2_frc : layout := repr_align 4 (repr_c
   [("_bitfield_1", bitfield_unit 8 u8)]).

Definition bindgen_test_layout_rte_higig2_frc : bool :=
  layout_test rte_higig2_frc 8 4
   [].

Definition rte_higig2_ppt_type0 : layout := repr_align 4 (repr_c
   [("_bitfield_1", bitfield_unit 8 u8)]).

Definition bindgen_test_layout_rte_higig2_ppt_type0 : bool :=
  layout_test rte_higig2_ppt_type0 8 4
   [].

Definition rte_higig2_ppt_type1 : layout := repr_c
   [("classification", u16); ("resv", u16); ("vid", u16); ("_bitfield_1", bitfield_unit 2 u8)].

Definition bindgen_test_layout_rte_higig2_ppt_type1 : bool :=
  layout_test rte_higig2_ppt_type1 8 2
   [("classification", 0); ("resv", 2); ("vid", 4)].

Definition rte_higig2_hdr__bindgen_ty_1 : layout := repr_union
   [("ppt0", rte_higig2_ppt_type0); ("ppt1", rte_higig2_ppt_type1);
    ("_bindgen_union_align", array u32 2)].

Definition bindgen_test_layout_rte_higig2_hdr__bindgen_ty_1 : bool :=
  layout_test rte_higig2_hdr__bindgen_ty_1 8 4
   [("ppt0", 0); ("ppt1", 0)].

Definition rte_higig2_hdr : layout := repr_c
   [("fcr", rte_higig2_frc); ("__bindgen_anon_1", rte_higig2_hdr__bindgen_ty_1)].

Definition bindgen_test_layout_rte_higig2_hdr : bool :=
  layout_test rte_higig2_hdr 16 4
   [("fcr", 0)].

(** ** Flow rules *)

Definition rte_flow_attr : layout := repr_c
   [("group", u32); ("priority", u32); ("_bitfield_1", bitfield_unit 4 u32)].

Definition bindgen_test_layout_rte_flow_attr : bool :=
  layout_test rte_flow_attr 12 4
   [("group", 0); ("priority", 4)].

Definition rte_flow_item_higig2_hdr : layout := repr_c
   [("hdr", rte_higig2_hdr)].

Definition bindgen_test_layout_rte_flow_item_higig2_hdr : bool :=
  layout_test rte_flow_item_higig2_hdr 16 4
   [("hdr", 0)].

Definition rte_flow_item_any : layout := repr_c
   [("num", u32)].

Definition bindgen_test_layout_rte_flow_item_any : bool :=
  layout_test rte_flow_item_any 4 4
   [("num", 0)].

Definition rte_flow_item_vf : layout := repr_c
   [("id", u32)].

Definition bindgen_test_layout_rte_flow_item_vf : bool :=
  layout_test rte_flow_item_vf 4 4
   [("id", 0)].

Definition rte_flow_item_phy_port : layout := repr_c
   [("index", u32)].

Definition bindgen_test_layout_rte_flow_item_phy_port : bool :=
  layout_test rte_flow_item_phy_port 4 4
   [("index", 0)].

Definition rte_flow_item_port_id : layout := repr_c
   [("id", u32)].

Definition bindgen_test_layout_rte_flow_item_port_id : bool :=
  layout_test rte_flow_item_port_id 4 4
   [("id", 0)].

Definition rte_flow_item_raw : layout := repr_c
   [("_bitfield_1", bitfield_unit 4 u32); ("offset", i32); ("limit", u16); ("length", u16);
    ("pattern", pointer)].

Definition bindgen_test_layout_rte_flow_item_raw : bool :=
  layout_test rte_flow_item_raw 24 8
   [("offset", 4); ("limit", 8); ("length", 10); ("pattern", 16)].

Definition rte_flow_item_eth : layout := repr_c
   [("dst", rte_ether_addr); ("src", rte_ether_addr); ("type_", rte_be16_t)].

Definition bindgen_test_layout_rte_flow_item_eth : bool :=
  layout_test rte_flow_item_eth 14 2
   [("dst", 0); ("src", 6); ("type_", 12)].

Definition rte_flow_item_vlan : layout := repr_c
   [("tci", rte_be16_t); ("inner_type", rte_be16_t)].

Definition bindgen_test_layout_rte_flow_item_vlan : bool :=
  layout_test rte_flow_item_vlan 4 2
   [("tci", 0); ("inner_type", 2)].

Definition rte_flow_item_ipv4 : layout := repr_c
   [("hdr", rte_ipv4_hdr)].

Definition bindgen_test_layout_rte_flow_item_ipv4 : bool :=
  layout_test rte_flow_item_ipv4 20 1
   [("hdr", 0)].

Definition rte_flow_item_ipv6 : layout := repr_c
   [("hdr", rte_ipv6_hdr)].

Definition bindgen_test_layout_rte_flow_item_ipv6 : bool :=
  layout_test rte_flow_item_ipv6 40 1
   [("hdr", 0)].

Definition rte_flow_item_icmp : layout := repr_c
   [("hdr", rte_icmp_hdr)].

Definition bindgen_test_layout_rte_flow_item_icmp : bool :=
  layout_test rte_flow_item_icmp 8 1
   [("hdr", 0)].

Definition rte_flow_item_udp : layout := repr_c
   [("hdr", rte_udp_hdr)].

Definition bindgen_test_layout_rte_flow_item_udp : bool :=
  layout_test rte_flow_item_udp 8 1
   [("hdr", 0)].

Definition rte_flow_item_tcp : layout := repr_c
   [("hdr", rte_tcp_hdr)].

Definition bindgen_test_layout_rte_flow_item_tcp : bool :=
  layout_test rte_flow_item_tcp 20 1
   [("hdr", 0)].

Definition rte_flow_item_sctp : layout := repr_c
   [("hdr", rte_sctp_hdr)].

Definition bindgen_test_layout_rte_flow_item_sctp : bool :=
  layout_test rte_flow_item_sctp 12 1
   [("hdr", 0)].

Definition rte_flow_item_vxlan : layout := repr_c
   [("flags", u8); ("rsvd0", array u8 3); ("vni", array u8 3); ("rsvd1", u8)].

Definition bindgen_test_layout_rte_flow_item_vxlan : bool :=
  layout_test rte_flow_item_vxlan 8 1
   [("flags", 0); ("rsvd0", 1); ("vni", 4); ("rsvd1", 7)].

Definition rte_flow_item_e_tag : layout := repr_c
   [("epcp_edei_in_ecid_b", rte_be16_t); ("rsvd_grp_ecid_b", rte_be16_t); ("in_ecid_e", u8);
    ("ecid_e", u8); ("inner_type", rte_be16_t)].

Definition bindgen_test_layout_rte_flow_item_e_tag : bool :=
  layout_test rte_flow_item_e_tag 8 2
   [("epcp_edei_in_ecid_b", 0); ("rsvd_grp_ecid_b", 2); ("in_ecid_e", 4); ("ecid_e", 5);
    ("inner_type", 6)].

Definition rte_flow_item_nvgre : layout := repr_c
   [("c_k_s_rsvd0_ver", rte_be16_t); ("protocol", rte_be16_t); ("tni", array u8 3);
    ("flow_id", u8)].

Definition bindgen_test_layout_rte_flow_item_nvgre : bool :=
  layout_test rte_flow_item_nvgre 8 2
   [("c_k_s_rsvd0_ver", 0); ("protocol", 2); ("tni", 4); ("flow_id", 7)].

Definition rte_flow_item_mpls : layout := repr_c
   [("label_tc_s", array u8 3); ("ttl", u8)].

Definition bindgen_test_layout_rte_flow_item_mpls : bool :=
  layout_test rte_flow_item_mpls 4 1
   [("label_tc_s", 0); ("ttl", 3)].

Definition rte_flow_item_gre : layout := repr_c
   [("c_rsvd0_ver", rte_be16_t); ("protocol", rte_be16_t)].

Definition bindgen_test_layout_rte_flow_item_gre : bool :=
  layout_test rte_flow_item_gre 4 2
   [("c_rsvd0_ver", 0); ("protocol", 2)].

Definition rte_flow_item_fuzzy : layout := repr_c
   [("thresh", u32)].

Definition bindgen_test_layout_rte_flow_item_fuzzy : bool :=
  layout_test rte_flow_item_fuzzy 4 4
   [("thresh", 0)].

Definition rte_flow_item_gtp : layout := repr_c
   [("v_pt_rsv_flags", u8); ("msg_type", u8); ("msg_len", rte_be16_t); ("teid", rte_be32_t)].

Definition bindgen_test_layout_rte_flow_item_gtp : bool :=
  layout_test rte_flow_item_gtp 8 4
   [("v_pt_rsv_flags", 0); ("msg_type", 1); ("msg_len", 2); ("teid", 4)].

Definition rte_flow_item_esp : layout := repr_c
   [("hdr", rte_esp_hdr)].

Definition bindgen_test_layout_rte_flow_item_esp : bool :=
  layout_test rte_flow_item_esp 8 1
   [("hdr", 0)].

Definition rte_flow_item_geneve : layout := repr_c
   [("ver_opt_len_o_c_rsvd0", rte_be16_t); ("protocol", rte_be16_t); ("vni", array u8 3);
    ("rsvd1", u8)].

Definition bindgen_test_layout_rte_flow_item_geneve : bool :=
  layout_test rte_flow_item_geneve 8 2
   [("ver_opt_len_o_c_rsvd0", 0); ("protocol", 2); ("vni", 4); ("rsvd1", 7)].

Definition rte_flow_item_vxlan_gpe : layout := repr_c
   [("flags", u8); ("rsvd0", array u8 2); ("protocol", u8); ("vni", array u8 3); ("rsvd1", u8)].

Definition bindgen_test_layout_rte_flow_item_vxlan_gpe : bool :=
  layout_test rte_flow_item_vxlan_gpe 8 1
   [("flags", 0); ("rsvd0", 1); ("protocol", 3); ("vni", 4); ("rsvd1", 7)].

Definition rte_flow_item_arp_eth_ipv4 : layout := repr_c
   [("hrd", rte_be16_t); ("pro", rte_be16_t); ("hln", u8); ("pln", u8); ("op", rte_be16_t);
    ("sha", rte_ether_addr); ("spa", rte_be32_t); ("tha", rte_ether_addr); ("tpa", rte_be32_t)].

Definition bindgen_test_layout_rte_flow_item_arp_eth_ipv4 : bool :=
  layout_test rte_flow_item_arp_eth_ipv4 32 4
   [("hrd", 0); ("pro", 2); ("hln", 4); ("pln", 5); ("op", 6); ("sha", 8); ("spa", 16);
    ("tha", 20); ("tpa", 28)].

Definition rte_flow_item_ipv6_ext : layout := repr_c
   [("next_hdr", u8)].

Definition bindgen_test_layout_rte_flow_item_ipv6_ext : bool :=
  layout_test rte_flow_item_ipv6_ext 1 1
   [("next_hdr", 0)].

Definition rte_flow_item_icmp6 : layout := repr_c
   [("type_", u8); ("code", u8); ("checksum", u16)].

Definition bindgen_test_layout_rte_flow_item_icmp6 : bool :=
  layout_test rte_flow_item_icmp6 4 2
   [("type_", 0); ("code", 1); ("checksum", 2)].

Definition rte_flow_item_icmp6_nd_ns : layout := repr_c
   [("type_", u8); ("code", u8); ("checksum", rte_be16_t); ("reserved", rte_be32_t);
    ("target_addr", array u8 16)].

Definition bindgen_test_layout_rte_flow_item_icmp6_nd_ns : bool :=
  layout_test rte_flow_item_icmp6_nd_ns 24 4
   [("type_", 0); ("code", 1); ("checksum", 2); ("reserved", 4); ("target_addr", 8)].

Definition rte_flow_item_icmp6_nd_na : layout := repr_c
   [("type_", u8); ("code", u8); ("checksum", rte_be16_t); ("rso_reserved", rte_be32_t);
    ("target_addr", array u8 16)].

Definition bindgen_test_layout_rte_flow_item_icmp6_nd_na : bool :=
  layout_test rte_flow_item_icmp6_nd_na 24 4
   [("type_", 0); ("code", 1); ("checksum", 2); ("rso_reserved", 4); ("target_addr", 8)].

Definition rte_flow_item_icmp6_nd_opt : layout := repr_c
   [("type_", u8); ("length", u8)].

Definition bindgen_test_layout_rte_flow_item_icmp6_nd_opt : bool :=
  layout_test rte_flow_item_icmp6_nd_opt 2 1
   [("type_", 0); ("length", 1)].

Definition rte_flow_item_icmp6_nd_opt_sla_eth : layout := repr_c
   [("type_", u8); ("length", u8); ("sla", rte_ether_addr)].

Definition bindgen_test_layout_rte_flow_item_icmp6_nd_opt_sla_eth : bool :=
  layout_test rte_flow_item_icmp6_nd_opt_sla_eth 8 2
   [("type_", 0); ("length", 1); ("sla", 2)].

Definition rte_flow_item_icmp6_nd_opt_tla_eth : layout := repr_c
   [("type_", u8); ("length", u8); ("tla", rte_ether_addr)].

Definition bindgen_test_layout_rte_flow_item_icmp6_nd_opt_tla_eth : bool :=
  layout_test rte_flow_item_icmp6_nd_opt_tla_eth 8 2
   [("type_", 0); ("length", 1); ("tla", 2)].

Definition rte_flow_item_meta : layout := repr_c
   [("data", u32)].

Definition bindgen_test_layout_rte_flow_item_meta : bool :=
  layout_test rte_flow_item_meta 4 4
   [("data", 0)].

Definition rte_flow_item_gtp_psc : layout := repr_c
   [("pdu_type", u8); ("qfi", u8)].

Definition bindgen_test_layout_rte_flow_item_gtp_psc : bool :=
  layout_test rte_flow_item_gtp_psc 2 1
   [("pdu_type", 0); ("qfi", 1)].

Definition rte_flow_item_pppoe : layout := repr_c
   [("version_type", u8); ("code", u8); ("session_id", rte_be16_t); ("length", rte_be16_t)].

Definition bindgen_test_layout_rte_flow_item_pppoe : bool :=
  layout_test rte_flow_item_pppoe 6 2
   [("version_type", 0); ("code", 1); ("session_id", 2); ("length", 4)].

Definition rte_flow_item_pppoe_proto_id : layout := repr_c
   [("proto_id", rte_be16_t)].

Definition bindgen_test_layout_rte_flow_item_pppoe_proto_id : bool :=
  layout_test rte_flow_item_pppoe_proto_id 2 2
   [("proto_id", 0)].

Definition rte_flow_item_tag : layout := repr_c
   [("data", u32); ("index", u8)].

Definition bindgen_test_layout_rte_flow_item_tag : bool :=
  layout_test rte_flow_item_tag 8 4
   [("data", 0); ("index", 4)].

Definition rte_flow_item_mark : layout := repr_c
   [("id", u32)].

Definition bindgen_test_layout_rte_flow_item_mark : bool :=
  layout_test rte_flow_item_mark 4 4
   [("id", 0)].

Definition rte_flow_item_nsh : layout := repr_align 4 (repr_c
   [("_bitfield_1", bitfield_unit 8 u32)]).

Definition bindgen_test_layout_rte_flow_item_nsh : bool :=
  layout_test rte_flow_item_nsh 8 4
   [].

Definition rte_flow_item_igmp : layout := repr_c
   [("_bitfield_1", bitfield_unit 4 u16); ("group_addr", u32)].

Definition bindgen_test_layout_rte_flow_item_igmp : bool :=
  layout_test rte_flow_item_igmp 8 4
   [("group_addr", 4)].

Definition rte_flow_item_ah : layout := repr_c
   [("_bitfield_1", bitfield_unit 4 u16); ("spi", u32); ("seq_num", u32)].

Definition bindgen_test_layout_rte_flow_item_ah : bool :=
  layout_test rte_flow_item_ah 12 4
   [("spi", 4); ("seq_num", 8)].

Definition rte_flow_item_type : layout := u32.

Definition rte_flow_item : layout := repr_c
   [("type_", rte_flow_item_type); ("spec", pointer); ("last", pointer); ("mask", pointer)].

Definition bindgen_test_layout_rte_flow_item : bool :=
  layout_test rte_flow_item 32 8
   [("type_", 0); ("spec", 8); ("last", 16); ("mask", 24)].

Definition rte_flow_action_mark : layout := repr_c
   [("id", u32)].

Definition bindgen_test_layout_rte_flow_action_mark : bool :=
  layout_test rte_flow_action_mark 4 4
   [("id", 0)].

Definition rte_flow_action_jump : layout := repr_c
   [("group", u32)].

Definition bindgen_test_layout_rte_flow_action_jump : bool :=
  layout_test rte_flow_action_jump 4 4
   [("group", 0)].

Definition rte_flow_action_queue : layout := repr_c
   [("index", u16)].

Definition bindgen_test_layout_rte_flow_action_queue : bool :=
  layout_test rte_flow_action_queue 2 2
   [("index", 0)].

Definition rte_flow_action_count : layout := repr_c
   [("_bitfield_1", bitfield_unit 4 u32); ("id", u32)].

Definition bindgen_test_layout_rte_flow_action_count : bool :=
  layout_test rte_flow_action_count 8 4
   [("id", 4)].

Definition rte_flow_query_count : layout := repr_c
   [("_bitfield_1", bitfield_unit 4 u32); ("hits", u64); ("bytes", u64)].

Definition bindgen_test_layout_rte_flow_query_count : bool :=
  layout_test rte_flow_query_count 24 8
   [("hits", 8); ("bytes", 16)].

Definition rte_eth_hash_function : layout := u32.

Definition rte_flow_action_rss : layout := repr_c
   [("func", rte_eth_hash_function); ("level", u32); ("types", u64); ("key_len", u32);
    ("queue_num", u32); ("key", pointer); ("queue", pointer)].

Definition bindgen_test_layout_rte_flow_action_rss : bool :=
  layout_test rte_flow_action_rss 40 8
   [("func", 0); ("level", 4); ("types", 8); ("key_len", 16); ("queue_num", 20); ("key", 24);
    ("queue", 32)].

Definition rte_flow_action_vf : layout := repr_c
   [("_bitfield_1", bitfield_unit 4 u32); ("id", u32)].

Definition bindgen_test_layout_rte_flow_action_vf : bool :=
  layout_test rte_flow_action_vf 8 4
   [("id", 4)].

Definition rte_flow_action_phy_port : layout := repr_c
   [("_bitfield_1", bitfield_unit 4 u32); ("index", u32)].

Definition bindgen_test_layout_rte_flow_action_phy_port : bool :=
  layout_test rte_flow_action_phy_port 8 4
   [("index", 4)].

Definition rte_flow_action_port_id : layout := repr_c
   [("_bitfield_1", bitfield_unit 4 u32); ("id", u32)].

Definition bindgen_test_layout_rte_flow_action_port_id : bool :=
  layout_test rte_flow_action_port_id 8 4
   [("id", 4)].

Definition rte_flow_action_meter : layout := repr_c
   [("mtr_id", u32)].

Definition bindgen_test_layout_rte_flow_action_meter : bool :=
  layout_test rte_flow_action_meter 4 4
   [("mtr_id", 0)].

Definition rte_flow_action_security : layout := repr_c
   [("security_session", pointer)].

Definition bindgen_test_layout_rte_flow_action_security : bool :=
  layout_test rte_flow_action_security 8 8
   [("security_session", 0)].

Definition rte_flow_action_of_set_mpls_ttl : layout := repr_c
   [("mpls_ttl", u8)].

Definition bindgen_test_layout_rte_flow_action_of_set_mpls_ttl : bool :=
  layout_test rte_flow_action_of_set_mpls_ttl 1 1
   [("mpls_ttl", 0)].

Definition rte_flow_action_of_set_nw_ttl : layout := repr_c
   [("nw_ttl", u8)].

Definition bindgen_test_layout_rte_flow_action_of_set_nw_ttl : bool :=
  layout_test rte_flow_action_of_set_nw_ttl 1 1
   [("nw_ttl", 0)].

Definition rte_flow_action_of_push_vlan : layout := repr_c
   [("ethertype", rte_be16_t)].

Definition bindgen_test_layout_rte_flow_action_of_push_vlan : bool :=
  layout_test rte_flow_action_of_push_vlan 2 2
   [("ethertype", 0)].

Definition rte_flow_action_of_set_vlan_vid : layout := repr_c
   [("vlan_vid", rte_be16_t)].

Definition bindgen_test_layout_rte_flow_action_of_set_vlan_vid : bool :=
  layout_test rte_flow_action_of_set_vlan_vid 2 2
   [("vlan_vid", 0)].

Definition rte_flow_action_of_set_vlan_pcp : layout := repr_c
   [("vlan_pcp", u8)].

Definition bindgen_test_layout_rte_flow_action_of_set_vlan_pcp : bool :=
  layout_test rte_flow_action_of_set_vlan_pcp 1 1
   [("vlan_pcp", 0)].

Definition rte_flow_action_of_pop_mpls : layout := repr_c
   [("ethertype", rte_be16_t)].

Definition bindgen_test_layout_rte_flow_action_of_pop_mpls : bool :=
  layout_test rte_flow_action_of_pop_mpls 2 2
   [("ethertype", 0)].

Definition rte_flow_action_of_push_mpls : layout := repr_c
   [("ethertype", rte_be16_t)].

Definition bindgen_test_layout_rte_flow_action_of_push_mpls : bool :=
  layout_test rte_flow_action_of_push_mpls 2 2
   [("ethertype", 0)].

Definition rte_flow_action_vxlan_encap : layout := repr_c
   [("definition", pointer)].

Definition bindgen_test_layout_rte_flow_action_vxlan_encap : bool :=
  layout_test rte_flow_action_vxlan_encap 8 8
   [("definition", 0)].

Definition rte_flow_action_nvgre_encap : layout := repr_c
   [("definition", pointer)].

Definition bindgen_test_layout_rte_flow_action_nvgre_encap : bool :=
  layout_test rte_flow_action_nvgre_encap 8 8
   [("definition", 0)].

Definition rte_flow_action_raw_encap : layout := repr_c
   [("data", pointer); ("preserve", pointer); ("size", size_t)].

Definition bindgen_test_layout_rte_flow_action_raw_encap : bool :=
  layout_test rte_flow_action_raw_encap 24 8
   [("data", 0); ("preserve", 8); ("size", 16)].

Definition rte_flow_action_raw_decap : layout := repr_c
   [("data", pointer); ("size", size_t)].

Definition bindgen_test_layout_rte_flow_action_raw_decap : bool :=
  layout_test rte_flow_action_raw_decap 16 8
   [("data", 0); ("size", 8)].

Definition rte_flow_action_set_ipv4 : layout := repr_c
   [("ipv4_addr", rte_be32_t)].

Definition bindgen_test_layout_rte_flow_action_set_ipv4 : bool :=
  layout_test rte_flow_action_set_ipv4 4 4
   [("ipv4_addr", 0)].

Definition rte_flow_action_set_ipv6 : layout := repr_c
   [("ipv6_addr", array u8 16)].

Definition bindgen_test_layout_rte_flow_action_set_ipv6 : bool :=
  layout_test rte_flow_action_set_ipv6 16 1
   [("ipv6_addr", 0)].

Definition rte_flow_action_set_tp : layout := repr_c
   [("port", rte_be16_t)].

Definition bindgen_test_layout_rte_flow_action_set_tp : bool :=
  layout_test rte_flow_action_set_tp 2 2
   [("port", 0)].

Definition rte_flow_action_set_ttl : layout := repr_c
   [("ttl_value", u8)].

Definition bindgen_test_layout_rte_flow_action_set_ttl : bool :=
  layout_test rte_flow_action_set_ttl 1 1
   [("ttl_value", 0)].

Definition rte_flow_action_set_mac : layout := repr_c
   [("mac_addr", array u8 6)].

Definition bindgen_test_layout_rte_flow_action_set_mac : bool :=
  layout_test rte_flow_action_set_mac 6 1
   [("mac_addr", 0)].

Definition rte_flow_action_set_tag : layout := repr_c
   [("data", u32); ("mask", u32); ("index", u8)].

Definition bindgen_test_layout_rte_flow_action_set_tag : bool :=
  layout_test rte_flow_action_set_tag 12 4
   [("data", 0); ("mask", 4); ("index", 8)].

Definition rte_flow_action_set_meta : layout := repr_c
   [("data", u32); ("mask", u32)].

Definition bindgen_test_layout_rte_flow_action_set_meta : bool :=
  layout_test rte_flow_action_set_meta 8 4
   [("data", 0); ("mask", 4)].

Definition rte_flow_action_type : layout := u32.

Definition rte_flow_action : layout := repr_c
   [("type_", rte_flow_action_type); ("conf", pointer)].

Definition bindgen_test_layout_rte_flow_action : bool :=
  layout_test rte_flow_action 16 8
   [("type_", 0); ("conf", 8)].

Definition rte_flow_error_type : layout := u32.

Definition rte_flow_error : layout := repr_c
   [("type_", rte_flow_error_type); ("cause", pointer); ("message", pointer)].

Definition bindgen_test_layout_rte_flow_error : bool :=
  layout_test rte_flow_error 24 8
   [("type_", 0); ("cause", 8); ("message", 16)].

Definition rte_flow_conv_rule__bindgen_ty_1 : layout := repr_union
   [("attr_ro", pointer); ("attr", pointer); ("_bindgen_union_align", u64)].

Definition bindgen_test_layout_rte_flow_conv_rule__bindgen_ty_1 : bool :=
  layout_test rte_flow_conv_rule__bindgen_ty_1 8 8
   [("attr_ro", 0); ("attr", 0)].

Definition rte_flow_conv_rule__bindgen_ty_2 : layout := repr_union
   [("pattern_ro", pointer); ("pattern", pointer); ("_bindgen_union_align", u64)].

Definition bindgen_test_layout_rte_flow_conv_rule__bindgen_ty_2 : bool :=
  layout_test rte_flow_conv_rule__bindgen_ty_2 8 8
   [("pattern_ro", 0); ("pattern", 0)].

Definition rte_flow_conv_rule__bindgen_ty_3 : layout := repr_union
   [("actions_ro", pointer); ("actions", pointer); ("_bindgen_union_align", u64)].

Definition bindgen_test_layout_rte_flow_conv_rule__bindgen_ty_3 : bool :=
  layout_test rte_flow_conv_rule__bindgen_ty_3 8 8
   [("actions_ro", 0); ("actions", 0)].

Definition rte_flow_conv_rule : layout := repr_c
   [("__bindgen_anon_1", rte_flow_conv_rule__bindgen_ty_1);
    ("__bindgen_anon_2", rte_flow_conv_rule__bindgen_ty_2);
    ("__bindgen_anon_3", rte_flow_conv_rule__bindgen_ty_3)].

Definition bindgen_test_layout_rte_flow_conv_rule : bool :=
  layout_test rte_flow_conv_rule 24 8
   [].

Definition rte_flow_desc : layout := repr_c
   [("size", size_t); ("attr", rte_flow_attr); ("items", pointer); ("actions", pointer);
    ("data", incomplete_array u8)].

Definition bindgen_test_layout_rte_flow_desc : bool :=
  layout_test rte_flow_desc 40 8
   [].

(** The types of this file *)
Definition flow_types : list layout :=
   [rte_arp_ipv4; rte_arp_hdr; rte_icmp_hdr; rte_sctp_hdr; rte_esp_hdr; rte_esp_tail;
    rte_higig2_frc; rte_higig2_ppt_type0; rte_higig2_ppt_type1; rte_higig2_hdr__bindgen_ty_1;
    rte_higig2_hdr; rte_flow_attr; rte_flow_item_higig2_hdr; rte_flow_item_any; rte_flow_item_vf;
    rte_flow_item_phy_port; rte_flow_item_port_id; rte_flow_item_raw; rte_flow_item_eth;
    rte_flow_item_vlan; rte_flow_item_ipv4; rte_flow_item_ipv6; rte_flow_item_icmp;
    rte_flow_item_udp; rte_flow_item_tcp; rte_flow_item_sctp; rte_flow_item_vxlan;
    rte_flow_item_e_tag; rte_flow_item_nvgre; rte_flow_item_mpls; rte_flow_item_gre;
    rte_flow_item_fuzzy; rte_flow_item_gtp; rte_flow_item_esp; rte_flow_item_geneve;
    rte_flow_item_vxlan_gpe; rte_flow_item_arp_eth_ipv4; rte_flow_item_ipv6_ext;
    rte_flow_item_icmp6; rte_flow_item_icmp6_nd_ns; rte_flow_item_icmp6_nd_na;
    rte_flow_item_icmp6_nd_opt; rte_flow_item_icmp6_nd_opt_sla_eth;
    rte_flow_item_icmp6_nd_opt_tla_eth; rte_flow_item_meta; rte_flow_item_gtp_psc;
    rte_flow_item_pppoe; rte_flow_item_pppoe_proto_id; rte_flow_item_tag; rte_flow_item_mark;
    rte_flow_item_nsh; rte_flow_item_igmp; rte_flow_item_ah; rte_flow_item_type; rte_flow_item;
    rte_flow_action_mark; rte_flow_action_jump; rte_flow_action_queue; rte_flow_action_count;
    rte_flow_query_count; rte_eth_hash_function; rte_flow_action_rss; rte_flow_action_vf;
    rte_flow_action_phy_port; rte_flow_action_port_id; rte_flow_action_meter;
    rte_flow_action_security; rte_flow_action_of_set_mpls_ttl; rte_flow_action_of_set_nw_ttl;
    rte_flow_action_of_push_vlan; rte_flow_action_of_set_vlan_vid;
    rte_flow_action_of_set_vlan_pcp; rte_flow_action_of_pop_mpls; rte_flow_action_of_push_mpls;
    rte_flow_action_vxlan_encap; rte_flow_action_nvgre_encap; rte_flow_action_raw_encap;
    rte_flow_action_raw_decap; rte_flow_action_set_ipv4; rte_flow_action_set_ipv6;
    rte_flow_action_set_tp; rte_flow_action_set_ttl; rte_flow_action_set_mac;
    rte_flow_action_set_tag; rte_flow_action_set_meta; rte_flow_action_type; rte_flow_action;
    rte_flow_error_type; rte_flow_error; rte_flow_conv_rule__bindgen_ty_1;
    rte_flow_conv_rule__bindgen_ty_2; rte_flow_conv_rule__bindgen_ty_3; rte_flow_conv_rule;
    rte_flow_desc].

(** Its structures of more than one field *)
Definition flow_structs : list layout :=
   [rte_icmp_hdr; rte_sctp_hdr; rte_esp_hdr; rte_esp_tail; rte_higig2_ppt_type1; rte_higig2_hdr;
    rte_flow_attr; rte_flow_item_raw; rte_flow_item_eth; rte_flow_item_vlan; rte_flow_item_vxlan;
    rte_flow_item_e_tag; rte_flow_item_nvgre; rte_flow_item_mpls; rte_flow_item_gre;
    rte_flow_item_gtp; rte_flow_item_geneve; rte_flow_item_vxlan_gpe; rte_flow_item_arp_eth_ipv4;
    rte_flow_item_icmp6; rte_flow_item_icmp6_nd_ns; rte_flow_item_icmp6_nd_na;
    rte_flow_item_icmp6_nd_opt; rte_flow_item_icmp6_nd_opt_sla_eth;
    rte_flow_item_icmp6_nd_opt_tla_eth; rte_flow_item_gtp_psc; rte_flow_item_pppoe;
    rte_flow_item_tag; rte_flow_item_igmp; rte_flow_item_ah; rte_flow_item; rte_flow_action_count;
    rte_flow_query_count; rte_flow_action_rss; rte_flow_action_vf; rte_flow_action_phy_port;
    rte_flow_action_port_id; rte_flow_action_raw_encap; rte_flow_action_raw_decap;
    rte_flow_action_set_tag; rte_flow_action_set_meta; rte_flow_action; rte_flow_error;
    rte_flow_conv_rule; rte_flow_desc].

(** Its generated tests *)
Definition flow_layout_tests : list bool :=
   [bindgen_test_layout_rte_arp_ipv4; bindgen_test_layout_rte_arp_hdr;
    bindgen_test_layout_rte_icmp_hdr; bindgen_test_layout_rte_sctp_hdr;
    bindgen_test_layout_rte_esp_hdr; bindgen_test_layout_rte_esp_tail;
    bindgen_test_layout_rte_higig2_frc; bindgen_test_layout_rte_higig2_ppt_type0;
    bindgen_test_layout_rte_higig2_ppt_type1; bindgen_test_layout_rte_higig2_hdr__bindgen_ty_1;
    bindgen_test_layout_rte_higig2_hdr; bindgen_test_layout_rte_flow_attr;
    bindgen_test_layout_rte_flow_item_higig2_hdr; bindgen_test_layout_rte_flow_item_any;
    bindgen_test_layout_rte_flow_item_vf; bindgen_test_layout_rte_flow_item_phy_port;
    bindgen_test_layout_rte_flow_item_port_id; bindgen_test_layout_rte_flow_item_raw;
    bindgen_test_layout_rte_flow_item_eth; bindgen_test_layout_rte_flow_item_vlan;
    bindgen_test_layout_rte_flow_item_ipv4; bindgen_test_layout_rte_flow_item_ipv6;
    bindgen_test_layout_rte_flow_item_icmp; bindgen_test_layout_rte_flow_item_udp;
    bindgen_test_layout_rte_flow_item_tcp; bindgen_test_layout_rte_flow_item_sctp;
    bindgen_test_layout_rte_flow_item_vxlan; bindgen_test_layout_rte_flow_item_e_tag;
    bindgen_test_layout_rte_flow_item_nvgre; bindgen_test_layout_rte_flow_item_mpls;
    bindgen_test_layout_rte_flow_item_gre; bindgen_test_layout_rte_flow_item_fuzzy;
    bindgen_test_layout_rte_flow_item_gtp; bindgen_test_layout_rte_flow_item_esp;
    bindgen_test_layout_rte_flow_item_geneve; bindgen_test_layout_rte_flow_item_vxlan_gpe;
    bindgen_test_layout_rte_flow_item_arp_eth_ipv4; bindgen_test_layout_rte_flow_item_ipv6_ext;
    bindgen_test_layout_rte_flow_item_icmp6; bindgen_test_layout_rte_flow_item_icmp6_nd_ns;
    bindgen_test_layout_rte_flow_item_icmp6_nd_na; bindgen_test_layout_rte_flow_item_icmp6_nd_opt;
    bindgen_test_layout_rte_flow_item_icmp6_nd_opt_sla_eth;
    bindgen_test_layout_rte_flow_item_icmp6_nd_opt_tla_eth;
    bindgen_test_layout_rte_flow_item_meta; bindgen_test_layout_rte_flow_item_gtp_psc;
    bindgen_test_layout_rte_flow_item_pppoe; bindgen_test_layout_rte_flow_item_pppoe_proto_id;
    bindgen_test_layout_rte_flow_item_tag; bindgen_test_layout_rte_flow_item_mark;
    bindgen_test_layout_rte_flow_item_nsh; bindgen_test_layout_rte_flow_item_igmp;
    bindgen_test_layout_rte_flow_item_ah; bindgen_test_layout_rte_flow_item;
    bindgen_test_layout_rte_flow_action_mark; bindgen_test_layout_rte_flow_action_jump;
    bindgen_test_layout_rte_flow_action_queue; bindgen_test_layout_rte_flow_action_count;
    bindgen_test_layout_rte_flow_query_count; bindgen_test_layout_rte_flow_action_rss;
    bindgen_test_layout_rte_flow_action_vf; bindgen_test_layout_rte_flow_action_phy_port;
    bindgen_test_layout_rte_flow_action_port_id; bindgen_test_layout_rte_flow_action_meter;
    bindgen_test_layout_rte_flow_action_security;
    bindgen_test_layout_rte_flow_action_of_set_mpls_ttl;
    bindgen_test_layout_rte_flow_action_of_set_nw_ttl;
    bindgen_test_layout_rte_flow_action_of_push_vlan;
    bindgen_test_layout_rte_flow_action_of_set_vlan_vid;
    bindgen_test_layout_rte_flow_action_of_set_vlan_pcp;
    bindgen_test_layout_rte_flow_action_of_pop_mpls;
    bindgen_test_layout_rte_flow_action_of_push_mpls;
    bindgen_test_layout_rte_flow_action_vxlan_encap;
    bindgen_test_layout_rte_flow_action_nvgre_encap;
    bindgen_test_layout_rte_flow_action_raw_encap; bindgen_test_layout_rte_flow_action_raw_decap;
    bindgen_test_layout_rte_flow_action_set_ipv4; bindgen_test_layout_rte_flow_action_set_ipv6;
    bindgen_test_layout_rte_flow_action_set_tp; bindgen_test_layout_rte_flow_action_set_ttl;
    bindgen_test_layout_rte_flow_action_set_mac; bindgen_test_layout_rte_flow_action_set_tag;
    bindgen_test_layout_rte_flow_action_set_meta; bindgen_test_layout_rte_flow_action;
    bindgen_test_layout_rte_flow_error; bindgen_test_layout_rte_flow_conv_rule__bindgen_ty_1;
    bindgen_test_layout_rte_flow_conv_rule__bindgen_ty_2;
    bindgen_test_layout_rte_flow_conv_rule__bindgen_ty_3; bindgen_test_layout_rte_flow_conv_rule;
    bindgen_test_layout_rte_flow_desc].

#[local] Close Scope string_scope.

(** ** Properties *)

Lemma flow_types_sound : Forall sound flow_types.
Proof. unfold flow_types. sound_layout. Qed.

Lemma flow_layout_tests_true : Forall (eq true) flow_layout_tests.
Proof. unfold flow_layout_tests. repeat (constructor; [vm_compute; reflexivity|]). constructor. Qed.

Lemma flow_structs_ordered : Forall (fun l => sound l /\ ordered (fields l)) flow_structs.
Proof. unfold flow_structs. repeat (constructor; [split; [sound_layout|ordered_layout]|]). constructor. Qed.
