(* ===== verification/FilterBindings.v ===== *)
(** * The structures of filters ([ffi/src/bindings_rustdoc.rs])

    DPDK's older filters: what they match, the flow director and the hash filters, tunnels. *)

From S2P Require Import Prelude Layout Bindings PortBindings FlowBindings.

#[local] Open Scope string_scope.

(** ** Filters *)

Definition rte_mac_filter_type : layout := u32.

Definition rte_eth_mac_filter : layout := repr_c
   [("is_vf", u8); ("dst_id", u16); ("filter_type", rte_mac_filter_type);
    ("mac_addr", rte_ether_addr)].

Definition bindgen_test_layout_rte_eth_mac_filter : bool :=
  layout_test rte_eth_mac_filter 16 4
   [("is_vf", 0); ("dst_id", 2); ("filter_type", 4); ("mac_addr", 8)].

Definition rte_eth_ethertype_filter : layout := repr_c
   [("mac_addr", rte_ether_addr); ("ether_type", u16); ("flags", u16); ("queue", u16)].

Definition bindgen_test_layout_rte_eth_ethertype_filter : bool :=
  layout_test rte_eth_ethertype_filter 12 2
   [("mac_addr", 0); ("ether_type", 6); ("flags", 8); ("queue", 10)].

Definition rte_eth_flex_filter : layout := repr_c
   [("len", u16); ("bytes", array u8 128); ("mask", array u8 16); ("priority", u8);
    ("queue", u16)].

Definition bindgen_test_layout_rte_eth_flex_filter : bool :=
  layout_test rte_eth_flex_filter 150 2
   [("len", 0); ("bytes", 2); ("mask", 130); ("priority", 146); ("queue", 148)].

Definition rte_eth_syn_filter : layout := repr_c
   [("hig_pri", u8); ("queue", u16)].

Definition bindgen_test_layout_rte_eth_syn_filter : bool :=
  layout_test rte_eth_syn_filter 4 2
   [("hig_pri", 0); ("queue", 2)].

Definition rte_eth_ntuple_filter : layout := repr_c
   [("flags", u16); ("dst_ip", u32); ("dst_ip_mask", u32); ("src_ip", u32); ("src_ip_mask", u32);
    ("dst_port", u16); ("dst_port_mask", u16); ("src_port", u16); ("src_port_mask", u16);
    ("proto", u8); ("proto_mask", u8); ("tcp_flags", u8); ("priority", u16); ("queue", u16)].

Definition bindgen_test_layout_rte_eth_ntuple_filter : bool :=
  layout_test rte_eth_ntuple_filter 36 4
   [("flags", 0); ("dst_ip", 4); ("dst_ip_mask", 8); ("src_ip", 12); ("src_ip_mask", 16);
    ("dst_port", 20); ("dst_port_mask", 22); ("src_port", 24); ("src_port_mask", 26);
    ("proto", 28); ("proto_mask", 29); ("tcp_flags", 30); ("priority", 32); ("queue", 34)].

Definition rte_tunnel_iptype : layout := u32.

Definition rte_eth_tunnel_filter_conf__bindgen_ty_1 : layout := repr_union
   [("ipv4_addr", u32); ("ipv6_addr", array u32 4); ("_bindgen_union_align", array u32 4)].

Definition bindgen_test_layout_rte_eth_tunnel_filter_conf__bindgen_ty_1 : bool :=
  layout_test rte_eth_tunnel_filter_conf__bindgen_ty_1 16 4
   [("ipv4_addr", 0); ("ipv6_addr", 0)].

Definition rte_eth_tunnel_type : layout := u32.

Definition rte_eth_tunnel_filter_conf : layout := repr_c
   [("outer_mac", rte_ether_addr); ("inner_mac", rte_ether_addr); ("inner_vlan", u16);
    ("ip_type", rte_tunnel_iptype); ("ip_addr", rte_eth_tunnel_filter_conf__bindgen_ty_1);
    ("filter_type", u16); ("tunnel_type", rte_eth_tunnel_type); ("tenant_id", u32);
    ("queue_id", u16)].

Definition bindgen_test_layout_rte_eth_tunnel_filter_conf : bool :=
  layout_test rte_eth_tunnel_filter_conf 52 4
   [("outer_mac", 0); ("inner_mac", 6); ("inner_vlan", 12); ("ip_type", 16); ("ip_addr", 20);
    ("filter_type", 36); ("tunnel_type", 40); ("tenant_id", 44); ("queue_id", 48)].

Definition rte_eth_global_cfg_type : layout := u32.

Definition rte_eth_global_cfg__bindgen_ty_1 : layout := repr_union
   [("gre_key_len", u8); ("reserved", u64); ("_bindgen_union_align", u64)].

Definition bindgen_test_layout_rte_eth_global_cfg__bindgen_ty_1 : bool :=
  layout_test rte_eth_global_cfg__bindgen_ty_1 8 8
   [("gre_key_len", 0); ("reserved", 0)].

Definition rte_eth_global_cfg : layout := repr_c
   [("cfg_type", rte_eth_global_cfg_type); ("cfg", rte_eth_global_cfg__bindgen_ty_1)].

Definition bindgen_test_layout_rte_eth_global_cfg : bool :=
  layout_test rte_eth_global_cfg 16 8
   [("cfg_type", 0); ("cfg", 8)].

Definition rte_eth_input_set_field : layout := u32.

Definition rte_filter_input_set_op : layout := u32.

Definition rte_eth_input_set_conf : layout := repr_c
   [("flow_type", u16); ("inset_size", u16); ("field", array rte_eth_input_set_field 128);
    ("op", rte_filter_input_set_op)].

Definition bindgen_test_layout_rte_eth_input_set_conf : bool :=
  layout_test rte_eth_input_set_conf 520 4
   [("flow_type", 0); ("inset_size", 2); ("field", 4); ("op", 516)].

Definition rte_eth_l2_flow : layout := repr_c
   [("ether_type", u16)].

Definition bindgen_test_layout_rte_eth_l2_flow : bool :=
  layout_test rte_eth_l2_flow 2 2
   [("ether_type", 0)].

Definition rte_eth_udpv4_flow : layout := repr_c
   [("ip", rte_eth_ipv4_flow); ("src_port", u16); ("dst_port", u16)].

Definition bindgen_test_layout_rte_eth_udpv4_flow : bool :=
  layout_test rte_eth_udpv4_flow 16 4
   [("ip", 0); ("src_port", 12); ("dst_port", 14)].

Definition rte_eth_tcpv4_flow : layout := repr_c
   [("ip", rte_eth_ipv4_flow); ("src_port", u16); ("dst_port", u16)].

Definition bindgen_test_layout_rte_eth_tcpv4_flow : bool :=
  layout_test rte_eth_tcpv4_flow 16 4
   [("ip", 0); ("src_port", 12); ("dst_port", 14)].

Definition rte_eth_sctpv4_flow : layout := repr_c
   [("ip", rte_eth_ipv4_flow); ("src_port", u16); ("dst_port", u16); ("verify_tag", u32)].

Definition bindgen_test_layout_rte_eth_sctpv4_flow : bool :=
  layout_test rte_eth_sctpv4_flow 20 4
   [("ip", 0); ("src_port", 12); ("dst_port", 14); ("verify_tag", 16)].

Definition rte_eth_udpv6_flow : layout := repr_c
   [("ip", rte_eth_ipv6_flow); ("src_port", u16); ("dst_port", u16)].

Definition bindgen_test_layout_rte_eth_udpv6_flow : bool :=
  layout_test rte_eth_udpv6_flow 40 4
   [("ip", 0); ("src_port", 36); ("dst_port", 38)].

Definition rte_eth_tcpv6_flow : layout := repr_c
   [("ip", rte_eth_ipv6_flow); ("src_port", u16); ("dst_port", u16)].

Definition bindgen_test_layout_rte_eth_tcpv6_flow : bool :=
  layout_test rte_eth_tcpv6_flow 40 4
   [("ip", 0); ("src_port", 36); ("dst_port", 38)].

Definition rte_eth_sctpv6_flow : layout := repr_c
   [("ip", rte_eth_ipv6_flow); ("src_port", u16); ("dst_port", u16); ("verify_tag", u32)].

Definition bindgen_test_layout_rte_eth_sctpv6_flow : bool :=
  layout_test rte_eth_sctpv6_flow 44 4
   [("ip", 0); ("src_port", 36); ("dst_port", 38); ("verify_tag", 40)].

Definition rte_eth_mac_vlan_flow : layout := repr_c
   [("mac_addr", rte_ether_addr)].

Definition bindgen_test_layout_rte_eth_mac_vlan_flow : bool :=
  layout_test rte_eth_mac_vlan_flow 6 2
   [("mac_addr", 0)].

Definition rte_eth_fdir_tunnel_type : layout := u32.

Definition rte_eth_tunnel_flow : layout := repr_c
   [("tunnel_type", rte_eth_fdir_tunnel_type); ("tunnel_id", u32); ("mac_addr", rte_ether_addr)].

Definition bindgen_test_layout_rte_eth_tunnel_flow : bool :=
  layout_test rte_eth_tunnel_flow 16 4
   [("tunnel_type", 0); ("tunnel_id", 4); ("mac_addr", 8)].

Definition rte_eth_fdir_flow : layout := repr_union
   [("l2_flow", rte_eth_l2_flow); ("udp4_flow", rte_eth_udpv4_flow);
    ("tcp4_flow", rte_eth_tcpv4_flow); ("sctp4_flow", rte_eth_sctpv4_flow);
    ("ip4_flow", rte_eth_ipv4_flow); ("udp6_flow", rte_eth_udpv6_flow);
    ("tcp6_flow", rte_eth_tcpv6_flow); ("sctp6_flow", rte_eth_sctpv6_flow);
    ("ipv6_flow", rte_eth_ipv6_flow); ("mac_vlan_flow", rte_eth_mac_vlan_flow);
    ("tunnel_flow", rte_eth_tunnel_flow); ("_bindgen_union_align", array u32 11)].

Definition bindgen_test_layout_rte_eth_fdir_flow : bool :=
  layout_test rte_eth_fdir_flow 44 4
   [("l2_flow", 0); ("udp4_flow", 0); ("tcp4_flow", 0); ("sctp4_flow", 0); ("ip4_flow", 0);
    ("udp6_flow", 0); ("tcp6_flow", 0); ("sctp6_flow", 0); ("ipv6_flow", 0); ("mac_vlan_flow", 0);
    ("tunnel_flow", 0)].

Definition rte_eth_fdir_flow_ext : layout := repr_c
   [("vlan_tci", u16); ("flexbytes", array u8 16); ("is_vf", u8); ("dst_id", u16)].

Definition bindgen_test_layout_rte_eth_fdir_flow_ext : bool :=
  layout_test rte_eth_fdir_flow_ext 22 2
   [("vlan_tci", 0); ("flexbytes", 2); ("is_vf", 18); ("dst_id", 20)].

Definition rte_eth_fdir_input : layout := repr_c
   [("flow_type", u16); ("flow", rte_eth_fdir_flow); ("flow_ext", rte_eth_fdir_flow_ext)].

Definition bindgen_test_layout_rte_eth_fdir_input : bool :=
  layout_test rte_eth_fdir_input 72 4
   [("flow_type", 0); ("flow", 4); ("flow_ext", 48)].

Definition rte_eth_fdir_behavior : layout := u32.

Definition rte_eth_fdir_status : layout := u32.

Definition rte_eth_fdir_action : layout := repr_c
   [("rx_queue", u16); ("behavior", rte_eth_fdir_behavior);
    ("report_status", rte_eth_fdir_status); ("flex_off", u8)].

Definition bindgen_test_layout_rte_eth_fdir_action : bool :=
  layout_test rte_eth_fdir_action 16 4
   [("rx_queue", 0); ("behavior", 4); ("report_status", 8); ("flex_off", 12)].

Definition rte_eth_fdir_filter : layout := repr_c
   [("soft_id", u32); ("input", rte_eth_fdir_input); ("action", rte_eth_fdir_action)].

Definition bindgen_test_layout_rte_eth_fdir_filter : bool :=
  layout_test rte_eth_fdir_filter 92 4
   [("soft_id", 0); ("input", 4); ("action", 76)].

Definition rte_eth_fdir_info : layout := repr_c
   [("mode", rte_fdir_mode); ("mask", rte_eth_fdir_masks); ("flex_conf", rte_eth_fdir_flex_conf);
    ("guarant_spc", u32); ("best_spc", u32); ("flow_types_mask", array u64 1);
    ("max_flexpayload", u32); ("flex_payload_unit", u32); ("max_flex_payload_segment_num", u32);
    ("flex_payload_limit", u16); ("flex_bitmask_unit", u32); ("max_flex_bitmask_num", u32)].

Definition bindgen_test_layout_rte_eth_fdir_info : bool :=
  layout_test rte_eth_fdir_info 840 8
   [("mode", 0); ("mask", 4); ("flex_conf", 72); ("guarant_spc", 796); ("best_spc", 800);
    ("flow_types_mask", 808); ("max_flexpayload", 816); ("flex_payload_unit", 820);
    ("max_flex_payload_segment_num", 824); ("flex_payload_limit", 828);
    ("flex_bitmask_unit", 832); ("max_flex_bitmask_num", 836)].

Definition rte_eth_fdir_stats : layout := repr_c
   [("collision", u32); ("free", u32); ("maxhash", u32); ("maxlen", u32); ("add", u64);
    ("remove", u64); ("f_add", u64); ("f_remove", u64); ("guarant_cnt", u32); ("best_cnt", u32)].

Definition bindgen_test_layout_rte_eth_fdir_stats : bool :=
  layout_test rte_eth_fdir_stats 56 8
   [("collision", 0); ("free", 4); ("maxhash", 8); ("maxlen", 12); ("add", 16); ("remove", 24);
    ("f_add", 32); ("f_remove", 40); ("guarant_cnt", 48); ("best_cnt", 52)].

Definition rte_eth_fdir_filter_info_type : layout := u32.

Definition rte_eth_fdir_filter_info__bindgen_ty_1 : layout := repr_union
   [("input_set_conf", rte_eth_input_set_conf); ("_bindgen_union_align", array u32 130)].

Definition bindgen_test_layout_rte_eth_fdir_filter_info__bindgen_ty_1 : bool :=
  layout_test rte_eth_fdir_filter_info__bindgen_ty_1 520 4
   [("input_set_conf", 0)].

Definition rte_eth_fdir_filter_info : layout := repr_c
   [("info_type", rte_eth_fdir_filter_info_type);
    ("info", rte_eth_fdir_filter_info__bindgen_ty_1)].

Definition bindgen_test_layout_rte_eth_fdir_filter_info : bool :=
  layout_test rte_eth_fdir_filter_info 524 4
   [("info_type", 0); ("info", 4)].

Definition rte_eth_hash_global_conf : layout := repr_c
   [("hash_func", rte_eth_hash_function); ("sym_hash_enable_mask", array u64 1);
    ("valid_bit_mask", array u64 1)].

Definition bindgen_test_layout_rte_eth_hash_global_conf : bool :=
  layout_test rte_eth_hash_global_conf 24 8
   [("hash_func", 0); ("sym_hash_enable_mask", 8); ("valid_bit_mask", 16)].

Definition rte_eth_hash_filter_info_type : layout := u32.

Definition rte_eth_hash_filter_info__bindgen_ty_1 : layout := repr_union
   [("enable", u8); ("global_conf", rte_eth_hash_global_conf);
    ("input_set_conf", rte_eth_input_set_conf); ("_bindgen_union_align", array u64 65)].

Definition bindgen_test_layout_rte_eth_hash_filter_info__bindgen_ty_1 : bool :=
  layout_test rte_eth_hash_filter_info__bindgen_ty_1 520 8
   [("enable", 0); ("global_conf", 0); ("input_set_conf", 0)].

Definition rte_eth_hash_filter_info : layout := repr_c
   [("info_type", rte_eth_hash_filter_info_type);
    ("info", rte_eth_hash_filter_info__bindgen_ty_1)].

Definition bindgen_test_layout_rte_eth_hash_filter_info : bool :=
  layout_test rte_eth_hash_filter_info 528 8
   [("info_type", 0); ("info", 8)].

Definition rte_eth_l2_tunnel_conf : layout := repr_c
   [("l2_tunnel_type", rte_eth_tunnel_type); ("ether_type", u16); ("tunnel_id", u32);
    ("vf_id", u16); ("pool", u32)].

Definition bindgen_test_layout_rte_eth_l2_tunnel_conf : bool :=
  layout_test rte_eth_l2_tunnel_conf 20 4
   [("l2_tunnel_type", 0); ("ether_type", 4); ("tunnel_id", 8); ("vf_id", 12); ("pool", 16)].

Definition rte_eth_udp_tunnel : layout := repr_c
   [("udp_port", u16); ("prot_type", u8)].

Definition bindgen_test_layout_rte_eth_udp_tunnel : bool :=
  layout_test rte_eth_udp_tunnel 4 2
   [("udp_port", 0); ("prot_type", 2)].

(** The types of this file *)
Definition filter_types : list layout :=
   [rte_mac_filter_type; rte_eth_mac_filter; rte_eth_ethertype_filter; rte_eth_flex_filter;
    rte_eth_syn_filter; rte_eth_ntuple_filter; rte_tunnel_iptype;
    rte_eth_tunnel_filter_conf__bindgen_ty_1; rte_eth_tunnel_type; rte_eth_tunnel_filter_conf;
    rte_eth_global_cfg_type; rte_eth_global_cfg__bindgen_ty_1; rte_eth_global_cfg;
    rte_eth_input_set_field; rte_filter_input_set_op; rte_eth_input_set_conf; rte_eth_l2_flow;
    rte_eth_udpv4_flow; rte_eth_tcpv4_flow; rte_eth_sctpv4_flow; rte_eth_udpv6_flow;
    rte_eth_tcpv6_flow; rte_eth_sctpv6_flow; rte_eth_mac_vlan_flow; rte_eth_fdir_tunnel_type;
    rte_eth_tunnel_flow; rte_eth_fdir_flow; rte_eth_fdir_flow_ext; rte_eth_fdir_input;
    rte_eth_fdir_behavior; rte_eth_fdir_status; rte_eth_fdir_action; rte_eth_fdir_filter;
    rte_eth_fdir_info; rte_eth_fdir_stats; rte_eth_fdir_filter_info_type;
    rte_eth_fdir_filter_info__bindgen_ty_1; rte_eth_fdir_filter_info; rte_eth_hash_global_conf;
    rte_eth_hash_filter_info_type; rte_eth_hash_filter_info__bindgen_ty_1;
    rte_eth_hash_filter_info; rte_eth_l2_tunnel_conf; rte_eth_udp_tunnel].

(** Its structures of more than one field *)
Definition filter_structs : list layout :=
   [rte_eth_mac_filter; rte_eth_ethertype_filter; rte_eth_flex_filter; rte_eth_syn_filter;
    rte_eth_ntuple_filter; rte_eth_tunnel_filter_conf; rte_eth_global_cfg; rte_eth_input_set_conf;
    rte_eth_udpv4_flow; rte_eth_tcpv4_flow; rte_eth_sctpv4_flow; rte_eth_udpv6_flow;
    rte_eth_tcpv6_flow; rte_eth_sctpv6_flow; rte_eth_tunnel_flow; rte_eth_fdir_flow_ext;
    rte_eth_fdir_input; rte_eth_fdir_action; rte_eth_fdir_filter; rte_eth_fdir_info;
    rte_eth_fdir_stats; rte_eth_fdir_filter_info; rte_eth_hash_global_conf;
    rte_eth_hash_filter_info; rte_eth_l2_tunnel_conf; rte_eth_udp_tunnel].

(** Its generated tests *)
Definition filter_layout_tests : list bool :=
   [bindgen_test_layout_rte_eth_mac_filter; bindgen_test_layout_rte_eth_ethertype_filter;
    bindgen_test_layout_rte_eth_flex_filter; bindgen_test_layout_rte_eth_syn_filter;
    bindgen_test_layout_rte_eth_ntuple_filter;
    bindgen_test_layout_rte_eth_tunnel_filter_conf__bindgen_ty_1;
    bindgen_test_layout_rte_eth_tunnel_filter_conf;
    bindgen_test_layout_rte_eth_global_cfg__bindgen_ty_1; bindgen_test_layout_rte_eth_global_cfg;
    bindgen_test_layout_rte_eth_input_set_conf; bindgen_test_layout_rte_eth_l2_flow;
    bindgen_test_layout_rte_eth_udpv4_flow; bindgen_test_layout_rte_eth_tcpv4_flow;
    bindgen_test_layout_rte_eth_sctpv4_flow; bindgen_test_layout_rte_eth_udpv6_flow;
    bindgen_test_layout_rte_eth_tcpv6_flow; bindgen_test_layout_rte_eth_sctpv6_flow;
    bindgen_test_layout_rte_eth_mac_vlan_flow; bindgen_test_layout_rte_eth_tunnel_flow;
    bindgen_test_layout_rte_eth_fdir_flow; bindgen_test_layout_rte_eth_fdir_flow_ext;
    bindgen_test_layout_rte_eth_fdir_input; bindgen_test_layout_rte_eth_fdir_action;
    bindgen_test_layout_rte_eth_fdir_filter; bindgen_test_layout_rte_eth_fdir_info;
    bindgen_test_layout_rte_eth_fdir_stats;
    bindgen_test_layout_rte_eth_fdir_filter_info__bindgen_ty_1;
    bindgen_test_layout_rte_eth_fdir_filter_info; bindgen_test_layout_rte_eth_hash_global_conf;
    bindgen_test_layout_rte_eth_hash_filter_info__bindgen_ty_1;
    bindgen_test_layout_rte_eth_hash_filter_info; bindgen_test_layout_rte_eth_l2_tunnel_conf;
    bindgen_test_layout_rte_eth_udp_tunnel].

#[local] Close Scope string_scope.

(** ** Properties *)

Lemma filter_types_sound : Forall sound filter_types.
Proof. unfold filter_types. sound_layout. Qed.

Lemma filter_layout_tests_true : Forall (eq true) filter_layout_tests.
Proof. unfold filter_layout_tests. repeat (constructor; [vm_compute; reflexivity|]). constructor. Qed.

Lemma filter_structs_ordered : Forall (fun l => sound l /\ ordered (fields l)) filter_structs.
Proof. unfold filter_structs. repeat (constructor; [split; [sound_layout|ordered_layout]|]). constructor. Qed.
