(* ===== verification/DeviceBindings.v ===== *)
(** * The structures of devices ([ffi/src/bindings_rustdoc.rs])

    Devices, drivers, buses and interrupts, the device behind a port with its operations, the
    kernel interface, and the structures of the C library and of [libpcap] in the bindings. *)

From S2P Require Import Prelude Layout Bindings PortBindings FlowBindings FilterBindings.

#[local] Open Scope string_scope.

(** ** System structures *)

Definition __time_t : layout := c_long.

Definition __syscall_slong_t : layout := c_long.

Definition timespec : layout := repr_c
   [("tv_sec", __time_t); ("tv_nsec", __syscall_slong_t)].

Definition bindgen_test_layout_timespec : bool :=
  layout_test timespec 16 8
   [("tv_sec", 0); ("tv_nsec", 8)].

Definition pthread_attr_t : layout := repr_union
   [("__size", array c_char 56); ("__align", c_long); ("_bindgen_union_align", array u64 7)].

Definition bindgen_test_layout_pthread_attr_t : bool :=
  layout_test pthread_attr_t 56 8
   [("__size", 0); ("__align", 0)].

Definition __off_t : layout := c_long.

Definition __off64_t : layout := c_long.

Definition _IO_FILE : layout := repr_c
   [("_flags", c_int); ("_IO_read_ptr", pointer); ("_IO_read_end", pointer);
    ("_IO_read_base", pointer); ("_IO_write_base", pointer); ("_IO_write_ptr", pointer);
    ("_IO_write_end", pointer); ("_IO_buf_base", pointer); ("_IO_buf_end", pointer);
    ("_IO_save_base", pointer); ("_IO_backup_base", pointer); ("_IO_save_end", pointer);
    ("_markers", pointer); ("_chain", pointer); ("_fileno", c_int); ("_flags2", c_int);
    ("_old_offset", __off_t); ("_cur_column", c_ushort); ("_vtable_offset", c_schar);
    ("_shortbuf", array c_char 1); ("_lock", pointer); ("_offset", __off64_t);
    ("_codecvt", pointer); ("_wide_data", pointer); ("_freeres_list", pointer);
    ("_freeres_buf", pointer); ("__pad5", size_t); ("_mode", c_int);
    ("_unused2", array c_char 20)].

Definition bindgen_test_layout__IO_FILE : bool :=
  layout_test _IO_FILE 216 8
   [("_flags", 0); ("_IO_read_ptr", 8); ("_IO_read_end", 16); ("_IO_read_base", 24);
    ("_IO_write_base", 32); ("_IO_write_ptr", 40); ("_IO_write_end", 48); ("_IO_buf_base", 56);
    ("_IO_buf_end", 64); ("_IO_save_base", 72); ("_IO_backup_base", 80); ("_IO_save_end", 88);
    ("_markers", 96); ("_chain", 104); ("_fileno", 112); ("_flags2", 116); ("_old_offset", 120);
    ("_cur_column", 128); ("_vtable_offset", 130); ("_shortbuf", 131); ("_lock", 136);
    ("_offset", 144); ("_codecvt", 152); ("_wide_data", 160); ("_freeres_list", 168);
    ("_freeres_buf", 176); ("__pad5", 184); ("_mode", 192); ("_unused2", 196)].

Definition __suseconds_t : layout := c_long.

Definition timeval : layout := repr_c
   [("tv_sec", __time_t); ("tv_usec", __suseconds_t)].

Definition bindgen_test_layout_timeval : bool :=
  layout_test timeval 16 8
   [("tv_sec", 0); ("tv_usec", 8)].

Definition sa_family_t : layout := c_ushort.

Definition sockaddr : layout := repr_c
   [("sa_family", sa_family_t); ("sa_data", array c_char 14)].

Definition bindgen_test_layout_sockaddr : bool :=
  layout_test sockaddr 16 2
   [("sa_family", 0); ("sa_data", 2)].

Definition nodemask_t : layout := repr_c
   [("n", array c_ulong 2)].

Definition bindgen_test_layout_nodemask_t : bool :=
  layout_test nodemask_t 16 8
   [("n", 0)].

Definition bitmask : layout := repr_c
   [("size", c_ulong); ("maskp", pointer)].

Definition bindgen_test_layout_bitmask : bool :=
  layout_test bitmask 16 8
   [("size", 0); ("maskp", 8)].

Definition __va_list_tag : layout := repr_c
   [("gp_offset", c_uint); ("fp_offset", c_uint); ("overflow_arg_area", pointer);
    ("reg_save_area", pointer)].

Definition bindgen_test_layout___va_list_tag : bool :=
  layout_test __va_list_tag 24 8
   [("gp_offset", 0); ("fp_offset", 4); ("overflow_arg_area", 8); ("reg_save_area", 16)].

(** ** Devices and the environment *)

Definition rte_logs : layout := repr_c
   [("type_", u32); ("level", u32); ("file", pointer); ("dynamic_types_len", size_t);
    ("dynamic_types", pointer)].

Definition bindgen_test_layout_rte_logs : bool :=
  layout_test rte_logs 32 8
   [("type_", 0); ("level", 4); ("file", 8); ("dynamic_types_len", 16); ("dynamic_types", 24)].

Definition rte_dev_event_type : layout := u32.

Definition rte_dev_event : layout := repr_c
   [("type_", rte_dev_event_type); ("subsystem", c_int); ("devname", pointer)].

Definition bindgen_test_layout_rte_dev_event : bool :=
  layout_test rte_dev_event 16 8
   [("type_", 0); ("subsystem", 4); ("devname", 8)].

Definition rte_mem_resource : layout := repr_c
   [("phys_addr", u64); ("len", u64); ("addr", pointer)].

Definition bindgen_test_layout_rte_mem_resource : bool :=
  layout_test rte_mem_resource 24 8
   [("phys_addr", 0); ("len", 8); ("addr", 16)].

Definition rte_driver__bindgen_ty_1 : layout := repr_c
   [("tqe_next", pointer); ("tqe_prev", pointer)].

Definition bindgen_test_layout_rte_driver__bindgen_ty_1 : bool :=
  layout_test rte_driver__bindgen_ty_1 16 8
   [("tqe_next", 0); ("tqe_prev", 8)].

Definition rte_driver : layout := repr_c
   [("next", rte_driver__bindgen_ty_1); ("name", pointer); ("alias", pointer)].

Definition bindgen_test_layout_rte_driver : bool :=
  layout_test rte_driver 32 8
   [("next", 0); ("name", 16); ("alias", 24)].

Definition rte_device__bindgen_ty_1 : layout := repr_c
   [("tqe_next", pointer); ("tqe_prev", pointer)].

Definition bindgen_test_layout_rte_device__bindgen_ty_1 : bool :=
  layout_test rte_device__bindgen_ty_1 16 8
   [("tqe_next", 0); ("tqe_prev", 8)].

Definition rte_device : layout := repr_c
   [("next", rte_device__bindgen_ty_1); ("name", pointer); ("driver", pointer); ("bus", pointer);
    ("numa_node", c_int); ("devargs", pointer)].

Definition bindgen_test_layout_rte_device : bool :=
  layout_test rte_device 56 8
   [("next", 0); ("name", 16); ("driver", 24); ("bus", 32); ("numa_node", 40); ("devargs", 48)].

Definition rte_dev_iterator : layout := repr_c
   [("dev_str", pointer); ("bus_str", pointer); ("cls_str", pointer); ("bus", pointer);
    ("cls", pointer); ("device", pointer); ("class_device", pointer)].

Definition bindgen_test_layout_rte_dev_iterator : bool :=
  layout_test rte_dev_iterator 56 8
   [("dev_str", 0); ("bus_str", 8); ("cls_str", 16); ("bus", 24); ("cls", 32); ("device", 40);
    ("class_device", 48)].

Definition rte_bus_list : layout := repr_c
   [("tqh_first", pointer); ("tqh_last", pointer)].

Definition bindgen_test_layout_rte_bus_list : bool :=
  layout_test rte_bus_list 16 8
   [("tqh_first", 0); ("tqh_last", 8)].

Definition rte_bus_scan_mode : layout := u32.

Definition rte_bus_conf : layout := repr_c
   [("scan_mode", rte_bus_scan_mode)].

Definition bindgen_test_layout_rte_bus_conf : bool :=
  layout_test rte_bus_conf 4 4
   [("scan_mode", 0)].

Definition rte_bus__bindgen_ty_1 : layout := repr_c
   [("tqe_next", pointer); ("tqe_prev", pointer)].

Definition bindgen_test_layout_rte_bus__bindgen_ty_1 : bool :=
  layout_test rte_bus__bindgen_ty_1 16 8
   [("tqe_next", 0); ("tqe_prev", 8)].

Definition rte_bus_scan_t : layout := pointer.

Definition rte_bus_probe_t : layout := pointer.

Definition rte_bus_find_device_t : layout := pointer.

Definition rte_bus_plug_t : layout := pointer.

Definition rte_bus_unplug_t : layout := pointer.

Definition rte_bus_parse_t : layout := pointer.

Definition rte_dev_dma_map_t : layout := pointer.

Definition rte_dev_dma_unmap_t : layout := pointer.

Definition rte_bus_get_iommu_class_t : layout := pointer.

Definition rte_dev_iterate_t : layout := pointer.

Definition rte_bus_hot_unplug_handler_t : layout := pointer.

Definition rte_bus_sigbus_handler_t : layout := pointer.

Definition rte_bus : layout := repr_c
   [("next", rte_bus__bindgen_ty_1); ("name", pointer); ("scan", rte_bus_scan_t);
    ("probe", rte_bus_probe_t); ("find_device", rte_bus_find_device_t); ("plug", rte_bus_plug_t);
    ("unplug", rte_bus_unplug_t); ("parse", rte_bus_parse_t); ("dma_map", rte_dev_dma_map_t);
    ("dma_unmap", rte_dev_dma_unmap_t); ("conf", rte_bus_conf);
    ("get_iommu_class", rte_bus_get_iommu_class_t); ("dev_iterate", rte_dev_iterate_t);
    ("hot_unplug_handler", rte_bus_hot_unplug_handler_t);
    ("sigbus_handler", rte_bus_sigbus_handler_t)].

Definition bindgen_test_layout_rte_bus : bool :=
  layout_test rte_bus 128 8
   [("next", 0); ("name", 16); ("scan", 24); ("probe", 32); ("find_device", 40); ("plug", 48);
    ("unplug", 56); ("parse", 64); ("dma_map", 72); ("dma_unmap", 80); ("conf", 88);
    ("get_iommu_class", 96); ("dev_iterate", 104); ("hot_unplug_handler", 112);
    ("sigbus_handler", 120)].

Definition rte_mp_msg : layout := repr_c
   [("name", array c_char 64); ("len_param", c_int); ("num_fds", c_int); ("param", array u8 256);
    ("fds", array c_int 8)].

Definition bindgen_test_layout_rte_mp_msg : bool :=
  layout_test rte_mp_msg 360 4
   [("name", 0); ("len_param", 64); ("num_fds", 68); ("param", 72); ("fds", 328)].

Definition rte_mp_reply : layout := repr_c
   [("nb_sent", c_int); ("nb_received", c_int); ("msgs", pointer)].

Definition bindgen_test_layout_rte_mp_reply : bool :=
  layout_test rte_mp_reply 16 8
   [("nb_sent", 0); ("nb_received", 4); ("msgs", 8)].

Definition rte_intr_event_cb_t : layout := pointer.

Definition rte_epoll_data : layout := repr_c
   [("event", u32); ("data", pointer); ("cb_fun", rte_intr_event_cb_t); ("cb_arg", pointer)].

Definition bindgen_test_layout_rte_epoll_data : bool :=
  layout_test rte_epoll_data 32 8
   [("event", 0); ("data", 8); ("cb_fun", 16); ("cb_arg", 24)].

Definition rte_epoll_event : layout := repr_c
   [("status", u32); ("fd", c_int); ("epfd", c_int); ("epdata", rte_epoll_data)].

Definition bindgen_test_layout_rte_epoll_event : bool :=
  layout_test rte_epoll_event 48 8
   [("status", 0); ("fd", 4); ("epfd", 8); ("epdata", 16)].

Definition rte_intr_handle__bindgen_ty_1 : layout := repr_union
   [("vfio_dev_fd", c_int); ("uio_cfg_fd", c_int); ("_bindgen_union_align", u32)].

Definition bindgen_test_layout_rte_intr_handle__bindgen_ty_1 : bool :=
  layout_test rte_intr_handle__bindgen_ty_1 4 4
   [("vfio_dev_fd", 0); ("uio_cfg_fd", 0)].

Definition rte_intr_handle_type : layout := u32.

Definition rte_intr_handle : layout := repr_c
   [("__bindgen_anon_1", rte_intr_handle__bindgen_ty_1); ("fd", c_int);
    ("type_", rte_intr_handle_type); ("max_intr", u32); ("nb_efd", u32); ("efd_counter_size", u8);
    ("efds", array c_int 512); ("elist", array rte_epoll_event 512); ("intr_vec", pointer)].

Definition bindgen_test_layout_rte_intr_handle : bool :=
  layout_test rte_intr_handle 26656 8
   [("fd", 4); ("type_", 8); ("max_intr", 12); ("nb_efd", 16); ("efd_counter_size", 20);
    ("efds", 24); ("elist", 2072); ("intr_vec", 26648)].

Definition rte_devargs__bindgen_ty_1 : layout := repr_c
   [("tqe_next", pointer); ("tqe_prev", pointer)].

Definition bindgen_test_layout_rte_devargs__bindgen_ty_1 : bool :=
  layout_test rte_devargs__bindgen_ty_1 16 8
   [("tqe_next", 0); ("tqe_prev", 8)].

Definition rte_devtype : layout := u32.

Definition rte_dev_policy : layout := u32.

Definition rte_devargs__bindgen_ty_2 : layout := repr_union
   [("args", pointer); ("drv_str", pointer); ("_bindgen_union_align", u64)].

Definition bindgen_test_layout_rte_devargs__bindgen_ty_2 : bool :=
  layout_test rte_devargs__bindgen_ty_2 8 8
   [("args", 0); ("drv_str", 0)].

Definition rte_devargs : layout := repr_c
   [("next", rte_devargs__bindgen_ty_1); ("type_", rte_devtype); ("policy", rte_dev_policy);
    ("name", array c_char 64); ("__bindgen_anon_1", rte_devargs__bindgen_ty_2); ("bus", pointer);
    ("cls", pointer); ("bus_str", pointer); ("cls_str", pointer); ("data", pointer)].

Definition bindgen_test_layout_rte_devargs : bool :=
  layout_test rte_devargs 136 8
   [("next", 0); ("type_", 16); ("policy", 20); ("name", 24); ("bus", 96); ("cls", 104);
    ("bus_str", 112); ("cls_str", 120); ("data", 128)].

Definition __m128i : layout := array c_longlong 2.

Definition xmm_t : layout := __m128i.

Definition rte_xmm : layout := repr_align 16 (repr_union
   [("x", xmm_t); ("u8", array u8 16); ("u16", array u16 8); ("u32", array u32 4);
    ("u64", array u64 2); ("pd", array f64 2); ("_bindgen_union_align", u128)]).

Definition bindgen_test_layout_rte_xmm : bool :=
  layout_test rte_xmm 16 16
   [("x", 0); ("u8", 0); ("u16", 0); ("u32", 0); ("u64", 0); ("pd", 0)].

Definition __m256i : layout := array c_longlong 4.

Definition ymm_t : layout := __m256i.

Definition rte_ymm : layout := repr_align 32 (repr_union
   [("y", ymm_t); ("x", array xmm_t 2); ("u8", array u8 32); ("u16", array u16 16);
    ("u32", array u32 8); ("u64", array u64 4); ("pd", array f64 4);
    ("_bindgen_union_align", array u8 32)]).

Definition bindgen_test_layout_rte_ymm : bool :=
  layout_test rte_ymm 32 32
   [("y", 0); ("x", 0); ("u8", 0); ("u16", 0); ("u32", 0); ("u64", 0); ("pd", 0)].

Definition rte_spinlock_recursive_t : layout := repr_c
   [("sl", rte_spinlock_t); ("user", c_int); ("count", c_int)].

Definition bindgen_test_layout_rte_spinlock_recursive_t : bool :=
  layout_test rte_spinlock_recursive_t 12 4
   [("sl", 0); ("user", 4); ("count", 8)].

Definition rte_atomic32_t : layout := repr_c
   [("cnt", i32)].

Definition bindgen_test_layout_rte_atomic32_t : bool :=
  layout_test rte_atomic32_t 4 4
   [("cnt", 0)].

Definition rte_atomic64_t : layout := repr_c
   [("cnt", i64)].

Definition bindgen_test_layout_rte_atomic64_t : bool :=
  layout_test rte_atomic64_t 8 8
   [("cnt", 0)].

Definition rte_int128_t__bindgen_ty_1 : layout := repr_align 16 (repr_union
   [("val", array u64 2); ("int128", i128); ("_bindgen_union_align", u128)]).

Definition bindgen_test_layout_rte_int128_t__bindgen_ty_1 : bool :=
  layout_test rte_int128_t__bindgen_ty_1 16 16
   [("val", 0); ("int128", 0)].

Definition rte_int128_t : layout := repr_align 16 (repr_c
   [("__bindgen_anon_1", rte_int128_t__bindgen_ty_1)]).

Definition bindgen_test_layout_rte_int128_t : bool :=
  layout_test rte_int128_t 16 16
   [].

Definition rte_dev_reg_info : layout := repr_c
   [("data", pointer); ("offset", u32); ("length", u32); ("width", u32); ("version", u32)].

Definition bindgen_test_layout_rte_dev_reg_info : bool :=
  layout_test rte_dev_reg_info 24 8
   [("data", 0); ("offset", 8); ("length", 12); ("width", 16); ("version", 20)].

Definition rte_dev_eeprom_info : layout := repr_c
   [("data", pointer); ("offset", u32); ("length", u32); ("magic", u32)].

Definition bindgen_test_layout_rte_dev_eeprom_info : bool :=
  layout_test rte_dev_eeprom_info 24 8
   [("data", 0); ("offset", 8); ("length", 12); ("magic", 16)].

Definition rte_vlan_filter_conf : layout := repr_c
   [("ids", array u64 64)].

Definition bindgen_test_layout_rte_vlan_filter_conf : bool :=
  layout_test rte_vlan_filter_conf 512 8
   [("ids", 0)].

Definition rte_mbuf_dynfield : layout := repr_c
   [("name", array c_char 64); ("size", size_t); ("align", size_t); ("flags", c_uint)].

Definition bindgen_test_layout_rte_mbuf_dynfield : bool :=
  layout_test rte_mbuf_dynfield 88 8
   [("name", 0); ("size", 64); ("align", 72); ("flags", 80)].

Definition rte_mbuf_dynflag : layout := repr_c
   [("name", array c_char 64); ("flags", c_uint)].

Definition bindgen_test_layout_rte_mbuf_dynflag : bool :=
  layout_test rte_mbuf_dynflag 68 4
   [("name", 0); ("flags", 64)].

Definition rte_eth_dev_sriov : layout := repr_c
   [("active", u8); ("nb_q_per_pool", u8); ("def_vmdq_idx", u16); ("def_pool_q_idx", u16)].

Definition bindgen_test_layout_rte_eth_dev_sriov : bool :=
  layout_test rte_eth_dev_sriov 6 2
   [("active", 0); ("nb_q_per_pool", 1); ("def_vmdq_idx", 2); ("def_pool_q_idx", 4)].

Definition rte_eth_event_ipsec_subtype : layout := u32.

Definition rte_eth_event_ipsec_desc : layout := repr_c
   [("subtype", rte_eth_event_ipsec_subtype); ("metadata", u64)].

Definition bindgen_test_layout_rte_eth_event_ipsec_desc : bool :=
  layout_test rte_eth_event_ipsec_desc 16 8
   [("subtype", 0); ("metadata", 8)].

Definition rte_eth_dev_cb_list : layout := repr_c
   [("tqh_first", pointer); ("tqh_last", pointer)].

Definition bindgen_test_layout_rte_eth_dev_cb_list : bool :=
  layout_test rte_eth_dev_cb_list 16 8
   [("tqh_first", 0); ("tqh_last", 8)].

Definition eth_dev_configure_t : layout := pointer.

Definition eth_dev_start_t : layout := pointer.

Definition eth_dev_stop_t : layout := pointer.

Definition eth_dev_set_link_up_t : layout := pointer.

Definition eth_dev_set_link_down_t : layout := pointer.

Definition eth_dev_close_t : layout := pointer.

Definition eth_dev_reset_t : layout := pointer.

Definition eth_link_update_t : layout := pointer.

Definition eth_is_removed_t : layout := pointer.

Definition eth_promiscuous_enable_t : layout := pointer.

Definition eth_promiscuous_disable_t : layout := pointer.

Definition eth_allmulticast_enable_t : layout := pointer.

Definition eth_allmulticast_disable_t : layout := pointer.

Definition eth_mac_addr_remove_t : layout := pointer.

Definition eth_mac_addr_add_t : layout := pointer.

Definition eth_mac_addr_set_t : layout := pointer.

Definition eth_set_mc_addr_list_t : layout := pointer.

Definition mtu_set_t : layout := pointer.

Definition eth_stats_get_t : layout := pointer.

Definition eth_stats_reset_t : layout := pointer.

Definition eth_xstats_get_t : layout := pointer.

Definition eth_xstats_reset_t : layout := pointer.

Definition eth_xstats_get_names_t : layout := pointer.

Definition eth_queue_stats_mapping_set_t : layout := pointer.

Definition eth_dev_infos_get_t : layout := pointer.

Definition eth_rxq_info_get_t : layout := pointer.

Definition eth_txq_info_get_t : layout := pointer.

Definition eth_burst_mode_get_t : layout := pointer.

Definition eth_fw_version_get_t : layout := pointer.

Definition eth_dev_supported_ptypes_get_t : layout := pointer.

Definition eth_dev_ptypes_set_t : layout := pointer.

Definition vlan_filter_set_t : layout := pointer.

Definition vlan_tpid_set_t : layout := pointer.

Definition vlan_strip_queue_set_t : layout := pointer.

Definition vlan_offload_set_t : layout := pointer.

Definition vlan_pvid_set_t : layout := pointer.

Definition eth_queue_start_t : layout := pointer.

Definition eth_queue_stop_t : layout := pointer.

Definition eth_rx_queue_setup_t : layout := pointer.

Definition eth_queue_release_t : layout := pointer.

Definition eth_rx_queue_count_t : layout := pointer.

Definition eth_rx_descriptor_done_t : layout := pointer.

Definition eth_rx_descriptor_status_t : layout := pointer.

Definition eth_tx_descriptor_status_t : layout := pointer.

Definition eth_rx_enable_intr_t : layout := pointer.

Definition eth_rx_disable_intr_t : layout := pointer.

Definition eth_tx_queue_setup_t : layout := pointer.

Definition eth_tx_done_cleanup_t : layout := pointer.

Definition eth_dev_led_on_t : layout := pointer.

Definition eth_dev_led_off_t : layout := pointer.

Definition flow_ctrl_get_t : layout := pointer.

Definition flow_ctrl_set_t : layout := pointer.

Definition priority_flow_ctrl_set_t : layout := pointer.

Definition eth_uc_hash_table_set_t : layout := pointer.

Definition eth_uc_all_hash_table_set_t : layout := pointer.

Definition eth_mirror_rule_set_t : layout := pointer.

Definition eth_mirror_rule_reset_t : layout := pointer.

Definition eth_udp_tunnel_port_add_t : layout := pointer.

Definition eth_udp_tunnel_port_del_t : layout := pointer.

Definition eth_l2_tunnel_eth_type_conf_t : layout := pointer.

Definition eth_l2_tunnel_offload_set_t : layout := pointer.

Definition eth_set_queue_rate_limit_t : layout := pointer.

Definition rss_hash_update_t : layout := pointer.

Definition rss_hash_conf_get_t : layout := pointer.

Definition reta_update_t : layout := pointer.

Definition reta_query_t : layout := pointer.

Definition eth_get_reg_t : layout := pointer.

Definition eth_get_eeprom_length_t : layout := pointer.

Definition eth_get_eeprom_t : layout := pointer.

Definition eth_set_eeprom_t : layout := pointer.

Definition eth_get_module_info_t : layout := pointer.

Definition eth_get_module_eeprom_t : layout := pointer.

Definition eth_filter_ctrl_t : layout := pointer.

Definition eth_get_dcb_info : layout := pointer.

Definition eth_timesync_enable_t : layout := pointer.

Definition eth_timesync_disable_t : layout := pointer.

Definition eth_timesync_read_rx_timestamp_t : layout := pointer.

Definition eth_timesync_read_tx_timestamp_t : layout := pointer.

Definition eth_timesync_adjust_time : layout := pointer.

Definition eth_timesync_read_time : layout := pointer.

Definition eth_timesync_write_time : layout := pointer.

Definition eth_read_clock : layout := pointer.

Definition eth_xstats_get_by_id_t : layout := pointer.

Definition eth_xstats_get_names_by_id_t : layout := pointer.

Definition eth_tm_ops_get_t : layout := pointer.

Definition eth_mtr_ops_get_t : layout := pointer.

Definition eth_pool_ops_supported_t : layout := pointer.

Definition eth_hairpin_cap_get_t : layout := pointer.

Definition eth_rx_hairpin_queue_setup_t : layout := pointer.

Definition eth_tx_hairpin_queue_setup_t : layout := pointer.

Definition eth_dev_ops : layout := repr_c
   [("dev_configure", eth_dev_configure_t); ("dev_start", eth_dev_start_t);
    ("dev_stop", eth_dev_stop_t); ("dev_set_link_up", eth_dev_set_link_up_t);
    ("dev_set_link_down", eth_dev_set_link_down_t); ("dev_close", eth_dev_close_t);
    ("dev_reset", eth_dev_reset_t); ("link_update", eth_link_update_t);
    ("is_removed", eth_is_removed_t); ("promiscuous_enable", eth_promiscuous_enable_t);
    ("promiscuous_disable", eth_promiscuous_disable_t);
    ("allmulticast_enable", eth_allmulticast_enable_t);
    ("allmulticast_disable", eth_allmulticast_disable_t);
    ("mac_addr_remove", eth_mac_addr_remove_t); ("mac_addr_add", eth_mac_addr_add_t);
    ("mac_addr_set", eth_mac_addr_set_t); ("set_mc_addr_list", eth_set_mc_addr_list_t);
    ("mtu_set", mtu_set_t); ("stats_get", eth_stats_get_t); ("stats_reset", eth_stats_reset_t);
    ("xstats_get", eth_xstats_get_t); ("xstats_reset", eth_xstats_reset_t);
    ("xstats_get_names", eth_xstats_get_names_t);
    ("queue_stats_mapping_set", eth_queue_stats_mapping_set_t);
    ("dev_infos_get", eth_dev_infos_get_t); ("rxq_info_get", eth_rxq_info_get_t);
    ("txq_info_get", eth_txq_info_get_t); ("rx_burst_mode_get", eth_burst_mode_get_t);
    ("tx_burst_mode_get", eth_burst_mode_get_t); ("fw_version_get", eth_fw_version_get_t);
    ("dev_supported_ptypes_get", eth_dev_supported_ptypes_get_t);
    ("dev_ptypes_set", eth_dev_ptypes_set_t); ("vlan_filter_set", vlan_filter_set_t);
    ("vlan_tpid_set", vlan_tpid_set_t); ("vlan_strip_queue_set", vlan_strip_queue_set_t);
    ("vlan_offload_set", vlan_offload_set_t); ("vlan_pvid_set", vlan_pvid_set_t);
    ("rx_queue_start", eth_queue_start_t); ("rx_queue_stop", eth_queue_stop_t);
    ("tx_queue_start", eth_queue_start_t); ("tx_queue_stop", eth_queue_stop_t);
    ("rx_queue_setup", eth_rx_queue_setup_t); ("rx_queue_release", eth_queue_release_t);
    ("rx_queue_count", eth_rx_queue_count_t); ("rx_descriptor_done", eth_rx_descriptor_done_t);
    ("rx_descriptor_status", eth_rx_descriptor_status_t);
    ("tx_descriptor_status", eth_tx_descriptor_status_t);
    ("rx_queue_intr_enable", eth_rx_enable_intr_t);
    ("rx_queue_intr_disable", eth_rx_disable_intr_t); ("tx_queue_setup", eth_tx_queue_setup_t);
    ("tx_queue_release", eth_queue_release_t); ("tx_done_cleanup", eth_tx_done_cleanup_t);
    ("dev_led_on", eth_dev_led_on_t); ("dev_led_off", eth_dev_led_off_t);
    ("flow_ctrl_get", flow_ctrl_get_t); ("flow_ctrl_set", flow_ctrl_set_t);
    ("priority_flow_ctrl_set", priority_flow_ctrl_set_t);
    ("uc_hash_table_set", eth_uc_hash_table_set_t);
    ("uc_all_hash_table_set", eth_uc_all_hash_table_set_t);
    ("mirror_rule_set", eth_mirror_rule_set_t); ("mirror_rule_reset", eth_mirror_rule_reset_t);
    ("udp_tunnel_port_add", eth_udp_tunnel_port_add_t);
    ("udp_tunnel_port_del", eth_udp_tunnel_port_del_t);
    ("l2_tunnel_eth_type_conf", eth_l2_tunnel_eth_type_conf_t);
    ("l2_tunnel_offload_set", eth_l2_tunnel_offload_set_t);
    ("set_queue_rate_limit", eth_set_queue_rate_limit_t); ("rss_hash_update", rss_hash_update_t);
    ("rss_hash_conf_get", rss_hash_conf_get_t); ("reta_update", reta_update_t);
    ("reta_query", reta_query_t); ("get_reg", eth_get_reg_t);
    ("get_eeprom_length", eth_get_eeprom_length_t); ("get_eeprom", eth_get_eeprom_t);
    ("set_eeprom", eth_set_eeprom_t); ("get_module_info", eth_get_module_info_t);
    ("get_module_eeprom", eth_get_module_eeprom_t); ("filter_ctrl", eth_filter_ctrl_t);
    ("get_dcb_info", eth_get_dcb_info); ("timesync_enable", eth_timesync_enable_t);
    ("timesync_disable", eth_timesync_disable_t);
    ("timesync_read_rx_timestamp", eth_timesync_read_rx_timestamp_t);
    ("timesync_read_tx_timestamp", eth_timesync_read_tx_timestamp_t);
    ("timesync_adjust_time", eth_timesync_adjust_time);
    ("timesync_read_time", eth_timesync_read_time);
    ("timesync_write_time", eth_timesync_write_time); ("read_clock", eth_read_clock);
    ("xstats_get_by_id", eth_xstats_get_by_id_t);
    ("xstats_get_names_by_id", eth_xstats_get_names_by_id_t); ("tm_ops_get", eth_tm_ops_get_t);
    ("mtr_ops_get", eth_mtr_ops_get_t); ("pool_ops_supported", eth_pool_ops_supported_t);
    ("hairpin_cap_get", eth_hairpin_cap_get_t);
    ("rx_hairpin_queue_setup", eth_rx_hairpin_queue_setup_t);
    ("tx_hairpin_queue_setup", eth_tx_hairpin_queue_setup_t)].

Definition bindgen_test_layout_eth_dev_ops : bool :=
  layout_test eth_dev_ops 752 8
   [("dev_configure", 0); ("dev_start", 8); ("dev_stop", 16); ("dev_set_link_up", 24);
    ("dev_set_link_down", 32); ("dev_close", 40); ("dev_reset", 48); ("link_update", 56);
    ("is_removed", 64); ("promiscuous_enable", 72); ("promiscuous_disable", 80);
    ("allmulticast_enable", 88); ("allmulticast_disable", 96); ("mac_addr_remove", 104);
    ("mac_addr_add", 112); ("mac_addr_set", 120); ("set_mc_addr_list", 128); ("mtu_set", 136);
    ("stats_get", 144); ("stats_reset", 152); ("xstats_get", 160); ("xstats_reset", 168);
    ("xstats_get_names", 176); ("queue_stats_mapping_set", 184); ("dev_infos_get", 192);
    ("rxq_info_get", 200); ("txq_info_get", 208); ("rx_burst_mode_get", 216);
    ("tx_burst_mode_get", 224); ("fw_version_get", 232); ("dev_supported_ptypes_get", 240);
    ("dev_ptypes_set", 248); ("vlan_filter_set", 256); ("vlan_tpid_set", 264);
    ("vlan_strip_queue_set", 272); ("vlan_offload_set", 280); ("vlan_pvid_set", 288);
    ("rx_queue_start", 296); ("rx_queue_stop", 304); ("tx_queue_start", 312);
    ("tx_queue_stop", 320); ("rx_queue_setup", 328); ("rx_queue_release", 336);
    ("rx_queue_count", 344); ("rx_descriptor_done", 352); ("rx_descriptor_status", 360);
    ("tx_descriptor_status", 368); ("rx_queue_intr_enable", 376); ("rx_queue_intr_disable", 384);
    ("tx_queue_setup", 392); ("tx_queue_release", 400); ("tx_done_cleanup", 408);
    ("dev_led_on", 416); ("dev_led_off", 424); ("flow_ctrl_get", 432); ("flow_ctrl_set", 440);
    ("priority_flow_ctrl_set", 448); ("uc_hash_table_set", 456); ("uc_all_hash_table_set", 464);
    ("mirror_rule_set", 472); ("mirror_rule_reset", 480); ("udp_tunnel_port_add", 488);
    ("udp_tunnel_port_del", 496); ("l2_tunnel_eth_type_conf", 504);
    ("l2_tunnel_offload_set", 512); ("set_queue_rate_limit", 520); ("rss_hash_update", 528);
    ("rss_hash_conf_get", 536); ("reta_update", 544); ("reta_query", 552); ("get_reg", 560);
    ("get_eeprom_length", 568); ("get_eeprom", 576); ("set_eeprom", 584);
    ("get_module_info", 592); ("get_module_eeprom", 600); ("filter_ctrl", 608);
    ("get_dcb_info", 616); ("timesync_enable", 624); ("timesync_disable", 632);
    ("timesync_read_rx_timestamp", 640); ("timesync_read_tx_timestamp", 648);
    ("timesync_adjust_time", 656); ("timesync_read_time", 664); ("timesync_write_time", 672);
    ("read_clock", 680); ("xstats_get_by_id", 688); ("xstats_get_names_by_id", 696);
    ("tm_ops_get", 704); ("mtr_ops_get", 712); ("pool_ops_supported", 720);
    ("hairpin_cap_get", 728); ("rx_hairpin_queue_setup", 736); ("tx_hairpin_queue_setup", 744)].

Definition rte_rx_callback_fn : layout := pointer.

Definition rte_tx_callback_fn : layout := pointer.

Definition rte_eth_rxtx_callback__bindgen_ty_1 : layout := repr_union
   [("rx", rte_rx_callback_fn); ("tx", rte_tx_callback_fn); ("_bindgen_union_align", u64)].

Definition bindgen_test_layout_rte_eth_rxtx_callback__bindgen_ty_1 : bool :=
  layout_test rte_eth_rxtx_callback__bindgen_ty_1 8 8
   [("rx", 0); ("tx", 0)].

Definition rte_eth_rxtx_callback : layout := repr_c
   [("next", pointer); ("fn_", rte_eth_rxtx_callback__bindgen_ty_1); ("param", pointer)].

Definition bindgen_test_layout_rte_eth_rxtx_callback : bool :=
  layout_test rte_eth_rxtx_callback 24 8
   [("next", 0); ("fn_", 8); ("param", 16)].

Definition eth_rx_burst_t : layout := pointer.

Definition eth_tx_burst_t : layout := pointer.

Definition eth_tx_prep_t : layout := pointer.

Definition rte_eth_dev_state : layout := u32.

Definition rte_eth_dev : layout := repr_align 64 (repr_c
   [("rx_pkt_burst", eth_rx_burst_t); ("tx_pkt_burst", eth_tx_burst_t);
    ("tx_pkt_prepare", eth_tx_prep_t); ("data", pointer); ("process_private", pointer);
    ("dev_ops", pointer); ("device", pointer); ("intr_handle", pointer);
    ("link_intr_cbs", rte_eth_dev_cb_list); ("post_rx_burst_cbs", array pointer 1024);
    ("pre_tx_burst_cbs", array pointer 1024); ("state", rte_eth_dev_state);
    ("security_ctx", pointer); ("reserved_64s", array u64 4); ("reserved_ptrs", array pointer 4)]).

Definition bindgen_test_layout_rte_eth_dev : bool :=
  layout_test rte_eth_dev 16576 64
   [("rx_pkt_burst", 0); ("tx_pkt_burst", 8); ("tx_pkt_prepare", 16); ("data", 24);
    ("process_private", 32); ("dev_ops", 40); ("device", 48); ("intr_handle", 56);
    ("link_intr_cbs", 64); ("post_rx_burst_cbs", 80); ("pre_tx_burst_cbs", 8272);
    ("state", 16464); ("security_ctx", 16472); ("reserved_64s", 16480); ("reserved_ptrs", 16512)].

Definition rte_kernel_driver : layout := u32.

Definition rte_eth_dev_data : layout := repr_align 64 (repr_c
   [("name", array c_char 64); ("rx_queues", pointer); ("tx_queues", pointer);
    ("nb_rx_queues", u16); ("nb_tx_queues", u16); ("sriov", rte_eth_dev_sriov);
    ("dev_private", pointer); ("dev_link", rte_eth_link); ("dev_conf", rte_eth_conf);
    ("mtu", u16); ("min_rx_buf_size", u32); ("rx_mbuf_alloc_failed", u64); ("mac_addrs", pointer);
    ("mac_pool_sel", array u64 128); ("hash_mac_addrs", pointer); ("port_id", u16);
    ("_bitfield_1", bitfield_unit 1 u8); ("rx_queue_state", array u8 1024);
    ("tx_queue_state", array u8 1024); ("dev_flags", u32); ("kdrv", rte_kernel_driver);
    ("numa_node", c_int); ("vlan_filter_conf", rte_vlan_filter_conf);
    ("owner", rte_eth_dev_owner); ("representor_id", u16); ("reserved_64s", array u64 4);
    ("reserved_ptrs", array pointer 4)]).

Definition bindgen_test_layout_rte_eth_dev_data : bool :=
  layout_test rte_eth_dev_data 6976 64
   [("name", 0); ("rx_queues", 64); ("tx_queues", 72); ("nb_rx_queues", 80); ("nb_tx_queues", 82);
    ("sriov", 84); ("dev_private", 96); ("dev_link", 104); ("dev_conf", 112); ("mtu", 3192);
    ("min_rx_buf_size", 3196); ("rx_mbuf_alloc_failed", 3200); ("mac_addrs", 3208);
    ("mac_pool_sel", 3216); ("hash_mac_addrs", 4240); ("port_id", 4248); ("rx_queue_state", 4251);
    ("tx_queue_state", 5275); ("dev_flags", 6300); ("kdrv", 6304); ("numa_node", 6308);
    ("vlan_filter_conf", 6312); ("owner", 6824); ("representor_id", 6896); ("reserved_64s", 6904);
    ("reserved_ptrs", 6936)].

Definition rte_pci_id : layout := repr_c
   [("class_id", u32); ("vendor_id", u16); ("device_id", u16); ("subsystem_vendor_id", u16);
    ("subsystem_device_id", u16)].

Definition bindgen_test_layout_rte_pci_id : bool :=
  layout_test rte_pci_id 12 4
   [("class_id", 0); ("vendor_id", 4); ("device_id", 6); ("subsystem_vendor_id", 8);
    ("subsystem_device_id", 10)].

Definition rte_pci_addr : layout := repr_c
   [("domain", u32); ("bus", u8); ("devid", u8); ("function", u8)].

Definition bindgen_test_layout_rte_pci_addr : bool :=
  layout_test rte_pci_addr 8 4
   [("domain", 0); ("bus", 4); ("devid", 5); ("function", 6)].

Definition rte_kni_request__bindgen_ty_1 : layout := repr_union
   [("new_mtu", u32); ("if_up", u8); ("mac_addr", array u8 6); ("promiscusity", u8);
    ("allmulti", u8); ("_bindgen_union_align", array u32 2)].

Definition bindgen_test_layout_rte_kni_request__bindgen_ty_1 : bool :=
  layout_test rte_kni_request__bindgen_ty_1 8 4
   [("new_mtu", 0); ("if_up", 0); ("mac_addr", 0); ("promiscusity", 0); ("allmulti", 0)].

Definition rte_kni_request : layout := repr_c_packed
   [("req_id", u32); ("__bindgen_anon_1", rte_kni_request__bindgen_ty_1); ("result", i32)].

Definition bindgen_test_layout_rte_kni_request : bool :=
  layout_test rte_kni_request 16 1
   [("req_id", 0); ("result", 12)].

Definition rte_kni_fifo : layout := repr_c
   [("write", c_uint); ("read", c_uint); ("len", c_uint); ("elem_size", c_uint);
    ("buffer", incomplete_array pointer)].

Definition bindgen_test_layout_rte_kni_fifo : bool :=
  layout_test rte_kni_fifo 16 8
   [].

Definition rte_kni_mbuf : layout := repr_align 64 (repr_c
   [("buf_addr", pointer); ("buf_physaddr", u64); ("data_off", u16); ("pad1", array c_char 2);
    ("nb_segs", u16); ("pad4", array c_char 2); ("ol_flags", u64); ("pad2", array c_char 4);
    ("pkt_len", u32); ("data_len", u16); ("__bindgen_padding_0", array u8 22);
    ("pad3", array c_char 8); ("pool", pointer); ("next", pointer)]).

Definition bindgen_test_layout_rte_kni_mbuf : bool :=
  layout_test rte_kni_mbuf 128 64
   [("buf_addr", 0); ("buf_physaddr", 8); ("data_off", 16); ("pad1", 18); ("nb_segs", 20);
    ("pad4", 22); ("ol_flags", 24); ("pad2", 32); ("pkt_len", 36); ("data_len", 40); ("pad3", 64);
    ("pool", 72); ("next", 80)].

Definition rte_kni_device_info : layout := repr_c
   [("name", array c_char 16); ("tx_phys", phys_addr_t); ("rx_phys", phys_addr_t);
    ("alloc_phys", phys_addr_t); ("free_phys", phys_addr_t); ("req_phys", phys_addr_t);
    ("resp_phys", phys_addr_t); ("sync_phys", phys_addr_t); ("sync_va", pointer);
    ("mbuf_va", pointer); ("mbuf_phys", phys_addr_t); ("group_id", u16); ("core_id", u32);
    ("_bitfield_1", bitfield_unit 1 u8); ("mbuf_size", c_uint); ("mtu", c_uint);
    ("min_mtu", c_uint); ("max_mtu", c_uint); ("mac_addr", array u8 6); ("iova_mode", u8)].

Definition bindgen_test_layout_rte_kni_device_info : bool :=
  layout_test rte_kni_device_info 136 8
   [("name", 0); ("tx_phys", 16); ("rx_phys", 24); ("alloc_phys", 32); ("free_phys", 40);
    ("req_phys", 48); ("resp_phys", 56); ("sync_phys", 64); ("sync_va", 72); ("mbuf_va", 80);
    ("mbuf_phys", 88); ("group_id", 96); ("core_id", 100); ("mbuf_size", 108); ("mtu", 112);
    ("min_mtu", 116); ("max_mtu", 120); ("mac_addr", 124); ("iova_mode", 130)].

Definition rte_kni_ops : layout := repr_c
   [("port_id", u16); ("change_mtu", pointer); ("config_network_if", pointer);
    ("config_mac_address", pointer); ("config_promiscusity", pointer);
    ("config_allmulticast", pointer)].

Definition bindgen_test_layout_rte_kni_ops : bool :=
  layout_test rte_kni_ops 48 8
   [("port_id", 0); ("change_mtu", 8); ("config_network_if", 16); ("config_mac_address", 24);
    ("config_promiscusity", 32); ("config_allmulticast", 40)].

Definition rte_kni_conf : layout := repr_c
   [("name", array c_char 16); ("core_id", u32); ("group_id", u16); ("mbuf_size", c_uint);
    ("addr", rte_pci_addr); ("id", rte_pci_id); ("_bitfield_1", bitfield_unit 1 u8);
    ("mac_addr", array u8 6); ("mtu", u16); ("min_mtu", u16); ("max_mtu", u16)].

Definition bindgen_test_layout_rte_kni_conf : bool :=
  layout_test rte_kni_conf 64 4
   [("name", 0); ("core_id", 16); ("group_id", 20); ("mbuf_size", 24); ("addr", 28); ("id", 36);
    ("mac_addr", 49); ("mtu", 56); ("min_mtu", 58); ("max_mtu", 60)].

(** ** [libpcap] *)

Definition __u_int : layout := c_uint.

Definition u_int : layout := __u_int.

Definition bpf_program : layout := repr_c
   [("bf_len", u_int); ("bf_insns", pointer)].

Definition bindgen_test_layout_bpf_program : bool :=
  layout_test bpf_program 16 8
   [("bf_len", 0); ("bf_insns", 8)].

Definition __u_short : layout := c_ushort.

Definition u_short : layout := __u_short.

Definition __u_char : layout := c_uchar.

Definition u_char : layout := __u_char.

Definition bpf_u_int32 : layout := u_int.

Definition bpf_insn : layout := repr_c
   [("code", u_short); ("jt", u_char); ("jf", u_char); ("k", bpf_u_int32)].

Definition bindgen_test_layout_bpf_insn : bool :=
  layout_test bpf_insn 8 4
   [("code", 0); ("jt", 2); ("jf", 3); ("k", 4)].

Definition bpf_int32 : layout := c_int.

Definition pcap_file_header : layout := repr_c
   [("magic", bpf_u_int32); ("version_major", u_short); ("version_minor", u_short);
    ("thiszone", bpf_int32); ("sigfigs", bpf_u_int32); ("snaplen", bpf_u_int32);
    ("linktype", bpf_u_int32)].

Definition bindgen_test_layout_pcap_file_header : bool :=
  layout_test pcap_file_header 24 4
   [("magic", 0); ("version_major", 4); ("version_minor", 6); ("thiszone", 8); ("sigfigs", 12);
    ("snaplen", 16); ("linktype", 20)].

Definition pcap_pkthdr : layout := repr_c
   [("ts", timeval); ("caplen", bpf_u_int32); ("len", bpf_u_int32)].

Definition bindgen_test_layout_pcap_pkthdr : bool :=
  layout_test pcap_pkthdr 24 8
   [("ts", 0); ("caplen", 16); ("len", 20)].

Definition pcap_stat : layout := repr_c
   [("ps_recv", u_int); ("ps_drop", u_int); ("ps_ifdrop", u_int)].

Definition bindgen_test_layout_pcap_stat : bool :=
  layout_test pcap_stat 12 4
   [("ps_recv", 0); ("ps_drop", 4); ("ps_ifdrop", 8)].

Definition pcap_if : layout := repr_c
   [("next", pointer); ("name", pointer); ("description", pointer); ("addresses", pointer);
    ("flags", bpf_u_int32)].

Definition bindgen_test_layout_pcap_if : bool :=
  layout_test pcap_if 40 8
   [("next", 0); ("name", 8); ("description", 16); ("addresses", 24); ("flags", 32)].

Definition pcap_addr : layout := repr_c
   [("next", pointer); ("addr", pointer); ("netmask", pointer); ("broadaddr", pointer);
    ("dstaddr", pointer)].

Definition bindgen_test_layout_pcap_addr : bool :=
  layout_test pcap_addr 40 8
   [("next", 0); ("addr", 8); ("netmask", 16); ("broadaddr", 24); ("dstaddr", 32)].

(** The types of this file *)
Definition device_types : list layout :=
   [__time_t; __syscall_slong_t; timespec; pthread_attr_t; __off_t; __off64_t; _IO_FILE;
    __suseconds_t; timeval; sa_family_t; sockaddr; nodemask_t; bitmask; __va_list_tag; rte_logs;
    rte_dev_event_type; rte_dev_event; rte_mem_resource; rte_driver__bindgen_ty_1; rte_driver;
    rte_device__bindgen_ty_1; rte_device; rte_dev_iterator; rte_bus_list; rte_bus_scan_mode;
    rte_bus_conf; rte_bus__bindgen_ty_1; rte_bus_scan_t; rte_bus_probe_t; rte_bus_find_device_t;
    rte_bus_plug_t; rte_bus_unplug_t; rte_bus_parse_t; rte_dev_dma_map_t; rte_dev_dma_unmap_t;
    rte_bus_get_iommu_class_t; rte_dev_iterate_t; rte_bus_hot_unplug_handler_t;
    rte_bus_sigbus_handler_t; rte_bus; rte_mp_msg; rte_mp_reply; rte_intr_event_cb_t;
    rte_epoll_data; rte_epoll_event; rte_intr_handle__bindgen_ty_1; rte_intr_handle_type;
    rte_intr_handle; rte_devargs__bindgen_ty_1; rte_devtype; rte_dev_policy;
    rte_devargs__bindgen_ty_2; rte_devargs; __m128i; xmm_t; rte_xmm; __m256i; ymm_t; rte_ymm;
    rte_spinlock_recursive_t; rte_atomic32_t; rte_atomic64_t; rte_int128_t__bindgen_ty_1;
    rte_int128_t; rte_dev_reg_info; rte_dev_eeprom_info; rte_vlan_filter_conf; rte_mbuf_dynfield;
    rte_mbuf_dynflag; rte_eth_dev_sriov; rte_eth_event_ipsec_subtype; rte_eth_event_ipsec_desc;
    rte_eth_dev_cb_list; eth_dev_configure_t; eth_dev_start_t; eth_dev_stop_t;
    eth_dev_set_link_up_t; eth_dev_set_link_down_t; eth_dev_close_t; eth_dev_reset_t;
    eth_link_update_t; eth_is_removed_t; eth_promiscuous_enable_t; eth_promiscuous_disable_t;
    eth_allmulticast_enable_t; eth_allmulticast_disable_t; eth_mac_addr_remove_t;
    eth_mac_addr_add_t; eth_mac_addr_set_t; eth_set_mc_addr_list_t; mtu_set_t; eth_stats_get_t;
    eth_stats_reset_t; eth_xstats_get_t; eth_xstats_reset_t; eth_xstats_get_names_t;
    eth_queue_stats_mapping_set_t; eth_dev_infos_get_t; eth_rxq_info_get_t; eth_txq_info_get_t;
    eth_burst_mode_get_t; eth_fw_version_get_t; eth_dev_supported_ptypes_get_t;
    eth_dev_ptypes_set_t; vlan_filter_set_t; vlan_tpid_set_t; vlan_strip_queue_set_t;
    vlan_offload_set_t; vlan_pvid_set_t; eth_queue_start_t; eth_queue_stop_t;
    eth_rx_queue_setup_t; eth_queue_release_t; eth_rx_queue_count_t; eth_rx_descriptor_done_t;
    eth_rx_descriptor_status_t; eth_tx_descriptor_status_t; eth_rx_enable_intr_t;
    eth_rx_disable_intr_t; eth_tx_queue_setup_t; eth_tx_done_cleanup_t; eth_dev_led_on_t;
    eth_dev_led_off_t; flow_ctrl_get_t; flow_ctrl_set_t; priority_flow_ctrl_set_t;
    eth_uc_hash_table_set_t; eth_uc_all_hash_table_set_t; eth_mirror_rule_set_t;
    eth_mirror_rule_reset_t; eth_udp_tunnel_port_add_t; eth_udp_tunnel_port_del_t;
    eth_l2_tunnel_eth_type_conf_t; eth_l2_tunnel_offload_set_t; eth_set_queue_rate_limit_t;
    rss_hash_update_t; rss_hash_conf_get_t; reta_update_t; reta_query_t; eth_get_reg_t;
    eth_get_eeprom_length_t; eth_get_eeprom_t; eth_set_eeprom_t; eth_get_module_info_t;
    eth_get_module_eeprom_t; eth_filter_ctrl_t; eth_get_dcb_info; eth_timesync_enable_t;
    eth_timesync_disable_t; eth_timesync_read_rx_timestamp_t; eth_timesync_read_tx_timestamp_t;
    eth_timesync_adjust_time; eth_timesync_read_time; eth_timesync_write_time; eth_read_clock;
    eth_xstats_get_by_id_t; eth_xstats_get_names_by_id_t; eth_tm_ops_get_t; eth_mtr_ops_get_t;
    eth_pool_ops_supported_t; eth_hairpin_cap_get_t; eth_rx_hairpin_queue_setup_t;
    eth_tx_hairpin_queue_setup_t; eth_dev_ops; rte_rx_callback_fn; rte_tx_callback_fn;
    rte_eth_rxtx_callback__bindgen_ty_1; rte_eth_rxtx_callback; eth_rx_burst_t; eth_tx_burst_t;
    eth_tx_prep_t; rte_eth_dev_state; rte_eth_dev; rte_kernel_driver; rte_eth_dev_data;
    rte_pci_id; rte_pci_addr; rte_kni_request__bindgen_ty_1; rte_kni_request; rte_kni_fifo;
    rte_kni_mbuf; rte_kni_device_info; rte_kni_ops; rte_kni_conf; __u_int; u_int; bpf_program;
    __u_short; u_short; __u_char; u_char; bpf_u_int32; bpf_insn; bpf_int32; pcap_file_header;
    pcap_pkthdr; pcap_stat; pcap_if; pcap_addr].

(** Its structures of more than one field *)
Definition device_structs : list layout :=
   [timespec; _IO_FILE; timeval; sockaddr; bitmask; __va_list_tag; rte_logs; rte_dev_event;
    rte_mem_resource; rte_driver__bindgen_ty_1; rte_driver; rte_device__bindgen_ty_1; rte_device;
    rte_dev_iterator; rte_bus_list; rte_bus__bindgen_ty_1; rte_bus; rte_mp_msg; rte_mp_reply;
    rte_epoll_data; rte_epoll_event; rte_intr_handle; rte_devargs__bindgen_ty_1; rte_devargs;
    rte_spinlock_recursive_t; rte_dev_reg_info; rte_dev_eeprom_info; rte_mbuf_dynfield;
    rte_mbuf_dynflag; rte_eth_dev_sriov; rte_eth_event_ipsec_desc; rte_eth_dev_cb_list;
    eth_dev_ops; rte_eth_rxtx_callback; rte_eth_dev; rte_eth_dev_data; rte_pci_id; rte_pci_addr;
    rte_kni_request; rte_kni_fifo; rte_kni_mbuf; rte_kni_device_info; rte_kni_ops; rte_kni_conf;
    bpf_program; bpf_insn; pcap_file_header; pcap_pkthdr; pcap_stat; pcap_if; pcap_addr].

(** Its generated tests *)
Definition device_layout_tests : list bool :=
   [bindgen_test_layout_timespec; bindgen_test_layout_pthread_attr_t;
    bindgen_test_layout__IO_FILE; bindgen_test_layout_timeval; bindgen_test_layout_sockaddr;
    bindgen_test_layout_nodemask_t; bindgen_test_layout_bitmask;
    bindgen_test_layout___va_list_tag; bindgen_test_layout_rte_logs;
    bindgen_test_layout_rte_dev_event; bindgen_test_layout_rte_mem_resource;
    bindgen_test_layout_rte_driver__bindgen_ty_1; bindgen_test_layout_rte_driver;
    bindgen_test_layout_rte_device__bindgen_ty_1; bindgen_test_layout_rte_device;
    bindgen_test_layout_rte_dev_iterator; bindgen_test_layout_rte_bus_list;
    bindgen_test_layout_rte_bus_conf; bindgen_test_layout_rte_bus__bindgen_ty_1;
    bindgen_test_layout_rte_bus; bindgen_test_layout_rte_mp_msg; bindgen_test_layout_rte_mp_reply;
    bindgen_test_layout_rte_epoll_data; bindgen_test_layout_rte_epoll_event;
    bindgen_test_layout_rte_intr_handle__bindgen_ty_1; bindgen_test_layout_rte_intr_handle;
    bindgen_test_layout_rte_devargs__bindgen_ty_1; bindgen_test_layout_rte_devargs__bindgen_ty_2;
    bindgen_test_layout_rte_devargs; bindgen_test_layout_rte_xmm; bindgen_test_layout_rte_ymm;
    bindgen_test_layout_rte_spinlock_recursive_t; bindgen_test_layout_rte_atomic32_t;
    bindgen_test_layout_rte_atomic64_t; bindgen_test_layout_rte_int128_t__bindgen_ty_1;
    bindgen_test_layout_rte_int128_t; bindgen_test_layout_rte_dev_reg_info;
    bindgen_test_layout_rte_dev_eeprom_info; bindgen_test_layout_rte_vlan_filter_conf;
    bindgen_test_layout_rte_mbuf_dynfield; bindgen_test_layout_rte_mbuf_dynflag;
    bindgen_test_layout_rte_eth_dev_sriov; bindgen_test_layout_rte_eth_event_ipsec_desc;
    bindgen_test_layout_rte_eth_dev_cb_list; bindgen_test_layout_eth_dev_ops;
    bindgen_test_layout_rte_eth_rxtx_callback__bindgen_ty_1;
    bindgen_test_layout_rte_eth_rxtx_callback; bindgen_test_layout_rte_eth_dev;
    bindgen_test_layout_rte_eth_dev_data; bindgen_test_layout_rte_pci_id;
    bindgen_test_layout_rte_pci_addr; bindgen_test_layout_rte_kni_request__bindgen_ty_1;
    bindgen_test_layout_rte_kni_request; bindgen_test_layout_rte_kni_fifo;
    bindgen_test_layout_rte_kni_mbuf; bindgen_test_layout_rte_kni_device_info;
    bindgen_test_layout_rte_kni_ops; bindgen_test_layout_rte_kni_conf;
    bindgen_test_layout_bpf_program; bindgen_test_layout_bpf_insn;
    bindgen_test_layout_pcap_file_header; bindgen_test_layout_pcap_pkthdr;
    bindgen_test_layout_pcap_stat; bindgen_test_layout_pcap_if; bindgen_test_layout_pcap_addr].

#[local] Close Scope string_scope.

(** ** Properties *)

Lemma device_types_sound : Forall sound device_types.
Proof. unfold device_types. sound_layout. Qed.

Lemma device_layout_tests_true : Forall (eq true) device_layout_tests.
Proof. unfold device_layout_tests. repeat (constructor; [vm_compute; reflexivity|]). constructor. Qed.

Lemma device_structs_ordered : Forall (fun l => sound l /\ ordered (fields l)) device_structs.
Proof. unfold device_structs. repeat (constructor; [split; [sound_layout|ordered_layout]|]). constructor. Qed.
