(* ===== verification/LayoutTests.v ===== *)
(** * The layout tests of the bindings ([ffi/src/bindings_rustdoc.rs])

    The types, structures and generated tests of [Bindings], [PortBindings], [FlowBindings],
    [FilterBindings] and [DeviceBindings] together, and what holds of them all: these are all
    the tests the generator wrote. *)

From S2P Require Import Prelude Layout Bindings PortBindings FlowBindings FilterBindings DeviceBindings.

Definition all_types : list layout :=
  bound_types ++ port_types ++ flow_types ++ filter_types ++ device_types.

(** The structures of more than one field *)
Definition all_structs : list layout :=
  bound_structs ++ port_structs ++ flow_structs ++ filter_structs ++ device_structs.

Definition all_tests : list bool :=
  layout_tests ++ port_layout_tests ++ flow_layout_tests ++ filter_layout_tests ++ device_layout_tests.

Lemma all_structs_ordered : Forall (fun l => sound l /\ ordered (fields l)) all_structs.
Proof.
  unfold all_structs. rewrite !Forall_app. split_and!;
    [apply bound_structs_ordered|apply port_structs_ordered|apply flow_structs_ordered
    |apply filter_structs_ordered|apply device_structs_ordered].
Qed.

(** C20: The rules for [#[repr(C)]] give every structure of the bindings the size, the alignment and
    the offsets that its generated test asks for, in all 295 tests, and all these layouts are
    sound. *)
Theorem layout_tests_pass :
  Forall sound all_types /\ Forall (eq true) all_tests /\ length all_tests = 295%nat.
Proof.
  unfold all_types, all_tests. rewrite !Forall_app. split; [split_and!|split; [split_and!|reflexivity]];
    [apply bound_types_sound|apply port_types_sound|apply flow_types_sound|apply filter_types_sound
    |apply device_types_sound|apply layout_tests_true|apply port_layout_tests_true
    |apply flow_layout_tests_true|apply filter_layout_tests_true|apply device_layout_tests_true].
Qed.

(** The fields of every one of these structures are independent in memory: bytes written to one
    of them are what it then reads, every other field reads as before, and the structure keeps
    its length. So a structure can be kept as a record of its fields. *)
Theorem structs_are_records l mem bytes i j f g : l ∈ all_structs ->
  Z.of_nat (length mem) = size l -> fields l !! i = Some f -> fields l !! j = Some g -> i <> j ->
  Z.of_nat (length bytes) = field_size f ->
  let mem' := write_field f bytes mem in
  length mem' = length mem /\ read_field f mem' = bytes /\ read_field g mem' = read_field g mem.
Proof.
  intros Hl. pose proof (proj1 (Forall_forall _ _) all_structs_ordered l Hl) as [Hs Ho].
  intros. eapply fields_independent; eauto.
Qed.

(** A buffer whose length is set: where its data starts stays. *)
Lemma structs_are_records_witness :
  let mem := replicate 128 7 in
  let data_len := Field "data_len" 40 2 in
  let data_off := Field "data_off" 16 2 in
  field_of rte_mbuf "data_len" = Some data_len /\ field_of rte_mbuf "data_off" = Some data_off /\
  let mem' := write_field data_len [60; 0] mem in
  length mem' = 128%nat /\ read_field data_len mem' = [60; 0] /\ read_field data_off mem' = [7; 7].
Proof.
  do 2 (split; [reflexivity|]).
  exact (structs_are_records rte_mbuf (replicate 128 7) [60; 0] 12 4 (Field "data_len" 40 2) (Field "data_off" 16 2)
    ltac:(by apply list_elem_of_In; vm_compute; tauto) eq_refl eq_refl eq_refl ltac:(lia) eq_refl).
Defined.

