(* ===== verification/EthConf.v ===== *)
(** * The configuration of a port in memory ([dpdk/port.rs], [ffi/src/bindings_rustdoc.rs])

    [Port.eth_conf] is the part of [rte_eth_conf] that the engine sets. Here [finish] makes the
    structure itself: 3080 bytes, all zero by its [Default], into which it writes fields of
    structures inside; what the C library then reads there is that record. *)

From S2P Require Import Prelude Layout Ffi Constants Dpdk Mbuf Port Headers Bindings.

(** ** Fields of structures inside structures *)

(** [conf.a.b]: the structures that the names are fields of, outermost first *)
Fixpoint place (path : list (layout * string)) : option field :=
  match path with
  | [] => None
  | (l, n) :: path =>
      match field_of l n with
      | Some f =>
          match path with
          | [] => Some f
          | _ => match place path with
                 | Some g => Some (Field (field_name g) (field_offset f + field_offset g) (field_size g))
                 | None => None
                 end
          end
      | None => None
      end
  end.

(** An integer of [n] bytes, the least significant first *)
Fixpoint to_le (n : nat) (v : Z) : list Z :=
  match n with O => [] | S n => v `mod` 256 :: to_le n (v / 256) end.

Definition read_int (f : field) (mem : list Z) : Z := le (read_field f mem).
Definition write_int (f : field) (v : Z) (mem : list Z) : list Z :=
  write_field f (to_le (Z.to_nat (field_size f)) v) mem.

(** [mem::zeroed] *)
Definition zeroed (l : layout) : list Z := replicate (Z.to_nat (size l)) 0.

#[local] Open Scope string_scope.

Definition MQ_MODE : option field := place [(Bindings.rte_eth_conf, "rxmode"); (rte_eth_rxmode, "mq_mode")].
Definition RSS_HF : option field := place [(Bindings.rte_eth_conf, "rx_adv_conf");
  (rte_eth_conf__bindgen_ty_1, "rss_conf"); (rte_eth_rss_conf, "rss_hf")].
Definition TX_OFFLOADS : option field := place [(Bindings.rte_eth_conf, "txmode"); (rte_eth_txmode, "offloads")].

#[local] Close Scope string_scope.

(** ** What [finish] does first *)

Definition rte_eth_conf_default : list Z := zeroed Bindings.rte_eth_conf.

(** Does nothing when there is no such field; the three fields exist. *)
Definition assign (f : option field) (v : list Z -> Z) (mem : list Z) : list Z :=
  match f with Some f => write_int f (v mem) mem | None => mem end.
Definition current (f : option field) (mem : list Z) : Z :=
  match f with Some f => read_int f mem | None => 0 end.

Definition finish_conf (b : PortBuilder) : list Z :=
  let conf := rte_eth_conf_default in
  let conf :=
    if 1 <? wrap 16 (len (b_cores b)) then
      let conf := assign MQ_MODE (fun _ => ETH_MQ_RX_RSS) conf in
      assign RSS_HF (fun _ => Z.land DEFAULT_RSS_HF (flow_type_rss_offloads (b_dev_info b))) conf
    else conf in
  if 0 <? Z.land (tx_offload_capa (b_dev_info b)) DEV_TX_OFFLOAD_MBUF_FAST_FREE
  then assign TX_OFFLOADS (fun conf => Z.lor (current TX_OFFLOADS conf) DEV_TX_OFFLOAD_MBUF_FAST_FREE) conf
  else conf.

(** ** Properties *)

Lemma length_to_le n v : length (to_le n v) = n.
Proof. revert v. induction n as [|n IH]; intros v; cbn; [done|by rewrite IH]. Qed.

Lemma le_to_le n v : le (to_le n v) = v `mod` 256 ^ Z.of_nat n.
Proof.
  revert v. induction n as [|n IH]; intros v.
  { by rewrite Z.mod_1_r. }
  cbn [to_le]. change (le (v `mod` 256 :: to_le n (v / 256))) with (v `mod` 256 + 256 * le (to_le n (v / 256))).
  rewrite IH, Nat2Z.inj_succ, Z.pow_succ_r by lia. symmetry. apply Z.rem_mul_r; [lia|].
  apply Z.pow_pos_nonneg; lia.
Qed.

Lemma zeroed_read l f : inside (size l) f -> read_field f (zeroed l) = replicate (Z.to_nat (field_size f)) 0.
Proof.
  intros (H0 & H1 & H2). unfold read_field, zeroed. rewrite drop_replicate, take_replicate. f_equal. lia.
Qed.

Lemma le_zeros n : le (replicate n 0) = 0.
Proof. induction n as [|n IH]; [done|]. cbn. change (0 + 256 * le (replicate n 0) = 0). rewrite IH. lia. Qed.

(** A memory of a size in which an integer is written *)
Lemma write_int_spec f v mem : inside (Z.of_nat (length mem)) f -> 0 <= v < 256 ^ field_size f ->
  length (write_int f v mem) = length mem /\ read_int f (write_int f v mem) = v /\
  (forall g, inside (Z.of_nat (length mem)) g -> apart f g \/ apart g f ->
     read_field g (write_int f v mem) = read_field g mem).
Proof.
  intros Hf Hv. pose proof Hf as (H0 & H1 & H2). unfold write_int, read_int.
  assert (Z.of_nat (length (to_le (Z.to_nat (field_size f)) v)) = field_size f) as L by (rewrite length_to_le; lia).
  split; [by apply length_write|]. split.
  - rewrite read_written, le_to_le by done. rewrite Z2Nat.id by lia. by apply Z.mod_small.
  - intros g Hg Ha. by apply read_other.
Qed.

Lemma places : MQ_MODE = Some (Field "mq_mode" 8 4) /\ RSS_HF = Some (Field "rss_hf" 144 8) /\
  TX_OFFLOADS = Some (Field "offloads" 72 8).
Proof. by vm_compute. Qed.

Lemma rss_hf_range x : 0 <= Z.land DEFAULT_RSS_HF x < 256 ^ 8.
Proof.
  replace (Z.land DEFAULT_RSS_HF x) with (Z.land DEFAULT_RSS_HF x `mod` 2 ^ 64); [by apply Z.mod_pos_bound|].
  rewrite <- Z.land_ones by lia. rewrite <- Z.land_assoc, (Z.land_comm x), Z.land_assoc. by f_equal.
Qed.

Definition set_fields : list field := [Field "mq_mode" 8 4; Field "rss_hf" 144 8; Field "offloads" 72 8].

(** A memory of the structure whose three fields have the values [vs] and which is zero elsewhere *)
Record conf_of (vs : list Z) (mem : list Z) : Prop := {
  conf_length : Z.of_nat (length mem) = size Bindings.rte_eth_conf;
  conf_values : map (fun f => read_int f mem) set_fields = vs;
  conf_rest : forall g, inside (size Bindings.rte_eth_conf) g -> Forall (fun f => apart f g \/ apart g f) set_fields ->
    read_field g mem = replicate (Z.to_nat (field_size g)) 0;
}.

Lemma conf_size : size Bindings.rte_eth_conf = 3080.
Proof. by vm_compute. Qed.

Lemma conf_of_default : conf_of [0; 0; 0] rte_eth_conf_default.
Proof.
  split.
  - unfold rte_eth_conf_default, zeroed. rewrite length_replicate, conf_size. lia.
  - by vm_compute.
  - intros g Hg _. by apply zeroed_read.
Qed.

Lemma set_field_cases k f : set_fields !! k = Some f ->
  (k = 0%nat /\ f = Field "mq_mode" 8 4) \/ (k = 1%nat /\ f = Field "rss_hf" 144 8) \/
  (k = 2%nat /\ f = Field "offloads" 72 8).
Proof.
  unfold set_fields. destruct k as [|[|[|k]]]; cbn; intros E; [injection E as <-; tauto..|].
  by destruct k.
Qed.

(** A field is written: the value of that field alone changes. *)
Lemma conf_of_write k f v vs mem : set_fields !! k = Some f -> 0 <= v < 256 ^ field_size f ->
  conf_of vs mem -> conf_of (<[k := v]> vs) (write_int f v mem).
Proof.
  intros Ek Hv [L V R]. assert (inside (Z.of_nat (length mem)) f) as Hf.
  { rewrite L, conf_size. destruct (set_field_cases k f Ek) as [[_ ->]|[[_ ->]|[_ ->]]]; unfold inside; cbn; lia. }
  destruct (write_int_spec f v mem Hf Hv) as (L' & V' & O'). rewrite L in O'. split.
  - by rewrite L'.
  - subst vs. destruct (set_field_cases k f Ek) as [[-> ->]|[[-> ->]|[-> ->]]];
      cbn [map set_fields insert list_insert]; rewrite V'; unfold read_int;
      rewrite !O' by (rewrite ?conf_size; unfold inside, apart; cbn; lia); done.
  - intros g Hg Ha. rewrite O'; [by apply R|done|]. eapply (proj1 (Forall_lookup _ _) Ha); eauto.
Qed.

Lemma finish_conf_of b :
  conf_of [mq_mode (eth_conf b); rss_hf (eth_conf b); tx_offloads (eth_conf b)] (finish_conf b).
Proof.
  destruct places as (Em & Er & Et).
  unfold finish_conf, eth_conf. rewrite Em, Er, Et. cbn [mq_mode rss_hf tx_offloads assign current].
  assert (forall x y mem, conf_of [x; y; 0] mem ->
    conf_of [x; y; if 0 <? Z.land (tx_offload_capa (b_dev_info b)) DEV_TX_OFFLOAD_MBUF_FAST_FREE
      then Z.lor 0 DEV_TX_OFFLOAD_MBUF_FAST_FREE else 0]
     (if 0 <? Z.land (tx_offload_capa (b_dev_info b)) DEV_TX_OFFLOAD_MBUF_FAST_FREE
      then write_int (Field "offloads" 72 8)
             (Z.lor (read_int (Field "offloads" 72 8) mem) DEV_TX_OFFLOAD_MBUF_FAST_FREE) mem
      else mem)) as Htx.
  { intros x y mem C. destruct (0 <? _); [|done]. pose proof (conf_values _ _ C) as V. cbn [map set_fields] in V.
    injection V as _ _ ->. by apply (conf_of_write 2 (Field "offloads" 72 8) _ [x; y; 0]). }
  destruct (1 <? _); apply Htx; [|apply conf_of_default].
  apply (conf_of_write 1 (Field "rss_hf" 144 8) _ [1; 0; 0]); [done|apply rss_hf_range|].
  by apply (conf_of_write 0 (Field "mq_mode" 8 4) 1 [0; 0; 0]), conf_of_default.
Qed.

(** C22: The structure that [finish] passes to [rte_eth_dev_configure] holds what [Port.eth_conf]
    says, each field at its place inside the structures inside it, and every byte that is not of
    one of these three fields is zero: DPDK's defaults for all the rest, whatever the device
    reports. *)
Theorem conf_in_memory b :
  map Some set_fields = [MQ_MODE; RSS_HF; TX_OFFLOADS] /\
  conf_of [mq_mode (eth_conf b); rss_hf (eth_conf b); tx_offloads (eth_conf b)] (finish_conf b).
Proof. split; [|apply finish_conf_of]. by destruct places as (-> & -> & ->). Qed.
