(* ===== verification/Flags.v ===== *)
(** * Words made of fields and flags

    Masks, flags and enumerators of [Constants] and [Enums], against what uses them: the bit
    fields of a message buffer are parts of the words in the same place, what the engine asks
    devices to hash is a set of flow types, and the families of flags are consistent. *)

From S2P Require Import Prelude BitfieldUnit Bitfields Layout Ffi Constants Enums Dpdk Mbuf Mempool Port Headers Bindings EthConf.

(** ** Bytes as words *)

Lemma bit_0 b l k : 0 <= k < 8 -> bit (b :: l) k = Z.testbit b k.
Proof. intros Hk. unfold bit. rewrite Z.div_small, Z.mod_small by lia. done. Qed.

Lemma bit_S b l k : 8 <= k -> bit (b :: l) k = bit l (k - 8).
Proof.
  intros Hk. unfold bit. replace k with (k - 8 + 1 * 8) at 1 2 by lia.
  rewrite Z.div_add, Z.mod_add by lia. pose proof (Z.div_pos (k - 8) 8).
  replace (Z.to_nat ((k - 8) / 8 + 1)) with (S (Z.to_nat ((k - 8) / 8))) by lia. done.
Qed.

(** The bits of the bytes are those of the number they are, the least significant byte first. *)
Lemma testbit_le l : forall k, bytes_ok l -> 0 <= k < 8 * storage_len l ->
  Z.testbit (le l) k = bit l k.
Proof.
  unfold storage_len. induction l as [|b l IH]; intros k H Hk; cbn [length] in Hk; [lia|].
  apply Forall_cons in H as [Hb H]. change (le (b :: l)) with (b + 256 * le l).
  assert (Z.land b (256 * le l) = 0) as D.
  { apply Z.bits_inj'. intros n Hn. rewrite Z.land_spec, Z.testbit_0_l. change 256 with (2 ^ 8).
    rewrite Z.mul_comm. destruct (Z.ltb_spec n 8).
    - by rewrite Z.mul_pow2_bits_low, andb_false_r by lia.
    - by rewrite byte_high by lia. }
  rewrite Z.add_nocarry_lxor, Z.lxor_spec by done. change 256 with (2 ^ 8). rewrite (Z.mul_comm _ (le l)).
  destruct (Z.ltb_spec k 8).
  - by rewrite Z.mul_pow2_bits_low, xorb_false_r, bit_0 by lia.
  - rewrite byte_high, Z.mul_pow2_bits, IH, bit_S by (done || lia). by destruct (bit l _).
Qed.

Lemma bit_read f mem k : inside (Z.of_nat (length mem)) f -> 0 <= k < 8 * field_size f ->
  bit (read_field f mem) k = bit mem (8 * field_offset f + k).
Proof.
  intros (H0 & H1 & H2) Hk. unfold bit, read_field.
  rewrite Z.add_comm, Z.mul_comm, Z.div_add, Z.mod_add by lia. f_equal.
  pose proof (Z.div_pos k 8). assert (k / 8 < field_size f) by (apply Z.div_lt_upper_bound; lia).
  rewrite !list_lookup_total_alt, lookup_take_lt, lookup_drop by lia. do 2 f_equal. lia.
Qed.

(** A bit field of a unit that is itself a field of the memory *)
Lemma get_word `{Profile} f mem off w : inside (Z.of_nat (length mem)) f -> bytes_ok mem ->
  field_size f < 2 ^ 60 -> 0 <= off -> 1 <= w <= 64 -> off + w <= 8 * field_size f ->
  BitfieldUnit.get (read_field f mem) off w =
    Ret (Z.land (Z.shiftr (le mem) (8 * field_offset f + off)) (Z.ones w)).
Proof.
  intros Hf Hok Hs Ho Hw He. pose proof Hf as (H0 & H1 & H2).
  assert (storage_len (read_field f mem) = field_size f) as L.
  { unfold storage_len, read_field. rewrite length_take, length_drop. lia. }
  destruct (get_run (read_field f mem) off w) as (v & -> & Hv).
  { split; rewrite ?L; unfold USIZE_BITS; lia. }
  f_equal. apply Z.bits_inj'. intros k Hk. rewrite Hv by done.
  rewrite Z.land_spec, Z.shiftr_spec, Z.testbit_ones_nonneg by lia.
  destruct (Z.ltb_spec k w); [|by rewrite andb_false_r]. rewrite bit_read by (done || lia).
  rewrite testbit_le by (done || unfold storage_len; lia). rewrite andb_true_r. cbn [andb]. f_equal. lia.
Qed.

Lemma land_ones_fits ty x w : 0 <= w <= ty -> wrap ty (Z.land x (Z.ones w)) = Z.land x (Z.ones w).
Proof. intros Hw. rewrite Z.land_ones by lia. by apply as_type. Qed.

(** The unit that a path of fields leads to *)
Definition unit_at (path : list (layout * string)) (mem : list Z) : list Z :=
  match EthConf.place path with Some f => read_field f mem | None => [] end.

(** ** The words of a message buffer *)

#[local] Open Scope string_scope.

(** [packet_type], and the units of the structure that overlaps it *)
Definition ptype_unit : list Z -> list Z :=
  unit_at [(rte_mbuf__bindgen_ty_3, "__bindgen_anon_1"); (rte_mbuf__bindgen_ty_3__bindgen_ty_1, "_bitfield_1")].
Definition inner_unit : list Z -> list Z :=
  unit_at [(rte_mbuf__bindgen_ty_3, "__bindgen_anon_1"); (rte_mbuf__bindgen_ty_3__bindgen_ty_1, "__bindgen_anon_1");
    (rte_mbuf__bindgen_ty_3__bindgen_ty_1__bindgen_ty_1, "__bindgen_anon_1");
    (rte_mbuf__bindgen_ty_3__bindgen_ty_1__bindgen_ty_1__bindgen_ty_1, "_bitfield_1")].
Definition inner_l4_unit : list Z -> list Z :=
  unit_at [(rte_mbuf__bindgen_ty_3, "__bindgen_anon_1"); (rte_mbuf__bindgen_ty_3__bindgen_ty_1, "_bitfield_2")].
Definition tx_unit : list Z -> list Z :=
  unit_at [(rte_mbuf__bindgen_ty_6, "__bindgen_anon_1"); (rte_mbuf__bindgen_ty_6__bindgen_ty_1, "_bitfield_1")].

(** A part of [tx_offload], at the offset and of the width two enumerators give *)
Definition tx_part (ofs bits : string) (t : Z) : option Z :=
  o ← enumerator _bindgen_ty_14 ofs; n ← enumerator _bindgen_ty_14 bits;
  Some (Z.land (Z.shiftr t o) (Z.ones n)).

#[local] Close Scope string_scope.

Lemma units mem :
  ptype_unit mem = read_field (Field "_bitfield_1" 0 2) mem /\
  inner_unit mem = read_field (Field "_bitfield_1" 2 1) mem /\
  inner_l4_unit mem = read_field (Field "_bitfield_2" 3 1) mem /\
  tx_unit mem = read_field (Field "_bitfield_1" 0 8) mem.
Proof. repeat split. Qed.

(** An accessor, of the field at [off] of [w] bits in [f], converted to an integer of [ty] bits *)
Lemma accessor_word `{Profile} f mem off w ty : inside (Z.of_nat (length mem)) f -> bytes_ok mem ->
  field_size f < 2 ^ 60 -> 0 <= off -> 1 <= w <= 64 -> off + w <= 8 * field_size f -> w <= ty ->
  (v ← BitfieldUnit.get (read_field f mem) off w; Ret (wrap ty v)) =
    Ret (Z.land (Z.shiftr (le mem) (8 * field_offset f + off)) (Z.ones w)).
Proof. intros. rewrite get_word by done. run. by rewrite land_ones_fits by lia. Qed.

Ltac accessor := rewrite accessor_word; [|done || (unfold inside; cbn; lia)..]; cbn [field_offset].

(** The bits of [t] under a mask, moved down to bit 0 *)
Definition masked (t mask shift : Z) : Z := Z.shiftr (Z.land t mask) shift.

Lemma masked_part t mask shift w : 0 <= shift -> Z.shiftr mask shift = Z.ones w ->
  Z.land (Z.shiftr t shift) (Z.ones w) = masked t mask shift.
Proof. intros Hs E. unfold masked. by rewrite Z.shiftr_land, E. Qed.

(** C25: In the four bytes of a packet type, each bit-field accessor reads the part of the 32-bit
    word [packet_type] that DPDK's mask of that layer selects: the two views of the union agree,
    in every build and whatever the bytes are. *)
Theorem packet_type_masks `{Profile} mem : length mem = 4%nat -> bytes_ok mem ->
  let t := le mem in
  l2_type (ptype_unit mem) = Ret (masked t RTE_PTYPE_L2_MASK 0) /\
  l3_type (ptype_unit mem) = Ret (masked t RTE_PTYPE_L3_MASK 4) /\
  l4_type (ptype_unit mem) = Ret (masked t RTE_PTYPE_L4_MASK 8) /\
  tun_type (ptype_unit mem) = Ret (masked t RTE_PTYPE_TUNNEL_MASK 12) /\
  inner_l2_type (inner_unit mem) = Ret (masked t RTE_PTYPE_INNER_L2_MASK 16) /\
  inner_l3_type (inner_unit mem) = Ret (masked t RTE_PTYPE_INNER_L3_MASK 20) /\
  inner_l4_type (inner_l4_unit mem) = Ret (masked t RTE_PTYPE_INNER_L4_MASK 24) /\
  Z.land t RTE_PTYPE_ALL_MASK = t `mod` 2 ^ 28.
Proof.
  intros L Hok t. destruct (units mem) as (-> & -> & -> & _).
  unfold l2_type, l3_type, l4_type, tun_type, inner_l2_type, inner_l3_type, inner_l4_type.
  do 7 (split; [accessor; f_equal; by apply masked_part|]). by rewrite <- Z.land_ones.
Qed.

Lemma packet_type_masks_witness :
  l3_type (H := debug) (ptype_unit [145; 2; 0; 0]) = Ret (masked (le [145; 2; 0; 0]) RTE_PTYPE_L3_MASK 4) /\
  masked (le [145; 2; 0; 0]) RTE_PTYPE_L3_MASK 4 = 9.
Proof.
  split; [|done]. refine (proj1 (proj2 (packet_type_masks (H := debug) [145; 2; 0; 0] _ _))); [done|].
  repeat constructor; lia.
Defined.

(** The lengths of [tx_offload] are where the enumerators say. *)
Theorem tx_offload_parts `{Profile} mem : length mem = 8%nat -> bytes_ok mem ->
  let t := le mem in let part o b f := Some (f (tx_unit mem)) = Ret <$> tx_part o b t in
  part "RTE_MBUF_L2_LEN_OFS"%string "RTE_MBUF_L2_LEN_BITS"%string l2_len /\
  part "RTE_MBUF_L3_LEN_OFS"%string "RTE_MBUF_L3_LEN_BITS"%string l3_len /\
  part "RTE_MBUF_L4_LEN_OFS"%string "RTE_MBUF_L4_LEN_BITS"%string l4_len /\
  part "RTE_MBUF_TSO_SEGSZ_OFS"%string "RTE_MBUF_TSO_SEGSZ_BITS"%string tso_segsz /\
  part "RTE_MBUF_OUTL3_LEN_OFS"%string "RTE_MBUF_OUTL3_LEN_BITS"%string outer_l3_len /\
  part "RTE_MBUF_OUTL2_LEN_OFS"%string "RTE_MBUF_OUTL2_LEN_BITS"%string outer_l2_len.
Proof.
  intros L Hok t part. destruct (units mem) as (_ & _ & _ & E). subst part. cbv beta. rewrite E.
  unfold l2_len, l3_len, l4_len, tso_segsz, outer_l3_len, outer_l2_len.
  do 5 (split; [by accessor|]). by accessor.
Qed.

(** ** What devices are asked to hash *)

(** The flow types with a flag, and the flag of each *)
Definition flow_flags : list (Z * Z) :=
  [(RTE_ETH_FLOW_IPV4, ETH_RSS_IPV4); (RTE_ETH_FLOW_FRAG_IPV4, ETH_RSS_FRAG_IPV4);
   (RTE_ETH_FLOW_NONFRAG_IPV4_TCP, ETH_RSS_NONFRAG_IPV4_TCP);
   (RTE_ETH_FLOW_NONFRAG_IPV4_UDP, ETH_RSS_NONFRAG_IPV4_UDP);
   (RTE_ETH_FLOW_NONFRAG_IPV4_SCTP, ETH_RSS_NONFRAG_IPV4_SCTP);
   (RTE_ETH_FLOW_NONFRAG_IPV4_OTHER, ETH_RSS_NONFRAG_IPV4_OTHER);
   (RTE_ETH_FLOW_IPV6, ETH_RSS_IPV6); (RTE_ETH_FLOW_FRAG_IPV6, ETH_RSS_FRAG_IPV6);
   (RTE_ETH_FLOW_NONFRAG_IPV6_TCP, ETH_RSS_NONFRAG_IPV6_TCP);
   (RTE_ETH_FLOW_NONFRAG_IPV6_UDP, ETH_RSS_NONFRAG_IPV6_UDP);
   (RTE_ETH_FLOW_NONFRAG_IPV6_SCTP, ETH_RSS_NONFRAG_IPV6_SCTP);
   (RTE_ETH_FLOW_NONFRAG_IPV6_OTHER, ETH_RSS_NONFRAG_IPV6_OTHER);
   (RTE_ETH_FLOW_L2_PAYLOAD, ETH_RSS_L2_PAYLOAD); (RTE_ETH_FLOW_IPV6_EX, ETH_RSS_IPV6_EX);
   (RTE_ETH_FLOW_IPV6_TCP_EX, ETH_RSS_IPV6_TCP_EX); (RTE_ETH_FLOW_IPV6_UDP_EX, ETH_RSS_IPV6_UDP_EX);
   (RTE_ETH_FLOW_PORT, ETH_RSS_PORT); (RTE_ETH_FLOW_VXLAN, ETH_RSS_VXLAN);
   (RTE_ETH_FLOW_GENEVE, ETH_RSS_GENEVE); (RTE_ETH_FLOW_NVGRE, ETH_RSS_NVGRE);
   (RTE_ETH_FLOW_GTPU, ETH_RSS_GTPU)].

Lemma flow_flags_bits : Forall (fun '(flow, flag) => flag = 2 ^ flow /\ flow < RTE_ETH_FLOW_MAX) flow_flags.
Proof. repeat constructor. Qed.

(** IP, with or without TCP, UDP or SCTP *)
Definition ip_flows : list Z :=
  [RTE_ETH_FLOW_IPV4; RTE_ETH_FLOW_FRAG_IPV4; RTE_ETH_FLOW_NONFRAG_IPV4_TCP;
   RTE_ETH_FLOW_NONFRAG_IPV4_UDP; RTE_ETH_FLOW_NONFRAG_IPV4_SCTP; RTE_ETH_FLOW_NONFRAG_IPV4_OTHER;
   RTE_ETH_FLOW_IPV6; RTE_ETH_FLOW_FRAG_IPV6; RTE_ETH_FLOW_NONFRAG_IPV6_TCP;
   RTE_ETH_FLOW_NONFRAG_IPV6_UDP; RTE_ETH_FLOW_NONFRAG_IPV6_SCTP; RTE_ETH_FLOW_NONFRAG_IPV6_OTHER;
   RTE_ETH_FLOW_IPV6_EX; RTE_ETH_FLOW_IPV6_TCP_EX; RTE_ETH_FLOW_IPV6_UDP_EX].

(** A check of the numbers below [n] *)
Lemma below n (P : Z -> bool) k : forallb P (seqZ 0 n) = true -> 0 <= k < n -> P k = true.
Proof.
  intros H Hk. apply (proj1 (forallb_forall _ _) H). apply list_elem_of_In, elem_of_seqZ. lia.
Qed.

Lemma default_rss_bits k : 0 <= k -> Z.testbit DEFAULT_RSS_HF k = bool_decide (k ∈ ip_flows).
Proof.
  intros Hk. destruct (Z.ltb_spec k 64) as [Hlt|Hge].
  - apply eqb_prop.
    apply (below 64 (fun k => eqb (Z.testbit DEFAULT_RSS_HF k) (bool_decide (k ∈ ip_flows))) k); [by vm_compute|lia].
  - rewrite bool_decide_false.
    + apply Z.bits_above_log2; [by vm_compute|]. apply Z.lt_le_trans with 64; [by vm_compute|done].
    + intros Hin. assert (Forall (fun f => f < 64) ip_flows) as F by (repeat constructor).
      rewrite Forall_forall in F. specialize (F k Hin). lia.
Qed.

(** The multi-queue mode that a set of [ETH_MQ_RX_RSS_FLAG], [ETH_MQ_RX_DCB_FLAG] and
    [ETH_MQ_RX_VMDQ_FLAG] is *)
Definition mq_modes : list (string * list Z) :=
  [("ETH_MQ_RX_NONE", []); ("ETH_MQ_RX_RSS", [ETH_MQ_RX_RSS_FLAG]); ("ETH_MQ_RX_DCB", [ETH_MQ_RX_DCB_FLAG]);
   ("ETH_MQ_RX_DCB_RSS", [ETH_MQ_RX_RSS_FLAG; ETH_MQ_RX_DCB_FLAG]); ("ETH_MQ_RX_VMDQ_ONLY", [ETH_MQ_RX_VMDQ_FLAG]);
   ("ETH_MQ_RX_VMDQ_RSS", [ETH_MQ_RX_RSS_FLAG; ETH_MQ_RX_VMDQ_FLAG]);
   ("ETH_MQ_RX_VMDQ_DCB", [ETH_MQ_RX_VMDQ_FLAG; ETH_MQ_RX_DCB_FLAG]);
   ("ETH_MQ_RX_VMDQ_DCB_RSS", [ETH_MQ_RX_RSS_FLAG; ETH_MQ_RX_DCB_FLAG; ETH_MQ_RX_VMDQ_FLAG])]%string.

Definition union (flags : list Z) : Z := fold_left Z.lor flags 0.

Lemma mq_modes_flags :
  map (fun m => enumerator Enums.rte_eth_rx_mq_mode m.1) mq_modes = map (fun m => Some (union m.2)) mq_modes /\
  map fst mq_modes = map fst (enumerators Enums.rte_eth_rx_mq_mode).
Proof. by vm_compute. Qed.

(** C23: What [finish] asks of the device: with one core, no hashing; with more, the receive mode
    that is the RSS flag alone, and the hashing of exactly those of the fifteen IP flow types the
    device is able to hash: never of frames without IP, such as ARP, nor of tunnels. The flag of
    each flow type is the bit of its number. *)
Theorem hashed_flows b k : 0 <= k ->
  (Z.testbit (rss_hf (eth_conf b)) k = true <->
    1 < wrap 16 (len (b_cores b)) /\ k ∈ ip_flows /\ Z.testbit (flow_type_rss_offloads (b_dev_info b)) k = true) /\
  (mq_mode (eth_conf b) = if decide (1 < wrap 16 (len (b_cores b))) then ETH_MQ_RX_RSS_FLAG else 0) /\
  Forall (fun flow => flow ∈ map fst flow_flags) ip_flows /\
  Forall (fun '(flow, flag) => flag = 2 ^ flow) flow_flags.
Proof.
  intros Hk. split; [|split; [|split]].
  - unfold eth_conf. cbn [rss_hf]. destruct (Z.ltb_spec 1 (wrap 16 (len (b_cores b)))) as [H1|H1].
    + rewrite Z.land_spec, andb_true_iff, default_rss_bits, bool_decide_eq_true by done. tauto.
    + rewrite Z.testbit_0_l. split; [done|]. lia.
  - unfold eth_conf. cbn [mq_mode]. destruct (decide _) as [H1|H1].
    + by replace (1 <? wrap 16 (len (b_cores b))) with true by lia.
    + by replace (1 <? wrap 16 (len (b_cores b))) with false by lia.
  - by apply (bool_decide_unpack _).
  - eapply Forall_impl; [exact flow_flags_bits|]. by intros [flow flag] [? _].
Qed.

(** Two cores, and a device that can hash IPv4 and layer-2 payloads: IPv4 is hashed. *)
Lemma hashed_flows_witness :
  let b := Build_PortBuilder [] [] 0
    (Build_rte_eth_dev_info [] 4 4 0 0 (Z.lor ETH_RSS_IPV4 ETH_RSS_L2_PAYLOAD)) [0; 1] Mempool.map_default 0 0 in
  Z.testbit (rss_hf (eth_conf b)) RTE_ETH_FLOW_IPV4 = true /\
  rss_hf (eth_conf b) = ETH_RSS_IPV4.
Proof.
  split; [|by vm_compute]. apply (proj1 (hashed_flows _ RTE_ETH_FLOW_IPV4 ltac:(done))).
  split; [by vm_compute|]. split; [by left|by vm_compute].
Defined.

(** ** Families of flags *)

Definition rx_flags : list Z :=
  [PKT_RX_VLAN; PKT_RX_RSS_HASH; PKT_RX_FDIR; PKT_RX_L4_CKSUM_BAD; PKT_RX_IP_CKSUM_BAD;
   PKT_RX_EIP_CKSUM_BAD; PKT_RX_VLAN_STRIPPED; PKT_RX_IP_CKSUM_MASK; PKT_RX_IP_CKSUM_UNKNOWN;
   PKT_RX_IP_CKSUM_GOOD; PKT_RX_IP_CKSUM_NONE; PKT_RX_L4_CKSUM_MASK; PKT_RX_L4_CKSUM_UNKNOWN;
   PKT_RX_L4_CKSUM_GOOD; PKT_RX_L4_CKSUM_NONE; PKT_RX_IEEE1588_PTP; PKT_RX_IEEE1588_TMST;
   PKT_RX_FDIR_ID; PKT_RX_FDIR_FLX; PKT_RX_QINQ_STRIPPED; PKT_RX_LRO; PKT_RX_TIMESTAMP;
   PKT_RX_SEC_OFFLOAD; PKT_RX_SEC_OFFLOAD_FAILED; PKT_RX_QINQ; PKT_RX_OUTER_L4_CKSUM_MASK;
   PKT_RX_OUTER_L4_CKSUM_UNKNOWN; PKT_RX_OUTER_L4_CKSUM_BAD; PKT_RX_OUTER_L4_CKSUM_GOOD;
   PKT_RX_OUTER_L4_CKSUM_INVALID].
Definition tx_flags : list Z :=
  [PKT_TX_OUTER_UDP_CKSUM; PKT_TX_UDP_SEG; PKT_TX_SEC_OFFLOAD; PKT_TX_MACSEC; PKT_TX_TUNNEL_VXLAN;
   PKT_TX_TUNNEL_GRE; PKT_TX_TUNNEL_IPIP; PKT_TX_TUNNEL_GENEVE; PKT_TX_TUNNEL_MPLSINUDP;
   PKT_TX_TUNNEL_VXLAN_GPE; PKT_TX_TUNNEL_GTP; PKT_TX_TUNNEL_IP; PKT_TX_TUNNEL_UDP; PKT_TX_TUNNEL_MASK;
   PKT_TX_QINQ; PKT_TX_QINQ_PKT; PKT_TX_TCP_SEG; PKT_TX_IEEE1588_TMST; PKT_TX_L4_NO_CKSUM;
   PKT_TX_TCP_CKSUM; PKT_TX_SCTP_CKSUM; PKT_TX_UDP_CKSUM; PKT_TX_L4_MASK; PKT_TX_IP_CKSUM; PKT_TX_IPV4;
   PKT_TX_IPV6; PKT_TX_VLAN; PKT_TX_VLAN_PKT; PKT_TX_OUTER_IP_CKSUM; PKT_TX_OUTER_IPV4;
   PKT_TX_OUTER_IPV6].

(** In [ol_flags], the flags of receiving are below [PKT_FIRST_FREE], those of transmitting above
    [PKT_LAST_FREE], and [PKT_TX_OFFLOAD_MASK] is all of the latter. *)
Lemma ol_flags_apart :
  union rx_flags < PKT_FIRST_FREE /\ Z.land (union tx_flags) (Z.ones 41) = 0 /\ PKT_LAST_FREE = 2 ^ 40 /\
  union tx_flags = PKT_TX_OFFLOAD_MASK.
Proof. by vm_compute. Qed.

(** Flags that stand for several *)
Lemma unions :
  ETH_RSS_TUNNEL = union [ETH_RSS_VXLAN; ETH_RSS_GENEVE; ETH_RSS_NVGRE] /\
  DEV_RX_OFFLOAD_CHECKSUM = union [DEV_RX_OFFLOAD_IPV4_CKSUM; DEV_RX_OFFLOAD_UDP_CKSUM; DEV_RX_OFFLOAD_TCP_CKSUM] /\
  DEV_RX_OFFLOAD_VLAN = union [DEV_RX_OFFLOAD_VLAN_STRIP; DEV_RX_OFFLOAD_VLAN_FILTER; DEV_RX_OFFLOAD_VLAN_EXTEND;
    DEV_RX_OFFLOAD_QINQ_STRIP] /\
  RTE_5TUPLE_FLAGS = union [RTE_NTUPLE_FLAGS_DST_IP; RTE_NTUPLE_FLAGS_SRC_IP; RTE_NTUPLE_FLAGS_DST_PORT;
    RTE_NTUPLE_FLAGS_SRC_PORT; RTE_NTUPLE_FLAGS_PROTO] /\
  RTE_2TUPLE_FLAGS = union [RTE_NTUPLE_FLAGS_DST_PORT; RTE_NTUPLE_FLAGS_PROTO] /\
  RTE_TUNNEL_FILTER_IMAC_IVLAN_TENID = union [RTE_TUNNEL_FILTER_IMAC_IVLAN; RTE_TUNNEL_FILTER_IMAC_TENID].
Proof. by vm_compute. Qed.

(** [ETH_RSS_PROTO_MASK] has the flags of all flow types but GTP-U. *)
Lemma proto_mask_flows : forall flow flag, (flow, flag) ∈ flow_flags ->
  Z.land ETH_RSS_PROTO_MASK flag = if decide (flow = RTE_ETH_FLOW_GTPU) then 0 else flag.
Proof.
  intros flow flag H. repeat (apply elem_of_cons in H as [[= -> ->]|H]; [done|]). by apply not_elem_of_nil in H.
Qed.

(** Sizes that follow from others and from the structures *)
Lemma sizes_agree :
  RTE_MBUF_DEFAULT_BUF_SIZE = RTE_MBUF_DEFAULT_DATAROOM + RTE_PKTMBUF_HEADROOM /\
  size Bindings.rte_ether_hdr = RTE_ETHER_HDR_LEN /\
  RTE_ETHER_HDR_LEN = 2 * RTE_ETHER_ADDR_LEN + RTE_ETHER_TYPE_LEN /\
  RTE_ETHER_MTU = RTE_ETHER_MAX_LEN - RTE_ETHER_HDR_LEN - RTE_ETHER_CRC_LEN /\
  size Bindings.rte_ipv4_hdr = RTE_IPV4_MIN_IHL * RTE_IPV4_IHL_MULTIPLIER /\
  RTE_IPV4_VHL_DEF = Z.lor (Z.shiftl 4 4) RTE_IPV4_MIN_IHL /\
  size Bindings.rte_mbuf = 2 * RTE_CACHE_LINE_MIN_SIZE.
Proof. by vm_compute. Qed.
