(* ===== verification/Defaults.v ===== *)
(** * The [Default] instances of the bindings ([ffi/src/bindings_rustdoc.rs])

    The generator writes one for each type that cannot derive it: memory of the type's size that
    is all zero. [finish] starts from that of [rte_eth_conf]; what its zeros mean to DPDK is here
    too. *)

From S2P Require Import Prelude BitfieldUnit Bitfields Layout Ffi Constants Enums Dpdk Mbuf Port Headers.
From S2P Require Import Bindings PortBindings FlowBindings FilterBindings DeviceBindings EthConf Flags.

Definition pthread_attr_t_default : list Z := zeroed pthread_attr_t.
Definition _IO_FILE_default : list Z := zeroed _IO_FILE.
Definition rte_logs_default : list Z := zeroed rte_logs.
Definition rte_dev_event_default : list Z := zeroed rte_dev_event.
Definition rte_mem_resource_default : list Z := zeroed rte_mem_resource.
Definition rte_driver__bindgen_ty_1_default : list Z := zeroed rte_driver__bindgen_ty_1.
Definition rte_driver_default : list Z := zeroed rte_driver.
Definition rte_device__bindgen_ty_1_default : list Z := zeroed rte_device__bindgen_ty_1.
Definition rte_device_default : list Z := zeroed rte_device.
Definition rte_dev_iterator_default : list Z := zeroed rte_dev_iterator.
Definition rte_bus_list_default : list Z := zeroed rte_bus_list.
Definition rte_bus_conf_default : list Z := zeroed rte_bus_conf.
Definition rte_bus__bindgen_ty_1_default : list Z := zeroed rte_bus__bindgen_ty_1.
Definition rte_bus_default : list Z := zeroed rte_bus.
Definition rte_mp_msg_default : list Z := zeroed rte_mp_msg.
Definition rte_mp_reply_default : list Z := zeroed rte_mp_reply.
Definition rte_epoll_data_default : list Z := zeroed rte_epoll_data.
Definition rte_epoll_event_default : list Z := zeroed rte_epoll_event.
Definition rte_intr_handle__bindgen_ty_1_default : list Z := zeroed rte_intr_handle__bindgen_ty_1.
Definition rte_intr_handle_default : list Z := zeroed rte_intr_handle.
Definition rte_devargs__bindgen_ty_1_default : list Z := zeroed rte_devargs__bindgen_ty_1.
Definition rte_devargs__bindgen_ty_2_default : list Z := zeroed rte_devargs__bindgen_ty_2.
Definition rte_devargs_default : list Z := zeroed rte_devargs.
Definition rte_xmm_default : list Z := zeroed rte_xmm.
Definition rte_ymm_default : list Z := zeroed rte_ymm.
Definition rte_int128_t__bindgen_ty_1_default : list Z := zeroed rte_int128_t__bindgen_ty_1.
Definition rte_int128_t_default : list Z := zeroed rte_int128_t.
Definition rte_fbarray_default : list Z := zeroed rte_fbarray.
Definition rte_memseg__bindgen_ty_1_default : list Z := zeroed rte_memseg__bindgen_ty_1.
Definition rte_memseg__bindgen_ty_2_default : list Z := zeroed rte_memseg__bindgen_ty_2.
Definition rte_memseg_default : list Z := zeroed rte_memseg.
Definition rte_memseg_list__bindgen_ty_1_default : list Z := zeroed rte_memseg_list__bindgen_ty_1.
Definition rte_memseg_list_default : list Z := zeroed rte_memseg_list.
Definition rte_memzone__bindgen_ty_1_default : list Z := zeroed rte_memzone__bindgen_ty_1.
Definition rte_memzone__bindgen_ty_2_default : list Z := zeroed rte_memzone__bindgen_ty_2.
Definition rte_memzone_default : list Z := zeroed rte_memzone.
Definition rte_ring_default : list Z := zeroed rte_ring.
Definition rte_mempool_cache_default : list Z := zeroed rte_mempool_cache.
Definition rte_mempool_objhdr__bindgen_ty_1_default : list Z := zeroed rte_mempool_objhdr__bindgen_ty_1.
Definition rte_mempool_objhdr__bindgen_ty_2_default : list Z := zeroed rte_mempool_objhdr__bindgen_ty_2.
Definition rte_mempool_objhdr_default : list Z := zeroed rte_mempool_objhdr.
Definition rte_mempool_objhdr_list_default : list Z := zeroed rte_mempool_objhdr_list.
Definition rte_mempool_memhdr_list_default : list Z := zeroed rte_mempool_memhdr_list.
Definition rte_mempool_memhdr__bindgen_ty_1_default : list Z := zeroed rte_mempool_memhdr__bindgen_ty_1.
Definition rte_mempool_memhdr__bindgen_ty_2_default : list Z := zeroed rte_mempool_memhdr__bindgen_ty_2.
Definition rte_mempool_memhdr_default : list Z := zeroed rte_mempool_memhdr.
Definition rte_mempool_info_default : list Z := zeroed rte_mempool_info.
Definition rte_mempool__bindgen_ty_1_default : list Z := zeroed rte_mempool__bindgen_ty_1.
Definition rte_mempool_default : list Z := zeroed rte_mempool.
Definition rte_mempool_ops_default : list Z := zeroed rte_mempool_ops.
Definition rte_mempool_ops_table_default : list Z := zeroed rte_mempool_ops_table.
Definition rte_mbuf__bindgen_ty_1_default : list Z := zeroed rte_mbuf__bindgen_ty_1.
Definition rte_mbuf__bindgen_ty_2_default : list Z := zeroed rte_mbuf__bindgen_ty_2.
Definition rte_mbuf__bindgen_ty_3__bindgen_ty_1__bindgen_ty_1_default : list Z := zeroed rte_mbuf__bindgen_ty_3__bindgen_ty_1__bindgen_ty_1.
Definition rte_mbuf__bindgen_ty_3__bindgen_ty_1_default : list Z := zeroed rte_mbuf__bindgen_ty_3__bindgen_ty_1.
Definition rte_mbuf__bindgen_ty_3_default : list Z := zeroed rte_mbuf__bindgen_ty_3.
Definition rte_mbuf__bindgen_ty_4__bindgen_ty_1__bindgen_ty_1__bindgen_ty_1_default : list Z := zeroed rte_mbuf__bindgen_ty_4__bindgen_ty_1__bindgen_ty_1__bindgen_ty_1.
Definition rte_mbuf__bindgen_ty_4__bindgen_ty_1__bindgen_ty_1_default : list Z := zeroed rte_mbuf__bindgen_ty_4__bindgen_ty_1__bindgen_ty_1.
Definition rte_mbuf__bindgen_ty_4__bindgen_ty_1_default : list Z := zeroed rte_mbuf__bindgen_ty_4__bindgen_ty_1.
Definition rte_mbuf__bindgen_ty_4_default : list Z := zeroed rte_mbuf__bindgen_ty_4.
Definition rte_mbuf__bindgen_ty_5_default : list Z := zeroed rte_mbuf__bindgen_ty_5.
Definition rte_mbuf__bindgen_ty_6_default : list Z := zeroed rte_mbuf__bindgen_ty_6.
Definition rte_mbuf_default : list Z := zeroed rte_mbuf.
Definition rte_mbuf_ext_shared_info_default : list Z := zeroed rte_mbuf_ext_shared_info.
Definition rte_dev_reg_info_default : list Z := zeroed rte_dev_reg_info.
Definition rte_dev_eeprom_info_default : list Z := zeroed rte_dev_eeprom_info.
Definition rte_eth_rxmode_default : list Z := zeroed rte_eth_rxmode.
Definition rte_vlan_filter_conf_default : list Z := zeroed rte_vlan_filter_conf.
Definition rte_eth_rss_conf_default : list Z := zeroed rte_eth_rss_conf.
Definition rte_eth_vlan_mirror_default : list Z := zeroed rte_eth_vlan_mirror.
Definition rte_eth_mirror_conf_default : list Z := zeroed rte_eth_mirror_conf.
Definition rte_eth_rss_reta_entry64_default : list Z := zeroed rte_eth_rss_reta_entry64.
Definition rte_eth_dcb_rx_conf_default : list Z := zeroed rte_eth_dcb_rx_conf.
Definition rte_eth_vmdq_dcb_tx_conf_default : list Z := zeroed rte_eth_vmdq_dcb_tx_conf.
Definition rte_eth_dcb_tx_conf_default : list Z := zeroed rte_eth_dcb_tx_conf.
Definition rte_eth_vmdq_tx_conf_default : list Z := zeroed rte_eth_vmdq_tx_conf.
Definition rte_eth_vmdq_dcb_conf_default : list Z := zeroed rte_eth_vmdq_dcb_conf.
Definition rte_eth_vmdq_rx_conf_default : list Z := zeroed rte_eth_vmdq_rx_conf.
Definition rte_eth_txmode_default : list Z := zeroed rte_eth_txmode.
Definition rte_eth_rxconf_default : list Z := zeroed rte_eth_rxconf.
Definition rte_eth_txconf_default : list Z := zeroed rte_eth_txconf.
Definition rte_eth_fc_conf_default : list Z := zeroed rte_eth_fc_conf.
Definition rte_eth_pfc_conf_default : list Z := zeroed rte_eth_pfc_conf.
Definition rte_higig2_hdr__bindgen_ty_1_default : list Z := zeroed rte_higig2_hdr__bindgen_ty_1.
Definition rte_higig2_hdr_default : list Z := zeroed rte_higig2_hdr.
Definition rte_mbuf_dynfield_default : list Z := zeroed rte_mbuf_dynfield.
Definition rte_mbuf_dynflag_default : list Z := zeroed rte_mbuf_dynflag.
Definition rte_flow_item_higig2_hdr_default : list Z := zeroed rte_flow_item_higig2_hdr.
Definition rte_flow_item_raw_default : list Z := zeroed rte_flow_item_raw.
Definition rte_flow_item_default : list Z := zeroed rte_flow_item.
Definition rte_flow_action_rss_default : list Z := zeroed rte_flow_action_rss.
Definition rte_flow_action_security_default : list Z := zeroed rte_flow_action_security.
Definition rte_flow_action_vxlan_encap_default : list Z := zeroed rte_flow_action_vxlan_encap.
Definition rte_flow_action_nvgre_encap_default : list Z := zeroed rte_flow_action_nvgre_encap.
Definition rte_flow_action_raw_encap_default : list Z := zeroed rte_flow_action_raw_encap.
Definition rte_flow_action_raw_decap_default : list Z := zeroed rte_flow_action_raw_decap.
Definition rte_flow_action_default : list Z := zeroed rte_flow_action.
Definition rte_flow_error_default : list Z := zeroed rte_flow_error.
Definition rte_flow_conv_rule__bindgen_ty_1_default : list Z := zeroed rte_flow_conv_rule__bindgen_ty_1.
Definition rte_flow_conv_rule__bindgen_ty_2_default : list Z := zeroed rte_flow_conv_rule__bindgen_ty_2.
Definition rte_flow_conv_rule__bindgen_ty_3_default : list Z := zeroed rte_flow_conv_rule__bindgen_ty_3.
Definition rte_flow_conv_rule_default : list Z := zeroed rte_flow_conv_rule.
Definition rte_flow_desc_default : list Z := zeroed rte_flow_desc.
Definition rte_eth_mac_filter_default : list Z := zeroed rte_eth_mac_filter.
Definition rte_eth_flex_filter_default : list Z := zeroed rte_eth_flex_filter.
Definition rte_eth_tunnel_filter_conf__bindgen_ty_1_default : list Z := zeroed rte_eth_tunnel_filter_conf__bindgen_ty_1.
Definition rte_eth_tunnel_filter_conf_default : list Z := zeroed rte_eth_tunnel_filter_conf.
Definition rte_eth_global_cfg__bindgen_ty_1_default : list Z := zeroed rte_eth_global_cfg__bindgen_ty_1.
Definition rte_eth_global_cfg_default : list Z := zeroed rte_eth_global_cfg.
Definition rte_eth_input_set_conf_default : list Z := zeroed rte_eth_input_set_conf.
Definition rte_eth_tunnel_flow_default : list Z := zeroed rte_eth_tunnel_flow.
Definition rte_eth_fdir_flow_default : list Z := zeroed rte_eth_fdir_flow.
Definition rte_eth_fdir_input_default : list Z := zeroed rte_eth_fdir_input.
Definition rte_eth_fdir_action_default : list Z := zeroed rte_eth_fdir_action.
Definition rte_eth_fdir_filter_default : list Z := zeroed rte_eth_fdir_filter.
Definition rte_eth_flex_payload_cfg_default : list Z := zeroed rte_eth_flex_payload_cfg.
Definition rte_eth_fdir_flex_conf_default : list Z := zeroed rte_eth_fdir_flex_conf.
Definition rte_eth_fdir_info_default : list Z := zeroed rte_eth_fdir_info.
Definition rte_eth_fdir_filter_info__bindgen_ty_1_default : list Z := zeroed rte_eth_fdir_filter_info__bindgen_ty_1.
Definition rte_eth_fdir_filter_info_default : list Z := zeroed rte_eth_fdir_filter_info.
Definition rte_eth_hash_global_conf_default : list Z := zeroed rte_eth_hash_global_conf.
Definition rte_eth_hash_filter_info__bindgen_ty_1_default : list Z := zeroed rte_eth_hash_filter_info__bindgen_ty_1.
Definition rte_eth_hash_filter_info_default : list Z := zeroed rte_eth_hash_filter_info.
Definition rte_eth_l2_tunnel_conf_default : list Z := zeroed rte_eth_l2_tunnel_conf.
Definition rte_fdir_conf_default : list Z := zeroed rte_fdir_conf.
Definition rte_eth_conf__bindgen_ty_1_default : list Z := zeroed rte_eth_conf__bindgen_ty_1.
Definition rte_eth_conf__bindgen_ty_2_default : list Z := zeroed rte_eth_conf__bindgen_ty_2.
Definition rte_eth_switch_info_default : list Z := zeroed rte_eth_switch_info.
Definition rte_eth_dev_info_default : list Z := zeroed rte_eth_dev_info.
Definition rte_eth_rxq_info_default : list Z := zeroed rte_eth_rxq_info.
Definition rte_eth_txq_info_default : list Z := zeroed rte_eth_txq_info.
Definition rte_eth_burst_mode_default : list Z := zeroed rte_eth_burst_mode.
Definition rte_eth_xstat_name_default : list Z := zeroed rte_eth_xstat_name.
Definition rte_eth_dcb_tc_queue_mapping_default : list Z := zeroed rte_eth_dcb_tc_queue_mapping.
Definition rte_eth_dcb_info_default : list Z := zeroed rte_eth_dcb_info.
Definition rte_eth_dev_owner_default : list Z := zeroed rte_eth_dev_owner.
Definition rte_eth_dev_tx_buffer_default : list Z := zeroed rte_eth_dev_tx_buffer.
Definition rte_eth_event_ipsec_desc_default : list Z := zeroed rte_eth_event_ipsec_desc.
Definition rte_eth_dev_cb_list_default : list Z := zeroed rte_eth_dev_cb_list.
Definition rte_eth_rxtx_callback__bindgen_ty_1_default : list Z := zeroed rte_eth_rxtx_callback__bindgen_ty_1.
Definition rte_eth_rxtx_callback_default : list Z := zeroed rte_eth_rxtx_callback.
Definition rte_eth_dev_default : list Z := zeroed rte_eth_dev.
Definition rte_eth_dev_data_default : list Z := zeroed rte_eth_dev_data.
Definition rte_kni_request__bindgen_ty_1_default : list Z := zeroed rte_kni_request__bindgen_ty_1.
Definition rte_kni_request_default : list Z := zeroed rte_kni_request.
Definition rte_kni_fifo_default : list Z := zeroed rte_kni_fifo.
Definition rte_kni_mbuf_default : list Z := zeroed rte_kni_mbuf.
Definition rte_kni_device_info_default : list Z := zeroed rte_kni_device_info.
Definition bitmask_default : list Z := zeroed bitmask.
Definition bpf_program_default : list Z := zeroed bpf_program.
Definition pcap_if_default : list Z := zeroed pcap_if.
Definition pcap_addr_default : list Z := zeroed pcap_addr.
Definition __va_list_tag_default : list Z := zeroed __va_list_tag.

Definition defaults : list (layout * list Z) :=
  [(pthread_attr_t, pthread_attr_t_default); (_IO_FILE, _IO_FILE_default); (rte_logs,
   rte_logs_default); (rte_dev_event, rte_dev_event_default); (rte_mem_resource,
   rte_mem_resource_default); (rte_driver__bindgen_ty_1, rte_driver__bindgen_ty_1_default);
   (rte_driver, rte_driver_default); (rte_device__bindgen_ty_1, rte_device__bindgen_ty_1_default);
   (rte_device, rte_device_default); (rte_dev_iterator, rte_dev_iterator_default); (rte_bus_list,
   rte_bus_list_default); (rte_bus_conf, rte_bus_conf_default); (rte_bus__bindgen_ty_1,
   rte_bus__bindgen_ty_1_default); (rte_bus, rte_bus_default); (rte_mp_msg, rte_mp_msg_default);
   (rte_mp_reply, rte_mp_reply_default); (rte_epoll_data, rte_epoll_data_default); (rte_epoll_event,
   rte_epoll_event_default); (rte_intr_handle__bindgen_ty_1, rte_intr_handle__bindgen_ty_1_default);
   (rte_intr_handle, rte_intr_handle_default); (rte_devargs__bindgen_ty_1,
   rte_devargs__bindgen_ty_1_default); (rte_devargs__bindgen_ty_2, rte_devargs__bindgen_ty_2_default);
   (rte_devargs, rte_devargs_default); (rte_xmm, rte_xmm_default); (rte_ymm, rte_ymm_default);
   (rte_int128_t__bindgen_ty_1, rte_int128_t__bindgen_ty_1_default); (rte_int128_t,
   rte_int128_t_default); (rte_fbarray, rte_fbarray_default); (rte_memseg__bindgen_ty_1,
   rte_memseg__bindgen_ty_1_default); (rte_memseg__bindgen_ty_2, rte_memseg__bindgen_ty_2_default);
   (rte_memseg, rte_memseg_default); (rte_memseg_list__bindgen_ty_1,
   rte_memseg_list__bindgen_ty_1_default); (rte_memseg_list, rte_memseg_list_default);
   (rte_memzone__bindgen_ty_1, rte_memzone__bindgen_ty_1_default); (rte_memzone__bindgen_ty_2,
   rte_memzone__bindgen_ty_2_default); (rte_memzone, rte_memzone_default); (rte_ring,
   rte_ring_default); (rte_mempool_cache, rte_mempool_cache_default);
   (rte_mempool_objhdr__bindgen_ty_1, rte_mempool_objhdr__bindgen_ty_1_default);
   (rte_mempool_objhdr__bindgen_ty_2, rte_mempool_objhdr__bindgen_ty_2_default); (rte_mempool_objhdr,
   rte_mempool_objhdr_default); (rte_mempool_objhdr_list, rte_mempool_objhdr_list_default);
   (rte_mempool_memhdr_list, rte_mempool_memhdr_list_default); (rte_mempool_memhdr__bindgen_ty_1,
   rte_mempool_memhdr__bindgen_ty_1_default); (rte_mempool_memhdr__bindgen_ty_2,
   rte_mempool_memhdr__bindgen_ty_2_default); (rte_mempool_memhdr, rte_mempool_memhdr_default);
   (rte_mempool_info, rte_mempool_info_default); (rte_mempool__bindgen_ty_1,
   rte_mempool__bindgen_ty_1_default); (rte_mempool, rte_mempool_default); (rte_mempool_ops,
   rte_mempool_ops_default); (rte_mempool_ops_table, rte_mempool_ops_table_default);
   (rte_mbuf__bindgen_ty_1, rte_mbuf__bindgen_ty_1_default); (rte_mbuf__bindgen_ty_2,
   rte_mbuf__bindgen_ty_2_default); (rte_mbuf__bindgen_ty_3__bindgen_ty_1__bindgen_ty_1,
   rte_mbuf__bindgen_ty_3__bindgen_ty_1__bindgen_ty_1_default); (rte_mbuf__bindgen_ty_3__bindgen_ty_1,
   rte_mbuf__bindgen_ty_3__bindgen_ty_1_default); (rte_mbuf__bindgen_ty_3,
   rte_mbuf__bindgen_ty_3_default); (rte_mbuf__bindgen_ty_4__bindgen_ty_1__bindgen_ty_1__bindgen_ty_1,
   rte_mbuf__bindgen_ty_4__bindgen_ty_1__bindgen_ty_1__bindgen_ty_1_default);
   (rte_mbuf__bindgen_ty_4__bindgen_ty_1__bindgen_ty_1,
   rte_mbuf__bindgen_ty_4__bindgen_ty_1__bindgen_ty_1_default); (rte_mbuf__bindgen_ty_4__bindgen_ty_1,
   rte_mbuf__bindgen_ty_4__bindgen_ty_1_default); (rte_mbuf__bindgen_ty_4,
   rte_mbuf__bindgen_ty_4_default); (rte_mbuf__bindgen_ty_5, rte_mbuf__bindgen_ty_5_default);
   (rte_mbuf__bindgen_ty_6, rte_mbuf__bindgen_ty_6_default); (rte_mbuf, rte_mbuf_default);
   (rte_mbuf_ext_shared_info, rte_mbuf_ext_shared_info_default); (rte_dev_reg_info,
   rte_dev_reg_info_default); (rte_dev_eeprom_info, rte_dev_eeprom_info_default); (rte_eth_rxmode,
   rte_eth_rxmode_default); (rte_vlan_filter_conf, rte_vlan_filter_conf_default); (rte_eth_rss_conf,
   rte_eth_rss_conf_default); (rte_eth_vlan_mirror, rte_eth_vlan_mirror_default); (rte_eth_mirror_conf,
   rte_eth_mirror_conf_default); (rte_eth_rss_reta_entry64, rte_eth_rss_reta_entry64_default);
   (rte_eth_dcb_rx_conf, rte_eth_dcb_rx_conf_default); (rte_eth_vmdq_dcb_tx_conf,
   rte_eth_vmdq_dcb_tx_conf_default); (rte_eth_dcb_tx_conf, rte_eth_dcb_tx_conf_default);
   (rte_eth_vmdq_tx_conf, rte_eth_vmdq_tx_conf_default); (rte_eth_vmdq_dcb_conf,
   rte_eth_vmdq_dcb_conf_default); (rte_eth_vmdq_rx_conf, rte_eth_vmdq_rx_conf_default);
   (rte_eth_txmode, rte_eth_txmode_default); (rte_eth_rxconf, rte_eth_rxconf_default); (rte_eth_txconf,
   rte_eth_txconf_default); (rte_eth_fc_conf, rte_eth_fc_conf_default); (rte_eth_pfc_conf,
   rte_eth_pfc_conf_default); (rte_higig2_hdr__bindgen_ty_1, rte_higig2_hdr__bindgen_ty_1_default);
   (rte_higig2_hdr, rte_higig2_hdr_default); (rte_mbuf_dynfield, rte_mbuf_dynfield_default);
   (rte_mbuf_dynflag, rte_mbuf_dynflag_default); (rte_flow_item_higig2_hdr,
   rte_flow_item_higig2_hdr_default); (rte_flow_item_raw, rte_flow_item_raw_default); (rte_flow_item,
   rte_flow_item_default); (rte_flow_action_rss, rte_flow_action_rss_default);
   (rte_flow_action_security, rte_flow_action_security_default); (rte_flow_action_vxlan_encap,
   rte_flow_action_vxlan_encap_default); (rte_flow_action_nvgre_encap,
   rte_flow_action_nvgre_encap_default); (rte_flow_action_raw_encap,
   rte_flow_action_raw_encap_default); (rte_flow_action_raw_decap, rte_flow_action_raw_decap_default);
   (rte_flow_action, rte_flow_action_default); (rte_flow_error, rte_flow_error_default);
   (rte_flow_conv_rule__bindgen_ty_1, rte_flow_conv_rule__bindgen_ty_1_default);
   (rte_flow_conv_rule__bindgen_ty_2, rte_flow_conv_rule__bindgen_ty_2_default);
   (rte_flow_conv_rule__bindgen_ty_3, rte_flow_conv_rule__bindgen_ty_3_default); (rte_flow_conv_rule,
   rte_flow_conv_rule_default); (rte_flow_desc, rte_flow_desc_default); (rte_eth_mac_filter,
   rte_eth_mac_filter_default); (rte_eth_flex_filter, rte_eth_flex_filter_default);
   (rte_eth_tunnel_filter_conf__bindgen_ty_1, rte_eth_tunnel_filter_conf__bindgen_ty_1_default);
   (rte_eth_tunnel_filter_conf, rte_eth_tunnel_filter_conf_default); (rte_eth_global_cfg__bindgen_ty_1,
   rte_eth_global_cfg__bindgen_ty_1_default); (rte_eth_global_cfg, rte_eth_global_cfg_default);
   (rte_eth_input_set_conf, rte_eth_input_set_conf_default); (rte_eth_tunnel_flow,
   rte_eth_tunnel_flow_default); (rte_eth_fdir_flow, rte_eth_fdir_flow_default); (rte_eth_fdir_input,
   rte_eth_fdir_input_default); (rte_eth_fdir_action, rte_eth_fdir_action_default);
   (rte_eth_fdir_filter, rte_eth_fdir_filter_default); (rte_eth_flex_payload_cfg,
   rte_eth_flex_payload_cfg_default); (rte_eth_fdir_flex_conf, rte_eth_fdir_flex_conf_default);
   (rte_eth_fdir_info, rte_eth_fdir_info_default); (rte_eth_fdir_filter_info__bindgen_ty_1,
   rte_eth_fdir_filter_info__bindgen_ty_1_default); (rte_eth_fdir_filter_info,
   rte_eth_fdir_filter_info_default); (rte_eth_hash_global_conf, rte_eth_hash_global_conf_default);
   (rte_eth_hash_filter_info__bindgen_ty_1, rte_eth_hash_filter_info__bindgen_ty_1_default);
   (rte_eth_hash_filter_info, rte_eth_hash_filter_info_default); (rte_eth_l2_tunnel_conf,
   rte_eth_l2_tunnel_conf_default); (rte_fdir_conf, rte_fdir_conf_default);
   (rte_eth_conf__bindgen_ty_1, rte_eth_conf__bindgen_ty_1_default); (rte_eth_conf__bindgen_ty_2,
   rte_eth_conf__bindgen_ty_2_default); (rte_eth_switch_info, rte_eth_switch_info_default);
   (rte_eth_dev_info, rte_eth_dev_info_default); (rte_eth_rxq_info, rte_eth_rxq_info_default);
   (rte_eth_txq_info, rte_eth_txq_info_default); (rte_eth_burst_mode, rte_eth_burst_mode_default);
   (rte_eth_xstat_name, rte_eth_xstat_name_default); (rte_eth_dcb_tc_queue_mapping,
   rte_eth_dcb_tc_queue_mapping_default); (rte_eth_dcb_info, rte_eth_dcb_info_default);
   (rte_eth_dev_owner, rte_eth_dev_owner_default); (rte_eth_dev_tx_buffer,
   rte_eth_dev_tx_buffer_default); (rte_eth_event_ipsec_desc, rte_eth_event_ipsec_desc_default);
   (rte_eth_dev_cb_list, rte_eth_dev_cb_list_default); (rte_eth_rxtx_callback__bindgen_ty_1,
   rte_eth_rxtx_callback__bindgen_ty_1_default); (rte_eth_rxtx_callback,
   rte_eth_rxtx_callback_default); (rte_eth_dev, rte_eth_dev_default); (rte_eth_dev_data,
   rte_eth_dev_data_default); (rte_kni_request__bindgen_ty_1, rte_kni_request__bindgen_ty_1_default);
   (rte_kni_request, rte_kni_request_default); (rte_kni_fifo, rte_kni_fifo_default); (rte_kni_mbuf,
   rte_kni_mbuf_default); (rte_kni_device_info, rte_kni_device_info_default); (bitmask,
   bitmask_default); (bpf_program, bpf_program_default); (pcap_if, pcap_if_default); (pcap_addr,
   pcap_addr_default); (__va_list_tag, __va_list_tag_default); (Bindings.rte_eth_conf,
   rte_eth_conf_default)].

(** Each is memory of the size of its type in which every field reads as zeros. *)
Lemma defaults_zero : Forall (fun '(l, mem) => Z.of_nat (length mem) = size l /\
  forall f, inside (size l) f -> read_int f mem = 0) defaults.
Proof.
  assert (Forall (fun '(l, mem) => mem = zeroed l /\ (0 <=? size l) = true) defaults) as H.
  { repeat (constructor; [split; [reflexivity|by vm_compute]|]). constructor. }
  eapply Forall_impl; [exact H|]. intros [l mem] [-> Hl]. split.
  - unfold zeroed. rewrite length_replicate. lia.
  - intros f Hf. unfold read_int. rewrite zeroed_read by done. apply le_zeros.
Qed.

(** ** What [finish] leaves *)

(** An integer inside the configuration, as C reads it *)
Definition conf_int (path : list (layout * string)) (mem : list Z) : option Z :=
  match EthConf.place path with Some f => Some (read_int f mem) | None => None end.

(** The place is inside the configuration and none of the three that [finish] writes to. *)
Definition elsewhere (f : field) : bool :=
  (0 <=? field_offset f) && (0 <=? field_size f) && (field_offset f + field_size f <=? size Bindings.rte_eth_conf) &&
  forallb (fun g => (field_offset g + field_size g <=? field_offset f) ||
                    (field_offset f + field_size f <=? field_offset g)) set_fields.

Lemma elsewhere_zero b f : elsewhere f = true ->
  read_field f (finish_conf b) = replicate (Z.to_nat (field_size f)) 0.
Proof.
  intros [[[H0 H1]%andb_prop H2]%andb_prop H]%andb_prop. destruct (finish_conf_of b) as [_ _ R]. apply R.
  - unfold inside. lia.
  - apply Forall_forall. intros g Hg%list_elem_of_In. rewrite forallb_forall in H.
    specialize (H g Hg). unfold apart. lia.
Qed.

Lemma conf_int_zero b path : option_map elsewhere (EthConf.place path) = Some true ->
  conf_int path (finish_conf b) = Some 0.
Proof.
  unfold conf_int. destruct (EthConf.place path) as [f|]; [|done]. cbn [option_map]. intros [= E].
  unfold read_int. by rewrite elsewhere_zero, le_zeros.
Qed.

Lemma unit_at_zero b path n : option_map (fun f => (elsewhere f, field_size f)) (EthConf.place path) = Some (true, n) ->
  unit_at path (finish_conf b) = replicate (Z.to_nat n) 0.
Proof.
  unfold unit_at. destruct (EthConf.place path) as [f|]; [|done]. cbn [option_map]. intros [= E <-].
  by apply elsewhere_zero.
Qed.

#[local] Open Scope string_scope.

Definition rxmode (n : string) := [(Bindings.rte_eth_conf, "rxmode"); (rte_eth_rxmode, n)].
Definition txmode (n : string) := [(Bindings.rte_eth_conf, "txmode"); (rte_eth_txmode, n)].
Definition fdir_conf (n : string) := [(Bindings.rte_eth_conf, "fdir_conf"); (rte_fdir_conf, n)].
Definition rss_conf (n : string) :=
  [(Bindings.rte_eth_conf, "rx_adv_conf"); (rte_eth_conf__bindgen_ty_1, "rss_conf"); (rte_eth_rss_conf, n)].
Definition dcb_rx_conf (n : string) :=
  [(Bindings.rte_eth_conf, "rx_adv_conf"); (rte_eth_conf__bindgen_ty_1, "dcb_rx_conf"); (rte_eth_dcb_rx_conf, n)].
Definition intr_conf (n : string) := [(Bindings.rte_eth_conf, "intr_conf"); (rte_intr_conf, n)].

Ltac zero := by rewrite conf_int_zero by (by vm_compute).

(** A bit of a unit that is zero, in every build *)
Ltac zero_flags :=
  rewrite (unit_at_zero _ _ 1) by (by vm_compute);
  match goal with H : Profile |- _ => destruct H end; repeat constructor.

(** C24: Whatever the device and the cores, the configuration that [finish] passes to DPDK asks for
    autonegotiation of the speed, no receive offload, no multi-queue mode for transmitting, no
    flow director, no key for the hash, no loopback, no VLAN that is refused or inserted, and no
    interrupt; the receive mode is RSS with more than one core and none otherwise. The zero in the
    number of traffic classes is no enumerator: it is right only because that mode is off. *)
Theorem left_at_default `{Profile} b :
  let mem := finish_conf b in
  let named e path := o ← conf_int path mem; name_of e o in
  conf_int [(Bindings.rte_eth_conf, "link_speeds")] mem = Some ETH_LINK_SPEED_AUTONEG /\
  Forall (fun n => conf_int (rxmode n) mem = Some 0) ["max_rx_pkt_len"; "max_lro_pkt_size"; "split_hdr_size"; "offloads"] /\
  named Enums.rte_eth_rx_mq_mode (rxmode "mq_mode") =
    Some (if decide (1 < wrap 16 (len (b_cores b))) then "ETH_MQ_RX_RSS" else "ETH_MQ_RX_NONE") /\
  named Enums.rte_eth_tx_mq_mode (txmode "mq_mode") = Some "ETH_MQ_TX_NONE" /\
  named Enums.rte_fdir_mode (fdir_conf "mode") = Some "RTE_FDIR_MODE_NONE" /\
  conf_int (rss_conf "rss_key") mem = Some 0 /\ conf_int [(Bindings.rte_eth_conf, "lpbk_mode")] mem = Some 0 /\
  Forall (fun flag => flag (unit_at (txmode "_bitfield_1") mem) = Ret 0)
    [hw_vlan_reject_tagged; hw_vlan_reject_untagged; hw_vlan_insert_pvid] /\
  Forall (fun flag => flag (unit_at (intr_conf "_bitfield_1") mem) = Ret 0) [lsc; Bitfields.rxq; rmv] /\
  conf_int (dcb_rx_conf "nb_tcs") mem = Some 0 /\ name_of Enums.rte_eth_nb_tcs 0 = None.
Proof.
  intros mem named. subst mem named. cbv beta.
  split; [zero|]. split; [repeat (constructor; [zero|]); constructor|].
  split; [|do 4 (split; [zero|]); split; [zero_flags|]; split; [zero_flags|]; by split; [zero|]].
  assert (conf_int (rxmode "mq_mode") (finish_conf b) = Some (mq_mode (eth_conf b))) as ->.
  { destruct (finish_conf_of b) as [_ V _]. cbn [map set_fields] in V. apply (f_equal hd_error) in V.
    unfold conf_int. change (EthConf.place (rxmode "mq_mode")) with MQ_MODE. by destruct places as (-> & _ & _). }
  unfold eth_conf. cbn [mq_mode mbind option_bind]. destruct (decide _) as [E|E].
  - by replace (1 <? wrap 16 (len (b_cores b)))%Z with true by lia.
  - by replace (1 <? wrap 16 (len (b_cores b)))%Z with false by lia.
Qed.

#[local] Close Scope string_scope.
