(* ===== verification/RoutingTable.v ===== *)
(** * The routing table ([net/routing_table.rs])

    Two maps, each behind a reader-writer lock of [crossbeam]. The locks are an interface:
    taking one may never return, and answers whether the lock is poisoned; the guards are
    explicit, so that a function that takes a lock it already holds can be seen. *)

From S2P Require Import Prelude RustStr IpAddr MacAddr.

(** ** [ShardedLock] *)

(** [sl_read] and [sl_write] answer [true] when the lock is not poisoned. *)
Class ShardedLock (L : Type -> Type) := {
  sl_read : forall {A}, L A -> outcome (bool * L A);
  sl_write : forall {A}, L A -> outcome (bool * L A);
  sl_end_read : forall {A}, L A -> L A;
  sl_end_write : forall {A}, L A -> L A;
  sl_value : forall {A}, L A -> A;
  sl_put : forall {A}, A -> L A -> L A;
}.

(** Its documentation: a free lock can be taken and given back; a thread that holds it for
    writing and asks to read does not get an answer, it waits for itself or panics. *)
Class ShardedLockLaws (L : Type -> Type) `{ShardedLock L} (free : forall A, L A -> Prop)
    (sound : forall A, L A -> bool) := {
  sl_read_free : forall A (l : L A), free A l -> exists l',
    sl_read l = Ret (sound A l, l') /\ sl_value l' = sl_value l /\ sl_end_read l' = l;
  sl_write_free : forall A (l : L A), free A l -> exists l',
    sl_write l = Ret (sound A l, l') /\ sl_value l' = sl_value l /\ sl_end_write l' = l
    /\ (forall r, sl_read l' <> Ret r);
}.

(** ** The table *)

Section table.
Context {L : Type -> Type} `{!ShardedLock L}.

Record RoutingTable := {
  mac_table : L (gmap MacAddr Ipv4Addr);
  ip_table : L (gmap Ipv4Addr MacAddr);
}.

Definition set_mac_table l t := {| mac_table := l; ip_table := ip_table t |}.
Definition set_ip_table l t := {| mac_table := mac_table t; ip_table := l |}.

(** Runs [f] on one of the locks. *)
Definition on_mac {A} (f : L (gmap MacAddr Ipv4Addr) -> outcome (A * L (gmap MacAddr Ipv4Addr)))
    : M RoutingTable A :=
  fun t => r ← f (mac_table t); Ret (r.1, set_mac_table r.2 t).
Definition on_ip {A} (f : L (gmap Ipv4Addr MacAddr) -> outcome (A * L (gmap Ipv4Addr MacAddr)))
    : M RoutingTable A :=
  fun t => r ← f (ip_table t); Ret (r.1, set_ip_table r.2 t).

(** [if let Ok(table) = lock.read() { f(table) } else { otherwise }]: the guard, in the
    [Result] or in its error, is dropped at the end. *)
Definition reading {A B} (f : A -> B) (otherwise : B) (l : L A) : outcome (B * L A) :=
  r ← sl_read l;
  let '(ok, l) := (r : bool * L A) in
  Ret ((if ok : bool then f (sl_value l) else otherwise), sl_end_read l).

Definition contains_mac (mac : MacAddr) : M RoutingTable bool :=
  on_mac (reading (fun t => bool_decide (is_Some (t !! mac))) false).

Definition contains_ip (ip : Ipv4Addr) : M RoutingTable bool :=
  on_ip (reading (fun t => bool_decide (is_Some (t !! ip))) false).

Definition get_mac (ip : Ipv4Addr) : M RoutingTable (option MacAddr) :=
  on_ip (reading (fun t => t !! ip) None).

Definition get_ip (mac : MacAddr) : M RoutingTable (option Ipv4Addr) :=
  on_mac (reading (fun t => t !! mac) None).

Definition insert_mac (mac : MacAddr) (ip : Ipv4Addr) : M RoutingTable unit :=
  on_mac (fun l => Ret (tt, sl_put (<[mac := ip]> (sl_value l)) l)).
Definition insert_ip (ip : Ipv4Addr) (mac : MacAddr) : M RoutingTable unit :=
  on_ip (fun l => Ret (tt, sl_put (<[ip := mac]> (sl_value l)) l)).

Definition add (mac : MacAddr) (ip : Ipv4Addr) : M RoutingTable unit :=
  ok ← on_mac sl_write;
  _ ← (if ok : bool then
         ok ← on_ip sl_write;
         _ ← (if ok : bool then
                has_mac ← contains_mac mac;
                update ← (if negb has_mac then mret true
                          else has_ip ← contains_ip ip; mret (negb has_ip));
                if update : bool then _ ← insert_mac mac ip; insert_ip ip mac else mret tt
              else mret tt);
         on_ip (fun l => Ret (tt, sl_end_write l))
       else mret tt);
  on_mac (fun l => Ret (tt, sl_end_write l)).

(** ** What the table does *)

Section laws.
Context {free : forall A, L A -> Prop} {sound : forall A, L A -> bool}.
Context `{!ShardedLockLaws L free sound}.

Lemma reading_free {A B} (f : A -> B) otherwise (l : L A) :
  free _ l -> reading f otherwise l = Ret (if sound _ l then f (sl_value l) else otherwise, l).
Proof.
  intros Hf. destruct (sl_read_free _ l Hf) as (l' & E & Hv & He).
  unfold reading. rewrite E. cbn. by rewrite Hv, He.
Qed.

(** While no thread holds the locks, a look-up answers what the table holds, leaves the
    locks free and the table unchanged; behind a poisoned lock every address is unknown. *)
Theorem lookups_spec mac ip t :
  free _ (mac_table t) -> free _ (ip_table t) ->
  get_ip mac t = Ret (if sound _ (mac_table t) then sl_value (mac_table t) !! mac else None, t)
  /\ get_mac ip t = Ret (if sound _ (ip_table t) then sl_value (ip_table t) !! ip else None, t)
  /\ (exists b, contains_mac mac t = Ret (b, t)
        /\ (b = true <-> sound _ (mac_table t) = true /\ is_Some (sl_value (mac_table t) !! mac)))
  /\ (exists b, contains_ip ip t = Ret (b, t)
        /\ (b = true <-> sound _ (ip_table t) = true /\ is_Some (sl_value (ip_table t) !! ip))).
Proof.
  intros Hm Hi. unfold get_ip, get_mac, contains_mac, contains_ip, on_mac, on_ip.
  rewrite !reading_free by done. destruct t as [lm li]. cbn. split_and!; [done..| |];
    (eexists; split; [done|]; case_match; [rewrite bool_decide_eq_true; tauto|by split; [|intros []]]).
Qed.

(** [add] never returns when both locks are free and sound, whatever the table holds: it
    keeps both write guards while it looks the addresses up in the same locks. It does return,
    with the table unchanged, when one of the locks is poisoned. *)
Theorem add_never_returns mac ip t :
  free _ (mac_table t) -> free _ (ip_table t) ->
  if sound _ (mac_table t) && sound _ (ip_table t)
  then forall r, add mac ip t <> Ret r
  else add mac ip t = Ret (tt, t).
Proof.
  intros Hm Hi. destruct t as [lm li]. cbn in *.
  destruct (sl_write_free _ lm Hm) as (lm' & Em & _ & Um & Rm).
  destruct (sl_write_free _ li Hi) as (li' & Ei & _ & Ui & _).
  assert (E1 : on_mac sl_write {| mac_table := lm; ip_table := li |}
    = Ret (sound _ lm, {| mac_table := lm'; ip_table := li |})) by (unfold on_mac; cbn; by rewrite Em).
  assert (E2 : on_ip sl_write {| mac_table := lm'; ip_table := li |}
    = Ret (sound _ li, {| mac_table := lm'; ip_table := li' |})) by (unfold on_ip; cbn; by rewrite Ei).
  unfold add. step E1. destruct (sound _ lm); cbn [andb].
  - rewrite bind_assoc. step E2. destruct (sound _ li).
    + rewrite !bind_assoc. unfold mbind, M_bind at 1, contains_mac, on_mac, reading. cbn.
      intros [u t'] E. destruct (sl_read lm') as [r| | | |] eqn:Er; try discriminate E.
      by destruct (Rm r).
    + done_step. unfold mbind, M_bind, on_ip, on_mac. cbn. unfold set_mac_table, set_ip_table. cbn.
      by rewrite Um, Ui.
  - done_step. unfold on_mac. cbn. unfold set_mac_table. cbn. by rewrite Um.
Qed.

End laws.

End table.

(** ** A lock *)

Record simple_lock (A : Type) := {
  value : A;
  writer : bool;
  readers : nat;
  poisoned : bool;
}.
Arguments value {A}.
Arguments writer {A}.
Arguments readers {A}.
Arguments poisoned {A}.

#[global] Instance simple_lock_ShardedLock : ShardedLock simple_lock := {|
  sl_read A l := if writer l then Blocked
    else Ret (negb (poisoned l), Build_simple_lock A (value l) false (S (readers l)) (poisoned l));
  sl_write A l := if writer l then Blocked else match readers l with
    | O => Ret (negb (poisoned l), Build_simple_lock A (value l) true O (poisoned l))
    | _ => Blocked
    end;
  sl_end_read A l := Build_simple_lock A (value l) (writer l) (pred (readers l)) (poisoned l);
  sl_end_write A l := Build_simple_lock A (value l) false (readers l) (poisoned l);
  sl_value A l := value l;
  sl_put A a l := Build_simple_lock A a (writer l) (readers l) (poisoned l);
|}.

#[local] Instance simple_lock_laws : ShardedLockLaws simple_lock
  (fun A l => writer l = false /\ readers l = O) (fun A l => negb (poisoned l)).
Proof.
  split; intros A [v w r p]; cbn; intros [-> ->]; eexists; split_and!; done.
Qed.

Definition unlocked {A} (a : A) (p : bool) : simple_lock A := Build_simple_lock A a false O p.

Definition some_mac : MacAddr := MacAddr.new 2 0 0 0 0 1.
Definition some_table (p : bool) : RoutingTable (L := simple_lock) :=
  {| mac_table := unlocked {[ some_mac := v4_new 10 0 0 1 ]} p;
     ip_table := unlocked {[ v4_new 10 0 0 1 := some_mac ]} false |}.

Lemma lookups_spec_witness :
  get_ip some_mac (some_table false) = Ret (Some (v4_new 10 0 0 1), some_table false)
  /\ get_ip some_mac (some_table true) = Ret (None, some_table true).
Proof.
  split.
  - exact (proj1 (lookups_spec (L := simple_lock) some_mac (v4_new 10 0 0 1) (some_table false)
      (conj eq_refl eq_refl) (conj eq_refl eq_refl))).
  - exact (proj1 (lookups_spec (L := simple_lock) some_mac (v4_new 10 0 0 1) (some_table true)
      (conj eq_refl eq_refl) (conj eq_refl eq_refl))).
Defined.

Lemma add_never_returns_witness :
  (forall r, add some_mac (v4_new 10 0 0 9) (some_table false) <> Ret r)
  /\ add some_mac (v4_new 10 0 0 9) (some_table true) = Ret (tt, some_table true).
Proof.
  split.
  - exact (add_never_returns (L := simple_lock) some_mac (v4_new 10 0 0 9) (some_table false)
      (conj eq_refl eq_refl) (conj eq_refl eq_refl)).
  - exact (add_never_returns (L := simple_lock) some_mac (v4_new 10 0 0 9) (some_table true)
      (conj eq_refl eq_refl) (conj eq_refl eq_refl)).
Defined.
