(* ===== verification/TableThreads.v ===== *)
(** * The routing table between threads ([net/routing_table.rs])

    [RoutingTable] runs each method alone. Here a method is a task whose calls on the two
    locks happen one at a time, so that the methods of many threads interleave, with the
    guards a thread holds, which it drops when a call panics. *)

From stdpp Require Import relations gmultiset.
From S2P Require Import Prelude IpAddr MacAddr Threads RoutingTable.

(** ** [ShardedLock] between threads *)

(** A call of thread [i] gets the lock, [ok] when it is not poisoned, has to wait, or panics. *)
Inductive answer (X : Type) :=
  | Granted (ok : bool) (l : X)
  | Waits
  | Panics.
Arguments Granted {X} ok l.
Arguments Waits {X}.
Arguments Panics {X}.

Class SharedLock (L : Type -> Type) := {
  try_read : forall {A}, nat -> L A -> answer (L A);
  try_write : forall {A}, nat -> L A -> answer (L A);
  end_read : forall {A}, nat -> L A -> L A;
  (** whether the thread is panicking *)
  end_write : forall {A}, bool -> L A -> L A;
  contents : forall {A}, L A -> A;
  replace : forall {A}, A -> L A -> L A;
}.

(** Who holds a lock *)
Record lock_view := {
  holder : option nat;
  sharers : gmultiset nat;
  broken : bool;
}.

(** Its documentation: readers share the lock and a writer has it alone; a call that cannot have
    the lock blocks the thread, and might panic when the thread holds the lock itself; a lock is
    poisoned when a thread panics while it holds it for writing. *)
Class SharedLockLaws (L : Type -> Type) `{SharedLock L} (view : forall {A}, L A -> lock_view) := {
  try_read_law : forall A i (l : L A), match holder (view l) with
    | None => exists l', try_read i l = Granted (negb (broken (view l))) l' /\ contents l' = contents l /\
        view l' = {| holder := None; sharers := {[+ i +]} ⊎ sharers (view l); broken := broken (view l) |}
    | Some j => try_read i l = Waits \/ i = j /\ try_read i l = Panics
    end;
  try_write_law : forall A i (l : L A), if decide (holder (view l) = None /\ sharers (view l) = ∅)
    then exists l', try_write i l = Granted (negb (broken (view l))) l' /\ contents l' = contents l /\
        view l' = {| holder := Some i; sharers := ∅; broken := broken (view l) |}
    else try_write i l = Waits \/
         (holder (view l) = Some i \/ i ∈ sharers (view l)) /\ try_write i l = Panics;
  end_read_law : forall A i (l : L A), i ∈ sharers (view l) -> contents (end_read i l) = contents l /\
    view (end_read i l) =
      {| holder := holder (view l); sharers := sharers (view l) ∖ {[+ i +]}; broken := broken (view l) |};
  end_write_law : forall A p (l : L A), is_Some (holder (view l)) -> contents (end_write p l) = contents l /\
    view (end_write p l) = {| holder := None; sharers := sharers (view l); broken := broken (view l) || p |};
}.

(** ** Tasks *)

Inductive table_id := MacTable | IpTable.
Inductive mode := Shared | Exclusive.
Definition guard : Type := table_id * mode.

#[global] Instance table_id_eq_dec : EqDecision table_id.
Proof. solve_decision. Defined.
#[global] Instance mode_eq_dec : EqDecision mode.
Proof. solve_decision. Defined.

(** A [HashMap] behind a guard is searched and added to; [Drop true] drops a guard of a thread
    that panics, which ends as [Unwound]. *)
Inductive task (A : Type) :=
  | Done (a : A)
  | Unwound
  | Lock (g : guard) (k : bool -> task A)
  | Drop (panicking : bool) (g : guard) (k : task A)
  | LookMac (mac : MacAddr) (k : option Ipv4Addr -> task A)
  | LookIp (ip : Ipv4Addr) (k : option MacAddr -> task A)
  | InsertMac (mac : MacAddr) (ip : Ipv4Addr) (k : task A)
  | InsertIp (ip : Ipv4Addr) (mac : MacAddr) (k : task A).
Arguments Done {A} a.
Arguments Unwound {A}.
Arguments Lock {A} g k.
Arguments Drop {A} panicking g k.
Arguments LookMac {A} mac k.
Arguments LookIp {A} ip k.
Arguments InsertMac {A} mac ip k.
Arguments InsertIp {A} ip mac k.

#[global] Instance task_ret : MRet task := @Done.
#[global] Instance task_bind : MBind task := fun A B f =>
  fix bind m :=
    match m with
    | Done a => f a
    | Unwound => Unwound
    | Lock g k => Lock g (fun ok => bind (k ok))
    | Drop p g k => Drop p g (bind k)
    | LookMac mac k => LookMac mac (fun r => bind (k r))
    | LookIp ip k => LookIp ip (fun r => bind (k r))
    | InsertMac mac ip k => InsertMac mac ip (bind k)
    | InsertIp ip mac k => InsertIp ip mac (bind k)
    end.

(** [if let Ok(table) = lock { body }]: the guard, in the [Result] or in its error, is dropped at
    the end. *)
Definition with_guard {A} (g : guard) (body : bool -> task A) : task A :=
  Lock g (fun ok => a ← body ok; Drop false g (Done a)).

Definition contains_mac_task (mac : MacAddr) : task bool :=
  with_guard (MacTable, Shared) (fun ok =>
    if ok : bool then LookMac mac (fun r => Done (bool_decide (is_Some r))) else Done false).

Definition contains_ip_task (ip : Ipv4Addr) : task bool :=
  with_guard (IpTable, Shared) (fun ok =>
    if ok : bool then LookIp ip (fun r => Done (bool_decide (is_Some r))) else Done false).

Definition get_mac_task (ip : Ipv4Addr) : task (option MacAddr) :=
  with_guard (IpTable, Shared) (fun ok => if ok : bool then LookIp ip Done else Done None).

Definition get_ip_task (mac : MacAddr) : task (option Ipv4Addr) :=
  with_guard (MacTable, Shared) (fun ok => if ok : bool then LookMac mac Done else Done None).

Definition add_task (mac : MacAddr) (ip : Ipv4Addr) : task unit :=
  with_guard (MacTable, Exclusive) (fun ok =>
    if ok : bool then
      with_guard (IpTable, Exclusive) (fun ok =>
        if ok : bool then
          has_mac ← contains_mac_task mac;
          update ← (if negb has_mac then mret true
                    else has_ip ← contains_ip_task ip; mret (negb has_ip));
          if update : bool then InsertMac mac ip (InsertIp ip mac (Done tt)) else mret tt
        else mret tt)
    else mret tt).

(** A call of a method, and what it answers *)
Inductive request :=
  | Add (mac : MacAddr) (ip : Ipv4Addr)
  | ContainsMac (mac : MacAddr)
  | ContainsIp (ip : Ipv4Addr)
  | GetMac (ip : Ipv4Addr)
  | GetIp (mac : MacAddr).

Inductive reply :=
  | Nothing
  | Contains (b : bool)
  | FoundMac (mac : option MacAddr)
  | FoundIp (ip : option Ipv4Addr).

Definition task_of (q : request) : task reply :=
  match q with
  | Add mac ip => _ ← add_task mac ip; mret Nothing
  | ContainsMac mac => b ← contains_mac_task mac; mret (Contains b)
  | ContainsIp ip => b ← contains_ip_task ip; mret (Contains b)
  | GetMac ip => r ← get_mac_task ip; mret (FoundMac r)
  | GetIp mac => r ← get_ip_task mac; mret (FoundIp r)
  end.

Section threads.
Context {L : Type -> Type} `{HL : !SharedLock L}.

Abbreviation Table := (RoutingTable (L := L)).

Definition map_answer {X Y} (f : X -> Y) (a : answer X) : answer Y :=
  match a with Granted ok l => Granted ok (f l) | Waits => Waits | Panics => Panics end.

Definition try_lock {A} (m : mode) (i : nat) (l : L A) : answer (L A) :=
  match m with Shared => try_read i l | Exclusive => try_write i l end.
Definition end_lock {A} (p : bool) (m : mode) (i : nat) (l : L A) : L A :=
  match m with Shared => end_read i l | Exclusive => end_write p l end.

Definition lock_call (g : guard) (i : nat) (t : Table) : answer Table :=
  match g.1 with
  | MacTable => map_answer (fun l => set_mac_table l t) (try_lock g.2 i (mac_table t))
  | IpTable => map_answer (fun l => set_ip_table l t) (try_lock g.2 i (ip_table t))
  end.
Definition drop_guard (p : bool) (g : guard) (i : nat) (t : Table) : Table :=
  match g.1 with
  | MacTable => set_mac_table (end_lock p g.2 i (mac_table t)) t
  | IpTable => set_ip_table (end_lock p g.2 i (ip_table t)) t
  end.

(** A thread, with its guards, the innermost first *)
Record thread := { running : task reply; guards : list guard }.

Definition unwind (gs : list guard) : task reply := foldr (Drop true) Unwound gs.

Definition exec (i : nat) (th : thread) (t : Table) : option (thread * Table) :=
  match running th with
  | Done _ | Unwound => None
  | Lock g k =>
      match lock_call g i t with
      | Granted ok t => Some ({| running := k ok; guards := g :: guards th |}, t)
      | Waits => None
      | Panics => Some ({| running := unwind (guards th); guards := guards th |}, t)
      end
  | Drop p g k => Some ({| running := k; guards := tail (guards th) |}, drop_guard p g i t)
  | LookMac mac k => Some ({| running := k (contents (mac_table t) !! mac); guards := guards th |}, t)
  | LookIp ip k => Some ({| running := k (contents (ip_table t) !! ip); guards := guards th |}, t)
  | InsertMac mac ip k => Some ({| running := k; guards := guards th |},
      set_mac_table (replace (<[mac := ip]> (contents (mac_table t))) (mac_table t)) t)
  | InsertIp ip mac k => Some ({| running := k; guards := guards th |},
      set_ip_table (replace (<[ip := mac]> (contents (ip_table t))) (ip_table t)) t)
  end.

Definition step : list thread * Table -> list thread * Table -> Prop := threads_step exec.
Definition run_schedule : list nat -> list thread * Table -> list thread * Table := run_threads exec.

Definition start (q : request) : thread := {| running := task_of q; guards := [] |}.

(** ** Alone, a task is the method *)

(** The lock as [RoutingTable] has it, for thread [i] *)
Definition wait_for {A} (a : answer (L A)) : outcome (bool * L A) :=
  match a with Granted ok l => Ret (ok, l) | Waits => Blocked | Panics => Panic LockReentered end.

#[local] Instance lock_of (i : nat) : ShardedLock L := {|
  sl_read A l := wait_for (try_read i l);
  sl_write A l := wait_for (try_write i l);
  sl_end_read A l := end_read i l;
  sl_end_write A l := end_write false l;
  sl_value A l := contents l;
  sl_put A a l := replace a l;
|}.

Fixpoint run_alone {A} (i : nat) (m : task A) (t : Table) : outcome (A * Table) :=
  match m with
  | Done a => Ret (a, t)
  | Unwound => Panic LockReentered
  | Lock g k =>
      match lock_call g i t with
      | Granted ok t => run_alone i (k ok) t
      | Waits => Blocked
      | Panics => Panic LockReentered
      end
  | Drop p g k => run_alone i k (drop_guard p g i t)
  | LookMac mac k => run_alone i (k (contents (mac_table t) !! mac)) t
  | LookIp ip k => run_alone i (k (contents (ip_table t) !! ip)) t
  | InsertMac mac ip k =>
      run_alone i k (set_mac_table (replace (<[mac := ip]> (contents (mac_table t))) (mac_table t)) t)
  | InsertIp ip mac k =>
      run_alone i k (set_ip_table (replace (<[ip := mac]> (contents (ip_table t))) (ip_table t)) t)
  end.

(** The method of a request, in [RoutingTable] *)
Definition method (i : nat) (q : request) : M Table reply :=
  match q with
  | Add mac ip => _ ← add (ShardedLock0 := lock_of i) mac ip; mret Nothing
  | ContainsMac mac => b ← contains_mac (ShardedLock0 := lock_of i) mac; mret (Contains b)
  | ContainsIp ip => b ← contains_ip (ShardedLock0 := lock_of i) ip; mret (Contains b)
  | GetMac ip => r ← get_mac (ShardedLock0 := lock_of i) ip; mret (FoundMac r)
  | GetIp mac => r ← get_ip (ShardedLock0 := lock_of i) mac; mret (FoundIp r)
  end.

Lemma run_table_bind {A B} i (m : task A) (f : A -> task B) : forall t,
  run_alone i (m ≫= f) t = (r ← run_alone i m t; run_alone i (f r.1) r.2).
Proof.
  induction m as [a| |g k IH|p g k IH|mac k IH|ip k IH|mac ip k IH|ip mac k IH]; intros t; cbn; auto.
  destruct (lock_call g i t); [apply IH|done|done].
Qed.

(** [m] does to the table what the computation [f] does. *)
Definition simulates {A} (i : nat) (m : task A) (f : M Table A) : Prop := forall t, run_alone i m t = f t.

Lemma simulates_value {A} i (a : A) : simulates i (mret a) (mret a).
Proof. done. Qed.

Lemma simulates_then {A B} i m f (k : A -> task B) g :
  simulates i m f -> (forall a, simulates i (k a) (g a)) -> simulates i (m ≫= k) (f ≫= g).
Proof.
  intros Hm Hk t. rewrite run_table_bind, (Hm t). unfold mbind, M_bind, outcome_bind.
  destruct (f t) as [[a t']| | | |]; [apply Hk|done..].
Qed.

(** A look-up under its guard *)
Lemma simulates_contains_mac i mac :
  simulates i (contains_mac_task mac) (contains_mac (ShardedLock0 := lock_of i) mac).
Proof.
  intros t. unfold contains_mac_task, contains_mac, with_guard, on_mac, reading, lock_call. cbn.
  destruct (try_read i (mac_table t)) as [[]l| |]; reflexivity.
Qed.

Lemma simulates_contains_ip i ip :
  simulates i (contains_ip_task ip) (contains_ip (ShardedLock0 := lock_of i) ip).
Proof.
  intros t. unfold contains_ip_task, contains_ip, with_guard, on_ip, reading, lock_call. cbn.
  destruct (try_read i (ip_table t)) as [[]l| |]; reflexivity.
Qed.

Lemma simulates_get_mac i ip : simulates i (get_mac_task ip) (get_mac (ShardedLock0 := lock_of i) ip).
Proof.
  intros t. unfold get_mac_task, get_mac, with_guard, on_ip, reading, lock_call. cbn.
  destruct (try_read i (ip_table t)) as [[]l| |]; reflexivity.
Qed.

Lemma simulates_get_ip i mac : simulates i (get_ip_task mac) (get_ip (ShardedLock0 := lock_of i) mac).
Proof.
  intros t. unfold get_ip_task, get_ip, with_guard, on_mac, reading, lock_call. cbn.
  destruct (try_read i (mac_table t)) as [[]l| |]; reflexivity.
Qed.

Lemma simulates_write_mac i (body : bool -> task unit) f : (forall ok, simulates i (body ok) (f ok)) ->
  simulates i (with_guard (MacTable, Exclusive) body)
    (ok ← on_mac (sl_write (ShardedLock := lock_of i)); _ ← f ok;
     on_mac (fun l => Ret (tt, end_write false l))).
Proof.
  intros Hf t. unfold with_guard, on_mac, mbind at 2, M_bind at 1. cbn [run_alone]. unfold lock_call. cbn.
  destruct (try_write i (mac_table t)) as [ok l| |]; cbn; [|done..].
  rewrite run_table_bind, (Hf ok). unfold mbind, M_bind, outcome_bind.
  by destruct (f ok _) as [[[] t']| | | |].
Qed.

Lemma simulates_write_ip i (body : bool -> task unit) f : (forall ok, simulates i (body ok) (f ok)) ->
  simulates i (with_guard (IpTable, Exclusive) body)
    (ok ← on_ip (sl_write (ShardedLock := lock_of i)); _ ← f ok;
     on_ip (fun l => Ret (tt, end_write false l))).
Proof.
  intros Hf t. unfold with_guard, on_ip, mbind at 2, M_bind at 1. cbn [run_alone]. unfold lock_call. cbn.
  destruct (try_write i (ip_table t)) as [ok l| |]; cbn; [|done..].
  rewrite run_table_bind, (Hf ok). unfold mbind, M_bind, outcome_bind.
  by destruct (f ok _) as [[[] t']| | | |].
Qed.

Lemma simulates_add i mac ip : simulates i (add_task mac ip) (add (ShardedLock0 := lock_of i) mac ip).
Proof.
  apply simulates_write_mac with (f := fun ok : bool => if ok then _ else _).
  intros [|]; [|apply simulates_value]. apply simulates_write_ip with (f := fun ok : bool => if ok then _ else _).
  intros [|]; [|apply simulates_value].
  apply simulates_then; [apply simulates_contains_mac|]. intros has_mac. apply simulates_then.
  { destruct has_mac; [|apply simulates_value].
    apply simulates_then; [apply simulates_contains_ip|]. intros has_ip. apply simulates_value. }
  intros [|]; [done|apply simulates_value].
Qed.

(** A method that has the two locks to itself is the function of [RoutingTable] over the same
    locks: the same answer and the same table; it waits where the function waits, and panics
    where it panics. *)
Theorem task_is_method i q t : run_alone i (task_of q) t = method i q t.
Proof.
  revert t. destruct q; apply simulates_then; try (intros ?; apply simulates_value).
  - apply simulates_add.
  - apply simulates_contains_mac.
  - apply simulates_contains_ip.
  - apply simulates_get_mac.
  - apply simulates_get_ip.
Qed.

(** ** Every schedule ends *)

Lemma unwind_acc gs : forall gs', Acc (next_thread exec) {| running := unwind gs; guards := gs' |}.
Proof.
  induction gs as [|g gs IH]; intros gs'; constructor; intros th (i & t & t' & E); cbn in E; [done|].
  injection E as <- _. apply IH.
Qed.

Lemma thread_acc th : Acc (next_thread exec) th.
Proof.
  destruct th as [m gs]. revert gs.
  induction m as [a| |g k IH|p g k IH|mac k IH|ip k IH|mac ip k IH|ip mac k IH]; intros gs;
    constructor; intros th (i & t & t' & E); unfold exec in E; cbn [running guards] in E;
    try discriminate E; try (injection E as <- _; apply IH).
  destruct (lock_call g i t); try discriminate E; injection E as <- _; [apply IH|apply unwind_acc].
Qed.

Lemma table_step_acc c : Acc (flip step) c.
Proof. apply threads_step_acc, thread_acc. Qed.

(** ** The calls by the laws of the lock *)

Section laws.
Context {view : forall A, L A -> lock_view} `{HLaws : !SharedLockLaws L view}.

Definition view_of (w : table_id) (t : Table) : lock_view :=
  match w with MacTable => view _ (mac_table t) | IpTable => view _ (ip_table t) end.

Definition same_tables (t t' : Table) : Prop :=
  contents (mac_table t') = contents (mac_table t) /\ contents (ip_table t') = contents (ip_table t).

(** [t'] is [t] but for who holds the lock [w]: that is [v]. *)
Definition relocked (w : table_id) (v : lock_view) (t t' : Table) : Prop :=
  same_tables t t' /\ forall w', view_of w' t' = if decide (w' = w) then v else view_of w' t.

Lemma relocked_mac v t l : contents l = contents (mac_table t) -> view _ l = v ->
  relocked MacTable v t (set_mac_table l t).
Proof. intros Hc Hv. split; [by split|]. by intros []; cbn. Qed.

Lemma relocked_ip v t l : contents l = contents (ip_table t) -> view _ l = v ->
  relocked IpTable v t (set_ip_table l t).
Proof. intros Hc Hv. split; [by split|]. by intros []; cbn. Qed.

Lemma shared_call w i t : match holder (view_of w t) with
  | None => exists t', lock_call (w, Shared) i t = Granted (negb (broken (view_of w t))) t' /\
      relocked w {| holder := None; sharers := {[+ i +]} ⊎ sharers (view_of w t);
                    broken := broken (view_of w t) |} t t'
  | Some j => lock_call (w, Shared) i t = Waits \/ i = j /\ lock_call (w, Shared) i t = Panics
  end.
Proof.
  destruct w; unfold lock_call, view_of; cbn [fst snd try_lock].
  - pose proof (try_read_law _ i (mac_table t)) as H. destruct (holder _).
    + by destruct H as [->|[-> ->]]; [left|right].
    + destruct H as (l & -> & Hc & Hv). eexists. split; [done|]. by apply relocked_mac.
  - pose proof (try_read_law _ i (ip_table t)) as H. destruct (holder _).
    + by destruct H as [->|[-> ->]]; [left|right].
    + destruct H as (l & -> & Hc & Hv). eexists. split; [done|]. by apply relocked_ip.
Qed.

Lemma exclusive_call w i t : if decide (holder (view_of w t) = None /\ sharers (view_of w t) = ∅)
  then exists t', lock_call (w, Exclusive) i t = Granted (negb (broken (view_of w t))) t' /\
      relocked w {| holder := Some i; sharers := ∅; broken := broken (view_of w t) |} t t'
  else lock_call (w, Exclusive) i t = Waits \/
       (holder (view_of w t) = Some i \/ i ∈ sharers (view_of w t)) /\ lock_call (w, Exclusive) i t = Panics.
Proof.
  destruct w; unfold lock_call, view_of; cbn [fst snd try_lock].
  - pose proof (try_write_law _ i (mac_table t)) as H. case_decide.
    + destruct H as (l & -> & Hc & Hv). eexists. split; [done|]. by apply relocked_mac.
    + by destruct H as [->|[? ->]]; [left|right].
  - pose proof (try_write_law _ i (ip_table t)) as H. case_decide.
    + destruct H as (l & -> & Hc & Hv). eexists. split; [done|]. by apply relocked_ip.
    + by destruct H as [->|[? ->]]; [left|right].
Qed.

Lemma drop_call p w m i t :
  match m with Shared => i ∈ sharers (view_of w t) | Exclusive => is_Some (holder (view_of w t)) end ->
  relocked w (match m with
  | Shared => {| holder := holder (view_of w t); sharers := sharers (view_of w t) ∖ {[+ i +]};
                 broken := broken (view_of w t) |}
  | Exclusive => {| holder := None; sharers := sharers (view_of w t); broken := broken (view_of w t) || p |}
  end) t (drop_guard p (w, m) i t).
Proof.
  intros Hm. destruct w; unfold drop_guard, view_of; cbn [fst snd]; [apply relocked_mac|apply relocked_ip];
    destruct m; cbn [end_lock]; first [by apply (end_read_law (view := view))|by apply (end_write_law (view := view))].
Qed.

(** ** What the threads can reach

    Threads that serve the requests [reqs], one each, on a table that starts as [t0]. *)

Section reach.
Context (reqs : list request) (t0 : Table).

Definition broken0 (w : table_id) : bool := broken (view_of w t0).

(** The table that a look-up reads *)
Definition table_of (q : request) : option table_id :=
  match q with
  | Add _ _ => None
  | ContainsMac _ | GetIp _ => Some MacTable
  | ContainsIp _ | GetMac _ => Some IpTable
  end.

(** What a look-up answers by the table at the start, [ok] when the lock is not poisoned *)
Definition reply_of (q : request) (ok : bool) : reply :=
  match q with
  | Add _ _ => Nothing
  | ContainsMac mac => Contains (ok && bool_decide (is_Some (contents (mac_table t0) !! mac)))
  | ContainsIp ip => Contains (ok && bool_decide (is_Some (contents (ip_table t0) !! ip)))
  | GetMac ip => FoundMac (if ok then contents (ip_table t0) !! ip else None)
  | GetIp mac => FoundIp (if ok then contents (mac_table t0) !! mac else None)
  end.

Abbreviation MACS := (MacTable, Shared).
Abbreviation MACX := (MacTable, Exclusive).
Abbreviation IPX := (IpTable, Exclusive).

(** The eras of the table: no [add] inside; thread [i] has the first lock; both; it panics, has
    dropped the second guard, and both; and then thread [j], which got the poisoned lock, too. *)
Inductive era :=
  | Calm
  | Owned (i : nat)
  | Deep (i : nat)
  | Falling (i : nat)
  | Toppling (i : nat)
  | Fallen (i : nat)
  | Refusing (i j : nat).

Inductive era_step : era -> era -> Prop :=
  | era_owned i : era_step Calm (Owned i)
  | era_deep i : era_step (Owned i) (Deep i)
  | era_falling i : era_step (Deep i) (Falling i)
  | era_toppling i : era_step (Falling i) (Toppling i)
  | era_fallen i : era_step (Toppling i) (Fallen i)
  | era_refusing i j : i <> j -> era_step (Fallen i) (Refusing i j)
  | era_refused i j : era_step (Refusing i j) (Fallen i).

Definition era_holder (w : table_id) (e : era) : option nat :=
  match e, w with
  | Calm, _ | Fallen _, _ => None
  | Deep i, _ | Falling i, _ => Some i
  | Owned i, MacTable | Toppling i, MacTable | Refusing _ i, MacTable => Some i
  | Owned _, IpTable | Toppling _, IpTable | Refusing _ _, IpTable => None
  end.

Definition era_broken (w : table_id) (e : era) : bool :=
  broken0 w || match e, w with
  | Fallen _, _ | Refusing _ _, _ | Toppling _, IpTable => true
  | _, _ => false
  end.

(** Whether an [add] can be done *)
Definition after (e : era) : Prop := match e with Fallen _ | Refusing _ _ => True | _ => False end.

(** Where a thread is in its task *)
Inductive stage := Idle | Owning | Inside | Unwinding | Leaving | Gone | Refused.

Definition stage_of (e : era) (j : nat) : stage :=
  match e with
  | Calm => Idle
  | Owned i => if decide (j = i) then Owning else Idle
  | Deep i => if decide (j = i) then Inside else Idle
  | Falling i => if decide (j = i) then Unwinding else Idle
  | Toppling i => if decide (j = i) then Leaving else Idle
  | Fallen i => if decide (j = i) then Gone else Idle
  | Refusing i k => if decide (j = i) then Gone else if decide (j = k) then Refused else Idle
  end.

Definition allowed (e : era) (w : table_id) (q : request) (a : reply) : Prop :=
  exists ok : bool, a = reply_of q ok /\ if ok then broken0 w = false else era_broken w e = true.

(** A look-up under its guard: it reads the table, or leaves. *)
Definition reading (e : era) (w : table_id) (q : request) (m : task reply) : Prop :=
  exists a, allowed e w q a /\ let leave := Drop false (w, Shared) (Done a) in
  m = leave \/
  (exists mac k, m = LookMac mac k /\ k (contents (mac_table t0) !! mac) = leave) \/
  (exists ip k, m = LookIp ip k /\ k (contents (ip_table t0) !! ip) = leave).

Inductive idle (e : era) (q : request) : thread -> Prop :=
  | idle_start : idle e q (start q)
  | idle_reading w m : table_of q = Some w -> reading e w q m ->
      idle e q {| running := m; guards := [(w, Shared)] |}
  | idle_done w a : table_of q = Some w -> allowed e w q a -> idle e q {| running := Done a; guards := [] |}
  | idle_refused : table_of q = None -> after e -> idle e q {| running := Done Nothing; guards := [] |}.

Inductive at_stage (e : era) (q : request) : stage -> thread -> Prop :=
  | at_idle th : idle e q th -> at_stage e q Idle th
  | at_owning k k' : k true = Lock MACS k' ->
      at_stage e q Owning {| running := Lock IPX k; guards := [MACX] |}
  | at_inside k : at_stage e q Inside {| running := Lock MACS k; guards := [IPX; MACX] |}
  | at_unwinding : at_stage e q Unwinding {| running := unwind [IPX; MACX]; guards := [IPX; MACX] |}
  | at_leaving : at_stage e q Leaving {| running := unwind [MACX]; guards := [MACX] |}
  | at_gone : at_stage e q Gone {| running := Unwound; guards := [] |}
  | at_refused : at_stage e q Refused {| running := Drop false MACX (Done Nothing); guards := [MACX] |}.

(** How many of the shared guards of [w] a thread has *)
Definition share (w : table_id) (th : option thread) : nat :=
  match th with Some th => if decide (guards th = [(w, Shared)]) then 1 else 0 | None => 0 end.

(** The threads and the locks in an era: the tables are as at the start. *)
Record represents (e : era) (c : list thread * Table) : Prop := {
  rep_tables : same_tables t0 c.2;
  rep_views : forall w, holder (view_of w c.2) = era_holder w e /\ broken (view_of w c.2) = era_broken w e;
  rep_sharers : forall w i, multiplicity i (sharers (view_of w c.2)) = share w (c.1 !! i);
  rep_length : length c.1 = length reqs;
  rep_threads : forall i q th, reqs !! i = Some q -> c.1 !! i = Some th -> at_stage e q (stage_of e i) th;
  rep_owner : forall i, stage_of e i <> Idle -> exists q, reqs !! i = Some q /\ table_of q = None;
}.

(** *** Each call leads to the same era or to the next *)

(** What is known in one era holds in the later ones. *)
Definition later (e e' : era) : Prop :=
  (forall w, era_broken w e = true -> era_broken w e' = true) /\ (after e -> after e').

Lemma allowed_later e e' w q a : later e e' -> allowed e w q a -> allowed e' w q a.
Proof. intros [Hb _] (ok & Ha & Hok). exists ok. split; [done|]. destruct ok; auto. Qed.

Lemma reading_later e e' w q m : later e e' -> reading e w q m -> reading e' w q m.
Proof. intros Hl (a & Ha & H). exists a. split; [by eapply allowed_later|done]. Qed.

Lemma at_stage_later e e' q st th : later e e' -> at_stage e q st th -> at_stage e' q st th.
Proof.
  intros Hl H. destruct H as [th H|k k' Hk| | | | |]; try by econstructor. constructor.
  destruct H as [|w m Hw Hr|w a Hw Ha|Hw Ha].
  - constructor.
  - econstructor; [done|by eapply reading_later].
  - econstructor; [done|by eapply allowed_later].
  - constructor; [done|by apply Hl].
Qed.

Lemma later_refl e : later e e.
Proof. by split. Qed.

Lemma era_step_later e e' : era_step e e' -> later e e'.
Proof.
  intros []; (split; [intros []|]); unfold era_broken; cbn; rewrite ?orb_true_r, ?orb_false_r; auto.
Qed.

(** A call of thread [i]: what is to be shown of the thread and of the locks *)
Lemma represents_call e e' ts t i q th th' t' :
  represents e (ts, t) -> reqs !! i = Some q -> ts !! i = Some th -> later e e' ->
  (forall j, j <> i -> stage_of e' j = stage_of e j) -> (stage_of e' i <> Idle -> table_of q = None) ->
  same_tables t t' ->
  (forall w, holder (view_of w t') = era_holder w e' /\ broken (view_of w t') = era_broken w e') ->
  (forall w, (multiplicity i (sharers (view_of w t')) = share w (Some th'))%nat) ->
  (forall w j, j <> i -> multiplicity j (sharers (view_of w t')) = multiplicity j (sharers (view_of w t))) ->
  at_stage e' q (stage_of e' i) th' -> represents e' (<[i := th']> ts, t').
Proof.
  intros [[T1 T2] V S N Th O] Eq Eth Hl Hst Hq [T1' T2'] V' S' So' Hth. cbn [fst snd] in *. split; cbn [fst snd].
  - split; congruence.
  - done.
  - intros w j. destruct (decide (j = i)) as [->|Hj].
    + rewrite list_lookup_insert_eq by (by eapply lookup_lt_Some). apply S'.
    + rewrite list_lookup_insert_ne by done. by rewrite So', S.
  - by rewrite length_insert.
  - intros j q' th2 Eq' E2. destruct (decide (j = i)) as [->|Hj].
    + rewrite list_lookup_insert_eq in E2 by (by eapply lookup_lt_Some). injection E2 as <-.
      rewrite Eq in Eq'. by injection Eq' as <-.
    + rewrite list_lookup_insert_ne in E2 by done. rewrite Hst by done. eapply at_stage_later; eauto.
  - intros j Hj. destruct (decide (j = i)) as [->|Hne].
    + exists q. split; [done|by apply Hq].
    + rewrite Hst in Hj by done. by apply O.
Qed.

(** The first call of a task, and what comes then *)
Lemma lookup_starts q w : table_of q = Some w -> exists k, task_of q = Lock (w, Shared) k /\
  forall e ok, (if ok : bool then broken0 w = false else era_broken w e = true) -> reading e w q (k ok).
Proof.
  destruct q; intros [= <-]; (eexists; split; [reflexivity|]); intros e ok Hok;
    match goal with |- reading e _ ?q _ => exists (reply_of q ok) end; (split; [by exists ok|]);
    destruct ok; try (by left); right; [left|right|right|left]; do 2 eexists; by split.
Qed.

Lemma add_starts q : table_of q = None -> exists k, task_of q = Lock MACX k /\
  (exists k1 k2, k true = Lock IPX k1 /\ k1 true = Lock MACS k2) /\ k false = Drop false MACX (Done Nothing).
Proof.
  destruct q; intros [=]. eexists. split; [reflexivity|]. split; [|reflexivity].
  do 2 eexists. by split.
Qed.

(** A call that changes no lock, and one that changes the lock [w] *)
Lemma represents_same e e' ts t i q th th' :
  represents e (ts, t) -> reqs !! i = Some q -> ts !! i = Some th -> later e e' ->
  (forall j, j <> i -> stage_of e' j = stage_of e j) -> (stage_of e' i <> Idle -> table_of q = None) ->
  (forall w, era_holder w e' = era_holder w e /\ era_broken w e' = era_broken w e) ->
  guards th' = guards th -> at_stage e' q (stage_of e' i) th' -> represents e' (<[i := th']> ts, t).
Proof.
  intros R Eq Eth Hl Hst Hq He Hg Hth. eapply represents_call; try done.
  - intros w. destruct (He w) as [-> ->]. apply (rep_views _ _ R).
  - intros w. pose proof (rep_sharers _ _ R w i) as S. cbn [fst snd] in S. rewrite S, Eth. cbn. by rewrite Hg.
Qed.

Lemma represents_relocked e e' ts t i q th th' w v t' :
  represents e (ts, t) -> reqs !! i = Some q -> ts !! i = Some th -> relocked w v t t' -> later e e' ->
  (forall j, j <> i -> stage_of e' j = stage_of e j) -> (stage_of e' i <> Idle -> table_of q = None) ->
  holder v = era_holder w e' -> broken v = era_broken w e' ->
  (forall w', w' <> w -> era_holder w' e' = era_holder w' e /\ era_broken w' e' = era_broken w' e /\
     share w' (Some th') = share w' (Some th)) ->
  (multiplicity i (sharers v) = share w (Some th'))%nat ->
  (forall j, j <> i -> multiplicity j (sharers v) = multiplicity j (sharers (view_of w t))) ->
  at_stage e' q (stage_of e' i) th' -> represents e' (<[i := th']> ts, t').
Proof.
  intros R Eq Eth [Ht Hv] Hl Hst Hq Hh Hb Ho Hs Hso Hth.
  eapply represents_call; try done; intros w'; rewrite Hv; destruct (decide (w' = w)) as [->|Hw]; try done.
  - destruct (Ho w' Hw) as (-> & -> & _). apply (rep_views _ _ R).
  - destruct (Ho w' Hw) as (_ & _ & ->). pose proof (rep_sharers _ _ R w' i) as S. cbn [fst snd] in S.
    by rewrite S, Eth.
Qed.

(** The holder of a lock is in no look-up, and an [add] has no shared guard. *)
Lemma idle_not_holder e w i : stage_of e i = Idle -> era_holder w e <> Some i.
Proof. destruct e, w; cbn; try done; repeat case_decide; congruence. Qed.

Lemma not_sharer e ts t i th w : represents e (ts, t) -> ts !! i = Some th ->
  guards th <> [(w, Shared)] -> i ∉ sharers (view_of w t).
Proof.
  intros R Eth Hg. apply not_elem_of_multiplicity. pose proof (rep_sharers _ _ R w i) as S. cbn [fst snd] in S.
  rewrite S, Eth. cbn. by case_decide.
Qed.

Definition moves (e : era) (c : list thread * Table) : Prop :=
  exists e', (e' = e \/ era_step e e') /\ represents e' c.

Lemma era_broken_fallen w i : era_broken w (Fallen i) = true.
Proof. apply orb_true_r. Qed.

Lemma era_broken_toppling i : era_broken IpTable (Toppling i) = true.
Proof. apply orb_true_r. Qed.

(** What the eras say *)
Ltac by_era :=
  try done; cbn [holder broken sharers];
  try (apply era_step_later; by constructor);
  try (intros []; unfold era_broken; cbn; by rewrite ?orb_false_r, ?orb_true_r);
  try (intros; cbn [stage_of]; repeat case_decide; congruence);
  try (cbn [stage_of]; rewrite ?decide_True by done).

Lemma start_call e ts t i q th' t' :
  (table_of q = None -> forall w, broken0 w = false) ->
  represents e (ts, t) -> reqs !! i = Some q -> ts !! i = Some (start q) -> stage_of e i = Idle ->
  exec i (start q) t = Some (th', t') -> moves e (<[i := th']> ts, t').
Proof.
  intros Hadds R Eq Eth Hst E. destruct (table_of q) as [w|] eqn:Eq'.
  - destruct (lookup_starts q w Eq') as (k & Et & Hk). unfold exec, start in E. cbn [running guards] in E.
    rewrite Et in E. pose proof (shared_call w i t) as H.
    destruct (rep_views _ _ R w) as [Vh Vb]. cbn [snd] in *. rewrite Vh in H.
    destruct (era_holder w e) as [j|] eqn:Ej.
    { destruct H as [H|[<- H]]; rewrite H in E; [done|]. by apply idle_not_holder in Ej. }
    destruct H as (t2 & H & Hl). rewrite H in E. injection E as <- <-. exists e. split; [by left|].
    eapply represents_relocked; try done; rewrite ?Hst; cbn [holder broken sharers].
    + by intros w' Hw; cbn; rewrite decide_False by congruence.
    + rewrite multiplicity_disj_union, multiplicity_singleton_eq. cbn. rewrite decide_True by done.
      pose proof (rep_sharers _ _ R w i) as S. cbn [fst snd] in S. rewrite S, Eth. done.
    + intros j Hj. by rewrite multiplicity_disj_union, multiplicity_singleton_ne.
    + constructor. econstructor; [done|]. apply Hk. rewrite Vb. unfold era_broken.
      destruct (broken0 w); [done|]. destruct (false || _) eqn:Eb; cbn; [by rewrite <- Eb|done].
  - destruct (add_starts q Eq') as (k & Et & (k1 & k2 & Hk1 & Hk2) & Hkf).
    unfold exec, start in E. cbn [running guards] in E. rewrite Et in E.
    pose proof (exclusive_call MacTable i t) as H. destruct (rep_views _ _ R MacTable) as [Vh Vb].
    cbn [snd] in *. rewrite Vh in H. case_decide as Hf.
    2: { destruct H as [H|[[Hi|Hi] H]]; rewrite H in E; [done| |].
      - by apply idle_not_holder in Hi.
      - eapply not_sharer in Hi; [done|exact R|exact Eth|done]. }
    destruct H as (t2 & H & Hl). rewrite H, Vb in E. injection E as <- <-.
    destruct Hf as [Hh Hs]. destruct e as [|j|j|j|j|j|j j']; try done.
    + exists (Owned i). split; [right; constructor|].
      eapply represents_relocked; by_era; rewrite ?Hs; try done.
      unfold era_broken. rewrite Hadds by done. cbn. rewrite Hk1. by econstructor.
    + assert (i <> j) as Hij by (intros ->; cbn in Hst; by rewrite decide_True in Hst).
      exists (Refusing j i). split; [by right; constructor|].
      eapply represents_relocked; by_era; rewrite ?Hs; try done.
      rewrite era_broken_fallen. cbn. rewrite Hkf, decide_False, decide_True by done. constructor.
Qed.

Lemma idle_call e ts t i q th th' t' :
  (table_of q = None -> forall w, broken0 w = false) ->
  represents e (ts, t) -> reqs !! i = Some q -> ts !! i = Some th -> stage_of e i = Idle -> idle e q th ->
  exec i th t = Some (th', t') -> moves e (<[i := th']> ts, t').
Proof.
  intros Hadds R Eq Eth Hst Hidle E. destruct Hidle as [|w m Hw (a & Ha & Hm)| |]; try done.
  - by eapply start_call.
  - exists e. split; [by left|]. pose proof (rep_tables _ _ R) as [T1 T2]. cbn [snd] in *.
    destruct Hm as [->|[(mac & k & -> & Hk)|(ip & k & -> & Hk)]]; injection E as <- <-.
    + assert (i ∈ sharers (view_of w t)) as Hi.
      { apply elem_of_multiplicity. pose proof (rep_sharers _ _ R w i) as S. cbn [fst snd] in S.
        rewrite S, Eth. cbn. rewrite decide_True by done. lia. }
      eapply (represents_relocked e e ts t i q _ _ w _ _ R Eq Eth (drop_call false w Shared i t Hi) (later_refl e));
        rewrite ?Hst; cbn [holder broken sharers]; try done.
      * apply (rep_views _ _ R).
      * apply (rep_views _ _ R).
      * intros w' Hne. cbn. by rewrite !decide_False by congruence.
      * rewrite multiplicity_difference, multiplicity_singleton_eq.
        pose proof (rep_sharers _ _ R w i) as S. cbn [fst snd] in S. rewrite S, Eth. cbn. by rewrite decide_True.
      * intros j Hj. rewrite multiplicity_difference, multiplicity_singleton_ne by done. lia.
      * constructor. by econstructor.
    + eapply represents_same; try done. rewrite Hst, T1, Hk. constructor. econstructor; [done|].
      exists a. split; [done|by left].
    + eapply represents_same; try done. rewrite Hst, T2, Hk. constructor. econstructor; [done|].
      exists a. split; [done|by left].
Qed.

Definition era_at (st : stage) (e : era) (i : nat) : Prop :=
  match st with
  | Idle => True
  | Owning => e = Owned i
  | Inside => e = Deep i
  | Unwinding => e = Falling i
  | Leaving => e = Toppling i
  | Gone => e = Fallen i \/ exists j, e = Refusing i j
  | Refused => exists j, j <> i /\ e = Refusing j i
  end.

Lemma stage_era e i : era_at (stage_of e i) e i.
Proof. destruct e; cbn; repeat case_decide; subst; cbn; eauto. Qed.

Lemma no_share e ts t i th w : represents e (ts, t) -> ts !! i = Some th -> guards th <> [(w, Shared)] ->
  multiplicity i (sharers (view_of w t)) = 0%nat.
Proof. intros. by apply not_elem_of_multiplicity; eapply not_sharer. Qed.

Lemma busy_call e ts t i q th th' t' :
  (forall w, broken0 w = false) ->
  represents e (ts, t) -> reqs !! i = Some q -> ts !! i = Some th -> stage_of e i <> Idle ->
  exec i th t = Some (th', t') -> moves e (<[i := th']> ts, t').
Proof.
  intros Hb R Eq Eth Hst E. pose proof (rep_threads _ _ R i q th Eq Eth) as Hth.
  pose proof (stage_era e i) as He. destruct (rep_owner _ _ R i Hst) as (q' & Eq' & Hq).
  rewrite Eq in Eq'. injection Eq' as <-.
  destruct Hth as [| k k' Hk | k | | | | ]; cbn in He; try done.
  - subst e. pose proof (exclusive_call IpTable i t) as H. destruct (rep_views _ _ R IpTable) as [Vh Vb].
    cbn [snd] in *. rewrite Vh in H. unfold exec in E. cbn [running guards] in E. case_decide as Hf.
    2: { destruct H as [H|[[Hi|Hi] H]]; rewrite H in E; [done|done|].
      by eapply not_sharer in Hi; [|exact R|exact Eth|]. }
    destruct H as (t2 & H & Hl). rewrite H, Vb in E. injection E as <- <-. destruct Hf as [_ Hs].
    exists (Deep i). split; [right; constructor|].
    eapply represents_relocked; by_era; rewrite ?Hs; try done.
    unfold era_broken. rewrite Hb. cbn. rewrite Hk. constructor.
  - subst e. pose proof (shared_call MacTable i t) as H. destruct (rep_views _ _ R MacTable) as [Vh Vb].
    cbn [snd] in *. rewrite Vh in H. cbn [era_holder] in H. unfold exec in E. cbn [running guards] in E.
    destruct H as [H|[_ H]]; rewrite H in E; [done|]. injection E as <- <-.
    exists (Falling i). split; [right; constructor|].
    eapply represents_same; by_era. constructor.
  - subst e. injection E as <- <-. exists (Toppling i). split; [right; constructor|].
    pose proof (rep_views _ _ R IpTable) as [Vh Vb]. cbn [snd] in *.
    eapply (represents_relocked _ _ ts t i q _ _ _ _ _ R Eq Eth
      (drop_call true IpTable Exclusive i t ltac:(by rewrite Vh))); by_era.
    + by rewrite orb_true_r, era_broken_toppling.
    + by eapply no_share.
    + constructor.
  - subst e. injection E as <- <-. exists (Fallen i). split; [right; constructor|].
    pose proof (rep_views _ _ R MacTable) as [Vh Vb]. cbn [snd] in *.
    eapply (represents_relocked _ _ ts t i q _ _ _ _ _ R Eq Eth
      (drop_call true MacTable Exclusive i t ltac:(by rewrite Vh))); by_era.
    + by rewrite orb_true_r, era_broken_fallen.
    + by eapply no_share.
    + constructor.
  - destruct He as (j & Hj & ->). injection E as <- <-. exists (Fallen j). split; [right; constructor|].
    pose proof (rep_views _ _ R MacTable) as [Vh Vb]. cbn [snd] in *.
    eapply (represents_relocked _ _ ts t i q _ _ _ _ _ R Eq Eth
      (drop_call false MacTable Exclusive i t ltac:(by rewrite Vh))); by_era.
    + rewrite Vb. by rewrite era_broken_fallen; unfold era_broken; rewrite orb_true_r.
    + by eapply no_share.
    + rewrite decide_False by done. constructor. by constructor.
Qed.

(** *** The schedules and their ends *)

Context (adds_sound : forall i q, reqs !! i = Some q -> table_of q = None -> forall w, broken0 w = false).

Lemma request_of e c i th : represents e c -> c.1 !! i = Some th -> exists q, reqs !! i = Some q.
Proof.
  intros R E. apply lookup_lt_is_Some. rewrite <- (rep_length _ _ R). by eapply lookup_lt_Some.
Qed.

Lemma represents_step e c c' : represents e c -> step c c' -> moves e c'.
Proof.
  intros R S. destruct S as [ts i th t th' t' Ei E].
  destruct (request_of e _ i th R Ei) as [q Eq]. pose proof (rep_threads _ _ R i q th Eq Ei) as Hth.
  destruct (stage_of e i) eqn:Hst; [inversion Hth; subst; eapply idle_call; eauto|..];
    (assert (stage_of e i <> Idle) as Hne by congruence;
     destruct (rep_owner _ _ R i Hne) as (q' & Eq' & Hq); eapply busy_call; eauto).
Qed.

Lemma represents_steps e c c' : represents e c -> rtc step c c' -> exists e', rtc era_step e e' /\ represents e' c'.
Proof.
  intros R H. revert e R. induction H as [c|c c1 c' S _ IH]; intros e R; [by exists e|].
  destruct (represents_step _ _ _ R S) as (e1 & [->|He] & R1); destruct (IH _ R1) as (e' & He' & R').
  - by exists e'.
  - exists e'. split; [by eapply rtc_l|done].
Qed.

Lemma represents_start : (forall w, holder (view_of w t0) = None /\ sharers (view_of w t0) = ∅) ->
  represents Calm (map start reqs, t0).
Proof.
  intros Hf. split; cbn [fst snd].
  - done.
  - intros w. destruct (Hf w) as [-> _]. unfold era_broken. by rewrite orb_false_r.
  - intros w i. destruct (Hf w) as [_ ->]. rewrite multiplicity_empty, list_lookup_fmap.
    by destruct (reqs !! i).
  - by rewrite length_map.
  - intros i q th Eq Eth. rewrite list_lookup_fmap, Eq in Eth. injection Eth as <-. constructor. constructor.
  - done.
Qed.

(** Where no thread can go on *)
Definition ended (ts : list thread) (t : Table) : Prop := forall i th, ts !! i = Some th -> exec i th t = None.

Lemma reading_goes_on e w q m i gs t : reading e w q m -> exec i {| running := m; guards := gs |} t <> None.
Proof. by intros (a & _ & [->|[(mac & k & -> & _)|(ip & k & -> & _)]]). Qed.

Lemma ended_no_sharers e ts t w : represents e (ts, t) -> ended ts t -> sharers (view_of w t) = ∅.
Proof.
  intros R He. apply gmultiset_eq. intros i. rewrite multiplicity_empty.
  pose proof (rep_sharers _ _ R w i) as S. cbn [fst snd] in S. rewrite S. clear S.
  destruct (ts !! i) as [th|] eqn:Ei; [|done]. cbn. case_decide as Hg; [|done]. exfalso.
  destruct (request_of e _ i th R Ei) as [q Eq]. pose proof (rep_threads _ _ R i q th Eq Ei) as Hth.
  specialize (He i th Ei). destruct Hth as [th H| | | | | |]; try done.
  destruct H as [|w' m _ Hr| |]; try done. by eapply reading_goes_on.
Qed.

(** A look-up that has its answer *)
Definition answered (e : era) (q : request) (th : thread) : Prop :=
  exists a, th = {| running := Done a; guards := [] |} /\
    match table_of q with Some w => allowed e w q a | None => after e /\ a = Nothing end.

Definition first_table (q : request) : table_id :=
  match table_of q with Some w => w | None => MacTable end.

(** At the end an idle thread has its answer, or waits for the holder of its first lock. *)
Lemma ended_idle e ts t i q th : represents e (ts, t) -> ended ts t -> ts !! i = Some th -> idle e q th ->
  answered e q th \/ th = start q /\ is_Some (era_holder (first_table q) e).
Proof.
  intros R He Ei H. specialize (He i th Ei) as Hx.
  destruct H as [|w m Hw Hr|w a Hw Ha|Hw Ha].
  - right. split; [done|]. destruct (era_holder _ e) eqn:Hh; [done|exfalso]. unfold first_table in Hh.
    destruct (rep_views _ _ R (first_table q)) as [Vh _]. cbn [snd] in Vh. unfold first_table in Vh.
    unfold exec, start in Hx. cbn [running guards] in Hx. destruct (table_of q) as [w|] eqn:Eq.
    + destruct (lookup_starts q w Eq) as (k & Et & _). rewrite Et in Hx.
      pose proof (shared_call w i t) as H. rewrite Vh, Hh in H. destruct H as (t' & H & _). by rewrite H in Hx.
    + destruct (add_starts q Eq) as (k & Et & _). rewrite Et in Hx.
      pose proof (exclusive_call MacTable i t) as H.
      rewrite Vh, Hh, decide_True in H by (split; [done|by eapply ended_no_sharers]).
      destruct H as (t' & H & _). by rewrite H in Hx.
  - exfalso. by eapply reading_goes_on.
  - left. exists a. by rewrite Hw.
  - left. exists Nothing. by rewrite Hw.
Qed.

Lemma owner_thread e ts t i : represents e (ts, t) -> stage_of e i <> Idle ->
  exists q th, reqs !! i = Some q /\ table_of q = None /\ ts !! i = Some th /\ at_stage e q (stage_of e i) th.
Proof.
  intros R Hst. destruct (rep_owner _ _ R i Hst) as (q & Eq & Hq).
  destruct (lookup_lt_is_Some_2 ts i) as [th Ei].
  { pose proof (rep_length _ _ R) as N. cbn in N. rewrite N. by eapply lookup_lt_Some. }
  exists q, th. do 3 (split; [done|]). by apply (rep_threads _ _ R).
Qed.

(** At the end an [add] that is inside waits for itself, or has panicked. *)
Lemma ended_busy e ts t i : represents e (ts, t) -> ended ts t ->
  stage_of e i = Idle \/ stage_of e i = Inside \/ stage_of e i = Gone.
Proof.
  intros R He. pose proof (stage_era e i) as Hera.
  destruct (stage_of e i) eqn:Hst; auto; exfalso;
    destruct (owner_thread e ts t i R ltac:(by rewrite Hst)) as (q & th & Eq & Hq & Ei & Hth);
    rewrite Hst in Hth; pose proof (He i th Ei) as Hx; inversion Hth; subst; try done.
  pose proof (exclusive_call IpTable i t) as Hc. destruct (rep_views _ _ R IpTable) as [Vh _]. cbn [snd] in Vh.
  cbn in Hera. subst e. rewrite Vh, decide_True in Hc by (split; [done|by eapply ended_no_sharers]).
  destruct Hc as (t' & Hc & _). unfold exec in Hx. cbn [running] in Hx. by rewrite Hc in Hx.
Qed.

Lemma era_distinct e i : rtc era_step Calm e -> e <> Refusing i i.
Proof. intros H%rtc_inv_r ->. destruct H as [H|(e & _ & H)]; [done|]. inversion H. done. Qed.

(** What is left of a table at the end of a schedule: the look-ups are done; or thread [i] adds,
    and waits for the guards it has itself; or it has panicked. *)
Lemma ended_eras e ts t : rtc era_step Calm e -> represents e (ts, t) -> ended ts t ->
  e = Calm \/ exists i q, reqs !! i = Some q /\ table_of q = None /\
    ((e = Deep i /\ exists k, ts !! i = Some {| running := Lock MACS k; guards := [IPX; MACX] |}) \/
     (e = Fallen i /\ ts !! i = Some {| running := Unwound; guards := [] |})).
Proof.
  intros Hs R He. pose proof (fun i => ended_busy e ts t i R He) as Hb.
  destruct e as [|i|i|i|i|i|i j]; [by left|right..];
    try (exfalso; specialize (Hb i); cbn in Hb; rewrite decide_True in Hb by done;
         destruct Hb as [Hb|[Hb|Hb]]; discriminate Hb).
  - exists i. destruct (owner_thread _ ts t i R ltac:(cbn; by rewrite decide_True)) as (q & th & Eq & Hq & Ei & Hth).
    cbn in Hth. rewrite decide_True in Hth by done. exists q. do 2 (split; [done|]). left. split; [done|].
    inversion Hth; subst. by exists k.
  - exists i. destruct (owner_thread _ ts t i R ltac:(cbn; by rewrite decide_True)) as (q & th & Eq & Hq & Ei & Hth).
    cbn in Hth. rewrite decide_True in Hth by done. exists q. do 2 (split; [done|]). right. split; [done|].
    by inversion Hth; subst.
  - exfalso. specialize (Hb j). cbn in Hb. rewrite decide_False, decide_True in Hb;
      [destruct Hb as [Hb|[Hb|Hb]]; discriminate Hb|done|].
    intros ->. by eapply era_distinct.
Qed.

End reach.

Definition unheld (t : Table) : Prop :=
  forall w, holder (view_of w t) = None /\ sharers (view_of w t) = ∅.

Definition done (a : reply) : thread := {| running := Done a; guards := [] |}.

(** C19: Any number of threads look addresses up at once: no schedule goes on for ever, and where it
    cannot go on every look-up has what the table holds, or nothing when its lock is poisoned,
    and the locks and the tables are as before. *)
Theorem lookups_share reqs t0 : unheld t0 -> (forall q, q ∈ reqs -> table_of q <> None) ->
  Acc (flip step) (map start reqs, t0) /\
  forall ts t, rtc step (map start reqs, t0) (ts, t) ->
    (exists c, step (ts, t) c) \/
    (forall i q, reqs !! i = Some q -> ts !! i = Some
       (done (reply_of t0 q (negb (broken (view_of (first_table q) t0)))))) /\
    same_tables t0 t /\ forall w, view_of w t = view_of w t0.
Proof.
  intros Hf Hl. split; [apply table_step_acc|]. intros ts t H.
  destruct (represents_steps reqs t0) with (e := Calm) (c := (map start reqs, t0)) (c' := (ts, t))
    as (e & Hs & R); [|by apply represents_start|done|].
  { intros i q Eq Hq. by apply list_elem_of_lookup_2, Hl in Eq. }
  destruct (steps_or_ended exec (ts, t)) as [Hstep|He]; [by left|right].
  destruct (ended_eras reqs t0 e ts t Hs R He) as [->|(i & q & Eq & Hq & _)].
  2: { by apply list_elem_of_lookup_2, Hl in Eq. }
  split; [|split; [apply (rep_tables _ _ _ _ R)|]].
  - intros i q Eq. destruct (lookup_lt_is_Some_2 ts i) as [th Ei].
    { pose proof (rep_length _ _ _ _ R) as N. cbn in N. rewrite N. by eapply lookup_lt_Some. }
    pose proof (rep_threads _ _ _ _ R i q th Eq Ei) as Hth. inversion Hth as [? Hi| | | | | |]; subst.
    destruct (ended_idle reqs t0 Calm ts t i q th R He Ei Hi) as [(a & -> & Ha)|[_ [j Hj]]]; [|done].
    unfold first_table. destruct (table_of q) as [w|] eqn:Hq; [|by apply list_elem_of_lookup_2, Hl in Eq].
    destruct Ha as (ok & -> & Hok). rewrite Ei. unfold era_broken in Hok. rewrite orb_false_r in Hok.
    unfold broken0 in Hok. by destruct ok; rewrite Hok.
  - intros w. destruct (rep_views _ _ _ _ R w) as [Vh Vb]. pose proof (ended_no_sharers _ _ _ _ _ w R He) as Vs.
    destruct (Hf w) as [Fh Fs]. cbn [snd] in *. unfold era_broken, broken0 in Vb. rewrite orb_false_r in Vb.
    destruct (view_of w t), (view_of w t0). cbn in *. congruence.
Qed.

(** C7: As soon as one of the threads calls [add], on sound locks, the table is lost: it never
    changes, no schedule goes on for ever, and where one ends an [add] either waits for guards that
    it has itself, or has panicked. In the first case every other look-up has what the table holds or
    waits at its first call, and every other [add] waits. In the second both locks are free and
    poisoned, every other [add] has done nothing, and a look-up has what the table holds or nothing,
    as every later one has. *)
Theorem add_ruins_table reqs t0 : unheld t0 -> (forall w, broken (view_of w t0) = false) ->
  (exists q, q ∈ reqs /\ table_of q = None) ->
  Acc (flip step) (map start reqs, t0) /\
  forall ts t, rtc step (map start reqs, t0) (ts, t) -> same_tables t0 t /\
    ((exists c, step (ts, t) c) \/
     exists i q, reqs !! i = Some q /\ table_of q = None /\
       (((exists k, ts !! i = Some {| running := Lock (MacTable, Shared) k;
                                      guards := [(IpTable, Exclusive); (MacTable, Exclusive)] |}) /\
         forall j q th, j <> i -> reqs !! j = Some q -> ts !! j = Some th ->
           th = start q \/ table_of q <> None /\ th = done (reply_of t0 q true)) \/
        (ts !! i = Some {| running := Unwound; guards := [] |} /\
         (forall w, view_of w t = {| holder := None; sharers := ∅; broken := true |}) /\
         forall j q th, j <> i -> reqs !! j = Some q -> ts !! j = Some th ->
           th = done (reply_of t0 q true) \/ th = done (reply_of t0 q false)))).
Proof.
  intros Hf Hb (qa & Hin & Hqa). split; [apply table_step_acc|]. intros ts t H.
  destruct (represents_steps reqs t0) with (e := Calm) (c := (map start reqs, t0)) (c' := (ts, t))
    as (e & Hs & R); [done|by apply represents_start|done|].
  split; [apply (rep_tables _ _ _ _ R)|].
  destruct (steps_or_ended exec (ts, t)) as [Hstep|He]; [by left|right].
  assert (forall j q th, reqs !! j = Some q -> ts !! j = Some th -> stage_of e j = Idle ->
    answered t0 e q th \/ th = start q /\ is_Some (era_holder (first_table q) e)) as Hidle.
  { intros j q th Eq Ei Hst. pose proof (rep_threads _ _ _ _ R j q th Eq Ei) as Hth. rewrite Hst in Hth.
    inversion Hth; subst. by eapply ended_idle. }
  destruct (ended_eras reqs t0 e ts t Hs R He) as [->|(i & q & Eq & Hq & [[-> Hi]|[-> Hi]])].
  - exfalso. apply list_elem_of_lookup_1 in Hin as [i Eq]. destruct (lookup_lt_is_Some_2 ts i) as [th Ei].
    { pose proof (rep_length _ _ _ _ R) as N. cbn in N. rewrite N. by eapply lookup_lt_Some. }
    destruct (Hidle i qa th Eq Ei eq_refl) as [(a & -> & Ha)|[_ [j Hj]]]; [|done].
    rewrite Hqa in Ha. by destruct Ha.
  - exists i, q. do 2 (split; [done|]). left. split; [done|]. intros j q' th Hj Eq' Ei.
    destruct (Hidle j q' th Eq' Ei) as [(a & -> & Ha)|[-> _]]; [cbn; by rewrite decide_False| |by left].
    right. destruct (table_of q') as [w|]; [|by destruct Ha]. split; [done|]. destruct Ha as (ok & -> & Hok).
    unfold era_broken, broken0 in Hok. rewrite Hb, orb_false_r in Hok. by destruct ok.
  - exists i, q. do 2 (split; [done|]). right. split; [done|]. split.
    + intros w. destruct (rep_views _ _ _ _ R w) as [Vh Vb].
      pose proof (ended_no_sharers _ _ _ _ _ w R He) as Vs. cbn [snd] in *. rewrite era_broken_fallen in Vb.
      destruct (view_of w t). cbn in *. congruence.
    + intros j q' th Hj Eq' Ei.
      destruct (Hidle j q' th Eq' Ei) as [(a & -> & Ha)|[_ [? Hh]]]; [cbn; by rewrite decide_False| |done].
      destruct (table_of q') as [w|] eqn:Hq'; [|destruct Ha as [_ ->]; left; by destruct q'].
      destruct Ha as (ok & -> & _). by destruct ok; [left|right].
Qed.

End laws.

End threads.

(** ** Schedules that run *)

(** A lock that lets a thread wait for itself, or panics ([panics]) *)
Record rw_lock (panics : bool) (A : Type) := { rw_value : A; rw_view : lock_view }.
Arguments rw_value {panics A}.
Arguments rw_view {panics A}.

Definition set_view {p A} (l : rw_lock p A) (v : lock_view) : rw_lock p A :=
  {| rw_value := rw_value l; rw_view := v |}.

Definition reenter {X} (p mine : bool) : answer X := if p && mine then Panics else Waits.

#[local] Instance rw_lock_SharedLock p : SharedLock (rw_lock p) := {|
  try_read A i l := let v := rw_view l in match holder v with
    | None => Granted (negb (broken v))
        (set_view l {| holder := None; sharers := {[+ i +]} ⊎ sharers v; broken := broken v |})
    | Some j => reenter p (bool_decide (i = j))
    end;
  try_write A i l := let v := rw_view l in
    if decide (holder v = None /\ sharers v = ∅)
    then Granted (negb (broken v)) (set_view l {| holder := Some i; sharers := ∅; broken := broken v |})
    else reenter p (bool_decide (holder v = Some i));
  end_read A i l := let v := rw_view l in
    set_view l {| holder := holder v; sharers := sharers v ∖ {[+ i +]}; broken := broken v |};
  end_write A panicking l := let v := rw_view l in
    set_view l {| holder := None; sharers := sharers v; broken := broken v || panicking |};
  contents A l := rw_value l;
  replace A a l := {| rw_value := a; rw_view := rw_view l |};
|}.

#[local] Instance rw_lock_laws p : SharedLockLaws (rw_lock p) (fun A => rw_view).
Proof.
  split; intros A i l; cbn.
  - destruct (holder (rw_view l)) as [j|] eqn:E; [|by eexists].
    unfold reenter. case_bool_decide; destruct p; cbn; auto.
  - case_decide as E; [by eexists|]. unfold reenter. case_bool_decide; destruct p; cbn; auto.
  - done.
  - done.
Qed.

Definition free_lock {p A} (a : A) (bad : bool) : rw_lock p A :=
  {| rw_value := a; rw_view := {| holder := None; sharers := ∅; broken := bad |} |}.

Definition one_host (p bad : bool) : RoutingTable (L := rw_lock p) :=
  {| mac_table := free_lock {[ some_mac := v4_new 10 0 0 1 ]} bad;
     ip_table := free_lock {[ v4_new 10 0 0 1 := some_mac ]} false |}.

Lemma one_host_unheld p bad : unheld (view := fun A => rw_view) (one_host p bad).
Proof. by intros []. Qed.

Definition look_ups : list request :=
  [GetIp some_mac; GetMac (v4_new 10 0 0 9); ContainsIp (v4_new 10 0 0 1); ContainsMac some_mac].

Lemma lookups_share_witness :
  let '(ts, t) := run_schedule (concat (repeat [0; 1; 2; 3]%nat 3)) (map start look_ups, one_host false true) in
  ts = map done [FoundIp None; FoundMac None; Contains true; Contains false].
Proof.
  pose proof (lookups_share (L := rw_lock false) (view := fun A => rw_view) look_ups (one_host false true)
    (one_host_unheld false true)) as [_ H].
  { apply Forall_forall. unfold look_ups. repeat (constructor; [done|]). constructor. }
  remember (run_schedule (concat (repeat [0; 1; 2; 3]%nat 3)) (map start look_ups, one_host false true)) as c eqn:E.
  assert (rtc step (map start look_ups, one_host false true) c) as R by (rewrite E; apply run_threads_steps).
  destruct c as [ts t]. destruct (H ts t R) as [(c & S)|(Hd & _ & _)].
  - exfalso. vm_compute in E. injection E as -> _. inversion S as [ts' i m d m' d' Ei Ex]; subst.
    by repeat (destruct i as [|i]; [injection Ei as <-|]).
  - assert (length ts = 4%nat) as L by (by apply (threads_step_length exec) in R).
    apply list_eq. intros i. destruct (decide (i < 4)%nat) as [Hi|Hi].
    + destruct i as [|[|[|[|i]]]]; [erewrite Hd by reflexivity; by vm_compute..|lia].
    + rewrite !lookup_ge_None_2; [done|cbn; lia|rewrite L; lia].
Defined.

(** The third thread adds. *)
Definition with_add : list request :=
  [GetIp some_mac; GetMac (v4_new 10 0 0 1); Add some_mac (v4_new 10 0 0 9); ContainsMac some_mac;
   Add some_mac (v4_new 10 0 0 1)].

Definition turns : list nat := repeat 0%nat 3 ++ concat (repeat [2; 1; 3; 4]%nat 12).

(** What each thread has at the end, and how many guards it holds *)
Definition ends (p : bool) : list (option reply * nat) :=
  map (fun th => (match running th with Done a => Some a | _ => None end, length (guards th)))
    (run_schedule turns (map start with_add, one_host p false)).1.

Example ends_waiting : ends false =
  [(Some (FoundIp (Some (v4_new 10 0 0 1))), 0%nat); (Some (FoundMac (Some some_mac)), 0%nat); (None, 2%nat);
   (None, 0%nat); (None, 0%nat)].
Proof. by vm_compute. Qed.

Example ends_panicked : ends true =
  [(Some (FoundIp (Some (v4_new 10 0 0 1))), 0%nat); (Some (FoundMac (Some some_mac)), 0%nat); (None, 0%nat);
   (Some (Contains false), 0%nat); (Some Nothing, 0%nat)].
Proof. by vm_compute. Qed.

Definition kept (p : bool) : Prop :=
  Acc (flip step) (map start with_add, one_host p false) /\
  same_tables (one_host p false) (run_schedule turns (map start with_add, one_host p false)).2.

Lemma add_ruins_table_witness : kept false /\ kept true.
Proof.
  assert (forall p, kept p) as K; [|by split]. intros p.
  pose proof (add_ruins_table (L := rw_lock p) (view := fun A => rw_view) with_add (one_host p false)
    (one_host_unheld p false)) as [Ha H].
  { by intros []. }
  { exists (Add some_mac (v4_new 10 0 0 9)). split; [|done]. apply (list_elem_of_lookup_2 _ 2%nat). reflexivity. }
  split; [exact Ha|].
  pose proof (run_threads_steps exec turns (map start with_add, one_host p false)) as R.
  unfold run_schedule. destruct (run_threads exec turns _) as [ts t]. exact (proj1 (H ts t R)).
Defined.
