(* ===== verification/Zmq.v ===== *)
(** * Messages and JSON

    The libraries through which a client and the engine talk: a [zmq] socket, as a type of
    states of the socket and the network behind it with the calls the engine makes, and
    [serde_json], as a type of values. *)

From S2P Require Import Prelude RustStr Ffi.

(** [zmq::REQ] and [zmq::REP] *)
Inductive SocketType := REQ | REP.

Class Zmq (N : Type) := {
  zmq_socket : SocketType -> N -> result unit Z * N;
  zmq_connect : rstr -> N -> result unit Z * N;
  zmq_send : rstr -> N -> result unit Z * N;
  zmq_recv : N -> result rstr Z * N;
  zmq_recv_dontwait : N -> result rstr Z * N;
  zmq_poll : Z -> N -> result Z Z * N;
  zmq_error_text : Z -> rstr;
}.

(** What a socket promises, seen through the messages [sent] so far: connecting sends
    nothing, and a message is sent exactly when the call says so. *)
Class ZmqLaws (N : Type) `{Zmq N} (sent : N -> list rstr) := {
  connect_law : forall a n r n', zmq_connect a n = (r, n') -> sent n' = sent n;
  send_law : forall m n r n', zmq_send m n = (r, n') ->
    sent n' = sent n ++ (if is_ok r then [m] else []);
}.

Definition net_call {N A} (f : N -> A * N) : M N A := fun n => Ret (f n).

(** [serde_json::from_str], and [v[key].as_u64()] *)
Class Json (V : Type) := {
  json_from_str : rstr -> result V rstr;
  json_u64 : V -> rstr -> option Z;
}.

(** ** What JSON texts start with

    RFC 8259: a text is a value between white space; an object is an opening brace, white
    space, and the closing brace or a name in double quotes. *)

Definition json_space (c : ascii) : bool :=
  let n := code c in (n =? 32) || (n =? 9) || (n =? 10) || (n =? 13).

Fixpoint skip_space (s : rstr) : rstr :=
  match s with
  | c :: s' => if json_space c then skip_space s' else s
  | [] => []
  end.

(** When the text is an object, it goes on as one. *)
Definition object_start_ok (s : rstr) : bool :=
  match skip_space s with
  | c :: s1 =>
      if code c =? 123 then
        match skip_space s1 with
        | d :: _ => (code d =? 34) || (code d =? 125)
        | [] => false
        end
      else true
  | [] => false
  end.

(** The parser accepts JSON texts only. *)
Class JsonLaws (V : Type) `{Json V} :=
  json_accepts : forall s v, json_from_str s = Ok v -> object_start_ok s = true.

(** ** Simple instances

    A network that records what is sent and answers with settable codes, and a parser of
    numbers. *)

Record sim_net := {
  net_connects : list bool;
  net_sends : list bool;
  net_sent : list rstr;
  net_inbox : list rstr;
}.

Definition next_bool (l : list bool) : bool * list bool :=
  match l with [] => (true, []) | b :: l => (b, l) end.

#[global] Instance SimZmq : Zmq sim_net := {|
  zmq_socket _ n := (Ok tt, n);
  zmq_connect _ n :=
    let '(b, l) := next_bool (net_connects n) in
    ((if b then Ok tt else Err 111),
     {| net_connects := l; net_sends := net_sends n; net_sent := net_sent n; net_inbox := net_inbox n |});
  zmq_send m n :=
    let '(b, l) := next_bool (net_sends n) in
    ((if b then Ok tt else Err 11),
     {| net_connects := net_connects n; net_sends := l;
        net_sent := if b then net_sent n ++ [m] else net_sent n; net_inbox := net_inbox n |});
  zmq_recv n :=
    match net_inbox n with
    | m :: l => (Ok m, {| net_connects := net_connects n; net_sends := net_sends n;
                          net_sent := net_sent n; net_inbox := l |})
    | [] => (Err 11, n)
    end;
  zmq_recv_dontwait n :=
    match net_inbox n with
    | m :: l => (Ok m, {| net_connects := net_connects n; net_sends := net_sends n;
                          net_sent := net_sent n; net_inbox := l |})
    | [] => (Err 11, n)
    end;
  zmq_poll _ n := (Ok (match net_inbox n with [] => 0 | _ => 1 end), n);
  zmq_error_text e := str "zmq error " ++ fmt_dec (Z.abs e);
|}.

Definition quiet_net : sim_net :=
  {| net_connects := []; net_sends := []; net_sent := []; net_inbox := [] |}.

#[global] Instance SimZmqLaws : ZmqLaws sim_net net_sent.
Proof.
  split; cbn.
  - intros a n r n'. destruct (next_bool _) as [b l]. by intros [= _ <-].
  - intros m n r n'. destruct (next_bool _) as [[] l]; intros [= <- <-]; cbn; [done|by rewrite app_nil_r].
Qed.

(** A value is a list of fields; the only text the parser knows is one of two fields. *)
#[global] Instance SimJson : Json (list (rstr * Z)) := {|
  json_from_str s :=
    if rstr_eqb s (str "{" ++ ["034"%char] ++ str "id" ++ ["034"%char] ++ str ":1," ++ ["034"%char]
                   ++ str "msg" ++ ["034"%char] ++ str ":0}")
    then Ok [(str "id", 1); (str "msg", 0)] else Err (str "expected value");
  json_u64 v k := match find (fun f => rstr_eqb (fst f) k) v with
                  | Some f => Some (snd f) | None => None end;
|}.

#[global] Instance SimJsonLaws : JsonLaws (list (rstr * Z)).
Proof.
  intros s v. unfold json_from_str, SimJson. destruct (rstr_eqb s _) eqn:E; [|done]. intros _.
  unfold rstr_eqb in E. apply bool_decide_eq_true in E as ->. by vm_compute.
Qed.
