(* ===== verification/ClientComm.v ===== *)
(** * Clients ([dockerlib/client_comm.rs])

    A container's side of the protocol: its number, the messages it sends the engine over
    [zmq] and the rings it looks up. *)

From S2P Require Import Prelude RustStr Ffi Dpdk DpdkSim DpdkCore Mbuf Ring Channel Zmq.

Definition SOCKET : rstr := str "tcp://localhost:5555".

Inductive ContMsgType :=
  | PodStarting
  | PodReady
  | PodStopping.

Definition cont_msg_code (m : ContMsgType) : Z :=
  match m with PodStarting => 0 | PodReady => 1 | PodStopping => 2 end.

(** [impl fmt::Display for ContMsgType] *)
Definition cont_msg_to_string (m : ContMsgType) : rstr :=
  match m with PodStarting => str "0" | PodReady => str "1" | PodStopping => str "2" end.

(** [impl From<ContMsgType> for zmq::Message] *)
Definition cont_msg_to_message (m : ContMsgType) : rstr := [of_code (cont_msg_code m)].

(** ** [ContainerMsg] *)

Record ContainerMsg := { msg_id : Z; msg : ContMsgType }.

Definition registration (id : Z) : ContainerMsg := {| msg_id := id; msg := PodStarting |}.
Definition ready (id : Z) : ContainerMsg := {| msg_id := id; msg := PodReady |}.
Definition terminating (id : Z) : ContainerMsg := {| msg_id := id; msg := PodStopping |}.

Definition newline : rstr := ["010"%char].

(** The raw string of the source, with its line breaks and indentation *)
Definition to_json (m : ContainerMsg) : rstr :=
  newline ++ str "        {" ++ newline
  ++ str "            'id': " ++ fmt_dec (msg_id m) ++ str "," ++ newline
  ++ str "            'msg': " ++ cont_msg_to_string (msg m) ++ str "," ++ newline
  ++ str "        }".

(** ** Client numbers *)

(** [CLIENT_ID: RwLock<u16>] *)
Record client_id_lock := { next_id : Z; id_poisoned : bool }.

Section client.
Context `{Profile}.

Definition get_dockerclient_id : M client_id_lock Z :=
  l ← get;
  if id_poisoned l then mret 0
  else
    let id := next_id l in
    next ← lift (uadd 16 id 1);
    _ ← modify (fun l => {| next_id := next; id_poisoned := id_poisoned l |});
    mret id.

Fixpoint take_ids (n : nat) : M client_id_lock (list Z) :=
  match n with
  | O => mret []
  | S n => id ← get_dockerclient_id; ids ← take_ids n; mret (id :: ids)
  end.

(** ** [ContainerClient] *)

Record ContainerClient := {
  id : Z;
  channel : option Channel.Channel;
}.

Section net.
Context {N : Type} `{!Zmq N}.

(** [new] takes a number even when the socket cannot be made. *)
Definition client_new (number : Z) : M N (result ContainerClient Z) :=
  r ← net_call (zmq_socket REQ);
  mret (match r with Ok _ => Ok {| id := number; channel := None |} | Err e => Err e end).

(** [for _ in 0..2 { if let Ok(_) = f { .. break } }]: whether one of the two tries worked *)
Definition retry_twice (f : N -> result unit Z * N) : M N bool :=
  r ← net_call f;
  match r with
  | Ok _ => mret true
  | Err _ => r ← net_call f; mret (is_ok r)
  end.

Definition client_msg (c : ContainerClient) (m : ContMsgType) : rstr :=
  match m with
  | PodStarting => to_json (registration (id c))
  | PodReady => to_json (ready (id c))
  | PodStopping => to_json (terminating (id c))
  end.

Definition send (c : ContainerClient) (m : ContMsgType) : M N (result unit Z) :=
  let cmsg := client_msg c m in
  r ← net_call (zmq_connect SOCKET);
  match r with
  | Err ce =>
      connected ← retry_twice (zmq_connect SOCKET);
      if negb connected then mret (Err ce) else mret (Ok tt)
  | Ok _ =>
      r ← net_call (zmq_send cmsg);
      match r with
      | Err se =>
          sent ← retry_twice (zmq_send cmsg);
          if negb sent then mret (Err se) else mret (Ok tt)
      | Ok _ => mret (Ok tt)
      end
  end.

Definition register (c : ContainerClient) : M N (result unit Z) :=
  r ← send c PodStarting;
  match r with
  | Err e => mret (Err e)
  | Ok _ => r ← net_call zmq_recv; mret (match r with Ok _ => Ok tt | Err e => Err e end)
  end.

Definition notify (c : ContainerClient) : M N (result unit Z) := send c PodReady.
Definition terminate (c : ContainerClient) : M N (result unit Z) := send c PodStopping.

(** ** The channel *)

Context {W : Type} `{!Dpdk W}.

Definition on_net {A} : M N A -> M (N * process W) A := zoom fst (fun n s => (n, snd s)).
Definition on_process {A} : M (process W) A -> M (N * process W) A := zoom snd (fun p s => (fst s, p)).

(** The name is handed to C without a terminating NUL, so that C reads on into [after name], the
    bytes that are in the memory behind the string up to the end of what can be read. *)
Definition ring_lookup (after : rstr -> rstr) (name : rstr) : M (process W) Z :=
  c ← lift (cstr_bytes (name ++ after name));
  ask (rte_ring_lookup c).

(** A ring that is not kept is dropped, and so is the channel the client had before. *)
Definition setup_channel (after : rstr -> rstr) (c : ContainerClient) : M (N * process W) ContainerClient :=
  r ← on_net (register c);
  if negb (is_ok r) then mret c else
  t ← on_process (ring_lookup after (str "TX-" ++ fmt_dec (id c)));
  match Ring.from_ptr (id c) TX t with
  | None => mret c
  | Some t_ring =>
      r ← on_process (ring_lookup after (str "RX-" ++ fmt_dec (id c)));
      match Ring.from_ptr (id c) RX r with
      | None => _ ← on_process (Ring.drop t_ring); mret c
      | Some r_ring =>
          _ ← match channel c with Some ch => on_process (Channel.drop ch) | None => mret tt end;
          mret {| id := id c; channel := Some (Channel.new t_ring r_ring) |}
      end
  end.

(** ** Lemmas *)

(** The counter gives out the numbers from its value on, all different, as long as 65535
    is not reached; the call that would hand out 65535 panics in a debug build, and in a
    release build it makes the next client share the number 0 with the first. *)
Theorem client_ids_distinct n first :
  0 <= first -> first + Z.of_nat n <= 65535 ->
  take_ids n {| next_id := first; id_poisoned := false |}
  = Ret (seqZ first (Z.of_nat n), {| next_id := first + Z.of_nat n; id_poisoned := false |})
  /\ NoDup (seqZ first (Z.of_nat n))
  /\ get_dockerclient_id {| next_id := 65535; id_poisoned := false |}
     = if overflow_checks then Panic ArithmeticOverflow
       else Ret (65535, {| next_id := 0; id_poisoned := false |}).
Proof.
  intros Hf Hn. split_and!; [|apply NoDup_seqZ|].
  - revert first Hf Hn. induction n as [|n IH]; intros first Hf Hn.
    { cbn. by rewrite Z.add_0_r. }
    cbn [take_ids]. unfold get_dockerclient_id at 1. rewrite bind_assoc. done_step.
    cbn [id_poisoned next_id]. rewrite bind_assoc. calc. rewrite bind_assoc. done_step. done_step.
    step (IH (first + 1)). rewrite (seqZ_cons first) by lia.
    replace (Z.pred (Z.of_nat (S n))) with (Z.of_nat n) by lia.
    by replace (first + Z.of_nat (S n)) with (first + 1 + Z.of_nat n) by lia.
  - unfold get_dockerclient_id. done_step. cbn [id_poisoned next_id].
    unfold mbind, M_bind, lift, uadd, arith. rewrite fits_false by (pow2_consts; lia).
    by destruct overflow_checks.
Qed.

(** The answers to a call that is repeated until one is [Ok], [k] times at most, and the state
    it leaves *)
Fixpoint attempts (k : nat) (f : N -> result unit Z * N) (n : N) : list (result unit Z) * N :=
  match k with
  | O => ([], n)
  | S k =>
      let '(r, n) := f n in
      if is_ok r then ([r], n) else let '(rs, n) := attempts k f n in (r :: rs, n)
  end.

(** [Ok] if one attempt worked, else the first error *)
Definition verdict (rs : list (result unit Z)) : result unit Z :=
  match rs with
  | r :: _ => if existsb is_ok rs then Ok tt else r
  | [] => Ok tt
  end.

Lemma attempts_first k f n :
  attempts (S k) f n = let '(r, n1) := f n in
    if is_ok r then ([r], n1) else let '(rs, n2) := attempts k f n1 in (r :: rs, n2).
Proof. done. Qed.

Lemma bind_call {A B} (f : N -> A * N) (k : A -> M N B) n :
  (r ← net_call f; k r) n = let '(r, n1) := f n in k r n1.
Proof. unfold net_call, mbind, M_bind. by destruct (f n). Qed.

(** The loop is two attempts. *)
Lemma bind_retry {A} f (k : bool -> M N A) n :
  (b ← retry_twice f; k b) n
  = k (existsb is_ok (fst (attempts 2 f n))) (snd (attempts 2 f n)).
Proof.
  unfold retry_twice, net_call, mbind, M_bind. cbn [attempts].
  destruct (f n) as [[u|e] n1]; [done|]. cbn [is_ok]. destruct (f n1) as [[u|e'] n2]; done.
Qed.

Section sent.
Context {sent : N -> list rstr} `{!ZmqLaws N sent}.

Lemma attempts_connect k n : sent (snd (attempts k (zmq_connect SOCKET) n)) = sent n.
Proof.
  revert n. induction k as [|k IH]; intros n; [done|]. cbn [attempts].
  destruct (zmq_connect SOCKET n) as [r n1] eqn:E. apply connect_law in E.
  destruct (is_ok r); [done|]. specialize (IH n1). destruct (attempts k _ n1). cbn in *. congruence.
Qed.

Lemma attempts_send k m n :
  sent (snd (attempts k (zmq_send m) n))
  = sent n ++ (if existsb is_ok (fst (attempts k (zmq_send m) n)) then [m] else []).
Proof.
  revert n. induction k as [|k IH]; intros n; [by rewrite app_nil_r|]. cbn [attempts].
  destruct (zmq_send m n) as [r n1] eqn:E. apply send_law in E.
  destruct (is_ok r) eqn:Hr; [by cbn; rewrite Hr|].
  specialize (IH n1). destruct (attempts k _ n1). cbn in *. rewrite Hr, IH, E. by rewrite app_nil_r.
Qed.

(** C37: What [send] does, for every sequence of answers of the socket. It connects until one
    attempt works, three times at most. If the very first works, it sends the message until one
    attempt works, three times at most, and answers [Ok] if one did and else the first error; the
    message is then sent once or not at all. If only a retry connects, it answers [Ok] although
    it sends nothing; if none of the three does, it answers the first error, and sends nothing. *)
Theorem send_outcome c m n :
  let '(connects, n1) := attempts 3 (zmq_connect SOCKET) n in
  let '(sends, n2) := attempts 3 (zmq_send (client_msg c m)) n1 in
  match connects with
  | Ok _ :: _ =>
      send c m n = Ret (verdict sends, n2) /\
      sent n2 = sent n ++ (if existsb is_ok sends then [client_msg c m] else [])
  | _ => send c m n = Ret (verdict connects, n1) /\ sent n1 = sent n
  end.
Proof.
  destruct (attempts 3 (zmq_connect SOCKET) n) as [connects n1] eqn:Ec.
  destruct (attempts 3 (zmq_send (client_msg c m)) n1) as [sends n2] eqn:Es.
  pose proof (attempts_connect 3 n) as Hc. rewrite Ec in Hc.
  pose proof (attempts_send 3 (client_msg c m) n1) as Hs. rewrite Es in Hs. cbn [fst snd] in Hc, Hs.
  rewrite attempts_first in Ec, Es. unfold send. rewrite bind_call.
  destruct (zmq_connect SOCKET n) as [[u|ce] n3]; cbn [is_ok] in Ec.
  - injection Ec as <- <-. rewrite Hc in Hs. split; [|exact Hs]. clear Hc Hs.
    rewrite bind_call. destruct (zmq_send (client_msg c m) n3) as [[[]|se] n4]; cbn [is_ok] in Es; [by injection Es as <- <-|].
    rewrite bind_retry. destruct (attempts 2 _ n4) as [rs n5]. injection Es as <- <-.
    cbn [verdict existsb is_ok orb fst snd]. by destruct (existsb is_ok rs).
  - rewrite bind_retry. destruct (attempts 2 _ n3) as [rs n5]. injection Ec as <- <-. split; [|exact Hc].
    cbn [verdict existsb is_ok orb fst snd]. by destruct (existsb is_ok rs).
Qed.

End sent.

Lemma name_no_nul prefix n :
  Forall (fun c => c <> NUL) prefix -> 0 <= n -> Forall (fun c => c <> NUL) (prefix ++ fmt_dec n).
Proof.
  intros Hp Hn. apply Forall_app. split; [done|].
  eapply Forall_impl; [apply (fmt_radix_avoid 10 n (Ascii.eqb NUL)); [lia|done|]|].
  - intros c Hc%Ascii.eqb_eq. by subst c.
  - intros c Hc E. cbn beta in Hc. subst c. discriminate Hc.
Qed.

(** The names of a client's rings *)
Definition ring_name (prefix : string) (id : Z) : rstr := str prefix ++ fmt_dec id.

Lemma tx_name_no_nul n : 0 <= n -> Forall (fun c => c <> NUL) (ring_name "TX-" n).
Proof. apply name_no_nul. repeat (apply Forall_cons_2; [done|]). apply Forall_nil_2. Qed.

Lemma rx_name_no_nul n : 0 <= n -> Forall (fun c => c <> NUL) (ring_name "RX-" n).
Proof. apply name_no_nul. repeat (apply Forall_cons_2; [done|]). apply Forall_nil_2. Qed.

(** C looks up the name together with the bytes up to the next zero byte, *)
Lemma ring_lookup_run after name more rest (s : process W) :
  Forall (fun c => c <> NUL) name -> Forall (fun c => c <> NUL) more -> after name = more ++ NUL :: rest ->
  ring_lookup after name s = Ret (rte_ring_lookup (name ++ more) (ext s), s).
Proof.
  intros Hn Hm E. unfold ring_lookup. rewrite E, app_assoc, cstr_bytes_app; [done|]. by apply Forall_app.
Qed.

(** and reads outside the memory when there is none. *)
Lemma ring_lookup_undefined after name (s : process W) :
  Forall (fun c => c <> NUL) name -> Forall (fun c => c <> NUL) (after name) ->
  ring_lookup after name s = Undefined.
Proof.
  intros Hn Ha. unfold ring_lookup, mbind at 1, M_bind, lift.
  rewrite cstr_bytes_unterminated; [done|]. by apply Forall_app.
Qed.

(** Whenever the registration is answered and no zero byte follows the name of the ring in the
    memory, setting up the channel is undefined behaviour. *)
Theorem setup_channel_undefined after c (s : N * process W) n' :
  0 <= id c -> register c (fst s) = Ret (Ok tt, n') ->
  Forall (fun c => c <> NUL) (after (ring_name "TX-" (id c))) -> setup_channel after c s = Undefined.
Proof.
  intros Hid Hr Ha. unfold setup_channel, on_net.
  erewrite bind_ret by (apply zoom_run; exact Hr). cbn [is_ok negb].
  unfold mbind, M_bind, on_process, zoom.
  change (str "TX-" ++ fmt_dec (id c)) with (ring_name "TX-" (id c)).
  rewrite ring_lookup_undefined; [done|by apply tx_name_no_nul|done].
Qed.

(** When no ring has the name that is read, the client is left as it was. *)
Lemma setup_channel_unknown after c (s : N * process W) n' more rest :
  0 <= id c -> register c (fst s) = Ret (Ok tt, n') ->
  after (ring_name "TX-" (id c)) = more ++ NUL :: rest -> Forall (fun c => c <> NUL) more ->
  rte_ring_lookup (ring_name "TX-" (id c) ++ more) (ext (snd s)) = 0 ->
  setup_channel after c s = Ret (c, (n', snd s)).
Proof.
  intros Hid Hr Ha Hm Hl. unfold setup_channel, on_net.
  erewrite bind_ret by (apply zoom_run; exact Hr). cbn [is_ok negb].
  erewrite bind_ret by (apply zoom_run; apply (ring_lookup_run _ (ring_name "TX-" (id c)) more rest); [by apply tx_name_no_nul|done|done]).
  cbn [snd]. unfold Ring.from_ptr. by rewrite Hl.
Qed.

(** When both are found, they become the channel of a client that had none. *)
Lemma setup_channel_found after c (s : N * process W) n' mt rt mr rr t r :
  0 <= id c -> channel c = None -> register c (fst s) = Ret (Ok tt, n') ->
  after (ring_name "TX-" (id c)) = mt ++ NUL :: rt -> Forall (fun c => c <> NUL) mt ->
  after (ring_name "RX-" (id c)) = mr ++ NUL :: rr -> Forall (fun c => c <> NUL) mr ->
  rte_ring_lookup (ring_name "TX-" (id c) ++ mt) (ext (snd s)) = t -> t <> 0 ->
  rte_ring_lookup (ring_name "RX-" (id c) ++ mr) (ext (snd s)) = r -> r <> 0 ->
  setup_channel after c s
  = Ret ({| id := id c; channel := Some (Channel.new
           {| Ring.client_id := id c; Ring.rtype := TX; Ring.raw := t |}
           {| Ring.client_id := id c; Ring.rtype := RX; Ring.raw := r |}) |}, (n', snd s)).
Proof.
  intros Hid Hn Hr Ht Hmt Hr' Hmr Lt Nt Lr Nr. unfold setup_channel, on_net.
  erewrite bind_ret by (apply zoom_run; exact Hr). cbn [is_ok negb].
  erewrite bind_ret by (apply zoom_run; apply (ring_lookup_run _ (ring_name "TX-" (id c)) mt rt); [by apply tx_name_no_nul|done|done]).
  cbn [snd fst]. unfold Ring.from_ptr at 1.
  rewrite Lt, (proj2 (Z.eqb_neq t 0)) by done.
  erewrite bind_ret by (apply zoom_run; apply (ring_lookup_run _ (ring_name "RX-" (id c)) mr rr); [by apply rx_name_no_nul|done|done]).
  cbn [snd fst]. unfold Ring.from_ptr.
  rewrite Lr, (proj2 (Z.eqb_neq r 0)) by done. by rewrite Hn.
Qed.

End net.
End client.

(** ** Witnesses *)

#[local] Instance witness_profile : Profile := debug.

Lemma client_ids_distinct_witness :
  take_ids 3 {| next_id := 65532; id_poisoned := false |}
  = Ret ([65532; 65533; 65534], {| next_id := 65535; id_poisoned := false |}).
Proof. exact (proj1 (client_ids_distinct 3 65532 ltac:(lia) ltac:(lia))). Defined.

Definition client7 : ContainerClient := {| id := 7; channel := None |}.

(** The first connection fails, the second works: [Ok], and nothing sent. *)
Definition bad_net : sim_net :=
  {| net_connects := [false; true]; net_sends := []; net_sent := []; net_inbox := [] |}.

Lemma send_outcome_witness :
  exists n', send client7 PodReady bad_net = Ret (Ok tt, n') /\ net_sent n' = [].
Proof.
  eexists. exact (send_outcome (sent := net_sent) client7 PodReady bad_net).
Defined.

Definition good_net : sim_net :=
  {| net_connects := []; net_sends := []; net_sent := []; net_inbox := [str "1"] |}.

Definition registered_net : sim_net :=
  {| net_connects := []; net_sends := []; net_sent := [to_json (registration 7)]; net_inbox := [] |}.

Lemma setup_channel_undefined_witness :
  setup_channel (fun _ => str "garbage") client7 (good_net, sim_process sim_empty []) = Undefined.
Proof.
  apply (setup_channel_undefined (fun _ => str "garbage") client7
    (good_net, sim_process sim_empty []) registered_net).
  - cbn. lia.
  - reflexivity.
  - repeat (apply Forall_cons_2; [done|]). apply Forall_nil_2.
Defined.
