(* ===== verification/ClientIds.v ===== *)
(** * Client numbers between threads ([dockerlib/client_comm.rs])

    [get_dockerclient_id] as a task: its calls on the lock [CLIENT_ID] and its accesses to the
    number behind it happen one at a time, so that clients made by many threads interleave. The
    lock is the standard library's [RwLock], which this function only takes for writing. *)

From stdpp Require Import relations.
From S2P Require Import Prelude Threads ClientComm.
From Stdlib Require Import Permutation.

(** ** The lock and the task *)

Record id_lock := {
  value : Z;
  writer : option nat;
  poisoned : bool;
}.

(** [Drop true] drops the guard of a thread that panics, which poisons the lock. *)
Inductive task :=
  | Done (id : Z)
  | Unwound
  | Write (k : bool -> task)
  | Load (k : Z -> task)
  | Store (v : Z) (k : task)
  | Drop (panicking : bool) (k : task).

Definition exec (i : nat) (m : task) (s : id_lock) : option (task * id_lock) :=
  match m with
  | Done _ | Unwound => None
  | Write k =>
      match writer s with
      | None => Some (k (negb (poisoned s)),
          {| value := value s; writer := Some i; poisoned := poisoned s |})
      | Some _ => None
      end
  | Load k => Some (k (value s), s)
  | Store v k => Some (k, {| value := v; writer := writer s; poisoned := poisoned s |})
  | Drop p k => Some (k, {| value := value s; writer := None; poisoned := poisoned s || p |})
  end.

Section client_ids.
Context {HP : Profile}.

(** [*cl_id += 1] *)
Definition increment (id : Z) : task :=
  Load (fun v =>
    match uadd 16 v 1 with
    | Ret v => Store v (Drop false (Done id))
    | _ => Drop true Unwound
    end).

(** [let mut id = 0; if let Ok(mut cl_id) = CLIENT_ID.write() { id = *cl_id; *cl_id += 1; }] *)
Definition get_dockerclient_id : task :=
  Write (fun ok => if ok : bool then Load increment else Drop false (Done 0)).

Definition step : list task * id_lock -> list task * id_lock -> Prop := threads_step exec.

(** Alone, in six calls, the task is the function of [ClientComm]; a panic poisons the lock. *)
Lemma id_task_alone n bad :
  run_threads exec (repeat 0%nat 6) ([get_dockerclient_id], {| value := n; writer := None; poisoned := bad |}) =
  match ClientComm.get_dockerclient_id {| next_id := n; id_poisoned := bad |} with
  | Ret (id, l) => ([Done id], {| value := next_id l; writer := None; poisoned := id_poisoned l |})
  | _ => ([Unwound], {| value := n; writer := None; poisoned := true |})
  end.
Proof.
  destruct bad; [done|]. unfold ClientComm.get_dockerclient_id, mbind, M_bind, lift. cbn.
  unfold increment. unfold uadd, arith. destruct (fits 16 (n + 1)); [done|].
  by destruct overflow_checks.
Qed.

(** ** Every schedule *)

Lemma id_task_acc m : Acc (next_thread exec) m.
Proof.
  induction m as [id| |k IH|k IH|v k IH|p k IH]; constructor; intros m (i & s & s' & E); cbn in E; try discriminate E.
  - destruct (writer s); [discriminate E|]. by injection E as <- _.
  - by injection E as <- _.
  - by injection E as <- _.
  - by injection E as <- _.
Qed.

Lemma id_step_acc c : Acc (flip step) c.
Proof. apply threads_step_acc, id_task_acc. Qed.

Section counter.
Context (first : Z) (n : nat).
Context (first_ok : 0 <= first <= 65535).
Context (checked : overflow_checks = true \/ first + Z.of_nat n <= 65535).

(** Where a thread is: whether it has the guard, and the number it was given *)
Inductive at_point (s : id_lock) : bool -> list Z -> task -> Prop :=
  | at_start : at_point s false [] get_dockerclient_id
  | at_read : poisoned s = false -> at_point s true [] (Load increment)
  | at_increment : poisoned s = false -> at_point s true [] (increment (value s))
  | at_store : poisoned s = false -> value s < 65535 ->
      at_point s true [] (Store (value s + 1) (Drop false (Done (value s))))
  | at_leave id : poisoned s = false -> at_point s true [id] (Drop false (Done id))
  | at_overflow : poisoned s = false -> value s = 65535 -> at_point s true [] (Drop true Unwound)
  | at_refused : poisoned s = true -> at_point s true [] (Drop false (Done 0))
  | at_done id : at_point s false [id] (Done id)
  | at_nothing : poisoned s = true -> at_point s false [] (Done 0)
  | at_unwound : poisoned s = true -> at_point s false [] Unwound.

Definition holds (s : id_lock) (i : nat) : bool := bool_decide (writer s = Some i).

(** The numbers from [first] to the counter are in the hands of the threads. *)
Record counted (hands : list (list Z)) (c : list task * id_lock) : Prop := {
  cnt_length : length c.1 = n /\ length hands = n;
  cnt_points : forall i m h, c.1 !! i = Some m -> hands !! i = Some h -> at_point c.2 (holds c.2 i) h m;
  cnt_hands : concat hands ≡ₚ seqZ first (value c.2 - first);
  cnt_value : first <= value c.2 <= 65535;
  cnt_poisoned : poisoned c.2 = true -> value c.2 = 65535 /\
    exists i, c.1 !! i = Some Unwound /\ forall j, c.1 !! j = Some Unwound -> j = i;
  cnt_writer : forall i, writer c.2 = Some i -> (i < n)%nat;
}.

Lemma point_short s b h m : at_point s b h m -> (length h <= 1)%nat.
Proof. destruct 1; cbn; lia. Qed.

Lemma concat_short (hands : list (list Z)) : Forall (fun h => (length h <= 1)%nat) hands ->
  (length (concat hands) <= length hands)%nat.
Proof. induction 1 as [|h hands Hh _ IH]; cbn; [lia|]. rewrite length_app. lia. Qed.

(** One thread has no number: there is room for one more. *)
Lemma counter_room hands ts s i : counted hands (ts, s) -> hands !! i = Some [] ->
  value s < first + Z.of_nat n.
Proof.
  intros [[Lt Lh] Pt Ph V _ _] Ei. cbn [fst snd] in *. apply Permutation_length in Ph.
  rewrite length_seqZ in Ph. destruct (concat_exchange hands i [] [0] Ei) as (rest & P & P').
  apply Permutation_length in P, P'. cbn in P, P'.
  assert (length (concat (<[i := [0%Z]]> hands)) <= length (<[i := [0%Z]]> hands))%nat as H.
  { apply concat_short, Forall_insert; [|cbn; lia]. apply Forall_lookup. intros j h Ej.
    destruct (lookup_lt_is_Some_2 ts j) as [m Em]; [rewrite Lt, <- Lh; by eapply lookup_lt_Some|].
    by eapply point_short, Pt. }
  rewrite length_insert in H. lia.
Qed.

(** A point of a thread that has not the guard does not depend on who has it. *)
Lemma point_kept s s' h m : (poisoned s = true -> poisoned s' = true) ->
  at_point s false h m -> at_point s' false h m.
Proof. intros Hp H. inversion H; subst; constructor; auto. Qed.

(** A call of thread [i]: what is to be shown of it *)
Lemma counted_call hands ts s i m h m' h' s' :
  counted hands (ts, s) -> ts !! i = Some m -> hands !! i = Some h -> m <> Unwound ->
  (forall j, j <> i -> holds s j = false /\ holds s' j = false) ->
  (poisoned s = true -> poisoned s' = true) ->
  at_point s' (holds s' i) h' m' ->
  (forall rest, h ++ rest ≡ₚ seqZ first (value s - first) -> h' ++ rest ≡ₚ seqZ first (value s' - first)) ->
  first <= value s' <= 65535 ->
  (poisoned s' = true -> value s' = 65535 /\ if poisoned s then m' <> Unwound else m' = Unwound) ->
  counted (<[i := h']> hands) (<[i := m']> ts, s').
Proof.
  intros [[Lt Lh] Pt Ph V Po W] Em Eh Hm Hh Hp Hpt Hperm V' Hpo. cbn [fst snd] in *.
  assert (i < n)%nat as Hi by (rewrite <- Lt; by eapply lookup_lt_Some).
  split; cbn [fst snd].
  - by rewrite !length_insert.
  - intros j m2 h2 Ej Ehj. destruct (decide (j = i)) as [->|Hne].
    + rewrite list_lookup_insert_eq in Ej by lia. rewrite list_lookup_insert_eq in Ehj by lia. injection Ej as <-. by injection Ehj as <-.
    + rewrite list_lookup_insert_ne in Ej by done. rewrite list_lookup_insert_ne in Ehj by done. destruct (Hh j Hne) as [H1 H2]. rewrite H2.
      eapply point_kept; [exact Hp|]. rewrite <- H1. by apply Pt.
  - destruct (concat_exchange hands i h h' Eh) as (rest & P & P'). rewrite P'. apply Hperm. by rewrite <- P.
  - done.
  - intros Hb. destruct (Hpo Hb) as [Hv Hu]. split; [done|]. destruct (poisoned s) eqn:Eb.
    + destruct (Po eq_refl) as (_ & j & Ej & Hj). assert (j <> i) as Hne by (intros ->; congruence).
      exists j. split; [by rewrite list_lookup_insert_ne|]. intros k Ek. apply Hj.
      destruct (decide (k = i)) as [->|Hk]; [|by rewrite list_lookup_insert_ne in Ek].
      rewrite list_lookup_insert_eq in Ek by lia. congruence.
    + exists i. subst m'. split; [by rewrite list_lookup_insert_eq by lia|]. intros k Ek.
      destruct (decide (k = i)) as [->|Hk]; [done|exfalso]. rewrite list_lookup_insert_ne in Ek by done.
      destruct (lookup_lt_is_Some_2 hands k) as [hk Ehk]; [rewrite Lh, <- Lt; by eapply lookup_lt_Some|].
      specialize (Pt k _ _ Ek Ehk). inversion Pt. congruence.
  - intros j Hj. destruct (decide (j = i)) as [->|Hne]; [done|]. destruct (Hh j Hne) as [_ H2].
    unfold holds in H2. by rewrite bool_decide_eq_false in H2.
Qed.

Lemma holder_alone s i : holds s i = true -> forall j, j <> i -> holds s j = false.
Proof. unfold holds. rewrite bool_decide_eq_true. intros -> j Hj. apply bool_decide_eq_false. congruence. Qed.

Lemma counted_step hands c c' : counted hands c -> step c c' -> exists hands', counted hands' c'.
Proof.
  intros C S. destruct S as [ts i m s m' s' Em E].
  destruct (lookup_lt_is_Some_2 hands i) as [h Eh].
  { destruct (cnt_length _ _ C) as [Lt Lh]. cbn in Lt. rewrite Lh, <- Lt. by eapply lookup_lt_Some. }
  pose proof (cnt_points _ _ C i m h Em Eh) as Hpt. cbn [fst snd] in Hpt.
  pose proof (cnt_value _ _ C) as V. pose proof (cnt_poisoned _ _ C) as Po. cbn [fst snd] in V, Po.
  destruct (holds s i) eqn:Hi.
  - pose proof (holder_alone s i Hi) as Ho. unfold holds in Hi. rewrite bool_decide_eq_true in Hi.
    assert (Hheld : holds s i = true) by (unfold holds; by rewrite bool_decide_eq_true).
    inversion Hpt as [|Hp|Hp|Hp Hv|id Hp|Hp Hv|Hp| | |]; subst; cbn in E.
    + injection E as <- <-. eexists. eapply counted_call with (h' := []); try done; auto; rewrite ?Hp; try done.
      rewrite Hheld. by constructor.
    + injection E as <- <-. eexists. eapply counted_call with (h' := []); try done; auto; rewrite ?Hp; try done.
      rewrite Hheld. destruct (decide (value s = 65535)) as [Ev|Ev].
      * unfold uadd, arith. rewrite Ev, fits_false by (pow2_consts; lia).
        pose proof (counter_room _ _ _ i C Eh). destruct checked as [->|Hc]; [by constructor|lia].
      * unfold uadd. rewrite arith_fits by (pow2_consts; lia). constructor; [done|lia].
    + injection E as <- <-. eexists. eapply counted_call with (h' := [value s]); try done; auto;
        cbn [value poisoned writer]; rewrite ?Hp; try done.
      * intros j Hj. split; [by apply Ho|by apply (Ho j)].
      * unfold holds. cbn [writer]. rewrite bool_decide_true by done. by constructor.
      * intros rest. cbn [app]. intros ->. replace (value s + 1 - first) with (value s - first + 1) by lia.
        rewrite seqZ_app by lia. replace (first + (value s - first)) with (value s) by lia.
        rewrite (seqZ_cons (value s)) by lia. apply Permutation_cons_append.
      * lia.
    + injection E as <- <-. eexists. eapply counted_call with (h' := [id]); try done; auto;
        cbn [value poisoned writer]; rewrite ?Hp; try done.
      constructor.
    + injection E as <- <-. eexists. eapply counted_call with (h' := []); try done; auto;
        cbn [value poisoned writer]; rewrite ?Hp; try done.
      * by constructor.
    + injection E as <- <-. eexists. eapply counted_call with (h' := []); try done; auto;
        cbn [value poisoned writer]; rewrite ?Hp; try done.
      * by constructor.
      * intros _. split; [|done]. by apply Po.
  - inversion Hpt; subst; try discriminate E. unfold exec, get_dockerclient_id in E.
    destruct (writer s) eqn:Ew; [discriminate E|]. injection E as <- <-.
    eexists. eapply counted_call with (h' := []); try done; auto; cbn [value poisoned writer].
    + intros j Hj. unfold holds. cbn [writer]. rewrite Ew. rewrite !bool_decide_false by congruence. done.
    + unfold holds. cbn [writer]. rewrite bool_decide_true by done. destruct (poisoned s) eqn:Hp; by constructor.
    + intros Hp. rewrite Hp. split; [by apply Po|done].
Qed.

Lemma counted_start s : writer s = None -> poisoned s = false -> value s = first ->
  counted (replicate n []) (replicate n get_dockerclient_id, s).
Proof.
  intros Hw Hp Hv. split; cbn [fst snd].
  - by rewrite !length_replicate.
  - intros i m h Em Eh. apply lookup_replicate in Em as [-> _], Eh as [-> _]. unfold holds. rewrite Hw.
    rewrite bool_decide_false by done. constructor.
  - rewrite Hv, Z.sub_diag. clear. induction n as [|k IH]; [done|exact IH].
  - lia.
  - congruence.
  - congruence.
Qed.

(** What a thread has when it cannot go on: a number, none, or its panic *)
Inductive got : task -> list Z -> Prop :=
  | got_number id : got (Done id) [id]
  | got_zero : got (Done 0) []
  | got_panic : got Unwound [].

Lemma counted_end hands ts s : counted hands (ts, s) -> threads_ended exec (ts, s) ->
  writer s = None /\ Forall2 got ts hands.
Proof.
  intros C He. destruct (cnt_length _ _ C) as [Lt Lh]. cbn [fst snd] in *.
  assert (writer s = None) as Hw.
  { destruct (writer s) as [i|] eqn:Hw; [exfalso|done]. pose proof (cnt_writer _ _ C i Hw) as Hi.
    destruct (lookup_lt_is_Some_2 ts i ltac:(lia)) as [m Em], (lookup_lt_is_Some_2 hands i ltac:(lia)) as [h Eh].
    pose proof (cnt_points _ _ C i m h Em Eh) as Hpt. specialize (He i m Em). cbn [fst snd] in *.
    unfold holds in Hpt. rewrite bool_decide_true in Hpt by done. inversion Hpt; subst; discriminate He. }
  split; [done|]. apply Forall2_same_length_lookup. split; [congruence|]. intros i m h Em Eh.
  pose proof (cnt_points _ _ C i m h Em Eh) as Hpt. specialize (He i m Em). cbn [fst snd] in *.
  inversion Hpt; subst; try discriminate He; try constructor.
  unfold exec, get_dockerclient_id in He. by rewrite Hw in He.
Qed.

End counter.

(** C8: However the calls of clients that are made by any number of threads interleave, no schedule
    goes on for ever, and where it ends every thread has returned or panicked. While the numbers
    last, each client has its own, and together they have the next ones of the counter. In a debug
    build that runs out of them exactly one client panics, at 65535; those before it have the
    numbers below, one each, and every client after it gets the number 0, which is no longer its
    own. *)
Theorem client_ids_threads first n s :
  0 <= first <= 65535 -> overflow_checks = true \/ first + Z.of_nat n <= 65535 ->
  s = {| value := first; writer := None; poisoned := false |} ->
  let start := (replicate n get_dockerclient_id, s) in
  Acc (flip step) start /\
  forall ts s', rtc step start (ts, s') ->
    (exists c, step (ts, s') c) \/
    writer s' = None /\ exists hands, Forall2 got ts hands /\
    if first + Z.of_nat n <=? 65535
    then poisoned s' = false /\ (exists ids, ts = map Done ids /\ hands = map (fun id => [id]) ids) /\
      concat hands ≡ₚ seqZ first (Z.of_nat n)
    else poisoned s' = true /\ concat hands ≡ₚ seqZ first (65535 - first) /\
      exists i, ts !! i = Some Unwound /\ forall j, ts !! j = Some Unwound -> j = i.
Proof.
  intros Hf Hc -> start. split; [apply id_step_acc|]. intros ts s' R.
  assert (exists hands, counted first n hands (ts, s')) as [hands C].
  { eapply (threads_invariant exec (fun c => exists hands, counted first n hands c)); [| |exact R].
    - intros c1 c2 [hands C] S. by eapply counted_step.
    - eexists. by apply counted_start. }
  destruct (steps_or_ended exec (ts, s')) as [H|He]; [by left|right].
  destruct (counted_end _ _ _ _ _ C He) as [Hw Hg]. split; [done|]. exists hands. split; [done|].
  pose proof (cnt_value _ _ _ _ C) as V. pose proof (cnt_hands _ _ _ _ C) as P. cbn [fst snd] in V, P.
  destruct (cnt_length _ _ _ _ C) as [Lt Lh]. cbn [fst] in Lt. destruct (poisoned s') eqn:Hp.
  - destruct (cnt_poisoned _ _ _ _ C Hp) as (Ev & i & Ei & Hi). cbn [fst snd] in *.
    destruct (Forall2_lookup_l _ _ _ _ _ Hg Ei) as (h & Eh & Hgh). inversion Hgh; subst.
    pose proof (counter_room first _ hands ts s' i C Eh) as Hroom.
    destruct (Z.leb_spec (first + Z.of_nat (length ts)) 65535); [lia|]. rewrite Ev in P.
    split; [done|]. split; [done|]. by exists i.
  - assert (exists ids, ts = map Done ids /\ hands = map (fun id => [id]) ids) as (ids & -> & ->).
    { assert (forall i m h, ts !! i = Some m -> hands !! i = Some h -> exists b, at_point s' b h m) as Pt
        by (intros; eexists; by apply (cnt_points _ _ _ _ C)).
      clear - Pt Hp Hg.
      induction Hg as [|m h ts hands Hm _ IH]; [by exists []|].
      destruct IH as (ids & -> & ->); [intros i; apply (Pt (S i))|].
      destruct (Pt 0%nat m h eq_refl eq_refl) as [b Hb]. destruct Hm as [id| |].
      - by exists (id :: ids).
      - inversion Hb; congruence.
      - inversion Hb; congruence. }
    rewrite length_map in Lt. assert (concat (map (fun id => [id]) ids) = ids) as Ec.
    { clear. induction ids as [|id ids IH]; [done|]. cbn. by rewrite IH. }
    rewrite Ec in *. pose proof (Permutation_length P) as Hl. rewrite length_seqZ in Hl.
    replace (value s' - first) with (Z.of_nat n) in P by lia.
    rewrite (proj2 (Z.leb_le _ _)) by lia. split; [done|]. split; [by exists ids|done].
Qed.

End client_ids.

(** ** Schedules that run *)

#[local] Instance witness_profile : Profile := debug.

(** Three clients and two numbers *)
Definition late : id_lock := {| value := 65533; writer := None; poisoned := false |}.

Definition turns : list nat := concat (repeat [2; 0; 1]%nat 14).

Example late_clients : run_threads exec turns (replicate 3 get_dockerclient_id, late) =
  ([Done 65534; Unwound; Done 65533], {| value := 65535; writer := None; poisoned := true |}).
Proof. by vm_compute. Qed.

Lemma client_ids_threads_witness :
  let start := (replicate 3 get_dockerclient_id, late) in
  Acc (flip step) start /\
  forall ts s', rtc step start (ts, s') -> (exists c, step (ts, s') c) \/
    exists i, ts !! i = Some Unwound.
Proof.
  pose proof (client_ids_threads 65533 3 late ltac:(lia) (or_introl eq_refl) eq_refl) as [Ha H].
  split; [exact Ha|]. intros ts s' R. destruct (H ts s' R) as [S|(_ & hands & _ & _ & _ & i & E & _)]; [by left|right].
  by exists i.
Defined.
