(* ===== verification/ArrayQueue.v ===== *)
(** * Queues and one-shot channels

    [crossbeam]'s [ArrayQueue], a bounded queue, and the receiving end of a one-shot channel
    of [futures], as interfaces with the behaviour their documentation gives. *)

From S2P Require Import Prelude.

Class ArrayQueue (Q : Type -> Type) := {
  aq_is_full : forall {A}, Q A -> bool;
  aq_is_empty : forall {A}, Q A -> bool;
  aq_push : forall {A}, A -> Q A -> result unit A * Q A;
  aq_pop : forall {A}, Q A -> option A * Q A;
}.

Class ArrayQueueLaws (Q : Type -> Type) `{ArrayQueue Q} (items : forall A, Q A -> list A)
    (capacity : forall A, Q A -> nat) := {
  aq_full_law : forall A (q : Q A), aq_is_full q = (capacity A q <=? length (items A q))%nat;
  aq_empty_law : forall A (q : Q A), aq_is_empty q = true <-> items A q = [];
  aq_push_law : forall A (x : A) (q : Q A), aq_is_full q = false -> exists q',
    aq_push x q = (Ok tt, q') /\ items A q' = items A q ++ [x] /\ capacity A q' = capacity A q;
  aq_push_full_law : forall A (x : A) (q : Q A), aq_is_full q = true -> aq_push x q = (Err x, q);
  aq_pop_law : forall A (q : Q A) x l, items A q = x :: l -> exists q',
    aq_pop q = (Some x, q') /\ items A q' = l /\ capacity A q' = capacity A q;
}.

Record bounded (A : Type) := Bounded { bound : nat; elements : list A }.
Arguments Bounded {A}.
Arguments bound {A}.
Arguments elements {A}.

#[global] Instance bounded_ArrayQueue : ArrayQueue bounded := {|
  aq_is_full A q := (bound q <=? length (elements q))%nat;
  aq_is_empty A q := match elements q with [] => true | _ => false end;
  aq_push A x q :=
    if (bound q <=? length (elements q))%nat then (Err x, q)
    else (Ok tt, Bounded (bound q) (elements q ++ [x]));
  aq_pop A q := match elements q with
    | [] => (None, q)
    | x :: l => (Some x, Bounded (bound q) l)
    end;
|}.

#[global] Instance bounded_ArrayQueueLaws :
  ArrayQueueLaws bounded (fun A q => elements q) (fun A q => bound q).
Proof.
  split.
  - done.
  - intros A [b []]; cbn; done.
  - intros A x q. unfold aq_is_full, aq_push, bounded_ArrayQueue. intros ->. by eexists.
  - intros A x q. unfold aq_is_full, aq_push, bounded_ArrayQueue. by intros ->.
  - intros A [b l] x l' E. cbn in E. subst l. by eexists.
Qed.

(** [Receiver::try_recv]: [Ok(None)] while the sender lives and has sent nothing, [Ok(Some)]
    once, [Err(Canceled)] when the sender is gone. *)
Class Receiver (R : Type) := try_recv : R -> result (option unit) unit * R.

(** What a thread can find in the channel *)
Inductive one_shot := Silent | Sent_ | Gone.

#[global] Instance one_shot_Receiver : Receiver one_shot := fun r =>
  match r with
  | Silent => (Ok None, Silent)
  | Sent_ => (Ok (Some tt), Gone)
  | Gone => (Err tt, Gone)
  end.
