(* ===== verification/Deque.v ===== *)
(** * Work-stealing queues

    [crossbeam]'s [Worker], [Stealer] and [Injector] as an interface: a type of states of all
    the queues, and the calls the engine makes. A worker and its stealers are one queue, so
    all three are the number of a queue. The laws are the documented behaviour of queues
    whose worker was made by [new_fifo], while no other thread uses them. *)

From S2P Require Import Prelude.
From Stdlib Require Import Permutation.

Inductive Steal (A : Type) := Empty | Success (a : A) | Retry.
Arguments Empty {A}.
Arguments Success {A} a.
Arguments Retry {A}.

Class Deques (D A : Type) := {
  injector_new : D -> Z * D;
  worker_new_fifo : D -> Z * D;
  worker_stealer : Z -> Z;
  worker_len : Z -> D -> Z;
  worker_push : Z -> A -> D -> D;
  worker_pop : Z -> D -> option A * D;
  stealer_steal : Z -> D -> Steal A * D;
  steal_batch : Z -> Z -> D -> Steal unit * D;
}.

(** [queues] is what each queue holds, the oldest first. How many elements a batch has is the
    library's choice; a steal may find nothing, or give up, at any time. *)
Class DequesLaws (D A : Type) `{Deques D A} (queues : D -> gmap Z (list A)) := {
  len_law : forall h d l, queues d !! h = Some l -> worker_len h d = Z.of_nat (length l);
  push_law : forall h x d l, queues d !! h = Some l ->
    queues (worker_push h x d) = <[h := l ++ [x]]> (queues d);
  pop_law : forall h d x l, queues d !! h = Some (x :: l) -> exists d',
    worker_pop h d = (Some x, d') /\ queues d' = <[h := l]> (queues d);
  pop_empty_law : forall h d, queues d !! h = Some [] -> exists d',
    worker_pop h d = (None, d') /\ queues d' = queues d;
  steal_law : forall h d l, queues d !! h = Some l -> exists r d',
    stealer_steal h d = (r, d') /\
    match r with
    | Success x => exists l', l = x :: l' /\ queues d' = <[h := l']> (queues d)
    | _ => queues d' = queues d
    end;
  batch_law : forall g h d lg lh, queues d !! g = Some lg -> queues d !! h = Some lh -> g <> h ->
    exists r d' k, steal_batch g h d = (r, d') /\
      queues d' = <[h := lh ++ take k lg]> (<[g := drop k lg]> (queues d));
}.

(** ** What all the queues hold *)

Section held.
Context {A : Type}.

Definition held (q : gmap Z (list A)) : list A := concat (map snd (map_to_list q)).

Lemma held_delete q h l : q !! h = Some l -> held q ≡ₚ l ++ held (delete h q).
Proof.
  intros E. unfold held. rewrite <- (map_to_list_delete q h l E). done.
Qed.

Lemma held_insert q h l : held (<[h := l]> q) ≡ₚ l ++ held (delete h q).
Proof.
  rewrite (held_delete _ h l) by apply lookup_insert_eq. by rewrite delete_insert_eq.
Qed.

(** Exchanging the contents of one queue, and of two *)
Lemma held_update q h l l' x : q !! h = Some l -> l ++ x ≡ₚ l' -> held q ++ x ≡ₚ held (<[h := l']> q).
Proof.
  intros E P. rewrite held_insert, (held_delete q h l E), <- P, <- !app_assoc.
  by apply Permutation_app_head, Permutation_app_comm.
Qed.

Lemma held_take q h l l' x : q !! h = Some l -> l ≡ₚ x ++ l' -> held q ≡ₚ x ++ held (<[h := l']> q).
Proof. intros E P. rewrite held_insert, (held_delete q h l E), P. by rewrite app_assoc. Qed.

End held.

(** ** Queues as lists *)

Definition lists (A : Type) : Type := gmap Z (list A).

Definition list_of {A} (h : Z) (d : lists A) : list A := default [] (d !! h).

Definition fresh_queue {A} (d : lists A) : Z * lists A :=
  let h := fresh (dom d) in (h, <[h := []]> d).

(** A batch is up to half of the elements and at most 32. *)
Definition batch_size {A} (l : list A) : nat := Nat.min 32 (Nat.div2 (S (length l))).

#[global] Instance lists_Deques A : Deques (lists A) A := {|
  injector_new := fresh_queue;
  worker_new_fifo := fresh_queue;
  worker_stealer h := h;
  worker_len h d := Z.of_nat (length (list_of h d));
  worker_push h x d := <[h := list_of h d ++ [x]]> d;
  worker_pop h d := match list_of h d with [] => (None, d) | x :: l => (Some x, <[h := l]> d) end;
  stealer_steal h d := match list_of h d with [] => (Empty, d) | x :: l => (Success x, <[h := l]> d) end;
  steal_batch g h d :=
    match list_of g d with
    | [] => (Empty, d)
    | l => (Success tt, <[h := list_of h d ++ take (batch_size l) l]> (<[g := drop (batch_size l) l]> d))
    end;
|}.

Lemma list_of_some {A} h (d : lists A) l : d !! h = Some l -> list_of h d = l.
Proof. unfold list_of. by intros ->. Qed.

#[global] Instance lists_DequesLaws A : DequesLaws (lists A) A (fun d => d).
Proof.
  split; cbn [injector_new worker_len worker_push worker_pop stealer_steal steal_batch lists_Deques].
  - by intros h d l ->%list_of_some.
  - by intros h x d l ->%list_of_some.
  - intros h d x l ->%list_of_some. by eexists.
  - intros h d ->%list_of_some. by eexists.
  - intros h d l ->%list_of_some. destruct l as [|x l]; [by exists Empty, d|].
    exists (Success x), (<[h := l]> d). split; [done|]. by exists l.
  - intros g h d lg lh Eg Eh Ne. rewrite (list_of_some _ _ _ Eg), (list_of_some _ _ _ Eh).
    destruct lg as [|x lg].
    + exists Empty, d, 0%nat. split; [done|]. cbn. rewrite app_nil_r, insert_insert_ne by done.
      by rewrite (insert_id _ _ _ Eh), (insert_id _ _ _ Eg).
    + by eexists _, _, _.
Qed.
