(* ===== verification/CoreMap.v ===== *)
(** * The map of cores ([runtime/coremap_old.rs])

    The earlier design of the runtime: a thread for each core, and transmitting tasks that
    share their packets by stealing. The file is kept beside the engine but is not part of
    its module tree. *)

From S2P Require Import Prelude RustStr Ffi Dpdk DpdkSim DpdkCore Mbuf Mempool Deque.
From Stdlib Require Import Permutation.

(** ** Executors *)

Inductive WorkerType := RX | TX.

Inductive ExecutorType :=
  | Master
  | Worker (t : WorkerType).

(** A thread, as what its thread-local variables hold. *)
Record thread := { local_mempool : Z; local_core : Z }.

Record Executor := { builder : thread; core_id : Z; task_type : ExecutorType }.

Inductive CoreError :=
  | NotFound (core : Z)
  | NotAssigned (core : Z).

Definition core_error_text (e : CoreError) : rstr :=
  match e with
  | NotFound c => core_debug c ++ str " is not found"
  | NotAssigned c => core_debug c ++ str " is not assigned to any port"
  end.

Record CoreMap := { cores : gmap Z Executor }.

(** ** Stealing packets *)

Section packets.
Context {D : Type} `{!Deques D Mbuf.Mbuf}.

(** The queues, and the global [STEALERS] *)
Record shared := { deques : D; STEALERS : list Z }.

Definition on_deques {A} (f : D -> A * D) : M shared A := fun s =>
  let '(a, d) := f (deques s) in Ret (a, {| deques := d; STEALERS := STEALERS s |}).

Definition create_global_tx_q : M shared Z := on_deques injector_new.

Definition create_and_add_stealer : M shared Z :=
  worker ← on_deques worker_new_fifo;
  let s := worker_stealer worker in
  _ ← modify (fun g => {| deques := deques g; STEALERS := STEALERS g ++ [s] |});
  mret worker.

Definition local_len (local : Z) : M shared Z := gets (fun s => worker_len local (deques s)).

(** One round over the stealers *)
Fixpoint steal_round (local : Z) (stealers : list Z) : M shared unit :=
  match stealers with
  | [] => mret tt
  | s :: stealers =>
      r ← on_deques (stealer_steal s);
      _ ← match r with
          | Success p => on_deques (fun d => (tt, worker_push local p d))
          | _ => mret tt
          end;
      steal_round local stealers
  end.

(** [for _ in 0..n] popping packets *)
Fixpoint pop_packets (n : nat) (local : Z) (pkts : list Mbuf.Mbuf) : M shared (list Mbuf.Mbuf) :=
  match n with
  | O => mret pkts
  | S n =>
      r ← on_deques (worker_pop local);
      match r with
      | Some p => pop_packets n local (pkts ++ [p])
      | None => mret pkts
      end
  end.

Definition BATCH : Z := 32.

Definition find_packets_batch_to_transmit (local global : Z) : M shared (list Mbuf.Mbuf) :=
  len ← local_len local;
  _ ← (if len <? BATCH then _ ← on_deques (steal_batch global local); mret tt else mret tt);
  len ← local_len local;
  let empty := len =? 0 in
  let batch_size := if negb empty && (BATCH <? len) then len else BATCH in
  len ← local_len local;
  _ ← (if len <? BATCH then s ← get; steal_round local (STEALERS s) else mret tt);
  pop_packets (Z.to_nat batch_size) local [].

End packets.
Arguments shared : clear implicits.

(** ** Threads *)

Section cores.
Context `{Profile} {W : Type} `{!Dpdk W}.

(** [thread::spawn] of a closure that sends one value back, and the [recv().unwrap()] that waits
    for it: the new thread has thread-locals of its own, and one that panics sends nothing. *)
Definition spawn {A} (f : M (process W) A) : M (process W) A := fun s =>
  match f (Process (ext s) (mem s) 0 CORE_ANY) with
  | Ret (a, s') => Ret (a, Process (ext s') (mem s') (tls_mempool s) (tls_core s))
  | Panic _ => Panic UnwrapFailed
  | Undefined => Undefined
  | Blocked => Blocked
  | OutOfFuel => OutOfFuel
  end.

(** [Result::unwrap] *)
Definition unwrap {A} (r : Fallible A) : outcome A :=
  match r with Ok a => Ret a | Err _ => Panic UnwrapFailed end.

Definition pin (id : Z) : M (process W) unit :=
  r ← set_thread_affinity id; lift (unwrap r).

Definition executor (id : Z) (ex : ExecutorType) : M (process W) Executor :=
  gets (fun s =>
    {| builder := {| local_mempool := tls_mempool s; local_core := tls_core s |};
       core_id := id; task_type := ex |}).

Definition init_core (id mempool : Z) (ex : ExecutorType) : M (process W) (Fallible Executor) :=
  e ← spawn (match ex with
    | Master => _ ← pin id; _ ← Mempool.set_tls_mempool mempool; executor id Master
    | Worker t => _ ← Mempool.set_tls_mempool mempool; _ ← pin id; executor id (Worker t)
    end);
  mret (Ok e).

(** ** The builder *)

Record CoreMapBuilder := {
  b_cores : gset Z;
  b_master_core : Z;
  b_mempools : Mempool.MempoolMap;
}.

Definition set_cores (ids : list Z) (b : CoreMapBuilder) : CoreMapBuilder :=
  {| b_cores := list_to_set ids; b_master_core := b_master_core b; b_mempools := b_mempools b |}.

Definition set_master_core (id : Z) (b : CoreMapBuilder) : CoreMapBuilder :=
  {| b_cores := b_cores b; b_master_core := id; b_mempools := b_mempools b |}.

Definition set_mempools (pools : list Mempool.Mempool) (b : CoreMapBuilder)
    : M (process W) CoreMapBuilder :=
  m ← Mempool.map_new pools;
  mret {| b_cores := b_cores b; b_master_core := b_master_core b; b_mempools := m |}.

(** The pool of a core's socket *)
Definition core_pool (b : CoreMapBuilder) (core : Z) : M (process W) (Fallible Z) :=
  socket ← core_socket_id core; mret (Mempool.get_raw (b_mempools b) socket).

(** The loop over the cores other than the master *)
Fixpoint check_cores (b : CoreMapBuilder) (ids : list Z) : M (process W) (Fallible unit) :=
  match ids with
  | [] => mret (Ok tt)
  | core :: ids => _ ←? core_pool b core; check_cores b ids
  end.

(** [finish], with the builder it leaves. A [HashSet] is iterated in no particular order: here
    in that of [elements]. *)
Definition finish (b : CoreMapBuilder) : M (process W) (Fallible CoreMap * CoreMapBuilder) :=
  r ← core_pool b (b_master_core b);
  match r with
  | Err e => mret (Err e, b)
  | Ok mempool =>
      r ← init_core (b_master_core b) mempool Master;
      master_executor ← lift (unwrap r);
      let map := <[b_master_core b := master_executor]> ∅ in
      let b := {| b_cores := b_cores b ∖ {[b_master_core b]}; b_master_core := b_master_core b;
                  b_mempools := b_mempools b |} in
      r ← check_cores b (elements (b_cores b));
      match r with
      | Err e => mret (Err e, b)
      | Ok _ => mret (Ok {| cores := map |}, b)
      end
  end.

End cores.

(** ** What a batch holds *)

Section batches.
Context {D : Type} `{HQ : !Deques D Mbuf.Mbuf} {queues : D -> gmap Z (list Mbuf.Mbuf)}.
Context `{!DequesLaws D Mbuf.Mbuf queues}.

Definition contents (s : shared D) : gmap Z (list Mbuf.Mbuf) := queues (deques s).

(** The same queues and stealers exist, and together hold the same packets. *)
Record moved (s s' : shared D) : Prop := {
  moved_stealers : STEALERS s' = STEALERS s;
  moved_queues : forall h, is_Some (contents s !! h) -> is_Some (contents s' !! h);
  moved_packets : held (contents s) ≡ₚ held (contents s');
}.

Lemma moved_refl s : moved s s.
Proof. by split. Qed.

Lemma moved_trans s1 s2 s3 : moved s1 s2 -> moved s2 s3 -> moved s1 s3.
Proof.
  intros [E1 Q1 P1] [E2 Q2 P2]. split; [congruence|by auto|by rewrite P1].
Qed.

Lemma insert_keeps {A} (q : gmap Z A) k x h : is_Some (q !! h) -> is_Some (<[k := x]> q !! h).
Proof. rewrite lookup_insert_is_Some. destruct (decide (k = h)); auto. Qed.

(** One attempt at one stealer: at most one packet moves to the local queue. *)
Lemma steal_one local h (s : shared D) l :
  contents s !! local = Some l -> is_Some (contents s !! h) ->
  exists s' l', moved s s' /\ contents s' !! local = Some l' /\ (length l <= length l')%nat /\
    forall k : M (shared D) unit,
    (r ← on_deques (stealer_steal h);
     _ ← match r with
         | Success p => on_deques (fun d => (tt, worker_push local p d))
         | _ => mret tt
         end; k) s = k s'.
Proof.
  intros El [lh Eh]. unfold contents in *.
  destruct (steal_law (queues := queues) h (deques s) lh Eh) as (r & d1 & E1 & Hr).
  pose (s1 := Build_shared d1 (STEALERS s)).
  assert (forall k : Steal Mbuf.Mbuf -> M (shared D) unit, (on_deques (stealer_steal h) ≫= k) s = k r s1) as R.
  { intros k. apply bind_ret. unfold on_deques. by rewrite E1. }
  destruct r as [|p|].
  1, 3: exists s1, l; unfold contents; cbn; rewrite Hr; split; [by split; unfold contents; cbn; rewrite ?Hr|];
    do 2 (split; [done|]); intros k; rewrite R; reflexivity.
  destruct Hr as (l' & -> & Q1).
  assert (exists l1, queues d1 !! local = Some l1 /\ (length l <= S (length l1))%nat) as (l1 & El1 & Hl1).
  { rewrite Q1. destruct (decide (h = local)) as [->|].
    - rewrite lookup_insert_eq. eexists. split; [done|]. rewrite Eh in El. by injection El as <-.
    - rewrite lookup_insert_ne by done. exists l. split; [done|lia]. }
  pose proof (push_law (queues := queues) local p d1 l1 El1) as Q2.
  exists (Build_shared (worker_push local p d1) (STEALERS s)), (l1 ++ [p]). unfold contents. cbn.
  rewrite Q2, lookup_insert_eq. split; [|split; [done|split]].
  2: { rewrite length_app. cbn. lia. }
  2: { intros k. rewrite R. reflexivity. }
  split; unfold contents; cbn; [done| |].
  - intros k Hk. rewrite Q2, Q1. by do 2 apply insert_keeps.
  - rewrite Q2, <- (held_update _ _ l1 (l1 ++ [p]) [p] El1) by done. rewrite Q1.
    rewrite (held_take _ h (p :: l') l' [p] Eh) by done. apply Permutation_cons_append.
Qed.

Lemma steal_round_run local stealers : forall (s : shared D) l,
  contents s !! local = Some l -> (forall h, h ∈ stealers -> is_Some (contents s !! h)) ->
  exists s' l', steal_round local stealers s = Ret (tt, s') /\ moved s s' /\
    contents s' !! local = Some l' /\ (length l <= length l')%nat.
Proof.
  induction stealers as [|h hs IH]; intros s l El Hs.
  - exists s, l. split; [done|]. split; [apply moved_refl|done].
  - destruct (steal_one local h s l El) as (s1 & l1 & M1 & El1 & L1 & R).
    { apply Hs. by left. }
    cbn [steal_round]. rewrite R.
    destruct (IH s1 l1 El1) as (s2 & l2 & -> & M2 & El2 & L2).
    { intros k Hk. apply (moved_queues _ _ M1), Hs. by right. }
    exists s2, l2. split; [done|]. split; [by eapply moved_trans|]. split; [done|lia].
Qed.

Lemma pop_packets_run n local : forall pkts (s : shared D) l, contents s !! local = Some l -> exists s',
  pop_packets n local pkts s = Ret (pkts ++ take n l, s') /\ STEALERS s' = STEALERS s /\
  contents s' = <[local := drop n l]> (contents s).
Proof.
  induction n as [|n IH]; intros pkts s l El; cbn [pop_packets].
  - exists s. rewrite take_0, app_nil_r, drop_0. by rewrite insert_id.
  - unfold contents in *. destruct l as [|p l].
    + destruct (pop_empty_law (queues := queues) local (deques s) El) as (d1 & E1 & Q1).
      erewrite bind_ret by (unfold on_deques; rewrite E1; reflexivity).
      eexists. split; [by rewrite app_nil_r|]. split; [done|]. cbn.
      by rewrite Q1, insert_id.
    + destruct (pop_law (queues := queues) local (deques s) p l El) as (d1 & E1 & Q1).
      erewrite bind_ret by (unfold on_deques; rewrite E1; reflexivity). cbn beta iota.
      destruct (IH (pkts ++ [p]) (Build_shared d1 (STEALERS s)) l) as (s' & -> & S' & Q').
      { cbn. by rewrite Q1, lookup_insert_eq. }
      exists s'. rewrite <- app_assoc. do 2 (split; [done|]). rewrite Q'. cbn.
      by rewrite Q1, insert_insert_eq.
Qed.

Lemma local_len_run local (s : shared D) l : contents s !! local = Some l ->
  local_len local s = Ret (Z.of_nat (length l), s).
Proof. intros E. unfold local_len, gets. by rewrite (len_law (queues := queues) _ _ _ E). Qed.

(** The steal from the global queue *)
Lemma refill local global (s : shared D) l g :
  contents s !! local = Some l -> contents s !! global = Some g -> global <> local ->
  exists s' k, moved s s' /\ contents s' !! local = Some (l ++ take k g) /\
    forall B (j : unit -> M (shared D) B),
    ((_ ← on_deques (steal_batch global local); mret tt) ≫= j) s = j tt s'.
Proof.
  intros El Eg Ne. unfold contents in *.
  destruct (batch_law (queues := queues) global local (deques s) g l Eg El Ne) as (r & d1 & k & E1 & Q1).
  exists (Build_shared d1 (STEALERS s)), k. unfold contents. cbn. split; [|split].
  - split; unfold contents; cbn; [done| |]; rewrite Q1.
    + intros h Hh. by do 2 apply insert_keeps.
    + rewrite <- (held_update _ _ l _ (take k g)) by (try done; by rewrite lookup_insert_ne).
      rewrite (held_take _ global g (drop k g) (take k g) Eg) by (by rewrite take_drop).
      apply Permutation_app_comm.
  - by rewrite Q1, lookup_insert_eq.
  - intros B j. rewrite bind_assoc. erewrite bind_ret by (unfold on_deques; rewrite E1; reflexivity).
    reflexivity.
Qed.

(** The packets a thread has before it turns to the stealers, [k] of them from the global queue *)
Definition before_round (l g : list Mbuf.Mbuf) (k : nat) : list Mbuf.Mbuf :=
  if Z.of_nat (length l) <? BATCH then l ++ take k g else l.

(** The second half of the function: the round and the packets popped *)
Lemma take_batch local (s : shared D) l : contents s !! local = Some l ->
  (forall h, h ∈ STEALERS s -> is_Some (contents s !! h)) ->
  let n := Z.of_nat (length l) in
  exists pkts s',
  (len ← local_len local;
   let empty := len =? 0 in
   let batch_size := if negb empty && (BATCH <? len) then len else BATCH in
   len ← local_len local;
   _ ← (if len <? BATCH then s ← get; steal_round local (STEALERS s) else mret tt);
   pop_packets (Z.to_nat batch_size) local []) s = Ret (pkts, s') /\
  STEALERS s' = STEALERS s /\ held (contents s) ≡ₚ pkts ++ held (contents s') /\
  if BATCH <=? n then pkts = l /\ contents s' = <[local := []]> (contents s)
  else n <= Z.of_nat (length pkts) <= BATCH.
Proof.
  intros El Hs n. do 2 (erewrite bind_ret by (apply local_len_run, El); cbn beta zeta). fold n.
  destruct (Z.leb_spec BATCH n) as [Hn|Hn].
  - replace (n <? BATCH) with false by lia. done_step.
    assert (Z.to_nat (if negb (n =? 0) && (BATCH <? n) then n else BATCH) = length l) as ->.
    { unfold BATCH in *. destruct (negb (n =? 0) && (32 <? n)) eqn:G; lia. }
    destruct (pop_packets_run (length l) local [] s l El) as (s' & -> & S' & Q').
    rewrite firstn_all, drop_all in *. exists l, s'. do 2 (split; [done|]).
    rewrite Q'. split; [|done]. apply held_take with l; [done|by rewrite app_nil_r].
  - replace (n <? BATCH) with true by lia.
    replace (negb (n =? 0) && (BATCH <? n)) with false by lia.
    rewrite bind_assoc. erewrite bind_ret by reflexivity. cbn beta.
    destruct (steal_round_run local (STEALERS s) s l El Hs) as (s1 & l1 & E1 & M1 & El1 & L1).
    rewrite (bind_ret _ _ _ _ _ E1).
    destruct (pop_packets_run (Z.to_nat BATCH) local [] s1 l1 El1) as (s' & -> & S' & Q').
    eexists _, s'. split; [reflexivity|]. cbn [app].
    split; [by rewrite S', (moved_stealers _ _ M1)|]. split.
    + rewrite (moved_packets _ _ M1), Q'. apply held_take with l1; [done|by rewrite take_drop].
    + rewrite length_take. unfold BATCH in *. lia.
Qed.

(** A batch loses no packet and duplicates none: what all the queues held is the batch and
    what they hold after it. When the thread has 32 packets or more, [k] of them just stolen
    from the global queue, the batch is all of them, however many, in their order, and the
    local queue is left empty; otherwise, after a steal from each stealer, it has at least
    those packets and at most 32. *)
Theorem find_packets_conserves local global (s : shared D) l g :
  contents s !! local = Some l -> contents s !! global = Some g -> global <> local ->
  (forall h, h ∈ STEALERS s -> is_Some (contents s !! h)) ->
  exists k pkts s',
    find_packets_batch_to_transmit local global s = Ret (pkts, s') /\
    STEALERS s' = STEALERS s /\ held (contents s) ≡ₚ pkts ++ held (contents s') /\
    let l1 := before_round l g k in
    if BATCH <=? Z.of_nat (length l1) then pkts = l1 /\ contents s' !! local = Some []
    else Z.of_nat (length l1) <= Z.of_nat (length pkts) <= BATCH.
Proof.
  intros El Eg Ne Hs. unfold find_packets_batch_to_transmit, before_round.
  erewrite bind_ret by (apply local_len_run, El). cbn beta.
  assert (exists s1 k, moved s s1 /\ contents s1 !! local = Some (before_round l g k) /\
    forall B (j : unit -> M (shared D) B),
    ((if Z.of_nat (length l) <? BATCH then _ ← on_deques (steal_batch global local); mret tt
      else mret tt) ≫= j) s = j tt s1) as (s1 & k & M1 & El1 & R).
  { unfold before_round. destruct (Z.of_nat (length l) <? BATCH).
    - by apply refill.
    - exists s, 0%nat. split; [apply moved_refl|]. split; [done|]. reflexivity. }
  destruct (take_batch local s1 _ El1) as (pkts & s' & E & S' & P' & B').
  { intros h Hh. apply (moved_queues _ _ M1), Hs. by rewrite <- (moved_stealers _ _ M1). }
  exists k, pkts, s'. split; [by rewrite R|]. split; [by rewrite S', (moved_stealers _ _ M1)|].
  split; [by rewrite (moved_packets _ _ M1)|]. fold (before_round l g k). cbn zeta in *.
  destruct (BATCH <=? _); [|done]. destruct B' as [-> ->]. by rewrite lookup_insert_eq.
Qed.

End batches.

(** ** What the builder makes *)

Section finish.
Context `{Profile} {W : Type} `{HD : !Dpdk W}.

(** The pool the builder finds for a core *)
Definition pool_at (b : CoreMapBuilder) (core : Z) (w : W) : Fallible Z :=
  Mempool.get_raw (b_mempools b) (Socket (numa_node_of_cpu (swrap 32 core) w)).

Lemma core_pool_run b core (s : process W) : core_pool b core s = Ret (pool_at b core (ext s), s).
Proof. done. Qed.

Lemma check_cores_run b ids (s : process W) : exists r, check_cores b ids s = Ret (r, s) /\
  ((r = Ok tt /\ forall c, c ∈ ids -> exists p, pool_at b c (ext s) = Ok p) \/
   exists c e, c ∈ ids /\ pool_at b c (ext s) = Err e /\ r = Err e).
Proof.
  induction ids as [|c ids (r & E & Hr)]; cbn [check_cores].
  - exists (Ok tt). split; [done|]. left. split; [done|]. by intros c ?%not_elem_of_nil.
  - unfold try_bind, monad_try_bind. rewrite (bind_ret _ _ _ _ _ (core_pool_run b c s)).
    destruct (pool_at b c (ext s)) as [p|e] eqn:Ep.
    + exists r. split; [done|]. destruct Hr as [[-> Hp]|(c' & e & Hc & Hp)].
      * left. split; [done|]. intros c' [->|Hc]%elem_of_cons; [by exists p|by apply Hp].
      * right. exists c', e. split; [by right|done].
    + exists (Err e). split; [done|]. right. exists c, e. split; [by left|done].
Qed.

(** Pinning the thread: it returns exactly when the call says it did. *)
Lemma pin_ok core set r w (s : process W) :
  CPU_SET core ∅ = Ret set -> rte_thread_set_affinity set (ext s) = (r, w) -> 0 <= r ->
  pin core s = Ret (tt, Process w (mem s) (tls_mempool s) core).
Proof.
  intros Es Er Hr. unfold pin, set_thread_affinity.
  rewrite bind_assoc. rewrite bind_ret with (a := set) (s' := s) by (unfold lift; by rewrite Es).
  rewrite bind_assoc. rewrite bind_ret with (a := r) (s' := set_ext w s) by (unfold call; by rewrite Er).
  unfold or_errno. rewrite (proj2 (Z.leb_le 0 r) Hr). reflexivity.
Qed.

Lemma pin_fails core set r w (s : process W) :
  CPU_SET core ∅ = Ret set -> rte_thread_set_affinity set (ext s) = (r, w) -> r < 0 ->
  exists k, pin core s = Panic k.
Proof.
  intros Es Er Hr. unfold pin, set_thread_affinity.
  rewrite bind_assoc. rewrite bind_ret with (a := set) (s' := s) by (unfold lift; by rewrite Es).
  rewrite bind_assoc. rewrite bind_ret with (a := r) (s' := set_ext w s) by (unfold call; by rewrite Er).
  unfold or_errno. rewrite (proj2 (Z.leb_gt 0 r) Hr).
  assert ((exists k, from_errno r (set_ext w s) = Panic k) \/
    exists e, from_errno r (set_ext w s) = Ret (e, set_ext w s)) as [[k E]|[e E]].
  { unfold from_errno.
    assert ((exists k, (if r =? -1 then ask rte_errno else lift (sneg 32 r)) (set_ext w s) = Panic k) \/
      exists n, (if r =? -1 then ask rte_errno else lift (sneg 32 r)) (set_ext w s) = Ret (n, set_ext w s))
      as [[k E]|[n E]].
    { destruct (r =? -1); [right; by eexists|]. unfold lift, sneg, sarith.
      destruct (sfits 32 (- r)), overflow_checks; cbn; eauto. }
    - left. exists k. unfold mbind at 1, M_bind. by rewrite E.
    - right. rewrite (bind_ret _ _ _ _ _ E). done_step. unfold lift.
      match goal with |- context [as_str (?t ++ _)] => destruct (as_str_total t) as [v Ev] end.
      exists (DpdkErr v). run. by rewrite Ev. }
  - exists k. run. unfold mbind. cbn beta. by rewrite E.
  - exists UnwrapFailed. run. unfold mbind. cbn beta. by rewrite E.
Qed.

(** When the master core's socket has a pool, the master's thread is pinned to its core: if
    that fails the caller panics. If not, the pools of the other cores' sockets are looked
    up too, the first that is missing is the error returned; and when none is, the map has
    the master's executor, whose thread has the core and the pool as its locals, and none
    for any other core. The caller's own thread-locals stay as they were. *)
Theorem finish_only_master b (s : process W) pool set r w :
  let master := b_master_core b in
  pool_at b master (ext s) = Ok pool ->
  CPU_SET master ∅ = Ret set -> rte_thread_set_affinity set (ext s) = (r, w) ->
  let others := b_cores b ∖ {[ master ]} in
  let b' := {| b_cores := others; b_master_core := master; b_mempools := b_mempools b |} in
  let executor := {| builder := {| local_mempool := pool; local_core := master |};
                     core_id := master; task_type := Master |} in
  if 0 <=? r then exists res, finish b s = Ret ((res, b'), set_ext w s) /\
    ((res = Ok {| cores := {[ master := executor ]} |} /\
      forall c, c ∈ others -> exists p, pool_at b c w = Ok p) \/
     exists c e, c ∈ others /\ pool_at b c w = Err e /\ res = Err e)
  else finish b s = Panic UnwrapFailed.
Proof.
  intros master Ep Es Er others b' ex. unfold finish, init_core, spawn.
  rewrite (bind_ret _ _ _ _ _ (core_pool_run b _ s)). fold master. rewrite Ep.
  pose (s0 := Process (ext s) (mem s) 0 CORE_ANY).
  destruct (Z.leb_spec 0 r) as [Hr|Hr].
  - rewrite bind_ret with (a := Ok ex) (s' := set_ext w s).
    2: { erewrite bind_ret; [reflexivity|].
      erewrite (bind_ret (pin master)) by (eapply (pin_ok master set r w s0); done). reflexivity. }
    done_step. fold others. fold b'.
    destruct (check_cores_run b' (elements others) (set_ext w s)) as (res & E & Hres).
    cbn [b_cores b']. rewrite (bind_ret _ _ _ _ _ E).
    destruct Hres as [[-> Hp]|(c & e & Hc & Hp & ->)]; eexists; (split; [reflexivity|]).
    + left. split; [done|]. intros c Hc. apply Hp. by apply elem_of_elements.
    + right. exists c, e. split; [by apply elem_of_elements|done].
  - destruct (pin_fails master set r w s0 Es Er Hr) as [k E]. unfold mbind, M_bind.
    fold s0. by rewrite E.
Qed.

End finish.

(** ** Concrete runs *)

#[local] Instance witness_profile : Profile := debug.

Definition packet (n : Z) : Mbuf.Mbuf := Mbuf.Build_Mbuf (Mbuf.Original n).

(** Two local packets, three global ones and one in another thread's queue; queue 0 is global. *)
Definition busy : shared (lists Mbuf.Mbuf) :=
  Build_shared (<[0 := map packet [1; 2; 3]]> (<[1 := map packet [4; 5]]> {[ 2 := map packet [6] ]})) [1; 2].

Lemma find_packets_conserves_witness : exists k pkts s',
  find_packets_batch_to_transmit 1 0 busy = Ret (pkts, s') /\
  STEALERS s' = STEALERS busy /\
  held (contents (queues := fun d => d) busy) ≡ₚ pkts ++ held (contents (queues := fun d => d) s') /\
  let l1 := before_round (map packet [4; 5]) (map packet [1; 2; 3]) k in
  if BATCH <=? Z.of_nat (length l1) then pkts = l1 /\ contents (queues := fun d => d) s' !! 1 = Some []
  else Z.of_nat (length l1) <= Z.of_nat (length pkts) <= BATCH.
Proof.
  apply (find_packets_conserves (queues := fun d => d) 1 0 busy).
  - by vm_compute.
  - by vm_compute.
  - done.
  - intros h Hh. cbn in Hh. rewrite !elem_of_cons in Hh.
    destruct Hh as [->|[->|Hh]]; [by eexists|by eexists|by apply not_elem_of_nil in Hh].
Defined.

(** The thread's own stealer is among the stealers, so the round moves the first of its
    packets behind the others: packets leave in another order than they came in. *)
Example round_reorders :
  (s ← find_packets_batch_to_transmit 1 0
         (Build_shared (<[0 := []]> {[ 1 := map packet [4; 5; 6] ]}) [1] : shared (lists Mbuf.Mbuf));
   Ret (fst s)) = Ret (map packet [5; 6; 4]).
Proof. vm_compute. reflexivity. Qed.

(** A queue of forty packets makes a batch of forty. *)
Example batch_of_forty :
  (s ← find_packets_batch_to_transmit 1 0
         (Build_shared (<[0 := []]> {[ 1 := map packet (seqZ 1 40) ]}) [1] : shared (lists Mbuf.Mbuf));
   Ret (length (fst s))) = Ret 40%nat.
Proof. vm_compute. reflexivity. Qed.

Definition three_cores : CoreMapBuilder :=
  {| b_cores := {[ 0; 1; 2 ]}; b_master_core := 0;
     b_mempools := {| Mempool.inner := {[ Socket 0 := Mempool.Build_Mempool 4096 ]} |} |}.

Lemma finish_only_master_witness :
  let others := {[ 0; 1; 2 ]} ∖ {[ 0 ]} in
  let b' := {| b_cores := others; b_master_core := 0; b_mempools := b_mempools three_cores |} in
  let executor := {| builder := {| local_mempool := 4096; local_core := 0 |};
                     core_id := 0; task_type := Master |} in
  exists res, finish three_cores (Process sim_empty ∅ 7 9) = Ret ((res, b'), set_ext sim_empty (Process sim_empty ∅ 7 9)) /\
    ((res = Ok {| cores := {[ 0 := executor ]} |} /\
      forall c, c ∈ others -> exists p, pool_at three_cores c sim_empty = Ok p) \/
     exists c e, c ∈ others /\ pool_at three_cores c sim_empty = Err e /\ res = Err e).
Proof.
  exact (finish_only_master (HD := DpdkSim) three_cores (Process sim_empty ∅ 7 9) 4096 {[ 0 ]} 0 sim_empty
    eq_refl eq_refl eq_refl).
Defined.
