(* ===== verification/Stealing.v ===== *)
(** * Stealing between threads ([runtime/coremap_old.rs])

    [CoreMap] runs [find_packets_batch_to_transmit] alone. Here it is a task: a program whose
    steps are its calls on the queues, each of which happens at once (the queues of [crossbeam]
    are shared safely between threads), so that the tasks of many threads can interleave. A
    typing discipline says that a task uses each packet it got exactly once; what it gives
    holds in every schedule. *)

From stdpp Require Import relations.
From S2P Require Import Prelude Mbuf Deque CoreMap Threads.
From Stdlib Require Import Permutation.

Abbreviation Packet := Mbuf.Mbuf.

(** ** Tasks *)

Inductive task (A : Type) :=
  | Done (a : A)
  | Len (h : Z) (k : Z -> task A)
  | Batch (g h : Z) (k : Steal unit -> task A)
  | StealFrom (h : Z) (k : Steal Packet -> task A)
  | Push (h : Z) (p : Packet) (k : task A)
  | Pop (h : Z) (k : option Packet -> task A).
Arguments Done {A} a.
Arguments Len {A} h k.
Arguments Batch {A} g h k.
Arguments StealFrom {A} h k.
Arguments Push {A} h p k.
Arguments Pop {A} h k.

#[global] Instance task_ret : MRet task := @Done.
#[global] Instance task_bind : MBind task := fun A B f =>
  fix bind m :=
    match m with
    | Done a => f a
    | Len h k => Len h (fun n => bind (k n))
    | Batch g h k => Batch g h (fun r => bind (k r))
    | StealFrom h k => StealFrom h (fun r => bind (k r))
    | Push h p k => Push h p (bind k)
    | Pop h k => Pop h (fun r => bind (k r))
    end.

Definition len (h : Z) : task Z := Len h Done.
Definition steal_batch_into (g h : Z) : task (Steal unit) := Batch g h Done.
Definition steal (h : Z) : task (Steal Packet) := StealFrom h Done.
Definition push (h : Z) (p : Packet) : task unit := Push h p (Done tt).
Definition pop (h : Z) : task (option Packet) := Pop h Done.

(** [for s in STEALERS.borrow().iter()] *)
Fixpoint round_task (local : Z) (stealers : list Z) : task unit :=
  match stealers with
  | [] => mret tt
  | s :: stealers =>
      r ← steal s;
      _ ← match r with Success p => push local p | _ => mret tt end;
      round_task local stealers
  end.

(** [for _ in 0..batch_size] *)
Fixpoint pop_task (n : nat) (local : Z) (pkts : list Packet) : task (list Packet) :=
  match n with
  | O => mret pkts
  | S n =>
      r ← pop local;
      match r with
      | Some p => pop_task n local (pkts ++ [p])
      | None => mret pkts
      end
  end.

(** [find_packets_batch_to_transmit]: every [local.len()] is a call of its own. *)
Definition find_packets_task (stealers : list Z) (local global : Z) : task (list Packet) :=
  n ← len local;
  _ ← (if n <? BATCH then _ ← steal_batch_into global local; mret tt else mret tt);
  n ← len local;
  let empty := n =? 0 in
  more ← (if negb empty then n ← len local; mret (BATCH <? n) else mret false);
  batch_size ← (if more : bool then len local else mret BATCH);
  n ← len local;
  _ ← (if n <? BATCH then round_task local stealers else mret tt);
  pop_task (Z.to_nat batch_size) local [].

Section stealing.
Context {D : Type} `{HQ : !Deques D Packet}.

(** One call of a task *)
Definition exec {A} (m : task A) (d : D) : option (task A * D) :=
  match m with
  | Done _ => None
  | Len h k => Some (k (worker_len h d), d)
  | Batch g h k => let '(r, d) := steal_batch g h d in Some (k r, d)
  | StealFrom h k => let '(r, d) := stealer_steal h d in Some (k r, d)
  | Push h p k => Some (k, worker_push h p d)
  | Pop h k => let '(r, d) := worker_pop h d in Some (k r, d)
  end.

(** A task with the queues to itself *)
Fixpoint run_alone {A} (m : task A) (d : D) : A * D :=
  match m with
  | Done a => (a, d)
  | Len h k => run_alone (k (worker_len h d)) d
  | Batch g h k => let '(r, d) := steal_batch g h d in run_alone (k r) d
  | StealFrom h k => let '(r, d) := stealer_steal h d in run_alone (k r) d
  | Push h p k => run_alone k (worker_push h p d)
  | Pop h k => let '(r, d) := worker_pop h d in run_alone (k r) d
  end.

(** Threads, a task for each, and the queues they share *)
Definition step {A} : list (task A) * D -> list (task A) * D -> Prop := threads_step (fun _ => exec).
Definition run_schedule {A} : list nat -> list (task A) * D -> list (task A) * D := run_threads (fun _ => exec).

(** ** Alone, the task is the function *)

Lemma run_alone_bind {A B} (m : task A) (f : A -> task B) : forall d,
  run_alone (m ≫= f) d = let '(a, d) := run_alone m d in run_alone (f a) d.
Proof.
  induction m as [a|h k IH|g h k IH|h k IH|h p k IH|h k IH]; intros d; cbn; try done; try apply IH.
  - destruct (steal_batch g h d). apply IH.
  - destruct (stealer_steal h d). apply IH.
  - destruct (worker_pop h d). apply IH.
Qed.

(** [m] does to the queues what the computation [f] does to the shared state. *)
Definition simulates {A} (stealers : list Z) (m : task A) (f : M (shared D) A) : Prop := forall d,
  f (Build_shared d stealers) =
  let '(a, d) := run_alone m d in Ret (a, Build_shared d stealers).

Lemma simulates_ret {A} stealers (a : A) : simulates stealers (mret a) (mret a).
Proof. done. Qed.

Lemma simulates_bind {A B} stealers m f (k : A -> task B) g :
  simulates stealers m f -> (forall a, simulates stealers (k a) (g a)) -> simulates stealers (m ≫= k) (f ≫= g).
Proof.
  intros Hm Hk d. rewrite run_alone_bind. specialize (Hm d). destruct (run_alone m d) as [a d'].
  rewrite (bind_ret _ _ _ _ _ Hm). apply Hk.
Qed.

Lemma simulates_steal stealers h : simulates stealers (steal h) (on_deques (stealer_steal h)).
Proof. intros d. cbn. unfold on_deques. cbn. by destruct (stealer_steal h d). Qed.

Lemma simulates_pop stealers h : simulates stealers (pop h) (on_deques (worker_pop h)).
Proof. intros d. cbn. unfold on_deques. cbn. by destruct (worker_pop h d). Qed.

Lemma simulates_batch stealers g h : simulates stealers (steal_batch_into g h) (on_deques (steal_batch g h)).
Proof. intros d. cbn. unfold on_deques. cbn. by destruct (steal_batch g h d). Qed.

Lemma simulates_push stealers h p :
  simulates stealers (push h p) (on_deques (fun d => (tt, worker_push h p d))).
Proof. done. Qed.

Lemma simulates_round stealers local hs :
  simulates stealers (round_task local hs) (steal_round local hs).
Proof.
  induction hs as [|h hs IH]; [apply simulates_ret|].
  apply simulates_bind; [apply simulates_steal|]. intros r. apply simulates_bind; [|done].
  destruct r; [apply simulates_ret|apply simulates_push|apply simulates_ret].
Qed.

Lemma simulates_pop_task stealers local n : forall pkts,
  simulates stealers (pop_task n local pkts) (pop_packets n local pkts).
Proof.
  induction n as [|n IH]; intros pkts; [apply simulates_ret|].
  apply simulates_bind; [apply simulates_pop|]. intros [p|]; [apply IH|apply simulates_ret].
Qed.

Lemma simulates_len stealers h : simulates stealers (len h) (local_len h).
Proof. done. Qed.

(** With the queues to itself the task is the function of [CoreMap]: the same batch and the
    same queues, although it asks for the length at every place the code does. *)
Theorem task_alone stealers local global d :
  find_packets_batch_to_transmit local global (Build_shared d stealers) =
  let '(pkts, d') := run_alone (find_packets_task stealers local global) d in
  Ret (pkts, Build_shared d' stealers).
Proof.
  revert d. apply simulates_bind; [apply simulates_len|]. intros n. apply simulates_bind.
  { destruct (n <? BATCH); [|apply simulates_ret].
    apply simulates_bind; [apply simulates_batch|]. intros r. apply simulates_ret. }
  intros _ d. set (L := worker_len local d).
  rewrite (bind_ret _ _ _ L (Build_shared d stealers)) by done.
  cbn beta zeta. rewrite run_alone_bind. cbn [run_alone len]. fold L.
  rewrite run_alone_bind.
  transitivity (let '(a, d0) := run_alone
    (n ← len local; _ ← (if n <? BATCH then round_task local stealers else mret tt);
     pop_task (Z.to_nat (if negb (L =? 0) && (BATCH <? L) then L else BATCH)) local []) d in
    Ret (a, Build_shared d0 stealers)).
  - generalize (if negb (L =? 0) && (BATCH <? L) then L else BATCH). clear L. intros size.
    revert d. apply simulates_bind; [apply simulates_len|]. intros m.
    apply simulates_bind; [|intros _; apply simulates_pop_task].
    destruct (m <? BATCH); [|apply simulates_ret]. intros d.
    rewrite (bind_ret get _ _ (Build_shared d stealers) (Build_shared d stealers)) by done.
    apply simulates_round.
  - destruct (L =? 0); cbn [negb andb]; [done|]. cbn [run_alone len mbind task_bind]. fold L.
    by destruct (BATCH <? L).
Qed.

End stealing.

(** ** Linear tasks

    [typed hs local out pkts m]: the task [m] of the thread whose queue is [local], which has
    [pkts] in its hands, uses only the queues [hs], only [local] as a worker, and hands each
    packet it has or gets to its queue or to its result, once; [out] is what a result holds. *)

Section typing.
Context (hs : gset Z) (local : Z).

Inductive typed {A} (out : A -> list Packet) : list Packet -> task A -> Prop :=
  | typed_done pkts a : pkts ≡ₚ out a -> typed out pkts (Done a)
  | typed_len pkts k : local ∈ hs -> (forall n, typed out pkts (k n)) -> typed out pkts (Len local k)
  | typed_batch pkts g k :
      g ∈ hs -> local ∈ hs -> g <> local -> (forall r, typed out pkts (k r)) -> typed out pkts (Batch g local k)
  | typed_steal pkts h k :
      h ∈ hs -> (forall p, typed out (p :: pkts) (k (Success p))) ->
      typed out pkts (k Empty) -> typed out pkts (k Retry) -> typed out pkts (StealFrom h k)
  | typed_push pkts rest p k :
      local ∈ hs -> pkts ≡ₚ p :: rest -> typed out rest k -> typed out pkts (Push local p k)
  | typed_pop pkts k :
      local ∈ hs -> (forall p, typed out (p :: pkts) (k (Some p))) -> typed out pkts (k None) ->
      typed out pkts (Pop local k).

Lemma typed_perm {A} (out : A -> list Packet) pkts m : typed out pkts m ->
  forall pkts', pkts ≡ₚ pkts' -> typed out pkts' m.
Proof.
  induction 1 as [pkts a P|pkts k Hl _ IH|pkts g k Hg Hl Hne _ IH|pkts h k Hh _ IHs _ IHe _ IHr
    |pkts rest p k Hl P Ht _|pkts k Hl _ IHs _ IHn]; intros pkts' P'.
  - constructor. by rewrite <- P'.
  - constructor; auto.
  - constructor; auto.
  - constructor; auto.
  - econstructor; [done| |exact Ht]. by rewrite <- P'.
  - constructor; auto.
Qed.

Lemma typed_bind {A B} (out1 : A -> list Packet) (out : B -> list Packet) pkts m (k : A -> task B) :
  typed out1 pkts m -> (forall a, typed out (out1 a) (k a)) -> typed out pkts (m ≫= k).
Proof.
  intros T Hk. induction T; cbn; try (econstructor; eauto; done).
  by eapply typed_perm; [apply Hk|].
Qed.

(** What the calls hand on *)
Lemma typed_ret {A} (out : A -> list Packet) a : typed out (out a) (mret a).
Proof. by constructor. Qed.

Context (Hlocal : local ∈ hs).

Lemma typed_len_call pkts : typed (fun _ => pkts) pkts (len local).
Proof. constructor; [done|]. intros n. by constructor. Qed.

Lemma typed_round stealers pkts : (forall h, h ∈ stealers -> h ∈ hs) ->
  typed (fun _ => pkts) pkts (round_task local stealers).
Proof.
  induction stealers as [|h stealers IH]; intros Hs; cbn [round_task]; [by constructor|].
  apply typed_bind with (fun r => match r with Success p => p :: pkts | _ => pkts end).
  - constructor; try by constructor. apply Hs. by left.
  - intros r. apply typed_bind with (fun _ => pkts).
    + destruct r; try by constructor. by econstructor; [|reflexivity|constructor].
    + intros _. apply IH. intros h' Hh'. apply Hs. by right.
Qed.

Lemma typed_pop_task n : forall pkts, typed id pkts (pop_task n local pkts).
Proof.
  induction n as [|n IH]; intros pkts; cbn [pop_task]; [by constructor|].
  apply typed_bind with (fun r => match r with Some p => p :: pkts | None => pkts end).
  - by repeat constructor.
  - intros [p|]; [|by constructor]. eapply typed_perm; [apply IH|]. by rewrite Permutation_app_comm.
Qed.

Lemma typed_find_packets stealers global :
  global ∈ hs -> global <> local -> (forall h, h ∈ stealers -> h ∈ hs) ->
  typed id [] (find_packets_task stealers local global).
Proof.
  intros Hg Hne Hs. unfold find_packets_task.
  apply typed_bind with (fun _ => []); [apply typed_len_call|intros n].
  apply typed_bind with (fun _ => []).
  { destruct (n <? BATCH); [|by constructor]. apply typed_bind with (fun _ => []); [|by constructor].
    by repeat constructor. }
  intros _. apply typed_bind with (fun _ => []); [apply typed_len_call|intros n'].
  apply typed_bind with (fun _ => []).
  { destruct (negb (n' =? 0)); [|by constructor].
    apply typed_bind with (fun _ => []); [apply typed_len_call|by constructor]. }
  intros more. apply typed_bind with (fun _ => []).
  { destruct more; [apply typed_len_call|by constructor]. }
  intros size. apply typed_bind with (fun _ => []); [apply typed_len_call|intros n''].
  apply typed_bind with (fun _ => []).
  { destruct (n'' <? BATCH); [by apply typed_round|by constructor]. }
  intros _. apply typed_pop_task.
Qed.

End typing.

(** ** Every schedule *)

Section schedules.
Context {D : Type} `{HQ : !Deques D Packet} {queues : D -> gmap Z (list Packet)}.
Context `{!DequesLaws D Packet queues}.

Definition open (hs : gset Z) (d : D) : Prop := forall h, h ∈ hs -> is_Some (queues d !! h).

Lemma open_insert (hs : gset Z) (q : gmap Z (list Packet)) h l :
  (forall x, x ∈ hs -> is_Some (q !! x)) -> forall x, x ∈ hs -> is_Some (<[h := l]> q !! x).
Proof. intros Hq x Hx. by apply insert_keeps, Hq. Qed.

(** A call moves packets between the hands of the thread and the queues, and no thread that is
    not done is stuck. *)
Lemma typed_exec {A} hs local (out : A -> list Packet) pkts m d :
  typed hs local out pkts m -> open hs d ->
  (exists a, m = Done a) \/
  exists m' d' pkts', exec m d = Some (m', d') /\ typed hs local out pkts' m' /\ open hs d' /\
    held (queues d) ++ pkts ≡ₚ held (queues d') ++ pkts'.
Proof.
  intros T Ho. unfold open in *.
  destruct T as [pkts a P|pkts k Hl Hk|pkts g k Hg Hl Hne Hk|pkts h k Hh Hs He Hr|pkts rest p k Hl P Hk
    |pkts k Hl Hs Hn]; [by left; exists a|right..]; cbn [exec].
  - by exists (k (worker_len local d)), d, pkts.
  - destruct (Ho _ Hg) as [lg Eg]. destruct (Ho _ Hl) as [lh Eh].
    destruct (batch_law (queues := queues) g local d lg lh Eg Eh Hne) as (r & d1 & n & -> & Q).
    exists (k r), d1, pkts. do 2 (split; [done|]). rewrite Q.
    split; [by do 2 apply open_insert|]. apply Permutation_app_tail.
    rewrite <- (held_update _ _ lh _ (take n lg)) by (try done; by rewrite lookup_insert_ne).
    rewrite (held_take _ g lg (drop n lg) (take n lg) Eg) by (by rewrite take_drop).
    apply Permutation_app_comm.
  - destruct (Ho _ Hh) as [l E].
    destruct (steal_law (queues := queues) h d l E) as (r & d1 & -> & Q).
    destruct r as [|p|].
    + exists (k Empty), d1, pkts. by rewrite Q.
    + destruct Q as (l' & -> & Q). exists (k (Success p)), d1, (p :: pkts). do 2 (split; [done|]).
      rewrite Q. split; [by apply open_insert|].
      rewrite (held_take _ h (p :: l') l' [p] E) by done. cbn. by rewrite <- Permutation_middle.
    + exists (k Retry), d1, pkts. by rewrite Q.
  - destruct (Ho _ Hl) as [l E]. exists k, (worker_push local p d), rest. do 2 (split; [done|]).
    rewrite (push_law (queues := queues) local p d l E). split; [by apply open_insert|].
    rewrite <- (held_update _ _ l _ [p] E) by done. rewrite P, <- app_assoc. done.
  - destruct (Ho _ Hl) as [[|p l] E].
    + destruct (pop_empty_law (queues := queues) local d E) as (d1 & -> & Q).
      exists (k None), d1, pkts. by rewrite Q.
    + destruct (pop_law (queues := queues) local d p l E) as (d1 & -> & Q).
      exists (k (Some p)), d1, (p :: pkts). do 2 (split; [done|]). rewrite Q. split; [by apply open_insert|].
      rewrite (held_take _ local (p :: l) l [p] E) by done. cbn. by rewrite <- Permutation_middle.
Qed.

Definition well_typed {A} (hs : gset Z) (out : A -> list Packet) (m : task A) (pkts : list Packet) : Prop :=
  exists local, typed hs local out pkts m.

(** The packets [all] are in the queues and in the hands of the threads. *)
Definition sound {A} (hs : gset Z) (out : A -> list Packet) (all : list Packet) (c : list (task A) * D) : Prop :=
  exists hands, Forall2 (well_typed hs out) c.1 hands /\ open hs c.2 /\
    all ≡ₚ held (queues c.2) ++ concat hands.

Lemma sound_step {A} hs (out : A -> list Packet) all c c' : sound hs out all c -> step c c' -> sound hs out all c'.
Proof.
  intros (hands & F & Ho & P) S. destruct S as [ts i m d m' d' Ei E]. cbn [fst snd] in *.
  destruct (Forall2_lookup_l _ _ _ _ _ F Ei) as (pkts & Eh & local & T).
  destruct (typed_exec hs local out pkts m d T Ho) as [[a ->]|(m2 & d2 & pkts' & E' & T' & Ho' & P')]; [done|].
  rewrite E in E'. injection E' as <- <-. exists (<[i := pkts']> hands). cbn [fst snd].
  split; [apply Forall2_insert; [done|by exists local]|]. split; [done|].
  destruct (concat_exchange hands i pkts pkts' Eh) as (rest & R & R').
  rewrite P, R, R', !app_assoc. by apply Permutation_app_tail.
Qed.

Lemma sound_steps {A} hs (out : A -> list Packet) all c c' :
  sound hs out all c -> rtc step c c' -> sound hs out all c'.
Proof. intros S R. exact (threads_invariant _ _ _ _ (sound_step hs out all) S R). Qed.

(** *** They end *)

Lemma next_acc {A} (m : task A) : Acc (next_thread (fun _ => exec)) m.
Proof.
  induction m as [a|h k IH|g h k IH|h k IH|h p k IH|h k IH]; constructor; intros m' (_ & d & d' & E); cbn in E.
  - done.
  - injection E as <- _. apply IH.
  - destruct (steal_batch g h d). injection E as <- _. apply IH.
  - destruct (stealer_steal h d). injection E as <- _. apply IH.
  - by injection E as <- _.
  - destruct (worker_pop h d). injection E as <- _. apply IH.
Qed.

Lemma step_acc {A} (c : list (task A) * D) : Acc (flip step) c.
Proof. apply threads_step_acc, next_acc. Qed.

(** Threads that cannot go on are done. *)
Lemma sound_end {A} hs (out : A -> list Packet) all ts d : sound hs out all (ts, d) ->
  (exists c, step (ts, d) c) \/
  exists results, ts = map Done results /\ all ≡ₚ held (queues d) ++ concat (map out results).
Proof.
  intros (hands & F & Ho & P). cbn [fst snd] in *.
  assert ((exists i m, ts !! i = Some m /\ exists m' d', exec m d = Some (m', d')) \/
    exists results, ts = map Done results /\ concat hands ≡ₚ concat (map out results)) as [H|H].
  - clear P. induction F as [|m pkts ts hands [local T] _ IH]; [right; by exists []|].
    destruct (typed_exec hs local out pkts m d T Ho) as [[a ->]|(m' & d' & _ & E & _)].
    + destruct IH as [(i & x & Hi)|(results & -> & P)]; [left; by exists (S i), x|right].
      exists (a :: results). split; [done|]. cbn. inversion T as [? ? Pa| | | | |]; subst. by rewrite Pa, P.
    + left. exists 0%nat, m. split; [done|]. by exists m', d'.
  - left. destruct H as (i & m & Ei & m' & d' & E). eexists. by econstructor.
  - right. destruct H as (results & -> & P'). exists results. by rewrite P, P'.
Qed.

(** C17: The task is linear, and stays so: at every call, whatever the open queues hold by then, it
    is done with the packets it has in its hands as its batch, or the call succeeds, what left the queues is in
    its hands and what left its hands is in the queues, and the rest is linear again. *)
Theorem find_packets_linear hs stealers local global :
  local ∈ hs -> global ∈ hs -> global <> local -> (forall h, h ∈ stealers -> h ∈ hs) ->
  typed hs local id [] (find_packets_task stealers local global) /\
  forall pkts m d, typed hs local id pkts m -> open hs d ->
    (exists batch, m = Done batch /\ pkts ≡ₚ batch) \/
    exists m' d' pkts', exec m d = Some (m', d') /\ typed hs local id pkts' m' /\ open hs d' /\
      held (queues d) ++ pkts ≡ₚ held (queues d') ++ pkts'.
Proof.
  intros Hl Hg Hne Hs. split; [by apply typed_find_packets|]. intros pkts m d T Ho.
  destruct (typed_exec hs local id pkts m d T Ho) as [[batch ->]|H]; [left|by right].
  exists batch. split; [done|]. by inversion T.
Qed.

(** C6: However the calls of any number of threads interleave, no schedule goes on for ever, and
    where it cannot go on every thread has its batch, and the batches and the queues hold
    together exactly the packets the queues held at the start. *)
Theorem schedules_conserve stealers global locals d :
  (forall h, h = global \/ h ∈ locals \/ h ∈ stealers -> is_Some (queues d !! h)) -> global ∉ locals ->
  let start := (map (fun local => find_packets_task stealers local global) locals, d) in
  Acc (flip step) start /\
  forall ts' d', rtc step start (ts', d') ->
    (exists c, step (ts', d') c) \/
    exists batches, ts' = map Done batches /\ length batches = length locals /\
      held (queues d) ≡ₚ concat batches ++ held (queues d').
Proof.
  intros Hq Hg start. split; [apply step_acc|]. intros ts' d' R.
  pose (hs := list_to_set (global :: locals ++ stealers) : gset Z).
  assert (forall h, h ∈ hs <-> h = global \/ h ∈ locals \/ h ∈ stealers) as Hh by (unfold hs; set_solver).
  assert (sound hs id (held (queues d)) start) as S.
  { exists (map (fun _ => []) locals). split; [|split].
    - cbn. apply Forall2_fmap, Forall_Forall2_diag, Forall_forall. intros local Hl. exists local.
      apply typed_find_packets; [apply Hh; auto|apply Hh; auto|by intros ->|]. intros h Hin. apply Hh. auto.
    - intros h Hin. by apply Hq, Hh.
    - replace (concat (map (fun _ => []) locals)) with (@nil Packet); [by rewrite app_nil_r|].
      clear. induction locals as [|l ls IH]; [done|]. cbn. exact IH. }
  assert (length ts' = length locals) as L
    by (pose proof (threads_step_length _ _ _ R) as L; cbn in L; by rewrite length_map in L).
  destruct (sound_end hs id _ ts' d' (sound_steps _ _ _ _ _ S R)) as [H|(batches & -> & P)]; [by left|right].
  exists batches. split; [done|]. rewrite length_map in L. split; [done|].
  by rewrite P, map_id, Permutation_app_comm.
Qed.

End schedules.

(** ** Schedules that run *)

Definition packets (l : list Z) : list Packet := map packet l.

Definition two_queues : lists Packet := {[ 0 := packets [1; 2; 3; 4]; 1 := packets [5]; 2 := [] ]}.

Lemma two_queues_open h : h ∈ ({[ 0; 1; 2 ]} : gset Z) -> is_Some (two_queues !! h).
Proof. rewrite !elem_of_union, !elem_of_singleton. intros [[->| ->]| ->]; by eexists. Qed.

Lemma find_packets_linear_witness :
  let hs : gset Z := {[ 0; 1; 2 ]} in
  typed hs 1 id [] (find_packets_task [1; 2] 1 0) /\
  exists m' d' pkts', exec (find_packets_task [1; 2] 1 0) two_queues = Some (m', d') /\ typed hs 1 id pkts' m'.
Proof.
  pose proof (find_packets_linear (queues := fun d : lists Packet => d) {[ 0; 1; 2 ]} [1; 2] 1 0
    ltac:(set_solver) ltac:(set_solver) ltac:(lia) ltac:(set_solver)) as [T H].
  split; [exact T|].
  destruct (H [] _ two_queues T) as [(batch & E & _)|(m' & d' & pkts' & E & T' & _)].
  - intros h Hh. apply two_queues_open, Hh.
  - discriminate E.
  - by exists m', d', pkts'.
Defined.

(** Two threads that take turns *)
Definition turns : list nat := concat (repeat [0; 1]%nat 20).

Lemma schedules_conserve_witness :
  exists batches d', run_schedule turns
      (map (fun local => find_packets_task [1; 2] local 0) [1; 2], two_queues) = (map Done batches, d') /\
    batches <> [] /\ held two_queues ≡ₚ concat batches ++ held d'.
Proof.
  pose proof (schedules_conserve (queues := fun d : lists Packet => d) [1; 2] 0 [1; 2] two_queues) as [_ H].
  - intros h Hh. apply two_queues_open. set_solver.
  - set_solver.
  - remember (run_schedule turns (map (fun local => find_packets_task [1; 2] local 0) [1; 2], two_queues)) as c eqn:E.
    assert (rtc step (map (fun local => find_packets_task [1; 2] local 0) [1; 2], two_queues) c) as R
      by (rewrite E; apply run_threads_steps).
    vm_compute in E. destruct c as [ts' d']. injection E as -> ->.
    destruct (H _ _ R) as [(c & S)|(batches & Eb & L & P)].
    + exfalso. inversion S as [ts i m d m' d' Ei Ex]; subst. by destruct i as [|[|i]]; [injection Ei as <-|injection Ei as <-|].
    + exists batches. eexists. split; [by rewrite Eb|]. split; [by destruct batches|exact P].
Defined.

(** The thread of queue [1] has 33 packets. After it found them to be more than 32, each of 33
    threads steals one; it reads the length again, and that is its batch size: none. Its round
    gets packets back, but it transmits nothing. *)
Definition thieves : list Z := seqZ 10 33.

Definition thieves_schedule : list nat :=
  [0; 0; 0]%nat ++ flat_map (fun i => repeat i 6) (seq 1 33) ++ repeat 0%nat 80.

Definition robbed : list (task (list Packet)) * lists Packet :=
  run_schedule thieves_schedule
    (map (fun local => find_packets_task (1 :: thieves) local 0) (1 :: thieves),
     <[0 := []]> (<[1 := packets (seqZ 1 33)]> (list_to_map (map (fun h => (h, [])) thieves)))).

Example batch_of_none :
  match robbed with
  | (Done batch :: _, d) => batch = [] /\ length (list_of 1 d) = 33%nat
  | _ => False
  end.
Proof. by vm_compute. Qed.
