(* ===== verification/Metrics.v ===== *)
(** * Metrics ([metrics.rs])

    The store of the framework's metrics and the proxies that read DPDK's counters into it.
    The file is commented out of the crate's module tree, and the statistics of a port and of
    a pool it reads are not in the crate: they are parameters, with the metrics library. *)

From S2P Require Import Prelude RustStr Ffi Mempool Port.

(** The metrics library: a receiver, its sinks, and what building a receiver answers in a state
    of the library; and the collectors of the statistics, which read a state of DPDK. *)
Class MetricsLib (X Receiver Sink W Measurement PortStats MempoolStats : Type) := {
  receiver_build : X -> result Receiver rstr * X;
  receiver_sink : Receiver -> Sink;
  sink_scoped : Sink -> rstr -> Sink;
  port_stats : Port -> PortStats;
  port_collect : PortStats -> W -> result (list Measurement) rstr;
  mempool_stats : Mempool.Mempool -> MempoolStats;
  mempool_collect : MempoolStats -> W -> list Measurement;
}.

Section metrics.
Context {X Receiver Sink W Measurement PortStats MempoolStats : Type}.
Context `{HM : !MetricsLib X Receiver Sink W Measurement PortStats MempoolStats}.

(** A proxy is a name on a sink and the closure that reads its measurements. *)
Record proxy := Proxy {
  proxy_sink : Sink;
  proxy_name : rstr;
  proxy_read : W -> list Measurement;
}.

(** The two statics, and the proxies registered with the library *)
Record store := {
  lib : X;
  RECEIVER : option Receiver;
  SINK : option Sink;
  proxies : list proxy;
}.

Definition set_lib x s := {| lib := x; RECEIVER := RECEIVER s; SINK := SINK s; proxies := proxies s |}.
Definition set_RECEIVER r s := {| lib := lib s; RECEIVER := r; SINK := SINK s; proxies := proxies s |}.
Definition set_SINK k s := {| lib := lib s; RECEIVER := RECEIVER s; SINK := k; proxies := proxies s |}.
Definition set_proxies l s := {| lib := lib s; RECEIVER := RECEIVER s; SINK := SINK s; proxies := l |}.

Definition build : M store (Fallible Receiver) := fun s =>
  let '(r, x) := receiver_build (lib s) in Ret (map_err EFormat r, set_lib x s).

Definition init : M store (Fallible unit) :=
  receiver ←? build;
  s ← get;
  match RECEIVER s with
  | Some _ => mret (Err (EFormat (str "already initialized.")))
  | None => _ ← modify (set_RECEIVER (Some receiver)); mret (Ok tt)
  end.

(** [get_unchecked]: reading a cell that was not set is undefined. *)
Definition global : M store Receiver := fun s =>
  match RECEIVER s with Some r => Ret (r, s) | None => Undefined end.

(** [Lazy]: the closure runs at the first use. *)
Definition sink : M store Sink :=
  s ← get;
  match SINK s with
  | Some k => mret k
  | None =>
      r ← global;
      let k := sink_scoped (receiver_sink r) (str "capsule") in
      _ ← modify (set_SINK (Some k));
      mret k
  end.

Definition add_proxy (name : rstr) (read : W -> list Measurement) : M store unit :=
  k ← sink;
  modify (fun s => set_proxies (proxies s ++ [Proxy k name read]) s).

(** A port whose statistics cannot be read gives none (and a warning). *)
Definition register_port_stats (ports : list Port) : M store unit :=
  let stats := map port_stats ports in
  add_proxy (str "port") (fun w =>
    flat_map (fun s => match port_collect s w with Ok l => l | Err _ => [] end) stats).

Definition register_mempool_stats (mempools : list Mempool.Mempool) : M store unit :=
  let stats := map mempool_stats mempools in
  add_proxy (str "mempool") (fun w => flat_map (fun s => mempool_collect s w) stats).

(** ** What is registered *)

(** What the proxies of a name measure when they are read *)
Definition measured (name : rstr) (w : W) (s : store) : list Measurement :=
  flat_map (fun p => proxy_read p w) (List.filter (fun p => rstr_eqb (proxy_name p) name) (proxies s)).

Definition port_measurements (w : W) (p : Port) : list Measurement :=
  match port_collect (port_stats p) w with Ok l => l | Err _ => [] end.

Lemma flat_map_map {A B C} (f : A -> B) (g : B -> list C) l : flat_map g (map f l) = flat_map (fun a => g (f a)) l.
Proof. induction l as [|a l IH]; [done|]. cbn. by rewrite IH. Qed.

Lemma sink_run s r : RECEIVER s = Some r -> SINK s = None ->
  sink s = Ret (sink_scoped (receiver_sink r) (str "capsule"),
                set_SINK (Some (sink_scoped (receiver_sink r) (str "capsule"))) s).
Proof. intros Hr Hs. unfold sink. done_step. rewrite Hs. unfold global. run. by rewrite Hr. Qed.

Lemma add_proxy_run name read s s1 k : sink s = Ret (k, s1) ->
  add_proxy name read s = Ret (tt, set_proxies (proxies s1 ++ [Proxy k name read]) s1).
Proof. intros E. unfold add_proxy. by step E. Qed.

Lemma measured_two k1 k2 f g w s :
  proxies s = [Proxy k1 (str "port") f; Proxy k2 (str "mempool") g] ->
  measured (str "port") w s = f w /\ measured (str "mempool") w s = g w.
Proof.
  intros E. unfold measured. rewrite E.
  split; [change (f w ++ [] = f w) | change (g w ++ [] = g w)]; apply app_nil_r.
Qed.

(** Before [init] registering is undefined. Once it succeeded, registering the ports and the
    pools adds one proxy for each, on one and the same sink, and reading them gives the
    measurements of every port that can be read, in the order of the ports, and of every pool;
    and a second [init] is refused and leaves the store as it is, the library's state apart. *)
Theorem metrics_registered ports mempools (s0 s1 : store) :
  RECEIVER s0 = None -> SINK s0 = None -> proxies s0 = [] -> init s0 = Ret (Ok tt, s1) ->
  register_port_stats ports s0 = Undefined /\
  exists s2 s3, register_port_stats ports s1 = Ret (tt, s2) /\ register_mempool_stats mempools s2 = Ret (tt, s3) /\
    (forall w, measured (str "port") w s3 = flat_map (port_measurements w) ports /\
               measured (str "mempool") w s3 = flat_map (fun m => mempool_collect (mempool_stats m) w) mempools) /\
    (exists k, map proxy_sink (proxies s3) = [k; k]) /\
    exists e x, init s3 = Ret (Err e, set_lib x s3).
Proof.
  intros Hr Hs Hp Hinit. split.
  { unfold register_port_stats, add_proxy, sink. run. rewrite Hs. unfold global. by rewrite Hr. }
  unfold init in Hinit. apply try_inv in Hinit as (receiver & sa & Hb & E).
  apply bind_inv in E as (sb & sc & [= <- <-] & E).
  assert (RECEIVER sa = None /\ SINK sa = None /\ proxies sa = []) as (Hra & Hsa & Hpa).
  { unfold build in Hb. destruct (receiver_build (lib s0)) as [r x]. injection Hb as _ <-. done. }
  rewrite Hra in E. apply bind_inv in E as (? & ? & [= _ <-] & E). injection E as <-.
  pose (s1 := set_RECEIVER (Some receiver) sa). fold s1.
  pose (k := sink_scoped (receiver_sink receiver) (str "capsule")).
  assert (sink s1 = Ret (k, set_SINK (Some k) s1)) as E1 by (by apply sink_run).
  pose (port_proxy := Proxy k (str "port")
    (fun w => flat_map (fun s => match port_collect s w with Ok l => l | Err _ => [] end) (map port_stats ports))).
  pose (mempool_proxy := Proxy k (str "mempool")
    (fun w => flat_map (fun s => mempool_collect s w) (map mempool_stats mempools))).
  pose (s2 := set_proxies [port_proxy] (set_SINK (Some k) s1)).
  pose (s3 := set_proxies [port_proxy; mempool_proxy] s2).
  exists s2, s3. split.
  { unfold register_port_stats. rewrite (add_proxy_run _ _ _ _ _ E1). cbn [proxies set_SINK s1 set_RECEIVER].
    by rewrite Hpa. }
  split; [reflexivity|]. split; [|split].
  - intros w. destruct (measured_two k k (proxy_read port_proxy) (proxy_read mempool_proxy) w s3 eq_refl) as [-> ->].
    unfold port_proxy, mempool_proxy. cbn [proxy_read]. by rewrite !flat_map_map.
  - by exists k.
  - unfold init, build, try_bind, monad_try_bind. run.
    destruct (receiver_build (lib s3)) as [[r|e] x']; cbn; by eexists _, _.
Qed.

End metrics.

(** A library whose receiver numbers its sinks, and statistics that echo a port's id: the port
    [9] cannot be read. *)
#[local] Instance echo_metrics : MetricsLib nat nat (nat * rstr) Z Z Z Z := {|
  receiver_build := fun x => (Ok x, S x);
  receiver_sink := fun r => (r, []);
  sink_scoped := fun k name => (fst k, name);
  port_stats := fun p => Port.id p;
  port_collect := fun s w => if s =? 9 then Err (str "no stats") else Ok [s; w];
  mempool_stats := fun m => Mempool.raw m;
  mempool_collect := fun s w => [s + w];
|}.

Definition unset_store : @store nat nat (nat * rstr) Z Z :=
  {| lib := 0%nat; RECEIVER := None; SINK := None; proxies := [] |}.

Lemma metrics_registered_witness :
  exists s1, (init unset_store = Ret (Ok tt, s1)) /\ (register_port_stats [] unset_store = Undefined) /\
    exists s2 s3, (register_port_stats [] s1 = Ret (tt, s2)) /\
      (register_mempool_stats [{| Mempool.raw := 4 |}] s2 = Ret (tt, s3)) /\
      (measured (str "mempool") 3 s3 = [7]).
Proof.
  eexists. split; [reflexivity|].
  pose proof (metrics_registered [] [{| Mempool.raw := 4 |}] unset_store _ eq_refl eq_refl eq_refl eq_refl)
    as (Hu & s2 & s3 & H2 & H3 & Hm & _).
  split; [exact Hu|]. exists s2, s3. split; [exact H2|]. split; [exact H3|]. exact (proj2 (Hm 3)).
Defined.
