(* ===== verification/Ownership.v ===== *)
(** * Who owns the rings

    A finite set of live rings and the clients' channels: each live ring belongs to exactly
    one side of one client's channel. The engine's registration keeps it so. *)

From S2P Require Import Prelude RustStr Ffi Dpdk DpdkSim DpdkCore Mbuf Ring Channel.

Definition ring_of (ch : Channel.Channel) (p : Z) : Prop :=
  p = Ring.raw (Channel.tx_q ch) \/ p = Ring.raw (Channel.rx_q ch).

(** A map with one key changed *)
Definition upd {A} (f : Z -> option A) (k : Z) (v : option A) : Z -> option A :=
  fun k' => if k =? k' then v else f k'.

Lemma upd_eq {A} (f : Z -> option A) k v : upd f k v k = v.
Proof. unfold upd. by rewrite Z.eqb_refl. Qed.

Lemma upd_ne {A} (f : Z -> option A) k v k' : k <> k' -> upd f k v k' = f k'.
Proof. intros. unfold upd. by rewrite (proj2 (Z.eqb_neq _ _)). Qed.

(** Facts about sets of rings *)
Lemma difference_two (X : gset Z) a b : X ∖ {[ a ]} ∖ {[ b ]} = X ∖ {[ a; b ]}.
Proof.
  apply set_eq. intros p. rewrite !elem_of_difference, elem_of_union, !elem_of_singleton. tauto.
Qed.

Lemma difference_new (new live0 rs : gset Z) :
  (forall p, p ∈ rs -> p ∈ live0) -> (forall p, p ∈ new -> p ∉ live0) ->
  (new ∪ live0) ∖ rs = new ∪ (live0 ∖ rs).
Proof.
  intros Hr Hn. apply set_eq. intros p. rewrite !elem_of_difference, !elem_of_union, elem_of_difference.
  specialize (Hr p). specialize (Hn p). tauto.
Qed.

Lemma insert_two (a b : Z) (X : gset Z) : {[ a ]} ∪ ({[ b ]} ∪ X) = {[ a; b ]} ∪ X.
Proof. apply set_eq. intros p. rewrite !elem_of_union, !elem_of_singleton. tauto. Qed.

Lemma difference_fresh (p : Z) (X : gset Z) : p ∉ X -> ({[ p ]} ∪ X) ∖ {[ p ]} = X.
Proof.
  intros Hp. apply set_eq. intros q. rewrite elem_of_difference, elem_of_union, elem_of_singleton.
  split; [tauto|]. intros Hq. split; [by right|]. by intros ->.
Qed.

Record owned (live : gset Z) (chs : Z -> option Channel.Channel) : Prop := {
  own_live : forall p, p ∈ live <-> exists id ch, chs id = Some ch /\ ring_of ch p;
  own_client : forall id id' ch ch' p,
    chs id = Some ch -> chs id' = Some ch' -> ring_of ch p -> ring_of ch' p -> id = id';
  own_sides : forall id ch,
    chs id = Some ch -> Ring.raw (Channel.tx_q ch) <> Ring.raw (Channel.rx_q ch);
}.

(** Maps that answer alike are alike. *)
#[global] Instance owned_proper :
  Proper ((=) ==> pointwise_relation Z (=) ==> iff) owned.
Proof.
  intros live ? <- f g E.
  assert (H : forall f g, pointwise_relation Z (=) f g -> owned live f -> owned live g).
  { intros f' g' E' [Hl Hc Hs]. split.
    - intros p. rewrite Hl. by setoid_rewrite E'.
    - intros id id' ch ch' p. rewrite <- !E'. apply Hc.
    - intros id ch. rewrite <- E'. apply Hs. }
  split; apply H; [done|by symmetry].
Qed.

Lemma owned_empty : owned ∅ (fun _ => None).
Proof. split; [|done..]. intros p. split; [by intros ?%not_elem_of_empty|by intros (? & ? & ? & _)]. Qed.

(** A new client with two new rings *)
Lemma owned_add live chs id ch :
  owned live chs -> chs id = None ->
  Ring.raw (Channel.tx_q ch) ∉ live -> Ring.raw (Channel.rx_q ch) ∉ live ->
  Ring.raw (Channel.tx_q ch) <> Ring.raw (Channel.rx_q ch) ->
  owned ({[ Ring.raw (Channel.tx_q ch); Ring.raw (Channel.rx_q ch) ]} ∪ live) (upd chs id (Some ch)).
Proof.
  intros [Hl Hc Hs] Hn Ht Hr Hne.
  assert (Hold : forall k c p, k <> id -> upd chs id (Some ch) k = Some c -> ring_of c p ->
    p ∈ live /\ chs k = Some c).
  { intros k c p Hk E Hp. rewrite upd_ne in E by done. split; [|done]. apply Hl. by exists k, c. }
  assert (Hfresh : forall p, ring_of ch p -> p ∉ live) by (intros p [->| ->]; done).
  split.
  - intros p. rewrite elem_of_union, elem_of_union, !elem_of_singleton, Hl. split.
    + intros [[->| ->]|(k & c & E & Hp)].
      * exists id, ch. by rewrite upd_eq; split; [|left].
      * exists id, ch. by rewrite upd_eq; split; [|right].
      * exists k, c. rewrite upd_ne by congruence. done.
    + intros (k & c & E & Hp). destruct (decide (k = id)) as [->|Hk].
      * rewrite upd_eq in E. injection E as <-. left. exact Hp.
      * right. rewrite upd_ne in E by done. by exists k, c.
  - intros k k' c c' p E E' Hp Hp'.
    destruct (decide (k = id)) as [->|Hk], (decide (k' = id)) as [->|Hk']; [done| | |].
    + rewrite upd_eq in E. injection E as <-. by destruct (Hfresh p Hp), (Hold _ _ _ Hk' E' Hp').
    + rewrite upd_eq in E'. injection E' as <-. by destruct (Hfresh p Hp'), (Hold _ _ _ Hk E Hp).
    + destruct (Hold _ _ _ Hk E Hp) as [_ E1], (Hold _ _ _ Hk' E' Hp') as [_ E2]. by apply (Hc k k' c c' p).
  - intros k c E. destruct (decide (k = id)) as [->|Hk].
    + rewrite upd_eq in E. by injection E as <-.
    + rewrite upd_ne in E by done. by apply (Hs k).
Qed.

(** A client that leaves with its rings *)
Lemma owned_remove live chs id ch :
  owned live chs -> chs id = Some ch ->
  owned (live ∖ {[ Ring.raw (Channel.tx_q ch); Ring.raw (Channel.rx_q ch) ]}) (upd chs id None).
Proof.
  intros [Hl Hc Hs] E0. split.
  - intros p. rewrite elem_of_difference, elem_of_union, !elem_of_singleton, Hl. split.
    + intros [(k & c & E & Hp) Hn]. exists k, c. split; [|done]. rewrite upd_ne; [done|].
      intros <-. rewrite E0 in E. injection E as <-. by apply Hn.
    + intros (k & c & E & Hp). destruct (decide (k = id)) as [->|Hk]; [by rewrite upd_eq in E|].
      rewrite upd_ne in E by done. split; [by exists k, c|]. intros Hch. apply Hk.
      by apply (Hc k id c ch p).
  - intros k k' c c' p. unfold upd. repeat case_match; try done. apply Hc.
  - intros k c. unfold upd. case_match; [done|]. apply Hs.
Qed.
