(* ===== verification/Engine.v ===== *)
(** * The engine ([runtime/engine.rs], [lib.rs])

    The core of the switch: it registers clients that write to its socket, receives packets
    from the ports into a queue, and takes them from the queue to the tables. The state is
    that of the engine's structure together with the program's globals. *)

From S2P Require Import Prelude RustStr IpAddr MacAddr Ffi Dpdk DpdkSim DpdkCore ConcurrentMap.
From S2P Require Import Mbuf Ring Channel EngineRingMap Port Headers RoutingTable Zmq ClientComm ArrayQueue.

(** [lib.rs] *)
Definition PACKET_READ_SIZE : Z := 32.

Inductive ClientStatus := STARTING | READY.

#[global] Instance ClientStatus_eq_dec : EqDecision ClientStatus.
Proof. solve_decision. Defined.

(** [net/mod.rs] *)
Record PortIdMbuf := { portid : Z; mbufs : list Mbuf.Mbuf }.

Section engine.
Context `{Profile} {W : Type} `{!Dpdk W} {N : Type} `{!Zmq N} {V : Type} `{HJ : !Json V}.
Context {Map : Type -> Type} `{!ConcurrentMap Map} {L : Type -> Type} `{!ShardedLock L}.
Context {Q : Type -> Type} `{!ArrayQueue Q} {R : Type} `{!Receiver R}.

Record Engine := {
  e_process : process W;
  e_net : N;
  statusmap : Map ClientStatus;
  ringmap : EngineRingMap.EngineRingMap (Map := Map);
  new_msg : option (Z * Z);
  PORTS : option (list PortQueue);
  PORTMAP : option (Map FiveTuple);
  FORWARDING_TABLE : option (RoutingTable (L := L));
  e_mbufs : Q PortIdMbuf;
  e_receiver : R;
}.

Definition set_process x e := {| e_process := x; e_net := e_net e; statusmap := statusmap e;
  ringmap := ringmap e; new_msg := new_msg e; PORTS := PORTS e; PORTMAP := PORTMAP e;
  FORWARDING_TABLE := FORWARDING_TABLE e; e_mbufs := e_mbufs e; e_receiver := e_receiver e |}.
Definition set_net x e := {| e_process := e_process e; e_net := x; statusmap := statusmap e;
  ringmap := ringmap e; new_msg := new_msg e; PORTS := PORTS e; PORTMAP := PORTMAP e;
  FORWARDING_TABLE := FORWARDING_TABLE e; e_mbufs := e_mbufs e; e_receiver := e_receiver e |}.
Definition set_statusmap x e := {| e_process := e_process e; e_net := e_net e; statusmap := x;
  ringmap := ringmap e; new_msg := new_msg e; PORTS := PORTS e; PORTMAP := PORTMAP e;
  FORWARDING_TABLE := FORWARDING_TABLE e; e_mbufs := e_mbufs e; e_receiver := e_receiver e |}.
Definition set_ringmap x e := {| e_process := e_process e; e_net := e_net e; statusmap := statusmap e;
  ringmap := x; new_msg := new_msg e; PORTS := PORTS e; PORTMAP := PORTMAP e;
  FORWARDING_TABLE := FORWARDING_TABLE e; e_mbufs := e_mbufs e; e_receiver := e_receiver e |}.
Definition set_new_msg x e := {| e_process := e_process e; e_net := e_net e; statusmap := statusmap e;
  ringmap := ringmap e; new_msg := x; PORTS := PORTS e; PORTMAP := PORTMAP e;
  FORWARDING_TABLE := FORWARDING_TABLE e; e_mbufs := e_mbufs e; e_receiver := e_receiver e |}.
Definition set_portmap x e := {| e_process := e_process e; e_net := e_net e; statusmap := statusmap e;
  ringmap := ringmap e; new_msg := new_msg e; PORTS := PORTS e; PORTMAP := x;
  FORWARDING_TABLE := FORWARDING_TABLE e; e_mbufs := e_mbufs e; e_receiver := e_receiver e |}.
Definition set_table x e := {| e_process := e_process e; e_net := e_net e; statusmap := statusmap e;
  ringmap := ringmap e; new_msg := new_msg e; PORTS := PORTS e; PORTMAP := PORTMAP e;
  FORWARDING_TABLE := x; e_mbufs := e_mbufs e; e_receiver := e_receiver e |}.
Definition set_mbufs x e := {| e_process := e_process e; e_net := e_net e; statusmap := statusmap e;
  ringmap := ringmap e; new_msg := new_msg e; PORTS := PORTS e; PORTMAP := PORTMAP e;
  FORWARDING_TABLE := FORWARDING_TABLE e; e_mbufs := x; e_receiver := e_receiver e |}.
Definition set_receiver x e := {| e_process := e_process e; e_net := e_net e; statusmap := statusmap e;
  ringmap := ringmap e; new_msg := new_msg e; PORTS := PORTS e; PORTMAP := PORTMAP e;
  FORWARDING_TABLE := FORWARDING_TABLE e; e_mbufs := e_mbufs e; e_receiver := x |}.

Definition on_process {A} : M (process W) A -> M Engine A := zoom e_process set_process.
Definition on_net {A} : M N A -> M Engine A := zoom e_net set_net.

Lemma on_process_run {A} (f : M (process W) A) e a s :
  f (e_process e) = Ret (a, s) -> on_process f e = Ret (a, set_process s e).
Proof. apply zoom_run. Qed.

Lemma on_net_run {A} (f : N -> A * N) e a n :
  f (e_net e) = (a, n) -> on_net (net_call f) e = Ret (a, set_net n e).
Proof. intros E. apply zoom_run. unfold net_call. by rewrite E. Qed.

(** [state::Storage::get] panics when nothing was stored. *)
Definition stored {A} (f : Engine -> option A) : M Engine A := fun e =>
  match f e with Some a => Ret (a, e) | None => Panic UnwrapFailed end.

(** ** Construction: the maps are empty and the socket is connected. *)

Definition engine_new (e : Engine) : M N (result Engine Z) :=
  r ← net_call (zmq_socket REP);
  match r with
  | Err err => mret (Err err)
  | Ok _ =>
      r ← net_call (zmq_connect SOCKET);
      match r with
      | Err err => mret (Err err)
      | Ok _ => mret (Ok (set_statusmap cm_new (set_ringmap EngineRingMap.new (set_new_msg None e))))
      end
  end.

(** ** Messages *)

Definition POLL_TIMEOUT : Z := 2.

Definition get_msg : M Engine (Fallible unit) :=
  r ← on_net (net_call (zmq_poll POLL_TIMEOUT));
  match r with
  | Ok n =>
      if n =? 1 then
        r ← on_net (net_call zmq_recv_dontwait);
        match r with
        | Err e => mret (Err (EZmq e))
        | Ok smsg =>
            if is_utf8 smsg then
              match json_from_str smsg with
              | Err t => mret (Err (EJson t))
              | Ok data =>
                  match json_u64 data (str "id") with
                  | Some id =>
                      match json_u64 data (str "msg") with
                      | Some m => _ ← modify (set_new_msg (Some (wrap 16 id, m))); mret (Ok tt)
                      | None => mret (Err (EFormat (str "Unknown Container Message")))
                      end
                  | None => mret (Err (EFormat (str "Unknown ID Format")))
                  end
              end
            else mret (Err (EFormat (str "Unknown Message Format")))
        end
      else mret (Ok tt)
  | Err e => mret (Err (EFormat (zmq_error_text e)))
  end.

(** [insert] drops the value it replaces. *)
Definition insert_channel (id : Z) (ch : Channel.Channel) : M Engine unit :=
  e ← get;
  let m := EngineRingMap.ring_map (ringmap e) in
  _ ← modify (set_ringmap {| EngineRingMap.ring_map := cm_insert id ch m |});
  match cm_get id m with
  | Some old => on_process (Channel.drop old)
  | None => mret tt
  end.

Definition insert_status (id : Z) (st : ClientStatus) : M Engine unit :=
  modify (fun e => set_statusmap (cm_insert id st (statusmap e)) e).

Definition client_ring (id : Z) (t : RingType) (prefix : string) : M (process W) (Fallible Ring.Ring) :=
  socket ← current_socket;
  Ring.new id t (str prefix ++ fmt_dec id) PACKET_READ_SIZE socket.

(** The rings made are dropped, the last first, when the function returns early. *)
Definition start_client (id : Z) : M Engine (Fallible unit) :=
  rx_q ←? on_process (client_ring id RX "RX-");
  r ← on_process (client_ring id TX "TX-");
  match r with
  | Err e => _ ← on_process (Ring.drop rx_q); mret (Err e)
  | Ok tx_q =>
      r ← on_net (net_call (zmq_send (str "1")));
      match r with
      | Err e =>
          _ ← on_process (Ring.drop tx_q);
          _ ← on_process (Ring.drop rx_q);
          mret (Err (EZmq e))
      | Ok _ =>
          _ ← insert_channel id (Channel.Build_Channel tx_q rx_q);
          _ ← insert_status id STARTING;
          mret (Ok tt)
      end
  end.

Definition ready_client (id : Z) : M Engine (Fallible unit) :=
  e ← get;
  match cm_get id (statusmap e) with
  | None => mret (Err (EFormat (str "Failed to get client")))
  | Some _ => _ ← insert_status id READY; mret (Ok tt)
  end.

Definition stop_client (id : Z) : M Engine (Fallible unit) :=
  e ← get;
  match cm_get id (statusmap e) with
  | None => mret (Err (EFormat (str "Failed to remove client")))
  | Some _ =>
      _ ← modify (fun e => set_statusmap (cm_remove id (statusmap e)) e);
      let m := EngineRingMap.ring_map (ringmap e) in
      match cm_get id m with
      | None => mret (Err (EFormat (str "Failed to remove client")))
      | Some ch =>
          _ ← modify (set_ringmap {| EngineRingMap.ring_map := cm_remove id m |});
          _ ← on_process (Channel.drop ch);
          mret (Ok tt)
      end
  end.

Definition set_client_status (id m : Z) : M Engine (Fallible unit) :=
  if m =? 0 then start_client id
  else if m =? 1 then ready_client id
  else if m =? 2 then stop_client id
  else mret (Err (EFormat (str "Unknown client status"))).

(** The error is discarded. *)
Definition check_n_set_client_status : M Engine unit :=
  e ← get;
  match new_msg e with
  | Some val =>
      _ ← set_client_status (fst val) (snd val);
      modify (set_new_msg None)
  | None => mret tt
  end.

Definition send (key : Z) (pkt : Mbuf.Mbuf) : M Engine (Fallible unit) :=
  e ← get; on_process (EngineRingMap.send (ringmap e) key pkt).

Definition receive (key : Z) (pkt : Mbuf.Mbuf) : M Engine (Fallible unit * Mbuf.Mbuf) :=
  e ← get; on_process (EngineRingMap.receive (ringmap e) key pkt).

(** ** Packets *)

Definition queue_full : M Engine bool := gets (fun e => aq_is_full (e_mbufs e)).

(** A burst that does not fit is dropped. *)
Definition push_burst (elem : PortIdMbuf) : M Engine unit :=
  e ← get;
  let '(r, q) := aq_push elem (e_mbufs e) in
  _ ← modify (set_mbufs q);
  match r with
  | Ok _ => mret tt
  | Err elem => on_process (Mbuf.drop_all (mbufs elem))
  end.

Fixpoint poll_ports (ports : list PortQueue) : M Engine unit :=
  match ports with
  | [] => mret tt
  | port :: ports =>
      recvd ← on_process (Port.receive port);
      _ ← push_burst {| portid := get_portid port; mbufs := recvd |};
      poll_ports ports
  end.

(** [while !mbufs.is_full() { for port in ports { .. } }] *)
Fixpoint fill (fuel : nat) (ports : list PortQueue) : M Engine unit :=
  match fuel with
  | O => lift OutOfFuel
  | S fuel =>
      full ← queue_full;
      if full : bool then mret tt else _ ← poll_ports ports; fill fuel ports
  end.

Definition receiver_try : M Engine (result (option unit) unit) :=
  e ← get;
  let '(r, x) := try_recv (e_receiver e) in
  _ ← modify (set_receiver x);
  mret r.

Fixpoint rx_loop (fuel : nat) (ports : list PortQueue) : M Engine unit :=
  match fuel with
  | O => lift OutOfFuel
  | S fuel =>
      r ← receiver_try;
      match r with
      | Ok _ => mret tt
      | Err _ => _ ← fill fuel ports; rx_loop fuel ports
      end
  end.

Definition rx_main (fuel : nat) : M Engine unit :=
  ports ← stored PORTS; rx_loop fuel ports.

(** [unimplemented!()] *)
Definition tx_to_clients (mbuf : Mbuf.Mbuf) : M Engine unit := lift (Panic NotImplemented).

Definition update_table (mac : MacAddr) (ip : Ipv4Addr) : M Engine unit :=
  t ← stored FORWARDING_TABLE;
  zoom (fun _ => t) (fun t => set_table (Some t)) (add mac ip).

Definition process_packet (pnum : Z) (mbuf : Mbuf.Mbuf) : M Engine unit :=
  five_tuple ← on_process (five_tuple_of mbuf);
  let d_mac := get_d_mac five_tuple in
  let d_ip := get_d_ip five_tuple in
  portmap ← stored PORTMAP;
  _ ← modify (set_portmap (Some (cm_insert pnum five_tuple portmap)));
  _ ← update_table d_mac d_ip;
  tx_to_clients mbuf.

Fixpoint process_burst (pnum : Z) (mbufs : list Mbuf.Mbuf) : M Engine unit :=
  match mbufs with
  | [] => mret tt
  | mbuf :: mbufs => _ ← process_packet pnum mbuf; process_burst pnum mbufs
  end.

Definition queue_pop : M Engine (option PortIdMbuf) :=
  e ← get;
  let '(x, q) := aq_pop (e_mbufs e) in
  _ ← modify (set_mbufs q);
  mret x.

Fixpoint process_packets (fuel : nat) : M Engine unit :=
  match fuel with
  | O => lift OutOfFuel
  | S fuel =>
      empty ← gets (fun e => aq_is_empty (e_mbufs e));
      if empty : bool then mret tt
      else
        elem ← queue_pop;
        _ ← match elem with
            | Some elem => process_burst (portid elem) (mbufs elem)
            | None => mret tt
            end;
        process_packets fuel
  end.

End engine.
