(* ===== verification/Registration.v ===== *)
(** * Registration of clients

    The engine's registration as a state machine: what a message does to the status of a
    client, for every answer of the socket and of the library, and the invariant it keeps on
    the engine's two maps and on the rings that are alive. *)

From S2P Require Import Prelude RustStr Ffi Dpdk DpdkSim DpdkCore ConcurrentMap Mbuf Ring Channel.
From S2P Require Import EngineRingMap Port Headers RoutingTable Zmq ClientComm ArrayQueue Ownership Engine.

(** What DPDK promises of the rings that are [live]: a ring created is a new one, and freeing
    a ring ends it and no other. *)
Class RingAlloc (W : Type) `{Dpdk W} (live : W -> gset Z) := {
  create_law : forall n c so f w p w', rte_ring_create n c so f w = (p, w') ->
    (p = 0 /\ live w' = live w) \/ (p <> 0 /\ (p ∉ live w) /\ live w' = {[ p ]} ∪ live w);
  free_law : forall p w, live (rte_ring_free p w) = live w ∖ {[ p ]};
}.

(** ** The abstract machine: the status of one client *)

(** The status a message leads to, when it is one the client can send in its status *)
Definition next_status (m : Z) (st : option ClientStatus) : option (option ClientStatus) :=
  if m =? 0 then Some (Some STARTING)
  else if m =? 1 then match st with Some _ => Some (Some READY) | None => None end
  else if m =? 2 then match st with Some _ => Some None | None => None end
  else None.

Section registration.
Context `{Profile} {W : Type} `{HD : !Dpdk W} {N : Type} `{!Zmq N}.
Context {Map : Type -> Type} `{!ConcurrentMap Map, !ConcurrentMapLaws Map}.
Context {L : Type -> Type} {Q : Type -> Type} {R : Type}.
Context {live : W -> gset Z} `{!RingAlloc W live}.

Local Abbreviation Engine := (Engine (W := W) (N := N) (Map := Map) (L := L) (Q := Q) (R := R)).

Definition statuses (e : Engine) : Z -> option ClientStatus := fun id => cm_get id (statusmap e).
Definition channels (e : Engine) : Z -> option Channel.Channel :=
  fun id => cm_get id (EngineRingMap.ring_map (ringmap e)).
Definition live_rings (e : Engine) : gset Z := live (ext (e_process e)).

(** A client has a status exactly when it has a channel, and the rings of the channels are
    the rings alive, each in one place. *)
Record engine_ok (e : Engine) : Prop := {
  ok_owned : owned (live_rings e) (channels e);
  ok_domains : forall id, is_Some (statuses e id) <-> is_Some (channels e id);
}.

(** ** Steps on the rings *)

Lemma ptr_or_new_error_run p (s : process W) :
  exists r, ptr_or_new_error p s = Ret (r, s)
  /\ match r with Ok q => q = p /\ p <> 0 | Err _ => p = 0 end.
Proof.
  unfold ptr_or_new_error. destruct (Z.eqb_spec p 0) as [->|Hp].
  - destruct (dpdk_error_new_run s) as [e E]. step E. by eexists.
  - by exists (Ok p).
Qed.

Lemma to_cstring_run s : Forall (fun c => c <> NUL) s -> to_cstring s = Ret s.
Proof.
  intros Hs. unfold to_cstring. destruct (existsb _ s) eqn:E; [|done].
  apply existsb_exists in E as (c & Hc & E). apply Ascii.eqb_eq in E as <-.
  rewrite Forall_forall in Hs. by destruct (Hs NUL ltac:(by apply list_elem_of_In)).
Qed.

Lemma client_ring_run id t prefix (s : process W) :
  0 <= id -> Forall (fun c => c <> NUL) (str prefix) ->
  exists r s', client_ring id t prefix s = Ret (r, s')
  /\ match r with
     | Ok ring => (Ring.raw ring ∉ live (ext s)) /\ live (ext s') = {[ Ring.raw ring ]} ∪ live (ext s)
     | Err _ => live (ext s') = live (ext s)
     end.
Proof.
  intros Hid Hp. unfold client_ring, current_socket. rewrite bind_assoc. do 2 done_step.
  unfold Ring.new. erewrite bind_ret by (unfold lift; rewrite to_cstring_run by (by apply name_no_nul); reflexivity).
  destruct (rte_ring_create (str prefix ++ fmt_dec id) (wrap 32 PACKET_READ_SIZE)
    (socket_raw (Socket (swrap 32 (rte_socket_id (ext s))))) Ring.NO_FLAGS (ext s)) as [p w] eqn:E.
  erewrite bind_ret by (unfold call; rewrite E; reflexivity).
  apply create_law in E. destruct (ptr_or_new_error_run p (set_ext w s)) as (r & Er & Hr).
  unfold try_bind, monad_try_bind. step Er. destruct r as [q|e].
  - destruct Hr as [-> Hq]. destruct E as [[? _]|(_ & Hn & Hl)]; [done|]. by eexists _, _.
  - destruct E as [[_ Hl]|[? _]]; [|done]. by eexists _, _.
Qed.

Lemma ring_drop_run r (s : process W) :
  exists s', Ring.drop r s = Ret (tt, s') /\ live (ext s') = live (ext s) ∖ {[ Ring.raw r ]}.
Proof. eexists. split; [done|]. cbn. apply free_law. Qed.

Lemma channel_drop_run c (s : process W) :
  exists s', Channel.drop c s = Ret (tt, s') /\ live (ext s')
    = live (ext s) ∖ {[ Ring.raw (Channel.tx_q c); Ring.raw (Channel.rx_q c) ]}.
Proof.
  unfold Channel.drop. destruct (ring_drop_run (Channel.tx_q c) s) as (s1 & E1 & H1). step E1.
  destruct (ring_drop_run (Channel.rx_q c) s1) as (s2 & E2 & H2).
  exists s2. split; [done|]. rewrite H2, H1. apply difference_two.
Qed.

(** ** Steps on the maps *)

Lemma channels_insert id ch e :
  pointwise_relation Z (=)
    (channels (set_ringmap {| EngineRingMap.ring_map := cm_insert id ch (EngineRingMap.ring_map (ringmap e)) |} e))
    (upd (channels e) id (Some ch)).
Proof. intros k. unfold channels, upd. cbn. apply cm_get_insert. Qed.

Lemma statuses_insert id st e :
  pointwise_relation Z (=) (statuses (set_statusmap (cm_insert id st (statusmap e)) e))
    (upd (statuses e) id (Some st)).
Proof. intros k. unfold statuses, upd. cbn. apply cm_get_insert. Qed.

Lemma statuses_remove id e :
  pointwise_relation Z (=) (statuses (set_statusmap (cm_remove id (statusmap e)) e))
    (upd (statuses e) id None).
Proof. intros k. unfold statuses, upd. cbn. apply cm_get_remove. Qed.

Lemma insert_channel_run id ch (e : Engine) live0 :
  owned live0 (channels e) ->
  live_rings e = {[ Ring.raw (Channel.tx_q ch); Ring.raw (Channel.rx_q ch) ]} ∪ live0 ->
  Ring.raw (Channel.tx_q ch) ∉ live0 -> Ring.raw (Channel.rx_q ch) ∉ live0 ->
  Ring.raw (Channel.tx_q ch) <> Ring.raw (Channel.rx_q ch) ->
  exists e', insert_channel id ch e = Ret (tt, e') /\ statusmap e' = statusmap e
  /\ pointwise_relation Z (=) (channels e') (upd (channels e) id (Some ch))
  /\ owned (live_rings e') (channels e').
Proof.
  intros Ho Hl Ht Hr Hne. unfold insert_channel. do 2 done_step.
  pose proof (channels_insert id ch e) as Hch. set (e1 := set_ringmap _ e) in *.
  change (cm_get id (EngineRingMap.ring_map (ringmap e))) with (channels e id).
  destruct (channels e id) as [old|] eqn:Eold.
  - destruct (channel_drop_run old (e_process e1)) as (s' & Ed & Hd).
    exists (set_process s' e1). split; [by apply (zoom_run e_process set_process)|].
    split; [done|]. split; [exact Hch|]. change (channels (set_process s' e1)) with (channels e1).
    unfold live_rings at 1. cbn [e_process set_process]. rewrite Hd.
    change (live (ext (e_process e1))) with (live_rings e). rewrite Hl, Hch.
    pose proof (owned_remove _ _ _ _ Ho Eold) as Ho'.
    assert (Hin : forall p, ring_of old p -> p ∈ live0) by (intros p Hp; apply (own_live _ _ Ho); by exists id, old).
    set (rs := {[ Ring.raw (Channel.tx_q old); Ring.raw (Channel.rx_q old) ]} : gset Z) in *.
    assert (Hrs : forall p, p ∈ rs -> p ∈ live0) 
      by (intros p [->%elem_of_singleton| ->%elem_of_singleton]%elem_of_union; apply Hin; [by left|by right]).
    assert (Hnew : forall p, p ∈ ({[ Ring.raw (Channel.tx_q ch); Ring.raw (Channel.rx_q ch) ]} : gset Z) -> p ∉ live0)
      by (intros p [->%elem_of_singleton| ->%elem_of_singleton]%elem_of_union; done).
    rewrite (difference_new _ _ _ Hrs Hnew).
    rewrite <- (owned_proper _ _ eq_refl (upd (upd (channels e) id None) id (Some ch))).
    + apply owned_add; [done|apply upd_eq| | |done]; by intros [? _]%elem_of_difference.
    + intros k. unfold upd. by case_match.
  - exists e1. split; [done|]. split; [done|]. split; [exact Hch|].
    change (live_rings e1) with (live_rings e). rewrite Hl, Hch. by apply owned_add.
Qed.

(** ** The messages *)

(** Whether the library makes the two rings of a client and the socket takes the answer *)
Definition granted (id : Z) (e : Engine) : bool :=
  match client_ring id RX "RX-" (e_process e) with
  | Ret (Ok _, s) =>
      match client_ring id TX "TX-" s with
      | Ret (Ok _, _) => is_ok (fst (zmq_send (str "1") (e_net e)))
      | _ => false
      end
  | _ => false
  end.

(** Which messages are answered [Ok]: a registration that is granted, and any other the client
    can send in its status *)
Definition answered (id m : Z) (e : Engine) : bool :=
  if m =? 0 then granted id e else bool_decide (is_Some (next_status m (statuses e id))).

(** The channel a message leaves the client: a registration one of two new rings, the end none *)
Definition next_channel (m : Z) (used : gset Z) (old new : option Channel.Channel) : Prop :=
  if m =? 0 then exists ch, new = Some ch /\ forall p, ring_of ch p -> p ∉ used
  else if m =? 1 then new = old
  else new = None.

(** The outcome of a message, against the abstract machine *)
Definition registers (id m : Z) (e : Engine) (r : Fallible unit) (e' : Engine) : Prop :=
  engine_ok e'
  /\ is_ok r = answered id m e
  /\ match r with
     | Ok _ => exists st ch, next_status m (statuses e id) = Some st
               /\ next_channel m (live_rings e) (channels e id) ch
               /\ pointwise_relation Z (=) (statuses e') (upd (statuses e) id st)
               /\ pointwise_relation Z (=) (channels e') (upd (channels e) id ch)
     | Err _ => pointwise_relation Z (=) (statuses e') (statuses e)
               /\ pointwise_relation Z (=) (channels e') (channels e)
               /\ live_rings e' = live_rings e
     end.

(** A message that is refused leaves maps and rings as they were. *)
Lemma registers_refused id m (e e' : Engine) err :
  engine_ok e -> answered id m e = false -> live_rings e' = live_rings e ->
  ringmap e' = ringmap e -> statusmap e' = statusmap e -> registers id m e (Err err) e'.
Proof.
  intros [Ho Hd] Ha Hl Hr Hs.
  assert (Hc : channels e' = channels e) by (unfold channels; by rewrite Hr).
  assert (Hst : statuses e' = statuses e) by (unfold statuses; by rewrite Hs).
  split; [|split; [done|by rewrite Hst, Hc]].
  split; [by rewrite Hl, Hc|]. intros k. rewrite Hst, Hc. apply Hd.
Qed.

Lemma upd_same {A} (f : Z -> option A) k : pointwise_relation Z (=) f (upd f k (f k)).
Proof. intros j. unfold upd. by destruct (Z.eqb_spec k j) as [->|]. Qed.

Lemma engine_ok_same (e e' : Engine) :
  engine_ok e -> live_rings e' = live_rings e ->
  ringmap e' = ringmap e -> statusmap e' = statusmap e -> engine_ok e'.
Proof.
  intros [Ho Hd] Hl Hr Hs.
  assert (Hc : channels e' = channels e) by (unfold channels; by rewrite Hr).
  split; [by rewrite Hl, Hc|]. intros id. unfold statuses. rewrite Hs, Hc. apply Hd.
Qed.

Lemma domains_upd e e' id st ch :
  (forall k, is_Some (statuses e k) <-> is_Some (channels e k)) ->
  pointwise_relation Z (=) (statuses e') (upd (statuses e) id st) ->
  pointwise_relation Z (=) (channels e') (upd (channels e) id ch) ->
  (is_Some st <-> is_Some ch) ->
  forall k, is_Some (statuses e' k) <-> is_Some (channels e' k).
Proof. intros Hd Hs Hc Hi k. rewrite (Hs k), (Hc k). unfold upd. case_match; [done|apply Hd]. Qed.

Lemma start_client_run id e :
  engine_ok e -> 0 <= id -> exists r e', start_client id e = Ret (r, e') /\ registers id 0 e r e'.
Proof.
  intros Hok Hid. pose proof Hok as [Ho Hd]. unfold start_client, try_bind, monad_try_bind.
  destruct (client_ring_run id RX "RX-" (e_process e)) as (r1 & s1 & E1 & H1);
    [done|repeat (apply Forall_cons_2; [done|]); apply Forall_nil_2|].
  erewrite bind_ret by (by apply on_process_run). set (e1 := set_process s1 e).
  destruct r1 as [rx_q|err].
  2: { exists (Err err), e1. split; [done|]. apply registers_refused; [done| |done..].
       unfold answered, granted. by rewrite E1. }
  destruct H1 as [Hn1 Hl1].
  destruct (client_ring_run id TX "TX-" (e_process e1)) as (r2 & s2 & E2 & H2);
    [done|repeat (apply Forall_cons_2; [done|]); apply Forall_nil_2|].
  erewrite bind_ret by (by apply on_process_run). set (e2 := set_process s2 e1).
  change (ext (e_process e1)) with (ext s1) in H2. rewrite Hl1 in H2.
  destruct r2 as [tx_q|err].
  2: { destruct (ring_drop_run rx_q (e_process e2)) as (s3 & E3 & H3).
       erewrite bind_ret by (by apply on_process_run).
       eexists (Err err), _. split; [done|]. apply registers_refused; [done| | |done..].
       { unfold answered, granted. change (e_process e1) with s1 in E2. by rewrite E1, E2. }
       unfold live_rings. cbn [e_process set_process]. rewrite H3.
       change (ext (e_process e2)) with (ext s2). rewrite H2. by apply difference_fresh. }
  destruct H2 as [Hn2 Hl2]. apply not_elem_of_union in Hn2 as [Hne Hn2].
  rewrite not_elem_of_singleton in Hne.
  assert (Hg : answered id 0 e = is_ok (fst (zmq_send (str "1") (e_net e)))).
  { unfold answered, granted. change (e_process e1) with s1 in E2. by rewrite E1, E2. }
  change (e_net e) with (e_net e2) in Hg.
  destruct (zmq_send (str "1") (e_net e2)) as [[u|ze] n3] eqn:E3;
    (erewrite bind_ret by (apply on_net_run; exact E3));
    set (e3 := set_net n3 e2).
  2: { destruct (ring_drop_run tx_q (e_process e3)) as (s4 & E4 & H4).
       erewrite bind_ret by (by apply on_process_run).
       destruct (ring_drop_run rx_q s4) as (s5 & E5 & H5).
       erewrite bind_ret by (by apply on_process_run).
       eexists (Err _), _. split; [done|]. apply registers_refused; [done|done| |done..].
       unfold live_rings. cbn [e_process set_process]. rewrite H5, H4.
       change (ext (e_process e3)) with (ext s2). rewrite Hl2, difference_fresh; [by apply difference_fresh|].
       by rewrite not_elem_of_union, not_elem_of_singleton. }
  destruct (insert_channel_run id (Channel.Build_Channel tx_q rx_q) e3 (live_rings e)) as (e4 & E4 & Hst & Hch & Ho4);
    [exact Ho| |done..|].
  { unfold live_rings. cbn. by rewrite Hl2, insert_two. }
  step E4. eexists (Ok tt), _. split; [done|]. pose proof (statuses_insert id STARTING e4) as Hs.
  assert (Hs' : pointwise_relation Z (=) (statuses (set_statusmap (cm_insert id STARTING (statusmap e4)) e4))
    (upd (statuses e) id (Some STARTING))).
  { intros k. rewrite (Hs k). unfold upd, statuses. by rewrite Hst. }
  split; [split; [exact Ho4|]|split; [done|eexists _, _; split; [done|split; [|by split]]]].
  - eapply (domains_upd e); [exact Hd|exact Hs'|exact Hch|done].
  - eexists. split; [done|]. by intros p [->| ->].
Qed.

Lemma ready_client_run id e :
  engine_ok e -> exists r e', ready_client id e = Ret (r, e') /\ registers id 1 e r e'.
Proof.
  intros Hok. pose proof Hok as [Ho Hd]. unfold ready_client. done_step.
  change (cm_get id (statusmap e)) with (statuses e id).
  destruct (statuses e id) as [st|] eqn:Est.
  2: { eexists _, e. split; [done|]. apply registers_refused; [done| |done..].
       unfold answered. by rewrite Est. }
  done_step. eexists (Ok tt), _. split; [done|]. pose proof (statuses_insert id READY e) as Hs.
  split; [split; [exact Ho|]|split; [unfold answered; by rewrite Est|]].
  - eapply (domains_upd e _ id _ (channels e id)); [exact Hd|exact Hs|apply upd_same|].
    rewrite <- Hd, Est. done.
  - exists (Some READY), (channels e id). rewrite Est. split; [done|]. split; [done|].
    split; [exact Hs|apply upd_same].
Qed.

Lemma stop_client_run id e :
  engine_ok e -> exists r e', stop_client id e = Ret (r, e') /\ registers id 2 e r e'.
Proof.
  intros Hok. pose proof Hok as [Ho Hd]. unfold stop_client. done_step.
  change (cm_get id (statusmap e)) with (statuses e id).
  destruct (statuses e id) as [st|] eqn:Est.
  2: { eexists _, e. split; [done|]. apply registers_refused; [done| |done..].
       unfold answered. by rewrite Est. }
  done_step. destruct (proj1 (Hd id)) as [ch Ech]; [by rewrite Est|].
  change (cm_get id (EngineRingMap.ring_map (ringmap e))) with (channels e id). rewrite Ech. done_step.
  destruct (channel_drop_run ch (e_process e)) as (s' & Ed & Hl).
  erewrite bind_ret by (by apply on_process_run). eexists (Ok tt), _. split; [done|].
  pose proof (statuses_remove id e) as Hs. set (e' := set_process _ _).
  assert (Hc : pointwise_relation Z (=) (channels e') (upd (channels e) id None)).
  { intros k. unfold channels, upd. cbn. apply cm_get_remove. }
  split; [split|split; [unfold answered; by rewrite Est|exists None, None; by rewrite Est]].
  - rewrite Hc. unfold live_rings. cbn. rewrite Hl. by apply owned_remove.
  - by eapply (domains_upd e).
Qed.

Lemma set_client_status_run id m e :
  engine_ok e -> 0 <= id ->
  exists r e', set_client_status id m e = Ret (r, e') /\ registers id m e r e'.
Proof.
  intros Hok Hid. unfold set_client_status.
  destruct (Z.eqb_spec m 0) as [->|H0]; [by apply start_client_run|].
  destruct (Z.eqb_spec m 1) as [->|H1]; [by apply ready_client_run|].
  destruct (Z.eqb_spec m 2) as [->|H2]; [by apply stop_client_run|].
  eexists (Err _), e. split; [done|]. apply registers_refused; [done| |done..].
  unfold answered, next_status. by rewrite !(proj2 (Z.eqb_neq m _)).
Qed.

(** C2: In an engine whose statuses, channels and live rings belong together ([engine_ok]),
    whatever the message and whatever the socket and the library answer, handling it returns and
    keeps the engine so. A registration is answered [Ok] exactly when the library makes both
    rings and the socket takes the answer, the messages 1 and 2 exactly when the client exists,
    and no other message is. On [Ok] the client's status is the one the message leads to and its
    channel one of two rings that were not alive (0), the one it had (1) or none (2), and no other
    client's status or channel changes; on an error no status, no channel and no live ring
    changes. *)
Theorem set_client_status_registers id m e :
  engine_ok e -> 0 <= id ->
  exists r e', set_client_status id m e = Ret (r, e') /\ registers id m e r e'.
Proof. by apply set_client_status_run. Qed.

(** ** A run of the engine *)

Fixpoint run_messages (l : list (Z * Z)) : M Engine unit :=
  match l with
  | [] => mret tt
  | val :: l =>
      _ ← modify (set_new_msg (Some val));
      _ ← check_n_set_client_status;
      run_messages l
  end.

(** C1: From an engine without clients and rings, however many messages come and whatever
    fails on the way, the engine never panics and always has a channel for each status and
    a status for each channel, and the rings alive are exactly those of the channels, each
    used on one side of one channel: registration neither leaks a ring nor frees one in use. *)
Theorem messages_keep_rings l e :
  live_rings e = ∅ -> (forall id, channels e id = None) -> (forall id, statuses e id = None) ->
  Forall (fun val => 0 <= fst val) l ->
  exists e', run_messages l e = Ret (tt, e') /\ engine_ok e' /\ (l <> [] -> new_msg e' = None).
Proof.
  intros Hl Hc Hs Hids.
  assert (Hok : engine_ok e).
  { split; [|by intros id; rewrite Hc, Hs]. rewrite Hl, <- (owned_proper _ _ eq_refl (fun _ => None)); [apply owned_empty|].
    intros k. by rewrite Hc. }
  clear Hl Hc Hs. revert e Hok. induction Hids as [|[id m] l Hid _ IH]; intros e Hok; [by exists e|].
  cbn [run_messages]. done_step. unfold check_n_set_client_status at 1. rewrite bind_assoc. done_step.
  cbn [new_msg set_new_msg fst snd] in *. rewrite bind_assoc.
  destruct (set_client_status_run id m (set_new_msg (Some (id, m)) e)) as (r & e1 & E1 & Hok1 & _);
    [by apply (engine_ok_same e)|done|].
  step E1. done_step. destruct (IH (set_new_msg None e1)) as (e2 & E2 & Hok2 & Hn2).
  { by apply (engine_ok_same e1). }
  exists e2. split; [done|]. split; [done|]. intros _. destruct l as [|v l]; [|by apply Hn2].
  by injection E2 as <-.
Qed.

End registration.

(** ** Witnesses *)

#[local] Instance witness_profile : Profile := debug.

#[local] Instance sim_ring_alloc : RingAlloc sim (fun w => dom (sim_rings w)).
Proof.
  split.
  - intros n c so f w p w'. cbn [rte_ring_create DpdkSim]. unfold create.
    destruct (existsb _ _); intros [= <- <-]; [by left|right].
    destruct (new_address_fresh w) as [H0 Hf]. split_and!; [lia|done|]. cbn. by rewrite dom_insert_L.
  - intros p w. cbn. apply dom_delete_L.
Qed.

Definition sim_engine (w : sim) (n : sim_net) :
    Engine.Engine (W := sim) (N := sim_net) (Map := gmap Z) (L := simple_lock) (Q := bounded) (R := one_shot) :=
  {| e_process := sim_process w []; e_net := n; statusmap := ∅;
     ringmap := EngineRingMap.new; new_msg := None; PORTS := Some []; PORTMAP := Some ∅;
     FORWARDING_TABLE := None; e_mbufs := Bounded 4 []; e_receiver := Silent |}.

Lemma sim_engine_ok n : engine_ok (live := fun w => dom (sim_rings w)) (sim_engine sim_empty n).
Proof.
  split.
  - rewrite <- (owned_proper _ _ eq_refl (fun _ => None)); [apply owned_empty|].
    intros k. symmetry. apply lookup_empty.
  - intros k. unfold statuses, channels. cbn. by rewrite !lookup_empty.
Qed.

(** A client registers while the socket refuses to answer. *)
Lemma set_client_status_registers_witness :
  let e := sim_engine sim_empty {| net_connects := []; net_sends := [false]; net_sent := []; net_inbox := [] |} in
  exists r e', set_client_status 7 0 e = Ret (r, e')
  /\ registers (live := fun w => dom (sim_rings w)) 7 0 e r e'.
Proof.
  intros e. exact (set_client_status_registers (live := fun w => dom (sim_rings w)) 7 0 e
    (sim_engine_ok _) ltac:(lia)).
Defined.

Lemma messages_keep_rings_witness :
  let e := sim_engine sim_empty quiet_net in
  exists e', run_messages [(7, 0); (7, 1); (8, 0); (7, 0); (7, 2); (9, 5)] e = Ret (tt, e')
  /\ engine_ok (live := fun w => dom (sim_rings w)) e' /\ ([(7, 0)] <> [] -> new_msg e' = None).
Proof.
  intros e.
  destruct (messages_keep_rings (live := fun w => dom (sim_rings w))
    [(7, 0); (7, 1); (8, 0); (7, 0); (7, 2); (9, 5)] e) as (e' & E & Hok & Hn).
  - reflexivity.
  - reflexivity.
  - reflexivity.
  - repeat (apply Forall_cons_2; [cbn; lia|]). apply Forall_nil_2.
  - exists e'. split; [exact E|]. split; [exact Hok|]. intros _. by apply Hn.
Defined.
