(* ===== verification/Handshake.v ===== *)
(** * The two ends of the protocol

    What the engine makes of the messages the clients send. *)

From S2P Require Import Prelude RustStr Ffi Dpdk DpdkSim DpdkCore ConcurrentMap Mbuf Ring Channel.
From S2P Require Import EngineRingMap Port Headers RoutingTable Zmq ClientComm ArrayQueue Engine Registration.

(** A socket at which nothing arrives but what clients build: [from_clients] holds of it and goes
    on to hold whatever is received. *)
Class ClientsOnly (N : Type) `{Zmq N} (from_clients : N -> Prop) := {
  poll_from_clients : forall t n r n', from_clients n -> zmq_poll t n = (r, n') -> from_clients n';
  recv_from_clients : forall n r n', from_clients n -> zmq_recv_dontwait n = (r, n') ->
    from_clients n' /\ forall text, r = Ok text -> exists m, 0 <= msg_id m /\ text = to_json m;
}.

Section handshake.
Context `{Profile} {W : Type} `{HD : !Dpdk W} {N : Type} `{!Zmq N} {V : Type} `{HJ : !Json V}.
Context {Map : Type -> Type} `{!ConcurrentMap Map}.
Context {L : Type -> Type} {Q : Type -> Type} {R : Type}.

Local Abbreviation Engine := (Engine (W := W) (N := N) (Map := Map) (L := L) (Q := Q) (R := R)).

(** A message waits at the engine's socket. *)
Definition hears (e : Engine) (text : rstr) (n : N) : Prop :=
  exists n1, zmq_poll POLL_TIMEOUT (e_net e) = (Ok 1, n1) /\ zmq_recv_dontwait n1 = (Ok text, n).

Lemma digits_ascii n : 0 <= n -> Forall (fun c => code c <= 127) (fmt_dec n).
Proof.
  intros Hn. eapply Forall_impl; [by apply (fmt_radix_digits 10 n)|]. intros c (d & Hd & ->).
  assert (Hd' : In d (seqZ 0 10)) by (apply list_elem_of_In, elem_of_seqZ; lia).
  cbn in Hd'. repeat destruct Hd' as [<-|Hd']; try done. all: by vm_compute.
Qed.

Lemma to_json_utf8 m : 0 <= msg_id m -> is_utf8 (to_json m) = true.
Proof.
  intros Hm. apply utf8_valid_ascii. unfold to_json.
  repeat apply Forall_app_2; try by apply digits_ascii.
  all: try (apply (bool_decide_unpack _); by vm_compute).
  destruct (msg m); apply (bool_decide_unpack _); by vm_compute.
Qed.

Lemma client_message_refused `{!JsonLaws V} m (e : Engine) n :
  0 <= msg_id m -> hears e (to_json m) n ->
  exists t, get_msg (V := V) e = Ret (Err (EJson t), set_net n e).
Proof.
  intros Hm (n1 & Hp & Hr). unfold get_msg. step on_net_run. cbn [Z.eqb Pos.eqb].
  step (on_net_run zmq_recv_dontwait). cbn iota. rewrite (to_json_utf8 m Hm).
  destruct (json_from_str (to_json m)) as [v|t] eqn:E.
  - apply json_accepts in E. discriminate E.
  - exists t. done.
Qed.

(** The two operations through which a message becomes a change of a client's status: the engine
    asks its socket, and it acts on the message it has. *)
Inductive turn := AskSocket | ActOnMessage.

Definition take_turn (t : turn) : M Engine unit :=
  match t with
  | AskSocket => _ ← get_msg (V := V); mret tt
  | ActOnMessage => check_n_set_client_status
  end.

Fixpoint take_turns (l : list turn) : M Engine unit :=
  match l with
  | [] => mret tt
  | t :: l => _ ← take_turn t; take_turns l
  end.

Lemma get_msg_only_net `{!JsonLaws V} {from_clients} `{!ClientsOnly N from_clients} (e : Engine) :
  from_clients (e_net e) ->
  exists r n, get_msg (V := V) e = Ret (r, set_net n e) /\ from_clients n.
Proof.
  intros Hc. destruct (zmq_poll POLL_TIMEOUT (e_net e)) as [r n1] eqn:Ep.
  pose proof (poll_from_clients _ _ _ _ Hc Ep) as Hc1. unfold get_msg. step on_net_run.
  destruct r as [k|err]; [|by eexists _, n1]. destruct (k =? 1); [|by eexists _, n1].
  destruct (zmq_recv_dontwait n1) as [r n2] eqn:Er.
  destruct (recv_from_clients _ _ _ Hc1 Er) as [Hc2 Ht].
  step (on_net_run zmq_recv_dontwait). destruct r as [text|err]; [|by eexists _, n2].
  destruct (Ht text eq_refl) as (m & Hm & ->). rewrite (to_json_utf8 m Hm).
  destruct (json_from_str (to_json m)) as [v|t] eqn:E; [|by eexists _, n2].
  apply json_accepts in E. discriminate E.
Qed.

(** C27: No client is ever registered by the message clients build. Each such message is refused
    with a parse error: the names of its object are in single quotes, which no JSON parser
    accepts. So, when nothing else arrives, however often and in whatever order [get_msg]
    and [check_n_set_client_status] run, nothing of the engine changes but its socket: it never
    has a new message, and its statuses, channels and rings stay as they were. *)
Theorem engine_refuses_clients `{!JsonLaws V} {from_clients} `{!ClientsOnly N from_clients} (e : Engine) :
  (forall m n, 0 <= msg_id m -> hears e (to_json m) n ->
     exists t, get_msg (V := V) e = Ret (Err (EJson t), set_net n e)) /\
  (new_msg e = None -> from_clients (e_net e) -> forall turns, exists n,
     take_turns turns e = Ret (tt, set_net n e) /\ from_clients n).
Proof.
  split; [intros m n; apply client_message_refused|].
  intros Hn Hc turns. revert e Hn Hc. induction turns as [|t turns IH]; intros e Hn Hc.
  { exists (e_net e). split; [by destruct e|done]. }
  assert (exists n, take_turn t e = Ret (tt, set_net n e) /\ from_clients n) as (n & Et & Hc').
  { destruct t; cbn [take_turn].
    - destruct (get_msg_only_net e Hc) as (r & n & E & Hc'). exists n. by step E.
    - exists (e_net e). split; [|done]. unfold check_n_set_client_status. done_step. rewrite Hn. by destruct e. }
  cbn [take_turns]. step Et. destruct (IH (set_net n e) Hn Hc') as (n' & E & Hc''). exists n'. by rewrite E.
Qed.

(** A message that is a JSON object with the two numbers becomes the engine's new message,
    the client's number cut to 16 bits: a client numbered 65536 more is taken for another. *)
Theorem get_msg_takes text v id m (e : Engine) n :
  hears e text n -> is_utf8 text = true -> json_from_str text = Ok v ->
  json_u64 v (str "id") = Some id -> json_u64 v (str "msg") = Some m ->
  get_msg (V := V) e = Ret (Ok tt, set_new_msg (Some (id `mod` 2 ^ 16, m)) (set_net n e)).
Proof.
  intros (n1 & Hp & Hr) Hu Hj Hi Hmsg. unfold get_msg. step on_net_run. cbn [Z.eqb Pos.eqb].
  step (on_net_run zmq_recv_dontwait). cbn iota. by rewrite Hu, Hj, Hi, Hmsg.
Qed.

End handshake.

(** ** Witnesses *)

#[local] Instance witness_profile : Profile := debug.

Definition inbox (text : rstr) : sim_net :=
  {| net_connects := []; net_sends := []; net_sent := []; net_inbox := [text] |}.

(** The messages that wait are those of clients. *)
Definition clients_wait (n : sim_net) : Prop :=
  Forall (fun text => exists m, 0 <= msg_id m /\ text = to_json m) (net_inbox n).

#[local] Instance sim_clients_only : ClientsOnly sim_net clients_wait.
Proof.
  split.
  - intros t n r n' Hc [= _ <-]. done.
  - intros n r n' Hc. unfold clients_wait in *. cbn. destruct (net_inbox n) as [|text l] eqn:E; intros [= <- <-].
    + by rewrite E.
    + apply Forall_cons_1 in Hc as [Ht Hl]. split; [exact Hl|]. by intros ? [= <-].
Qed.

(** Three clients write: one to register, one that is ready, one that ends. *)
Definition busy_engine :=
  sim_engine sim_empty {| net_connects := []; net_sends := []; net_sent := [];
    net_inbox := [to_json (registration 3); to_json (ready 3); to_json (terminating 4)] |}.

Lemma engine_refuses_clients_witness :
  exists n, take_turns (V := list (rstr * Z))
    [AskSocket; ActOnMessage; AskSocket; AskSocket; ActOnMessage; AskSocket; ActOnMessage] busy_engine
  = Ret (tt, set_net n busy_engine) /\ clients_wait n.
Proof.
  apply (engine_refuses_clients (V := list (rstr * Z)) (from_clients := clients_wait) busy_engine).
  - reflexivity.
  - repeat (apply Forall_cons_2; [eexists; split; [|reflexivity]; cbn; lia|]). apply Forall_nil_2.
Defined.

Definition good_json : rstr :=
  str "{" ++ ["034"%char] ++ str "id" ++ ["034"%char] ++ str ":1," ++ ["034"%char]
  ++ str "msg" ++ ["034"%char] ++ str ":0}".

Lemma get_msg_takes_witness :
  get_msg (V := list (rstr * Z)) (sim_engine sim_empty (inbox good_json))
  = Ret (Ok tt, set_new_msg (Some (1 `mod` 2 ^ 16, 0))
      (set_net quiet_net (sim_engine sim_empty (inbox good_json)))).
Proof.
  apply (get_msg_takes (V := list (rstr * Z)) good_json [(str "id", 1); (str "msg", 0)] 1 0).
  - eexists. split; reflexivity.
  - by vm_compute.
  - by vm_compute.
  - by vm_compute.
  - by vm_compute.
Defined.
