(* ===== verification/Link.v ===== *)
(** * The two ends of a channel

    The engine and a client are two processes that share DPDK's memory. The engine makes the
    rings of a client when it registers and keeps their handles; the client finds them by
    their names. What the two can then say to each other, for every order of their calls. *)

From S2P Require Import Prelude RustStr Ffi Dpdk DpdkSim DpdkCore ConcurrentMap Mbuf Ring Channel.
From S2P Require Import EngineRingMap Port Headers RoutingTable Zmq ClientComm ArrayQueue Ownership Engine.
From S2P Require Import Registration.

(** What DPDK promises of a ring that is made: it is empty, it is found by its name, and the
    other rings and names are as before; and of a call on a ring: the other rings too. *)
Class RingCreate (W : Type) `{Dpdk W} (contents : W -> Z -> option (list Z)) := {
  created_law : forall n c so f w p w', rte_ring_create n c so f w = (p, w') -> p <> 0 ->
    contents w' p = Some [] /\
    (forall r, r <> p -> contents w' r = contents w r) /\
    rte_ring_lookup n w' = p /\ (forall m, m <> n -> rte_ring_lookup m w' = rte_ring_lookup m w);
  created_fresh_law : forall n c so f w p w', rte_ring_create n c so f w = (p, w') -> p <> 0 ->
    contents w p = None;
  enqueue_frame : forall r r' p w, r <> r' ->
    contents (snd (rte_ring_enqueue r p w)) r' = contents w r';
  dequeue_frame : forall r r' w, r <> r' ->
    contents (snd (rte_ring_dequeue r w)) r' = contents w r';
}.

(** ** Two processes on one library *)

Section link.
Context `{Profile} {W : Type} `{HD : !Dpdk W}.

Record link := { engine_side : process W; client_side : process W }.

(** A call of one side changes its own buffers, and the library's state for both. *)
Definition on_engine {A} : M (process W) A -> M link A :=
  zoom engine_side (fun p l => {| engine_side := p; client_side := set_ext (ext p) (client_side l) |}).
Definition on_client {A} : M (process W) A -> M link A :=
  zoom client_side (fun p l => {| engine_side := set_ext (ext p) (engine_side l); client_side := p |}).

Inductive side := EngineSide | ClientSide.

Inductive action :=
  | Send (who : side) (p : Z)
  | Receive (who : side) (pkt : Mbuf.Mbuf).

(** The channel of each side *)
Definition ends : Type := side -> Channel.Channel.

Definition on_side {A} (who : side) : M (process W) A -> M link A :=
  match who with EngineSide => on_engine | ClientSide => on_client end.

Definition run_action (ch : ends) (a : action) : M link (Fallible unit) :=
  match a with
  | Send who p => on_side who (Channel.send (ch who) (Mbuf.from_ptr p))
  | Receive who pkt => r ← on_side who (Channel.receive (ch who) pkt); mret (fst r)
  end.

Fixpoint run_actions (ch : ends) (l : list action) : M link (list (Fallible unit)) :=
  match l with
  | [] => mret []
  | a :: l => r ← run_action ch a; rs ← run_actions ch l; mret (r :: rs)
  end.



(** ** Any order of calls *)

Context {contents : W -> Z -> option (list Z)} `{!Ring.RingLaws W contents, !RingCreate W contents}.


Definition world (l : link) : W := ext (engine_side l).






End link.

(** ** From the registration on *)

Section registered.
Context `{Profile} {W : Type} `{HD : !Dpdk W} {N : Type} `{!Zmq N}.
Context {Map : Type -> Type} `{!ConcurrentMap Map, !ConcurrentMapLaws Map}.
Context {L : Type -> Type} {Q : Type -> Type} {R : Type}.
Context {contents : W -> Z -> option (list Z)} `{!Ring.RingLaws W contents, !RingCreate W contents}.

Local Abbreviation Engine := (Engine (W := W) (N := N) (Map := Map) (L := L) (Q := Q) (R := R)).





(** ** When the client goes away *)

Context {live : W -> gset Z} `{!RingAlloc W live}.

(** The engine after another process changed the library's state to [w] *)
Definition engine_in (w : W) (e : Engine) : Engine := set_process (set_ext w (e_process e)) e.

(** Freeing both rings of a channel *)
Definition free_rings (ch : Channel.Channel) (w : W) : W :=
  rte_ring_free (Ring.raw (Channel.rx_q ch)) (rte_ring_free (Ring.raw (Channel.tx_q ch)) w).

Lemma channel_drop_frees ch (s : process W) :
  Channel.drop ch s = Ret (tt, set_ext (free_rings ch (ext s)) s).
Proof. done. Qed.

Lemma live_free_rings ch w :
  live (free_rings ch w) = live w ∖ {[ Ring.raw (Channel.tx_q ch); Ring.raw (Channel.rx_q ch) ]}.
Proof. unfold free_rings. by rewrite !free_law, difference_two. Qed.

(** C18: A client that drops its channel frees the rings of the engine's: the engine keeps their
    handles in its map although they are not alive, so its registration invariant is broken, and
    when it is then told that the client stops it answers [Ok] and frees the same two rings, which
    are no longer alive, a second time. *)
Theorem client_drop_frees_engine_rings id (e : Engine) ce cc (c : process W) :
  engine_ok (live := live) e -> channels e id = Some ce ->
  Ring.raw (Channel.tx_q cc) = Ring.raw (Channel.tx_q ce) ->
  Ring.raw (Channel.rx_q cc) = Ring.raw (Channel.rx_q ce) ->
  ext c = ext (e_process e) ->
  exists c', Channel.drop cc c = Ret (tt, c') /\ ext c' = free_rings ce (ext c) /\
    let e' := engine_in (ext c') e in
    channels e' id = Some ce /\ (forall q, ring_of ce q -> q ∉ live_rings (live := live) e') /\
    ~ engine_ok (live := live) e' /\
    exists e2, set_client_status id 2 e' = Ret (Ok tt, e2) /\
      ext (e_process e2) = free_rings ce (free_rings ce (ext c)).
Proof.
  intros [Ho Hd] Hch Ht Hr Ec.
  assert (Hf : forall w, free_rings cc w = free_rings ce w) by (intros w; unfold free_rings; by rewrite Ht, Hr).
  eexists. split; [apply channel_drop_frees|]. cbv zeta. cbn [ext set_ext]. rewrite Hf. split; [done|].
  set (e' := engine_in _ e).
  assert (Hdead : forall q, ring_of ce q -> q ∉ live_rings (live := live) e').
  { intros q Hq. unfold live_rings, e', engine_in. cbn. rewrite live_free_rings.
    intros [_ Hn]%elem_of_difference. apply Hn, elem_of_union. destruct Hq as [->| ->]; [left|right];
    by apply elem_of_singleton. }
  split; [done|]. split; [exact Hdead|]. split.
  { intros [Ho' _]. apply (Hdead (Ring.raw (Channel.tx_q ce))); [by left|].
    apply (own_live _ _ Ho'). exists id, ce. split; [done|by left]. }
  unfold set_client_status. cbn [Z.eqb Pos.eqb]. unfold stop_client. done_step.
  change (cm_get id (statusmap e')) with (statuses e id).
  destruct (proj2 (Hd id) (mk_is_Some _ _ Hch)) as [st Est]. rewrite Est.
  done_step. change (cm_get id (EngineRingMap.ring_map (ringmap e'))) with (channels e id). rewrite Hch.
  done_step. erewrite bind_ret by (apply on_process_run, channel_drop_frees). by eexists.
Qed.

End registered.

(** ** A registration and an exchange *)

#[local] Instance witness_profile : Profile := debug.
#[local] Existing Instance Ring.sim_ring_laws.
#[local] Existing Instance sim_ring_alloc.

#[local] Instance sim_ring_create : RingCreate sim (fun w r => sim_rings w !! r).
Proof.
  split.
  - intros n c so f w p w'. cbn [rte_ring_create rte_ring_lookup DpdkSim]. unfold create.
    destruct (existsb _ _) eqn:Ex; intros [= <- <-] Hp; [done|]. cbn. unfold lookup_name. cbn.
    split; [apply lookup_insert_eq|]. split; [intros r Hr; by apply lookup_insert_ne|].
    rewrite (proj2 (rstr_eqb_iff n n) eq_refl). split; [done|]. intros m Hm.
    destruct (rstr_eqb n m) eqn:E; [|done]. apply rstr_eqb_iff in E. congruence.
  - intros n c so f w p w'. cbn. unfold create. destruct (existsb _ _); intros [= <- <-] Hp; [done|].
    by apply not_elem_of_dom, new_address_fresh.
  - intros r r' p w Hne. cbn. repeat case_match; cbn; try done; by apply lookup_insert_ne.
  - intros r r' w Hne. cbn. repeat case_match; cbn; try done; by apply lookup_insert_ne.
Qed.

Definition newcomer := sim_engine sim_empty quiet_net.

Definition welcomed := match start_client 7 newcomer with Ret (_, e) => e | _ => newcomer end.




Definition newcomer_process : process sim := sim_process (ext (e_process welcomed)) [].


Lemma welcomed_ok : engine_ok (live := fun w => dom (sim_rings w)) welcomed.
Proof.
  destruct (set_client_status_run (live := fun w => dom (sim_rings w)) 7 0 newcomer (sim_engine_ok _))
    as (r & e & E & [Hok _]); [lia|].
  assert (set_client_status 7 0 newcomer = Ret (Ok tt, welcomed)) as E' by (by vm_compute).
  rewrite E' in E. by injection E as _ ->.
Qed.

Definition welcomed_channel : Channel.Channel :=
  match channels welcomed 7 with Some ch => ch | None => Channel.new Ring.default Ring.default end.

Lemma client_drop_frees_engine_rings_witness :
  exists c', Channel.drop welcomed_channel newcomer_process = Ret (tt, c') /\
    ext c' = free_rings welcomed_channel (ext newcomer_process) /\
    let e' := engine_in (ext c') welcomed in
    channels e' 7 = Some welcomed_channel /\
    (forall q, ring_of welcomed_channel q -> q ∉ live_rings (live := fun w => dom (sim_rings w)) e') /\
    ~ engine_ok (live := fun w => dom (sim_rings w)) e' /\
    exists e2, set_client_status 7 2 e' = Ret (Ok tt, e2) /\
      ext (e_process e2)
      = free_rings welcomed_channel (free_rings welcomed_channel (ext newcomer_process)).
Proof.
  apply (client_drop_frees_engine_rings (live := fun w => dom (sim_rings w)) 7 welcomed welcomed_channel
    welcomed_channel newcomer_process).
  - apply welcomed_ok.
  - by vm_compute.
  - done.
  - done.
  - done.
Defined.

(** Three packets from both ends, and two attempts to receive *)
Example three_packets :
  (r ← run_actions (fun _ => welcomed_channel)
         [Send EngineSide 8192; Receive ClientSide (Mbuf.from_ptr 64); Send ClientSide 12288;
          Receive EngineSide (Mbuf.from_ptr 64); Send EngineSide 16384]
         {| engine_side := e_process welcomed; client_side := sim_process (ext (e_process welcomed)) [] |};
   Ret (map is_ok (fst r), sim_rings (world (snd r)) !! Ring.raw (Channel.tx_q welcomed_channel)))
  = Ret ([true; false; true; false; true], Some [8192; 12288; 16384]).
Proof. by vm_compute. Qed.
