(* ===== verification/Dataplane.v ===== *)
(** * The packet loops

    When the engine's receiving and processing loops end. *)

From S2P Require Import Prelude RustStr Ffi Dpdk DpdkSim DpdkCore ConcurrentMap Mbuf Ring Channel.
From S2P Require Import EngineRingMap Port Headers RoutingTable Zmq ClientComm ArrayQueue Engine Registration.

Section dataplane.
Context `{Profile} {W : Type} `{HD : !Dpdk W} {N : Type} `{!Zmq N}.
Context {Map : Type -> Type} `{!ConcurrentMap Map}.
Context {L : Type -> Type} `{!ShardedLock L} {Q : Type -> Type} `{!ArrayQueue Q} {R : Type} `{!Receiver R}.
Context {items : forall A, Q A -> list A} {capacity : forall A, Q A -> nat}.
Context `{!ArrayQueueLaws Q items capacity}.

Local Abbreviation Engine := (Engine (W := W) (N := N) (Map := Map) (L := L) (Q := Q) (R := R)).

Definition queued (e : Engine) : list PortIdMbuf := items _ (e_mbufs e).

(** The sender of the stop signal is alive and silent, or gone. *)
Definition silent (r : R) : Prop := exists r', try_recv r = (Ok None, r').
Definition gone (r : R) : Prop := try_recv r = (Err tt, r).

(** ** Receiving *)

Lemma receiver_try_run (e : Engine) :
  receiver_try e = Ret (fst (try_recv (e_receiver e)), set_receiver (snd (try_recv (e_receiver e))) e).
Proof. unfold receiver_try. done_step. by destruct (try_recv (e_receiver e)). Qed.

(** Steps that leave the channel of the stop signal alone *)
Definition stop_signal (e : Engine) : R := e_receiver e.

Lemma keeps_fill fuel ports : keeps stop_signal (fill fuel ports).
Proof.
  assert (Hq : forall elem, keeps stop_signal (push_burst elem)).
  { intros elem e a e'. unfold push_burst. done_step.
    destruct (aq_push elem (e_mbufs e)) as [[u|el] q]; done_step; [by intros [= _ <-]|].
    intros E. by apply (keeps_zoom (f := stop_signal)) in E. }
  assert (Hp : forall ports, keeps stop_signal (poll_ports ports)).
  { intros l. induction l as [|p l IH]; cbn [poll_ports]; [apply keeps_ret|].
    apply keeps_bind; [by apply keeps_zoom|intros recvd]. by apply keeps_bind. }
  induction fuel as [|fuel IH]; cbn [fill]; [done|].
  apply keeps_bind; [apply keeps_gets|intros [|]; [apply keeps_ret|]]. by apply keeps_bind.
Qed.

Lemma rx_loop_gone fuel ports (e : Engine) r :
  gone (e_receiver e) -> rx_loop fuel ports e <> Ret r.
Proof.
  revert e. induction fuel as [|fuel IH]; intros e Hg E; [done|]. cbn [rx_loop] in E.
  erewrite bind_ret in E by apply receiver_try_run. unfold gone in Hg. rewrite Hg in E. cbn [fst snd] in E.
  destruct r as [u e']. apply bind_inv in E as (u1 & e1 & E1 & E2).
  apply keeps_fill in E1. unfold stop_signal in E1. cbn in E1. apply (IH e1) in E2; [done|].
  unfold gone. by rewrite E1.
Qed.

Lemma rx_main_silent fuel ports (e : Engine) :
  PORTS e = Some ports -> silent (e_receiver e) ->
  exists r', rx_main (S fuel) e = Ret (tt, set_receiver r' e).
Proof.
  intros Hp [r' Hr]. exists r'. unfold rx_main.
  erewrite bind_ret by (unfold stored; by rewrite Hp). cbn [rx_loop]. step receiver_try_run.
  by rewrite Hr.
Qed.

(** C31: The receiving loop does the opposite of what it is for: as long as the sender of the
    stop signal is alive and has sent nothing it stops before it receives a packet; once the
    sender is gone it never stops, however long it runs. *)
Theorem rx_main_inverted fuel ports (e : Engine) :
  PORTS e = Some ports ->
  (silent (e_receiver e) -> exists r', rx_main (S fuel) e = Ret (tt, set_receiver r' e))
  /\ (gone (e_receiver e) -> forall r, rx_main fuel e <> Ret r).
Proof.
  intros Hp. split.
  - by apply rx_main_silent with ports.
  - intros Hg r. unfold rx_main. erewrite bind_ret by (unfold stored; by rewrite Hp).
    by apply rx_loop_gone.
Qed.

(** ** Processing *)

Lemma process_packet_never pnum mbuf (e : Engine) r : process_packet pnum mbuf e <> Ret r.
Proof.
  destruct r as [u e']. unfold process_packet. intros E.
  apply bind_inv in E as (t & e1 & _ & E). apply bind_inv in E as (m & e2 & _ & E).
  apply bind_inv in E as (u1 & e3 & _ & E). apply bind_inv in E as (u2 & e4 & _ & E). done.
Qed.

Lemma queue_pop_run (e : Engine) x l :
  queued e = x :: l -> exists q, queue_pop e = Ret (Some x, set_mbufs q e) /\ items _ q = l.
Proof.
  intros Hq. destruct (aq_pop_law _ (e_mbufs e) x l Hq) as (q & E & Hi & _).
  exists q. split; [|done]. unfold queue_pop. done_step. rewrite E. done.
Qed.

Lemma queue_empty_false (e : Engine) x l : queued e = x :: l -> aq_is_empty (e_mbufs e) = false.
Proof.
  intros Hq. destruct (aq_is_empty (e_mbufs e)) eqn:E; [|done]. apply aq_empty_law in E.
  unfold queued in Hq. by rewrite E in Hq.
Qed.

(** The loop only returns when the queue is empty, and it got there through empty bursts. *)
Lemma process_packets_ret fuel : forall (e : Engine) u e',
  process_packets fuel e = Ret (u, e') ->
  forallb (fun b => match mbufs b with [] => true | _ => false end) (queued e) = true /\
  exists q, e' = set_mbufs q e /\ queued e' = [].
Proof.
  induction fuel as [|fuel IH]; intros e u e' E; [done|].
  cbn [process_packets] in E. apply bind_inv in E as (b0 & e0 & [= <- <-] & E).
  destruct (queued e) as [|b l] eqn:Hq.
  - assert (Hm : aq_is_empty (e_mbufs e) = true) by (by apply aq_empty_law). rewrite Hm in E.
    injection E as _ <-. split; [done|]. exists (e_mbufs e). by destruct e.
  - rewrite (queue_empty_false e b l Hq) in E.
    destruct (queue_pop_run e b l Hq) as (q & Ep & Hi). erewrite bind_ret in E by exact Ep.
    apply bind_inv in E as (u1 & e1 & E1 & E2). cbn [forallb].
    destruct (mbufs b) as [|m ms] eqn:Eb.
    + cbn [process_burst] in E1. injection E1 as _ <-. apply IH in E2 as (Ha & q' & -> & Hq').
      unfold queued in Ha at 1. cbn in Ha. rewrite Hi in Ha. split; [done|]. by exists q'.
    + cbn [process_burst] in E1. apply bind_inv in E1 as (u2 & e2 & E3 & _).
      by apply process_packet_never in E3.
Qed.

(** C32: The processing loop empties a queue of empty bursts; as soon as one burst of the queue
    has a packet it never returns, for any fuel: forwarding the packet to the clients is not
    implemented. *)
Theorem process_packets_returns fuel (e : Engine) :
  (length (queued e) < fuel)%nat ->
  if forallb (fun b => match mbufs b with [] => true | _ => false end) (queued e)
  then exists e', process_packets fuel e = Ret (tt, e') /\ queued e' = []
  else forall fuel' r, process_packets fuel' e <> Ret r.
Proof.
  intros Hf. destruct (forallb _ _) eqn:Ha.
  - revert e Hf Ha. induction fuel as [|fuel IH]; intros e Hf Ha; [lia|]. cbn [process_packets]. done_step.
    destruct (queued e) as [|b l] eqn:Hq.
    + exists e. assert (aq_is_empty (e_mbufs e) = true) as -> by (by apply aq_empty_law). done.
    + rewrite (queue_empty_false e b l Hq). destruct (queue_pop_run e b l Hq) as (q & E & Hi). step E.
      cbn [forallb] in Ha. apply andb_true_iff in Ha as [Hb Ha]. destruct (mbufs b) eqn:Eb; [|done].
      cbn [process_burst]. done_step. cbn [length] in Hf. apply IH; unfold queued; cbn; rewrite Hi; [lia|done].
  - intros fuel' [u e'] E. apply process_packets_ret in E as [Ha' _]. congruence.
Qed.

End dataplane.

(** ** Witnesses *)

#[local] Instance witness_profile : Profile := debug.

Lemma rx_main_inverted_witness :
  let e := sim_engine sim_empty quiet_net in
  (exists r', rx_main 1 e = Ret (tt, set_receiver r' e))
  /\ (forall r, rx_main 100 (set_receiver Gone e) <> Ret r).
Proof.
  intros e. split.
  - apply (proj1 (rx_main_inverted 0 [] e eq_refl)). by exists Silent.
  - exact (proj2 (rx_main_inverted 100 [] (set_receiver Gone e) eq_refl) eq_refl).
Defined.

Definition one_packet : bounded PortIdMbuf :=
  Bounded 4 [{| portid := 0; mbufs := [] |}; {| portid := 1; mbufs := [Mbuf.from_ptr 8192] |}].

Definition two_empty : bounded PortIdMbuf :=
  Bounded 4 [{| portid := 0; mbufs := [] |}; {| portid := 1; mbufs := [] |}].

Lemma process_packets_returns_witness :
  (exists e', process_packets 3 (set_mbufs two_empty (sim_engine sim_empty quiet_net)) = Ret (tt, e')
    /\ elements (e_mbufs e') = [])
  /\ (forall r, process_packets 9 (set_mbufs one_packet (sim_engine sim_empty quiet_net)) <> Ret r).
Proof.
  split.
  - exact (process_packets_returns (items := fun A q => elements q) (capacity := fun A q => bound q) 3
      (set_mbufs two_empty (sim_engine sim_empty quiet_net)) ltac:(cbn; lia)).
  - exact (process_packets_returns (items := fun A q => elements q) (capacity := fun A q => bound q) 3
      (set_mbufs one_packet (sim_engine sim_empty quiet_net)) ltac:(cbn; lia) 9%nat).
Defined.
