(* ===== verification/WorkHorse.v ===== *)
(** * The three tasks of a thread ([Engine::work_horse])

    A thread spawns three futures on a local executor: registration, receiving, processing.
    The executor polls them one at a time, in an order of its choosing, until the receiving
    task is done. Only the registration task ever yields, while its timer runs. The schedules
    are the runs of a step relation; what holds of them is by induction on the steps. *)

From stdpp Require Import relations.
From S2P Require Import Prelude RustStr Ffi Dpdk DpdkSim DpdkCore ConcurrentMap Mbuf Ring Channel.
From S2P Require Import EngineRingMap Port Headers RoutingTable Zmq ClientComm ArrayQueue Ownership Engine.
From S2P Require Import Registration Dataplane.

(** Where the registration task is: before its first poll, at the [await], or done. *)
Inductive timer := Unpolled | Sleeping | Woken.

Record tasks := { rx_done : bool; process_done : bool; reg : timer }.

Definition spawned : tasks := {| rx_done := false; process_done := false; reg := Unpolled |}.
Definition rx_polled (t : tasks) : tasks :=
  {| rx_done := true; process_done := process_done t; reg := reg t |}.
Definition process_polled (t : tasks) : tasks :=
  {| rx_done := rx_done t; process_done := true; reg := reg t |}.
Definition reg_polled (x : timer) (t : tasks) : tasks :=
  {| rx_done := rx_done t; process_done := process_done t; reg := x |}.

Section work_horse.
Context `{Profile} {W : Type} `{HD : !Dpdk W} {N : Type} `{!Zmq N}.
Context {Map : Type -> Type} `{!ConcurrentMap Map}.
Context {L : Type -> Type} `{!ShardedLock L} {Q : Type -> Type} `{!ArrayQueue Q} {R : Type} `{!Receiver R}.

Local Abbreviation Engine := (Engine (W := W) (N := N) (Map := Map) (L := L) (Q := Q) (R := R)).

(** One poll of one task that is not done *)
Inductive poll : tasks * Engine -> tasks * Engine -> Prop :=
  | poll_rx t e fuel e' :
      rx_done t = false -> rx_main fuel e = Ret (tt, e') ->
      poll (t, e) (rx_polled t, e')
  | poll_process t e fuel e' :
      process_done t = false -> process_packets fuel e = Ret (tt, e') ->
      poll (t, e) (process_polled t, e')
  | poll_sleep t e :
      reg t = Unpolled -> poll (t, e) (reg_polled Sleeping t, e)
  | poll_wake t e e' :
      reg t = Sleeping -> check_n_set_client_status e = Ret (tt, e') ->
      poll (t, e) (reg_polled Woken t, e').

(** [work_horse] returns when the receiving task is done; the other two may or may not be. *)
Definition work_horse (e e' : Engine) : Prop :=
  exists t, rtc poll (spawned, e) (t, e') /\ rx_done t = true.

(** ** The tasks leave each other's state alone *)

Definition loop_state (e : Engine) : Q PortIdMbuf * R * option (list PortQueue) :=
  (e_mbufs e, e_receiver e, PORTS e).

Lemma keeps_insert_channel id ch : keeps loop_state (insert_channel id ch).
Proof. unfold insert_channel, on_process. keep. Qed.
Hint Resolve keeps_insert_channel : engine.

Lemma keeps_set_client_status id m : keeps loop_state (set_client_status id m).
Proof.
  assert (keeps loop_state (start_client id)).
  { unfold start_client, on_process, on_net, insert_status. keep. }
  assert (keeps loop_state (ready_client id)) by (unfold ready_client, insert_status; keep).
  assert (keeps loop_state (stop_client id)) by (unfold stop_client, on_process; keep).
  unfold set_client_status. keep.
Qed.
Hint Resolve keeps_set_client_status : engine.

Lemma keeps_check : keeps loop_state check_n_set_client_status.
Proof. unfold check_n_set_client_status. keep. Qed.

(** ** Every schedule *)

Context `{!ConcurrentMapLaws Map} {live : W -> gset Z} `{!RingAlloc W live}.
Context {items : forall A, Q A -> list A} {capacity : forall A, Q A -> nat}.
Context `{!ArrayQueueLaws Q items capacity}.

Local Abbreviation engine_ok := (engine_ok (live := live)).
Local Abbreviation queued := (queued (items := items)).

(** The message that waits in the engine is from a client. *)
Definition pending_ok (e : Engine) : Prop := forall id m, new_msg e = Some (id, m) -> 0 <= id.

(** Handling the message that waits changes the status of its client at most. *)
Lemma check_run e : engine_ok e -> pending_ok e -> exists e',
  check_n_set_client_status e = Ret (tt, e') /\ engine_ok e' /\
  forall id, (forall m, new_msg e <> Some (id, m)) -> statuses e' id = statuses e id.
Proof.
  intros Hok Hid. unfold check_n_set_client_status. done_step.
  destruct (new_msg e) as [[id m]|] eqn:Em; [|by exists e]. cbn [fst snd].
  destruct (set_client_status_run (live := live) id m e Hok) as (r & e1 & E & Hok1 & _ & Hr); [by eapply Hid|].
  step E. eexists. split; [reflexivity|]. split; [by apply (engine_ok_same e1)|].
  intros id' Hne. assert (id <> id') by (intros ->; by apply (Hne m)).
  destruct r as [u|err]; [destruct Hr as (st & ? & _ & _ & Hs & _)|destruct Hr as [Hs _]];
    change (statuses (set_new_msg None e1)) with (statuses e1); rewrite Hs; [by apply upd_ne|done].
Qed.

(** What every schedule from [e0] keeps *)
Record reached (e0 : Engine) (t : tasks) (e : Engine) : Prop := {
  re_ok : engine_ok e;
  re_ports : PORTS e = PORTS e0;
  re_receiver : rx_done t = false -> e_receiver e = e_receiver e0;
  re_queue : queued e = if process_done t then [] else queued e0;
  re_pending : reg t <> Woken -> new_msg e = new_msg e0;
  re_statuses : forall id, (forall m, new_msg e0 <> Some (id, m)) -> statuses e id = statuses e0 id;
}.

Lemma reached_start e : engine_ok e -> reached e spawned e.
Proof. by split. Qed.

Lemma reached_rx e0 ports t e fuel e' :
  PORTS e0 = Some ports -> silent (e_receiver e0) -> reached e0 t e -> rx_done t = false ->
  rx_main fuel e = Ret (tt, e') -> reached e0 (rx_polled t) e'.
Proof.
  intros Hp Hs [Hok Hports Hr Hq Hn Hst] Ht E. destruct fuel as [|fuel].
  { unfold rx_main in E. apply bind_inv in E as (? & ? & _ & E). done. }
  destruct (rx_main_silent fuel ports e) as [r' E']; [congruence|by rewrite Hr|].
  rewrite E' in E. injection E as <-. split; try done. by apply (engine_ok_same e).
Qed.

Lemma reached_process e0 t e fuel e' :
  reached e0 t e -> process_packets fuel e = Ret (tt, e') -> reached e0 (process_polled t) e'.
Proof.
  intros [Hok Hports Hr Hq Hn Hst] E. apply process_packets_ret in E as (_ & q & -> & Hq').
  split; try done. by apply (engine_ok_same e).
Qed.

Lemma reached_wake e0 t e e' :
  pending_ok e0 -> reached e0 t e -> reg t = Sleeping ->
  check_n_set_client_status e = Ret (tt, e') -> reached e0 (reg_polled Woken t) e'.
Proof.
  intros Hid [Hok Hports Hr Hq Hn Hst] Ht E. specialize (Hn ltac:(by rewrite Ht)).
  destruct (check_run e) as (e1 & E1 & Hok1 & Hs1); [done|unfold pending_ok; by rewrite Hn|].
  pose proof (keeps_check _ _ _ E) as [= Em Er Ep]. rewrite E1 in E. injection E as ->.
  split; cbn [rx_done process_done reg reg_polled]; [done|congruence| | |done|].
  - intros Hrx. rewrite Er. by apply Hr.
  - rewrite <- Hq. unfold queued. by rewrite Em.
  - intros id Hne. rewrite Hs1, Hst; [done|done|by rewrite Hn].
Qed.

Lemma reached_poll e0 ports c c' :
  PORTS e0 = Some ports -> silent (e_receiver e0) -> pending_ok e0 ->
  reached e0 (fst c) (snd c) -> poll c c' -> reached e0 (fst c') (snd c').
Proof.
  intros Hp Hs Hid Hre Hpoll. destruct Hpoll; cbn [fst snd] in *.
  - by eapply reached_rx.
  - by eapply reached_process.
  - by destruct Hre; split; try done; intros _; apply re_pending0; rewrite H0.
  - by eapply reached_wake.
Qed.

(** How far the tasks have come: each poll is one step forward. *)
Definition progress (t : tasks) : nat :=
  Nat.b2n (rx_done t) + Nat.b2n (process_done t)
  + match reg t with Unpolled => 0 | Sleeping => 1 | Woken => 2 end.

Lemma poll_progress c c' : poll c c' -> progress (fst c') = S (progress (fst c)).
Proof.
  intros Hpoll. destruct Hpoll as [[] ? ? ? E|[] ? ? ? E|[] ? E|[] ? ? E]; cbn in E; subst; cbn;
    unfold progress; cbn; lia.
Qed.

Lemma progress_bound t : (progress t <= 4)%nat.
Proof. destruct t as [[] [] []]; cbn; lia. Qed.

(** C16: While the sender of the stop signal is alive, a thread polls its tasks at most four
    times in all. In whatever order it does, no packet is received: the queue is as it was or
    empty; the client of the message that waited is the only one whose status can have changed,
    the registration invariant holds; and the next poll of the receiving task ends
    [work_horse]. *)
Theorem work_horse_schedules e ports n t e' :
  engine_ok e -> PORTS e = Some ports -> silent (e_receiver e) -> pending_ok e ->
  nsteps poll n (spawned, e) (t, e') ->
  (n <= 4)%nat /\ engine_ok e' /\ (queued e' = queued e \/ queued e' = []) /\
  (forall id, (forall m, new_msg e <> Some (id, m)) -> statuses e' id = statuses e id) /\
  (rx_done t = false -> exists e2, poll (t, e') (rx_polled t, e2) /\ work_horse e e2).
Proof.
  intros Hok Hp Hs Hid Hn.
  assert (Hinv : forall m c, nsteps poll m (spawned, e) c ->
    reached e (fst c) (snd c) /\ progress (fst c) = m).
  { intros m. induction m as [|m IH]; intros c Hm.
    - inversion Hm; subst. split; [by apply reached_start|done].
    - apply nsteps_inv_r in Hm as (c1 & Hm & Hc). apply IH in Hm as [Hre <-]. split.
      + by eapply reached_poll.
      + by apply poll_progress. }
  destruct (Hinv n (t, e') Hn) as [Hre Hpr]. cbn [fst snd] in *. subst n.
  pose proof Hre as [Hok' Hports Hr Hq _ Hst].
  split; [apply progress_bound|]. split; [done|]. split; [|split; [done|]].
  - destruct (process_done t); [by right|by left].
  - intros Ht. destruct (rx_main_silent 0 ports e') as [r' E]; [congruence|by rewrite Hr|].
    assert (Hpoll : poll (t, e') (rx_polled t, set_receiver r' e')) by (by eapply poll_rx).
    eexists. split; [exact Hpoll|]. exists (rx_polled t). split; [|done].
    eapply rtc_r; [by eapply rtc_nsteps_2|done].
Qed.

End work_horse.

(** ** A schedule *)

#[local] Instance witness_profile : Profile := debug.
#[local] Existing Instance sim_ring_alloc.

(** A client's registration waits in the engine. *)
Definition asked := set_new_msg (Some (7, 0)) (sim_engine sim_empty quiet_net).

Definition answered := match check_n_set_client_status asked with Ret (_, e) => e | _ => asked end.

(** The timer starts, the queue is processed, the timer wakes the task. *)
Definition three_polls : tasks := {| rx_done := false; process_done := true; reg := Woken |}.

Lemma three_polls_run : nsteps poll 3 (spawned, asked) (three_polls, answered).
Proof.
  eapply nsteps_l; [by apply poll_sleep|].
  eapply nsteps_l; [by apply (poll_process _ _ 1)|].
  eapply nsteps_l; [apply (poll_wake _ _ answered); [done|by vm_compute]|apply nsteps_O].
Qed.

Lemma work_horse_schedules_witness :
  (3 <= 4)%nat /\ engine_ok (live := fun w => dom (sim_rings w)) answered /\
  (queued (items := fun A q => elements q) answered = queued (items := fun A q => elements q) asked
   \/ queued (items := fun A q => elements q) answered = []) /\
  (forall id, (forall m, new_msg asked <> Some (id, m)) -> statuses answered id = statuses asked id) /\
  (rx_done three_polls = false -> exists e2,
    poll (three_polls, answered) (rx_polled three_polls, e2) /\ work_horse asked e2).
Proof.
  apply (work_horse_schedules (live := fun w => dom (sim_rings w)) (items := fun A q => elements q)
    (capacity := fun A q => bound q) asked [] 3 three_polls answered).
  - apply (engine_ok_same (live := fun w => dom (sim_rings w)) (sim_engine sim_empty quiet_net));
      [apply sim_engine_ok|done..].
  - done.
  - by exists Silent.
  - intros id m [= <- _]. lia.
  - exact three_polls_run.
Defined.

Example client_registered : statuses answered 7 = Some STARTING.
Proof. by vm_compute. Qed.
