(* ===== verification/Config.v ===== *)
(** * The configuration ([config.rs])

    The settings of the runtime, the values its deserializers accept, the cores it uses and
    the arguments it passes to the EAL. Reading the TOML file is left to the libraries. *)

From stdpp Require Import sorting.
From S2P Require Import MacAddr Cidr Ipv4Cidr Ipv6Cidr.
From S2P Require Import Prelude RustStr DpdkCore Mbuf Port.

(** ** Deserializers

    What each makes of the primitive value it asks the deserializer for; a custom error is
    the text of the parser's. *)

Definition deserialize_core_id (i : Z) : Z := i.

Definition deserialize_mac (s : rstr) : result MacAddr rstr :=
  map_err MacAddr.mac_parse_error_text (MacAddr.from_str s).

Definition deserialize_ipv4_cidr `{Profile} (s : rstr) : outcome (result Ipv4Cidr rstr) :=
  r ← Ipv4Cidr.from_str s; Ret (map_err cidr_error_text r).

Definition deserialize_ipv6_cidr `{Profile} (s : rstr) : outcome (result Ipv6Cidr rstr) :=
  r ← Ipv6Cidr.from_str s; Ret (map_err cidr_error_text r).

(** [std::time::Duration], of whole seconds *)
Record Duration := { as_secs : Z }.

Definition duration_from_secs (secs : Z) : Duration := {| as_secs := secs |}.

Definition duration_option_from_secs (secs : option Z) : option Duration :=
  match secs with
  | Some s =>
      let dur := duration_from_secs s in
      if 0 <? as_secs dur then Some dur else None
  | None => None
  end.

(** ** Settings *)

Record MempoolConfig := {
  capacity : Z;
  cache_size : Z;
}.

Definition default_capacity : Z := 65535.
Definition default_cache_size : Z := 0.

Definition mempool_config_default : MempoolConfig :=
  {| capacity := default_capacity; cache_size := default_cache_size |}.

Record PortConfig := {
  p_name : rstr;
  p_device : rstr;
  p_args : option rstr;
  p_cores : list Z;
  p_rxd : Z;
  p_txd : Z;
  p_promiscuous : bool;
  p_multicast : bool;
  p_kni : bool;
}.

Definition default_port_rxd : Z := 128.
Definition default_port_txd : Z := 128.
Definition default_multicast_mode : bool := true.

Record RuntimeConfig := {
  app_name : rstr;
  secondary : bool;
  app_group : option rstr;
  master_core : Z;
  r_cores : list Z;
  mempool : MempoolConfig;
  ports : list PortConfig;
  dpdk_args : option rstr;
  duration : option Duration;
}.

(** ** Cores *)

Definition all_cores (c : RuntimeConfig) : list Z :=
  dedup (merge_sort Z.le ([master_core c] ++ r_cores c ++ concat (map p_cores (ports c)))).

Definition num_knis (c : RuntimeConfig) : Z :=
  len (List.filter p_kni (ports c)).

(** ** EAL arguments *)

(** [regex::Regex] with the pattern of a PCIe address. *)
Class PcieRegex := pcie_is_match : rstr -> bool.

Definition decimal_digit (c : ascii) : bool := (48 <=? code c) && (code c <=? 57).

(** What the pattern [^\d{4}:\d{2}:\d{2}\.\d$] means on ASCII texts *)
Definition pcie_pattern (s : rstr) : bool :=
  match s with
  | [a; b; c; d; p; e; f; q; g; h; r; i] =>
      forallb decimal_digit [a; b; c; d; e; f; g; h; i]
      && Ascii.eqb p ":" && Ascii.eqb q ":" && Ascii.eqb r "."
  | _ => false
  end.

Class PcieRegexLaws `{PcieRegex} :=
  pcie_law : forall s, Forall (fun c => code c <= 127) s -> pcie_is_match s = pcie_pattern s.

(** The core list: a core is left out when its decimal text occurs in the list so far. *)
Definition add_core (cores : rstr) (core : Z) : rstr :=
  let c := fmt_dec core in
  if negb (contains cores c) then
    match cores with
    | [] => c
    | _ => cores ++ str ", " ++ c
    end
  else cores.

Definition core_list (cores : list Z) : rstr := fold_left add_core cores [].

Section eal.
Context `{!PcieRegex}.

Definition port_args (port : PortConfig) : list rstr :=
  if pcie_is_match (p_device port) then [str "--pci-whitelist"; p_device port]
  else
    let vdev := match p_args port with
                | Some args => p_device port ++ str "," ++ args
                | None => p_device port
                end in
    [str "--vdev"; vdev].

Definition to_eal_args (c : RuntimeConfig) : list rstr :=
  [app_name c]
  ++ [str "--proc-type"; if secondary c then str "secondary" else str "primary"]
  ++ [str "--file-prefix"; match app_group c with Some g => g | None => app_name c end]
  ++ concat (map port_args (ports c))
  ++ [str "--master-lcore"; fmt_dec (master_core c)]
  ++ [str "-l"; fold_left (fun cores port => fold_left add_core (p_cores port) cores) (ports c) []]
  ++ match dpdk_args c with Some args => split_ascii_whitespace args | None => [] end.

End eal.

(** ** Debug texts *)

Definition mempool_config_fmt (m : MempoolConfig) : rstr :=
  debug_struct (str "mempool")
    [("capacity"%string, fmt_dec (capacity m)); ("cache_size"%string, fmt_dec (cache_size m))].

Definition port_config_fmt (p : PortConfig) : rstr :=
  debug_struct (str "port")
    ([("name"%string, debug_str (p_name p)); ("device"%string, debug_str (p_device p))]
     ++ match p_args p with Some a => [("args"%string, debug_str a)] | None => [] end
     ++ [("cores"%string, debug_list (map core_debug (p_cores p)));
         ("rxd"%string, fmt_dec (p_rxd p)); ("txd"%string, fmt_dec (p_txd p));
         ("promiscuous"%string, debug_bool (p_promiscuous p));
         ("multicast"%string, debug_bool (p_multicast p));
         ("kni"%string, debug_bool (p_kni p))]).

Definition runtime_config_fmt (c : RuntimeConfig) : rstr :=
  debug_struct (str "runtime")
    ([("app_name"%string, debug_str (app_name c));
      ("secondary"%string, debug_bool (secondary c));
      ("app_group"%string, debug_str (match app_group c with Some g => g | None => app_name c end));
      ("master_core"%string, core_debug (master_core c));
      ("cores"%string, debug_list (map core_debug (r_cores c)));
      ("mempool"%string, mempool_config_fmt (mempool c));
      ("ports"%string, debug_list (map port_config_fmt (ports c)))]
     ++ match dpdk_args c with Some a => [("dpdk_args"%string, debug_str a)] | None => [] end
     ++ match duration c with Some d => [("duration"%string, fmt_dec (as_secs d) ++ str "s")] | None => [] end).

(** ** The cores of the runtime *)

(** [all_cores] holds the master core, the runtime's cores and the cores of every port,
    each of them once and nothing else, in increasing order. *)
Theorem all_cores_spec c :
  StronglySorted Z.lt (all_cores c)
  /\ forall core, core ∈ all_cores c <->
       core = master_core c \/ core ∈ r_cores c \/ exists p, p ∈ ports c /\ core ∈ p_cores p.
Proof.
  split; [apply distinct_sorted|]. intros core. unfold all_cores. fold (distinct
    ([master_core c] ++ r_cores c ++ concat (map p_cores (ports c)))).
  rewrite distinct_elem, !elem_of_app, list_elem_of_singleton, !list_elem_of_In, in_concat.
  setoid_rewrite in_map_iff. setoid_rewrite list_elem_of_In. firstorder congruence.
Qed.

(** ** The core list *)

Lemma core_list_ports l cores :
  fold_left (fun cores port => fold_left add_core (p_cores port) cores) l cores
  = fold_left add_core (concat (map p_cores l)) cores.
Proof. revert cores. induction l as [|p l IH]; intros cores; [done|]. cbn. by rewrite fold_left_app, IH. Qed.

Lemma contains_char s d : RustStr.contains s [d] = true <-> In d s.
Proof.
  rewrite contains_iff. split.
  - intros (a & b & ->). apply in_or_app. right. by left.
  - intros (a & b & ->)%in_split. by exists a, b.
Qed.

Lemma fmt_dec_digit c : 0 <= c < 10 -> fmt_dec c = [digit_char c].
Proof.
  intros Hc. assert (Hin : In c (seqZ 0 10)) by (apply list_elem_of_In, elem_of_seqZ; lia).
  cbn in Hin. repeat destruct Hin as [<-|Hin]; done.
Qed.

Lemma join_snoc sep l x :
  join sep (l ++ [x]) = match l with [] => x | _ => join sep l ++ sep ++ x end.
Proof.
  induction l as [|y [|z l] IH]; [done..|]. cbn [app join] in *. rewrite IH. by rewrite <- !app_assoc.
Qed.

Lemma in_join sep l d : In d (join sep l) -> In d sep \/ exists x, In x l /\ In d x.
Proof.
  induction l as [|x [|y l] IH]; [done|intros Hd; right; exists x; by split; [left|]|].
  cbn [join] in *. rewrite !in_app_iff. intros [Hx|[Hs|Hl]]; [right; exists x; by split; [left|]|by left|].
  destruct (IH Hl) as [|(z & Hz & Hd)]; [by left|right]. exists z. by split; [right|].
Qed.

Lemma join_in sep l d x : In x l -> In d x -> In d (join sep l).
Proof.
  induction l as [|y [|z l] IH]; [done|by intros [->|[]]|].
  cbn [join] in *. rewrite !in_app_iff. intros [->|Hx] Hd; [by left|]. right. right. by apply IH.
Qed.

Lemma digit_in_list c acc : 0 <= c < 10 -> Forall (fun c => 0 <= c < 10) acc ->
  RustStr.contains (join (str ", ") (map fmt_dec acc)) (fmt_dec c) = true <-> c ∈ acc.
Proof.
  intros Hc Ha. rewrite (fmt_dec_digit c Hc), contains_char, list_elem_of_In. split.
  - intros [Hs|(x & Hx & Hd)]%in_join.
    + assert (E : to_digit 10 (digit_char c) = None) by (destruct Hs as [<-|[<-|[]]]; by vm_compute).
      by rewrite to_digit_char in E by lia.
    + apply in_map_iff in Hx as (c' & <- & Hc'). rewrite Forall_forall in Ha.
      specialize (Ha c'). rewrite list_elem_of_In in Ha. specialize (Ha Hc').
      rewrite fmt_dec_digit in Hd by lia. destruct Hd as [E|[]].
      apply (f_equal (to_digit 10)) in E. rewrite !to_digit_char in E by lia. by injection E as <-.
  - intros Hin. apply (join_in _ _ _ (fmt_dec c)); [by apply in_map|]. rewrite fmt_dec_digit by done. by left.
Qed.

Lemma core_list_loop l acc :
  Forall (fun c => 0 <= c < 10) l -> Forall (fun c => 0 <= c < 10) acc -> NoDup acc ->
  exists acc', fold_left add_core l (join (str ", ") (map fmt_dec acc)) = join (str ", ") (map fmt_dec acc')
  /\ NoDup acc' /\ forall c, c ∈ acc' <-> c ∈ acc \/ c ∈ l.
Proof.
  revert acc. induction l as [|c l IH]; intros acc Hl Ha Hnd.
  { exists acc. split; [done|]. split; [done|]. intros c. by split; [left|intros [|?%not_elem_of_nil]]. }
  apply Forall_cons in Hl as [Hc Hl]. cbn [fold_left]. unfold add_core at 2.
  pose proof (digit_in_list c acc Hc Ha) as Hin. destruct (RustStr.contains _ _); cbn [negb].
  - destruct (IH acc Hl Ha Hnd) as (acc' & E & Hnd' & Hel). exists acc'. split; [done|]. split; [done|].
    intros k. rewrite Hel, elem_of_cons. assert (c ∈ acc) by (by apply Hin). split; [tauto|].
    intros [|[->|]]; [by left|by left|by right].
  - assert (Hn : c ∉ acc) by (intros Hx; by apply Hin in Hx).
    destruct (IH (acc ++ [c]) Hl) as (acc' & E & Hnd' & Hel).
    + apply Forall_app. split; [done|]. apply Forall_cons_2; [done|apply Forall_nil_2].
    + apply NoDup_app. split; [done|]. split; [|by apply NoDup_singleton].
      intros k Hk ->%list_elem_of_singleton. done.
    + exists acc'. split; [|split; [done|]].
      * rewrite <- E. f_equal. rewrite map_app. cbn [map]. rewrite join_snoc.
        destruct acc as [|a acc]; [done|]. cbn [map].
        assert (Hd : In (digit_char a) (join (str ", ") (fmt_dec a :: map fmt_dec acc))).
        { apply Forall_cons in Ha as [Ha _]. apply (join_in _ _ _ (fmt_dec a)); [by left|].
          rewrite fmt_dec_digit by done. by left. }
        by destruct (join (str ", ") (fmt_dec a :: map fmt_dec acc)).
      * intros k. rewrite Hel, elem_of_app, list_elem_of_singleton, elem_of_cons. tauto.
Qed.

(** When the ports' cores are numbered below ten, the core list names each of them exactly
    once. *)
Theorem core_list_small l :
  Forall (fun c => 0 <= c < 10) l ->
  exists acc, core_list l = join (str ", ") (map fmt_dec acc)
  /\ NoDup acc /\ forall c, c ∈ acc <-> c ∈ l.
Proof.
  intros Hl. unfold core_list.
  destruct (core_list_loop l [] Hl) as (acc & E & Hnd & Hel); [apply Forall_nil_2|by apply NoDup_nil|].
  exists acc. split; [done|]. split; [done|]. intros c. rewrite Hel, elem_of_nil. tauto.
Qed.

Lemma core_list_small_witness :
  exists acc, core_list [2; 3; 0; 2; 4] = join (str ", ") (map fmt_dec acc)
  /\ NoDup acc /\ forall c, c ∈ acc <-> c ∈ [2; 3; 0; 2; 4].
Proof.
  apply core_list_small. repeat (apply Forall_cons_2; [lia|]). apply Forall_nil_2.
Defined.

(** A core below ten is lost from the core list when it comes after a core whose number is
    written with its digit: the list is searched for the text of the number. *)
Theorem core_list_loses c :
  10 <= c < 100 -> core_list [c; c `mod` 10] = fmt_dec c /\ core_list [c; c / 10] = fmt_dec c.
Proof.
  intros Hc. assert (H : forallb (fun c => rstr_eqb (core_list [c; c `mod` 10]) (fmt_dec c)
    && rstr_eqb (core_list [c; c / 10]) (fmt_dec c)) (seqZ 10 90) = true) by (by vm_compute).
  rewrite forallb_forall in H. specialize (H c).
  rewrite <- list_elem_of_In, elem_of_seqZ in H. specialize (H ltac:(lia)).
  apply andb_true_iff in H as [H1 H2]. by apply bool_decide_eq_true in H1, H2.
Qed.

Lemma core_list_loses_witness : core_list [12; 2] = str "12" /\ core_list [12; 1] = str "12".
Proof. exact (core_list_loses 12 ltac:(lia)). Defined.

(** ** The test of the EAL arguments *)

(** The configuration of the unit test [config_to_eal_args] *)
Definition test_config : RuntimeConfig := {|
  app_name := str "myapp"; secondary := false; app_group := Some (str "mygroup");
  master_core := 0; r_cores := [1];
  mempool := {| capacity := 255; cache_size := 16 |};
  ports := [
    {| p_name := str "eth0"; p_device := str "0000:00:01.0"; p_args := None; p_cores := [2; 3];
       p_rxd := 32; p_txd := 32; p_promiscuous := false; p_multicast := true; p_kni := false |};
    {| p_name := str "eth1"; p_device := str "net_pcap0"; p_args := Some (str "rx=lo,tx=lo");
       p_cores := [0; 4]; p_rxd := 32; p_txd := 32; p_promiscuous := false; p_multicast := true;
       p_kni := false |}];
  dpdk_args := Some (str "-v --log-level eal:8"); duration := None |}.

(** The arguments the unit test expects, with the core list as a parameter *)
Definition test_args (cores : rstr) : list rstr :=
  map str ["myapp"; "--proc-type"; "primary"; "--file-prefix"; "mygroup"; "--pci-whitelist";
           "0000:00:01.0"; "--vdev"; "net_pcap0,rx=lo,tx=lo"; "--master-lcore"; "0"; "-l"]%string
  ++ [cores] ++ map str ["-v"; "--log-level"; "eal:8"]%string.

(** On the configuration of its unit test [to_eal_args] makes the arguments the test
    expects, except that the core list is the cores of the ports, [2, 3, 0, 4], where the test
    expects the master core alone: the test fails. *)
Theorem to_eal_args_test `{!PcieRegex, !PcieRegexLaws} :
  to_eal_args test_config = test_args (str "2, 3, 0, 4")
  /\ to_eal_args test_config <> test_args (str "0").
Proof.
  assert (E : to_eal_args test_config = test_args (str "2, 3, 0, 4")).
  { unfold to_eal_args. cbn [ports test_config map concat]. unfold port_args. cbn [p_device p_args].
    rewrite !pcie_law by (apply (bool_decide_unpack _); by vm_compute). by vm_compute. }
  split; [done|]. rewrite E. by vm_compute.
Qed.

#[local] Instance pattern_regex : PcieRegex := pcie_pattern.
#[local] Instance pattern_regex_laws : PcieRegexLaws.
Proof. done. Qed.

Lemma to_eal_args_test_witness : to_eal_args test_config = test_args (str "2, 3, 0, 4").
Proof. exact (proj1 to_eal_args_test). Defined.
