(* ===== verification/Deserialize.v ===== *)
(** * Loading the configuration ([config.rs])

    From the text of a configuration file to a [RuntimeConfig]. The TOML parser, the file
    system and the command line are parameters. What [#[derive(Deserialize)]] makes of a
    table is written out from the attributes of the three structures, as serde documents
    it: the entries are visited in order, each known key is read once as its field's type;
    then the fields that were not met take their default, or are missing. *)

From Stdlib Require Import Permutation.
From S2P Require Import Prelude RustStr Config.

(** ** Values and errors *)

#[warnings="-register-all"]
Inductive Value :=
  | VString (s : rstr)
  | VInteger (n : Z)
  | VFloat (text : rstr)
  | VBoolean (b : bool)
  | VDatetime (text : rstr)
  | VArray (l : list Value)
  | VTable (t : list (rstr * Value)).

Abbreviation Table := (list (rstr * Value)).

Inductive de_error :=
  | MissingField (name : rstr)
  | UnknownField (name : rstr)
  | DuplicateField (name : rstr)
  | InvalidType
  | InvalidValue
  | InvalidLength
  | ParseError (text : rstr)
  | IoError (text : rstr).

Abbreviation de A := (result A de_error).

(** [Result::and_then] *)
Definition and_then {A B} (r : de A) (k : A -> de B) : de B :=
  match r with Ok a => k a | Err e => Err e end.

Notation "x ←! r ; k" := (and_then r (fun x => k))
  (at level 20, r at level 100, k at level 200, only parsing) : stdpp_scope.

(** ** The types of the fields *)

Definition de_string (v : Value) : de rstr :=
  match v with VString s => Ok s | _ => Err InvalidType end.

Definition de_bool (v : Value) : de bool :=
  match v with VBoolean b => Ok b | _ => Err InvalidType end.

(** An integer of TOML is signed; [usize] and [u64] take those that are not negative. *)
Definition de_usize (v : Value) : de Z :=
  match v with
  | VInteger n => if 0 <=? n then Ok n else Err InvalidValue
  | _ => Err InvalidType
  end.

Definition de_core_id (v : Value) : de Z := i ←! de_usize v; Ok (deserialize_core_id i).

(** A value that is there is [Some]. *)
Definition de_option {A} (d : Value -> de A) (v : Value) : de (option A) := a ←! d v; Ok (Some a).

Fixpoint de_list {A} (d : Value -> de A) (l : list Value) : de (list A) :=
  match l with
  | [] => Ok []
  | v :: l => a ←! d v; as_ ←! de_list d l; Ok (a :: as_)
  end.

Definition de_vec {A} (d : Value -> de A) (v : Value) : de (list A) :=
  match v with VArray l => de_list d l | _ => Err InvalidType end.

Definition de_duration (v : Value) : de (option Duration) :=
  n ←! de_option de_usize v; Ok (duration_option_from_secs n).

(** ** Derived visitors *)

Fixpoint entry (name : rstr) (t : Table) : option Value :=
  match t with
  | [] => None
  | (k, v) :: t => if rstr_eqb k name then Some v else entry name t
  end.

(** The fields of a structure: their names, and the error of reading a value as one *)
Definition fields : Type := list (rstr * (Value -> option de_error)).

Definition error_of {A} (r : de A) : option de_error :=
  match r with Ok _ => None | Err e => Some e end.

Definition field (name : string) {A} (d : Value -> de A) : rstr * (Value -> option de_error) :=
  (str name, fun v => error_of (d v)).

Fixpoint reader (name : rstr) (fs : fields) : option (Value -> option de_error) :=
  match fs with
  | [] => None
  | (k, d) :: fs => if rstr_eqb k name then Some d else reader name fs
  end.

(** [visit_map]: the first error met, with the fields met so far *)
Fixpoint visit_map (deny_unknown : bool) (fs : fields) (seen : list rstr) (t : Table) : de unit :=
  match t with
  | [] => Ok tt
  | (k, v) :: t =>
      match reader k fs with
      | None => if deny_unknown then Err (UnknownField k) else visit_map deny_unknown fs seen t
      | Some d =>
          if existsb (rstr_eqb k) seen then Err (DuplicateField k)
          else match d v with
               | Some e => Err e
               | None => visit_map deny_unknown fs (k :: seen) t
               end
      end
  end.

(** A field that must be there; [missing] is the error when it is not. *)
Definition required (missing : rstr -> de_error) (name : string) {A} (d : Value -> de A) (t : Table)
    : de A :=
  match entry (str name) t with Some v => d v | None => Err (missing (str name)) end.

(** [#[serde(default)]] and [#[serde(default = "..")]] *)
Definition defaulted (name : string) {A} (d : Value -> de A) (default : A) (t : Table) : de A :=
  match entry (str name) t with Some v => d v | None => Ok default end.

(** [visit_seq]: the elements of an array are the fields in the order of their declaration; an
    array that is too short or too long has an invalid length. *)
Definition positional (fs : fields) (l : list Value) : Table := zip (map fst fs) l.

(** A structure from a value, given how it is built from its fields *)
Definition de_struct (deny_unknown : bool) (fs : fields) {A} (build : (rstr -> de_error) -> Table -> de A)
    (v : Value) : de A :=
  match v with
  | VTable t => _ ←! visit_map deny_unknown fs [] t; build MissingField t
  | VArray l =>
      a ←! build (fun _ => InvalidLength) (positional fs l);
      if (length l <=? length fs)%nat then Ok a else Err InvalidLength
  | _ => Err InvalidType
  end.

(** ** The three structures *)

Definition mempool_fields : fields := [field "capacity" de_usize; field "cache_size" de_usize].

Definition build_mempool (missing : rstr -> de_error) (t : Table) : de MempoolConfig :=
  capacity ←! defaulted "capacity" de_usize default_capacity t;
  cache_size ←! defaulted "cache_size" de_usize default_cache_size t;
  Ok {| capacity := capacity; cache_size := cache_size |}.

Definition deserialize_mempool : Value -> de MempoolConfig :=
  de_struct false mempool_fields build_mempool.

Definition port_fields : fields :=
  [field "name" de_string; field "device" de_string; field "args" (de_option de_string);
   field "cores" (de_vec de_core_id); field "rxd" de_usize; field "txd" de_usize;
   field "promiscuous" de_bool; field "multicast" de_bool; field "kni" de_bool].

Definition build_port (missing : rstr -> de_error) (t : Table) : de PortConfig :=
  name ←! required missing "name" de_string t;
  device ←! required missing "device" de_string t;
  args ←! defaulted "args" (de_option de_string) None t;
  cores ←! required missing "cores" (de_vec de_core_id) t;
  rxd ←! defaulted "rxd" de_usize default_port_rxd t;
  txd ←! defaulted "txd" de_usize default_port_txd t;
  promiscuous ←! defaulted "promiscuous" de_bool false t;
  multicast ←! defaulted "multicast" de_bool default_multicast_mode t;
  kni ←! defaulted "kni" de_bool false t;
  Ok {| p_name := name; p_device := device; p_args := args; p_cores := cores; p_rxd := rxd;
        p_txd := txd; p_promiscuous := promiscuous; p_multicast := multicast; p_kni := kni |}.

Definition deserialize_port : Value -> de PortConfig := de_struct false port_fields build_port.

Definition runtime_fields : fields :=
  [field "app_name" de_string; field "secondary" de_bool; field "app_group" (de_option de_string);
   field "master_core" de_core_id; field "cores" (de_vec de_core_id);
   field "mempool" deserialize_mempool; field "ports" (de_vec deserialize_port);
   field "dpdk_args" (de_option de_string); field "duration" de_duration].

Definition build_runtime (missing : rstr -> de_error) (t : Table) : de RuntimeConfig :=
  app_name ←! required missing "app_name" de_string t;
  secondary ←! defaulted "secondary" de_bool false t;
  app_group ←! defaulted "app_group" (de_option de_string) None t;
  master_core ←! required missing "master_core" de_core_id t;
  cores ←! defaulted "cores" (de_vec de_core_id) [] t;
  mempool ←! defaulted "mempool" deserialize_mempool mempool_config_default t;
  ports ←! required missing "ports" (de_vec deserialize_port) t;
  dpdk_args ←! defaulted "dpdk_args" (de_option de_string) None t;
  duration ←! defaulted "duration" de_duration None t;
  Ok {| app_name := app_name; secondary := secondary; app_group := app_group;
        master_core := master_core; r_cores := cores; mempool := mempool; ports := ports;
        dpdk_args := dpdk_args; duration := duration |}.

Definition deserialize_runtime : Value -> de RuntimeConfig := de_struct true runtime_fields build_runtime.

(** ** [load_config] *)

Class Sources := {
  value_of_file : option rstr;
  read_to_string : rstr -> result rstr rstr;
  toml_table : rstr -> result Table rstr;
}.

(** The command line has the file: [clap] ends the program when it has not. *)
Definition load_config `{Sources} : outcome (de RuntimeConfig) :=
  match value_of_file with
  | None => Panic UnwrapFailed
  | Some path => Ret (
      content ←! map_err IoError (read_to_string path);
      t ←! map_err ParseError (toml_table content);
      deserialize_runtime (VTable t))
  end.

(** ** What the visitors accept *)

Definition known (fs : fields) (k : rstr) : bool :=
  match reader k fs with Some _ => true | None => false end.

Definition known_keys (fs : fields) (t : Table) : list rstr := List.filter (known fs) (map fst t).

Definition entry_fits (deny_unknown : bool) (fs : fields) (kv : rstr * Value) : Prop :=
  match reader (fst kv) fs with
  | Some d => d (snd kv) = None
  | None => deny_unknown = false
  end.

Lemma existsb_elem k seen : existsb (rstr_eqb k) seen = true <-> k ∈ seen.
Proof.
  rewrite existsb_exists. setoid_rewrite rstr_eqb_iff. setoid_rewrite <- list_elem_of_In.
  split; [by intros (? & ? & ->)|by exists k].
Qed.

(** The visit succeeds exactly when each entry fits its field and no field is met twice. *)
Lemma visit_map_ok deny fs t : forall seen, visit_map deny fs seen t = Ok tt <->
  Forall (entry_fits deny fs) t /\ NoDup (known_keys fs t) /\
  forall k, k ∈ known_keys fs t -> k ∉ seen.
Proof.
  unfold known_keys. induction t as [|[k v] t IH]; intros seen; cbn [visit_map map fst List.filter].
  { split; [|done]. intros _. split; [apply Forall_nil_2|]. split; [apply NoDup_nil_2|].
    by intros k ?%not_elem_of_nil. }
  rewrite Forall_cons. unfold entry_fits at 1. cbn [fst snd].
  assert (known fs k = match reader k fs with Some _ => true | None => false end) as -> by done.
  destruct (reader k fs) as [d|].
  - rewrite NoDup_cons. destruct (existsb (rstr_eqb k) seen) eqn:Es.
    + apply existsb_elem in Es. split; [done|]. intros (_ & _ & Hs). destruct (Hs k); [by left|done].
    + assert (k ∉ seen) as Hk by (rewrite <- existsb_elem; congruence).
      destruct (d v) as [e|]; [split; [done|by intros [[? _] _]]|]. rewrite IH.
      setoid_rewrite not_elem_of_cons. split.
      * intros (Hf & Hn & Hs). split; [done|]. split; [split; [|done]|].
        -- intros Hin. by destruct (Hs k Hin).
        -- intros k' [->|Hk']%elem_of_cons; [done|]. by destruct (Hs k' Hk').
      * intros ([_ Hf] & [Hn Hnd] & Hs). split; [done|]. split; [done|]. intros k' Hk'.
        split; [by intros ->|]. apply Hs. by right.
  - destruct deny; [split; [done|by intros [[? _] _]]|]. rewrite IH. intuition.
Qed.

Lemma entry_elem fs name t v : known fs name = true -> NoDup (known_keys fs t) ->
  entry name t = Some v <-> (name, v) ∈ t.
Proof.
  unfold known_keys. intros Hk. induction t as [|[k w] t IH]; cbn [entry map fst List.filter].
  { intros _. split; [done|by intros ?%not_elem_of_nil]. }
  intros Hn. rewrite elem_of_cons. destruct (rstr_eqb k name) eqn:E.
  - apply rstr_eqb_iff in E as ->. rewrite Hk in Hn. apply NoDup_cons in Hn as [Hn _]. split.
    + intros [= ->]. by left.
    + intros [[= ->]|Hin]; [done|]. destruct Hn. apply list_elem_of_In, filter_In.
      split; [|done]. apply in_map_iff. exists (name, v). split; [done|by apply list_elem_of_In].
  - assert (k <> name) by (rewrite <- rstr_eqb_iff; congruence).
    rewrite IH by (destruct (known fs k); [by apply NoDup_cons in Hn as [_ ?]|done]).
    split; [by right|]. intros [[= -> _]|?]; [done|done].
Qed.

(** Two tables with the same entries in another order *)
Lemma entry_perm fs name t t' : known fs name = true -> NoDup (known_keys fs t) -> t ≡ₚ t' ->
  entry name t = entry name t'.
Proof.
  intros Hk Hn Hp.
  assert (NoDup (known_keys fs t')) as Hn'.
  { unfold known_keys in *. by rewrite <- Hp. }
  destruct (entry name t) as [v|] eqn:E.
  - apply (entry_elem fs) in E; [|done..]. symmetry. apply (entry_elem fs); [done..|]. by rewrite <- Hp.
  - destruct (entry name t') as [v|] eqn:E'; [|done].
    apply (entry_elem fs) in E'; [|done..]. rewrite <- Hp in E'. apply (entry_elem fs) in E'; [|done..].
    congruence.
Qed.

Lemma visit_map_perm deny fs t t' : t ≡ₚ t' ->
  visit_map deny fs [] t = Ok tt -> visit_map deny fs [] t' = Ok tt.
Proof.
  intros Hp (Hf & Hn & _)%visit_map_ok. apply visit_map_ok. unfold known_keys in *.
  rewrite Hp in Hf, Hn. split; [done|]. split; [done|]. by intros k _ ?%not_elem_of_nil.
Qed.

(** The settings of the runtime as a function of its entries alone *)
Lemma build_runtime_ext missing t t' :
  (forall name, known runtime_fields name = true -> entry name t = entry name t') ->
  build_runtime missing t = build_runtime missing t'.
Proof.
  intros H. unfold build_runtime, required, defaulted.
  rewrite !(H (str _)) by (by vm_compute). done.
Qed.

(** ** A configuration written out *)

Definition optional {A} (name : string) (enc : A -> Value) (o : option A) : Table :=
  match o with Some a => [(str name, enc a)] | None => [] end.

Definition mempool_value (m : MempoolConfig) : Value :=
  VTable [(str "capacity", VInteger (capacity m)); (str "cache_size", VInteger (cache_size m))].

Definition port_value (p : PortConfig) : Value :=
  VTable ([(str "name", VString (p_name p)); (str "device", VString (p_device p))]
    ++ optional "args" VString (p_args p)
    ++ [(str "cores", VArray (map VInteger (p_cores p)));
        (str "rxd", VInteger (p_rxd p)); (str "txd", VInteger (p_txd p));
        (str "promiscuous", VBoolean (p_promiscuous p));
        (str "multicast", VBoolean (p_multicast p)); (str "kni", VBoolean (p_kni p))]).

Definition runtime_table (c : RuntimeConfig) : Table :=
  [(str "app_name", VString (app_name c)); (str "secondary", VBoolean (secondary c))]
  ++ optional "app_group" VString (app_group c)
  ++ [(str "master_core", VInteger (master_core c)); (str "cores", VArray (map VInteger (r_cores c)));
      (str "mempool", mempool_value (mempool c)); (str "ports", VArray (map port_value (ports c)))]
  ++ optional "dpdk_args" VString (dpdk_args c)
  ++ optional "duration" (fun d => VInteger (as_secs d)) (duration c).

Record port_ok (p : PortConfig) : Prop := {
  po_cores : Forall (fun c => 0 <= c) (p_cores p);
  po_sizes : 0 <= p_rxd p /\ 0 <= p_txd p;
}.

Record config_ok (c : RuntimeConfig) : Prop := {
  co_cores : Forall (fun c => 0 <= c) (master_core c :: r_cores c);
  co_mempool : 0 <= capacity (mempool c) /\ 0 <= cache_size (mempool c);
  co_ports : Forall port_ok (ports c);
  co_duration : match duration c with Some d => 0 < as_secs d | None => True end;
}.

Lemma de_usize_run n : 0 <= n -> de_usize (VInteger n) = Ok n.
Proof. intros. unfold de_usize. by rewrite (proj2 (Z.leb_le 0 n)). Qed.

Lemma de_core_run n : 0 <= n -> de_core_id (VInteger n) = Ok n.
Proof. intros. unfold de_core_id. by rewrite de_usize_run. Qed.

Lemma de_vec_run {A} (d : Value -> de A) enc l :
  Forall (fun a => d (enc a) = Ok a) l -> de_vec d (VArray (map enc l)) = Ok l.
Proof. cbn. induction 1 as [|a l Ha _ IH]; [done|]. cbn. by rewrite Ha, IH. Qed.

Lemma de_cores_run l : Forall (fun c => 0 <= c) l -> de_vec de_core_id (VArray (map VInteger l)) = Ok l.
Proof. intros Hl. apply de_vec_run. eapply Forall_impl; [exact Hl|]. apply de_core_run. Qed.

Lemma entry_fits_field deny fs k v {A} (d : Value -> de A) a :
  reader k fs = Some (fun v => error_of (d v)) -> d v = Ok a -> entry_fits deny fs (k, v).
Proof. intros Hr Hd. unfold entry_fits. cbn [fst snd]. by rewrite Hr, Hd. Qed.

(** The visit of a table of known entries, each once *)
Lemma visit_all deny fs t : Forall (entry_fits deny fs) t -> NoDup (known_keys fs t) ->
  visit_map deny fs [] t = Ok tt.
Proof.
  intros Hf Hn. apply visit_map_ok. split; [done|]. split; [done|]. by intros k _ ?%not_elem_of_nil.
Qed.

Lemma entry_here name v t : entry name ((name, v) :: t) = Some v.
Proof. cbn [entry]. by rewrite (proj2 (rstr_eqb_iff name name) eq_refl). Qed.

Lemma entry_there k name v t : rstr_eqb k name = false -> entry name ((k, v) :: t) = entry name t.
Proof. cbn [entry]. by intros ->. Qed.

(** Looks the fields up in a table that is written out. *)
Ltac read_entries :=
  cbn [app optional];
  repeat first [rewrite entry_here | rewrite entry_there by (by vm_compute)
               | match goal with |- context [entry ?n []] => change (entry n []) with (@None Value) end];
  cbv iota.

Ltac entries := repeat (apply Forall_cons_2; [eapply entry_fits_field; [reflexivity|]|]); try apply Forall_nil_2.
Ltac distinct_keys := apply (bool_decide_unpack _); by vm_compute.

Lemma mempool_value_read m : 0 <= capacity m -> 0 <= cache_size m ->
  deserialize_mempool (mempool_value m) = Ok m.
Proof.
  intros H1 H2. unfold deserialize_mempool, de_struct, mempool_value. rewrite visit_all.
  - cbn [and_then]. unfold build_mempool, defaulted.
    read_entries. rewrite !de_usize_run by done. by destruct m.
  - entries; by apply de_usize_run.
  - distinct_keys.
Qed.

Lemma port_value_read p : port_ok p -> deserialize_port (port_value p) = Ok p.
Proof.
  intros [Hc [Hr Ht]]. destruct p as [name device args cores rxd txd prom multi kni]. cbn in Hc, Hr, Ht.
  unfold deserialize_port, de_struct, port_value. cbn [p_name p_device p_args p_cores p_rxd p_txd
    p_promiscuous p_multicast p_kni]. rewrite visit_all.
  - cbn [and_then]. unfold build_port, required, defaulted.
    destruct args as [a|]; read_entries; rewrite de_cores_run, !de_usize_run by done; done.
  - destruct args; entries; try done; by first [apply de_cores_run|apply de_usize_run].
  - destruct args; distinct_keys.
Qed.

Lemma runtime_table_visited c : config_ok c ->
  visit_map true runtime_fields [] (runtime_table c) = Ok tt.
Proof.
  intros [Hc [Hm1 Hm2] Hp Hd]. apply Forall_cons in Hc as [Hmc Hc]. unfold runtime_table, optional.
  apply visit_all.
  - assert (de_vec deserialize_port (VArray (map port_value (ports c))) = Ok (ports c)) as Eports.
    { apply de_vec_run. eapply Forall_impl; [exact Hp|]. apply port_value_read. }
    destruct (app_group c), (dpdk_args c), (duration c) as [d|]; entries; try done.
    all: first [by apply de_core_run|by apply de_cores_run|by apply mempool_value_read|exact Eports|idtac].
    all: unfold de_duration, de_option; rewrite de_usize_run by lia; done.
  - destruct (app_group c), (dpdk_args c), (duration c); distinct_keys.
Qed.

Lemma de_duration_run d : 0 < as_secs d -> de_duration (VInteger (as_secs d)) = Ok (Some d).
Proof.
  intros Hd. unfold de_duration, de_option. rewrite de_usize_run by lia.
  cbn. rewrite (proj2 (Z.ltb_lt 0 _) Hd). by destruct d.
Qed.

Lemma runtime_read_back c t : config_ok c -> t ≡ₚ runtime_table c ->
  deserialize_runtime (VTable t) = Ok c.
Proof.
  intros Hok Hp. pose proof (runtime_table_visited c Hok) as Hv.
  unfold deserialize_runtime, de_struct. rewrite (visit_map_perm _ _ (runtime_table c)) by done.
  cbn [and_then]. apply visit_map_ok in Hv as (_ & Hn & _).
  rewrite (build_runtime_ext MissingField t (runtime_table c)).
  2: { intros name Hk. symmetry. by apply (entry_perm runtime_fields). }
  destruct Hok as [Hc [Hm1 Hm2] Hports Hd]. apply Forall_cons in Hc as [Hmc Hc].
  assert (de_vec deserialize_port (VArray (map port_value (ports c))) = Ok (ports c)) as Eports.
  { apply de_vec_run. eapply Forall_impl; [exact Hports|]. apply port_value_read. }
  unfold build_runtime, required, defaulted, runtime_table. destruct c as [name sec group master cores mp ps args dur].
  cbn [app_name secondary app_group master_core r_cores mempool ports dpdk_args duration] in *.
  destruct group, args, dur; read_entries;
    rewrite de_core_run, de_cores_run, mempool_value_read, Eports, ?de_duration_run by done; done.
Qed.

(** C15: A file whose text parses to the settings of a configuration, in whatever order they
    stand, loads as that configuration. *)
Theorem config_read_back `{Sources} c path content t :
  value_of_file = Some path -> read_to_string path = Ok content -> toml_table content = Ok t ->
  config_ok c -> t ≡ₚ runtime_table c ->
  load_config = Ret (Ok c).
Proof.
  intros Hf Hr Ht Hc Hp. unfold load_config. rewrite Hf, Hr. cbn [map_err and_then]. rewrite Ht.
  cbn [map_err and_then]. by rewrite (runtime_read_back c t).
Qed.

Lemma and_then_ok {A B} (r : de A) (k : A -> de B) b : and_then r k = Ok b -> exists a, r = Ok a /\ k a = Ok b.
Proof. destruct r as [a|e]; [|done]. intros E. by exists a. Qed.

(** C26: Only complete tables of known keys load: when the settings are accepted every key of the
    table is one of the nine, none is there twice, the name of the application, the master
    core and the ports are given, and the table loads alike in any other order. In a port's
    table, where unknown keys are not refused, such a key changes nothing: a misspelt setting
    silently keeps its default. *)
Theorem settings_checked t c : deserialize_runtime (VTable t) = Ok c ->
  (forall k v, (k, v) ∈ t -> known runtime_fields k = true) /\ NoDup (map fst t) /\
  (forall name, name ∈ map str ["app_name"; "master_core"; "ports"]%string -> is_Some (entry name t)) /\
  (forall t', t ≡ₚ t' -> deserialize_runtime (VTable t') = Ok c) /\
  (forall k v pt p, known port_fields k = false -> deserialize_port (VTable pt) = Ok p ->
   deserialize_port (VTable ((k, v) :: pt)) = Ok p).
Proof.
  intros E. pose proof E as (u & Hv & Hb)%and_then_ok. destruct u.
  pose proof Hv as (Hf & Hn & _)%visit_map_ok.
  assert (forall k v, (k, v) ∈ t -> known runtime_fields k = true) as Hk.
  { intros k v Hin. pose proof (proj1 (Forall_forall _ _) Hf _ Hin) as H1. unfold entry_fits, known in *.
    cbn [fst snd] in H1. by destruct (reader k runtime_fields). }
  split; [done|]. split; [|split; [|split]].
  - assert (known_keys runtime_fields t = map fst t) as <-; [|done]. unfold known_keys.
    clear -Hk. induction t as [|[k v] t IH]; [done|]. cbn. rewrite (Hk k v) by (by left).
    f_equal. apply IH. intros k' v' Hin. apply (Hk k' v'). by right.
  - intros name Hname. unfold build_runtime in Hb.
    assert (forall m (A : Type) (d : Value -> de A) a, required MissingField m d t = Ok a -> is_Some (entry (str m) t)) as Hr.
    { intros m A d a Hr. unfold required in Hr. by destruct (entry (str m) t). }
    apply and_then_ok in Hb as (? & H1%Hr & Hb). do 2 (apply and_then_ok in Hb as (? & _ & Hb)).
    apply and_then_ok in Hb as (? & H2%Hr & Hb). do 2 (apply and_then_ok in Hb as (? & _ & Hb)).
    apply and_then_ok in Hb as (? & H3%Hr & _). cbn [map] in Hname.
    rewrite !elem_of_cons in Hname. destruct Hname as [->|[->|[->|Hname]]]; try done.
    by apply not_elem_of_nil in Hname.
  - intros t' Hp. unfold deserialize_runtime, de_struct. rewrite (visit_map_perm _ _ t t') by done.
    cbn [and_then]. rewrite <- Hb. symmetry. apply build_runtime_ext.
    intros name Hname. by apply (entry_perm runtime_fields).
  - intros k v pt p Hunknown Hp. unfold deserialize_port, de_struct in *.
    assert (reader k port_fields = None) as Hnone.
    { unfold known in Hunknown. by destruct (reader k port_fields). }
    cbn [visit_map]. rewrite Hnone. apply and_then_ok in Hp as (u & -> & Hp). cbn [and_then].
    rewrite <- Hp. unfold build_port, required, defaulted.
    rewrite !(entry_there k (str _)); [done|..]; destruct (rstr_eqb k _) eqn:Ek; try done;
      apply rstr_eqb_iff in Ek; by subst k.
Qed.

(** ** The unit test of the defaults, and a whole file *)

Definition test_table : Table :=
  [(str "app_name", VString (str "myapp")); (str "master_core", VInteger 0);
   (str "ports", VArray [VTable [(str "name", VString (str "eth0"));
      (str "device", VString (str "0000:00:01.0")); (str "cores", VArray [VInteger 2; VInteger 3])]])].

(** What the test [config_defaults] asserts of the configuration *)
Definition config_defaults (c : RuntimeConfig) : bool :=
  negb (secondary c) && bool_decide (app_group c = None) && bool_decide (r_cores c = [])
  && bool_decide (dpdk_args c = None)
  && (capacity (mempool c) =? default_capacity) && (cache_size (mempool c) =? default_cache_size)
  && match ports c with
     | p :: _ => bool_decide (p_args p = None) && (p_rxd p =? default_port_rxd) && (p_txd p =? default_port_txd)
         && negb (p_promiscuous p) && Bool.eqb (p_multicast p) default_multicast_mode && negb (p_kni p)
     | [] => false
     end.

Example config_defaults_pass :
  match deserialize_runtime (VTable test_table) with Ok c => config_defaults c | Err _ => false end = true.
Proof. by vm_compute. Qed.

(** The ports must be given, but there may be none. *)
Example no_ports : is_ok (deserialize_runtime (VTable
  [(str "app_name", VString (str "myapp")); (str "master_core", VInteger 0); (str "ports", VArray [])])) = true.
Proof. by vm_compute. Qed.

Example negative_core : deserialize_runtime (VTable
  [(str "app_name", VString (str "myapp")); (str "master_core", VInteger (-1)); (str "ports", VArray [])])
  = Err InvalidValue.
Proof. by vm_compute. Qed.

(** A file system of one file, whose text stands for the configuration of [config.rs]'s test *)
#[local] Instance one_file : Sources := {|
  value_of_file := Some (str "config.toml");
  read_to_string path := if rstr_eqb path (str "config.toml") then Ok (str "app_name = ..") else Err (str "not found");
  toml_table _ := Ok (rev (runtime_table test_config));
|}.

Lemma test_config_ok : config_ok test_config.
Proof.
  split; cbn; try done.
  - repeat (apply Forall_cons_2; [lia|]). apply Forall_nil_2.
  - repeat apply Forall_cons_2; [| |apply Forall_nil_2]; (split; [|done]);
      repeat (apply Forall_cons_2; [cbn; lia|]); apply Forall_nil_2.
Qed.

Lemma config_read_back_witness : load_config = Ret (Ok test_config).
Proof.
  apply (config_read_back test_config (str "config.toml") (str "app_name = ..") (rev (runtime_table test_config))).
  - reflexivity.
  - by vm_compute.
  - reflexivity.
  - exact test_config_ok.
  - symmetry. apply Permutation_rev.
Defined.

Lemma settings_checked_witness :
  (forall k v, (k, v) ∈ rev (runtime_table test_config) -> known runtime_fields k = true) /\
  NoDup (map fst (rev (runtime_table test_config))) /\
  (forall name, name ∈ map str ["app_name"; "master_core"; "ports"]%string ->
   is_Some (entry name (rev (runtime_table test_config)))) /\
  (forall t', rev (runtime_table test_config) ≡ₚ t' -> deserialize_runtime (VTable t') = Ok test_config) /\
  (forall k v pt p, known port_fields k = false -> deserialize_port (VTable pt) = Ok p ->
   deserialize_port (VTable ((k, v) :: pt)) = Ok p).
Proof.
  apply (settings_checked (rev (runtime_table test_config)) test_config).
  apply runtime_read_back; [exact test_config_ok|symmetry; apply Permutation_rev].
Defined.
